(* ===== verification/_CoqProject ===== *)
-Q . S2P
Prelude.v
PyDict.v
PyBytes.v
Field.v
Lagrange.v
Shamir.v
Secrecy.v
Sha256.v
Kdf.v
Crypto.v
Masks.v
Drafts.v
Wire.v
State.v
Aggregate.v
FedAvg.v
Keys.v
Bridge.v
Frame.v
Invariant.v
Server.v
DraftBridge.v
Client.v
Baselines.v
Flower.v
Metrics.v
Experiment.v
Sweeps.v
Benchmarks.v
DraftBenchmarks.v
Workflow.v
Dependencies.v
Text.v
PatchTexts.v
CTexts.v
PyTexts.v
Patches.v
PatchFacts.v
Scripts.v
ScriptFacts.v
KeySetup.v
Completion.v
DraftBridgeFacts.v
Variants.v
Effects.v
Emission.v
Async.v
AsyncBridge.v
AsyncFacts.v
AsyncGuard.v
AsyncServer.v
AsyncDelivery.v
AsyncWaits.v
AsyncRound.v
AsyncStream.v
Protocol.v
Refinement.v
AsyncRefinement.v
