(* ===== verification/Prelude.v ===== *)
(** * SwiftAgg: the Python host, verified

    The program aggregates model updates from small devices without seeing
    them in the clear.  A bridge server (host_server/protocol_bridge.py, with
    a classical twin in host_server/baseline_server.py) collects masked model
    chunks over TCP, sets up shared secrets with a KEM, averages the chunks in
    GF(3329), and is meant to recover the masks of devices that drop out from
    Shamir shares.  A Flower strategy (host_server/flower_server.py) chunks
    models, a mock client (host_server/mock_client.py) plays a device, and the
    scripts under experiments/ start these programs and log measurements.  The
    scripts of the root directory rewrite and patch these files; two of them
    hold whole earlier versions of the bridge and of its recovery module.

    ** How the program is modelled

    Fallible code returns a [result] (this file) whose error is the Python
    exception; code that changes objects runs in the monad [M], whose state
    survives an exception.  Dictionaries are association lists in insertion
    order (PyDict), byte strings are lists of integers (PyBytes), integers are
    unbounded as in Python and the widths of [struct] formats, [bytes] and
    [to_bytes] are checked where the code checks them.  Packages outside the
    repository are parameters: [CryptoLib] with the laws [CryptoLaws],
    [AeadLaws] and [HkdfLaw] (Crypto, Baselines), and [FlowerLib] with
    [FlowerLaws] for numpy and Flower (Flower); each has a concrete instance on
    which the theorems are evaluated.  The network, the clock, [os.urandom] and
    child processes are explicit arguments.

    protocol_bridge.py and shamir_recovery.py hold an unresolved merge
    conflict.  Both sides are modelled: HEAD's in the modules [Head] and
    [HeadBridge], the other in [Incoming] and [IncomingBridge].  Files that do
    not parse as they stand (an unindented method, a line break in a string)
    are read as their text is evidently meant; the manifest lists each place.

    ** Files

    - Prelude, PyDict, PyBytes: exceptions, [M] and its rules ([preserves],
      [triple]), dictionaries, [struct].
    - Field, Lagrange, Shamir: shamir_recovery.py's arithmetic and both
      versions of [reconstruct_secret]; the sharing of experiments/baselines.py.
      [eqp] is equality in GF(3329); [ring] and [field] work up to it.
    - Secrecy: what fewer shares than the threshold say about the secret.
    - Sha256, Kdf, Crypto, Masks: HMAC-SHA256 and HKDF as the code writes them
      out, the third-party operations, mask expansion and mask recovery.
    - Wire: headers, ROUND_INIT, telemetry.
    - State, Aggregate, FedAvg: the bridge's records; unmasking and averaging;
      the specification ([fedavg_sum], [weight_sum], [weighted_means]), when both
      sides of the conflict implement it, and what they store when they do not.
    - Keys, Bridge, Server: key setup, recovery, every message handler, the
      dispatchers, and the connection loop of the three bridges.
    - Invariant, KeySetup, Completion, Variants: the bridge invariant
      [bridge_wf] and that every handler keeps it, what key setup and recovery
      do, the completed round, and the three bridge classes.  [Aggregator] is
      the interface between a handler and the aggregation it calls:
      [AggregatorLaws] states what the handlers' proofs need of it and each
      bridge discharges it.
    - Frame, Effects, Emission: what a handler may change of a round and of the
      network ([same_data], [progress], [quiet], [changes]), and what the three
      bridges write to their connections.
    - Async, AsyncBridge: coroutines, and the methods that await [drain] as
      coroutines; [AsyncBridge.dispatch_async] is the dispatcher.  AsyncFacts
      proves that a coroutine that is never kept waiting is the handler of
      Keys and Bridge.
    - AsyncServer: a [Host] is a bridge and one suspended handler per
      connection; [fire] is what the event loop can do next.  AsyncGuard,
      AsyncDelivery, AsyncWaits and AsyncRound hold the rely/guarantee rules,
      what a suspended handler still promises, how often it waits, and completed
      rounds.
    - AsyncStream: hosts whose connections are byte streams that arrive in
      pieces; what it does is a schedule of whole messages.
    - Protocol, Refinement, AsyncRefinement: the abstract aggregation protocol
      (finite maps of sessions changed by [receive], and the sessions [decided]
      that may [publish]), the abstraction [abs] of a bridge, and that hosts
      implement the protocol.  [decided] is the specification's own: it has no
      counterpart in the bridge.
    - Drafts, DraftBridge, DraftBridgeFacts, DraftBenchmarks: the earlier
      recovery module, bridges and benchmark runner that phase3_fixes.py,
      update_task5.py and create_phase4.py write, on the same records and
      helpers, compared with the later ones.
    - Client, Baselines, Flower: the mock client and how it fits the classical
      bridge, the classical baselines, the Flower strategy.
    - Metrics, Experiment, Sweeps, Benchmarks, Workflow, Dependencies: the
      metrics logger, processes and rounds, the sweep scripts and their driver,
      the benchmark matrix, the workflow's state machine, the git commands of
      scripts/init_deps.py.
    - Text, PatchTexts, CTexts, PyTexts, Patches, Scripts, PatchFacts,
      ScriptFacts: [str.replace] and its kin, string literals and newline
      translation; the texts of the patch scripts; the scripts that edit files
      (Patches) and those that replace them (Scripts) as programs on a disk;
      what they do to the tree.  The default
      encoding and [os.linesep] are the class [Platform].

    ** What is proved

    - Arithmetic: Shamir reconstruction and sharing are inverse, reduction and
      derivations are right up to the stated bounds, HKDF is RFC 5869; fewer
      shares than the threshold are consistent with every secret.
    - The server under any schedule: with handlers interrupted at every await,
      exceptions and lost connections, HEAD's bridge implements the abstract
      protocol - sessions change as the messages say, and a result is only ever
      published in a session decided when all survivors had completed and were
      as many as the threshold; the three bridges keep their invariant, every
      write is one header and payload, and bytes that arrive in any pieces are
      dispatched as the messages of a peer that, like the bridge, sends no
      authentication tags.  A round that other handlers leave alone completes
      after at most [wait_bound] waits and reaches every client; a client that
      registers during the broadcast ends it.  The sequential model is the
      schedules in which no handler waits.
    - The handlers one by one: framing; the weighted mean, when the clients that
      count all have samples or all have none, and what a client without
      samples does to it otherwise; key setup; what completes a round and what prevents it (recovery never succeeds, so a
      dropout blocks a round).
    - The earlier versions: the aggregate of the earlier bridge, that the
      pairwise passes added since do nothing, how far the Barrett-based
      reconstruction is exact and that on bytes it agrees with the classical
      one, and that update_task5.py's bridge never answers.
    - The patch scripts: the key-stream repairs do what they say and are
      idempotent, the edits of kem_adapter.c apply exactly once, but not after
      apply_batch3.py; what the batches leave of a tree, and where they stop when
      the platform's encoding does not decode the bridge; an example lists the
      generated files that arrive broken because of an undoubled backslash.
    - Protocol edges: byte orders and offsets that do not agree, tags that are
      read as headers, masks that are empty, secrets that two parties derive
      differently.
    - Flower: chunking is lossless on 16-bit integers; the mean, and the sum
      that is returned instead when example counts coincide.
    - Experiments: every configuration runs once and in order, processes are
      signalled (and never waited for) or leaked, and no measurement reaches the
      disk; the workflow starts its bridge, follows the protocol's states and
      never detects a dropout.

    ** Fuel

    [hkdf_expand] has one unit per output byte and needs one per 32; the
    connection loop, the client's loop and the telemetry reader have one per
    byte of input and consume 16 per message.  More fuel changes nothing: that
    is part of the theorem on [hkdf_expand] and of [serve_terminates] for the
    bridges, and is [client_loop_fuel] and [telemetry_loop_fuel] for the others.

    ** What is not modelled

    Printing (except in Dependencies), sockets, the framework's own loops;
    pandas plots; the C firmware, which the patch scripts handle as text; the
    tests and create_tests.py, which writes two of them; IEEE rounding (floats
    are exact rationals in Metrics and Benchmarks).  The schedules are all
    sequences of events: that the event loop is fair, and when [drain] really
    waits, is not part of the model. *)

From Stdlib Require Import ZArith Lia.
From stdpp Require Export prelude strings.

#[global] Open Scope Z_scope.

(** ** Python exceptions and fallible results *)

(** The exceptions the modelled code raises or lets escape.  [LibError] is any
    exception of a package that is not in the repository, and [Diverges]
    stands for a loop whose fuel ran out: it is never a Python exception, and
    the theorems about a loop show that it does not occur. *)
Inductive exn : Type :=
  | ValueError
  | IndexError
  | KeyError
  | StructError
  | OverflowError
  | ZeroDivisionError
  | RuntimeError
  | NameError (name : string)
  | AttributeError (name : string)
  | IncompleteReadError
  | ConnectionResetError
  | FileNotFoundError
  | UnicodeDecodeError
  | LibError (code : Z)
  | Diverges.

#[export] Instance exn_eq_dec : EqDecision exn.
Proof. solve_decision. Defined.

Inductive result (A : Type) : Type :=
  | Ok (a : A)
  | Err (e : exn).
Arguments Ok {A} a.
Arguments Err {A} e.

#[export] Instance result_eq_dec {A} `{EqDecision A} : EqDecision (result A).
Proof. solve_decision. Defined.

#[export] Instance result_ret : MRet result := @Ok.
#[export] Instance result_bind : MBind result :=
  fun A B f r => match r with Ok a => f a | Err e => Err e end.

Lemma result_bind_ok {A B} (a : A) (f : A -> result B) : (Ok a ≫= f) = f a.
Proof. done. Qed.

Lemma result_bind_err {A B} e (f : A -> result B) : (Err e ≫= f) = Err e.
Proof. done. Qed.

Create HintDb result_db.
#[export] Hint Rewrite @result_bind_ok @result_bind_err : result_db.

(** Runs the binds whose outcome is known. *)
Ltac run := autorewrite with result_db.

Definition is_ok {A} (r : result A) : bool :=
  match r with Ok _ => true | Err _ => false end.

(** A Python [raise] guarded by a condition. *)
Definition guard_err (b : bool) (e : exn) : result unit :=
  if b then Ok tt else Err e.

(** The sequential [for] that builds a list and stops at the first exception. *)
Fixpoint map_result {A B} (f : A -> result B) (l : list A) : result (list B) :=
  match l with
  | [] => Ok []
  | x :: l' => y ← f x; ys ← map_result f l'; Ok (y :: ys)
  end.

(** The accumulating [for] over a list, with exceptions. *)
Fixpoint fold_result {A B} (f : A -> B -> result A) (l : list B) (a : A) : result A :=
  match l with
  | [] => Ok a
  | x :: l' => a' ← f a x; fold_result f l' a'
  end.

(** ** State that survives exceptions

    A Python method mutates objects and may raise in the middle: the
    mutations made before the exception stay. *)
Definition M (S A : Type) : Type := S -> result A * S.

#[export] Instance M_ret {S} : MRet (M S) := fun A a s => (Ok a, s).
#[export] Instance M_bind {S} : MBind (M S) :=
  fun A B f m s =>
    match m s with
    | (Ok a, s') => f a s'
    | (Err e, s') => (Err e, s')
    end.

Definition gets {S A} (f : S -> A) : M S A := fun s => (Ok (f s), s).
Definition modify {S} (f : S -> S) : M S unit := fun s => (Ok tt, f s).
Definition raise {S A} (e : exn) : M S A := fun s => (Err e, s).
Definition lift {S A} (r : result A) : M S A := fun s => (r, s).
Definition skip {S} : M S unit := fun s => (Ok tt, s).

(** [for x in l: body(x)] over an effectful body. *)
Fixpoint for_each {S B} (l : list B) (body : B -> M S unit) : M S unit :=
  match l with
  | [] => skip
  | x :: l' => body x ≫= fun _ => for_each l' body
  end.

Definition exec {S A} (m : M S A) (s : S) : S := snd (m s).
Definition outcome {S A} (m : M S A) (s : S) : result A := fst (m s).

(** Rewriting a bind over a known outcome. *)
Lemma M_bind_ok {S A B} (m : M S A) (f : A -> M S B) s a s' :
  m s = (Ok a, s') -> (m ≫= f) s = f a s'.
Proof. intros H. unfold mbind, M_bind. by rewrite H. Qed.

Lemma M_bind_err {S A B} (m : M S A) (f : A -> M S B) s e s' :
  m s = (Err e, s') -> (m ≫= f) s = (Err e, s').
Proof. intros H. unfold mbind, M_bind. by rewrite H. Qed.

Lemma M_bind_ext {S A B} (m m' : M S A) (f f' : A -> M S B) s :
  m s = m' s -> (forall a s', m' s = (Ok a, s') -> f a s' = f' a s') -> (m ≫= f) s = (m' ≫= f') s.
Proof. intros Hm Hf. unfold mbind, M_bind. rewrite Hm. destruct (m' s) as [[a|e] s']; auto. Qed.

Lemma M_bind_assoc {S A B C} (m : M S A) (f : A -> M S B) (g : B -> M S C) s :
  ((m ≫= f) ≫= g) s = (m ≫= fun a => f a ≫= g) s.
Proof. unfold mbind, M_bind. by destruct (m s) as [[a|e] s']. Qed.

(** A predicate on states kept by a computation, whether or not it raises. *)
Definition preserves {S A} (P : S -> Prop) (m : M S A) : Prop :=
  forall s, P s -> P (exec m s).

Lemma preserves_ret {S A} (P : S -> Prop) (a : A) : preserves P (mret a).
Proof. by intros s. Qed.

Lemma preserves_skip {S} (P : S -> Prop) : preserves P skip.
Proof. by intros s. Qed.

Lemma preserves_raise {S A} (P : S -> Prop) e : preserves P (@raise S A e).
Proof. by intros s. Qed.

Lemma preserves_lift {S A} (P : S -> Prop) (r : result A) : preserves P (lift r).
Proof. by intros s. Qed.

Lemma preserves_gets {S A} (P : S -> Prop) (f : S -> A) : preserves P (gets f).
Proof. by intros s. Qed.

Lemma preserves_modify {S} (P : S -> Prop) (f : S -> S) :
  (forall s, P s -> P (f s)) -> preserves P (modify f).
Proof. intros H s Hs. by apply H. Qed.

Lemma preserves_bind {S A B} (P : S -> Prop) (m : M S A) (f : A -> M S B) :
  preserves P m -> (forall a, preserves P (f a)) -> preserves P (m ≫= f).
Proof.
  intros Hm Hf s Hs. specialize (Hm s Hs). unfold exec, mbind, M_bind in *.
  destruct (m s) as [[a|e] s']; [by apply Hf|done].
Qed.

(** Same, when the continuation may use what the first part established. *)
Lemma preserves_bind_gets {S A B} (P : S -> Prop) (g : S -> A) (f : A -> M S B) :
  (forall s, P s -> P (exec (f (g s)) s)) -> preserves P (gets g ≫= f).
Proof. intros H s Hs. by apply (H s Hs). Qed.

Lemma preserves_for_each {S B} (P : S -> Prop) (l : list B) (body : B -> M S unit) :
  (forall x, x ∈ l -> preserves P (body x)) -> preserves P (for_each l body).
Proof.
  induction l as [|x l IH]; intros H; [apply preserves_skip|].
  simpl. apply preserves_bind; [apply H; left|].
  intros _. apply IH. intros y Hy. apply H. by right.
Qed.

Create HintDb preserves_db.
#[export] Hint Resolve preserves_ret preserves_skip preserves_raise preserves_lift
  preserves_gets preserves_modify preserves_bind preserves_for_each : preserves_db.

(** Walks down a method that keeps a predicate: [leaf] proves its statements,
    and the rules above its binds, loops and branches. *)
Ltac keeps_walk leaf :=
  repeat first
    [ solve [leaf tt]
    | apply preserves_for_each; intros ? _
    | apply preserves_bind; [|intros ?]
    | case_match ].

Lemma for_each_ext {S B} (l : list B) (f g : B -> M S unit) s :
  (forall x s, f x s = g x s) -> for_each l f s = for_each l g s.
Proof.
  intros H. revert s. induction l as [|x l IH]; intros s; [done|].
  cbn [for_each]. by apply M_bind_ext.
Qed.

Lemma map_result_ok {A B} (f : A -> result B) (l : list A) (ys : list B) :
  map_result f l = Ok ys <-> Forall2 (fun x y => f x = Ok y) l ys.
Proof.
  revert ys. induction l as [|x l IH]; intros ys; simpl.
  - split; [intros [= <-]; constructor|by inversion 1].
  - unfold mbind, result_bind. destruct (f x) as [y|e] eqn:E.
    + destruct (map_result f l) as [zs|e'].
      * split.
        -- intros [= <-]. constructor; [done|]. by apply IH.
        -- inversion 1 as [|? y' ? zs' Hy Hzs]; subst. rewrite E in Hy. injection Hy as <-.
           apply IH in Hzs. by injection Hzs as <-.
      * split; [done|]. inversion 1 as [|? y' ? zs' Hy Hzs]; subst.
        apply IH in Hzs. done.
    + split; [done|]. inversion 1; congruence.
Qed.

Lemma map_result_length {A B} (f : A -> result B) (l : list A) (ys : list B) :
  map_result f l = Ok ys -> length ys = length l.
Proof. intros H. apply map_result_ok in H. symmetry. by eapply Forall2_length. Qed.

Lemma map_result_pure {A B} (f : A -> result B) (g : A -> B) (l : list A) :
  (forall x, x ∈ l -> f x = Ok (g x)) -> map_result f l = Ok (g <$> l).
Proof.
  induction l as [|x l IH]; intros H; [done|]. simpl.
  rewrite H by left. unfold mbind at 1, result_bind.
  rewrite IH; [done|]. intros y Hy. apply H. by right.
Qed.

Lemma fold_result_inv {A B} (P : A -> Prop) (f : A -> B -> result A) l a a' :
  P a -> (forall x b c, x ∈ l -> P b -> f b x = Ok c -> P c) ->
  fold_result f l a = Ok a' -> P a'.
Proof.
  revert a. induction l as [|x l IH]; intros a Ha Hf; simpl.
  - by intros [= <-].
  - unfold mbind, result_bind. destruct (f a x) as [c|e] eqn:E; [|done].
    apply IH; [by eapply Hf; [left|..]|]. intros y b d Hy. apply Hf. by right.
Qed.

Lemma fold_result_ext {A B} (f g : A -> B -> result A) l a :
  (forall a x, f a x = g a x) -> fold_result f l a = fold_result g l a.
Proof.
  intros H. revert a. induction l as [|x l IH]; intros a; [done|]. cbn [fold_result]. rewrite H.
  destruct (g a x); run; [apply IH|done].
Qed.

Lemma fold_left_ext {A B} (f g : A -> B -> A) (l : list B) (a : A) :
  (forall a b, f a b = g a b) -> fold_left f l a = fold_left g l a.
Proof. intros H. revert a. induction l as [|x l IH]; intros a; simpl; [done|]. by rewrite H. Qed.

Lemma fold_left_inv {A B} (P : A -> Prop) (f : A -> B -> A) (l : list B) (a : A) :
  P a -> (forall a b, P a -> P (f a b)) -> P (fold_left f l a).
Proof. intros Ha Hf. revert a Ha. induction l as [|x l IH]; intros a Ha; simpl; auto. Qed.

Lemma map_result_ext {A B} (f g : A -> result B) l :
  (forall x, x ∈ l -> f x = g x) -> map_result f l = map_result g l.
Proof.
  induction l as [|x l IH]; intros H; [done|]. simpl. rewrite H by left.
  rewrite IH; [done|]. intros y Hy. apply H. by right.
Qed.

Lemma map_result_fmap {A B C} (f : B -> result C) (g : A -> B) l :
  map_result f (g <$> l) = map_result (fun x => f (g x)) l.
Proof. induction l as [|x l IH]; [done|]. rewrite fmap_cons. cbn [map_result]. by rewrite IH. Qed.

(** The first element to raise decides the exception. *)
Lemma map_result_raises {A B} (f : A -> result B) (l : list A) e :
  (forall x, x ∈ l -> (exists y, f x = Ok y) \/ f x = Err e) ->
  (exists x, x ∈ l /\ f x = Err e) -> map_result f l = Err e.
Proof.
  induction l as [|x l IH]; intros Hall [z [Hz Hf]]; [set_solver|]. simpl.
  destruct (Hall x ltac:(left)) as [[y Hy]|Hy]; rewrite Hy; run; [|done].
  rewrite IH; [done|intros w Hw; apply Hall; by right|].
  exists z. split; [|done]. apply elem_of_cons in Hz as [->|]; [congruence|done].
Qed.

Lemma nth_lookup_Some' {A} (l : list A) i d : (i < length l)%nat -> l !! i = Some (nth i l d).
Proof. intros H. destruct (nth_lookup_or_length l i d); [done|lia]. Qed.

Lemma filter_ext_in {A} (p q : A -> bool) (l : list A) :
  (forall x, x ∈ l -> p x = q x) -> filter (fun x => p x) l = filter (fun x => q x) l.
Proof.
  induction l as [|x l IH]; intros H; [done|]. rewrite !filter_cons, (H x) by left.
  rewrite IH by (intros; apply H; by right). done.
Qed.

Lemma lift_ok_bind {S A B} (a : A) (f : A -> M S B) : (lift (Ok a) ≫= f) = f a.
Proof. reflexivity. Qed.

(** ** Triples

    From a state in [P], the computation returns in [Q] or raises in [E]. *)
Definition triple {S A} (P : S -> Prop) (m : M S A) (Q : A -> S -> Prop) (E : exn -> S -> Prop) : Prop :=
  forall s, P s -> match m s with (Ok a, s') => Q a s' | (Err e, s') => E e s' end.

Lemma triple_bind {S A B} P (R : A -> S -> Prop) Q E (m : M S A) (f : A -> M S B) :
  triple P m R E -> (forall a, triple (R a) (f a) Q E) -> triple P (m ≫= f) Q E.
Proof.
  intros Hm Hf s Hs. specialize (Hm s Hs). unfold mbind, M_bind.
  destruct (m s) as [[a|e] s']; [by apply Hf|done].
Qed.

Lemma triple_conseq {S A} (P P' : S -> Prop) (Q Q' : A -> S -> Prop) (E E' : exn -> S -> Prop) m :
  triple P m Q E -> (forall s, P' s -> P s) -> (forall a s, Q a s -> Q' a s) ->
  (forall e s, E e s -> E' e s) -> triple P' m Q' E'.
Proof.
  intros Hm HP HQ HE s Hs. specialize (Hm s (HP s Hs)). destruct (m s) as [[a|e] s']; auto.
Qed.

Lemma triple_skip {S} (P : S -> Prop) E : triple P skip (fun _ => P) E.
Proof. by intros s Hs. Qed.

Lemma triple_gets {S A} (P : S -> Prop) (g : S -> A) E :
  triple P (gets g) (fun a s => P s /\ a = g s) E.
Proof. by intros s Hs. Qed.

Lemma triple_modify {S} (P Q : S -> Prop) (f : S -> S) E :
  (forall s, P s -> Q (f s)) -> triple P (modify f) (fun _ => Q) E.
Proof. intros H s Hs. by apply H. Qed.

(** A loop, with an invariant that knows the elements already visited. *)
Lemma triple_for_each {S B} (I : list B -> S -> Prop) E (l : list B) (body : B -> M S unit) :
  (forall visited x rest, l = visited ++ x :: rest ->
     triple (I visited) (body x) (fun _ => I (visited ++ [x])) E) ->
  triple (I []) (for_each l body) (fun _ => I l) E.
Proof.
  intros H.
  enough (forall rest visited, l = visited ++ rest ->
            triple (I visited) (for_each rest body) (fun _ => I l) E) as G by by apply (G l []).
  induction rest as [|x rest IH]; intros visited Hl.
  - rewrite app_nil_r in Hl. subst. apply triple_skip.
  - cbn [for_each]. eapply triple_bind; [by eapply H|]. intros u. apply IH.
    by rewrite <- app_assoc.
Qed.

Lemma filter_bool_cons {A} (p : A -> bool) x l :
  filter (fun y => p y) (x :: l) =
  if p x then x :: filter (fun y => p y) l else filter (fun y => p y) l.
Proof. rewrite filter_cons. by destruct (p x). Qed.
