(* ===== verification/PyDict.v ===== *)
(** * Insertion-ordered dictionaries

    Python's [dict] iterates in insertion order and an assignment to an
    existing key keeps its position, so a dict is an association list whose
    keys are distinct.  [dict_get] is [d.get(k)], [dict_set] is [d[k] = v]. *)

From Stdlib Require Import ZArith Lia.
From stdpp Require Import prelude strings.
From S2P Require Import Prelude.

Section Dict.
Context {K V : Type} {Keq : EqDecision K}.
Implicit Types (d : list (K * V)) (k : K) (v : V).

Fixpoint dict_get k d : option V :=
  match d with
  | [] => None
  | (k', v) :: d' => if decide (k = k') then Some v else dict_get k d'
  end.

Fixpoint dict_set k v d : list (K * V) :=
  match d with
  | [] => [(k, v)]
  | (k', v') :: d' => if decide (k = k') then (k', v) :: d' else (k', v') :: dict_set k v d'
  end.

Definition dict_mem k d : bool :=
  match dict_get k d with Some _ => true | None => false end.

Definition dict_keys d : list K := fst <$> d.
Definition dict_values d : list V := snd <$> d.

(** [d[k]]: a missing key raises. *)
Definition dict_index k d : result V :=
  match dict_get k d with Some v => Ok v | None => Err KeyError end.

Lemma dict_get_set_eq k v d : dict_get k (dict_set k v d) = Some v.
Proof.
  induction d as [|[k' v'] d IH]; simpl; [by rewrite decide_True|].
  case_decide; simpl; [by rewrite decide_True|by rewrite decide_False].
Qed.

Lemma dict_get_set_ne k k' v d : k <> k' -> dict_get k' (dict_set k v d) = dict_get k' d.
Proof.
  intros Hne. induction d as [|[k1 v1] d IH]; simpl.
  - by rewrite decide_False.
  - repeat case_decide; simpl; subst; repeat case_decide; congruence.
Qed.

Lemma dict_get_set k k' v d :
  dict_get k' (dict_set k v d) = if decide (k = k') then Some v else dict_get k' d.
Proof.
  case_decide; subst; [apply dict_get_set_eq|by apply dict_get_set_ne].
Qed.

Lemma dict_get_elem k v d : dict_get k d = Some v -> (k, v) ∈ d.
Proof.
  induction d as [|[k1 v1] d IH]; simpl; [done|].
  case_decide; [intros [= ->]; subst; left|intros Hd; right; by apply IH].
Qed.

Lemma dict_get_None k d : dict_get k d = None <-> k ∉ dict_keys d.
Proof.
  induction d as [|[k1 v1] d IH]; simpl; [split; [set_solver|done]|].
  rewrite not_elem_of_cons. case_decide; subst; [split; [done|by intros []]|].
  rewrite IH. split; [by intros|by intros []].
Qed.

Lemma dict_get_is_Some k d : is_Some (dict_get k d) <-> k ∈ dict_keys d.
Proof.
  rewrite <- not_eq_None_Some, dict_get_None.
  destruct (decide (k ∈ dict_keys d)); naive_solver.
Qed.

Lemma dict_elem_get k v d : NoDup (dict_keys d) -> (k, v) ∈ d -> dict_get k d = Some v.
Proof.
  induction d as [|[k1 v1] d IH]; simpl; [set_solver|].
  intros [Hn Hd]%NoDup_cons [?|Hin]%elem_of_cons; simplify_eq.
  - by rewrite decide_True.
  - rewrite decide_False; [by apply IH|].
    intros ->. apply Hn. apply list_elem_of_fmap. by exists (k1, v).
Qed.

Lemma dict_keys_set_in k v d : k ∈ dict_keys d -> dict_keys (dict_set k v d) = dict_keys d.
Proof.
  induction d as [|[k1 v1] d IH]; simpl; [set_solver|].
  intros Hin. case_decide; subst; simpl; [done|].
  f_equal. apply IH. by apply elem_of_cons in Hin as [|].
Qed.

Lemma dict_keys_set_notin k v d :
  k ∉ dict_keys d -> dict_keys (dict_set k v d) = dict_keys d ++ [k].
Proof.
  induction d as [|[k1 v1] d IH]; simpl; [done|].
  intros [Hne Hin]%not_elem_of_cons. rewrite decide_False by done. simpl.
  f_equal. by apply IH.
Qed.

Lemma dict_keys_set_NoDup k v d : NoDup (dict_keys d) -> NoDup (dict_keys (dict_set k v d)).
Proof.
  intros H. destruct (decide (k ∈ dict_keys d)) as [Hin|Hin].
  - by rewrite dict_keys_set_in.
  - rewrite dict_keys_set_notin by done. apply NoDup_app. split; [done|].
    split; [set_solver|apply NoDup_singleton].
Qed.

Lemma dict_elem_of_keys_set k k' v d :
  k' ∈ dict_keys (dict_set k v d) <-> k' = k \/ k' ∈ dict_keys d.
Proof.
  destruct (decide (k ∈ dict_keys d)).
  - rewrite dict_keys_set_in by done. naive_solver.
  - rewrite dict_keys_set_notin by done. set_solver.
Qed.

Lemma dict_set_length_in k v d : k ∈ dict_keys d -> length (dict_set k v d) = length d.
Proof.
  intros H. apply dict_keys_set_in with (v := v) in H.
  apply (f_equal length) in H. unfold dict_keys in H. by rewrite !length_fmap in H.
Qed.

Lemma dict_set_elem k v d k' v' : (k', v') ∈ dict_set k v d -> (k', v') = (k, v) \/ (k', v') ∈ d.
Proof.
  induction d as [|[k1 v1] d IH]; simpl; [set_solver|].
  case_decide; subst; set_solver.
Qed.

Lemma dict_set_Forall (P : K -> V -> Prop) k v d :
  P k v -> (forall k' v', (k', v') ∈ d -> P k' v') ->
  forall k' v', (k', v') ∈ dict_set k v d -> P k' v'.
Proof.
  intros Hp Hd k' v' H. apply dict_set_elem in H as [[= -> ->]|H]; auto.
Qed.

Lemma dict_index_ok k d v : dict_index k d = Ok v <-> dict_get k d = Some v.
Proof. unfold dict_index. destruct (dict_get k d); naive_solver. Qed.

Lemma dict_set_same k v d : dict_get k d = Some v -> dict_set k v d = d.
Proof.
  induction d as [|[k1 v1] d IH]; simpl; [done|].
  case_decide; [by intros [= ->]|]. intros Hd. f_equal. by apply IH.
Qed.
Lemma dict_set_fmap (f : K -> V) k v (l : list K) :
  NoDup l -> k ∈ l ->
  dict_set k v ((fun i => (i, f i)) <$> l) = (fun i => (i, if decide (i = k) then v else f i)) <$> l.
Proof.
  induction l as [|i l IH]; [set_solver|]. intros [Hi Hl]%NoDup_cons Hk.
  rewrite !fmap_cons. cbn [dict_set]. destruct (decide (k = i)) as [->|Hne].
  - rewrite decide_True by done. f_equal. apply list_fmap_ext. intros n j Hj.
    rewrite decide_False; [done|]. intros ->. apply Hi. by eapply list_elem_of_lookup_2.
  - rewrite decide_False by done. f_equal. apply IH; [done|].
    by apply elem_of_cons in Hk as [|].
Qed.

Lemma dict_get_fmap (f : K -> V) k (l : list K) :
  k ∈ l -> dict_get k ((fun i => (i, f i)) <$> l) = Some (f k).
Proof.
  induction l as [|i l IH]; [set_solver|]. intros Hk. rewrite fmap_cons. cbn [dict_get].
  destruct (decide (k = i)) as [->|]; [done|]. apply IH. by apply elem_of_cons in Hk as [|].
Qed.

Lemma dict_set_snoc k v d : k ∉ dict_keys d -> dict_set k v d = d ++ [(k, v)].
Proof.
  induction d as [|[k' v'] d IH]; intros Hk; [done|].
  unfold dict_keys in Hk. rewrite fmap_cons in Hk. apply not_elem_of_cons in Hk as [Hne Hk].
  cbn [dict_set app]. rewrite decide_False by done. f_equal. by apply IH.
Qed.

Lemma dict_get_filter (P : K -> Prop) `{forall k, Decision (P k)} k d :
  P k -> dict_get k (filter (fun p => P (fst p)) d) = dict_get k d.
Proof.
  intros HP. induction d as [|[k' v'] d IH]; [done|]. rewrite filter_cons. cbn [fst].
  case_decide; cbn [dict_get]; destruct (decide (k = k')) as [->|]; naive_solver.
Qed.

Lemma dict_filter_NoDup (P : K * V -> Prop) `{forall p, Decision (P p)} d :
  NoDup (dict_keys d) -> NoDup (dict_keys (filter P d)).
Proof.
  intros Hd. eapply sublist_NoDup; [exact Hd|]. apply fmap_sublist, sublist_filter.
Qed.
(** The loop that fills a dictionary from distinct keys. *)
Lemma fold_dict_set {B} (key : B -> K) (f : B -> result V) (val : B -> V) (l : list B) acc :
  (forall x, x ∈ l -> f x = Ok (val x)) -> NoDup (key <$> l) ->
  (forall x, x ∈ l -> key x ∉ dict_keys acc) ->
  fold_result (fun acc x => v ← f x; Ok (dict_set (key x) v acc)) l acc =
  Ok (acc ++ ((fun x => (key x, val x)) <$> l)).
Proof.
  revert acc. induction l as [|x l IH]; intros acc Hf Hnd Hacc; cbn [fold_result].
  - by rewrite app_nil_r.
  - rewrite fmap_cons in Hnd. apply NoDup_cons in Hnd as [Hx Hnd].
    rewrite Hf by left. run. rewrite dict_set_snoc by (apply Hacc; left).
    rewrite IH; [by rewrite <- app_assoc| |done|].
    + intros y Hy. apply Hf. by right.
    + intros y Hy. unfold dict_keys. rewrite fmap_app. apply not_elem_of_app. split.
      * apply Hacc. by right.
      * intros Hin. apply list_elem_of_singleton in Hin. simpl in Hin. apply Hx.
        rewrite <- Hin. by apply list_elem_of_fmap_2.
Qed.
Lemma dict_set_set k v w d : dict_set k w (dict_set k v d) = dict_set k w d.
Proof.
  induction d as [|[k' v'] d IH]; cbn [dict_set]; [by rewrite decide_True|].
  case_decide; cbn [dict_set]; [by rewrite decide_True|]. rewrite decide_False by done. by rewrite IH.
Qed.
End Dict.

Lemma dict_get_map_values {K V W} `{EqDecision K} (f : V -> W) (k : K) (d : list (K * V)) :
  dict_get k ((fun p => (fst p, f (snd p))) <$> d) = f <$> dict_get k d.
Proof.
  induction d as [|[k' v] d IH]; [done|]. rewrite fmap_cons. cbn [dict_get fst snd].
  by case_decide.
Qed.

Lemma dict_keys_map_values {K V W} (f : V -> W) (d : list (K * V)) :
  dict_keys ((fun p => (fst p, f (snd p))) <$> d) = dict_keys d.
Proof. unfold dict_keys. rewrite <- list_fmap_compose. by apply list_fmap_ext. Qed.

Create HintDb dict_db.
#[export] Hint Resolve dict_get_set_eq dict_keys_set_NoDup dict_get_elem : dict_db.
#[export] Hint Rewrite @dict_get_set_eq : dict_db.
