(* ===== verification/PyBytes.v ===== *)
(** * Bytes, integers on the wire, and the struct module

    A [bytes] object is a list of integers between 0 and 255.  The struct
    formats the program uses are big-endian sequences of the codes [B], [H],
    [I] and [h]; packing an out-of-range item or the wrong number of items
    raises [struct.error], and so does unpacking a buffer of the wrong size. *)

From Stdlib Require Import ZArith Lia.
From stdpp Require Import prelude strings.
From S2P Require Import Prelude.

Abbreviation bytes := (list Z).

Definition is_byte (b : Z) : Prop := 0 <= b < 256.
Definition is_bytes (bs : bytes) : Prop := Forall is_byte bs.

#[export] Instance is_byte_dec b : Decision (is_byte b).
Proof. unfold is_byte. apply _. Defined.

(** [bytes([x, ...])]: an item outside 0..255 raises [ValueError]. *)
Definition bytes_of_ints (l : list Z) : result bytes :=
  if decide (Forall is_byte l) then Ok l else Err ValueError.

(** [bytes(n)]: n zero bytes. *)
Definition zero_bytes (n : nat) : bytes := replicate n 0.

(** [l[i]] for an index that is not negative. *)
Definition list_index {A} (l : list A) (i : nat) : result A :=
  match l !! i with Some x => Ok x | None => Err IndexError end.

(** ** Fixed-width big-endian integers *)

Fixpoint be_encode (n : nat) (v : Z) : bytes :=
  match n with
  | O => []
  | S n' => be_encode n' (v / 256) ++ [v mod 256]
  end.

Definition be_decode (bs : bytes) : Z := fold_left (fun acc b => acc * 256 + b) bs 0.

(** [v.to_bytes(n, 'big')] *)
Definition int_to_bytes (n : nat) (v : Z) : result bytes :=
  if decide (0 <= v < 2 ^ (8 * Z.of_nat n)) then Ok (be_encode n v) else Err OverflowError.

(** [int.from_bytes(bs, 'big')] *)
Definition int_from_bytes (bs : bytes) : Z := be_decode bs.

Lemma be_encode_length n v : length (be_encode n v) = n.
Proof.
  revert v. induction n as [|n IH]; intros v; [done|].
  simpl. rewrite length_app, IH. simpl. lia.
Qed.

Lemma be_encode_is_bytes n v : is_bytes (be_encode n v).
Proof.
  revert v. induction n as [|n IH]; intros v; [constructor|].
  simpl. apply Forall_app. split; [apply IH|].
  repeat constructor; apply Z.mod_pos_bound; lia.
Qed.

Lemma be_decode_snoc bs b : be_decode (bs ++ [b]) = be_decode bs * 256 + b.
Proof. unfold be_decode. by rewrite fold_left_app. Qed.

Lemma pow256_succ n : 2 ^ (8 * Z.of_nat (S n)) = 256 * 2 ^ (8 * Z.of_nat n).
Proof.
  replace (8 * Z.of_nat (S n)) with (8 + 8 * Z.of_nat n) by lia.
  rewrite Z.pow_add_r by lia. done.
Qed.

Lemma be_decode_encode n v : 0 <= v < 2 ^ (8 * Z.of_nat n) -> be_decode (be_encode n v) = v.
Proof.
  revert v. induction n as [|n IH]; intros v Hv.
  - simpl in *. change (2 ^ 0) with 1 in Hv. unfold be_decode. simpl. lia.
  - rewrite pow256_succ in Hv. simpl. rewrite be_decode_snoc, IH.
    + pose proof (Z.div_mod v 256). lia.
    + split; [apply Z.div_pos; lia|apply Z.div_lt_upper_bound; lia].
Qed.

Lemma be_decode_range bs : is_bytes bs -> 0 <= be_decode bs < 2 ^ (8 * Z.of_nat (length bs)).
Proof.
  induction bs as [|b bs IH] using rev_ind; intros H.
  - unfold be_decode. simpl. lia.
  - unfold is_bytes in *; rewrite Forall_app in H; destruct H as [H Hb]. rewrite Forall_singleton in Hb. unfold is_byte in Hb.
    specialize (IH H). rewrite be_decode_snoc, length_app. cbn [length].
    replace (length bs + 1)%nat with (S (length bs)) by lia. rewrite pow256_succ.
    revert IH. generalize (2 ^ (8 * Z.of_nat (length bs))), (be_decode bs). lia.
Qed.

Lemma be_encode_decode bs : is_bytes bs -> be_encode (length bs) (be_decode bs) = bs.
Proof.
  induction bs as [|b bs IH] using rev_ind; intros H; [done|].
  unfold is_bytes in *; rewrite Forall_app in H; destruct H as [H Hb]. rewrite Forall_singleton in Hb. unfold is_byte in Hb.
  rewrite length_app, be_decode_snoc. simpl.
  replace (length bs + 1)%nat with (S (length bs)) by lia. simpl.
  assert (Hq : (be_decode bs * 256 + b) / 256 = be_decode bs).
  { symmetry. apply (Z.div_unique _ _ _ b); lia. }
  assert (Hr : (be_decode bs * 256 + b) mod 256 = b).
  { symmetry. apply (Z.mod_unique _ _ (be_decode bs)); lia. }
  rewrite Hq, Hr, IH by done. done.
Qed.

Lemma int_to_bytes_ok n v bs :
  int_to_bytes n v = Ok bs -> length bs = n /\ is_bytes bs /\ int_from_bytes bs = v.
Proof.
  unfold int_to_bytes. case_decide; [|done]. intros [= <-].
  split; [apply be_encode_length|]. split; [apply be_encode_is_bytes|].
  by apply be_decode_encode.
Qed.

(** ** Little-endian pairs: [lo | (hi << 8)] *)

Definition le16 (lo hi : Z) : Z := Z.lor lo (Z.shiftl hi 8).

Lemma lor_shift_add lo hi k :
  0 <= k -> 0 <= lo < 2 ^ k -> 0 <= hi -> Z.lor lo (Z.shiftl hi k) = lo + hi * 2 ^ k.
Proof.
  intros Hk Hlo Hhi. rewrite Z.shiftl_mul_pow2 by done.
  rewrite <- Z.add_nocarry_lor; [done|].
  apply Z.bits_inj'. intros n Hn. rewrite Z.land_spec, Z.bits_0.
  destruct (Z.ltb_spec n k).
  - by rewrite Z.mul_pow2_bits_low, andb_false_r.
  - assert (Hb : Z.testbit lo n = false); [|by rewrite Hb].
    destruct (decide (lo = 0)) as [->|]; [by rewrite Z.bits_0|].
    apply Z.bits_above_log2; [lia|].
    apply Z.log2_lt_pow2; [lia|]. eapply Z.lt_le_trans; [apply Hlo|].
    apply Z.pow_le_mono_r; lia.
Qed.

Lemma le16_add lo hi : is_byte lo -> is_byte hi -> le16 lo hi = lo + 256 * hi.
Proof.
  unfold is_byte, le16. intros Hl Hh. rewrite lor_shift_add by lia. simpl. lia.
Qed.

Lemma le16_byte_range lo hi : is_byte lo -> is_byte hi -> 0 <= le16 lo hi < 65536.
Proof. intros Hl Hh. rewrite le16_add by done. unfold is_byte in *. lia. Qed.

(** ** The struct module *)

Inductive code := CB | CH | CI | Ch.

#[export] Instance code_eq_dec : EqDecision code.
Proof. solve_decision. Defined.

Definition code_size (c : code) : nat :=
  match c with CB => 1 | CH => 2 | CI => 4 | Ch => 2 end.

(** The values a code can carry. *)
Definition code_range (c : code) (v : Z) : Prop :=
  match c with
  | CB => 0 <= v < 2 ^ 8
  | CH => 0 <= v < 2 ^ 16
  | CI => 0 <= v < 2 ^ 32
  | Ch => - 2 ^ 15 <= v < 2 ^ 15
  end.

#[export] Instance code_range_dec c v : Decision (code_range c v).
Proof. destruct c; simpl; apply _. Defined.

(** The two's complement of a signed code. *)
Definition code_wrap (c : code) (v : Z) : Z :=
  match c with Ch => v mod 2 ^ 16 | _ => v end.

Definition code_unwrap (c : code) (u : Z) : Z :=
  match c with Ch => if decide (u < 2 ^ 15) then u else u - 2 ^ 16 | _ => u end.

Definition calcsize (fs : list code) : nat := sum_list (code_size <$> fs).

Lemma calcsize_cons c fs : calcsize (c :: fs) = (code_size c + calcsize fs)%nat.
Proof. done. Qed.

(** [struct.pack(">...", *vs)] *)
Fixpoint struct_pack (fs : list code) (vs : list Z) : result bytes :=
  match fs, vs with
  | [], [] => Ok []
  | c :: fs', v :: vs' =>
      _ ← guard_err (bool_decide (code_range c v)) StructError;
      rest ← struct_pack fs' vs';
      Ok (be_encode (code_size c) (code_wrap c v) ++ rest)
  | _, _ => Err StructError
  end.

Fixpoint unpack_fields (fs : list code) (bs : bytes) : list Z :=
  match fs with
  | [] => []
  | c :: fs' =>
      code_unwrap c (be_decode (take (code_size c) bs))
        :: unpack_fields fs' (drop (code_size c) bs)
  end.

(** [struct.unpack(">...", bs)] *)
Definition struct_unpack (fs : list code) (bs : bytes) : result (list Z) :=
  if decide (length bs = calcsize fs) then Ok (unpack_fields fs bs) else Err StructError.

Lemma code_unwrap_wrap c v : code_range c v -> code_unwrap c (code_wrap c v) = v.
Proof.
  destruct c; simpl; try done. intros H. change (2 ^ 15) with 32768 in *.
  change (2 ^ 16) with 65536 in *. change (2 ^ 15) with 32768.
  destruct (decide (0 <= v)).
  - rewrite Z.mod_small by lia. rewrite decide_True by lia. done.
  - replace (v mod 65536) with (v + 65536) by (apply (Z.mod_unique _ _ (-1)); lia).
    rewrite decide_False by lia. lia.
Qed.

Lemma code_wrap_range c v : code_range c v -> 0 <= code_wrap c v < 2 ^ (8 * Z.of_nat (code_size c)).
Proof.
  destruct c; simpl; try (change (8 * 1) with 8); try (change (8 * 2) with 16);
    try (change (8 * 4) with 32); try done.
  intros _. apply Z.mod_pos_bound. lia.
Qed.

Lemma code_unwrap_range c u :
  0 <= u < 2 ^ (8 * Z.of_nat (code_size c)) ->
  code_range c (code_unwrap c u) /\ code_wrap c (code_unwrap c u) = u.
Proof.
  destruct c; simpl; try done. change (8 * 2) with 16.
  change (2 ^ 16) with 65536. change (2 ^ 15) with 32768.
  intros H. case_decide.
  - split; [lia|]. apply Z.mod_small. lia.
  - split; [lia|]. symmetry. apply (Z.mod_unique _ _ (-1)); lia.
Qed.

Lemma struct_pack_ok fs vs bs :
  struct_pack fs vs = Ok bs ->
  Forall2 code_range fs vs /\ length bs = calcsize fs /\ is_bytes bs.
Proof.
  revert vs bs. induction fs as [|c fs IH]; intros [|v vs] bs; simpl; try done.
  - intros [= <-]. split; [constructor|]. split; [done|constructor].
  - unfold guard_err, mbind, result_bind. case_bool_decide as Hc; [|done].
    destruct (struct_pack fs vs) as [rest|] eqn:E; [|done]. intros [= <-].
    destruct (IH vs rest E) as (Hf & Hl & Hb). split; [by constructor|].
    split; [rewrite length_app, be_encode_length, Hl; done|].
    apply Forall_app. split; [apply be_encode_is_bytes|done].
Qed.

(** Packing succeeds exactly on one in-range item per code. *)
Lemma struct_pack_success fs vs : Forall2 code_range fs vs -> exists bs, struct_pack fs vs = Ok bs.
Proof.
  induction 1 as [|c v fs vs Hc Hf [bs IH]]; [by eexists|].
  simpl. rewrite bool_decide_true by done. simpl.
  unfold mbind, result_bind. simpl. rewrite IH. by eexists.
Qed.

Lemma struct_pack_fails fs vs : ~ Forall2 code_range fs vs -> struct_pack fs vs = Err StructError.
Proof.
  revert vs. induction fs as [|c fs IH]; intros [|v vs] H; simpl; try done.
  - by destruct H.
  - unfold guard_err, mbind, result_bind. case_bool_decide as Hc; [|done].
    rewrite IH; [done|]. intros Hf. apply H. by constructor.
Qed.

Lemma struct_unpack_pack fs vs bs : struct_pack fs vs = Ok bs -> struct_unpack fs bs = Ok vs.
Proof.
  intros H. pose proof (struct_pack_ok _ _ _ H) as (_ & Hl & _).
  unfold struct_unpack. rewrite decide_True by done. f_equal. clear Hl.
  revert vs bs H. induction fs as [|c fs IH]; intros [|v vs] bs; simpl; try done.
  unfold guard_err, mbind, result_bind. case_bool_decide as Hc; [|done].
  destruct (struct_pack fs vs) as [rest|] eqn:E; [|done]. intros [= <-].
  rewrite take_app_length', drop_app_length' by (by rewrite be_encode_length).
  rewrite be_decode_encode by (by apply code_wrap_range).
  rewrite code_unwrap_wrap by done. f_equal. by apply IH.
Qed.

Lemma struct_pack_unpack fs bs vs :
  is_bytes bs -> struct_unpack fs bs = Ok vs -> struct_pack fs vs = Ok bs.
Proof.
  unfold struct_unpack. intros Hb. case_decide as Hl; [|done]. intros [= <-].
  revert bs Hb Hl. induction fs as [|c fs IH]; intros bs Hb Hl.
  - by apply nil_length_inv in Hl as ->.
  - rewrite calcsize_cons in Hl. simpl.
    assert (Hlt : length (take (code_size c) bs) = code_size c) by (rewrite length_take; lia).
    assert (Ht : is_bytes (take (code_size c) bs)) by (by apply Forall_take).
    pose proof (be_decode_range _ Ht) as Hr. rewrite Hlt in Hr.
    pose proof (be_encode_decode _ Ht) as He. rewrite Hlt in He.
    apply code_unwrap_range in Hr as [Hr Hw].
    rewrite bool_decide_true by done. unfold mbind, result_bind. simpl.
    rewrite IH; [|by apply Forall_drop|rewrite length_drop; lia].
    by rewrite Hw, He, take_drop.
Qed.

Lemma struct_pack_one c v :
  struct_pack [c] [v] =
  if decide (code_range c v) then Ok (be_encode (code_size c) (code_wrap c v)) else Err StructError.
Proof.
  cbn [struct_pack]. unfold guard_err. case_bool_decide; run.
  - rewrite decide_True by done. by rewrite app_nil_r.
  - by rewrite decide_False.
Qed.

Lemma struct_pack_app fs gs vs ws b1 b2 :
  struct_pack fs vs = Ok b1 -> struct_pack gs ws = Ok b2 ->
  struct_pack (fs ++ gs) (vs ++ ws) = Ok (b1 ++ b2).
Proof.
  intros H1 H2. revert vs b1 H1. induction fs as [|c fs IH]; intros [|v vs] b1; simpl; try done.
  - by intros [= <-].
  - unfold guard_err, mbind, result_bind. case_bool_decide as Hc; [|done].
    destruct (struct_pack fs vs) as [rest|] eqn:E; [|done]. intros [= <-].
    by rewrite (IH vs rest E), app_assoc.
Qed.

Lemma struct_pack_app_inv fs gs vs ws bs :
  length vs = length fs -> struct_pack (fs ++ gs) (vs ++ ws) = Ok bs ->
  exists b1 b2, struct_pack fs vs = Ok b1 /\ struct_pack gs ws = Ok b2 /\ bs = b1 ++ b2.
Proof.
  intros Hlen H. pose proof (struct_pack_ok _ _ _ H) as (Hr & _ & _).
  apply Forall2_app_inv in Hr as [Hr1 Hr2]; [|done].
  apply struct_pack_success in Hr1 as [b1 E1]. apply struct_pack_success in Hr2 as [b2 E2].
  exists b1, b2. split; [done|]. split; [done|].
  pose proof (struct_pack_app _ _ _ _ _ _ E1 E2) as E. congruence.
Qed.

Lemma struct_unpack_length fs bs vs : struct_unpack fs bs = Ok vs -> length vs = length fs.
Proof.
  unfold struct_unpack. case_decide; [|done]. intros [= <-]. clear.
  revert bs. induction fs; intros bs; simpl; auto.
Qed.

Lemma struct_unpack_range fs bs vs :
  is_bytes bs -> struct_unpack fs bs = Ok vs -> Forall2 code_range fs vs.
Proof.
  intros Hb H. apply struct_pack_unpack in H; [|done]. by apply struct_pack_ok in H as [? _].
Qed.

Lemma calcsize_replicate n c : calcsize (replicate n c) = (n * code_size c)%nat.
Proof. induction n as [|n IH]; [done|]. simpl replicate. rewrite calcsize_cons, IH. lia. Qed.

Lemma Forall2_replicate_l {A B} (P : A -> B -> Prop) n x l :
  length l = n -> Forall (P x) l -> Forall2 P (replicate n x) l.
Proof. intros <- H. induction H; simpl; by constructor. Qed.

Create HintDb bytes_db.
#[export] Hint Resolve be_encode_is_bytes be_encode_length be_decode_range
  struct_unpack_pack struct_pack_unpack : bytes_db.
