(* ===== verification/Field.v ===== *)
(** * The prime field GF(3329)

    Arithmetic of host_server/shamir_recovery.py: [barrett_reduce],
    [mod_inv] and [evaluate_polynomial], over Python's unbounded integers.
    Congruence modulo 3329 is registered as a setoid with a [field]
    structure, whose inverse is the program's own [mod_inv]. *)

From Stdlib Require Import ZArith Lia Setoid Morphisms Ring Field.
From stdpp Require Import prelude.
From S2P Require Import Prelude.

Definition FIELD_MODULUS : Z := 3329.
Definition BARRETT_MULTIPLIER : Z := 20159.
Definition BARRETT_SHIFT : Z := 26.

(** Square-and-multiply, Python's three-argument [pow] for an exponent that
    is not negative. *)
Fixpoint powm_pos (a : Z) (e : positive) (m : Z) : Z :=
  match e with
  | xH => a mod m
  | xO e' => let b := powm_pos a e' m in (b * b) mod m
  | xI e' => let b := powm_pos a e' m in (((b * b) mod m) * a) mod m
  end.

Definition py_pow (a e m : Z) : Z :=
  match e with Zpos e' => powm_pos a e' m | _ => 1 mod m end.

Definition mod_inv (a p : Z) : Z := py_pow a (p - 2) p.

Definition barrett_reduce (a : Z) : Z :=
  let t := Z.shiftr (a * BARRETT_MULTIPLIER) BARRETT_SHIFT in
  let r := a - t * FIELD_MODULUS in
  if FIELD_MODULUS <=? r then r - FIELD_MODULUS else r.

Definition evaluate_polynomial (coeffs : list Z) (x : Z) : Z :=
  fold_left (fun result coeff => barrett_reduce (result * x + coeff)) (reverse coeffs) 0.

(** The polynomial's value in Z: the reference the two evaluators are compared with. *)
Fixpoint poly_eval (coeffs : list Z) (x : Z) : Z :=
  match coeffs with [] => 0 | c :: cs => c + x * poly_eval cs x end.

(** ** Congruence modulo the field's prime *)

Variant eqp (a b : Z) : Prop :=
  eqp_intro (H : a mod FIELD_MODULUS = b mod FIELD_MODULUS).
Declare Scope gf_scope.
Delimit Scope gf_scope with gf.
Infix "==" := eqp (at level 70, no associativity) : gf_scope.
#[local] Open Scope gf_scope.

Lemma eqp_spec a b : a == b <-> a mod FIELD_MODULUS = b mod FIELD_MODULUS.
Proof. split; [by intros []|by constructor]. Qed.

#[export] Instance eqp_dec a b : Decision (eqp a b).
Proof.
  destruct (decide (a mod FIELD_MODULUS = b mod FIELD_MODULUS)) as [H|H];
    [left; by apply eqp_spec|right; by rewrite eqp_spec].
Defined.

#[export] Instance eqp_equiv : Equivalence eqp.
Proof. split; red; intros *; rewrite ?eqp_spec; congruence. Qed.

#[export] Instance eqp_add : Proper (eqp ==> eqp ==> eqp) Z.add.
Proof. intros a a' [Ha] b b' [Hb]. constructor. by rewrite Zplus_mod, Ha, Hb, <- Zplus_mod. Qed.

#[export] Instance eqp_mul : Proper (eqp ==> eqp ==> eqp) Z.mul.
Proof. intros a a' [Ha] b b' [Hb]. constructor. by rewrite Zmult_mod, Ha, Hb, <- Zmult_mod. Qed.

#[export] Instance eqp_sub : Proper (eqp ==> eqp ==> eqp) Z.sub.
Proof. intros a a' [Ha] b b' [Hb]. constructor. by rewrite Zminus_mod, Ha, Hb, <- Zminus_mod. Qed.

#[export] Instance eqp_opp : Proper (eqp ==> eqp) Z.opp.
Proof.
  intros a a' Ha. rewrite <- (Z.sub_0_l a), <- (Z.sub_0_l a'). by apply eqp_sub.
Qed.

Lemma eqp_mod a : a mod FIELD_MODULUS == a.
Proof. constructor. by rewrite Zmod_mod. Qed.

Lemma eqp_small a b : 0 <= a < FIELD_MODULUS -> 0 <= b < FIELD_MODULUS -> a == b -> a = b.
Proof. intros Ha Hb [H]. by rewrite !Z.mod_small in H. Qed.

Lemma eqp_of_eq a b : a = b -> a == b.
Proof. by intros ->. Qed.

Lemma eqp_mod_eq a b : a == b -> a mod FIELD_MODULUS = b mod FIELD_MODULUS.
Proof. apply eqp_spec. Qed.

Lemma mod_p_range a : 0 <= a mod FIELD_MODULUS < FIELD_MODULUS.
Proof. by apply Z.mod_pos_bound. Qed.

#[export] Hint Resolve mod_p_range : core.

Lemma eqp_zero_dec a : {a == 0} + {~ a == 0}.
Proof. destruct (decide (eqp a 0)); auto. Qed.

(** ** Powers and inverses *)

Lemma powm_pos_range a e m : 0 < m -> 0 <= powm_pos a e m < m.
Proof. intros. destruct e; simpl; by apply Z.mod_pos_bound. Qed.

Lemma powm_pos_eq a e m : powm_pos a e m = a ^ Zpos e mod m.
Proof.
  induction e as [e IH|e IH|]; simpl powm_pos.
  - rewrite IH, <- Zmult_mod, Zmult_mod_idemp_l.
    rewrite Pos2Z.inj_xI, Z.pow_add_r, Z.pow_mul_r, Z.pow_1_r by lia.
    f_equal. f_equal. rewrite Z.pow_2_r, Z.pow_mul_l. done.
  - rewrite IH, <- Zmult_mod. rewrite Pos2Z.inj_xO, Z.pow_mul_r by lia.
    f_equal. by rewrite Z.pow_2_r, Z.pow_mul_l.
  - by rewrite Z.pow_1_r.
Qed.

(** The three-argument [pow] is exponentiation modulo m. *)
Lemma py_pow_spec a e m : 0 <= e -> py_pow a e m = a ^ e mod m.
Proof. intros He. destruct e; [done|apply powm_pos_eq|lia]. Qed.

Lemma powm_pos_mod a e m : powm_pos (a mod m) e m = powm_pos a e m.
Proof.
  induction e as [e IH|e IH|]; simpl.
  - by rewrite IH, Zmult_mod_idemp_r.
  - by rewrite IH.
  - by rewrite Zmod_mod.
Qed.

Definition fermat_at (n : Z) : bool :=
  Z.eqb ((mod_inv n FIELD_MODULUS * n) mod FIELD_MODULUS) 1.

Fixpoint fermat_upto (n : nat) : bool :=
  match n with O => true | S n' => fermat_at (Z.of_nat n) && fermat_upto n' end.

Lemma fermat_upto_spec n r : fermat_upto n = true -> 0 < r <= Z.of_nat n -> fermat_at r = true.
Proof.
  induction n as [|n IH]; [lia|]. cbn [fermat_upto]. intros [H1 H2]%andb_true_iff Hr.
  destruct (decide (r = Z.of_nat (S n))) as [->|]; [done|]. apply IH; [done|lia].
Qed.

(** Fermat's little theorem at this prime, by evaluation. *)
Lemma fermat_3329 r : 0 < r < FIELD_MODULUS -> fermat_at r = true.
Proof.
  intros Hr. apply (fermat_upto_spec (Z.to_nat 3328)); [vm_compute; reflexivity|].
  unfold FIELD_MODULUS in Hr. rewrite Z2Nat.id; lia.
Qed.

(** The field's inverse: [mod_inv] at the default modulus. *)
Definition invp (a : Z) : Z := mod_inv a FIELD_MODULUS.

#[export] Instance invp_proper : Proper (eqp ==> eqp) invp.
Proof.
  intros a b [H].
  change (powm_pos a 3327 FIELD_MODULUS == powm_pos b 3327 FIELD_MODULUS).
  by rewrite <- (powm_pos_mod a), <- (powm_pos_mod b), H.
Qed.

#[global] Opaque powm_pos.

Lemma invp_l_small r : 0 < r < FIELD_MODULUS -> invp r * r == 1.
Proof.
  intros Hr. apply fermat_3329, Z.eqb_eq in Hr. constructor. unfold invp. by rewrite Hr.
Qed.

(** [mod_inv] is the inverse of every element that is not zero in the field. *)
Lemma invp_l a : ~ a == 0 -> invp a * a == 1.
Proof.
  intros Ha. transitivity (invp (a mod FIELD_MODULUS) * (a mod FIELD_MODULUS)).
  - apply eqp_mul; [apply invp_proper|]; symmetry; apply eqp_mod.
  - apply invp_l_small. pose proof (mod_p_range a).
    assert (a mod FIELD_MODULUS <> 0) by (intros H0; apply Ha, eqp_spec, H0). lia.
Qed.

(** The inverse the code computes of a multiple of 3329. *)
Lemma invp_zero a : a == 0 -> invp a = 0.
Proof.
  intros Ha%eqp_spec. change (invp a) with (powm_pos a 3327 FIELD_MODULUS).
  rewrite <- powm_pos_mod, Ha. by vm_compute.
Qed.

Lemma invp_range a : 0 <= invp a < FIELD_MODULUS.
Proof. change (invp a) with (powm_pos a 3327 FIELD_MODULUS). by apply powm_pos_range. Qed.

Lemma eqp_mul_cancel a b c : ~ a == 0 -> a * b == a * c -> b == c.
Proof.
  intros Ha H.
  rewrite <- (Z.mul_1_l b), <- (Z.mul_1_l c), <- (invp_l a Ha).
  rewrite <- !Z.mul_assoc. by rewrite H.
Qed.

Lemma eqp_integral a b : ~ a == 0 -> ~ b == 0 -> ~ a * b == 0.
Proof.
  intros Ha Hb H. apply Hb. apply (eqp_mul_cancel a); [done|]. by rewrite H, Z.mul_0_r.
Qed.

(** ** The field structure *)

Definition divp (a b : Z) : Z := a * invp b.

#[export] Instance divp_proper : Proper (eqp ==> eqp ==> eqp) divp.
Proof. intros a a' Ha b b' Hb. unfold divp. by rewrite Ha, Hb. Qed.

Lemma gf_ring_theory : ring_theory 0 1 Z.add Z.mul Z.sub Z.opp eqp.
Proof. split; intros; apply eqp_of_eq; ring. Qed.

Lemma gf_field_theory : field_theory 0 1 Z.add Z.mul Z.sub Z.opp divp invp eqp.
Proof.
  split; [apply gf_ring_theory|by intros []|done|]. intros a Ha. by apply invp_l.
Qed.

Lemma gf_ring_ext : ring_eq_ext Z.add Z.mul Z.opp eqp.
Proof. split; apply _. Qed.

(** Importing this module makes [ring] and [field] work up to [==] on Z. *)
Module GFTactics.
Add Field gf_field : gf_field_theory.
End GFTactics.

(** A goal [x <> 0] in the field about a product or an inverse splits into its factors. *)
Ltac gf_nonzero :=
  repeat first [assumption | apply eqp_integral | split].

Lemma invp_nonzero a : ~ a == 0 -> ~ invp a == 0.
Proof.
  intros Ha H. pose proof (invp_l a Ha) as H1. rewrite H, Z.mul_0_l in H1. by destruct H1.
Qed.

(** ** Barrett reduction *)

Lemma barrett_reduce_congr a : barrett_reduce a == a.
Proof.
  unfold barrett_reduce. apply eqp_spec. set (t := Z.shiftr _ _).
  destruct (FIELD_MODULUS <=? a - t * FIELD_MODULUS).
  - replace (a - t * FIELD_MODULUS - FIELD_MODULUS) with (a + (- t - 1) * FIELD_MODULUS) by lia.
    by apply Z.mod_add.
  - replace (a - t * FIELD_MODULUS) with (a + (- t) * FIELD_MODULUS) by lia.
    by apply Z.mod_add.
Qed.

(** The estimated quotient is never below the true one: the multiplier is rounded up. *)
Lemma barrett_reduce_quotient a :
  0 <= a ->
  let q := a / FIELD_MODULUS in
  let r := a mod FIELD_MODULUS in
  q <= Z.shiftr (a * BARRETT_MULTIPLIER) BARRETT_SHIFT /\
  (Z.shiftr (a * BARRETT_MULTIPLIER) BARRETT_SHIFT <= q <-> 447 * q + 20159 * r < 2 ^ 26).
Proof.
  intros Ha q r. rewrite Z.shiftr_div_pow2 by done.
  unfold BARRETT_MULTIPLIER, BARRETT_SHIFT. change (2 ^ 26) with 67108864.
  pose proof (Z.div_mod a FIELD_MODULUS ltac:(done)) as Hd. fold q r in Hd.
  pose proof (mod_p_range a) as Hr. fold r in Hr.
  assert (Hq : 0 <= q) by (by apply Z.div_pos). clearbody q r.
  unfold FIELD_MODULUS in *. subst a. split; [|split]; intros; Z.div_mod_to_equations; lia.
Qed.

Lemma barrett_reduce_exact a :
  0 <= a ->
  (barrett_reduce a = a mod FIELD_MODULUS <->
   447 * (a / FIELD_MODULUS) + 20159 * (a mod FIELD_MODULUS) < 2 ^ 26).
Proof.
  intros Ha. destruct (barrett_reduce_quotient a Ha) as [Hge Hle].
  pose proof (Z.div_mod a FIELD_MODULUS ltac:(done)) as Hd.
  pose proof (mod_p_range a) as Hr. rewrite <- Hle. unfold barrett_reduce.
  set (t := Z.shiftr _ _) in *. set (q := a / FIELD_MODULUS) in *. clearbody t q.
  unfold FIELD_MODULUS in *. destruct (Z.leb_spec 3329 (a - t * 3329)); lia.
Qed.

Lemma barrett_reduce_small a : 0 <= a < 153133 -> barrett_reduce a = a mod FIELD_MODULUS.
Proof.
  intros Ha. apply barrett_reduce_exact; [lia|]. change (2 ^ 26) with 67108864.
  pose proof (Z.div_mod a FIELD_MODULUS ltac:(done)). pose proof (mod_p_range a).
  unfold FIELD_MODULUS in *. set (q := a / 3329) in *. set (r := a mod 3329) in *.
  clearbody q r. destruct (decide (q <= 44)); [lia|].
  assert (q = 45) as -> by lia. lia.
Qed.

(** ** Polynomial evaluation *)

Lemma evaluate_polynomial_cons c cs x :
  evaluate_polynomial (c :: cs) x = barrett_reduce (evaluate_polynomial cs x * x + c).
Proof. unfold evaluate_polynomial. by rewrite reverse_cons, fold_left_app. Qed.

Lemma evaluate_polynomial_congr cs x : evaluate_polynomial cs x == poly_eval cs x.
Proof.
  induction cs as [|c cs IH]; [done|].
  rewrite evaluate_polynomial_cons, barrett_reduce_congr, IH. apply eqp_of_eq. simpl. ring.
Qed.

Lemma evaluate_polynomial_small cs x :
  0 <= x <= 45 -> Forall (fun c => 0 <= c < FIELD_MODULUS) cs ->
  evaluate_polynomial cs x = poly_eval cs x mod FIELD_MODULUS.
Proof.
  intros Hx Hcs. apply eqp_small; [|apply mod_p_range|].
  - induction Hcs as [|c cs Hc Hcs IH]; [done|].
    rewrite evaluate_polynomial_cons, barrett_reduce_small; [apply mod_p_range|].
    unfold FIELD_MODULUS in *. nia.
  - rewrite eqp_mod. apply evaluate_polynomial_congr.
Qed.

#[export] Instance poly_eval_proper cs : Proper (eqp ==> eqp) (poly_eval cs).
Proof.
  intros x y H. induction cs as [|c cs IH]; simpl; [done|].
  apply eqp_add; [done|]. by apply eqp_mul.
Qed.

(** A polynomial less its value at a point is divisible by the linear factor. *)
Fixpoint synthetic_div (cs : list Z) (a : Z) : list Z :=
  match cs with
  | [] => []
  | c :: cs' => match cs' with [] => [] | _ => poly_eval cs' a :: synthetic_div cs' a end
  end.

Lemma synthetic_div_spec cs a x :
  poly_eval cs x = poly_eval cs a + (x - a) * poly_eval (synthetic_div cs a) x.
Proof.
  induction cs as [|c cs IH]; simpl; [ring|]. destruct cs as [|d ds]; simpl; [ring|].
  simpl in IH. rewrite IH. simpl. ring.
Qed.

Lemma synthetic_div_length cs a : length (synthetic_div cs a) = pred (length cs).
Proof.
  induction cs as [|c cs IH]; [done|]. simpl. destruct cs as [|d ds]; [done|].
  simpl in *. by rewrite IH.
Qed.

Lemma gf_one_nonzero : ~ 1 == 0.
Proof. by intros []. Qed.

(** ** What the field routines promise *)

(** C25: on a value that is not negative, [barrett_reduce] always stays in the
    residue class and never exceeds it; it equals the remainder exactly when
    the rounding error of the 26-bit multiplier stays below one, so it is
    right below 153133, where it first fails and returns -1. *)
Theorem barrett_reduce_correct a :
  0 <= a ->
  barrett_reduce a == a /\ barrett_reduce a < FIELD_MODULUS /\
  (barrett_reduce a = a mod FIELD_MODULUS <->
   447 * (a / FIELD_MODULUS) + 20159 * (a mod FIELD_MODULUS) < 2 ^ 26) /\
  (a < 153133 -> barrett_reduce a = a mod FIELD_MODULUS) /\
  barrett_reduce 153133 = -1.
Proof.
  intros Ha. split; [apply barrett_reduce_congr|]. split.
  - destruct (barrett_reduce_quotient a Ha) as [Hge _].
    pose proof (Z.div_mod a FIELD_MODULUS ltac:(done)). pose proof (mod_p_range a).
    unfold barrett_reduce. set (t := Z.shiftr _ _) in *. set (q := a / FIELD_MODULUS) in *.
    clearbody t q. unfold FIELD_MODULUS in *. destruct (Z.leb_spec 3329 (a - t * 3329)); lia.
  - split; [by apply barrett_reduce_exact|]. split; [|reflexivity].
    intros Hlt. apply barrett_reduce_small. lia.
Qed.

Lemma barrett_reduce_correct_witness : 0 <= 5000 /\ barrett_reduce 5000 = 5000 mod FIELD_MODULUS.
Proof. split; [lia|]. apply (barrett_reduce_correct 5000); lia. Defined.

(** Horner evaluation through [barrett_reduce] gives the polynomial's value
    in GF(3329) for field coefficients and any share index up to 45, and stays
    in the right residue class for every argument; with index 46 and the
    coefficients (45, 3328) the intermediate value leaves the exact range
    and the result is negative. *)
Theorem evaluate_polynomial_correct cs x :
  evaluate_polynomial cs x == poly_eval cs x /\
  (0 <= x <= 45 -> Forall (fun c => 0 <= c < FIELD_MODULUS) cs ->
   evaluate_polynomial cs x = poly_eval cs x mod FIELD_MODULUS) /\
  evaluate_polynomial [45; 3328] 46 < 0.
Proof.
  split; [apply evaluate_polynomial_congr|]. split; [apply evaluate_polynomial_small|reflexivity].
Qed.
