(* ===== verification/Lagrange.v ===== *)
(** * Lagrange interpolation at zero over GF(3329)

    The mathematics behind Shamir reconstruction, independent of how the
    program computes it: [interp0 f xs] is the value at zero of the
    interpolant of [f] through the points [xs], and it is [f]'s own value at
    zero when [f] is a polynomial with at most [length xs] coefficients. *)

From Stdlib Require Import ZArith Lia Setoid Morphisms Ring Field.
From stdpp Require Import prelude.
From S2P Require Import Prelude Field.
#[local] Open Scope gf_scope.

(** ** Finite sums and products *)

Definition gsum {A} (f : A -> Z) (l : list A) : Z := foldr (fun x acc => f x + acc) 0 l.
Definition gprod (f : Z -> Z) (l : list Z) : Z := foldr (fun x acc => f x * acc) 1 l.

Lemma gsum_perm {A} (f : A -> Z) l l' : l ≡ₚ l' -> gsum f l = gsum f l'.
Proof. induction 1; simpl; lia. Qed.

Lemma gprod_perm f l l' : l ≡ₚ l' -> gprod f l = gprod f l'.
Proof. induction 1; simpl; lia. Qed.

Lemma gsum_ext {A} (f g : A -> Z) l : (forall x, x ∈ l -> f x = g x) -> gsum f l = gsum g l.
Proof.
  induction l as [|x l IH]; intros H; [done|]. simpl.
  rewrite H by left. rewrite IH; [done|]. intros y Hy. apply H. by right.
Qed.

Lemma gsum_congr {A} (f g : A -> Z) l : (forall x, x ∈ l -> f x == g x) -> gsum f l == gsum g l.
Proof.
  induction l as [|x l IH]; intros H; [done|]. simpl.
  apply eqp_add; [apply H; left|]. apply IH. intros y Hy. apply H. by right.
Qed.

Lemma gprod_congr f g l : (forall x, x ∈ l -> f x == g x) -> gprod f l == gprod g l.
Proof.
  induction l as [|x l IH]; intros H; [done|]. simpl.
  apply eqp_mul; [apply H; left|]. apply IH. intros y Hy. apply H. by right.
Qed.

Lemma gsum_add {A} (f g : A -> Z) l : gsum (fun x => f x + g x) l = gsum f l + gsum g l.
Proof. induction l; simpl; lia. Qed.

Lemma gsum_scale {A} c (f : A -> Z) l : gsum (fun x => c * f x) l = c * gsum f l.
Proof. induction l; simpl; lia. Qed.

Lemma gprod_nonzero f l : (forall x, x ∈ l -> ~ f x == 0) -> ~ gprod f l == 0.
Proof.
  induction l as [|x l IH]; intros H; [apply gf_one_nonzero|]. simpl. apply eqp_integral; [apply H; left|].
  apply IH. intros y Hy. apply H. by right.
Qed.

(** ** Points that are distinct in the field *)

Definition distinct_p (xs : list Z) : Prop := NoDup ((fun x => x mod FIELD_MODULUS) <$> xs).

#[export] Instance distinct_p_dec xs : Decision (distinct_p xs).
Proof. unfold distinct_p. apply _. Defined.

Lemma distinct_p_cons a xs : distinct_p (a :: xs) <-> (forall x, x ∈ xs -> ~ x == a) /\ distinct_p xs.
Proof.
  unfold distinct_p. rewrite fmap_cons, NoDup_cons. f_equiv.
  rewrite list_elem_of_fmap. setoid_rewrite eqp_spec. naive_solver.
Qed.

Lemma distinct_p_NoDup xs : distinct_p xs -> NoDup xs.
Proof. apply NoDup_fmap_1. Qed.

Lemma distinct_p_perm xs ys : xs ≡ₚ ys -> distinct_p xs -> distinct_p ys.
Proof. unfold distinct_p. by intros ->. Qed.

Lemma distinct_p_sublist xs ys : xs `sublist_of` ys -> distinct_p ys -> distinct_p xs.
Proof.
  intros H. unfold distinct_p. intros Hd. eapply sublist_NoDup; [done|]. by apply fmap_sublist.
Qed.

Lemma distinct_p_ne a b xs : distinct_p xs -> a ∈ xs -> b ∈ xs -> a <> b -> ~ a == b.
Proof.
  intros Hd Ha Hb Hne He. induction xs as [|x xs IH]; [set_solver|].
  apply distinct_p_cons in Hd as [Hx Hd].
  apply elem_of_cons in Ha as [->|Ha]; apply elem_of_cons in Hb as [->|Hb]; try done.
  - by apply (Hx b Hb).
  - by apply (Hx a Ha).
  - by apply IH.
Qed.

(** ** The interpolant at zero *)

Definition others (x : Z) (xs : list Z) : list Z := filter (fun y => y <> x) xs.

(** The Lagrange basis polynomial of [x], evaluated at zero. *)
Definition basis0 (xs : list Z) (x : Z) : Z :=
  gprod (fun y => divp y (y - x)) (others x xs).

Definition interp0 (f : Z -> Z) (xs : list Z) : Z := gsum (fun x => f x * basis0 xs x) xs.

Lemma interp0_perm f xs ys : xs ≡ₚ ys -> interp0 f xs = interp0 f ys.
Proof.
  intros H. unfold interp0. rewrite (gsum_perm _ _ _ H). apply gsum_ext.
  intros x _. f_equal. apply gprod_perm. unfold others. by rewrite H.
Qed.

Lemma interp0_congr f g xs : (forall x, x ∈ xs -> f x == g x) -> interp0 f xs == interp0 g xs.
Proof. intros H. apply gsum_congr. intros x Hx. apply eqp_mul; [by apply H|done]. Qed.

Lemma interp0_add f g xs : interp0 (fun x => f x + g x) xs = interp0 f xs + interp0 g xs.
Proof. unfold interp0. rewrite <- gsum_add. apply gsum_ext. intros; lia. Qed.

Lemma interp0_scale c f xs : interp0 (fun x => c * f x) xs = c * interp0 f xs.
Proof. unfold interp0. rewrite <- gsum_scale. apply gsum_ext. intros; lia. Qed.

Lemma others_cons_ne a x xs : a <> x -> others x (a :: xs) = a :: others x xs.
Proof. intros H. unfold others. by rewrite filter_cons_True. Qed.

Section FactorOut.
Import GFTactics.

Lemma sub_nonzero a x : ~ x == a -> ~ a - x == 0.
Proof.
  intros H H0. apply H. transitivity (a - (a - x)); [apply eqp_of_eq; lia|].
  rewrite H0. apply eqp_of_eq. lia.
Qed.

Lemma factor_term x a q b :
  ~ x == a -> (x - a) * q * (divp a (a - x) * b) == - a * (q * b).
Proof. intros H. field. by apply sub_nonzero. Qed.

(** One more factor of a quotient of products. *)
Lemma quotient_step x y a b :
  ~ x - y == 0 -> ~ b == 0 -> ~ y - x == 0 ->
  (- y * a) * invp ((x - y) * b) == divp y (y - x) * (a * invp b).
Proof. intros. field. by repeat split. Qed.

(** A factor vanishing at one of the points removes that point. *)
Lemma interp0_factor a q xs :
  distinct_p (a :: xs) -> interp0 (fun x => (x - a) * q x) (a :: xs) == - a * interp0 q xs.
Proof.
  intros [Hne Hd]%distinct_p_cons. unfold interp0.
  rewrite <- gsum_scale. cbn [gsum foldr].
  rewrite Z.sub_diag, !Z.mul_0_l, Z.add_0_l. apply gsum_congr. intros x Hx.
  unfold basis0. rewrite others_cons_ne.
  - apply factor_term. by apply Hne.
  - intros ->. by apply (Hne x Hx).
Qed.
End FactorOut.

(** The basis is a partition of unity. *)
Lemma interp0_one n xs :
  length xs = S n -> distinct_p xs -> interp0 (fun _ => 1) xs == 1.
Proof.
  revert xs. induction n as [|n IH]; intros xs Hl Hd.
  - destruct xs as [|a [|]]; try discriminate. unfold interp0, basis0, others.
    cbn. by rewrite decide_False by (by intros []).
  - destruct xs as [|a [|b xs]]; try discriminate. simpl in Hl.
    assert (Hd' : distinct_p (b :: a :: xs)).
    { eapply distinct_p_perm; [|done]. constructor. }
    pose proof Hd as [Hab Hbx]%distinct_p_cons. pose proof Hd' as [_ Hax]%distinct_p_cons.
    apply (eqp_mul_cancel (b - a)).
    + apply sub_nonzero. intros He. apply (Hab b); [left|by symmetry].
    + rewrite <- interp0_scale.
      transitivity (interp0 (fun x => (x - a) * 1) (a :: b :: xs)
                    + - 1 * interp0 (fun x => (x - b) * 1) (a :: b :: xs)).
      * rewrite <- interp0_scale, <- interp0_add. apply interp0_congr. intros x _.
        apply eqp_of_eq. lia.
      * rewrite (interp0_perm (fun x => (x - b) * 1) _ (b :: a :: xs)) by constructor.
        rewrite !interp0_factor by done. rewrite !IH by (done || (simpl; lia)).
        apply eqp_of_eq. lia.
Qed.

(** Interpolation recovers a polynomial's constant term. *)
Theorem interp0_poly cs xs :
  (length cs <= length xs)%nat -> distinct_p xs ->
  interp0 (poly_eval cs) xs == poly_eval cs 0.
Proof.
  revert cs. induction xs as [|a xs IH]; intros cs Hl Hd.
  - apply Nat.le_0_r, nil_length_inv in Hl as ->. done.
  - transitivity (poly_eval cs a * interp0 (fun _ => 1) (a :: xs)
                  + interp0 (fun x => (x - a) * poly_eval (synthetic_div cs a) x) (a :: xs)).
    + rewrite <- interp0_scale, <- interp0_add. apply interp0_congr. intros x _.
      rewrite (synthetic_div_spec cs a x). apply eqp_of_eq. lia.
    + rewrite (interp0_one (length xs)) by done. rewrite interp0_factor by done.
      apply distinct_p_cons in Hd as [_ Hd]. simpl in Hl.
      rewrite IH; [|rewrite synthetic_div_length; lia|done].
      rewrite (synthetic_div_spec cs a 0). apply eqp_of_eq. lia.
Qed.
