(* ===== verification/Shamir.v ===== *)
(** * Shamir secret sharing

    [host_server/shamir_recovery.py], whose [reconstruct_secret] exists in two
    versions, one on each side of an unresolved merge conflict, and the
    sharing half kept in [experiments/baselines.py]. *)

From Stdlib Require Import ZArith Lia Setoid Morphisms.
From stdpp Require Import prelude.
From S2P Require Import Prelude PyBytes Field Lagrange.
#[local] Open Scope gf_scope.

(** [enumerate(l)] *)
Definition enumerate {A} (l : list A) : list (nat * A) := imap pair l.

(** ** Reconstruction *)

(** The inner loop: numerator and denominator of the Lagrange coefficient of
    the share at position [i].  The two sides of the conflict differ in the
    factor a share contributes to the numerator. *)
Definition lagrange_factors (factor : Z -> Z) (i : nat) (xi : Z) (shares : list (nat * (Z * Z)))
    (acc : Z * Z) : Z * Z :=
  fold_left
    (fun '(numerator, denominator) '(j, (xj, _)) =>
       if decide (i = j) then (numerator, denominator)
       else ((numerator * factor xj) mod FIELD_MODULUS,
             (denominator * ((xi - xj) mod FIELD_MODULUS)) mod FIELD_MODULUS))
    shares acc.

Definition lagrange_sum (factor : Z -> Z) (shares : list (Z * Z)) : Z :=
  fold_left
    (fun secret '(i, (xi, yi)) =>
       let '(numerator, denominator) := lagrange_factors factor i xi (enumerate shares) (1, 1) in
       let lagrange_coeff := (numerator * mod_inv denominator FIELD_MODULUS) mod FIELD_MODULUS in
       (secret + yi * lagrange_coeff) mod FIELD_MODULUS)
    (enumerate shares) 0.

Module Head.
(** [reconstruct_secret] on the HEAD side: indices are validated, and the
    numerator multiplies by [-xj]. *)
Definition reconstruct_secret (shares : list (Z * Z)) : result Z :=
  if (length shares <? 2)%nat then Err ValueError
  else
    let share_indices := fst <$> shares in
    if existsb (Z.eqb 0) share_indices then Err ValueError
    else if bool_decide (NoDup share_indices)
    then Ok (lagrange_sum Z.opp shares)
    else Err ValueError.
End Head.

Module Incoming.
(** [reconstruct_secret] on the other side: no validation, and the
    numerator multiplies by [xj]. *)
Definition reconstruct_secret (shares : list (Z * Z)) : result Z :=
  if (length shares <? 2)%nat then Err ValueError
  else Ok (lagrange_sum (fun xj => xj) shares).
End Incoming.

(** [reconstruct_secret_bytes], over either version of [reconstruct_secret]. *)
Section Bytes.
Variable reconstruct_secret : list (Z * Z) -> result Z.

(** The share of element [elem_idx]: two little-endian bytes, reduced. *)
Definition elem_share (elem_idx : nat) (share : Z * bytes) : result (Z * Z) :=
  lo ← list_index (snd share) (elem_idx * 2);
  hi ← list_index (snd share) (elem_idx * 2 + 1);
  Ok (fst share, le16 lo hi mod FIELD_MODULUS).

Definition reconstruct_element (shares : list (Z * bytes)) (elem_idx : nat) : result Z :=
  elem_shares ← map_result (elem_share elem_idx) shares;
  reconstruct_secret elem_shares.

(** Two bytes, least significant first. *)
Definition le16_encode (val : Z) : bytes := [Z.land val 255; Z.land (Z.shiftr val 8) 255].

Definition reconstruct_secret_bytes (shares : list (Z * bytes)) : result bytes :=
  match shares with
  | [] => Err ValueError
  | (_, y0) :: _ =>
      if (length y0 =? 64)%nat then
        secret_elements ← map_result (reconstruct_element shares) (seq 0 32);
        Ok (concat (le16_encode <$> secret_elements))
      else Err ValueError
  end.

(** [recover_mask_seed_from_shares] *)
Definition recover_mask_seed_from_shares (shares : list (Z * bytes)) : result bytes :=
  reconstruct_secret_bytes shares.
End Bytes.

Module Baseline.
(** [shamir_reconstruct_secret] of experiments/baselines.py. *)
Definition shamir_reconstruct_secret (shares : list (Z * Z)) : result Z :=
  if (length shares <? 2)%nat then Err ValueError
  else
    let inner i xi :=
      fold_left
        (fun '(numerator, denominator) '(j, (xj, _)) =>
           if decide (i = j) then (numerator, denominator)
           else ((numerator * (- xj)) mod FIELD_MODULUS,
                 (denominator * (xi - xj)) mod FIELD_MODULUS))
        (enumerate shares) (1, 1) in
    Ok (fold_left
          (fun secret '(i, (xi, yi)) =>
             let '(numerator, denominator) := inner i xi in
             let inv_denom := py_pow denominator (FIELD_MODULUS - 2) FIELD_MODULUS in
             let lagrange_coeff := (numerator * inv_denom) mod FIELD_MODULUS in
             (secret + yi * lagrange_coeff) mod FIELD_MODULUS)
          (enumerate shares) 0).

(** Horner's rule as [shamir_generate_shares] writes it. *)
Definition share_value (coeffs : list Z) (x : Z) : Z :=
  fold_left (fun y coeff => (y * x + coeff) mod FIELD_MODULUS) (reverse coeffs) 0.

(** [shamir_generate_shares]; [randbelow k] is the k-th draw of
    [secrets.randbelow(FIELD_MODULUS)]. *)
Definition shamir_generate_shares (randbelow : nat -> Z) (secret n t : Z) : result (list (Z * Z)) :=
  if n <? t then Err ValueError
  else if (secret <? 0) || (FIELD_MODULUS <=? secret) then Err ValueError
  else
    let coeffs := secret :: (randbelow <$> seq 0 (Z.to_nat (t - 1))) in
    Ok ((fun i => let x := Z.of_nat i in (x, share_value coeffs x)) <$> seq 1 (Z.to_nat n)).

(** The body of its second loop: party [i]'s column of the share table. *)
Definition party_share (shares_by_byte : list (list (Z * Z))) (i : nat) : result (Z * bytes) :=
  first ← list_index shares_by_byte 0;
  x ← list_index first i;
  ys ← map_result (fun shares => list_index shares i) shares_by_byte;
  y_bytes ← bytes_of_ints (snd <$> ys);
  Ok (fst x, y_bytes).

(** [shamir_generate_shares_bytes]; byte [j] of the secret draws its own
    coefficients. *)
Definition shamir_generate_shares_bytes (randbelow : nat -> nat -> Z) (secret_bytes : bytes) (n t : Z)
    : result (list (Z * bytes)) :=
  shares_by_byte ←
    map_result (fun '(j, b) => shamir_generate_shares (randbelow j) b n t) (enumerate secret_bytes);
  map_result (party_share shares_by_byte) (seq 0 (Z.to_nat n)).

(** [shamir_reconstruct_secret_bytes]: storing a value above 255 into the
    bytearray raises. *)
Definition shamir_reconstruct_secret_bytes (shares : list (Z * bytes)) : result bytes :=
  match shares with
  | [] => Err ValueError
  | (_, y0) :: _ =>
      map_result
        (fun byte_idx =>
           byte_shares ← map_result (fun '(x, y) => v ← list_index y byte_idx; Ok (x, v)) shares;
           v ← shamir_reconstruct_secret byte_shares;
           if decide (is_byte v) then Ok v else Err ValueError)
        (seq 0 (length y0))
  end.
End Baseline.

Example head_reconstructs : Head.reconstruct_secret [(1, 1244); (2, 1254)] = Ok 1234.
Proof. vm_compute. reflexivity. Qed.

(** ** The loops compute the interpolant at zero *)

(** The x-coordinates the inner loop does not skip. *)
Definition kept (i : nat) (shares : list (nat * (Z * Z))) : list Z :=
  (fun s => fst (snd s)) <$> filter (fun s => fst s <> i) shares.

Lemma kept_cons_eq i s shares : kept i ((i, s) :: shares) = kept i shares.
Proof. unfold kept. rewrite filter_cons_False by (simpl; lia). done. Qed.

Lemma kept_cons_ne i j s shares : i <> j -> kept i ((j, s) :: shares) = fst s :: kept i shares.
Proof. intros H. unfold kept. rewrite filter_cons_True by (simpl; lia). done. Qed.

Lemma lagrange_factors_spec factor i xi shares n d :
  let '(n', d') := lagrange_factors factor i xi shares (n, d) in
  n' == n * gprod factor (kept i shares) /\
  d' == d * gprod (fun xj => xi - xj) (kept i shares).
Proof.
  revert n d. induction shares as [|[j [xj yj]] shares IH]; intros n d.
  - simpl. rewrite !Z.mul_1_r. done.
  - cbn [lagrange_factors fold_left]. destruct (decide (i = j)) as [<-|Hne].
    + rewrite kept_cons_eq. apply IH.
    + rewrite kept_cons_ne by done. cbn [gprod foldr fst].
      specialize (IH ((n * factor xj) mod FIELD_MODULUS)
                     ((d * ((xi - xj) mod FIELD_MODULUS)) mod FIELD_MODULUS)).
      unfold lagrange_factors in IH. destruct (fold_left _ _ _) as [n' d'].
      destruct IH as [IHn IHd]. split.
      * rewrite IHn, eqp_mod. apply eqp_of_eq. unfold gprod. lia.
      * rewrite IHd, eqp_mod, eqp_mod. apply eqp_of_eq. unfold gprod. lia.
Qed.

(** Skipping by position is skipping by value when the indices are distinct. *)
Lemma kept_imap_notin k xi shares :
  xi ∉ shares.*1 -> forall i, (i < k)%nat ->
  kept i (imap (fun n s => ((k + n)%nat, s)) shares) = shares.*1.
Proof.
  revert k. induction shares as [|[x y] shares IH]; intros k Hn i Hi; [done|].
  cbn [imap]. rewrite kept_cons_ne by lia. cbn [fmap list_fmap fst]. f_equal.
  rewrite <- (IH (S k) ltac:(set_solver) i ltac:(lia)).
  f_equal. apply imap_ext. intros. simpl. f_equal. lia.
Qed.

Lemma others_notin x xs : x ∉ xs -> others x xs = xs.
Proof.
  induction xs as [|y xs IH]; intros H; [done|]. unfold others in *.
  rewrite filter_cons_True by set_solver. rewrite IH by set_solver. done.
Qed.

Lemma kept_imap k shares i xi yi :
  NoDup shares.*1 -> shares !! i = Some (xi, yi) ->
  kept (k + i) (imap (fun n s => ((k + n)%nat, s)) shares) = others xi shares.*1.
Proof.
  revert k i. induction shares as [|[x y] shares IH]; intros k i Hd Hi; [done|].
  cbn [fmap list_fmap fst] in Hd. apply NoDup_cons in Hd as [Hx Hd].
  assert (Hext : imap ((λ n s, ((k + n)%nat, s)) ∘ S) shares
                 = imap (λ n s, ((S k + n)%nat, s)) shares).
  { apply imap_ext. intros. simpl. f_equal. lia. }
  cbn [imap]. rewrite Hext. destruct i as [|i].
  - simpl in Hi. injection Hi as <- <-. rewrite Nat.add_0_r, kept_cons_eq.
    rewrite (kept_imap_notin (S k) x) by (done || lia).
    cbn [fmap list_fmap fst]. unfold others. rewrite filter_cons_False by naive_solver.
    symmetry. by apply others_notin.
  - simpl in Hi. rewrite kept_cons_ne by lia.
    replace (k + S i)%nat with (S k + i)%nat by lia. rewrite IH by done.
    cbn [fmap list_fmap fst]. rewrite others_cons_ne; [done|].
    intros ->. apply Hx. apply list_elem_of_fmap. exists (xi, yi).
    split; [done|]. by eapply list_elem_of_lookup_2.
Qed.

Lemma kept_enumerate shares i xi yi :
  NoDup shares.*1 -> shares !! i = Some (xi, yi) ->
  kept i (enumerate shares) = others xi shares.*1.
Proof. apply (kept_imap 0). Qed.

(** The outer loop is a sum over the shares. *)
Lemma lagrange_sum_acc (coeff : nat -> Z -> Z) shares k (s : Z) :
  fold_left (fun secret '(i, (xi, yi)) => (secret + yi * coeff i xi) mod FIELD_MODULUS)
    (imap (fun n s => ((k + n)%nat, s)) shares) s
  == s + foldr (fun '(i, (xi, yi)) acc => yi * coeff i xi + acc) 0
           (imap (fun n s => ((k + n)%nat, s)) shares).
Proof.
  revert k s. induction shares as [|[x y] shares IH]; intros k s; [by rewrite Z.add_0_r|].
  assert (Hext : imap ((λ n s, ((k + n)%nat, s)) ∘ S) shares
                 = imap (λ n s, ((S k + n)%nat, s)) shares).
  { apply imap_ext. intros. simpl. f_equal. lia. }
  cbn [imap fold_left foldr]. rewrite Hext, IH, eqp_mod. apply eqp_of_eq. lia.
Qed.

(** The coefficient the loops give the share at position [i]. *)
Definition lagrange_coeff (factor : Z -> Z) (shares : list (Z * Z)) (i : nat) (xi : Z) : Z :=
  let '(numerator, denominator) := lagrange_factors factor i xi (enumerate shares) (1, 1) in
  (numerator * mod_inv denominator FIELD_MODULUS) mod FIELD_MODULUS.

Definition weighted_sum (coeff : nat -> Z -> Z) (k : nat) (shares : list (Z * Z)) : Z :=
  foldr (fun '(i, (xi, yi)) acc => yi * coeff i xi + acc) 0
    (imap (fun n s => ((k + n)%nat, s)) shares).

Lemma lagrange_sum_weighted factor shares :
  lagrange_sum factor shares == weighted_sum (lagrange_coeff factor shares) 0 shares.
Proof.
  unfold weighted_sum. rewrite <- (Z.add_0_l (foldr _ _ _)), <- lagrange_sum_acc.
  apply eqp_of_eq. unfold lagrange_sum, enumerate, lagrange_coeff.
  apply (fold_left_ext _ _ (imap pair shares)). intros s [i [xi yi]]. unfold enumerate.
  by destruct (lagrange_factors _ _ _ _ _).
Qed.

Lemma lagrange_sum_range factor shares : 0 <= lagrange_sum factor shares < FIELD_MODULUS.
Proof.
  unfold lagrange_sum. apply (fold_left_inv (fun s => 0 <= s < FIELD_MODULUS)); [done|].
  intros s [i [xi yi]] _. destruct (lagrange_factors _ _ _ _ _). apply mod_p_range.
Qed.

Lemma imap_shift {A} k (l : list A) :
  imap ((λ n s, ((k + n)%nat, s)) ∘ S) l = imap (λ n s, ((S k + n)%nat, s)) l.
Proof. apply imap_ext. intros. simpl. f_equal. lia. Qed.

Lemma weighted_sum_cons coeff k x y shares :
  weighted_sum coeff k ((x, y) :: shares) = y * coeff k x + weighted_sum coeff (S k) shares.
Proof. unfold weighted_sum. cbn [imap foldr]. by rewrite imap_shift, Nat.add_0_r. Qed.

Lemma weighted_sum_congr (c : Z) coeff coeff' k shares :
  (forall n x y, shares !! n = Some (x, y) -> coeff (k + n)%nat x == c * coeff' (k + n)%nat x) ->
  weighted_sum coeff k shares == c * weighted_sum coeff' k shares.
Proof.
  revert k. induction shares as [|[x y] shares IH]; intros k H.
  - unfold weighted_sum. cbn. by rewrite Z.mul_0_r.
  - rewrite !weighted_sum_cons, (IH (S k)).
    + specialize (H 0%nat x y eq_refl). rewrite Nat.add_0_r in H. rewrite H.
      apply eqp_of_eq. lia.
    + intros n x' y' Hn. specialize (H (S n) x' y' Hn).
      by replace (S k + n)%nat with (k + S n)%nat by lia.
Qed.

Lemma weighted_sum_gsum (B f : Z -> Z) coeff k shares :
  (forall n x y, shares !! n = Some (x, y) -> coeff (k + n)%nat x == B x /\ y == f x) ->
  weighted_sum coeff k shares == gsum (fun x => f x * B x) shares.*1.
Proof.
  revert k. induction shares as [|[x y] shares IH]; intros k H; [done|].
  rewrite weighted_sum_cons, (IH (S k)).
  - destruct (H 0%nat x y eq_refl) as [Hc Hy]. rewrite Nat.add_0_r in Hc.
    cbn [fmap list_fmap fst gsum foldr]. apply eqp_add; [|done]. by rewrite Hc, Hy.
  - intros n x' y' Hn. specialize (H (S n) x' y' Hn).
    by replace (S k + n)%nat with (k + S n)%nat by lia.
Qed.

Lemma basis0_quotient x O :
  (forall y, y ∈ O -> ~ y == x) ->
  gprod Z.opp O * invp (gprod (fun y => x - y) O) == gprod (fun y => divp y (y - x)) O.
Proof.
  induction O as [|y O IH]; intros H; [done|]. cbn [gprod foldr].
  assert (Hy : ~ x - y == 0).
  { apply sub_nonzero. intros He. by apply (H y); [left|]. }
  assert (HO : ~ gprod (fun y => x - y) O == 0).
  { apply gprod_nonzero. intros z Hz. apply sub_nonzero. apply H. by right. }
  rewrite <- IH by (intros z Hz; apply H; by right). fold (gprod Z.opp O) (gprod (fun y => x - y) O).
  assert (Hy' : ~ y - x == 0).
  { apply sub_nonzero. intros He. apply (H y); [left|]. by symmetry. }
  revert Hy HO Hy'. generalize (gprod Z.opp O), (gprod (fun y => x - y) O).
  intros a b Hy HO Hy'. by apply quotient_step.
Qed.

(** Each share lies on the polynomial. *)
Definition on_polynomial (cs : list Z) (shares : list (Z * Z)) : Prop :=
  Forall (fun s => snd s == poly_eval cs (fst s)) shares.

Lemma on_polynomial_lookup cs shares n x y :
  on_polynomial cs shares -> shares !! n = Some (x, y) -> y == poly_eval cs x.
Proof. intros H Hn. unfold on_polynomial in H. rewrite Forall_lookup in H. apply (H n (x, y) Hn). Qed.

Lemma lagrange_coeff_quotient factor shares i x y :
  NoDup shares.*1 -> shares !! i = Some (x, y) ->
  lagrange_coeff factor shares i x ==
    gprod factor (others x shares.*1) * invp (gprod (fun xj => x - xj) (others x shares.*1)).
Proof.
  intros Hd Hi. unfold lagrange_coeff.
  pose proof (lagrange_factors_spec factor i x (enumerate shares) 1 1) as H.
  destruct (lagrange_factors _ _ _ _ _) as [n d]. destruct H as [Hn Hden].
  rewrite (kept_enumerate _ _ _ _ Hd Hi) in Hn, Hden. rewrite Z.mul_1_l in Hn, Hden.
  rewrite eqp_mod. change (mod_inv d FIELD_MODULUS) with (invp d). by rewrite Hn, Hden.
Qed.

Lemma others_ne (shares : list (Z * Z)) x y n z :
  distinct_p shares.*1 -> shares !! n = Some (x, y) -> z ∈ others x shares.*1 -> ~ z == x.
Proof.
  intros Hd Hn Hz. apply list_elem_of_filter in Hz as [Hne Hz].
  eapply distinct_p_ne; [done|done| |done].
  apply list_elem_of_fmap. exists (x, y). split; [done|]. by eapply list_elem_of_lookup_2.
Qed.

(** With the negated factor, the loops compute the interpolant at zero. *)
Lemma lagrange_sum_interp cs shares :
  distinct_p shares.*1 -> on_polynomial cs shares ->
  lagrange_sum Z.opp shares == interp0 (poly_eval cs) shares.*1.
Proof.
  intros Hd Hon. rewrite lagrange_sum_weighted. unfold interp0.
  apply weighted_sum_gsum. intros n x y Hn. split; [|by eapply on_polynomial_lookup].
  rewrite lagrange_coeff_quotient by (done || by apply distinct_p_NoDup).
  apply basis0_quotient. intros z Hz. by eapply others_ne.
Qed.

Lemma lagrange_sum_secret cs shares :
  (length cs <= length shares)%nat -> distinct_p shares.*1 -> on_polynomial cs shares ->
  lagrange_sum Z.opp shares = poly_eval cs 0 mod FIELD_MODULUS.
Proof.
  intros Hl Hd Hon. apply eqp_small; [apply lagrange_sum_range|apply mod_p_range|].
  rewrite eqp_mod, lagrange_sum_interp by done. apply interp0_poly; [|done].
  by rewrite length_fmap.
Qed.

Lemma gprod_sign O : gprod (fun xj => xj) O == (-1) ^ Z.of_nat (length O) * gprod Z.opp O.
Proof.
  induction O as [|x O IH]; [done|]. cbn [gprod foldr length].
  rewrite Nat2Z.inj_succ, Z.pow_succ_r by lia. fold (gprod (fun xj : Z => xj) O) (gprod Z.opp O).
  rewrite IH. apply eqp_of_eq. lia.
Qed.

Lemma length_others x xs : NoDup xs -> x ∈ xs -> S (length (others x xs)) = length xs.
Proof.
  induction xs as [|y xs IH]; [set_solver|]. intros [Hy Hd]%NoDup_cons Hx.
  destruct (decide (y = x)) as [->|Hne].
  - unfold others. rewrite filter_cons_False by naive_solver. fold (others x xs).
    by rewrite others_notin.
  - rewrite others_cons_ne by done. cbn [length]. f_equal. apply IH; set_solver.
Qed.

(** Without the negation every coefficient changes sign [n - 1] times. *)
Lemma lagrange_sum_sign shares :
  distinct_p shares.*1 ->
  lagrange_sum (fun xj => xj) shares ==
    (-1) ^ Z.of_nat (length shares - 1) * lagrange_sum Z.opp shares.
Proof.
  intros Hd. rewrite !lagrange_sum_weighted. apply weighted_sum_congr.
  intros n x y Hn. cbn [Nat.add].
  assert (HN : NoDup shares.*1) by (by apply distinct_p_NoDup).
  rewrite !(lagrange_coeff_quotient _ _ _ _ _ HN Hn), gprod_sign.
  assert (Hx : x ∈ shares.*1).
  { apply list_elem_of_fmap. exists (x, y). split; [done|]. by eapply list_elem_of_lookup_2. }
  apply (length_others _ _ HN) in Hx. rewrite length_fmap in Hx.
  replace (length shares - 1)%nat with (length (others x shares.*1)) by lia.
  apply eqp_of_eq. lia.
Qed.

(** ** Properties of the two versions of [reconstruct_secret] *)

Lemma head_guard_zero (xs : list Z) : existsb (Z.eqb 0) xs = bool_decide (0 ∈ xs).
Proof.
  induction xs as [|x xs IH]; [done|]. cbn [existsb]. rewrite IH.
  destruct (Z.eqb_spec 0 x); case_bool_decide; case_bool_decide; set_solver.
Qed.

Lemma head_reconstruct_poly cs shares :
  (2 <= length shares)%nat -> (length cs <= length shares)%nat ->
  distinct_p shares.*1 -> 0 ∉ shares.*1 -> on_polynomial cs shares ->
  Head.reconstruct_secret shares = Ok (poly_eval cs 0 mod FIELD_MODULUS).
Proof.
  intros H2 Hl Hd H0 Hon. unfold Head.reconstruct_secret.
  rewrite (proj2 (Nat.ltb_ge _ _)) by done.
  rewrite head_guard_zero, bool_decide_false by done.
  rewrite bool_decide_true by (by apply distinct_p_NoDup).
  by rewrite (lagrange_sum_secret cs).
Qed.

(** C12: on the HEAD side, two or more shares with indices that are distinct
    and non-zero in the field, lying on a polynomial whose constant term is
    the secret and which has no more coefficients than there are shares,
    reconstruct the secret exactly. *)
Theorem head_reconstruct_correct secret cs shares :
  0 <= secret < FIELD_MODULUS ->
  (2 <= length shares)%nat -> (S (length cs) <= length shares)%nat ->
  distinct_p shares.*1 -> 0 ∉ shares.*1 -> on_polynomial (secret :: cs) shares ->
  Head.reconstruct_secret shares = Ok secret.
Proof.
  intros Hs H2 Hl Hd H0 Hon. rewrite (head_reconstruct_poly (secret :: cs)) by done.
  f_equal. cbn [poly_eval]. rewrite Z.mul_0_l, Z.add_0_r. by apply Z.mod_small.
Qed.

Lemma head_reconstruct_correct_witness :
  Head.reconstruct_secret [(3, 1264); (1, 1244); (2, 1254)] = Ok 1234.
Proof.
  apply (head_reconstruct_correct 1234 [10] [(3, 1264); (1, 1244); (2, 1254)]);
    [done|simpl; lia|simpl; lia|by apply (bool_decide_unpack _)|by apply (bool_decide_unpack _)|].
  repeat constructor.
Defined.

(** C24: on the incoming side of the conflict the same shares give the secret
    multiplied by [(-1)^(k-1)]: with an even number [k] of shares the
    reconstruction returns the negated secret. *)
Theorem incoming_reconstruct_sign cs shares :
  (2 <= length shares)%nat -> (length cs <= length shares)%nat ->
  distinct_p shares.*1 -> on_polynomial cs shares ->
  Incoming.reconstruct_secret shares =
    Ok (if Nat.even (length shares) then (- poly_eval cs 0) mod FIELD_MODULUS
        else poly_eval cs 0 mod FIELD_MODULUS).
Proof.
  intros H2 Hl Hd Hon. unfold Incoming.reconstruct_secret.
  rewrite (proj2 (Nat.ltb_ge _ _)) by done. f_equal.
  pose proof (lagrange_sum_sign shares Hd) as Hs.
  rewrite (lagrange_sum_secret cs shares Hl Hd Hon), eqp_mod in Hs.
  apply eqp_small; [apply lagrange_sum_range|destruct (Nat.even _); apply mod_p_range|].
  rewrite Hs. destruct (Nat.even (length shares)) eqn:E; rewrite eqp_mod; apply eqp_of_eq.
  - apply Nat.even_spec in E as [k Hk]. rewrite Hk.
    replace (Z.of_nat (2 * k - 1)) with (1 + 2 * Z.of_nat (k - 1)) by lia.
    rewrite Z.pow_add_r, Z.pow_mul_r, Z.pow_1_r by lia.
    change ((-1) ^ 2) with 1. rewrite Z.pow_1_l by lia. lia.
  - assert (Ho : Nat.odd (length shares) = true) by (unfold Nat.odd; by rewrite E).
    apply Nat.odd_spec in Ho as [k Hk]. rewrite Hk.
    replace (Z.of_nat (2 * k + 1 - 1)) with (2 * Z.of_nat k) by lia.
    rewrite Z.pow_mul_r by lia. change ((-1) ^ 2) with 1. rewrite Z.pow_1_l by lia. lia.
Qed.

Lemma incoming_reconstruct_sign_witness :
  Incoming.reconstruct_secret [(1, 1244); (2, 1254)] = Ok (-1234 mod FIELD_MODULUS).
Proof.
  apply (incoming_reconstruct_sign [1234; 10] [(1, 1244); (2, 1254)]);
    [simpl; lia|simpl; lia|by apply (bool_decide_unpack _)|].
  repeat constructor.
Defined.

(** The HEAD version raises [ValueError] exactly on fewer than two shares,
    a zero index or a repeated index, and otherwise returns an element of the
    field. *)
Theorem head_reconstruct_validates shares :
  match Head.reconstruct_secret shares with
  | Ok secret => (2 <= length shares)%nat /\ 0 ∉ shares.*1 /\ NoDup shares.*1
                 /\ 0 <= secret < FIELD_MODULUS
  | Err e => e = ValueError /\
      ((length shares < 2)%nat \/ 0 ∈ shares.*1 \/ ~ NoDup shares.*1)
  end.
Proof.
  unfold Head.reconstruct_secret. rewrite head_guard_zero.
  destruct (Nat.ltb_spec (length shares) 2); [auto|].
  case_bool_decide; [auto|]. case_bool_decide; [|auto].
  split; [done|]. split; [done|]. split; [done|apply lagrange_sum_range].
Qed.

(** ** The sharing half in experiments/baselines.py *)

Lemma baseline_reconstruct_eq shares :
  Baseline.shamir_reconstruct_secret shares =
    if (length shares <? 2)%nat then Err ValueError else Ok (lagrange_sum Z.opp shares).
Proof.
  unfold Baseline.shamir_reconstruct_secret, lagrange_sum, lagrange_factors.
  destruct (length shares <? 2)%nat; [done|]. f_equal.
  apply fold_left_ext. intros s [i [xi yi]].
  erewrite (fold_left_ext _ _ (enumerate shares)); [reflexivity|].
  intros [n d] [j [xj yj]]. destruct (decide (i = j)); [done|].
  by rewrite Zmult_mod_idemp_r.
Qed.

Lemma share_value_eq coeffs x : Baseline.share_value coeffs x = poly_eval coeffs x mod FIELD_MODULUS.
Proof.
  induction coeffs as [|c cs IH]; [done|].
  unfold Baseline.share_value in *. rewrite reverse_cons, fold_left_app, IH. cbn [fold_left].
  apply eqp_mod_eq. rewrite eqp_mod. apply eqp_of_eq. simpl. lia.
Qed.

Lemma generate_shares_ok randbelow secret n t shares :
  Baseline.shamir_generate_shares randbelow secret n t = Ok shares ->
  t <= n /\ 0 <= secret < FIELD_MODULUS /\
  shares = (fun i => (Z.of_nat i,
      poly_eval (secret :: (randbelow <$> seq 0 (Z.to_nat (t - 1)))) (Z.of_nat i) mod FIELD_MODULUS))
    <$> seq 1 (Z.to_nat n).
Proof.
  unfold Baseline.shamir_generate_shares.
  destruct (Z.ltb_spec n t); [done|]. destruct (Z.ltb_spec secret 0); [done|].
  destruct (Z.leb_spec FIELD_MODULUS secret); [done|]. intros [= <-].
  split; [done|]. split; [done|]. apply list_fmap_ext. intros _ i _. by rewrite share_value_eq.
Qed.

Lemma distinct_p_range n : Z.of_nat n < FIELD_MODULUS -> distinct_p (Z.of_nat <$> seq 1 n).
Proof.
  intros Hn. unfold distinct_p. rewrite <- list_fmap_compose.
  apply NoDup_fmap_2_strong; [|apply NoDup_seq].
  intros i j Hi%elem_of_seq Hj%elem_of_seq. unfold compose, FIELD_MODULUS in *.
  rewrite !Z.mod_small by lia. lia.
Qed.

Lemma distinct_p_submseteq xs ys : xs ⊆+ ys -> distinct_p ys -> distinct_p xs.
Proof.
  intros [l H]%submseteq_Permutation Hd. eapply distinct_p_perm in Hd; [|exact H].
  eapply distinct_p_sublist; [|exact Hd]. by apply sublist_inserts_r.
Qed.

(** C13: sharing a secret among [n] parties with threshold [t] and
    reconstructing from any two or more distinct shares that number at least
    [t], in any order, gives the secret back, whatever coefficients were drawn. *)
Theorem baseline_share_reconstruct randbelow secret n t shares sub :
  n < FIELD_MODULUS ->
  Baseline.shamir_generate_shares randbelow secret n t = Ok shares ->
  sub ⊆+ shares -> 2 <= Z.of_nat (length sub) -> t <= Z.of_nat (length sub) ->
  Baseline.shamir_reconstruct_secret sub = Ok secret.
Proof.
  intros Hn Hg Hsub H2 Ht. apply generate_shares_ok in Hg as (_ & Hs & ->).
  set (cs := secret :: _) in Hsub.
  rewrite baseline_reconstruct_eq, (proj2 (Nat.ltb_ge _ _)) by lia.
  rewrite (lagrange_sum_secret cs).
  - f_equal. subst cs. cbn [poly_eval]. rewrite Z.mul_0_l, Z.add_0_r. by apply Z.mod_small.
  - subst cs. cbn [length]. rewrite length_fmap, length_seq. lia.
  - apply (distinct_p_submseteq _ (Z.of_nat <$> seq 1 (Z.to_nat n))).
    + apply (fmap_submseteq fst) in Hsub. by rewrite <- list_fmap_compose in Hsub.
    + apply distinct_p_range. unfold FIELD_MODULUS in *. lia.
  - unfold on_polynomial. rewrite Forall_forall. intros s Hin.
    eapply elem_of_submseteq in Hsub; [|exact Hin].
    apply list_elem_of_fmap in Hsub as (i & -> & _). apply eqp_mod.
Qed.

Lemma baseline_share_reconstruct_witness :
  Baseline.shamir_reconstruct_secret [(5, 420); (2, 1637); (4, 2844)] = Ok 1234.
Proof.
  apply (baseline_share_reconstruct (fun k => 100 * Z.of_nat k + 1665) 1234 5 3
           [(1, 1335); (2, 1637); (3, 2140); (4, 2844); (5, 420)]).
  - done.
  - vm_compute. reflexivity.
  - by apply (bool_decide_unpack _).
  - done.
  - done.
Defined.

(** ** Secrets of 32 field elements, two little-endian bytes each *)

Lemma le16_encode_byte v : 0 <= v < FIELD_MODULUS ->
  le16_encode v = [v mod 256; v / 256] /\ is_byte (v mod 256) /\ is_byte (v / 256).
Proof.
  unfold FIELD_MODULUS, le16_encode, is_byte. intros Hv.
  change 255 with (Z.ones 8). rewrite !Z.land_ones, Z.shiftr_div_pow2 by done.
  change (2 ^ 8) with 256. rewrite (Z.mod_small (v / 256)).
  - split; [done|]. Z.div_mod_to_equations; lia.
  - Z.div_mod_to_equations; lia.
Qed.

Lemma le16_encode_lookup vals k v :
  vals !! k = Some v ->
  concat (le16_encode <$> vals) !! (k * 2)%nat = Some (Z.land v 255) /\
  concat (le16_encode <$> vals) !! (k * 2 + 1)%nat = Some (Z.land (Z.shiftr v 8) 255).
Proof.
  revert k. induction vals as [|w vals IH]; intros k Hk; [done|].
  destruct k as [|k]; simpl in Hk; [by injection Hk as <-|].
  destruct (IH k Hk) as [H1 H2]. split; done.
Qed.

Lemma le16_concat_length vals : length (concat (le16_encode <$> vals)) = (length vals * 2)%nat.
Proof.
  induction vals as [|v vals IH]; [done|].
  rewrite fmap_cons, concat_cons, length_app, IH. done.
Qed.

(** The share of party [x] when element [e] of the secret is shared by [css !! e]. *)
Definition share_bytes (css : list (list Z)) (x : Z) : bytes :=
  concat (le16_encode <$> ((fun cs => poly_eval cs x mod FIELD_MODULUS) <$> css)).

Lemma elem_share_ok css x k cs :
  css !! k = Some cs ->
  elem_share k (x, share_bytes css x) = Ok (x, poly_eval cs x mod FIELD_MODULUS).
Proof.
  intros Hk. unfold elem_share, list_index. cbn [fst snd].
  set (v := poly_eval cs x mod FIELD_MODULUS).
  destruct (le16_encode_lookup ((fun cs => poly_eval cs x mod FIELD_MODULUS) <$> css) k v)
    as [H1 H2]; [by rewrite list_lookup_fmap, Hk|].
  unfold share_bytes. rewrite H1, H2. unfold mbind, result_bind. do 2 f_equal.
  assert (Hv : 0 <= v < FIELD_MODULUS) by apply mod_p_range.
  destruct (le16_encode_byte v Hv) as (He & Hb1 & Hb2). unfold le16_encode in He.
  injection He as -> ->. rewrite le16_add by done.
  rewrite Z.add_comm, <- Z.div_mod by done. by apply Z.mod_small.
Qed.

(** C23: [reconstruct_secret_bytes] inverts element-wise sharing: for 32
    polynomials with no more coefficients than shares, the reconstruction of
    the packed shares is the packed list of their constant terms. *)
Theorem reconstruct_bytes_correct css xs :
  length css = 32%nat -> Forall (fun cs => (length cs <= length xs)%nat) css ->
  (2 <= length xs)%nat -> distinct_p xs -> 0 ∉ xs ->
  reconstruct_secret_bytes Head.reconstruct_secret ((fun x => (x, share_bytes css x)) <$> xs) =
    Ok (concat (le16_encode <$> ((fun cs => poly_eval cs 0 mod FIELD_MODULUS) <$> css))).
Proof.
  intros Hcss Hdeg H2 Hd H0. unfold reconstruct_secret_bytes.
  destruct xs as [|x0 xs0]; [simpl in H2; lia|]. cbn [fmap list_fmap].
  assert (Hl : (length (share_bytes css x0) =? 64)%nat = true).
  { unfold share_bytes. rewrite le16_concat_length, length_fmap, Hcss. done. }
  rewrite Hl. set (xs := x0 :: xs0) in *.
  change ((x0, share_bytes css x0) :: ((fun x => (x, share_bytes css x)) <$> xs0))
    with ((fun x => (x, share_bytes css x)) <$> xs).
  rewrite (map_result_pure _ (fun k => poly_eval (nth k css []) 0 mod FIELD_MODULUS)).
  - unfold mbind, result_bind. f_equal. f_equal. f_equal. rewrite <- Hcss. clear.
    induction css as [|cs css IH]; [done|]. cbn [length seq]. rewrite <- seq_shift.
    rewrite !fmap_cons, <- list_fmap_compose. f_equal. rewrite <- IH. by apply list_fmap_ext.
  - intros k Hk%elem_of_seq.
    assert (Hcs : css !! k = Some (nth k css [])) by (destruct (nth_lookup_or_length css k []); [done|lia]).
    set (cs := nth k css []) in *. unfold reconstruct_element.
    assert (Hm : map_result (elem_share k) ((fun x => (x, share_bytes css x)) <$> xs)
                 = Ok ((fun x => (x, poly_eval cs x mod FIELD_MODULUS)) <$> xs)).
    { apply map_result_ok, Forall2_fmap, Forall_Forall2_diag, Forall_forall.
      intros x _. by apply elem_share_ok. }
    rewrite Hm. unfold mbind, result_bind.
    assert (Hf : ((fun x => (x, poly_eval cs x mod FIELD_MODULUS)) <$> xs).*1 = xs).
    { rewrite <- list_fmap_compose. apply list_fmap_id. }
    apply head_reconstruct_poly; rewrite ?Hf, ?length_fmap; try done.
    + rewrite Forall_lookup in Hdeg. by apply (Hdeg k).
    + unfold on_polynomial. rewrite Forall_fmap. apply Forall_forall. intros x _. apply eqp_mod.
Qed.

Lemma reconstruct_bytes_correct_witness :
  reconstruct_secret_bytes Head.reconstruct_secret
    ((fun x => (x, share_bytes (replicate 32 [3000; 17]) x)) <$> [4; 9]) =
  Ok (concat (le16_encode <$> ((fun cs => poly_eval cs 0 mod FIELD_MODULUS) <$> replicate 32 [3000; 17]))).
Proof.
  apply (reconstruct_bytes_correct (replicate 32 [3000; 17]) [4; 9]).
  - done.
  - by apply (bool_decide_unpack _).
  - simpl; lia.
  - by apply (bool_decide_unpack _).
  - by apply (bool_decide_unpack _).
Defined.

(** ** Byte strings shared byte by byte (experiments/baselines.py) *)

(** The polynomial of byte [j]: the byte, then its own random coefficients. *)
Definition byte_poly (randbelow : nat -> nat -> Z) (t : Z) (j : nat) (b : Z) : list Z :=
  b :: (randbelow j <$> seq 0 (Z.to_nat (t - 1))).

(** What party [i] holds for each byte of the secret. *)
Definition byte_values randbelow t (secret : bytes) (i : Z) : list Z :=
  imap (fun j b => poly_eval (byte_poly randbelow t j b) i mod FIELD_MODULUS) secret.

Lemma generate_byte_ok randbelow t n j b :
  t <= n -> is_byte b ->
  Baseline.shamir_generate_shares (randbelow j) b n t =
    Ok ((fun i => (Z.of_nat i, poly_eval (byte_poly randbelow t j b) (Z.of_nat i) mod FIELD_MODULUS))
          <$> seq 1 (Z.to_nat n)).
Proof.
  unfold is_byte. intros Ht Hb.
  destruct (Baseline.shamir_generate_shares (randbelow j) b n t) as [s|e] eqn:E.
  - apply generate_shares_ok in E as (_ & _ & ->). done.
  - exfalso. revert E. unfold Baseline.shamir_generate_shares.
    destruct (Z.ltb_spec n t); [lia|]. destruct (Z.ltb_spec b 0); [lia|].
    destruct (Z.leb_spec FIELD_MODULUS b); [unfold FIELD_MODULUS in *; lia|done].
Qed.

(** The table [shares_by_byte] and one of its columns. *)
Definition share_row randbelow t n (p : nat * Z) : list (Z * Z) :=
  (fun i => (Z.of_nat i,
     poly_eval (byte_poly randbelow t (fst p) (snd p)) (Z.of_nat i) mod FIELD_MODULUS))
    <$> seq 1 (Z.to_nat n).

Lemma share_row_lookup randbelow t n p k :
  (k < Z.to_nat n)%nat ->
  list_index (share_row randbelow t n p) k = Ok (Z.of_nat (S k),
    poly_eval (byte_poly randbelow t (fst p) (snd p)) (Z.of_nat (S k)) mod FIELD_MODULUS).
Proof.
  intros Hk. unfold list_index, share_row.
  rewrite list_lookup_fmap, lookup_seq_lt by done. done.
Qed.

Lemma party_share_eq randbelow t n secret k :
  secret <> [] -> (k < Z.to_nat n)%nat ->
  Baseline.party_share (share_row randbelow t n <$> enumerate secret) k =
    (ys ← bytes_of_ints (byte_values randbelow t secret (Z.of_nat (S k)));
     Ok (Z.of_nat (S k), ys)).
Proof.
  intros Hne Hk. unfold Baseline.party_share.
  assert (H0 : exists p, list_index (share_row randbelow t n <$> enumerate secret) 0 =
    Ok (share_row randbelow t n p)) by (destruct secret as [|b s]; [done|by eexists]).
  destruct H0 as [p H0]. rewrite H0. run. rewrite share_row_lookup by done. run.
  rewrite (proj2 (map_result_ok _ _ ((fun p => (Z.of_nat (S k),
     poly_eval (byte_poly randbelow t (fst p) (snd p)) (Z.of_nat (S k)) mod FIELD_MODULUS))
       <$> enumerate secret))).
  2:{ apply Forall2_fmap, Forall_Forall2_diag, Forall_forall. intros q _. by apply share_row_lookup. }
  run. rewrite <- list_fmap_compose. unfold enumerate, byte_values. by rewrite fmap_imap.
Qed.

(** The shares exist exactly when every value fits a byte. *)
Lemma generate_bytes_spec randbelow secret n t :
  is_bytes secret -> secret <> [] -> t <= n ->
  Baseline.shamir_generate_shares_bytes randbelow secret n t =
    map_result (fun i => ys ← bytes_of_ints (byte_values randbelow t secret (Z.of_nat i));
                         Ok (Z.of_nat i, ys)) (seq 1 (Z.to_nat n)).
Proof.
  intros Hb Hne Ht. unfold Baseline.shamir_generate_shares_bytes.
  rewrite (map_result_pure _ (share_row randbelow t n)).
  2:{ intros [j b] Hin. apply generate_byte_ok; [done|].
      apply elem_of_lookup_imap in Hin as (j' & b' & [= -> ->] & Hj).
      unfold is_bytes in Hb. rewrite Forall_lookup in Hb. by apply (Hb j'). }
  run. rewrite <- seq_shift, map_result_fmap. apply map_result_ext.
  intros k Hk%elem_of_seq. apply party_share_eq; [done|lia].
Qed.

Lemma generate_bytes_elem randbelow secret n t shares :
  is_bytes secret -> secret <> [] -> t <= n ->
  Baseline.shamir_generate_shares_bytes randbelow secret n t = Ok shares ->
  shares = (fun i => (Z.of_nat i, byte_values randbelow t secret (Z.of_nat i))) <$> seq 1 (Z.to_nat n).
Proof.
  intros Hb Hne Ht. rewrite generate_bytes_spec by done. intros H.
  apply map_result_ok in H. revert H. generalize (seq 1 (Z.to_nat n)). clear.
  induction shares as [|[x y] shares IH]; intros l H; inversion H as [|i ? l' ? Hi Hl]; subst; [done|].
  rewrite fmap_cons. f_equal; [|by apply IH].
  revert Hi. unfold bytes_of_ints. case_decide; run; [|done]. by intros [= <- <-].
Qed.

Lemma byte_values_lookup randbelow t secret i j b :
  secret !! j = Some b ->
  byte_values randbelow t secret i !! j =
    Some (poly_eval (byte_poly randbelow t j b) i mod FIELD_MODULUS).
Proof. intros H. unfold byte_values. by rewrite list_lookup_imap, H. Qed.

(** The reconstruction of one byte from a selection of the shares. *)
Lemma reconstruct_byte randbelow t secret n j b sub :
  n < FIELD_MODULUS -> secret !! j = Some b -> is_byte b ->
  sub ⊆+ ((fun i => (Z.of_nat i, byte_values randbelow t secret (Z.of_nat i))) <$> seq 1 (Z.to_nat n)) ->
  2 <= Z.of_nat (length sub) -> t <= Z.of_nat (length sub) ->
  (byte_shares ← map_result (fun '(x, y) => v ← list_index y j; Ok (x, v)) sub;
   Baseline.shamir_reconstruct_secret byte_shares) = Ok b.
Proof.
  intros Hn Hj Hb Hsub H2 Ht. set (cs := byte_poly randbelow t j b).
  rewrite (map_result_pure _ (fun s => (fst s, poly_eval cs (fst s) mod FIELD_MODULUS))).
  2:{ intros [x y] Hin. eapply elem_of_submseteq in Hin; [|exact Hsub].
      apply list_elem_of_fmap in Hin as (i & [= -> ->] & _).
      unfold list_index. by rewrite (byte_values_lookup _ _ _ _ _ _ Hj). }
  run. rewrite baseline_reconstruct_eq, length_fmap, (proj2 (Nat.ltb_ge _ _)) by lia.
  rewrite (lagrange_sum_secret cs).
  - subst cs. unfold byte_poly. cbn [poly_eval]. rewrite Z.mul_0_l, Z.add_0_r.
    unfold is_byte, FIELD_MODULUS in *. rewrite Z.mod_small by lia. done.
  - subst cs. unfold byte_poly. cbn [length]. rewrite !length_fmap, length_seq. lia.
  - apply (distinct_p_submseteq _ (Z.of_nat <$> seq 1 (Z.to_nat n))).
    + rewrite <- list_fmap_compose. apply (fmap_submseteq fst) in Hsub.
      by rewrite <- list_fmap_compose in Hsub.
    + apply distinct_p_range. unfold FIELD_MODULUS in *. lia.
  - unfold on_polynomial. rewrite Forall_fmap. apply Forall_forall. intros s _. apply eqp_mod.
Qed.

(** When the byte-wise sharing of a secret succeeds, reconstruction from
    any two or more of its shares that number at least the threshold returns
    the secret, byte for byte. *)
Theorem baseline_bytes_roundtrip randbelow secret n t shares sub :
  is_bytes secret -> secret <> [] -> t <= n < FIELD_MODULUS ->
  Baseline.shamir_generate_shares_bytes randbelow secret n t = Ok shares ->
  sub ⊆+ shares -> 2 <= Z.of_nat (length sub) -> t <= Z.of_nat (length sub) ->
  Baseline.shamir_reconstruct_secret_bytes sub = Ok secret.
Proof.
  intros Hb Hne [Ht Hn] Hg Hsub H2 Hts.
  rewrite (generate_bytes_elem _ _ _ _ _ Hb Hne Ht Hg) in Hsub.
  assert (Hy0 : forall x y, (x, y) ∈ sub -> length y = length secret).
  { intros x y Hin. eapply elem_of_submseteq in Hin; [|exact Hsub].
    apply list_elem_of_fmap in Hin as (i & [= -> ->] & _). apply length_imap. }
  assert (Hres : map_result (fun byte_idx =>
      byte_shares ← map_result (fun '(x, y) => v ← list_index y byte_idx; Ok (x, v)) sub;
      v ← Baseline.shamir_reconstruct_secret byte_shares;
      if decide (is_byte v) then Ok v else Err ValueError) (seq 0 (length secret)) = Ok secret).
  { apply map_result_ok, Forall2_same_length_lookup. split; [apply length_seq|].
    intros j i b Hi Hj. apply lookup_seq in Hi as [-> _]. simpl.
    unfold is_bytes in Hb. rewrite Forall_lookup in Hb. specialize (Hb j b Hj).
    pose proof (reconstruct_byte randbelow t secret n j b sub Hn Hj Hb Hsub H2 Hts) as Hr.
    destruct (map_result _ sub) as [bs|]; revert Hr; run; [|done]. intros Hr. rewrite Hr. run.
    by rewrite decide_True. }
  unfold Baseline.shamir_reconstruct_secret_bytes.
  destruct sub as [|[x0 y0] sub]; [simpl in H2; lia|].
  by rewrite (Hy0 x0 y0) by left.
Qed.

Lemma baseline_bytes_roundtrip_witness :
  Baseline.shamir_reconstruct_secret_bytes [(3, [15; 206]); (1, [9; 202])] = Ok [6; 200].
Proof.
  apply (baseline_bytes_roundtrip (fun j k => Z.of_nat (3 - j)) [6; 200] 3 2
           [(1, [9; 202]); (2, [12; 204]); (3, [15; 206])]).
  - by apply (bool_decide_unpack _).
  - done.
  - done.
  - vm_compute. reflexivity.
  - by apply (bool_decide_unpack _).
  - done.
  - done.
Defined.

(** The byte-wise sharing raises [ValueError] as soon as one share value
    is above 255: field elements go up to 3328 and [bytes(...)] refuses them. *)
Theorem baseline_bytes_overflow randbelow secret n t i :
  is_bytes secret -> secret <> [] -> t <= n -> 1 <= i <= n ->
  Exists (fun v => 256 <= v) (byte_values randbelow t secret i) ->
  Baseline.shamir_generate_shares_bytes randbelow secret n t = Err ValueError.
Proof.
  intros Hb Hne Ht Hi Hex. rewrite generate_bytes_spec by done.
  apply map_result_raises.
  - intros k _. unfold bytes_of_ints. case_decide; run; [left; by eexists|by right].
  - exists (Z.to_nat i). split; [apply elem_of_seq; lia|].
    rewrite Z2Nat.id by lia. unfold bytes_of_ints. rewrite decide_False; [done|].
    intros Hall. apply Exists_exists in Hex as (v & Hv & Hbig).
    rewrite Forall_forall in Hall. specialize (Hall v Hv). unfold is_byte in Hall. lia.
Qed.

Lemma baseline_bytes_overflow_witness :
  Baseline.shamir_generate_shares_bytes (fun _ _ => 300) [7] 3 2 = Err ValueError.
Proof.
  apply (baseline_bytes_overflow (fun _ _ => 300) [7] 3 2 1); try done.
  - by apply (bool_decide_unpack _).
  - apply Exists_cons_hd. by apply (bool_decide_unpack _).
Defined.
