(* ===== verification/Secrecy.v ===== *)
(** * Secrecy of the sharing

    One share fewer than the threshold says nothing about the secret: whatever
    values a coalition of [t - 1] parties holds, every secret of the field is
    explained by exactly one outcome of the random draws of
    [shamir_generate_shares].  The draws are independent and uniform, so the
    coalition's view has the same distribution for every secret. *)

From Stdlib Require Import ZArith Lia Setoid Morphisms.
From stdpp Require Import prelude.
From S2P Require Import Prelude Field Lagrange Shamir.
#[local] Open Scope gf_scope.

Definition in_field (v : Z) : Prop := 0 <= v < FIELD_MODULUS.

(** ** Interpolation in coefficient form *)

(** The coefficients of [c + (x - a) * Q(x)]. *)
Fixpoint linear_step (a c : Z) (Q : list Z) : list Z :=
  match Q with [] => [c] | q :: Q' => (c - a * q) :: linear_step a q Q' end.

Lemma linear_step_eval a c Q x : poly_eval (linear_step a c Q) x = c + (x - a) * poly_eval Q x.
Proof. revert c. induction Q as [|q Q IH]; intros c; simpl; [ring|]. rewrite IH. ring. Qed.

Lemma linear_step_length a c Q : length (linear_step a c Q) = S (length Q).
Proof. revert c. induction Q as [|q Q IH]; intros c; [done|]. simpl. by rewrite IH. Qed.

(** Coefficients may be reduced into the field. *)
Definition reduce (cs : list Z) : list Z := (fun c => c mod FIELD_MODULUS) <$> cs.

Lemma reduce_eval cs x : poly_eval (reduce cs) x == poly_eval cs x.
Proof.
  induction cs as [|c cs IH]; [done|]. unfold reduce in *. rewrite fmap_cons. cbn [poly_eval].
  rewrite IH. apply eqp_add; [apply eqp_mod|done].
Qed.

Lemma reduce_field cs : Forall in_field (reduce cs).
Proof. apply Forall_fmap, Forall_true. intros c. apply mod_p_range. Qed.

Definition through (cs : list Z) (pts : list (Z * Z)) : Prop :=
  forall x y, (x, y) ∈ pts -> poly_eval cs x == y.

Lemma interpolant_exists pts :
  distinct_p pts.*1 ->
  exists cs, length cs = length pts /\ Forall in_field cs /\ through cs pts.
Proof.
  enough (forall n pts, length pts = n -> distinct_p pts.*1 ->
    exists cs, length cs = n /\ through cs pts) as G.
  { intros Hd. destruct (G _ pts eq_refl Hd) as (cs & Hl & Hcs). exists (reduce cs).
    unfold reduce at 1. rewrite length_fmap. split; [done|]. split; [apply reduce_field|].
    intros x y Hin. rewrite reduce_eval. by apply Hcs. }
  induction n as [|n IH]; intros [|[a y0] rest] Hl Hd; try done.
  - exists []. split; [done|]. intros x y Hin. by apply not_elem_of_nil in Hin.
  - injection Hl as Hl. cbn [fmap list_fmap fst] in Hd. apply distinct_p_cons in Hd as [Ha Hd].
    set (quot := fun p : Z * Z => (fst p, (snd p - y0) * invp (fst p - a))).
    destruct (IH (quot <$> rest)) as (Q & HQ & Hthrough).
    { by rewrite length_fmap. }
    { by rewrite <- list_fmap_compose. }
    exists (linear_step a y0 Q). rewrite linear_step_length, HQ. split; [done|].
    intros x y [[= -> ->]|Hin]%elem_of_cons; rewrite linear_step_eval.
    + apply eqp_of_eq. ring.
    + assert (Hne : ~ x - a == 0).
      { intros H. apply (Ha x); [by apply (list_elem_of_fmap_2' fst _ (x, y))|].
        transitivity (x - a + a); [apply eqp_of_eq; ring|]. rewrite H. apply eqp_of_eq. ring. }
      rewrite (Hthrough x ((y - y0) * invp (x - a)));
        [|by apply (list_elem_of_fmap_2' quot rest (x, y))].
      transitivity (y0 + (y - y0) * (invp (x - a) * (x - a))); [apply eqp_of_eq; ring|].
      rewrite invp_l by done. apply eqp_of_eq. ring.
Qed.

(** A polynomial with as many distinct non-zero roots as coefficients is zero. *)
Lemma roots_zero cs xs :
  length cs = length xs -> distinct_p xs -> (forall x, x ∈ xs -> ~ x == 0) ->
  (forall x, x ∈ xs -> poly_eval cs x == 0) -> Forall (fun c => c == 0) cs.
Proof.
  revert xs. induction cs as [|c cs IH]; intros xs Hl Hd Hnz Hroot; [done|].
  assert (Hc : c == 0).
  { transitivity (poly_eval (c :: cs) 0); [apply eqp_of_eq; simpl; ring|].
    rewrite <- (interp0_poly (c :: cs) xs) by (lia || done).
    rewrite (interp0_congr _ (fun _ => 0 * 1) xs) by (intros x Hx; by rewrite Hroot).
    rewrite interp0_scale. done. }
  constructor; [done|]. destruct xs as [|x0 xs]; [done|]. injection Hl as Hl.
  apply distinct_p_cons in Hd as [_ Hd]. apply (IH xs); [done|done| |].
  - intros x Hx. apply Hnz. by right.
  - intros x Hx. specialize (Hroot x ltac:(by right)). cbn [poly_eval] in Hroot.
    rewrite Hc, Z.add_0_l in Hroot. apply (eqp_mul_cancel x); [apply Hnz; by right|].
    by rewrite Hroot, Z.mul_0_r.
Qed.

Definition psub (cs ds : list Z) : list Z := zip_with Z.sub cs ds.

Lemma psub_eval cs ds x :
  length cs = length ds -> poly_eval (psub cs ds) x = poly_eval cs x - poly_eval ds x.
Proof.
  revert ds. induction cs as [|c cs IH]; intros [|d ds] Hl; try done. injection Hl as Hl.
  cbn [psub zip_with poly_eval]. fold (psub cs ds). rewrite IH by done. ring.
Qed.

(** Two lists of field coefficients that agree at enough non-zero points are equal. *)
Lemma coefficients_unique secret cs ds xs :
  length cs = length xs -> length ds = length xs ->
  Forall in_field cs -> Forall in_field ds ->
  distinct_p xs -> (forall x, x ∈ xs -> ~ x == 0) ->
  (forall x, x ∈ xs -> poly_eval (secret :: cs) x == poly_eval (secret :: ds) x) -> cs = ds.
Proof.
  intros Hc Hds Fc Fd Hd Hnz Hag.
  assert (Hz : Forall (fun c => c == 0) (psub cs ds)).
  { apply (roots_zero _ xs); [|done|done|].
    - unfold psub. rewrite length_zip_with. lia.
    - intros x Hx. rewrite psub_eval by lia. specialize (Hag x Hx). cbn [poly_eval] in Hag.
      apply (eqp_mul_cancel x); [by apply Hnz|].
      transitivity ((secret + x * poly_eval cs x) - (secret + x * poly_eval ds x));
        [apply eqp_of_eq; ring|]. rewrite Hag. apply eqp_of_eq. ring. }
  apply list_eq_same_length with (length cs); [lia|done|].
  intros i c d _ Hci Hdi. rewrite Forall_lookup in Fc, Fd, Hz.
  apply eqp_small; [by apply (Fc i)|by apply (Fd i)|].
  specialize (Hz i (c - d)). unfold psub in Hz. rewrite lookup_zip_with, Hci in Hz. cbn in Hz.
  rewrite Hdi in Hz. specialize (Hz eq_refl).
  transitivity (c - d + d); [apply eqp_of_eq; ring|]. by rewrite Hz.
Qed.

(** ** What a coalition below the threshold sees *)

(** The draws of [secrets.randbelow] that give the coefficients [cs]. *)
Definition draws (cs : list Z) (k : nat) : Z := nth k cs 0.

Lemma draws_coefficients cs : draws cs <$> seq 0 (length cs) = cs.
Proof.
  apply list_eq. intros i. rewrite list_lookup_fmap.
  destruct (decide (i < length cs)%nat) as [Hi|Hi].
  - rewrite lookup_seq_lt by done. simpl. symmetry. by apply nth_lookup_Some'.
  - rewrite lookup_ge_None_2 by (rewrite length_seq; lia). by rewrite lookup_ge_None_2 by lia.
Qed.

(** Sharing [secret] with these draws gives the coalition exactly its values. *)
Definition explains (secret n t : Z) (coalition : list (Z * Z)) (cs : list Z) : Prop :=
  length cs = Z.to_nat (t - 1) /\ Forall in_field cs /\
  exists shares, Baseline.shamir_generate_shares (draws cs) secret n t = Ok shares /\
    forall s, s ∈ coalition -> s ∈ shares.

Lemma explains_iff secret n t coalition cs :
  t <= n -> in_field secret -> length cs = Z.to_nat (t - 1) -> Forall in_field cs ->
  Forall (fun s => 1 <= fst s <= n /\ in_field (snd s)) coalition ->
  explains secret n t coalition cs <-> through (secret :: cs) coalition.
Proof.
  intros Ht Hs Hl Hcs Hco. rewrite Forall_forall in Hco.
  set (value := fun i : nat => (Z.of_nat i, poly_eval (secret :: cs) (Z.of_nat i) mod FIELD_MODULUS)).
  assert (Hgen : Baseline.shamir_generate_shares (draws cs) secret n t =
                 Ok (value <$> seq 1 (Z.to_nat n))).
  { destruct (Baseline.shamir_generate_shares (draws cs) secret n t) as [shares|e] eqn:E.
    - apply generate_shares_ok in E as (_ & _ & ->). by rewrite <- Hl, draws_coefficients.
    - exfalso. revert E. unfold Baseline.shamir_generate_shares, in_field in *.
      rewrite (proj2 (Z.ltb_ge _ _)), (proj2 (Z.ltb_ge _ _)), (proj2 (Z.leb_gt _ _)) by lia. done. }
  assert (Hmem : forall x y, (x, y) ∈ coalition ->
    (x, y) ∈ (value <$> seq 1 (Z.to_nat n)) <-> poly_eval (secret :: cs) x == y).
  { intros x y Hin. destruct (Hco (x, y) Hin) as [Hx Hy]. simpl in Hx, Hy.
    rewrite list_elem_of_fmap. split.
    - intros (i & [= -> ->] & _). symmetry. apply eqp_mod.
    - intros He. exists (Z.to_nat x). rewrite elem_of_seq. split; [|lia].
      unfold value. rewrite Z2Nat.id by lia. f_equal. symmetry.
      apply eqp_small; [apply mod_p_range|done|]. by rewrite eqp_mod. }
  split.
  - intros (_ & _ & shares & Hg & Hin) x y Hxy. rewrite Hgen in Hg. injection Hg as <-.
    apply Hmem; [done|]. by apply Hin.
  - intros Hth. split; [done|]. split; [done|]. exists (value <$> seq 1 (Z.to_nat n)).
    split; [done|]. intros [x y] Hxy. apply Hmem; [done|]. by apply Hth.
Qed.

(** C14: fewer shares than the threshold reveal nothing.  Take any [t - 1]
    distinct parties and any field values for their shares: for every secret
    of the field exactly one outcome of the [t - 1] random draws makes
    [shamir_generate_shares] hand out those shares. *)
Theorem shares_hide_secret n t coalition secret :
  1 <= t <= n -> n < FIELD_MODULUS ->
  length coalition = Z.to_nat (t - 1) -> NoDup coalition.*1 ->
  Forall (fun s => 1 <= fst s <= n /\ in_field (snd s)) coalition ->
  in_field secret ->
  exists cs, explains secret n t coalition cs /\
    forall ds, explains secret n t coalition ds -> ds = cs.
Proof.
  intros Ht Hn Hl Hnd Hco Hs.
  assert (Hx : forall x, x ∈ coalition.*1 -> 1 <= x <= n).
  { intros x (s & -> & Hin)%list_elem_of_fmap. rewrite Forall_forall in Hco. by apply Hco. }
  assert (Hd : distinct_p coalition.*1).
  { unfold distinct_p. apply NoDup_fmap_2_strong; [|done]. intros a b Ha Hb.
    apply Hx in Ha, Hb. by rewrite !Z.mod_small by lia. }
  assert (Hnz : forall x, x ∈ coalition.*1 -> ~ x == 0).
  { intros x Hin. apply Hx in Hin. rewrite eqp_spec, !Z.mod_small by (unfold FIELD_MODULUS in *; lia). lia. }
  set (quot := fun s : Z * Z => (fst s, (snd s - secret) * invp (fst s))).
  destruct (interpolant_exists (quot <$> coalition)) as (cs & Hlen & Hf & Hth).
  { by rewrite <- list_fmap_compose. }
  rewrite length_fmap, Hl in Hlen.
  assert (Hthrough : through (secret :: cs) coalition).
  { intros x y Hin. cbn [poly_eval].
    rewrite (Hth x ((y - secret) * invp x)) by by apply (list_elem_of_fmap_2' quot coalition (x, y)).
    transitivity (secret + (y - secret) * (invp x * x)); [apply eqp_of_eq; ring|].
    rewrite invp_l; [apply eqp_of_eq; ring|].
    apply Hnz. by apply (list_elem_of_fmap_2' fst _ (x, y)). }
  exists cs. split; [by apply explains_iff; (done || lia)|]. intros ds Hds.
  pose proof Hds as (Hdl & Hdf & _). apply explains_iff in Hds; [|done || lia..].
  apply (coefficients_unique secret ds cs coalition.*1); rewrite ?length_fmap; try (done || lia).
  intros x (s & -> & Hin)%list_elem_of_fmap. destruct s as [x y]. cbn [fst].
  by rewrite (Hds x y Hin), (Hthrough x y Hin).
Qed.

Lemma shares_hide_secret_witness :
  exists cs, explains 77 5 3 [(4, 2000); (2, 3328)] cs /\
    forall ds, explains 77 5 3 [(4, 2000); (2, 3328)] ds -> ds = cs.
Proof.
  apply (shares_hide_secret 5 3 [(4, 2000); (2, 3328)] 77);
    [done|done|done|by apply (bool_decide_unpack _)| |done].
  repeat constructor; done.
Defined.
