(* ===== verification/Sha256.v ===== *)
(** * SHA-256 and HMAC-SHA-256

    Python's [hashlib.sha256] and [hmac.new(key, msg, hashlib.sha256)], which
    the key derivation calls: FIPS 180-4 and RFC 2104 on byte strings.  The
    round constants are computed from their definition, the fractional parts
    of roots of the first primes. *)

From Stdlib Require Import ZArith Lia.
From stdpp Require Import prelude.
From S2P Require Import Prelude PyBytes.

Definition word_mod : Z := 2 ^ 32.

Definition add32 (a b : Z) : Z := (a + b) mod word_mod.
Definition not32 (a : Z) : Z := Z.lxor a (word_mod - 1).
Definition rotr (n a : Z) : Z := Z.lor (Z.shiftr a n) (Z.shiftl a (32 - n) mod word_mod).

Definition ch (x y z : Z) : Z := Z.lxor (Z.land x y) (Z.land (not32 x) z).
Definition maj (x y z : Z) : Z := Z.lxor (Z.land x y) (Z.lxor (Z.land x z) (Z.land y z)).
Definition big_sigma0 (x : Z) : Z := Z.lxor (rotr 2 x) (Z.lxor (rotr 13 x) (rotr 22 x)).
Definition big_sigma1 (x : Z) : Z := Z.lxor (rotr 6 x) (Z.lxor (rotr 11 x) (rotr 25 x)).
Definition small_sigma0 (x : Z) : Z := Z.lxor (rotr 7 x) (Z.lxor (rotr 18 x) (Z.shiftr x 3)).
Definition small_sigma1 (x : Z) : Z := Z.lxor (rotr 17 x) (Z.lxor (rotr 19 x) (Z.shiftr x 10)).

(** The first 64 primes. *)
Definition is_prime (n : nat) : bool :=
  (2 <=? n)%nat && forallb (fun d => negb (Nat.modulo n d =? 0)%nat) (seq 2 (n - 2)).
Definition primes64 : list Z :=
  Eval vm_compute in Z.of_nat <$> filter (fun n => is_prime n = true) (seq 2 310).

(** The integer cube root below [2 ^ n], by bisection from the top bit. *)
Fixpoint cube_root_bits (n : nat) (x r : Z) : Z :=
  match n with
  | O => r
  | S n' =>
      let r' := r + 2 ^ Z.of_nat n' in
      cube_root_bits n' x (if r' * r' * r' <=? x then r' else r)
  end.

Definition sha_k : list Z :=
  Eval vm_compute in (fun p => cube_root_bits 40 (p * 2 ^ 96) 0 mod word_mod) <$> primes64.
Definition sha_h0 : list Z :=
  Eval vm_compute in (fun p => Z.sqrt (p * 2 ^ 64) mod word_mod) <$> take 8 primes64.

(** ** Padding *)

Definition sha_pad (msg : bytes) : bytes :=
  let zeros := Z.to_nat ((55 - Z.of_nat (length msg)) mod 64) in
  msg ++ [128] ++ replicate zeros 0 ++ be_encode 8 (8 * Z.of_nat (length msg)).

(** ** The message schedule and the compression function *)

(** The window holds the last sixteen words, most recent first. *)
Fixpoint schedule (n : nat) (window : list Z) : list Z :=
  match n with
  | O => []
  | S n' =>
      let w t := nth t window 0 in
      let next := add32 (add32 (small_sigma1 (w 1%nat)) (w 6%nat))
                        (add32 (small_sigma0 (w 14%nat)) (w 15%nat)) in
      next :: schedule n' (next :: take 15 window)
  end.

Definition words_of (block : bytes) : list Z :=
  (fun i => be_decode (take 4 (drop (4 * i) block))) <$> seq 0 16.

Definition expand (block : bytes) : list Z :=
  let w := words_of block in w ++ schedule 48 (reverse w).

Record hash8 : Type := Hash8 { ha : Z; hb : Z; hc : Z; hd : Z; he : Z; hf : Z; hg : Z; hh : Z }.

Definition sha_round (s : hash8) (kw : Z * Z) : hash8 :=
  let '(Hash8 a b c d e f g h) := s in
  let t1 := add32 (add32 h (big_sigma1 e)) (add32 (ch e f g) (add32 (fst kw) (snd kw))) in
  let t2 := add32 (big_sigma0 a) (maj a b c) in
  Hash8 (add32 t1 t2) a b c (add32 d t1) e f g.

Definition hash8_add (s t : hash8) : hash8 :=
  let '(Hash8 a b c d e f g h) := s in
  let '(Hash8 a' b' c' d' e' f' g' h') := t in
  Hash8 (add32 a a') (add32 b b') (add32 c c') (add32 d d')
        (add32 e e') (add32 f f') (add32 g g') (add32 h h').

Definition compress (s : hash8) (block : bytes) : hash8 :=
  hash8_add s (fold_left sha_round (zip sha_k (expand block)) s).

Definition initial_hash : hash8 :=
  let h i := nth i sha_h0 0 in
  Hash8 (h 0%nat) (h 1%nat) (h 2%nat) (h 3%nat) (h 4%nat) (h 5%nat) (h 6%nat) (h 7%nat).

Fixpoint blocks (n : nat) (bs : bytes) : list bytes :=
  match n with O => [] | S n' => take 64 bs :: blocks n' (drop 64 bs) end.

Definition digest_bytes (s : hash8) : bytes :=
  concat (be_encode 4 <$> [ha s; hb s; hc s; hd s; he s; hf s; hg s; hh s]).

(** [hashlib.sha256(msg).digest()] *)
Definition sha256 (msg : bytes) : bytes :=
  let padded := sha_pad msg in
  digest_bytes (fold_left compress (blocks (length padded / 64)%nat padded) initial_hash).

(** ** HMAC *)

Definition hmac_key (key : bytes) : bytes :=
  let k := if (64 <? length key)%nat then sha256 key else key in
  k ++ replicate (64 - length k) 0.

(** [hmac.new(key, msg, hashlib.sha256).digest()] *)
Definition hmac_sha256 (key msg : bytes) : bytes :=
  let k := hmac_key key in
  let inner := sha256 ((Z.lxor 54 <$> k) ++ msg) in
  sha256 ((Z.lxor 92 <$> k) ++ inner).

Lemma sha256_length msg : length (sha256 msg) = 32%nat.
Proof. done. Qed.

Lemma sha256_is_bytes msg : is_bytes (sha256 msg).
Proof.
  unfold sha256, digest_bytes. apply Forall_concat, Forall_fmap, Forall_true.
  intros v. apply be_encode_is_bytes.
Qed.

Lemma hmac_length key msg : length (hmac_sha256 key msg) = 32%nat.
Proof. apply sha256_length. Qed.

Lemma hmac_is_bytes key msg : is_bytes (hmac_sha256 key msg).
Proof. apply sha256_is_bytes. Qed.

#[export] Hint Resolve sha256_length sha256_is_bytes hmac_length hmac_is_bytes : bytes_db.

(** The padded message is a whole number of blocks. *)
Lemma sha_pad_blocks msg : (length (sha_pad msg) mod 64 = 0)%nat.
Proof.
  unfold sha_pad. rewrite !length_app, length_replicate, be_encode_length. cbn [length].
  set (n := length msg).
  assert (H : (Z.of_nat n + (1 + ((55 - Z.of_nat n) mod 64 + 8))) mod 64 = 0).
  { Z.div_mod_to_equations. lia. }
  apply Nat2Z.inj. rewrite Nat2Z.inj_mod.
  etransitivity; [|exact H]. f_equal. rewrite !Nat2Z.inj_add, Z2Nat.id by (apply Z.mod_pos_bound; lia).
  lia.
Qed.

(** The FIPS 180-4 test vector for the message "abc". *)
Example sha256_abc :
  be_decode (sha256 [97; 98; 99]) =
  0xba7816bf8f01cfea414140de5dae2223b00361a396177a9cb410ff61f20015ad.
Proof. vm_compute. reflexivity. Qed.

#[global] Opaque sha256 hmac_sha256.
