(* ===== verification/Kdf.v ===== *)
(** * Key derivation

    The HKDF functions written out in host_server/shamir_recovery.py (and
    again, word for word, in host_server/mock_client.py and the bridge
    classes), and the three derivations built on them. *)

From Stdlib Require Import ZArith Lia Ascii.
From stdpp Require Import prelude strings.
From S2P Require Import Prelude PyBytes Sha256.

(** A [b"..."] literal. *)
Fixpoint byte_literal (s : string) : bytes :=
  match s with
  | EmptyString => []
  | String c s' => Z.of_N (N_of_ascii c) :: byte_literal s'
  end.

Definition KDF_LABEL_PAIRWISE_MASK : bytes := byte_literal "SwiftAgg-PairwiseMask-v1".
Definition KDF_LABEL_STREAM_MASK : bytes := byte_literal "SwiftAgg-StreamMask-v1".
Definition KDF_LABEL_SHAMIR_SECRET : bytes := byte_literal "SwiftAgg-ShamirSecret-v1".
Definition KDF_LABEL_SESSION_KEY : bytes := byte_literal "FL-SessionKey-v1".

(** An empty salt is replaced by 32 zero bytes. *)
Definition hkdf_extract (salt ikm : bytes) : bytes :=
  let salt := match salt with [] => zero_bytes 32 | _ => salt end in
  hmac_sha256 salt ikm.

(** The [while len(okm) < length] loop; [bytes([ctr])] raises once the counter
    leaves the byte range. *)
Fixpoint hkdf_expand_loop (fuel : nat) (prk info : bytes) (len : nat) (okm t : bytes) (ctr : Z)
    : result bytes :=
  if (length okm <? len)%nat then
    match fuel with
    | O => Err Diverges
    | S fuel' =>
        c ← bytes_of_ints [ctr];
        let t' := hmac_sha256 prk (t ++ info ++ c) in
        hkdf_expand_loop fuel' prk info len (okm ++ t') t' (ctr + 1)
    end
  else Ok okm.

(** [hkdf_expand]: every iteration adds 32 bytes, so [len] iterations are
    more than enough. *)
Definition hkdf_expand (prk info : bytes) (len : nat) : result bytes :=
  okm ← hkdf_expand_loop len prk info len [] [] 1;
  Ok (take len okm).

(** The [info] argument of each derivation, after its label. *)
Definition pairwise_info (client_a client_b round_id : Z) : result bytes :=
  ids ← bytes_of_ints [client_a; client_b];
  r ← int_to_bytes 4 round_id;
  Ok (ids ++ r).

Definition stream_info (client_id round_id chunk_index : Z) : result bytes :=
  id ← bytes_of_ints [client_id];
  r ← int_to_bytes 4 round_id;
  i ← int_to_bytes 2 chunk_index;
  Ok (id ++ r ++ i).

Definition shamir_info (client_id round_id : Z) : result bytes :=
  id ← bytes_of_ints [client_id];
  r ← int_to_bytes 4 round_id;
  Ok (id ++ r).

Definition derive_pairwise_mask_seed (shared_secret : bytes) (client_a client_b round_id : Z)
    : result bytes :=
  info ← pairwise_info client_a client_b round_id;
  hkdf_expand (hkdf_extract [] shared_secret) (KDF_LABEL_PAIRWISE_MASK ++ info) 32.

Definition derive_stream_mask_seed (shared_secret : bytes) (client_id round_id chunk_index : Z)
    : result bytes :=
  info ← stream_info client_id round_id chunk_index;
  hkdf_expand (hkdf_extract [] shared_secret) (KDF_LABEL_STREAM_MASK ++ info) 32.

Definition derive_shamir_secret (shared_secret : bytes) (client_id round_id : Z) : result bytes :=
  info ← shamir_info client_id round_id;
  hkdf_expand (hkdf_extract [] shared_secret) (KDF_LABEL_SHAMIR_SECRET ++ info) 32.

(** ** The output stream of RFC 5869 *)

(** T(n), with T(0) empty. *)
Fixpoint hkdf_block (prk info : bytes) (n : nat) : bytes :=
  match n with
  | O => []
  | S n' => hmac_sha256 prk (hkdf_block prk info n' ++ info ++ [Z.of_nat n])
  end.

(** T(1) | T(2) | ... | T(n) *)
Definition hkdf_stream (prk info : bytes) (n : nat) : bytes :=
  concat (hkdf_block prk info <$> seq 1 n).

Lemma hkdf_block_length prk info n : length (hkdf_block prk info (S n)) = 32%nat.
Proof. apply hmac_length. Qed.

Lemma hkdf_block_is_bytes prk info n : is_bytes (hkdf_block prk info n).
Proof. destruct n; [constructor|apply hmac_is_bytes]. Qed.

Lemma hkdf_stream_succ prk info n :
  hkdf_stream prk info (S n) = hkdf_stream prk info n ++ hkdf_block prk info (S n).
Proof.
  unfold hkdf_stream. rewrite seq_S, fmap_app, concat_app. cbn [fmap list_fmap concat].
  by rewrite app_nil_r.
Qed.

Lemma hkdf_stream_length prk info n : length (hkdf_stream prk info n) = (32 * n)%nat.
Proof.
  induction n as [|n IH]; [done|].
  rewrite hkdf_stream_succ, length_app, IH, hkdf_block_length. lia.
Qed.

Lemma hkdf_stream_is_bytes prk info n : is_bytes (hkdf_stream prk info n).
Proof.
  induction n as [|n IH]; [constructor|]. rewrite hkdf_stream_succ.
  apply Forall_app. split; [done|apply hkdf_block_is_bytes].
Qed.

(** A longer stream extends a shorter one. *)
Lemma hkdf_stream_take prk info n m len :
  (n <= m)%nat -> (len <= 32 * n)%nat ->
  take len (hkdf_stream prk info m) = take len (hkdf_stream prk info n).
Proof.
  intros Hnm Hlen. induction Hnm as [|m Hnm IH]; [done|].
  rewrite hkdf_stream_succ, take_app_le by (rewrite hkdf_stream_length; lia). done.
Qed.

(** Number of blocks that cover [len] bytes. *)
Definition hkdf_blocks (len : nat) : nat := ((len + 31) / 32)%nat.

Lemma hkdf_blocks_spec len : (32 * hkdf_blocks len < len + 32 /\ len <= 32 * hkdf_blocks len)%nat.
Proof. unfold hkdf_blocks. pose proof (Nat.div_mod_eq (len + 31) 32).
  pose proof (Nat.mod_upper_bound (len + 31) 32). lia. Qed.

(** The loop, started after [n] blocks, runs to the last block it needs; it
    raises when that block's counter is above 255. *)
Lemma hkdf_expand_loop_spec prk info len fuel n :
  (n <= hkdf_blocks len)%nat -> (hkdf_blocks len <= n + fuel)%nat -> (n <= 255)%nat ->
  hkdf_expand_loop fuel prk info len (hkdf_stream prk info n) (hkdf_block prk info n) (Z.of_nat n + 1)
  = if (hkdf_blocks len <=? 255)%nat then Ok (hkdf_stream prk info (hkdf_blocks len))
    else Err ValueError.
Proof.
  pose proof (hkdf_blocks_spec len) as Hb.
  revert n. induction fuel as [|fuel IH]; intros n Hn Hf H255;
    cbn [hkdf_expand_loop]; rewrite hkdf_stream_length.
  - assert (hkdf_blocks len = n) as -> by lia.
    rewrite (proj2 (Nat.ltb_ge _ _)) by lia. by rewrite (proj2 (Nat.leb_le _ _)).
  - destruct (Nat.ltb_spec (32 * n) len) as [Hlt|Hge].
    + destruct (decide (n = 255%nat)) as [->|Hne].
      * rewrite (proj2 (Nat.leb_gt _ _)) by lia. done.
      * unfold bytes_of_ints. rewrite decide_True.
        2:{ repeat constructor; unfold is_byte; lia. }
        run. specialize (IH (S n)).
        rewrite hkdf_stream_succ in IH. cbn [hkdf_block] in IH.
        replace (Z.of_nat (S n)) with (Z.of_nat n + 1) in IH by lia.
        apply IH; lia.
    + assert (hkdf_blocks len = n) as -> by lia. by rewrite (proj2 (Nat.leb_le _ _)).
Qed.

Lemma hkdf_expand_eq prk info len :
  hkdf_expand prk info len =
    if (len <=? 255 * 32)%nat then Ok (take len (hkdf_stream prk info (hkdf_blocks len)))
    else Err ValueError.
Proof.
  pose proof (hkdf_blocks_spec len) as Hb. unfold hkdf_expand.
  change (hkdf_expand_loop len prk info len [] [] 1) with
    (hkdf_expand_loop len prk info len (hkdf_stream prk info 0) (hkdf_block prk info 0) (Z.of_nat 0 + 1)).
  rewrite hkdf_expand_loop_spec by lia.
  destruct (Nat.leb_spec (hkdf_blocks len) 255); destruct (Nat.leb_spec len (255 * 32)); run; try done; lia.
Qed.

Lemma hkdf_expand_ok prk info len okm :
  hkdf_expand prk info len = Ok okm -> length okm = len /\ is_bytes okm.
Proof.
  rewrite hkdf_expand_eq. destruct (len <=? 255 * 32)%nat; [|done]. intros [= <-].
  pose proof (hkdf_blocks_spec len).
  split; [rewrite length_take, hkdf_stream_length; lia|].
  apply Forall_take, hkdf_stream_is_bytes.
Qed.

(** ** Properties of the derivations *)

(** C16: [hkdf_expand] is RFC 5869's expansion: for up to 255 blocks it returns
    the first [len] bytes of T(1) | T(2) | ..., so the loop terminates and the
    output has the requested length and is a prefix of every longer output;
    beyond 8160 bytes the block counter leaves the byte range and it raises
    [ValueError]. *)
Theorem hkdf_expand_rfc5869 prk info len :
  (forall n, (255 * 32 >= len)%nat -> (32 * n >= len)%nat ->
     hkdf_expand prk info len = Ok (take len (hkdf_stream prk info n)) /\
     length (take len (hkdf_stream prk info n)) = len) /\
  ((255 * 32 < len)%nat -> hkdf_expand prk info len = Err ValueError).
Proof.
  rewrite hkdf_expand_eq. pose proof (hkdf_blocks_spec len) as Hb. split.
  - intros n H1 H2. rewrite (proj2 (Nat.leb_le _ _)) by lia. split.
    + f_equal. destruct (decide (n <= hkdf_blocks len)%nat).
      * apply hkdf_stream_take; lia.
      * symmetry. apply hkdf_stream_take; lia.
    + rewrite length_take, hkdf_stream_length. lia.
  - intros H. by rewrite (proj2 (Nat.leb_gt _ _)).
Qed.

(** What a derivation is for. *)
Inductive purpose :=
  | Pairwise (client_a client_b round_id : Z)
  | Stream (client_id round_id chunk_index : Z)
  | ShamirSecret (client_id round_id : Z).

#[export] Instance purpose_eq_dec : EqDecision purpose.
Proof. solve_decision. Defined.

(** The whole [info] string the derivation passes to [hkdf_expand]. *)
Definition purpose_info (p : purpose) : result bytes :=
  match p with
  | Pairwise a b r => i ← pairwise_info a b r; Ok (KDF_LABEL_PAIRWISE_MASK ++ i)
  | Stream c r k => i ← stream_info c r k; Ok (KDF_LABEL_STREAM_MASK ++ i)
  | ShamirSecret c r => i ← shamir_info c r; Ok (KDF_LABEL_SHAMIR_SECRET ++ i)
  end.

Definition derive (shared_secret : bytes) (p : purpose) : result bytes :=
  match p with
  | Pairwise a b r => derive_pairwise_mask_seed shared_secret a b r
  | Stream c r k => derive_stream_mask_seed shared_secret c r k
  | ShamirSecret c r => derive_shamir_secret shared_secret c r
  end.

Lemma derive_eq ss p :
  derive ss p = (info ← purpose_info p; hkdf_expand (hkdf_extract [] ss) info 32).
Proof.
  destruct p; cbn [derive purpose_info];
    unfold derive_pairwise_mask_seed, derive_stream_mask_seed, derive_shamir_secret;
    [destruct (pairwise_info _ _ _)|destruct (stream_info _ _ _)|destruct (shamir_info _ _)];
    run; reflexivity.
Qed.

(** The identifiers a derivation accepts. *)
Definition purpose_ok (p : purpose) : Prop :=
  match p with
  | Pairwise a b r => is_byte a /\ is_byte b /\ 0 <= r < 2 ^ 32
  | Stream c r k => is_byte c /\ 0 <= r < 2 ^ 32 /\ 0 <= k < 2 ^ 16
  | ShamirSecret c r => is_byte c /\ 0 <= r < 2 ^ 32
  end.

#[export] Instance purpose_ok_dec p : Decision (purpose_ok p).
Proof. destruct p; simpl; apply _. Defined.

Lemma bytes1_eq a : bytes_of_ints [a] = if decide (is_byte a) then Ok [a] else Err ValueError.
Proof.
  unfold bytes_of_ints. apply decide_ext. by rewrite Forall_singleton.
Qed.

Lemma bytes2_eq a b :
  bytes_of_ints [a; b] = if decide (is_byte a /\ is_byte b) then Ok [a; b] else Err ValueError.
Proof.
  unfold bytes_of_ints. apply decide_ext. by rewrite Forall_cons, Forall_singleton.
Qed.

Lemma pairwise_info_ok a b r i :
  pairwise_info a b r = Ok i <->
  (is_byte a /\ is_byte b /\ 0 <= r < 2 ^ 32) /\ i = [a; b] ++ be_encode 4 r.
Proof.
  unfold pairwise_info, int_to_bytes. rewrite bytes2_eq. change (8 * Z.of_nat 4) with 32.
  repeat case_decide; run; naive_solver.
Qed.

Lemma stream_info_ok c r k i :
  stream_info c r k = Ok i <->
  (is_byte c /\ 0 <= r < 2 ^ 32 /\ 0 <= k < 2 ^ 16) /\ i = [c] ++ be_encode 4 r ++ be_encode 2 k.
Proof.
  unfold stream_info, int_to_bytes. rewrite bytes1_eq.
  change (8 * Z.of_nat 4) with 32. change (8 * Z.of_nat 2) with 16.
  repeat case_decide; run; naive_solver.
Qed.

Lemma shamir_info_ok c r i :
  shamir_info c r = Ok i <-> (is_byte c /\ 0 <= r < 2 ^ 32) /\ i = [c] ++ be_encode 4 r.
Proof.
  unfold shamir_info, int_to_bytes. rewrite bytes1_eq. change (8 * Z.of_nat 4) with 32.
  repeat case_decide; run; naive_solver.
Qed.

(** The info string of accepted identifiers. *)
Definition info_string (p : purpose) : bytes :=
  match p with
  | Pairwise a b r => KDF_LABEL_PAIRWISE_MASK ++ [a; b] ++ be_encode 4 r
  | Stream c r k => KDF_LABEL_STREAM_MASK ++ [c] ++ be_encode 4 r ++ be_encode 2 k
  | ShamirSecret c r => KDF_LABEL_SHAMIR_SECRET ++ [c] ++ be_encode 4 r
  end.

Lemma bind_label_ok (r : result bytes) label i :
  (x ← r; Ok (label ++ x)) = Ok i <-> exists x, r = Ok x /\ i = label ++ x.
Proof. destruct r; run; naive_solver. Qed.

Lemma purpose_info_ok p info : purpose_info p = Ok info <-> purpose_ok p /\ info = info_string p.
Proof.
  destruct p; cbn [purpose_info purpose_ok info_string]; rewrite bind_label_ok.
  - setoid_rewrite pairwise_info_ok. naive_solver.
  - setoid_rewrite stream_info_ok. naive_solver.
  - setoid_rewrite shamir_info_ok. naive_solver.
Qed.

Lemma purpose_info_err p e :
  purpose_info p = Err e -> e = ValueError \/ e = OverflowError.
Proof.
  destruct p; cbn [purpose_info]; unfold pairwise_info, stream_info, shamir_info, int_to_bytes;
    rewrite ?bytes1_eq, ?bytes2_eq; repeat case_decide; run; naive_solver.
Qed.

Lemma be_encode_inj n v w :
  0 <= v < 2 ^ (8 * Z.of_nat n) -> 0 <= w < 2 ^ (8 * Z.of_nat n) ->
  be_encode n v = be_encode n w -> v = w.
Proof.
  intros Hv Hw H. rewrite <- (be_decode_encode n v Hv), <- (be_decode_encode n w Hw). by rewrite H.
Qed.

(** Domain separation: two derivations that pass the same [info] string to
    HKDF have the same purpose, the same clients, the same round and the same
    chunk, so no seed is ever reused for two things by construction of the
    labels. *)
Theorem purpose_info_injective p q info :
  purpose_info p = Ok info -> purpose_info q = Ok info -> p = q.
Proof.
  rewrite !purpose_info_ok. intros [Hp ->] [Hq He].
  destruct p as [a b r|c r k|c r]; destruct q as [a' b' r'|c' r' k'|c' r'];
    cbn [info_string purpose_ok] in *; destruct_and!;
    try (apply (f_equal (fun l => nth 9 l 0)) in He; discriminate He);
    try (apply (f_equal (fun l => nth 10 l 0)) in He; discriminate He);
    apply app_inv_head in He.
  - apply app_inj_1 in He as [[= -> ->] Hr]; [|done]. f_equal. by apply (be_encode_inj 4).
  - apply app_inj_1 in He as [[= ->] He]; [|done].
    apply app_inj_1 in He as [Hr Hk]; [|by rewrite !be_encode_length].
    f_equal; [by apply (be_encode_inj 4)|by apply (be_encode_inj 2)].
  - apply app_inj_1 in He as [[= ->] Hr]; [|done]. f_equal. by apply (be_encode_inj 4).
Qed.

Lemma purpose_info_injective_witness :
  ShamirSecret 3 7 = ShamirSecret 3 7.
Proof.
  apply (purpose_info_injective _ _ (KDF_LABEL_SHAMIR_SECRET ++ [3; 0; 0; 0; 7]));
    vm_compute; reflexivity.
Defined.

(** A derivation returns a 32-byte seed exactly when its identifiers fit
    their fields (client ids in a byte, the round in four bytes, the chunk in
    two) and raises otherwise: it never runs out of its counter. *)
Theorem derive_total ss p :
  if bool_decide (purpose_ok p)
  then exists seed, derive ss p = Ok seed /\ length seed = 32%nat /\ is_bytes seed
  else derive ss p = Err ValueError \/ derive ss p = Err OverflowError.
Proof.
  rewrite derive_eq. case_bool_decide as Hp.
  - assert (Hi : purpose_info p = Ok (info_string p)) by (by apply purpose_info_ok).
    rewrite Hi. run. destruct (hkdf_expand _ (info_string p) 32) as [seed|e] eqn:E.
    + exists seed. apply hkdf_expand_ok in E as []. auto.
    + by rewrite hkdf_expand_eq in E.
  - destruct (purpose_info p) as [i|e] eqn:E.
    + apply purpose_info_ok in E as []. done.
    + run. apply purpose_info_err in E as [->| ->]; auto.
Qed.
