(* ===== verification/Crypto.v ===== *)
(** * The third-party cryptography

    The packages [cryptography], [oqs] and [pqcrypto] are not part of the
    repository.  [CryptoLib] lists the operations the program calls and
    [CryptoLaws] the documented behaviour it relies on; the model's functions
    take an instance as an argument. *)

From Stdlib Require Import ZArith Lia.
From stdpp Require Import prelude.
From S2P Require Import Prelude PyBytes.

Class CryptoLib := {
  (** AES in CTR mode: key, nonce, data; [encryptor.update(data) + finalize()]. *)
  aes_ctr : bytes -> bytes -> bytes -> result bytes;
  (** [HKDF(SHA256, length, salt, info).derive(ikm)]: salt, info, length, ikm. *)
  hkdf_derive : bytes -> bytes -> nat -> bytes -> result bytes;
  (** The n-th [X25519PrivateKey.generate()] of the process, its public bytes,
      and [exchange] with a peer's [from_public_bytes]. *)
  x25519_generate : nat -> bytes;
  x25519_public : bytes -> bytes;
  x25519_exchange : bytes -> bytes -> result bytes;
  (** [AESGCM(key).encrypt(nonce, data, aad)] and [decrypt]. *)
  aesgcm_encrypt : bytes -> bytes -> bytes -> bytes -> result bytes;
  aesgcm_decrypt : bytes -> bytes -> bytes -> bytes -> result bytes;
  (** The n-th encapsulation of [oqs] and of [pqcrypto]: ciphertext and secret. *)
  oqs_encap_secret : nat -> bytes -> result (bytes * bytes);
  pq_kem_encapsulate : nat -> bytes -> result (bytes * bytes);
}.

(** CTR mode is a stream cipher, and AES accepts 16, 24 and 32-byte keys. *)
Class CryptoLaws (L : CryptoLib) : Prop := {
  aes_ctr_length k n d s : aes_ctr k n d = Ok s -> length s = length d /\ is_bytes s;
  aes_ctr_accepts k n d :
    length k ∈ [16; 24; 32]%nat -> length n = 16%nat -> exists s, aes_ctr k n d = Ok s;
}.

(** ** A concrete instance, for evaluating the model *)

(** A keyed byte stream that satisfies the laws: position [i] of the output is
    the data byte plus a key byte plus [i]. *)
Definition toy_stream (key data : bytes) : bytes :=
  imap (fun i b => (b + nth (i mod length key) key 0 + Z.of_nat i) mod 256) data.

#[export] Instance toy_crypto : CryptoLib := {|
  aes_ctr key nonce data :=
    if decide (length key ∈ [16; 24; 32]%nat /\ length nonce = 16%nat)
    then Ok (toy_stream key data) else Err ValueError;
  hkdf_derive salt info len ikm := Ok (take len (ikm ++ replicate len 0));
  x25519_generate n := replicate 32 (Z.of_nat n mod 256);
  x25519_public sk := sk;
  x25519_exchange sk pk :=
    if (length pk =? 32)%nat then Ok (zip_with (fun a b => (a + b) mod 256) sk pk) else Err ValueError;
  aesgcm_encrypt key nonce data aad := Ok (data ++ replicate 16 0);
  aesgcm_decrypt key nonce data aad := Ok (take (length data - 16) data);
  oqs_encap_secret n pk := Ok (take 8 pk, replicate 32 (Z.of_nat n mod 256 + 1));
  pq_kem_encapsulate n pk := Ok (take 8 pk, replicate 32 (Z.of_nat n mod 256 + 2));
|}.

#[export] Instance toy_crypto_laws : CryptoLaws toy_crypto.
Proof.
  split.
  - intros k n d s. simpl. case_decide; [|done]. intros [= <-]. unfold toy_stream.
    split; [apply length_imap|]. apply Forall_lookup. intros i b Hb.
    apply list_lookup_imap_Some in Hb as (x & _ & ->). unfold is_byte. apply Z.mod_pos_bound. lia.
  - intros k n d Hk Hn. simpl. rewrite decide_True by done. by eexists.
Qed.
