(* ===== verification/Masks.v ===== *)
(** * Mask expansion and recovery

    The AES-CTR mask generator and the recovery of a dropped client's masks,
    from host_server/shamir_recovery.py. *)

From Stdlib Require Import ZArith Lia.
From stdpp Require Import prelude.
From S2P Require Import Prelude PyDict PyBytes Field Sha256 Kdf Crypto.

(** [range(n)] *)
Definition range (n : Z) : list Z := Z.of_nat <$> seq 0 (Z.to_nat n).

Lemma elem_of_range n x : x ∈ range n <-> 0 <= x < n.
Proof.
  unfold range. rewrite list_elem_of_fmap. split.
  - intros (i & -> & Hi%elem_of_seq). lia.
  - intros H. exists (Z.to_nat x). rewrite elem_of_seq. lia.
Qed.

Lemma range_length n : length (range n) = Z.to_nat n.
Proof. unfold range. by rewrite length_fmap, length_seq. Qed.

Lemma range_NoDup n : NoDup (range n).
Proof. unfold range. apply NoDup_fmap_2; [apply _|apply NoDup_seq]. Qed.

(** The loop of [generate_mask_from_seed]: two bytes, least significant
    first, per mask element; a trailing byte stands alone. *)
Fixpoint masks_of_stream (stream : bytes) : list Z :=
  match stream with
  | [] => []
  | [lo] => [lo mod FIELD_MODULUS]
  | lo :: hi :: rest => le16 lo hi mod FIELD_MODULUS :: masks_of_stream rest
  end.

Section Recovery.
Context {L : CryptoLib} (CRYPTO_AVAILABLE : bool).

Definition aes_ctr_stream (key nonce : bytes) (len : nat) : result bytes :=
  if CRYPTO_AVAILABLE then aes_ctr key nonce (zero_bytes len) else Err RuntimeError.

Definition generate_mask_from_seed (seed : bytes) (len : nat) : result (list Z) :=
  stream ← aes_ctr_stream seed (zero_bytes 16) len;
  Ok (masks_of_stream stream).

Definition recover_dropped_client_pairwise_seeds (dropped_client_shared_secret : bytes)
    (round_id : Z) (peer_ids : list Z) (dropped_client_id : Z) : result (list (Z * bytes)) :=
  fold_result
    (fun recovered_seeds peer_id =>
       seed ← derive_pairwise_mask_seed dropped_client_shared_secret
                (Z.min dropped_client_id peer_id) (Z.max dropped_client_id peer_id) round_id;
       Ok (dict_set peer_id seed recovered_seeds))
    peer_ids [].

(** The innermost loop: add one peer's signed mask into the accumulator. *)
Definition add_peer_mask (sign : Z) (peer_mask combined_mask : list Z) (chunk_size : nat)
    : result (list Z) :=
  map_result
    (fun i =>
       c ← list_index combined_mask i;
       m ← list_index peer_mask i;
       Ok ((c + sign * m) mod FIELD_MODULUS))
    (seq 0 chunk_size).

Definition mask_sign (dropped_client_id peer_id : Z) : Z :=
  if dropped_client_id <? peer_id then 1 else -1.

(** The body of the chunk loop. *)
Definition combine_masks (pairwise_seeds : list (Z * bytes)) (round_id : Z) (peer_ids : list Z)
    (dropped_client_id : Z) (chunk_size : nat) (chunk_idx : Z) : result (list Z) :=
  fold_result
    (fun combined_mask peer_id =>
       seed ← dict_index peer_id pairwise_seeds;
       stream_seed ← derive_stream_mask_seed seed dropped_client_id round_id chunk_idx;
       peer_mask ← generate_mask_from_seed stream_seed (chunk_size * 2);
       add_peer_mask (mask_sign dropped_client_id peer_id) peer_mask combined_mask chunk_size)
    peer_ids (replicate chunk_size 0).

Definition recover_dropped_client_masks (dropped_client_shared_secret : bytes) (round_id : Z)
    (peer_ids : list Z) (dropped_client_id num_chunks : Z) (chunk_size : nat)
    : result (list (Z * list Z)) :=
  pairwise_seeds ← recover_dropped_client_pairwise_seeds dropped_client_shared_secret round_id
                     peer_ids dropped_client_id;
  fold_result
    (fun recovered_masks chunk_idx =>
       combined_mask ← combine_masks pairwise_seeds round_id peer_ids dropped_client_id
                         chunk_size chunk_idx;
       Ok (dict_set chunk_idx combined_mask recovered_masks))
    (range num_chunks) [].
End Recovery.

Lemma nth_replicate_0 n i : nth i (replicate n 0) 0 = 0.
Proof. revert i. induction n; intros [|i]; simpl; auto. Qed.

(** ** The mask generator *)

Lemma bytes_pair_ind (P : bytes -> Prop) :
  P [] -> (forall a, P [a]) -> (forall a b l, P l -> P (a :: b :: l)) -> forall l, P l.
Proof.
  intros H0 H1 H2. fix IH 1. intros [|a [|b l]]; [exact H0|apply H1|apply H2, IH].
Qed.

Lemma masks_of_stream_length stream : length (masks_of_stream stream) = ((length stream + 1) / 2)%nat.
Proof.
  induction stream as [|a|a b l IH] using bytes_pair_ind; [done|done|].
  cbn [masks_of_stream length]. rewrite IH.
  replace (S (S (length l)) + 1)%nat with ((length l + 1) + 1 * 2)%nat by lia.
  rewrite Nat.div_add by lia. lia.
Qed.

Lemma masks_of_stream_range stream :
  Forall (fun m => 0 <= m < FIELD_MODULUS) (masks_of_stream stream).
Proof.
  induction stream as [|a|a b l IH] using bytes_pair_ind; cbn [masks_of_stream];
    repeat constructor; try done; apply mod_p_range.
Qed.

Lemma masks_of_stream_lookup stream i lo hi :
  stream !! (2 * i)%nat = Some lo -> stream !! (2 * i + 1)%nat = Some hi ->
  masks_of_stream stream !! i = Some (le16 lo hi mod FIELD_MODULUS).
Proof.
  revert i. induction stream as [|a|a b l IH] using bytes_pair_ind; intros i Hlo Hhi; [done| |].
  - replace (2 * i + 1)%nat with (S (2 * i)) in Hhi by lia. done.
  - destruct i as [|i]; [simpl in *; by simplify_eq|].
    replace (2 * S i)%nat with (S (S (2 * i))) in Hlo by lia.
    replace (2 * S i + 1)%nat with (S (S (2 * i + 1))) in Hhi by lia.
    by apply IH.
Qed.

Section MaskFacts.
Context {L : CryptoLib} {Laws : CryptoLaws L}.

(** With a valid key the generator returns one mask element in the field for
    every two bytes asked for. *)
Lemma generate_mask_ok seed len :
  length seed = 32%nat ->
  exists m, generate_mask_from_seed true seed (len * 2) = Ok m /\
    length m = len /\ Forall (fun v => 0 <= v < FIELD_MODULUS) m.
Proof.
  intros Hs. unfold generate_mask_from_seed, aes_ctr_stream.
  destruct (aes_ctr_accepts seed (zero_bytes 16) (zero_bytes (len * 2))) as [s Hok];
    [rewrite Hs; set_solver|done|].
  pose proof (aes_ctr_length _ _ _ _ Hok) as [Hl _]. rewrite Hok. run.
  eexists. split; [done|]. split; [|apply masks_of_stream_range].
  rewrite masks_of_stream_length, Hl. unfold zero_bytes. rewrite length_replicate.
  rewrite Nat.add_comm. rewrite Nat.div_add by lia. done.
Qed.

(** One peer's mask for one chunk, as the recovery derives it. *)
Definition peer_mask (ss : bytes) (round_id dropped chunk_idx : Z) (chunk_size : nat) (peer : Z)
    : result (list Z) :=
  seed ← derive_pairwise_mask_seed ss (Z.min dropped peer) (Z.max dropped peer) round_id;
  stream_seed ← derive_stream_mask_seed seed dropped round_id chunk_idx;
  generate_mask_from_seed true stream_seed (chunk_size * 2).

Definition mask_value ss round_id dropped chunk_idx chunk_size (i : nat) (peer : Z) : Z :=
  match peer_mask ss round_id dropped chunk_idx chunk_size peer with
  | Ok m => nth i m 0
  | Err _ => 0
  end.

(** The signed sum of all peers' mask elements. *)
Definition combined_value ss round_id dropped chunk_idx chunk_size (peers : list Z) (i : nat) : Z :=
  foldr (fun peer acc =>
           (if dropped <? peer then 1 else -1) * mask_value ss round_id dropped chunk_idx chunk_size i peer + acc)
    0 peers.

Lemma derive_ok ss p :
  purpose_ok p -> exists seed, derive ss p = Ok seed /\ length seed = 32%nat.
Proof.
  intros Hp. rewrite derive_eq. rewrite (proj2 (purpose_info_ok p (info_string p))) by done.
  run. rewrite hkdf_expand_eq. eexists. split; [done|].
  pose proof (hkdf_blocks_spec 32). rewrite length_take, hkdf_stream_length. lia.
Qed.

Lemma peer_mask_ok ss round_id dropped chunk_idx chunk_size peer :
  is_byte dropped -> is_byte peer -> 0 <= round_id < 2 ^ 32 -> 0 <= chunk_idx < 2 ^ 16 ->
  exists seed stream_seed m,
    derive_pairwise_mask_seed ss (Z.min dropped peer) (Z.max dropped peer) round_id = Ok seed /\
    derive_stream_mask_seed seed dropped round_id chunk_idx = Ok stream_seed /\
    generate_mask_from_seed true stream_seed (chunk_size * 2) = Ok m /\
    peer_mask ss round_id dropped chunk_idx chunk_size peer = Ok m /\
    length m = chunk_size /\ Forall (fun v => 0 <= v < FIELD_MODULUS) m.
Proof.
  unfold is_byte. intros Hd Hp Hr Hc.
  destruct (derive_ok ss (Pairwise (Z.min dropped peer) (Z.max dropped peer) round_id))
    as (seed & Hs & _); [cbn [purpose_ok]; unfold is_byte; lia|].
  destruct (derive_ok seed (Stream dropped round_id chunk_idx)) as (ss' & Hss & Hl);
    [cbn [purpose_ok]; unfold is_byte; lia|].
  destruct (generate_mask_ok ss' chunk_size Hl) as (m & Hm & Hml & Hmr).
  cbn [derive] in Hs, Hss. exists seed, ss', m. repeat split; try done.
  unfold peer_mask. rewrite Hs. run. rewrite Hss. run. done.
Qed.

Lemma add_peer_mask_ok sign m combined chunk_size :
  length m = chunk_size -> length combined = chunk_size ->
  add_peer_mask sign m combined chunk_size =
    Ok ((fun i => (nth i combined 0 + sign * nth i m 0) mod FIELD_MODULUS) <$> seq 0 chunk_size).
Proof.
  intros Hm Hc. unfold add_peer_mask. apply map_result_pure.
  intros i Hi%elem_of_seq. unfold list_index.
  rewrite (nth_lookup_Some' combined i 0), (nth_lookup_Some' m i 0) by lia. run. done.
Qed.

(** The seeds dictionary holds every peer's seed. *)
Lemma recover_seeds_ok ss round_id dropped peers acc :
  is_byte dropped -> Forall is_byte peers -> 0 <= round_id < 2 ^ 32 ->
  exists d,
    fold_result
      (fun recovered_seeds peer_id =>
         seed ← derive_pairwise_mask_seed ss (Z.min dropped peer_id) (Z.max dropped peer_id) round_id;
         Ok (dict_set peer_id seed recovered_seeds)) peers acc = Ok d /\
    forall peer, dict_get peer d =
      if decide (peer ∈ peers)
      then match derive_pairwise_mask_seed ss (Z.min dropped peer) (Z.max dropped peer) round_id with
           | Ok s => Some s | Err _ => None end
      else dict_get peer acc.
Proof.
  intros Hd Hp Hr. revert acc. induction Hp as [|p peers Hp Hps IH]; intros acc.
  - exists acc. split; [done|]. intros peer. by rewrite decide_False by set_solver.
  - destruct (peer_mask_ok ss round_id dropped 0 0 p Hd Hp Hr ltac:(lia))
      as (seed & _ & _ & Hs & _). cbn [fold_result]. rewrite Hs. run.
    destruct (IH (dict_set p seed acc)) as (d & Hf & Hg). exists d. split; [done|].
    intros peer. rewrite Hg. destruct (decide (peer ∈ peers)) as [Hin|Hin].
    + by rewrite decide_True by set_solver.
    + rewrite dict_get_set. destruct (decide (p = peer)) as [->|Hne].
      * rewrite decide_True by set_solver. by rewrite Hs.
      * by rewrite decide_False by set_solver.
Qed.

(** The accumulation over the peers, from any starting mask. *)
Lemma combine_masks_acc ss round_id dropped chunk_idx chunk_size seeds peers acc :
  is_byte dropped -> 0 <= round_id < 2 ^ 32 -> 0 <= chunk_idx < 2 ^ 16 ->
  Forall is_byte peers ->
  (forall peer, peer ∈ peers -> exists s, dict_get peer seeds = Some s /\
     derive_pairwise_mask_seed ss (Z.min dropped peer) (Z.max dropped peer) round_id = Ok s) ->
  length acc = chunk_size -> Forall (fun v => 0 <= v < FIELD_MODULUS) acc ->
  exists m,
    fold_result
      (fun combined_mask peer_id =>
         seed ← dict_index peer_id seeds;
         stream_seed ← derive_stream_mask_seed seed dropped round_id chunk_idx;
         peer_mask ← generate_mask_from_seed true stream_seed (chunk_size * 2);
         add_peer_mask (mask_sign dropped peer_id) peer_mask combined_mask chunk_size)
      peers acc = Ok m /\ length m = chunk_size /\
    forall i, (i < chunk_size)%nat ->
      nth i m 0 = (nth i acc 0 + combined_value ss round_id dropped chunk_idx chunk_size peers i)
                    mod FIELD_MODULUS.
Proof.
  intros Hd Hr Hc Hp. revert acc.
  induction Hp as [|p peers Hp Hps IH]; intros acc Hseeds Hl Hacc.
  - exists acc. split; [done|]. split; [done|]. intros i Hi. unfold combined_value. simpl.
    rewrite Z.add_0_r, Z.mod_small; [done|]. rewrite Forall_lookup in Hacc.
    apply (Hacc i), nth_lookup_Some'. lia.
  - destruct (Hseeds p) as (s & Hs1 & Hs2); [left|].
    destruct (peer_mask_ok ss round_id dropped chunk_idx chunk_size p Hd Hp Hr Hc)
      as (seed & ss' & m & H1 & H2 & H3 & H4 & H5 & H6).
    rewrite Hs2 in H1. injection H1 as <-.
    apply dict_index_ok in Hs1.
    cbn [fold_result]. rewrite Hs1. run. rewrite H2. run. rewrite H3. run.
    rewrite add_peer_mask_ok by done. run.
    destruct (IH ((fun i => (nth i acc 0 + mask_sign dropped p * nth i m 0) mod FIELD_MODULUS)
                    <$> seq 0 chunk_size)) as (m' & Hf & Hm' & Hv).
    + intros q Hq. apply Hseeds. by right.
    + by rewrite length_fmap, length_seq.
    + apply Forall_fmap, Forall_true. intros i. apply mod_p_range.
    + exists m'. split; [done|]. split; [done|]. intros i Hi. rewrite Hv by done.
      rewrite (nth_lookup_Some _ _ _ ((nth i acc 0 + mask_sign dropped p * nth i m 0) mod FIELD_MODULUS)).
      2:{ by rewrite list_lookup_fmap, lookup_seq_lt. }
      rewrite Zplus_mod_idemp_l. f_equal. unfold combined_value. cbn [foldr].
      unfold mask_value at 2. rewrite H4. unfold mask_sign. lia.
Qed.
End MaskFacts.

(** ** The recovered masks *)

Section Recovered.
Context {L : CryptoLib} {Laws : CryptoLaws L}.

Lemma recover_masks_acc ss round_id dropped chunk_size seeds peers ks acc :
  is_byte dropped -> 0 <= round_id < 2 ^ 32 -> Forall is_byte peers ->
  (forall peer, peer ∈ peers -> exists s, dict_get peer seeds = Some s /\
     derive_pairwise_mask_seed ss (Z.min dropped peer) (Z.max dropped peer) round_id = Ok s) ->
  (forall k, k ∈ ks -> 0 <= k < 2 ^ 16) -> NoDup ks -> (forall k, k ∈ ks -> k ∉ dict_keys acc) ->
  exists masks,
    fold_result
      (fun recovered_masks chunk_idx =>
         combined_mask ← combine_masks true seeds round_id peers dropped chunk_size chunk_idx;
         Ok (dict_set chunk_idx combined_mask recovered_masks)) ks acc = Ok masks /\
    dict_keys masks = dict_keys acc ++ ks /\
    (forall k, k ∉ ks -> dict_get k masks = dict_get k acc) /\
    (forall k, k ∈ ks -> exists m, dict_get k masks = Some m /\ length m = chunk_size /\
       forall i, (i < chunk_size)%nat ->
         nth i m 0 = combined_value ss round_id dropped k chunk_size peers i mod FIELD_MODULUS).
Proof.
  intros Hd Hr Hp Hs. revert acc. induction ks as [|k ks IH]; intros acc Hk Hnd Hacc.
  - exists acc. rewrite app_nil_r. split; [done|]. split; [done|]. split; [done|set_solver].
  - apply NoDup_cons in Hnd as [Hkn Hnd].
    destruct (combine_masks_acc ss round_id dropped k chunk_size seeds peers
                (replicate chunk_size 0)) as (m & Hm & Hml & Hmv); try done.
    + apply Hk. left.
    + by rewrite length_replicate.
    + by apply Forall_replicate.
    + assert (Hc : combine_masks true seeds round_id peers dropped chunk_size k = Ok m) by exact Hm.
      cbn [fold_result]. rewrite Hc. run.
      destruct (IH (dict_set k m acc)) as (masks & Hf & Hkeys & Hout & Hin).
      * intros q Hq. apply Hk. by right.
      * done.
      * intros q Hq. rewrite dict_elem_of_keys_set. intros [->|Hqa]; [done|].
        apply (Hacc q); [by right|done].
      * exists masks. split; [done|].
        rewrite Hkeys, dict_keys_set_notin, <- app_assoc by (apply Hacc; left).
        split; [done|]. split.
        -- intros q [Hqk Hq]%not_elem_of_cons. rewrite Hout by done.
           by apply dict_get_set_ne.
        -- intros q [->|Hq]%elem_of_cons; [|by apply Hin].
           exists m. rewrite Hout, dict_get_set_eq by done. split; [done|]. split; [done|].
           intros i Hi. rewrite Hmv by done.
           by rewrite nth_replicate_0, Z.add_0_l.
Qed.

(** C15: for valid ids, mask recovery of a dropped client returns one mask
    per chunk, in chunk order, and every element is the sum over the peers of
    the signed mask element (plus for a peer with a higher id, minus for a
    lower one), reduced into the field. *)
Theorem recover_masks_correct ss round_id peers dropped num_chunks chunk_size :
  is_byte dropped -> Forall is_byte peers -> 0 <= round_id < 2 ^ 32 -> num_chunks <= 2 ^ 16 ->
  exists masks,
    recover_dropped_client_masks true ss round_id peers dropped num_chunks chunk_size = Ok masks /\
    dict_keys masks = range num_chunks /\
    forall k, 0 <= k < num_chunks -> exists m, dict_get k masks = Some m /\
      length m = chunk_size /\
      forall i, (i < chunk_size)%nat ->
        nth i m 0 = combined_value ss round_id dropped k chunk_size peers i mod FIELD_MODULUS.
Proof.
  intros Hd Hp Hr Hn. unfold recover_dropped_client_masks, recover_dropped_client_pairwise_seeds.
  destruct (recover_seeds_ok ss round_id dropped peers [] Hd Hp Hr) as (seeds & Hs & Hget).
  rewrite Hs. run.
  destruct (recover_masks_acc ss round_id dropped chunk_size seeds peers (range num_chunks) [])
    as (masks & Hf & Hkeys & _ & Hin); try done.
  - intros peer Hpeer. rewrite Hget, decide_True by done. rewrite Forall_forall in Hp.
    destruct (peer_mask_ok ss round_id dropped 0 0 peer Hd (Hp _ Hpeer) Hr ltac:(lia))
      as (seed & _ & _ & Hseed & _). exists seed. by rewrite Hseed.
  - intros k Hk%elem_of_range. lia.
  - apply range_NoDup.
  - intros k _. apply not_elem_of_nil.
  - exists masks. split; [done|]. split; [done|]. intros k Hk. apply Hin. by apply elem_of_range.
Qed.
End Recovered.

Lemma recover_masks_correct_witness :
  exists masks,
    recover_dropped_client_masks true (replicate 64 5) 9 [1; 7] 3 2 4 = Ok masks /\
    dict_keys masks = range 2 /\
    forall k, 0 <= k < 2 -> exists m, dict_get k masks = Some m /\ length m = 4%nat /\
      forall i, (i < 4)%nat ->
        nth i m 0 = combined_value (replicate 64 5) 9 3 k 4 [1; 7] i mod FIELD_MODULUS.
Proof.
  apply (recover_masks_correct (replicate 64 5) 9 [1; 7] 3 2 4);
    by apply (bool_decide_unpack _).
Defined.

(** ** The bridges' own copies

    HEAD's bridge and the classical bridge encrypt [b"" * length], which is
    empty whatever the length; the incoming side has a literal zero byte
    between the quotes. *)

Section BridgeMasks.
Context {L : CryptoLib} (CRYPTO_AVAILABLE : bool).

Definition bridge_aes_ctr_stream (key nonce : bytes) (len : nat) : result bytes :=
  if CRYPTO_AVAILABLE then aes_ctr key nonce (concat (replicate len [])) else Err RuntimeError.

Definition bridge_generate_mask_from_seed (seed : bytes) (len : nat) : result (list Z) :=
  stream ← bridge_aes_ctr_stream seed (zero_bytes 16) len;
  Ok (masks_of_stream stream).

Lemma concat_replicate_nil {A} n : concat (replicate n ([] : list A)) = [].
Proof. by induction n. Qed.

(** C34: the mask generator of HEAD's bridge and of the classical bridge returns
    no mask at all: for every seed and every length the mask is empty or an
    exception is raised. *)
Theorem bridge_masks_empty {LL : CryptoLaws L} seed len :
  match bridge_generate_mask_from_seed seed len with
  | Ok masks => masks = []
  | Err _ => True
  end.
Proof.
  unfold bridge_generate_mask_from_seed, bridge_aes_ctr_stream. rewrite concat_replicate_nil.
  destruct CRYPTO_AVAILABLE; [|done].
  destruct (aes_ctr seed (zero_bytes 16) []) as [s|] eqn:E; [|done].
  apply aes_ctr_length in E as [Hl _]. by apply nil_length_inv in Hl as ->.
Qed.
End BridgeMasks.

Lemma bridge_masks_empty_witness :
  exists masks, bridge_generate_mask_from_seed true (replicate 32 5) 256 = Ok masks /\ masks = [].
Proof.
  pose proof (bridge_masks_empty true (replicate 32 5) 256) as H.
  destruct (bridge_generate_mask_from_seed true (replicate 32 5) 256) as [masks|e] eqn:E.
  - by exists masks.
  - exfalso. revert E. vm_compute. discriminate.
Defined.
