(* ===== verification/Drafts.v ===== *)
(** * The recovery module before the rewrite

    phase3_fixes.py (and, for the sharing functions, update_task5.py) writes
    an earlier host_server/shamir_recovery.py, whose field arithmetic is
    [barrett_reduce], [mod_inv] and [evaluate_polynomial] (Field).  It applies
    the 26-bit Barrett reduction to products of two field elements, outside
    the range where that reduction is exact; the theorems say what this costs,
    by comparison with the classical sharing of experiments/baselines.py,
    which reduces with [%]. *)

From Stdlib Require Import ZArith Lia Setoid Morphisms.
From stdpp Require Import prelude strings.
From S2P Require Import Prelude PyDict PyBytes Field Lagrange Shamir Sha256 Kdf Crypto Masks.
#[local] Open Scope gf_scope.

Module Draft.
(** [generate_shares]; [randbelow k] is the k-th draw. *)
Definition generate_shares (randbelow : nat -> Z) (secret n t : Z) : result (list (Z * Z)) :=
  if n <? t then Err ValueError
  else if (secret <? 0) || (FIELD_MODULUS <=? secret) then Err ValueError
  else
    let coeffs := secret :: (randbelow <$> seq 0 (Z.to_nat (t - 1))) in
    Ok ((fun i => let x := Z.of_nat i in (x, evaluate_polynomial coeffs x)) <$> seq 1 (Z.to_nat n)).

(** The inner loop of [reconstruct_secret]. *)
Definition lagrange_step (i : nat) (xi : Z) (acc : Z * Z) (share : nat * (Z * Z)) : Z * Z :=
  let '(numerator, denominator) := acc in
  let '(j, (xj, _)) := share in
  if decide (i = j) then (numerator, denominator)
  else (barrett_reduce (numerator * ((- xj) mod FIELD_MODULUS)),
        barrett_reduce (denominator * ((xi - xj) mod FIELD_MODULUS))).

(** The outer loop's body. *)
Definition secret_step (shares : list (nat * (Z * Z))) (secret : Z) (share : nat * (Z * Z)) : Z :=
  let '(i, (xi, yi)) := share in
  let '(numerator, denominator) := fold_left (lagrange_step i xi) shares (1, 1) in
  let lagrange_coeff := barrett_reduce (numerator * mod_inv denominator FIELD_MODULUS) in
  barrett_reduce (secret + yi * lagrange_coeff).

Definition reconstruct_secret (shares : list (Z * Z)) : result Z :=
  if (length shares <? 2)%nat then Err ValueError
  else Ok (fold_left (secret_step (enumerate shares)) (enumerate shares) 0).

(** [generate_shares_bytes]; its second loop is the one of the baselines. *)
Definition generate_shares_bytes (randbelow : nat -> nat -> Z) (secret_bytes : bytes) (n t : Z)
    : result (list (Z * bytes)) :=
  shares_by_byte ← map_result (fun '(j, b) => generate_shares (randbelow j) b n t)
                     (enumerate secret_bytes);
  map_result (Baseline.party_share shares_by_byte) (seq 0 (Z.to_nat n)).

(** Storing a value outside [0..255] into the bytearray raises. *)
Definition reconstruct_byte (shares : list (Z * bytes)) (byte_idx : nat) : result Z :=
  byte_shares ← map_result (fun '(x, y) => v ← list_index y byte_idx; Ok (x, v)) shares;
  v ← reconstruct_secret byte_shares;
  if decide (is_byte v) then Ok v else Err ValueError.

Definition reconstruct_secret_bytes (shares : list (Z * bytes)) : result bytes :=
  match shares with
  | [] => Err ValueError
  | (_, y0) :: _ => map_result (reconstruct_byte shares) (seq 0 (length y0))
  end.

(** ** Mask recovery *)

Definition CHUNK_ELEMENTS : nat := 128.
Definition CHUNK_BYTES : nat := CHUNK_ELEMENTS * 2.

(** The names the module's import statements bind. *)
Definition imports : list string :=
  ["secrets"; "List"; "Tuple"; "Dict"; "Cipher"; "algorithms"; "modes"; "default_backend"].

(** A global name is looked up when the expression that uses it runs. *)
Definition global (imports : list string) (name : string) : result unit :=
  if decide (name ∈ imports) then Ok tt else Err (NameError name).

(** [hmac.new(key, msg, hashlib.sha256).digest()] *)
Definition hmac_new (imports : list string) (key msg : bytes) : result bytes :=
  _ ← global imports "hmac";
  _ ← global imports "hashlib";
  Ok (hmac_sha256 key msg).

(** [hkdf_expand] as this module defines it. *)
Fixpoint hkdf_expand_loop (imports : list string) (fuel : nat) (prk info : bytes) (len : nat)
    (okm t : bytes) (ctr : Z) : result bytes :=
  if (length okm <? len)%nat then
    match fuel with
    | O => Err Diverges
    | S fuel' =>
        _ ← global imports "hmac";
        c ← bytes_of_ints [ctr];
        t' ← hmac_new imports prk (t ++ info ++ c);
        hkdf_expand_loop imports fuel' prk info len (okm ++ t') t' (ctr + 1)
    end
  else Ok okm.

Definition hkdf_expand (imports : list string) (prk info : bytes) (len : nat) : result bytes :=
  okm ← hkdf_expand_loop imports len prk info len [] [] 1;
  Ok (take len okm).

Definition hkdf_extract (imports : list string) (salt ikm : bytes) : result bytes :=
  hmac_new imports (match salt with [] => zero_bytes 32 | _ => salt end) ikm.

Section Recovery.
Context {L : CryptoLib} (imports : list string) (CRYPTO_AVAILABLE : bool).

(** [seed_info]: both ends of the pair, the round and the chunk. *)
Definition seed_info (dropped_client_id peer_id round_id chunk_idx : Z) : result bytes :=
  ids ← bytes_of_ints [Z.min dropped_client_id peer_id; Z.max dropped_client_id peer_id];
  r ← int_to_bytes 4 round_id;
  i ← int_to_bytes 2 chunk_idx;
  Ok (ids ++ r ++ i).

(** The mask shared with one peer, for one chunk. *)
Definition peer_chunk_mask (secret : bytes) (round_id dropped_client_id chunk_idx peer_id : Z)
    : result (list Z) :=
  info ← seed_info dropped_client_id peer_id round_id chunk_idx;
  prk ← hmac_new imports [] secret;
  stream_seed ← hkdf_expand imports prk (KDF_LABEL_STREAM_MASK ++ info) 32;
  generate_mask_from_seed CRYPTO_AVAILABLE stream_seed CHUNK_BYTES.

Definition chunk_mask (secret : bytes) (round_id : Z) (peer_ids : list Z)
    (dropped_client_id chunk_idx : Z) : result (list Z) :=
  fold_result
    (fun combined_mask peer_id =>
       peer_mask ← peer_chunk_mask secret round_id dropped_client_id chunk_idx peer_id;
       add_peer_mask (mask_sign dropped_client_id peer_id) peer_mask combined_mask CHUNK_ELEMENTS)
    peer_ids (replicate CHUNK_ELEMENTS 0).

Definition recover_dropped_client_masks (secret : bytes) (round_id : Z) (peer_ids : list Z)
    (dropped_client_id num_chunks : Z) : result (list (Z * list Z)) :=
  fold_result
    (fun recovered_masks chunk_idx =>
       combined_mask ← chunk_mask secret round_id peer_ids dropped_client_id chunk_idx;
       Ok (dict_set chunk_idx combined_mask recovered_masks))
    (range num_chunks) [].
End Recovery.
End Draft.

(** ** Barrett reduction of a product

    Beyond its exact range the reduction can only miss by the modulus, and
    only for residues above 3254. *)

(** The residues the reduction always gets right. *)
Definition safe_residue : Z := 3255.

Lemma barrett_product a :
  - 2 ^ 18 <= a <= 3329 * 3328 ->
  barrett_reduce a = a mod FIELD_MODULUS \/
  safe_residue <= a mod FIELD_MODULUS /\ barrett_reduce a = a mod FIELD_MODULUS - FIELD_MODULUS.
Proof.
  change (2 ^ 18) with 262144. intros Ha. unfold barrett_reduce. rewrite Z.shiftr_div_pow2 by done.
  unfold BARRETT_MULTIPLIER, BARRETT_SHIFT, safe_residue. change (2 ^ 26) with 67108864.
  pose proof (Z.div_mod a FIELD_MODULUS ltac:(done)) as Hd. pose proof (mod_p_range a) as Hr.
  set (q := a / FIELD_MODULUS) in *. set (r := a mod FIELD_MODULUS) in *. clearbody q r.
  pose proof (Z.div_mod (a * 20159) 67108864 ltac:(done)) as Ht.
  pose proof (Z.mod_pos_bound (a * 20159) 67108864 ltac:(done)).
  set (t := a * 20159 / 67108864) in *. set (w := (a * 20159) mod 67108864) in *. clearbody t w.
  unfold FIELD_MODULUS in *. subst a.
  destruct (Z.leb_spec 3329 (3329 * q + r - t * 3329)); lia.
Qed.

Lemma barrett_range a :
  - 2 ^ 18 <= a <= 3329 * 3328 -> -74 <= barrett_reduce a < FIELD_MODULUS.
Proof.
  intros Ha. pose proof (mod_p_range a).
  destruct (barrett_product a Ha) as [->|[Hs ->]]; unfold safe_residue, FIELD_MODULUS in *; lia.
Qed.

(** The range the loops' accumulators stay in. *)
Definition near_field (v : Z) : Prop := -74 <= v < FIELD_MODULUS.

Lemma near_field_mul v x : near_field v -> near_field (barrett_reduce (v * (x mod FIELD_MODULUS))).
Proof.
  intros Hv. apply barrett_range. pose proof (mod_p_range x). unfold near_field, FIELD_MODULUS in *.
  change (2 ^ 18) with 262144. nia.
Qed.

Lemma near_field_add s y v :
  near_field s -> near_field y -> near_field v -> near_field (barrett_reduce (s + y * v)).
Proof.
  intros Hs Hy Hv. apply barrett_range. unfold near_field, FIELD_MODULUS in *.
  change (2 ^ 18) with 262144. nia.
Qed.

Lemma near_field_eqp v w :
  near_field v -> 0 <= w < FIELD_MODULUS -> v == w ->
  v = w \/ safe_residue <= w /\ v = w - FIELD_MODULUS.
Proof.
  unfold near_field, safe_residue. rewrite eqp_spec. intros Hv Hw He.
  rewrite (Z.mod_small w) in He by done. destruct (decide (0 <= v)) as [H0|H0].
  - left. by rewrite Z.mod_small in He by lia.
  - right. rewrite <- (Z.mod_add v 1), Z.mod_small in He; unfold FIELD_MODULUS in *; lia.
Qed.

(** ** Reconstruction, compared with the one that reduces with [%] *)

Lemma draft_factors_agree i xi shares n d n' d' :
  near_field n -> near_field d -> n == n' -> d == d' ->
  let '(a, b) := fold_left (Draft.lagrange_step i xi) shares (n, d) in
  let '(a', b') := lagrange_factors Z.opp i xi shares (n', d') in
  near_field a /\ near_field b /\ a == a' /\ b == b'.
Proof.
  revert n d n' d'. induction shares as [|[j [xj yj]] shares IH]; intros n d n' d' Hn Hd En Ed; [done|].
  cbn [lagrange_factors fold_left Draft.lagrange_step]. destruct (decide (i = j)); [by apply IH|].
  apply IH; [by apply near_field_mul|by apply near_field_mul| |];
    rewrite barrett_reduce_congr, ?En, ?Ed, (eqp_mod (_ * _)), eqp_mod; reflexivity.
Qed.

Lemma draft_sum_agree all shares s s' :
  near_field s -> s == s' -> Forall (fun p => near_field (snd (snd p))) shares ->
  let sum := fold_left (Draft.secret_step all) shares s in
  let sum' := fold_left (fun secret '(i, (xi, yi)) =>
      let '(numerator, denominator) := lagrange_factors Z.opp i xi all (1, 1) in
      (secret + yi * ((numerator * mod_inv denominator FIELD_MODULUS) mod FIELD_MODULUS))
        mod FIELD_MODULUS) shares s' in
  near_field sum /\ sum == sum'.
Proof.
  revert s s'. induction shares as [|[i [xi yi]] shares IH]; intros s s' Hs E Hy; [done|].
  apply Forall_cons in Hy as [Hyi Hy]. cbn [fold_left Draft.secret_step].
  pose proof (draft_factors_agree i xi all 1 1 1 1) as Hf.
  destruct (fold_left (Draft.lagrange_step i xi) all (1, 1)) as [a b].
  destruct (lagrange_factors Z.opp i xi all (1, 1)) as [a' b'].
  destruct Hf as (Ha & Hb & Ea & Eb); [done..|].
  assert (Hl : near_field (barrett_reduce (a * mod_inv b FIELD_MODULUS))).
  { rewrite <- (Z.mod_small (mod_inv b FIELD_MODULUS) FIELD_MODULUS) by apply invp_range.
    by apply near_field_mul. }
  apply IH; [by apply near_field_add| |done].
  rewrite barrett_reduce_congr, eqp_mod, E, barrett_reduce_congr, eqp_mod.
  change (mod_inv b FIELD_MODULUS) with (invp b). change (mod_inv b' FIELD_MODULUS) with (invp b').
  by rewrite Ea, Eb.
Qed.

(** The earlier reconstruction gives the residue, or, above 3254, possibly the
    residue less the modulus. *)
Lemma draft_reconstruct_cases shares s :
  Forall (fun p => near_field (snd p)) shares ->
  Baseline.shamir_reconstruct_secret shares = Ok s ->
  exists v, Draft.reconstruct_secret shares = Ok v /\ 0 <= s < FIELD_MODULUS /\
    (v = s \/ safe_residue <= s /\ v = s - FIELD_MODULUS).
Proof.
  intros Hy. rewrite baseline_reconstruct_eq. unfold Draft.reconstruct_secret.
  destruct (length shares <? 2)%nat; [done|]. intros [= <-].
  pose proof (lagrange_sum_range Z.opp shares) as Hr.
  pose proof (draft_sum_agree (enumerate shares) (enumerate shares) 0 0) as H.
  destruct H as [Hv He]; [done|done| |].
  { apply Forall_lookup. intros k p. unfold enumerate. rewrite list_lookup_imap.
    intros (q & Hq & ->)%fmap_Some. rewrite Forall_lookup in Hy. by apply (Hy k q). }
  eexists. split; [reflexivity|]. split; [done|]. by apply near_field_eqp.
Qed.

(** C31: reconstructing byte strings with the earlier, Barrett-based code and
    with the baseline's [%]-based code gives the same bytes or the same
    exception on every list of shares: where the reduction misses, the value
    is not a byte in either version. *)
Theorem draft_bytes_agree shares :
  Forall (fun s => is_bytes (snd s)) shares ->
  Draft.reconstruct_secret_bytes shares = Baseline.shamir_reconstruct_secret_bytes shares.
Proof.
  intros Hb. unfold Draft.reconstruct_secret_bytes, Baseline.shamir_reconstruct_secret_bytes.
  destruct shares as [|[x0 y0] shares0]; [done|]. set (shares := (x0, y0) :: shares0) in *.
  apply map_result_ext. intros j _. unfold Draft.reconstruct_byte.
  destruct (map_result _ shares) as [sub|e] eqn:E; run; [|done].
  assert (Hsub : Forall (fun p => near_field (snd p)) sub).
  { apply map_result_ok in E. apply Forall_lookup. intros k p Hp.
    destruct (Forall2_lookup_r _ _ _ _ _ E Hp) as ([x y] & Hk & Hv).
    rewrite Forall_lookup in Hb. specialize (Hb k (x, y) Hk). revert Hv. unfold list_index.
    destruct (y !! j) as [v|] eqn:Hj; run; [|done]. intros [= <-].
    unfold is_bytes in Hb. rewrite Forall_lookup in Hb. specialize (Hb j v Hj).
    unfold is_byte, near_field, FIELD_MODULUS in *. simpl. lia. }
  pose proof (draft_reconstruct_cases sub) as H. rewrite baseline_reconstruct_eq in *.
  unfold Draft.reconstruct_secret in *. destruct (length sub <? 2)%nat; run; [done|].
  destruct (H _ Hsub eq_refl) as (v & [= ->] & Hr & [->|[Hs ->]]); [done|].
  unfold is_byte, safe_residue, FIELD_MODULUS in *. by rewrite !decide_False by lia.
Qed.

Lemma draft_bytes_agree_witness :
  Draft.reconstruct_secret_bytes [(3, [15; 206]); (1, [9; 202])] = Ok [6; 200].
Proof.
  rewrite (draft_bytes_agree [(3, [15; 206]); (1, [9; 202])]).
  - vm_compute. reflexivity.
  - by apply (bool_decide_unpack _).
Defined.

(** ** Sharing and reconstructing a field element *)

Lemma draft_generate_ok randbelow secret n t shares :
  Draft.generate_shares randbelow secret n t = Ok shares ->
  t <= n /\ 0 <= secret < FIELD_MODULUS /\
  shares = (fun i => (Z.of_nat i,
      evaluate_polynomial (secret :: (randbelow <$> seq 0 (Z.to_nat (t - 1)))) (Z.of_nat i)))
    <$> seq 1 (Z.to_nat n).
Proof.
  unfold Draft.generate_shares.
  destruct (Z.ltb_spec n t); [done|]. destruct (Z.ltb_spec secret 0); [done|].
  destruct (Z.leb_spec FIELD_MODULUS secret); [done|]. by intros [= <-].
Qed.

Lemma evaluate_polynomial_near cs x :
  0 <= x < FIELD_MODULUS -> Forall (fun c => 0 <= c < FIELD_MODULUS) cs ->
  near_field (evaluate_polynomial cs x).
Proof.
  intros Hx. induction 1 as [|c cs Hc _ IH]; [done|].
  rewrite evaluate_polynomial_cons. apply barrett_range. unfold near_field, FIELD_MODULUS in *.
  change (2 ^ 18) with 262144. nia.
Qed.

(** Any selection of the shares: distinct indices, on the polynomial. *)
Lemma shares_selection (value : Z -> Z) cs n (sub : list (Z * Z)) :
  n < FIELD_MODULUS -> (forall x, value x == poly_eval cs x) ->
  sub ⊆+ ((fun i => (Z.of_nat i, value (Z.of_nat i))) <$> seq 1 (Z.to_nat n)) ->
  distinct_p sub.*1 /\ on_polynomial cs sub /\
  Forall (fun s => 0 < fst s < FIELD_MODULUS /\ snd s = value (fst s)) sub.
Proof.
  intros Hn Hv Hsub.
  assert (Hall : Forall (fun s => 0 < fst s < FIELD_MODULUS /\ snd s = value (fst s)) sub).
  { apply Forall_forall. intros s Hin. eapply elem_of_submseteq in Hin; [|exact Hsub].
    apply list_elem_of_fmap in Hin as (i & -> & Hi%elem_of_seq). simpl.
    split; [|done]. lia. }
  split; [|split; [|done]].
  - apply (distinct_p_submseteq _ (Z.of_nat <$> seq 1 (Z.to_nat n))).
    + apply (fmap_submseteq fst) in Hsub. by rewrite <- list_fmap_compose in Hsub.
    + apply distinct_p_range. unfold FIELD_MODULUS in *. lia.
  - eapply Forall_impl; [exact Hall|]. intros s [_ ->]. apply Hv.
Qed.

(** C32: with the earlier code, sharing a field element and reconstructing
    from any two or more of the shares that number at least the threshold
    gives a value congruent to the secret, and the secret itself when it is
    below 3255; above, the result can leave the field: two shares of 3328
    reconstruct to -1. *)
Theorem draft_share_reconstruct randbelow secret n t shares sub :
  n < FIELD_MODULUS -> (forall k, 0 <= randbelow k < FIELD_MODULUS) ->
  Draft.generate_shares randbelow secret n t = Ok shares ->
  sub ⊆+ shares -> 2 <= Z.of_nat (length sub) -> t <= Z.of_nat (length sub) ->
  (exists v, Draft.reconstruct_secret sub = Ok v /\ near_field v /\ v == secret /\
     (secret < safe_residue -> v = secret)) /\
  Draft.generate_shares (fun _ => 62) 3328 2 2 = Ok [(1, 61); (2, 123)] /\
  Draft.reconstruct_secret [(1, 61); (2, 123)] = Ok (-1).
Proof.
  intros Hn Hr Hg Hsub H2 Ht. split; [|split; vm_compute; reflexivity].
  apply draft_generate_ok in Hg as (_ & Hs & ->).
  set (cs := secret :: _) in Hsub.
  destruct (shares_selection (evaluate_polynomial cs) cs n sub Hn (evaluate_polynomial_congr cs) Hsub)
    as (Hd & Hon & Hall).
  assert (Hl : (length cs <= length sub)%nat).
  { subst cs. cbn [length]. rewrite length_fmap, length_seq. lia. }
  assert (Hnear : Forall (fun s => near_field (snd s)) sub).
  { eapply Forall_impl; [exact Hall|]. intros s [Hx ->].
    apply evaluate_polynomial_near; [lia|]. subst cs. constructor; [done|].
    apply Forall_fmap, Forall_true. intros k. apply Hr. }
  destruct (draft_reconstruct_cases sub secret Hnear) as (v & Hv & _ & Hc).
  - rewrite baseline_reconstruct_eq, (proj2 (Nat.ltb_ge _ _)) by lia.
    rewrite (lagrange_sum_secret cs) by done. f_equal. subst cs. cbn [poly_eval].
    rewrite Z.mul_0_l, Z.add_0_r. by apply Z.mod_small.
  - exists v. split; [done|]. unfold near_field, safe_residue, FIELD_MODULUS in *.
    destruct Hc as [->|[Hsafe ->]]; (split; [lia|]); (split; [|lia]); [done|].
    apply eqp_spec. unfold FIELD_MODULUS. rewrite <- (Z.mod_add (secret - 3329) 1) by done.
    f_equal. lia.
Qed.

Lemma draft_share_reconstruct_witness :
  exists v, Draft.reconstruct_secret [(5, 420); (2, 1637); (4, 2844)] = Ok v /\ near_field v /\
    v == 1234 /\ (1234 < safe_residue -> v = 1234).
Proof.
  apply (draft_share_reconstruct (fun k => if decide (k = 0)%nat then 1665 else 1765) 1234 5 3
           [(1, 1335); (2, 1637); (3, 2140); (4, 2844); (5, 420)]).
  - done.
  - intros k. case_decide; unfold FIELD_MODULUS; lia.
  - vm_compute. reflexivity.
  - by apply (bool_decide_unpack _).
  - done.
  - done.
Defined.

(** ** Mask recovery needs names the module never imports *)

Section Masks.
Context {L : CryptoLib}.

Lemma seed_info_ok dropped peer round_id chunk_idx :
  is_byte dropped -> is_byte peer -> 0 <= round_id < 2 ^ 32 -> 0 <= chunk_idx < 2 ^ 16 ->
  exists info, Draft.seed_info dropped peer round_id chunk_idx = Ok info.
Proof.
  intros Hd Hp Hr Hc. unfold Draft.seed_info, bytes_of_ints.
  rewrite decide_True.
  2:{ repeat constructor; unfold is_byte in *; lia. }
  unfold int_to_bytes. run. change (8 * Z.of_nat 4) with 32. change (8 * Z.of_nat 2) with 16.
  rewrite !decide_True by done. run. by eexists.
Qed.

Lemma chunk_mask_no_hmac avail secret round_id peer peers dropped k :
  is_byte dropped -> is_byte peer -> 0 <= round_id < 2 ^ 32 -> 0 <= k < 2 ^ 16 ->
  Draft.chunk_mask Draft.imports avail secret round_id (peer :: peers) dropped k = Err (NameError "hmac").
Proof.
  intros Hd Hp Hr Hk. destruct (seed_info_ok dropped peer round_id k Hd Hp Hr Hk) as [info Hi].
  unfold Draft.chunk_mask. cbn [fold_result]. unfold Draft.peer_chunk_mask. by rewrite Hi.
Qed.

(** With the names its import statements bind, the earlier
    [recover_dropped_client_masks] raises [NameError] for [hmac] as soon as
    there are a chunk and a peer to process, whatever the cryptography package
    does; with no peers it returns an all-zero mask for each chunk. *)
Theorem draft_masks_name_error avail secret round_id peers dropped num_chunks :
  Forall is_byte (dropped :: peers) -> 0 <= round_id < 2 ^ 32 -> 0 < num_chunks <= 2 ^ 16 ->
  Draft.recover_dropped_client_masks Draft.imports avail secret round_id peers dropped num_chunks =
    match peers with
    | [] => Ok ((fun k => (k, replicate Draft.CHUNK_ELEMENTS 0)) <$> range num_chunks)
    | _ => Err (NameError "hmac")
    end.
Proof.
  intros [Hd Hp]%Forall_cons Hr Hn. unfold Draft.recover_dropped_client_masks.
  destruct peers as [|peer peers].
  - apply (fold_dict_set (fun k => k) _ (fun _ => replicate Draft.CHUNK_ELEMENTS 0) _ []).
    + done.
    + rewrite list_fmap_id. apply range_NoDup.
    + intros k _. apply not_elem_of_nil.
  - assert (H0 : range num_chunks = 0 :: (Z.of_nat <$> seq 1 (pred (Z.to_nat num_chunks)))).
    { unfold range. by destruct (Z.to_nat num_chunks) eqn:E; [lia|]. }
    apply Forall_cons in Hp as [Hpeer _]. rewrite H0. cbn [fold_result].
    by rewrite chunk_mask_no_hmac by (done || lia).
Qed.

(** What the code computes once [hmac] and [hashlib] are imported. *)
Definition imported (names : list string) : Prop := "hmac"%string ∈ names /\ "hashlib"%string ∈ names.

Lemma global_imported names name : name ∈ names -> Draft.global names name = Ok tt.
Proof. intros H. unfold Draft.global. by rewrite decide_True. Qed.

Lemma hmac_new_imported names key msg :
  imported names -> Draft.hmac_new names key msg = Ok (hmac_sha256 key msg).
Proof. intros [H1 H2]. unfold Draft.hmac_new. by rewrite !global_imported. Qed.

Lemma draft_hkdf_expand_loop names fuel prk info len okm t ctr :
  imported names ->
  Draft.hkdf_expand_loop names fuel prk info len okm t ctr = hkdf_expand_loop fuel prk info len okm t ctr.
Proof.
  intros Hi. revert okm t ctr. induction fuel as [|fuel IH]; intros okm t ctr;
    cbn [Draft.hkdf_expand_loop hkdf_expand_loop]; destruct (length okm <? len)%nat; try done.
  rewrite global_imported by apply Hi. run. destruct (bytes_of_ints [ctr]); run; [|done].
  rewrite hmac_new_imported by done. run. apply IH.
Qed.

(** HMAC pads its key with zeros: the empty key and the 32 zero bytes that
    [hkdf_extract] puts in its place are the same key. *)
Lemma hmac_empty_key msg : hmac_sha256 [] msg = hkdf_extract [] msg.
Proof. reflexivity. Qed.

(** Were [hmac] and [hashlib] imported, the mask the earlier code expands
    for a peer would come from the stream seed derived, with that pair's ids,
    directly from the shared secret: HKDF as in the later module, but without
    the pairwise seed in between. *)
Theorem draft_peer_mask_imported names avail secret round_id dropped chunk_idx peer :
  imported names ->
  Draft.peer_chunk_mask names avail secret round_id dropped chunk_idx peer =
    (info ← Draft.seed_info dropped peer round_id chunk_idx;
     stream_seed ← hkdf_expand (hkdf_extract [] secret) (KDF_LABEL_STREAM_MASK ++ info) 32;
     generate_mask_from_seed avail stream_seed Draft.CHUNK_BYTES).
Proof.
  intros Hi. unfold Draft.peer_chunk_mask. destruct (Draft.seed_info _ _ _ _); run; [|done].
  rewrite hmac_new_imported by done. run. unfold Draft.hkdf_expand, hkdf_expand.
  by rewrite draft_hkdf_expand_loop, hmac_empty_key.
Qed.
End Masks.

Lemma draft_masks_name_error_witness :
  Draft.recover_dropped_client_masks Draft.imports true (replicate 64 5) 9 [1; 7] 3 2
    = Err (NameError "hmac").
Proof.
  apply (draft_masks_name_error true (replicate 64 5) 9 [1; 7] 3 2);
    by apply (bool_decide_unpack _).
Defined.
