(* ===== verification/Wire.v ===== *)
(** * Message formats

    The 16-byte header and the payloads of the SwiftAgg protocol, as
    host_server/protocol_bridge.py and host_server/mock_client.py read and
    write them, the ROUND_INIT payload that host_server/flower_server.py
    sends, and the telemetry block that experiments/run_benchmarks.py parses. *)

From Stdlib Require Import ZArith Lia QArith.QArith_base QArith.Qround.
From stdpp Require Import prelude.
From S2P Require Import Prelude PyBytes.
#[local] Open Scope Z_scope.

(** ** Message types *)

Definition PROTOCOL_VERSION : Z := 0x00010000.
Definition MSG_TYPE_ROUND_INIT : Z := 0x40.
Definition MSG_TYPE_KEM_PUBLIC_KEY : Z := 0x01.
Definition MSG_TYPE_KEM_CIPHERTEXT : Z := 0x02.
Definition MSG_TYPE_MASK_CHUNK : Z := 0x21.
Definition MSG_TYPE_CLIENT_COMPLETE : Z := 0x30.
Definition MSG_TYPE_DROPOUT_NOTIFY : Z := 0x31.
Definition MSG_TYPE_RECOVERY_COMPLETE : Z := 0x33.
Definition MSG_TYPE_SHAMIR_SHARE : Z := 0x32.
Definition MSG_TYPE_PAIRWISE_KEM_PUBKEY : Z := 0x10.
Definition MSG_TYPE_PAIRWISE_KEM_CIPHERTEXT : Z := 0x11.
Definition MSG_TYPE_ROUND_COMPLETE : Z := 0x41.

(** [">IIBBHHH"] *)
Definition HEADER_FORMAT : list code := [CI; CI; CB; CB; CH; CH; CH].
Definition HEADER_SIZE : nat := 16.

Record MessageHeader : Type := {
  h_protocol_version : Z;
  h_round_id : Z;
  h_client_id : Z;
  h_message_type : Z;
  h_sequence_number : Z;
  h_payload_length : Z;
  h_reserved : Z;
}.

(** [MessageHeader( *values )] *)
Definition header_of_values (values : list Z) : result MessageHeader :=
  match values with
  | [pv; rid; cid; ty; seq; len; res] => Ok (Build_MessageHeader pv rid cid ty seq len res)
  | _ => Err StructError
  end.

Definition parse_header (data : bytes) : result MessageHeader :=
  values ← struct_unpack HEADER_FORMAT data;
  header_of_values values.

Definition build_header (message_type round_id client_id sequence_number payload_length : Z)
    : result bytes :=
  struct_pack HEADER_FORMAT
    [PROTOCOL_VERSION; round_id; client_id; message_type; sequence_number; payload_length; 0].

(** ** ROUND_INIT *)

(** The reader of [_handle_round_init], and of the mock client: expected
    clients, threshold, then little-endian chunk and model sizes.  A short
    payload raises [IndexError]. *)
Definition decode_round_init (payload : bytes) : result (Z * Z * Z * Z) :=
  expected_clients ← list_index payload 0;
  threshold ← list_index payload 1;
  c0 ← list_index payload 2;
  c1 ← list_index payload 3;
  m0 ← list_index payload 4;
  m1 ← list_index payload 5;
  m2 ← list_index payload 6;
  m3 ← list_index payload 7;
  Ok (expected_clients, threshold, Z.lor c0 (Z.shiftl c1 8),
      Z.lor (Z.lor (Z.lor m0 (Z.shiftl m1 8)) (Z.shiftl m2 16)) (Z.shiftl m3 24)).

(** The payload [ChunkedFedAvg._send_round_init] builds: big-endian sizes. *)
Definition round_init_payload (num_clients chunk_size num_chunks : Z) : result bytes :=
  head ← bytes_of_ints [num_clients; 2];
  c ← struct_pack [CH] [chunk_size];
  m ← struct_pack [CI] [num_chunks * chunk_size * 2];
  Ok (head ++ c ++ m).

(** ** Telemetry *)

(** The dictionary [_collect_telemetry] builds; [final_accuracy] is the float
    1.0, kept as an exact rational. *)
Record Telemetry : Type := {
  t_round_id : Z;
  t_keygen_cycles : Z;
  t_encaps_cycles : Z;
  t_decaps_cycles : Z;
  t_hkdf_cycles : Z;
  t_mask_gen_cycles : Z;
  t_mask_apply_cycles : Z;
  t_peak_sram : Z;
  t_min_free_heap : Z;
  t_largest_free_block : Z;
  t_stack_high_water : Z;
  t_heap_zero : bool;
  t_bytes_tx : Z;
  t_bytes_rx : Z;
  t_packets : Z;
  t_retransmissions : Z;
  t_fragments : Z;
  t_aggregation_success : Z;
  t_final_accuracy : Q;
}.

(** [">IIIIIIIIIIIIIIBBBB"] *)
Definition TELEMETRY_FORMAT : list code := replicate 14 CI ++ replicate 4 CB.

Definition pack_telemetry (t : Telemetry) : result bytes :=
  struct_pack TELEMETRY_FORMAT
    [t_round_id t; t_keygen_cycles t; t_encaps_cycles t; t_decaps_cycles t; t_hkdf_cycles t;
     t_mask_gen_cycles t; t_mask_apply_cycles t; t_peak_sram t; t_min_free_heap t;
     t_largest_free_block t; t_stack_high_water t; 0; 0; 0;
     (if t_heap_zero t then 1 else 0); t_aggregation_success t;
     Qfloor (t_final_accuracy t * 255); 0].

(** What [parse_telemetry] of experiments/run_benchmarks.py returns. *)
Record ParsedTelemetry : Type := {
  pt_round_id : Z;
  pt_keygen_cycles : Z;
  pt_encaps_cycles : Z;
  pt_decaps_cycles : Z;
  pt_hkdf_cycles : Z;
  pt_mask_gen_cycles : Z;
  pt_mask_apply_cycles : Z;
  pt_peak_sram : Z;
  pt_min_free_heap : Z;
  pt_largest_free_block : Z;
  pt_stack_high_water : Z;
  pt_heap_zero : bool;
  pt_aggregation_success : Z;
  pt_final_accuracy : Q;
}.

(** [None] is the empty dictionary of a short buffer. *)
Definition parse_telemetry (data : bytes) : result (option ParsedTelemetry) :=
  if (length data <? 60)%nat then Ok None
  else
    values ← struct_unpack TELEMETRY_FORMAT (take 60 data);
    let v i := nth i values 0 in
    Ok (Some {|
      pt_round_id := v 0%nat; pt_keygen_cycles := v 1%nat; pt_encaps_cycles := v 2%nat;
      pt_decaps_cycles := v 3%nat; pt_hkdf_cycles := v 4%nat; pt_mask_gen_cycles := v 5%nat;
      pt_mask_apply_cycles := v 6%nat; pt_peak_sram := v 7%nat; pt_min_free_heap := v 8%nat;
      pt_largest_free_block := v 9%nat; pt_stack_high_water := v 10%nat;
      pt_heap_zero := negb (v 14%nat =? 0); pt_aggregation_success := v 15%nat;
      pt_final_accuracy := inject_Z (v 16%nat) / 255 |}).

(** The test and the slice of the telemetry reader's connection handler:
    a ROUND_COMPLETE payload of at least 64 bytes is parsed from its last 64. *)
Definition telemetry_of_message (msg_type : Z) (payload : bytes) : result (option ParsedTelemetry) :=
  if (msg_type =? 0x41) && (64 <=? length payload)%nat
  then parse_telemetry (drop (length payload - 64) payload)
  else Ok None.

(** ** Chunks *)

(** [f">{n}h"] *)
Definition chunk_format (chunk_elements : nat) : list code := replicate chunk_elements Ch.

(** ** Headers *)

Definition header_values (h : MessageHeader) : list Z :=
  [h_protocol_version h; h_round_id h; h_client_id h; h_message_type h; h_sequence_number h;
   h_payload_length h; h_reserved h].

(** The field widths of the header. *)
Definition header_fits (message_type round_id client_id sequence_number payload_length : Z) : Prop :=
  0 <= round_id < 2 ^ 32 /\ 0 <= client_id < 256 /\ 0 <= message_type < 256 /\
  0 <= sequence_number < 65536 /\ 0 <= payload_length < 65536.

Lemma header_fits_spec ty rid cid seq len :
  header_fits ty rid cid seq len <->
  Forall2 code_range HEADER_FORMAT [PROTOCOL_VERSION; rid; cid; ty; seq; len; 0].
Proof.
  unfold header_fits, HEADER_FORMAT, PROTOCOL_VERSION.
  rewrite !Forall2_cons, Forall2_nil. simpl code_range.
  change (2 ^ 8) with 256. change (2 ^ 16) with 65536. change (2 ^ 32) with 4294967296. lia.
Qed.

Lemma build_header_ok ty rid cid seq len :
  header_fits ty rid cid seq len ->
  exists bs, build_header ty rid cid seq len = Ok bs /\ length bs = HEADER_SIZE /\ is_bytes bs /\
    parse_header bs = Ok (Build_MessageHeader PROTOCOL_VERSION rid cid ty seq len 0).
Proof.
  intros [bs Hbs]%header_fits_spec%struct_pack_success. exists bs.
  pose proof (struct_pack_ok _ _ _ Hbs) as (_ & Hl & Hb). split; [done|]. split; [done|].
  split; [done|]. unfold parse_header. by rewrite (struct_unpack_pack _ _ _ Hbs).
Qed.

Lemma build_header_err ty rid cid seq len :
  ~ header_fits ty rid cid seq len -> build_header ty rid cid seq len = Err StructError.
Proof. rewrite header_fits_spec. apply struct_pack_fails. Qed.

Lemma parse_header_ok bs :
  is_bytes bs -> length bs = HEADER_SIZE ->
  exists h, parse_header bs = Ok h /\ struct_pack HEADER_FORMAT (header_values h) = Ok bs.
Proof.
  intros Hb Hl. unfold parse_header.
  destruct (struct_unpack HEADER_FORMAT bs) as [vs|] eqn:E; [|exfalso].
  - pose proof (struct_unpack_length _ _ _ E) as Hlen.
    destruct vs as [|a [|b [|c [|d [|e [|f [|g [|]]]]]]]]; try done.
    run. eexists. split; [done|]. by apply struct_pack_unpack.
  - unfold struct_unpack in E. rewrite decide_True in E by done. done.
Qed.

Instance header_fits_dec ty rid cid seq len : Decision (header_fits ty rid cid seq len).
Proof. unfold header_fits. apply _. Defined.

(** C22: a header is built exactly when every field fits its width (otherwise
    [struct.error] is raised), it is 16 bytes long, and the reader recovers
    each field from it. *)
Theorem header_roundtrip ty rid cid seq len :
  match build_header ty rid cid seq len with
  | Ok bs =>
      header_fits ty rid cid seq len /\ length bs = HEADER_SIZE /\
      parse_header bs = Ok (Build_MessageHeader PROTOCOL_VERSION rid cid ty seq len 0)
  | Err e => ~ header_fits ty rid cid seq len /\ e = StructError
  end.
Proof.
  destruct (decide (header_fits ty rid cid seq len)) as [Hf|Hf].
  - destruct (build_header_ok _ _ _ _ _ Hf) as (bs & -> & Hl & _ & Hp). done.
  - by rewrite build_header_err.
Qed.

(** ** ROUND_INIT: the two byte orders *)

Definition bswap16 (v : Z) : Z := v mod 256 * 256 + v / 256.
Definition bswap32 (v : Z) : Z := bswap16 (v mod 65536) * 65536 + bswap16 (v / 65536).

Lemma div_byte v n : 0 < n -> 0 <= v < 256 * n -> is_byte (v / n).
Proof. intros Hn Hv. unfold is_byte. split; [apply Z.div_pos; lia|apply Z.div_lt_upper_bound; lia]. Qed.

Lemma mod_byte v : is_byte (v mod 256).
Proof. unfold is_byte. apply Z.mod_pos_bound. lia. Qed.

Lemma le16_be v : 0 <= v < 65536 -> le16 (v / 256) (v mod 256) = bswap16 v.
Proof.
  intros Hv. rewrite le16_add; [unfold bswap16; lia|apply div_byte; lia|apply mod_byte].
Qed.

(** Four little-endian bytes. *)
Lemma le32_add b0 b1 b2 b3 :
  is_byte b0 -> is_byte b1 -> is_byte b2 -> is_byte b3 ->
  Z.lor (Z.lor (Z.lor b0 (Z.shiftl b1 8)) (Z.shiftl b2 16)) (Z.shiftl b3 24) =
  b0 + 256 * b1 + 65536 * b2 + 16777216 * b3.
Proof.
  unfold is_byte. intros H0 H1 H2 H3.
  rewrite (lor_shift_add b0 b1 8) by lia. change (2 ^ 8) with 256.
  rewrite (lor_shift_add _ b2 16) by (change (2 ^ 16) with 65536; lia). change (2 ^ 16) with 65536.
  rewrite (lor_shift_add _ b3 24) by (change (2 ^ 24) with 16777216; lia).
  change (2 ^ 24) with 16777216. lia.
Qed.

Lemma be_encode_2 v : 0 <= v < 65536 -> be_encode 2 v = [v / 256; v mod 256].
Proof.
  intros Hv. cbn [be_encode app]. rewrite (Z.mod_small (v / 256) 256); [done|].
  apply (div_byte v 256); lia.
Qed.

Lemma be_encode_4 v : be_encode 4 v =
  [v / 256 / 256 / 256 mod 256; v / 256 / 256 mod 256; v / 256 mod 256; v mod 256].
Proof. done. Qed.

(** What the bridge decodes from the payload the Flower server sends: the
    client count and threshold are right, the chunk and model sizes have their
    bytes reversed, because the sender writes them big-endian and the reader
    reads them little-endian. *)
Theorem round_init_byte_order num_clients chunk_size num_chunks payload :
  round_init_payload num_clients chunk_size num_chunks = Ok payload ->
  decode_round_init payload =
    Ok (num_clients, 2, bswap16 chunk_size, bswap32 (num_chunks * chunk_size * 2)).
Proof.
  unfold round_init_payload, bytes_of_ints.
  set (m := num_chunks * chunk_size * 2).
  case_decide as Hn; run; [|done]. rewrite !struct_pack_one.
  destruct (decide (code_range CH chunk_size)) as [Hc|]; run; [|done].
  destruct (decide (code_range CI m)) as [Hm|]; run; [|done].
  simpl code_range in Hc, Hm. change (2 ^ 16) with 65536 in Hc. change (2 ^ 32) with 4294967296 in Hm.
  intros Hp.
  assert (Ok ([num_clients; 2] ++ be_encode 2 chunk_size ++ be_encode 4 m) = Ok payload) as E
    by exact Hp.
  rewrite be_encode_2 in E by done. rewrite be_encode_4 in E. injection E as <-. clear Hp.
  unfold decode_round_init, list_index. cbn [lookup list_lookup app]. run.
  fold (le16 (chunk_size / 256) (chunk_size mod 256)). rewrite le16_be by done.
  rewrite le32_add by apply mod_byte.
  do 2 f_equal. unfold bswap32, bswap16. clearbody m.
  Z.div_mod_to_equations. lia.
Qed.

Lemma round_init_byte_order_witness :
  decode_round_init [3; 2; 0; 128; 0; 0; 1; 0] = Ok (3, 2, 32768, 65536).
Proof.
  change (Ok (3, 2, 32768, 65536)) with (Ok (3, 2, bswap16 128, bswap32 (1 * 128 * 2)) : result (Z * Z * Z * Z)).
  apply (round_init_byte_order 3 128 1). reflexivity.
Defined.

(** ** Telemetry: what is packed and what is parsed *)

(** The eleven counters at the front of the block. *)
Definition telemetry_counters (t : Telemetry) : list Z :=
  [t_round_id t; t_keygen_cycles t; t_encaps_cycles t; t_decaps_cycles t; t_hkdf_cycles t;
   t_mask_gen_cycles t; t_mask_apply_cycles t; t_peak_sram t; t_min_free_heap t;
   t_largest_free_block t; t_stack_high_water t].

(** The four bytes at its end. *)
Definition telemetry_flags (t : Telemetry) : list Z :=
  [if t_heap_zero t then 1 else 0; t_aggregation_success t; Qfloor (t_final_accuracy t * 255); 0].

Lemma pack_telemetry_split t tb :
  pack_telemetry t = Ok tb ->
  exists counters flags,
    struct_pack (replicate 11 CI) (telemetry_counters t) = Ok counters /\
    struct_pack (replicate 4 CB) (telemetry_flags t) = Ok flags /\
    tb = counters ++ zero_bytes 12 ++ flags.
Proof.
  intros H.
  change (struct_pack (replicate 11 CI ++ replicate 3 CI ++ replicate 4 CB)
            (telemetry_counters t ++ [0; 0; 0] ++ telemetry_flags t) = Ok tb) in H.
  apply struct_pack_app_inv in H as (b1 & b2 & H1 & H2 & ->); [|done].
  apply struct_pack_app_inv in H2 as (b3 & b4 & H3 & H4 & ->); [|done].
  exists b1, b4. split; [done|]. split; [done|].
  assert (b3 = zero_bytes 12) as -> by (vm_compute in H3; by injection H3 as <-). done.
Qed.

Lemma pack_telemetry_length t tb : pack_telemetry t = Ok tb -> length tb = 60%nat.
Proof. intros H. by apply struct_pack_ok in H as (_ & -> & _). Qed.

(** A packed telemetry block is 60 bytes, and the benchmark parser, given
    exactly that block, recovers every field it keeps, the accuracy truncated
    to a multiple of 1/255. *)
Theorem telemetry_roundtrip t tb :
  pack_telemetry t = Ok tb ->
  length tb = 60%nat /\
  parse_telemetry tb = Ok (Some {|
    pt_round_id := t_round_id t; pt_keygen_cycles := t_keygen_cycles t;
    pt_encaps_cycles := t_encaps_cycles t; pt_decaps_cycles := t_decaps_cycles t;
    pt_hkdf_cycles := t_hkdf_cycles t; pt_mask_gen_cycles := t_mask_gen_cycles t;
    pt_mask_apply_cycles := t_mask_apply_cycles t; pt_peak_sram := t_peak_sram t;
    pt_min_free_heap := t_min_free_heap t; pt_largest_free_block := t_largest_free_block t;
    pt_stack_high_water := t_stack_high_water t; pt_heap_zero := t_heap_zero t;
    pt_aggregation_success := t_aggregation_success t;
    pt_final_accuracy := inject_Z (Qfloor (t_final_accuracy t * 255)) / 255 |}).
Proof.
  intros H. pose proof (pack_telemetry_length _ _ H) as Hl. split; [done|].
  unfold parse_telemetry. rewrite Hl. simpl (60 <? 60)%nat.
  rewrite take_ge by lia. unfold pack_telemetry in H.
  rewrite (struct_unpack_pack _ _ _ H). run. by destruct (t_heap_zero t).
Qed.

(** The reader that looks for telemetry in a ROUND_COMPLETE message takes
    the last 64 bytes of the payload, four more than were packed.  Every field
    is therefore read four bytes early: the round id is the end of the model
    chunk, each counter is the previous one, and success and accuracy are
    always zero. *)
Theorem telemetry_misaligned chunk t tb :
  is_bytes chunk -> (4 <= length chunk)%nat -> pack_telemetry t = Ok tb ->
  telemetry_of_message MSG_TYPE_ROUND_COMPLETE (chunk ++ tb) = Ok (Some {|
    pt_round_id := be_decode (drop (length chunk - 4) chunk);
    pt_keygen_cycles := t_round_id t;
    pt_encaps_cycles := t_keygen_cycles t; pt_decaps_cycles := t_encaps_cycles t;
    pt_hkdf_cycles := t_decaps_cycles t; pt_mask_gen_cycles := t_hkdf_cycles t;
    pt_mask_apply_cycles := t_mask_gen_cycles t; pt_peak_sram := t_mask_apply_cycles t;
    pt_min_free_heap := t_peak_sram t; pt_largest_free_block := t_min_free_heap t;
    pt_stack_high_water := t_largest_free_block t; pt_heap_zero := false;
    pt_aggregation_success := 0; pt_final_accuracy := 0 / 255 |}).
Proof.
  intros Hb Hc H. pose proof (pack_telemetry_length _ _ H) as Hl.
  set (last4 := drop (length chunk - 4) chunk).
  assert (Hl4 : length last4 = 4%nat) by (unfold last4; rewrite length_drop; lia).
  assert (Hb4 : is_bytes last4) by (by apply Forall_drop).
  unfold telemetry_of_message. rewrite length_app, Hl.
  replace (64 <=? length chunk + 60)%nat with true by (symmetry; apply Nat.leb_le; lia).
  cbn [andb Z.eqb MSG_TYPE_ROUND_COMPLETE].
  change (MSG_TYPE_ROUND_COMPLETE =? 0x41) with true. cbn [andb].
  replace (length chunk + 60 - 64)%nat with (length chunk - 4)%nat by lia.
  rewrite drop_app_le by lia. fold last4.
  unfold parse_telemetry. rewrite length_app, Hl4, Hl. simpl (4 + 60 <? 60)%nat.
  destruct (pack_telemetry_split _ _ H) as (counters & flags & H1 & H2 & ->).
  apply struct_pack_ok in H2 as (_ & Hlf & _). change (calcsize (replicate 4 CB)) with 4%nat in Hlf.
  pose proof (struct_pack_ok _ _ _ H1) as (_ & Hl1 & _).
  change (calcsize (replicate 11 CI)) with 44%nat in Hl1.
  replace (take 60 (last4 ++ counters ++ zero_bytes 12 ++ flags))
    with (last4 ++ counters ++ zero_bytes 12).
  2: { rewrite !app_assoc. symmetry. apply take_app_length'.
       rewrite !length_app, Hl4, Hl1. done. }
  assert (Hp : struct_pack TELEMETRY_FORMAT
                 ([be_decode last4] ++ telemetry_counters t ++ [0; 0; 0; 0; 0; 0]) =
               Ok (last4 ++ counters ++ zero_bytes 12)).
  { change TELEMETRY_FORMAT with ([CI] ++ replicate 11 CI ++ [CI; CI; CB; CB; CB; CB]).
    apply struct_pack_app; [|apply struct_pack_app; [done|reflexivity]].
    rewrite struct_pack_one. pose proof (be_decode_range _ Hb4) as Hr. rewrite Hl4 in Hr.
    rewrite decide_True by exact Hr. f_equal. rewrite <- Hl4 at 1. by apply be_encode_decode. }
  by rewrite (struct_unpack_pack _ _ _ Hp).
Qed.

(** A block the bridge could send. *)
Definition sample_telemetry : Telemetry := {|
  t_round_id := 7; t_keygen_cycles := 0; t_encaps_cycles := 0; t_decaps_cycles := 0;
  t_hkdf_cycles := 0; t_mask_gen_cycles := 0; t_mask_apply_cycles := 0; t_peak_sram := 0;
  t_min_free_heap := 0; t_largest_free_block := 0; t_stack_high_water := 0;
  t_heap_zero := false; t_bytes_tx := 2048; t_bytes_rx := 1024; t_packets := 16;
  t_retransmissions := 0; t_fragments := 0; t_aggregation_success := 1; t_final_accuracy := 1 |}.

Definition sample_block : bytes :=
  [0; 0; 0; 7] ++ zero_bytes 53 ++ [1; 255; 0].

Lemma telemetry_roundtrip_witness :
  length sample_block = 60%nat /\
  exists p, parse_telemetry sample_block = Ok (Some p) /\ pt_round_id p = 7 /\
    pt_aggregation_success p = 1.
Proof.
  destruct (telemetry_roundtrip sample_telemetry sample_block ltac:(reflexivity)) as [Hl Hp].
  split; [exact Hl|]. eexists. split; [exact Hp|]. split; reflexivity.
Defined.

Lemma telemetry_misaligned_witness :
  exists p, telemetry_of_message 0x41 ([0; 1; 0; 2] ++ sample_block) = Ok (Some p) /\
    pt_round_id p = 65538 /\ pt_keygen_cycles p = 7 /\ pt_aggregation_success p = 0.
Proof.
  eexists. split.
  - apply (telemetry_misaligned [0; 1; 0; 2] sample_telemetry sample_block).
    + repeat (constructor; [split; lia|]). constructor.
    + simpl. lia.
    + reflexivity.
  - split; [reflexivity|]. split; reflexivity.
Defined.
