(* ===== verification/State.v ===== *)
(** * The bridge's state

    The dataclasses of host_server/protocol_bridge.py and of
    host_server/baseline_server.py, the connections a bridge object holds, and
    the two monads its methods run in.

    A [RoundState] object is created once, stored under its id and never
    replaced, and so is a [ClientState] within its round; the model refers to
    both by their keys.  A method that takes a round runs in [M Ctx]: it sees
    that round and the bridge's connections.  A message handler runs in
    [M Bridge] and enters a round with [on_round]. *)

From Stdlib Require Import ZArith Lia.
From stdpp Require Import prelude.
From S2P Require Import Prelude PyDict PyBytes Wire.

(** ** Data *)

(** The values of [RoundState.stage]; AGGREGATION is a stage of the earlier
    bridges (DraftBridge) only. *)
Inductive Stage := INIT | MASK_SETUP | UNMASKING | ERROR | ROUND_COMPLETE | AGGREGATION.

#[export] Instance Stage_eq_dec : EqDecision Stage.
Proof. solve_decision. Defined.

(** [shamir_shares] is not a field of the dataclass: the HEAD bridge adds the
    attribute when the first share arrives. *)
Record ClientState : Type := {
  client_id : Z;
  client_round_id : Z;
  public_key : option bytes;
  shared_secret : option bytes;
  expected_chunks : Z;
  received_chunks : list (Z * bytes);
  completed : bool;
  pairwise_seeds : list (Z * bytes);
  stream_seeds : list (Z * bytes);
  sample_count : Z;
  shamir_shares : option (list bytes);
}.

Record RoundState : Type := {
  round_id : Z;
  expected_clients : Z;
  threshold : Z;
  chunk_size : Z;
  model_size : Z;
  clients : list (Z * ClientState);
  stage : Stage;
  dropout_clients : list Z;
  unmasked_chunks : list (Z * list Z);
}.

(** [ClientState(client_id=..., round_id=...)] *)
Definition new_client (cid rid : Z) : ClientState := {|
  client_id := cid; client_round_id := rid; public_key := None; shared_secret := None;
  expected_chunks := 0; received_chunks := []; completed := false; pairwise_seeds := [];
  stream_seeds := []; sample_count := 0; shamir_shares := None |}.

(** [RoundState(round_id=..., ...)] *)
Definition new_round (rid expected thr chunk model : Z) : RoundState := {|
  round_id := rid; expected_clients := expected; threshold := thr; chunk_size := chunk;
  model_size := model; clients := []; stage := INIT; dropout_clients := [];
  unmasked_chunks := [] |}.

(** ** Attribute assignments *)

Definition set_public_key (v : bytes) (c : ClientState) : ClientState :=
  let 'Build_ClientState i r _ ss e rc cp ps st sc sh := c in
  Build_ClientState i r (Some v) ss e rc cp ps st sc sh.
Definition set_shared_secret (v : bytes) (c : ClientState) : ClientState :=
  let 'Build_ClientState i r pk _ e rc cp ps st sc sh := c in
  Build_ClientState i r pk (Some v) e rc cp ps st sc sh.
Definition set_received (v : list (Z * bytes)) (c : ClientState) : ClientState :=
  let 'Build_ClientState i r pk ss e _ cp ps st sc sh := c in
  Build_ClientState i r pk ss e v cp ps st sc sh.
Definition set_completed (c : ClientState) : ClientState :=
  let 'Build_ClientState i r pk ss e rc _ ps st sc sh := c in
  Build_ClientState i r pk ss e rc true ps st sc sh.
Definition set_pairwise_seed (peer : Z) (seed : bytes) (c : ClientState) : ClientState :=
  let 'Build_ClientState i r pk ss e rc cp ps st sc sh := c in
  Build_ClientState i r pk ss e rc cp (dict_set peer seed ps) st sc sh.
Definition set_sample_count (v : Z) (c : ClientState) : ClientState :=
  let 'Build_ClientState i r pk ss e rc cp ps st _ sh := c in
  Build_ClientState i r pk ss e rc cp ps st v sh.
Definition set_shamir_shares (v : list bytes) (c : ClientState) : ClientState :=
  let 'Build_ClientState i r pk ss e rc cp ps st sc _ := c in
  Build_ClientState i r pk ss e rc cp ps st sc (Some v).

Definition set_clients (v : list (Z * ClientState)) (r : RoundState) : RoundState :=
  let 'Build_RoundState i e t cs ms _ st d u := r in Build_RoundState i e t cs ms v st d u.
Definition set_stage (v : Stage) (r : RoundState) : RoundState :=
  let 'Build_RoundState i e t cs ms c _ d u := r in Build_RoundState i e t cs ms c v d u.
Definition set_dropouts (v : list Z) (r : RoundState) : RoundState :=
  let 'Build_RoundState i e t cs ms c st _ u := r in Build_RoundState i e t cs ms c st v u.
Definition set_unmasked (v : list (Z * list Z)) (r : RoundState) : RoundState :=
  let 'Build_RoundState i e t cs ms c st d _ := r in Build_RoundState i e t cs ms c st d v.

(** [if x:] for an [Optional[bytes]]: None and the empty string are false. *)
Definition truthy (o : option bytes) : bool :=
  match o with Some (_ :: _) => true | _ => false end.

(** [model_size // chunk_size] *)
Definition num_chunks (r : RoundState) : result Z :=
  if chunk_size r =? 0 then Err ZeroDivisionError else Ok (model_size r / chunk_size r).

(** ** Connections

    A writer is identified by a number.  [wire] logs every [writer.write] in
    order.  Which transports are closing and which connections are lost is the
    network's choice; the bridge itself closes a writer when its handler ends.
    [encaps_used] counts the encapsulations drawn so far. *)
Record Net : Type := {
  client_writers : list (Z * Z);
  wire : list (Z * bytes);
  closing : list Z;
  lost : list Z;
  encaps_used : nat;
}.

Record Ctx : Type := { net : Net; round : RoundState }.

Record Bridge : Type := {
  rounds : list (Z * RoundState);
  current_round_id : Z;
  bridge_net : Net;
}.

(** [ProtocolBridge()], on a network where nothing is closed. *)
Definition empty_net : Net := {|
  client_writers := []; wire := []; closing := []; lost := []; encaps_used := 0 |}.
Definition new_bridge : Bridge := {|
  rounds := []; current_round_id := 0; bridge_net := empty_net |}.

Definition set_writers (v : list (Z * Z)) (n : Net) : Net :=
  let 'Build_Net _ w c l e := n in Build_Net v w c l e.
Definition log_write (conn : Z) (data : bytes) (n : Net) : Net :=
  let 'Build_Net ws w c l e := n in Build_Net ws (w ++ [(conn, data)]) c l e.
Definition close_conn (conn : Z) (n : Net) : Net :=
  let 'Build_Net ws w c l e := n in Build_Net ws w (conn :: c) l e.
Definition use_encaps (n : Net) : Net :=
  let 'Build_Net ws w c l e := n in Build_Net ws w c l (S e).

(** ** Monadic accessors *)

Definition the_round : M Ctx RoundState := gets round.
Definition update_round (f : RoundState -> RoundState) : M Ctx unit :=
  modify (fun c => {| net := net c; round := f (round c) |}).
Definition update_net (f : Net -> Net) : M Ctx unit :=
  modify (fun c => {| net := f (net c); round := round c |}).

(** [round_state.clients[cid]] *)
Definition get_client (cid : Z) : M Ctx ClientState :=
  r ← the_round; lift (dict_index cid (clients r)).

(** An assignment to an attribute of [round_state.clients[cid]]. *)
Definition update_client (cid : Z) (f : ClientState -> ClientState) : M Ctx unit :=
  c ← get_client cid;
  update_round (fun r => set_clients (dict_set cid (f c) (clients r)) r).

(** [writer.write(data); await writer.drain()]: a drain on a lost connection
    raises. *)
Definition write_drain (conn : Z) (data : bytes) : M Ctx unit :=
  _ ← update_net (log_write conn data);
  c ← gets net;
  if bool_decide (conn ∈ lost c) then raise ConnectionResetError else skip.

(** A bridge after a method on round [rid]. *)
Definition with_ctx (rid : Z) (c : Ctx) (b : Bridge) : Bridge := {|
  rounds := dict_set rid (round c) (rounds b); current_round_id := current_round_id b; bridge_net := net c |}.

(** Runs a method on the round stored under [rid]. *)
Definition on_round (rid : Z) (rs : RoundState) (m : M Ctx unit) : M Bridge unit :=
  fun b =>
    let '(res, c) := m {| net := bridge_net b; round := rs |} in
    (res, {| rounds := dict_set rid (round c) (rounds b);
             current_round_id := current_round_id b; bridge_net := net c |}).

(** [round_state = self.rounds.get(header.round_id)] and
    [if not round_state: return]. *)
Definition with_round (rid : Z) (m : M Ctx unit) : M Bridge unit :=
  fun b => match dict_get rid (rounds b) with
           | None => (Ok tt, b)
           | Some rs => on_round rid rs m b
           end.

(** [client_state = round_state.clients.get(cid)] and
    [if not client_state: return]. *)
Definition with_client (cid : Z) (m : ClientState -> M Ctx unit) : M Ctx unit :=
  r ← the_round;
  match dict_get cid (clients r) with None => skip | Some c => m c end.

(** ** How the accessors run *)

Lemma get_client_run cid (s : Ctx) : get_client cid s = (dict_index cid (clients (round s)), s).
Proof. done. Qed.

Lemma update_client_run cid f (s : Ctx) :
  update_client cid f s =
  match dict_get cid (clients (round s)) with
  | Some c => (Ok tt, {| net := net s;
                         round := set_clients (dict_set cid (f c) (clients (round s))) (round s) |})
  | None => (Err KeyError, s)
  end.
Proof.
  unfold update_client, mbind, M_bind. rewrite get_client_run. unfold dict_index.
  by destruct (dict_get cid (clients (round s))).
Qed.

Lemma write_drain_run conn data (s : Ctx) :
  write_drain conn data s =
  (if bool_decide (conn ∈ lost (net s)) then Err ConnectionResetError else Ok tt,
   {| net := log_write conn data (net s); round := round s |}).
Proof.
  unfold write_drain, update_net, modify, gets, mbind, M_bind, raise, skip. simpl.
  destruct s as [[] r]. simpl. by case_bool_decide.
Qed.

Lemma with_client_run cid m (s : Ctx) :
  with_client cid m s =
  match dict_get cid (clients (round s)) with None => (Ok tt, s) | Some c => m c s end.
Proof. unfold with_client, mbind, M_bind, the_round, gets. by case_match. Qed.

