(* ===== verification/Aggregate.v ===== *)
(** * Unmasking and federated averaging

    The aggregation code of the three bridges.  All of it works on local
    dictionaries, so each routine is a function from the round to the
    aggregated chunks, or to the exception it raises. *)

From Stdlib Require Import ZArith Lia.
From stdpp Require Import prelude.
From S2P Require Import Prelude PyDict PyBytes Field Lagrange Shamir Kdf Crypto Masks Wire State.

Abbreviation chunks := (list (Z * list Z)).

(** [weight = sample_count if sample_count > 0 else 1] *)
Definition weight (c : ClientState) : Z := if 0 <? sample_count c then sample_count c else 1.

(** [for j, val in enumerate(values): row[j] = (row[j] + val * weight) % FIELD_MODULUS] *)
Fixpoint accumulate (w : Z) (row values : list Z) : result (list Z) :=
  match values, row with
  | [], _ => Ok row
  | _ :: _, [] => Err IndexError
  | v :: vs, x :: xs => rest ← accumulate w xs vs; Ok ((x + v * w) mod FIELD_MODULUS :: rest)
  end.

(** The same loop on [fedavg_chunks[seq_num]]. *)
Definition accumulate_chunk (w seq_num : Z) (values : list Z) (fedavg : chunks) : result chunks :=
  row ← dict_index seq_num fedavg;
  row' ← accumulate w row values;
  Ok (dict_set seq_num row' fedavg).

(** [fedavg_chunks[i] = [0] * chunk_elements] for every chunk. *)
Definition zero_chunks (n : Z) (chunk_elements : nat) : chunks :=
  (fun i => (i, replicate chunk_elements 0)) <$> range n.

(** The division by the total: a multiplication by its inverse in the field,
    skipped for a total of 0 or 1. *)
Definition scale_chunks (total : Z) (fedavg : chunks) : chunks :=
  if 1 <? total
  then let inv_total := py_pow total (FIELD_MODULUS - 2) FIELD_MODULUS in
       map (fun p : Z * list Z => (fst p, map (fun x => (x * inv_total) mod FIELD_MODULUS) (snd p))) fedavg
  else fedavg.

(** The total weight over the clients selected by [p]: the positive sample
    counts, or the number of clients if they sum to zero. *)
Definition total_samples (p : ClientState -> bool) (cs : list (Z * ClientState)) : Z :=
  let chosen := filter (fun c => p c && completed c) (snd <$> cs) in
  let total := foldr Z.add 0 (sample_count <$> filter (fun c => 0 <? sample_count c) chosen) in
  if total =? 0 then Z.of_nat (length chosen) else total.

(** [for seq_num, chunk_data in received_chunks.items()] with its
    [if seq_num >= num_chunks: continue]. *)
Definition in_range_chunks (n : Z) (c : ClientState) : list (Z * bytes) :=
  filter (fun p => fst p < n) (received_chunks c).

Definition is_dropout (r : RoundState) (cid : Z) : bool := bool_decide (cid ∈ dropout_clients r).

(** ** HEAD: [_finalize_aggregation] *)

Module Head.

(** The surviving clients' loop. *)
Definition add_client (n : Z) (chunk_elements : nat) (fedavg : chunks) (c : ClientState) : result chunks :=
  if completed c then
    fold_result
      (fun acc (p : Z * bytes) =>
         values ← struct_unpack (chunk_format chunk_elements) (snd p);
         accumulate_chunk (weight c) (fst p) values acc)
      (in_range_chunks n c) fedavg
  else Ok fedavg.

(** The dropouts' loop: [recover_dropped_client_masks] is imported in another
    method only, so the first dropped client with a shared secret ends it. *)
Definition dropout_step (r : RoundState) (fedavg : chunks) (dropout_id : Z) : result chunks :=
  match dict_get dropout_id (clients r) with
  | Some d => if truthy (shared_secret d)
              then Err (NameError "recover_dropped_client_masks") else Ok fedavg
  | None => Ok fedavg
  end.

Definition finalize_aggregation (r : RoundState) : result chunks :=
  n ← num_chunks r;
  let chunk_elements := Z.to_nat (chunk_size r) in
  let surviving_clients :=
    filter (fun p : Z * ClientState => negb (is_dropout r (fst p))) (clients r) in
  fedavg ← fold_result (add_client n chunk_elements) (snd <$> surviving_clients)
             (zero_chunks n chunk_elements);
  fedavg ← fold_result (dropout_step r) (dropout_clients r) fedavg;
  Ok (scale_chunks (total_samples (fun _ => true) (clients r)) fedavg).

End Head.

(** ** The incoming side and the classical bridge: [_unmask_client_chunks] and
    [_compute_fedavg] *)

Module Incoming.
Section Unmask.
Context {L : CryptoLib} (CRYPTO_AVAILABLE : bool).

(** The chunks of one surviving client, unpacked. *)
Definition unpack_chunks (n : Z) (chunk_elements : nat) (c : ClientState) : result chunks :=
  fold_result
    (fun acc (p : Z * bytes) =>
       values ← struct_unpack (chunk_format chunk_elements) (snd p);
       Ok (dict_set (fst p) values acc))
    (in_range_chunks n c) [].

(** The chunks of a dropped client, with the recovered masks added back. *)
Definition unmask_chunks (recovered_masks : chunks) (n : Z) (chunk_elements : nat)
    (c : ClientState) : result chunks :=
  fold_result
    (fun acc (p : Z * bytes) =>
       values ← struct_unpack (chunk_format chunk_elements) (snd p);
       mask ← dict_index (fst p) recovered_masks;
       unmasked ← map_result
                    (fun i => v ← list_index values i; m ← list_index mask i;
                              Ok ((v + m) mod FIELD_MODULUS))
                    (seq 0 chunk_elements);
       Ok (dict_set (fst p) unmasked acc))
    (in_range_chunks n c) [].

Definition unmask_survivor (r : RoundState) (n : Z) (acc : list (Z * chunks))
    (p : Z * ClientState) : result (list (Z * chunks)) :=
  if is_dropout r (fst p) then Ok acc
  else cs ← unpack_chunks n (Z.to_nat (chunk_size r)) (snd p);
       Ok (dict_set (fst p) cs acc).

Definition unmask_dropout (r : RoundState) (n : Z) (acc : list (Z * chunks)) (dropout_id : Z)
    : result (list (Z * chunks)) :=
  match dict_get dropout_id (clients r) with
  | None => Ok acc
  | Some d =>
      if truthy (shared_secret d) then
        let all_peer_ids := filter (fun cid => cid <> dropout_id) (dict_keys (clients r)) in
        recovered_masks ← recover_dropped_client_masks CRYPTO_AVAILABLE
                            (default [] (shared_secret d)) (round_id r) all_peer_ids dropout_id
                            n (Z.to_nat (chunk_size r));
        cs ← unmask_chunks recovered_masks n (Z.to_nat (chunk_size r)) d;
        Ok (dict_set dropout_id cs acc)
      else Ok acc
  end.

Definition unmask_client_chunks (r : RoundState) : result (list (Z * chunks)) :=
  n ← num_chunks r;
  survivors ← fold_result (unmask_survivor r n) (clients r) [];
  fold_result (unmask_dropout r n) (dropout_clients r) survivors.

End Unmask.

(** One client's contribution. *)
Definition add_unmasked (r : RoundState) (n : Z) (fedavg : chunks) (p : Z * chunks) : result chunks :=
  match dict_get (fst p) (clients r) with
  | None => Ok fedavg
  | Some c =>
      if completed c then
        fold_result
          (fun acc seq_num =>
             match dict_get seq_num (snd p) with
             | None => Ok acc
             | Some values => accumulate_chunk (weight c) seq_num values acc
             end)
          (range n) fedavg
      else Ok fedavg
  end.

Definition compute_fedavg (r : RoundState) (client_unmasked : list (Z * chunks)) : result chunks :=
  let total := total_samples (fun c => dict_mem (client_id c) client_unmasked) (clients r) in
  n ← num_chunks r;
  fedavg ← fold_result (add_unmasked r n) client_unmasked
             (zero_chunks n (Z.to_nat (chunk_size r)));
  Ok (scale_chunks total fedavg).

End Incoming.
