(* ===== verification/FedAvg.v ===== *)
(** * Correctness of federated averaging

    The specification of the aggregation ([fedavg_sum]: the weighted sum of
    the unpacked chunks; [weight_sum]: the sum of the weights of the clients
    that count; [weighted_means]: the one over the other) and the proofs that
    both implementations compute it, element by element, in the field, when the
    clients that count all have samples or all have none ([same_kind]).  When
    they do not, the divisor of the code leaves out the weights of the clients
    without samples. *)

From Stdlib Require Import ZArith Lia.
From stdpp Require Import prelude.
From S2P Require Import Prelude PyDict PyBytes Field Lagrange Shamir Kdf Crypto Masks Wire State Aggregate.
#[local] Open Scope gf_scope.

(** ** Specification *)

(** The j-th value a client sent in chunk i; zero when it sent no such chunk. *)
Definition chunk_value (ce : nat) (c : ClientState) (i : Z) (j : nat) : Z :=
  match dict_get i (received_chunks c) with
  | Some d => nth j (unpack_fields (chunk_format ce) d) 0
  | None => 0
  end.

(** The clients that count: completed and not dropped. *)
Definition contributors (r : RoundState) : list ClientState :=
  filter (fun c => completed c)
    (snd <$> filter (fun p : Z * ClientState => negb (is_dropout r (fst p))) (clients r)).

Definition fedavg_sum (r : RoundState) (i : Z) (j : nat) : Z :=
  gsum (fun c => weight c * chunk_value (Z.to_nat (chunk_size r)) c i j) (contributors r).

(** The sum of the weights of the clients that count. *)
Definition weight_sum (r : RoundState) : Z := gsum weight (contributors r).

(** n chunks of ce elements with the given entries, reduced into the field. *)
Definition spec_row (ce : nat) (g : nat -> Z) : list Z :=
  (fun j => g j mod FIELD_MODULUS) <$> seq 0 ce.
Definition spec_chunks (n : Z) (ce : nat) (g : Z -> nat -> Z) : chunks :=
  (fun i => (i, spec_row ce (g i))) <$> range n.

(** What the bridge guarantees of a client's chunks. *)
Record client_ok (ce : nat) (c : ClientState) : Prop := {
  ok_keys : NoDup (dict_keys (received_chunks c));
  ok_chunk : forall s d, (s, d) ∈ received_chunks c -> 0 <= s /\ length d = (2 * ce)%nat;
}.

Definition clients_ok (r : RoundState) : Prop :=
  NoDup (dict_keys (clients r)) /\
  forall k c, (k, c) ∈ clients r -> client_id c = k /\ client_ok (Z.to_nat (chunk_size r)) c.

(** ** Rows and chunks *)

Lemma spec_row_length ce g : length (spec_row ce g) = ce.
Proof. unfold spec_row. by rewrite length_fmap, length_seq. Qed.

Lemma spec_row_lookup ce g j : (j < ce)%nat -> spec_row ce g !! j = Some (g j mod FIELD_MODULUS).
Proof. intros Hj. unfold spec_row. by rewrite list_lookup_fmap, lookup_seq_lt. Qed.

Lemma spec_row_out ce g j : (ce <= j)%nat -> spec_row ce g !! j = None.
Proof. intros Hj. apply lookup_ge_None_2. by rewrite spec_row_length. Qed.

Lemma spec_row_ext ce g h : (forall j, (j < ce)%nat -> g j == h j) -> spec_row ce g = spec_row ce h.
Proof.
  intros H. unfold spec_row. apply list_fmap_ext. intros k j Hk%list_elem_of_lookup_2.
  apply elem_of_seq in Hk. apply eqp_mod_eq, H. lia.
Qed.

Lemma spec_chunks_ext n ce g h :
  (forall i j, 0 <= i < n -> (j < ce)%nat -> g i j == h i j) -> spec_chunks n ce g = spec_chunks n ce h.
Proof.
  intros H. unfold spec_chunks. apply list_fmap_ext. intros k i Hi%list_elem_of_lookup_2.
  apply elem_of_range in Hi. f_equal. apply spec_row_ext. auto.
Qed.

Lemma zero_chunks_spec n ce : zero_chunks n ce = spec_chunks n ce (fun _ _ => 0).
Proof.
  unfold zero_chunks, spec_chunks. apply list_fmap_ext. intros _ i _. f_equal.
  apply list_eq. intros j. destruct (decide (j < ce)%nat).
  - rewrite spec_row_lookup by done. by rewrite lookup_replicate_2.
  - rewrite spec_row_out by lia. apply lookup_ge_None_2. rewrite length_replicate. lia.
Qed.

Lemma accumulate_ok w row values :
  length values = length row ->
  accumulate w row values = Ok (zip_with (fun x v => (x + v * w) mod FIELD_MODULUS) row values).
Proof.
  revert row. induction values as [|v vs IH]; intros [|x xs] Hlen; simpl; try done.
  rewrite IH by (simpl in Hlen; lia). by run.
Qed.

Lemma accumulate_spec_row w ce g values :
  length values = ce ->
  accumulate w (spec_row ce g) values = Ok (spec_row ce (fun j => g j + w * nth j values 0)).
Proof.
  intros Hlen. rewrite accumulate_ok by (by rewrite spec_row_length). f_equal.
  apply list_eq. intros j. rewrite lookup_zip_with. destruct (decide (j < ce)%nat) as [Hj|Hj].
  - rewrite !spec_row_lookup, (nth_lookup_Some' _ _ 0) by lia. simpl. f_equal.
    rewrite Zplus_mod_idemp_l. f_equal. lia.
  - rewrite !spec_row_out by lia. done.
Qed.

Lemma spec_chunks_get n ce g s :
  0 <= s < n -> dict_get s (spec_chunks n ce g) = Some (spec_row ce (g s)).
Proof.
  intros Hs. unfold spec_chunks. apply (dict_get_fmap (fun i => spec_row ce (g i))).
  by apply elem_of_range.
Qed.

Lemma spec_chunks_set n ce g s h :
  0 <= s < n ->
  dict_set s (spec_row ce h) (spec_chunks n ce g) =
  spec_chunks n ce (fun i => if decide (i = s) then h else g i).
Proof.
  intros Hs. unfold spec_chunks. rewrite (dict_set_fmap (fun i => spec_row ce (g i))).
  - apply list_fmap_ext. intros _ i _. by case_decide.
  - apply range_NoDup.
  - by apply elem_of_range.
Qed.

Lemma accumulate_chunk_spec w n ce g s values :
  0 <= s < n -> length values = ce ->
  accumulate_chunk w s values (spec_chunks n ce g) =
  Ok (spec_chunks n ce (fun i j => g i j + if decide (i = s) then w * nth j values 0 else 0)).
Proof.
  intros Hs Hlen. unfold accumulate_chunk, dict_index. rewrite spec_chunks_get by done. run.
  rewrite accumulate_spec_row by done. run. rewrite spec_chunks_set by done. f_equal.
  apply spec_chunks_ext. intros i j _ _. apply eqp_of_eq. case_decide; [by subst|lia].
Qed.

Lemma unpack_chunk_ok ce d :
  length d = (2 * ce)%nat -> struct_unpack (chunk_format ce) d = Ok (unpack_fields (chunk_format ce) d) /\
  length (unpack_fields (chunk_format ce) d) = ce.
Proof.
  intros Hd. unfold struct_unpack, chunk_format.
  assert (Hl : length d = calcsize (replicate ce Ch)).
  { rewrite calcsize_replicate. change (code_size Ch) with 2%nat. lia. }
  rewrite decide_True by done. split; [done|].
  pose proof (struct_unpack_length (replicate ce Ch) d (unpack_fields (replicate ce Ch) d)) as H.
  unfold struct_unpack in H. rewrite decide_True in H by done. rewrite H by done.
  apply length_replicate.
Qed.

(** A client's own contribution, chunk by chunk. *)
Definition client_term (ce : nat) (c : ClientState) (i : Z) (j : nat) : Z :=
  weight c * chunk_value ce c i j.

Lemma in_range_chunks_get n c i :
  i < n -> dict_get i (in_range_chunks n c) = dict_get i (received_chunks c).
Proof. intros Hi. exact (dict_get_filter (fun k => k < n) i (received_chunks c) Hi). Qed.

Lemma elem_of_in_range n ce c s d :
  client_ok ce c -> (s, d) ∈ in_range_chunks n c -> 0 <= s < n /\ length d = (2 * ce)%nat.
Proof.
  intros Hok Hin. apply list_elem_of_filter in Hin as [Hs Hin].
  apply (ok_chunk _ _ Hok) in Hin. simpl in Hs. lia.
Qed.

(** The value [d.get(i)] unpacks to, for a dictionary of raw chunks. *)
Definition raw_value (ce : nat) (l : list (Z * bytes)) (i : Z) (j : nat) : Z :=
  match dict_get i l with
  | Some d => nth j (unpack_fields (chunk_format ce) d) 0
  | None => 0
  end.

Lemma raw_value_in_range n ce c i j :
  i < n -> raw_value ce (in_range_chunks n c) i j = chunk_value ce c i j.
Proof. intros Hi. unfold raw_value, chunk_value. by rewrite in_range_chunks_get. Qed.

Lemma raw_value_cons ce s d l i j :
  s ∉ dict_keys l ->
  raw_value ce ((s, d) :: l) i j =
  raw_value ce l i j + if decide (i = s) then nth j (unpack_fields (chunk_format ce) d) 0 else 0.
Proof.
  intros Hs. unfold raw_value. cbn [dict_get]. destruct (decide (i = s)) as [->|]; [|lia].
  apply dict_get_None in Hs. by rewrite Hs.
Qed.

(** ** The HEAD implementation *)

Lemma head_add_chunks w n ce l g :
  NoDup (dict_keys l) -> (forall s d, (s, d) ∈ l -> 0 <= s < n /\ length d = (2 * ce)%nat) ->
  fold_result
    (fun acc (p : Z * bytes) =>
       values ← struct_unpack (chunk_format ce) (snd p); accumulate_chunk w (fst p) values acc)
    l (spec_chunks n ce g) =
  Ok (spec_chunks n ce (fun i j => g i j + w * raw_value ce l i j)).
Proof.
  revert g. induction l as [|[s d] l IH]; intros g Hnd Hl.
  - cbn [fold_result]. f_equal. apply spec_chunks_ext. intros i j _ _. apply eqp_of_eq.
    unfold raw_value. simpl. lia.
  - apply NoDup_cons in Hnd as [Hs Hnd]. cbn [fold_result fst snd].
    destruct (Hl s d ltac:(left)) as [Hr Hd]. destruct (unpack_chunk_ok ce d Hd) as [-> Hlen]. run.
    rewrite accumulate_chunk_spec by done. run.
    rewrite IH; [|done|intros; apply Hl; by right]. f_equal. apply spec_chunks_ext.
    intros i j _ _. apply eqp_of_eq. rewrite raw_value_cons by done. case_decide; lia.
Qed.

Lemma head_add_client n ce g c :
  client_ok ce c ->
  Head.add_client n ce (spec_chunks n ce g) c =
  Ok (spec_chunks n ce (fun i j => g i j + if completed c then client_term ce c i j else 0)).
Proof.
  intros Hok. unfold Head.add_client. destruct (completed c).
  - rewrite head_add_chunks.
    + f_equal. apply spec_chunks_ext. intros i j Hi _. apply eqp_of_eq.
      by rewrite raw_value_in_range by lia.
    + apply dict_filter_NoDup, (ok_keys _ _ Hok).
    + intros s d. by apply elem_of_in_range.
  - f_equal. apply spec_chunks_ext. intros i j _ _. apply eqp_of_eq. lia.
Qed.

Lemma head_add_clients n ce cs g :
  Forall (client_ok ce) cs ->
  fold_result (Head.add_client n ce) cs (spec_chunks n ce g) =
  Ok (spec_chunks n ce
        (fun i j => g i j + gsum (fun c => client_term ce c i j) (filter (fun c => completed c) cs))).
Proof.
  intros Hcs. revert g. induction Hcs as [|c cs Hc Hcs IH]; intros g; cbn [fold_result].
  - f_equal. apply spec_chunks_ext. intros i j _ _. apply eqp_of_eq. simpl. lia.
  - rewrite head_add_client by done. run. rewrite IH. f_equal. apply spec_chunks_ext.
    intros i j _ _. apply eqp_of_eq. rewrite filter_cons.
    destruct (completed c); simpl; lia.
Qed.

(** No dropped client has a shared secret. *)
Definition no_dropout_secret (r : RoundState) : Prop :=
  forall k c, k ∈ dropout_clients r -> dict_get k (clients r) = Some c ->
  truthy (shared_secret c) = false.

Lemma head_dropouts_skip r ids fedavg :
  (forall k, k ∈ ids -> k ∈ dropout_clients r) -> no_dropout_secret r ->
  fold_result (Head.dropout_step r) ids fedavg = Ok fedavg.
Proof.
  intros Hin Hno. induction ids as [|k ids IH]; [done|]. cbn [fold_result].
  assert (Head.dropout_step r fedavg k = Ok fedavg) as ->.
  { unfold Head.dropout_step. destruct (dict_get k (clients r)) as [c|] eqn:E; [|done].
    rewrite (Hno k c); [done| |done]. apply Hin. left. }
  run. apply IH. intros; apply Hin; by right.
Qed.

Lemma survivors_ok r (P : Z * ClientState -> Prop) `{forall p, Decision (P p)} :
  clients_ok r -> Forall (client_ok (Z.to_nat (chunk_size r))) (snd <$> filter P (clients r)).
Proof.
  intros [_ Hok]. apply Forall_forall. intros c Hc.
  apply list_elem_of_fmap in Hc as ([k c'] & -> & Hin).
  apply list_elem_of_filter in Hin as [_ Hin]. by apply (Hok k c').
Qed.

(** What HEAD's [_finalize_aggregation] computes. *)
Definition head_spec (r : RoundState) (n : Z) : chunks :=
  scale_chunks (total_samples (fun _ => true) (clients r))
    (spec_chunks n (Z.to_nat (chunk_size r)) (fedavg_sum r)).

Lemma head_finalize_eq r :
  clients_ok r -> no_dropout_secret r -> chunk_size r <> 0 ->
  Head.finalize_aggregation r = Ok (head_spec r (model_size r / chunk_size r)).
Proof.
  intros Hok Hno Hcs. unfold Head.finalize_aggregation, num_chunks.
  rewrite (proj2 (Z.eqb_neq _ _) Hcs). run.
  rewrite zero_chunks_spec, head_add_clients by (by apply survivors_ok). run.
  rewrite head_dropouts_skip by done. run. unfold head_spec. do 2 f_equal.
Qed.

(** ** The incoming implementation *)

Definition unpacked (ce : nat) (l : list (Z * bytes)) : chunks :=
  (fun p => (fst p, unpack_fields (chunk_format ce) (snd p))) <$> l.

Lemma unpack_chunks_eq n ce c :
  client_ok ce c -> Incoming.unpack_chunks n ce c = Ok (unpacked ce (in_range_chunks n c)).
Proof.
  intros Hok. unfold Incoming.unpack_chunks, unpacked.
  rewrite (fold_dict_set (fun p : Z * bytes => fst p)
             (fun p => struct_unpack (chunk_format ce) (snd p))
             (fun p => unpack_fields (chunk_format ce) (snd p))); [done| | |set_solver].
  - intros [s d] Hin. eapply elem_of_in_range in Hin as [_ Hd]; [|done].
    by apply unpack_chunk_ok.
  - apply dict_filter_NoDup, (ok_keys _ _ Hok).
Qed.

Lemma unpacked_value ce l i j :
  match dict_get i (unpacked ce l) with Some values => nth j values 0 | None => 0 end =
  raw_value ce l i j.
Proof.
  unfold unpacked, raw_value.
  rewrite (dict_get_map_values (unpack_fields (chunk_format ce)) i l). by destruct (dict_get i l).
Qed.

Lemma unpacked_length ce n c i values :
  client_ok ce c -> dict_get i (unpacked ce (in_range_chunks n c)) = Some values -> length values = ce.
Proof.
  intros Hok. unfold unpacked. rewrite (dict_get_map_values (unpack_fields (chunk_format ce)) i).
  destruct (dict_get i (in_range_chunks n c)) as [d|] eqn:E; [|done].
  intros [= <-]. apply dict_get_elem in E. eapply elem_of_in_range in E as [_ Hd]; [|done].
  by apply unpack_chunk_ok.
Qed.

Lemma incoming_add_rows w n ce (cs : chunks) l g :
  NoDup l -> (forall i, i ∈ l -> 0 <= i < n) ->
  (forall i values, dict_get i cs = Some values -> length values = ce) ->
  fold_result
    (fun acc seq_num => match dict_get seq_num cs with
                        | None => Ok acc
                        | Some values => accumulate_chunk w seq_num values acc
                        end)
    l (spec_chunks n ce g) =
  Ok (spec_chunks n ce (fun i j => g i j +
        if bool_decide (i ∈ l)
        then w * match dict_get i cs with Some values => nth j values 0 | None => 0 end else 0)).
Proof.
  intros Hnd Hl Hcs. revert g. induction Hnd as [|s l Hs Hnd IH]; intros g; cbn [fold_result].
  - f_equal. apply spec_chunks_ext. intros i j _ _. apply eqp_of_eq.
    rewrite bool_decide_false by set_solver. lia.
  - destruct (dict_get s cs) as [values|] eqn:E; run.
    + rewrite accumulate_chunk_spec; [|apply Hl; left|by eapply Hcs]. run.
      rewrite IH by (intros; apply Hl; by right). f_equal. apply spec_chunks_ext.
      intros i j _ _. apply eqp_of_eq. destruct (decide (i = s)) as [->|Hne].
      * rewrite bool_decide_false, bool_decide_true, E by set_solver. lia.
      * rewrite (bool_decide_ext (i ∈ s :: l) (i ∈ l)) by set_solver. lia.
    + rewrite IH by (intros; apply Hl; by right). f_equal. apply spec_chunks_ext.
      intros i j _ _. apply eqp_of_eq. destruct (decide (i = s)) as [->|Hne].
      * rewrite bool_decide_false, bool_decide_true, E by set_solver. lia.
      * by rewrite (bool_decide_ext (i ∈ s :: l) (i ∈ l)) by set_solver.
Qed.

Lemma incoming_add_client r n ce g k c :
  dict_get k (clients r) = Some c -> client_ok ce c ->
  Incoming.add_unmasked r n (spec_chunks n ce g) (k, unpacked ce (in_range_chunks n c)) =
  Ok (spec_chunks n ce (fun i j => g i j + if completed c then client_term ce c i j else 0)).
Proof.
  intros Hk Hok. unfold Incoming.add_unmasked. cbn [fst snd]. rewrite Hk.
  destruct (completed c).
  - rewrite incoming_add_rows; [|apply range_NoDup|by intros i ?%elem_of_range|].
    + f_equal. apply spec_chunks_ext. intros i j Hi _. apply eqp_of_eq.
      rewrite bool_decide_true by (by apply elem_of_range).
      rewrite unpacked_value, raw_value_in_range by lia. done.
    + intros i values. by apply unpacked_length.
  - f_equal. apply spec_chunks_ext. intros i j _ _. apply eqp_of_eq. lia.
Qed.

(** The surviving clients with their unpacked chunks. *)
Definition survivors (r : RoundState) : list (Z * ClientState) :=
  filter (fun p : Z * ClientState => negb (is_dropout r (fst p))) (clients r).

Definition unmasked_survivors (ce : nat) (n : Z) (l : list (Z * ClientState)) : list (Z * chunks) :=
  (fun p => (fst p, unpacked ce (in_range_chunks n (snd p)))) <$> l.

Lemma incoming_add_clients r n ce l g :
  (forall k c, (k, c) ∈ l -> dict_get k (clients r) = Some c /\ client_ok ce c) ->
  fold_result (Incoming.add_unmasked r n) (unmasked_survivors ce n l) (spec_chunks n ce g) =
  Ok (spec_chunks n ce (fun i j =>
        g i j + gsum (fun c => client_term ce c i j) (filter (fun c => completed c) (snd <$> l)))).
Proof.
  revert g. induction l as [|[k c] l IH]; intros g Hl.
  - cbn [fold_result unmasked_survivors fmap list_fmap]. f_equal. apply spec_chunks_ext.
    intros i j _ _. apply eqp_of_eq. simpl. lia.
  - unfold unmasked_survivors. rewrite fmap_cons. cbn [fold_result fst snd].
    destruct (Hl k c ltac:(left)) as [Hk Hc]. rewrite incoming_add_client by done. run.
    fold (unmasked_survivors ce n l). rewrite IH by (intros; apply Hl; by right).
    f_equal. apply spec_chunks_ext. intros i j _ _. apply eqp_of_eq.
    rewrite fmap_cons, filter_cons. cbn [snd]. destruct (completed c); simpl; lia.
Qed.

Lemma survivor_get r k c :
  clients_ok r -> (k, c) ∈ survivors r ->
  dict_get k (clients r) = Some c /\ client_ok (Z.to_nat (chunk_size r)) c.
Proof.
  intros [Hnd Hok] Hin. apply list_elem_of_filter in Hin as [_ Hin].
  split; [by apply dict_elem_get|by apply (Hok k c)].
Qed.

Lemma unmask_survivors_eq r n l acc :
  NoDup (dict_keys l) -> (forall k, k ∈ dict_keys l -> k ∉ dict_keys acc) ->
  (forall k c, (k, c) ∈ l -> client_ok (Z.to_nat (chunk_size r)) c) ->
  fold_result (Incoming.unmask_survivor r n) l acc =
  Ok (acc ++ unmasked_survivors (Z.to_nat (chunk_size r)) n
               (filter (fun p : Z * ClientState => negb (is_dropout r (fst p))) l)).
Proof.
  revert acc. induction l as [|[k c] l IH]; intros acc Hnd Hacc Hok; cbn [fold_result].
  - by rewrite app_nil_r.
  - unfold dict_keys in Hnd, Hacc. rewrite fmap_cons in Hnd, Hacc.
    apply NoDup_cons in Hnd as [Hk Hnd]. cbn [fst snd] in *.
    rewrite filter_cons. cbn [fst].
    assert (Hok' : forall k c, (k, c) ∈ l -> client_ok (Z.to_nat (chunk_size r)) c)
      by (intros; eapply Hok; by right).
    destruct (is_dropout r k) eqn:E.
    + assert (Incoming.unmask_survivor r n acc (k, c) = Ok acc) as ->
        by (unfold Incoming.unmask_survivor; cbn [fst]; by rewrite E).
      run. rewrite IH; [done|exact Hnd| |exact Hok']. intros k' Hk'. apply Hacc. by right.
    + assert (Incoming.unmask_survivor r n acc (k, c) =
              Ok (dict_set k (unpacked (Z.to_nat (chunk_size r)) (in_range_chunks n c)) acc)) as ->.
      { unfold Incoming.unmask_survivor. cbn [fst snd]. rewrite E, unpack_chunks_eq; [done|].
        eapply Hok. left. }
      run.
      rewrite dict_set_snoc by (apply Hacc; left). rewrite IH; [|exact Hnd| |exact Hok'].
      * unfold unmasked_survivors. simpl. by rewrite <- app_assoc.
      * intros k' Hk'. unfold dict_keys. rewrite fmap_app. apply not_elem_of_app. split.
        -- apply Hacc. by right.
        -- intros Hin. apply list_elem_of_singleton in Hin. simpl in Hin. by subst.
Qed.

Section Incoming_correct.
Context {L : CryptoLib} (CRYPTO_AVAILABLE : bool).

Lemma incoming_dropouts_skip r n ids acc :
  (forall k, k ∈ ids -> k ∈ dropout_clients r) -> no_dropout_secret r ->
  fold_result (Incoming.unmask_dropout CRYPTO_AVAILABLE r n) ids acc = Ok acc.
Proof.
  intros Hin Hno. induction ids as [|k ids IH]; [done|]. cbn [fold_result].
  assert (Incoming.unmask_dropout CRYPTO_AVAILABLE r n acc k = Ok acc) as ->.
  { unfold Incoming.unmask_dropout. destruct (dict_get k (clients r)) as [c|] eqn:E; [|done].
    rewrite (Hno k c); [done| |done]. apply Hin. left. }
  run. apply IH. intros; apply Hin; by right.
Qed.

Lemma incoming_unmask_eq r :
  clients_ok r -> no_dropout_secret r -> chunk_size r <> 0 ->
  Incoming.unmask_client_chunks CRYPTO_AVAILABLE r =
  Ok (unmasked_survivors (Z.to_nat (chunk_size r)) (model_size r / chunk_size r) (survivors r)).
Proof.
  intros [Hnd Hok] Hno Hcs. unfold Incoming.unmask_client_chunks, num_chunks.
  rewrite (proj2 (Z.eqb_neq _ _) Hcs). run. rewrite unmask_survivors_eq.
  - run. by rewrite incoming_dropouts_skip.
  - done.
  - set_solver.
  - intros k c Hin. by apply (Hok k c).
Qed.
End Incoming_correct.

Lemma unmasked_survivors_mem ce n l k :
  dict_mem k (unmasked_survivors ce n l) = bool_decide (k ∈ dict_keys l).
Proof.
  unfold dict_mem, unmasked_survivors.
  rewrite (dict_get_map_values (fun c => unpacked ce (in_range_chunks n c)) k l).
  destruct (dict_get k l) eqn:E; simpl.
  - symmetry. apply bool_decide_true. apply dict_get_is_Some. by eexists.
  - symmetry. apply bool_decide_false. by apply dict_get_None.
Qed.

Lemma total_samples_ext p q cs :
  (forall c, c ∈ snd <$> cs -> p c = q c) -> total_samples p cs = total_samples q cs.
Proof.
  intros H. unfold total_samples.
  rewrite (filter_ext_in (fun c => p c && completed c) (fun c => q c && completed c)); [done|].
  intros c Hc. by rewrite H.
Qed.

(** What [_unmask_client_chunks] followed by [_compute_fedavg] computes. *)
Definition incoming_spec (r : RoundState) (n : Z) : chunks :=
  scale_chunks (total_samples (fun c => negb (is_dropout r (client_id c))) (clients r))
    (spec_chunks n (Z.to_nat (chunk_size r)) (fedavg_sum r)).

Lemma survivors_keys r k c :
  clients_ok r -> (k, c) ∈ clients r ->
  bool_decide (client_id c ∈ dict_keys (survivors r)) = negb (is_dropout r (client_id c)).
Proof.
  intros [Hnd Hok] Hin. destruct (Hok k c Hin) as [-> _].
  destruct (is_dropout r k) eqn:E; simpl.
  - apply bool_decide_false. intros ([k' c'] & -> & H)%list_elem_of_fmap.
    apply list_elem_of_filter in H as [H _]. cbn [fst] in *. by rewrite E in H.
  - apply bool_decide_true. apply list_elem_of_fmap. exists (k, c). split; [done|].
    apply list_elem_of_filter. split; [|done]. cbn [fst]. by rewrite E.
Qed.

Lemma incoming_fedavg_eq r :
  clients_ok r -> chunk_size r <> 0 ->
  let n := model_size r / chunk_size r in
  Incoming.compute_fedavg r (unmasked_survivors (Z.to_nat (chunk_size r)) n (survivors r)) =
  Ok (incoming_spec r n).
Proof.
  intros Hok Hcs n. unfold Incoming.compute_fedavg, num_chunks.
  rewrite (proj2 (Z.eqb_neq _ _) Hcs). run. fold n.
  rewrite zero_chunks_spec, incoming_add_clients by (intros k c; by apply survivor_get).
  run. f_equal. unfold incoming_spec. f_equal.
  apply total_samples_ext. intros c Hc. apply list_elem_of_fmap in Hc as ([k c'] & -> & Hin).
  cbn [snd]. rewrite unmasked_survivors_mem. by apply (survivors_keys r k).
Qed.

(** ** The averages *)

(** The j-th element of chunk i. *)
Definition entry (f : chunks) (i : Z) (j : nat) : option Z :=
  match dict_get i f with Some row => row !! j | None => None end.

Lemma entry_scale total f i j :
  entry (scale_chunks total f) i j =
  (fun x => if 1 <? total then (x * invp total) mod FIELD_MODULUS else x) <$> entry f i j.
Proof.
  unfold entry, scale_chunks. destruct (1 <? total).
  - rewrite (dict_get_map_values (fun row => map (fun x => (x * invp total) mod FIELD_MODULUS) row) i f).
    destruct (dict_get i f) as [row|]; [|done]. cbn [fmap option_fmap option_map].
    apply list_lookup_fmap.
  - destruct (dict_get i f) as [row|]; [|done]. by destruct (row !! j).
Qed.

Lemma entry_spec n ce g i j :
  0 <= i < n -> (j < ce)%nat -> entry (spec_chunks n ce g) i j = Some (g i j mod FIELD_MODULUS).
Proof. intros Hi Hj. unfold entry. rewrite spec_chunks_get by done. by apply spec_row_lookup. Qed.

(** What a mean is worth in the field: the entry times the total is the sum. *)
Definition is_mean (total sum e : Z) : Prop :=
  0 <= e < FIELD_MODULUS /\ e * total == sum /\
  (forall q, 0 <= q < FIELD_MODULUS -> sum = total * q -> e = q).

Lemma scaled_entry_mean n ce g total i j :
  0 <= i < n -> (j < ce)%nat -> 0 <= total -> ~ total == 0 ->
  exists e, entry (scale_chunks total (spec_chunks n ce g)) i j = Some e /\ is_mean total (g i j) e.
Proof.
  intros Hi Hj Hpos Ht. rewrite entry_scale, entry_spec by done. cbn [fmap option_fmap option_map].
  eexists. split; [done|]. set (e := if 1 <? total then _ else _).
  assert (Hr : 0 <= e < FIELD_MODULUS) by (unfold e; case_match; apply mod_p_range).
  assert (He : e * total == g i j).
  { unfold e. destruct (Z.ltb_spec 1 total).
    - rewrite !eqp_mod. transitivity (g i j * (invp total * total)).
      + apply eqp_of_eq. lia.
      + rewrite invp_l by done. apply eqp_of_eq. lia.
    - assert (total = 1 \/ total = 0) as [->| ->] by lia; [|by destruct Ht].
      rewrite eqp_mod. apply eqp_of_eq. lia. }
  split; [done|]. split; [done|]. intros q Hq Hsum.
  apply eqp_small; [done|done|]. apply (eqp_mul_cancel total); [done|].
  rewrite <- Hsum, <- He. apply eqp_of_eq. lia.
Qed.

Lemma scaled_entry_zero n ce g total i j :
  0 <= i < n -> (j < ce)%nat -> 0 < total -> total == 0 ->
  entry (scale_chunks total (spec_chunks n ce g)) i j = Some 0.
Proof.
  intros Hi Hj Hpos Ht. rewrite entry_scale, entry_spec by done. cbn [fmap option_fmap option_map].
  assert (1 < total) as H1.
  { destruct (decide (total = 1)) as [->|]; [by apply gf_one_nonzero in Ht|lia]. }
  rewrite (proj2 (Z.ltb_lt _ _) H1). f_equal.
  by rewrite invp_zero, Z.mul_0_r.
Qed.

Lemma total_samples_nonneg p cs : 0 <= total_samples p cs.
Proof.
  unfold total_samples. set (l := filter (fun c => p c && completed c) _).
  clearbody l. case_match; [lia|]. clear. induction l as [|c l IH]; [done|]. rewrite filter_cons.
  destruct (Z.ltb_spec 0 (sample_count c)) as [Hc|Hc].
  - rewrite decide_True by done. rewrite fmap_cons. cbn [foldr]. lia.
  - rewrite decide_False; [done|]. by intros [].
Qed.

(** The number of chunks of a round, when it is defined. *)
Definition chunk_count (r : RoundState) : Z := model_size r / chunk_size r.

(** ** The divisor the code uses

    The code weighs a client without samples by one, but its total adds the
    positive sample counts only.  The two agree when the completed clients all
    have samples or all have none, and on HEAD, whose total also counts the
    dropped clients, when no completed client was dropped. *)

Definition sampled (c : ClientState) : Prop := 0 < sample_count c.

Definition same_kind (l : list ClientState) : Prop := Forall sampled l \/ Forall (fun c => ~ sampled c) l.

(** The clients without samples among the clients that count. *)
Definition unsampled (r : RoundState) : Z :=
  Z.of_nat (length (filter (fun c => ~ sampled c) (contributors r))).

Definition no_completed_dropout (r : RoundState) : Prop :=
  forall k c, (k, c) ∈ clients r -> completed c = true -> k ∉ dropout_clients r.

#[global] Instance sampled_dec c : Decision (sampled c).
Proof. unfold sampled. apply _. Defined.

Lemma weight_pos c : 0 < weight c.
Proof. unfold weight. destruct (Z.ltb_spec 0 (sample_count c)); lia. Qed.

Lemma gsum_cons {A} (f : A -> Z) x l : gsum f (x :: l) = f x + gsum f l.
Proof. done. Qed.

Lemma samples_weights (l : list ClientState) :
  foldr Z.add 0 (sample_count <$> filter (fun c => 0 <? sample_count c) l) =
  gsum weight l - Z.of_nat (length (filter (fun c => ~ sampled c) l)).
Proof.
  induction l as [|c l IH]; [done|]. rewrite gsum_cons. unfold weight at 1.
  destruct (Z.ltb_spec 0 (sample_count c)) as [Hc|Hc].
  - rewrite filter_cons_True by (by apply Is_true_true, Z.ltb_lt).
    rewrite (filter_cons_False (fun c => ~ sampled c)) by (intros Hn; by apply Hn).
    rewrite fmap_cons. cbn [foldr]. rewrite IH. lia.
  - rewrite filter_cons_False by (rewrite Is_true_true, Z.ltb_lt; lia).
    rewrite (filter_cons_True (fun c => ~ sampled c)) by (unfold sampled; lia). rewrite IH, length_cons. lia.
Qed.

Lemma gsum_weight_nonneg l : 0 <= gsum weight l.
Proof. induction l as [|c l IH]; [done|]. rewrite gsum_cons. pose proof (weight_pos c). lia. Qed.

Lemma filter_all {A} (P : A -> Prop) `{forall x, Decision (P x)} l : Forall P l -> filter P l = l.
Proof. induction 1; [done|]. by rewrite filter_cons_True, IHForall. Qed.

Lemma filter_none {A} (P : A -> Prop) `{forall x, Decision (P x)} l :
  Forall (fun x => ~ P x) l -> filter P l = [].
Proof. induction 1; [done|]. by rewrite filter_cons_False. Qed.

(** The total over clients of one kind is the sum of their weights. *)
Lemma total_samples_weights p cs l :
  filter (fun c => p c && completed c) (snd <$> cs) = l -> same_kind l ->
  total_samples p cs = gsum weight l.
Proof.
  intros Hl Hk. unfold total_samples. rewrite Hl, samples_weights. destruct Hk as [Hk|Hk].
  - rewrite (filter_none (fun c => ~ sampled c)), Z.sub_0_r
      by (eapply Forall_impl; [exact Hk|]; intros c Hc Hn; by apply Hn).
    destruct (Z.eqb_spec (gsum weight l) 0) as [E|]; [|done]. destruct l as [|c l]; [done|].
    rewrite gsum_cons in E. pose proof (weight_pos c). pose proof (gsum_weight_nonneg l). lia.
  - assert (gsum weight l = Z.of_nat (length l)) as ->.
    { clear Hl. induction Hk as [|c l Hc _ IH]; [done|]. rewrite gsum_cons, IH, length_cons.
      unfold weight, sampled in *.
      destruct (Z.ltb_spec 0 (sample_count c)); lia. }
    rewrite (filter_all (fun c => ~ sampled c)) by done. by rewrite Z.sub_diag.
Qed.

Lemma filter_pairs (P : Z -> bool) (q : ClientState -> bool) (l : list (Z * ClientState)) :
  (forall k c, (k, c) ∈ l -> client_id c = k) ->
  filter (fun c => P (client_id c) && q c) (snd <$> l) =
  filter (fun c => q c) (snd <$> filter (fun p : Z * ClientState => P (fst p)) l).
Proof.
  induction l as [|[k c] l IH]; intros Hid; [done|].
  pose proof (Hid k c ltac:(left)) as Hk. rewrite fmap_cons. cbn [snd]. rewrite filter_cons, Hk.
  rewrite IH by (intros; apply Hid; by right). destruct (P k) eqn:E; cbn [andb].
  - rewrite (filter_cons_True (fun p : Z * ClientState => P (fst p))) by (cbn [fst]; by rewrite E).
    rewrite fmap_cons, filter_cons. done.
  - rewrite (filter_cons_False (fun p : Z * ClientState => P (fst p))) by (cbn [fst]; rewrite E; by intros []).
    done.
Qed.

Lemma incoming_contributors r :
  clients_ok r ->
  filter (fun c => negb (is_dropout r (client_id c)) && completed c) (snd <$> clients r) = contributors r.
Proof.
  intros [_ Hok]. apply (filter_pairs (fun k => negb (is_dropout r k))). intros k c Hin.
  by apply (Hok k c).
Qed.

Lemma head_contributors r :
  no_completed_dropout r ->
  filter (fun c => true && completed c) (snd <$> clients r) = contributors r.
Proof.
  intros Hno. unfold contributors. unfold no_completed_dropout in Hno. cbn [andb].
  induction (clients r) as [|[k c] l IH]; [done|]. rewrite fmap_cons. cbn [snd].
  rewrite filter_cons, IH by (intros; eapply Hno; [by right|done]).
  destruct (is_dropout r k) eqn:E.
  - rewrite (filter_cons_False _ (k, c)) by (cbn [fst]; rewrite E; by intros []).
    destruct (completed c) eqn:Ec; [|by rewrite decide_False by (by intros [])].
    apply bool_decide_eq_true in E. by destruct (Hno k c ltac:(left) Ec).
  - rewrite (filter_cons_True _ (k, c)) by (cbn [fst]; by rewrite E).
    rewrite fmap_cons, filter_cons. done.
Qed.

Lemma head_total r :
  no_completed_dropout r -> same_kind (contributors r) ->
  total_samples (fun _ => true) (clients r) = weight_sum r.
Proof. intros Hno Hk. apply total_samples_weights; [by apply head_contributors|done]. Qed.

Lemma incoming_total r :
  clients_ok r -> same_kind (contributors r) ->
  total_samples (fun c => negb (is_dropout r (client_id c))) (clients r) = weight_sum r.
Proof. intros Hok Hk. apply total_samples_weights; [by apply incoming_contributors|done]. Qed.

Lemma weight_sum_nonneg r : 0 <= weight_sum r.
Proof. apply gsum_weight_nonneg. Qed.

(** Every element of every chunk of the aggregate is the weighted mean. *)
Definition weighted_means (r : RoundState) (f : chunks) : Prop :=
  forall i j, 0 <= i < chunk_count r -> Z.of_nat j < chunk_size r ->
  exists e, entry f i j = Some e /\ is_mean (weight_sum r) (fedavg_sum r i j) e.

Lemma scaled_means r total :
  total = weight_sum r -> ~ weight_sum r == 0 ->
  weighted_means r (scale_chunks total
    (spec_chunks (chunk_count r) (Z.to_nat (chunk_size r)) (fedavg_sum r))).
Proof.
  intros -> Ht i j Hi Hj. apply scaled_entry_mean; [done|lia|apply weight_sum_nonneg|done].
Qed.

Lemma head_spec_means r :
  no_completed_dropout r -> same_kind (contributors r) -> ~ weight_sum r == 0 ->
  weighted_means r (head_spec r (chunk_count r)).
Proof. intros Hno Hk Ht. apply scaled_means; [by apply head_total|done]. Qed.

Lemma incoming_spec_means r :
  clients_ok r -> same_kind (contributors r) -> ~ weight_sum r == 0 ->
  weighted_means r (incoming_spec r (chunk_count r)).
Proof. intros Hok Hk Ht. apply scaled_means; [by apply incoming_total|done]. Qed.

Lemma no_dropouts_none_completed r : dropout_clients r = [] -> no_completed_dropout r.
Proof. intros Hd k c _ _. rewrite Hd. apply not_elem_of_nil. Qed.

(** C9: HEAD's [_finalize_aggregation], on a round whose completed clients all
    have a positive sample count or all have none, none of them dropped, whose
    dropped clients have no shared secret, and whose sum of weights is not a
    multiple of 3329: every element of every chunk is the weighted mean, in
    GF(3329), of the values the clients that count sent.  Multiplied by the
    sum of their weights it gives the sum of their weighted values, and it is
    the true quotient whenever that sum of weights divides the sum of values
    with a quotient in range. *)
Theorem head_weighted_mean r :
  clients_ok r -> no_dropout_secret r -> 0 < chunk_size r ->
  no_completed_dropout r -> same_kind (contributors r) -> ~ weight_sum r == 0 ->
  exists f, Head.finalize_aggregation r = Ok f /\ weighted_means r f.
Proof.
  intros Hok Hno Hcs Hd Hk Ht. rewrite head_finalize_eq by (done || lia).
  eexists. split; [done|]. by apply head_spec_means.
Qed.

Section Incoming_mean.
Context {L : CryptoLib} (CRYPTO_AVAILABLE : bool).

Definition incoming_aggregate (r : RoundState) : result chunks :=
  client_unmasked ← Incoming.unmask_client_chunks CRYPTO_AVAILABLE r;
  Incoming.compute_fedavg r client_unmasked.

Lemma incoming_aggregate_eq r :
  clients_ok r -> no_dropout_secret r -> chunk_size r <> 0 ->
  incoming_aggregate r = Ok (incoming_spec r (chunk_count r)).
Proof.
  intros Hok Hno Hcs. unfold incoming_aggregate. rewrite incoming_unmask_eq by done. run.
  by apply incoming_fedavg_eq.
Qed.

(** C10: the incoming [_unmask_client_chunks] followed by [_compute_fedavg], on a
    round whose clients that count all have a positive sample count or all have
    none, whose dropped clients have no shared secret, and whose sum of weights
    is not a multiple of 3329, compute the same weighted means; here a
    completed client may have dropped out, and counts in neither sum. *)
Theorem incoming_weighted_mean r :
  clients_ok r -> no_dropout_secret r -> 0 < chunk_size r ->
  same_kind (contributors r) -> ~ weight_sum r == 0 ->
  exists f, incoming_aggregate r = Ok f /\ weighted_means r f.
Proof.
  intros Hok Hno Hcs Hk Ht. rewrite incoming_aggregate_eq by (done || lia).
  eexists. split; [done|]. by apply incoming_spec_means.
Qed.

(** C11: the two sides of the merge conflict aggregate alike when nobody dropped
    out: the same chunks, or the same division by zero for a zero chunk size. *)
Theorem aggregations_agree r :
  clients_ok r -> dropout_clients r = [] ->
  Head.finalize_aggregation r = incoming_aggregate r.
Proof.
  intros Hok Hd. destruct (decide (chunk_size r = 0)) as [Hz|Hz].
  - unfold Head.finalize_aggregation, incoming_aggregate, Incoming.unmask_client_chunks, num_chunks.
    by rewrite Hz.
  - assert (Hno : no_dropout_secret r) by (intros k c Hk; rewrite Hd in Hk; set_solver).
    rewrite head_finalize_eq, incoming_aggregate_eq by done.
    unfold head_spec, incoming_spec. do 2 f_equal. apply total_samples_ext.
    intros c _. unfold is_dropout. by rewrite Hd.
Qed.

(** C21: when the total weight is a positive multiple of 3329, the inverse the
    code computes is zero and every aggregated value is zero, on both sides. *)
Theorem aggregation_vanishes r i j :
  clients_ok r -> dropout_clients r = [] -> 0 < chunk_size r ->
  0 <= i < chunk_count r -> Z.of_nat j < chunk_size r ->
  0 < total_samples (fun _ => true) (clients r) ->
  total_samples (fun _ => true) (clients r) == 0 ->
  exists f, Head.finalize_aggregation r = Ok f /\ incoming_aggregate r = Ok f /\
    entry f i j = Some 0.
Proof.
  intros Hok Hd Hcs Hi Hj Hpos Ht.
  assert (Hno : no_dropout_secret r) by (intros k c Hk; rewrite Hd in Hk; set_solver).
  exists (head_spec r (chunk_count r)). rewrite head_finalize_eq by (done || lia).
  rewrite incoming_aggregate_eq by (done || lia). split; [done|]. split.
  - unfold head_spec, incoming_spec. do 2 f_equal. apply total_samples_ext.
    intros c _. unfold is_dropout. by rewrite Hd.
  - apply scaled_entry_zero; [done|lia|done|done].
Qed.

(** The value both sides store in a round where a client without samples
    completed beside one with samples. *)
Lemma skewed_entry r i j :
  clients_ok r -> dropout_clients r = [] -> 0 < chunk_size r ->
  0 <= i < chunk_count r -> Z.of_nat j < chunk_size r ->
  ~ weight_sum r - unsampled r == 0 ->
  exists f e, Head.finalize_aggregation r = Ok f /\ incoming_aggregate r = Ok f /\
    entry f i j = Some e /\ is_mean (weight_sum r - unsampled r) (fedavg_sum r i j) e.
Proof.
  intros Hok Hd Hcs Hi Hj Ht.
  assert (Hno : no_dropout_secret r) by (intros k c Hk; rewrite Hd in Hk; set_solver).
  assert (Htot : total_samples (fun _ => true) (clients r) = weight_sum r - unsampled r).
  { unfold total_samples. rewrite head_contributors by (by apply no_dropouts_none_completed).
    rewrite samples_weights. change (gsum weight (contributors r) - _) with (weight_sum r - unsampled r).
    destruct (Z.eqb_spec (weight_sum r - unsampled r) 0) as [E|]; [|done].
    destruct Ht. by apply eqp_of_eq. }
  exists (head_spec r (chunk_count r)). rewrite head_finalize_eq by (done || lia).
  rewrite incoming_aggregate_eq by (done || lia).
  destruct (scaled_entry_mean (chunk_count r) (Z.to_nat (chunk_size r)) (fedavg_sum r)
              (weight_sum r - unsampled r) i j) as (e & He & Hm); [done|lia| |done|].
  { rewrite <- Htot. apply total_samples_nonneg. }
  exists e. split; [done|]. split; [|by unfold head_spec; rewrite Htot].
  unfold head_spec, incoming_spec. do 2 f_equal. apply total_samples_ext.
  intros c _. unfold is_dropout. by rewrite Hd.
Qed.

(** C39: a client without samples that completes beside clients with samples
    spoils the round on both sides of the merge conflict: its values are added
    with weight one and its weight is not in the divisor, so that wherever the
    weighted sum is not a multiple of 3329 the value stored is not the weighted
    mean: it times the sum of the weights is not the weighted sum.  For a round
    without dropouts, with neither the code's divisor nor the number of
    clients without samples a multiple of 3329. *)
Theorem zero_samples_skew r i j :
  clients_ok r -> dropout_clients r = [] -> 0 < chunk_size r ->
  0 <= i < chunk_count r -> Z.of_nat j < chunk_size r ->
  ~ unsampled r == 0 -> ~ weight_sum r - unsampled r == 0 ->
  ~ fedavg_sum r i j == 0 ->
  exists f e, Head.finalize_aggregation r = Ok f /\ incoming_aggregate r = Ok f /\
    entry f i j = Some e /\ e * (weight_sum r - unsampled r) == fedavg_sum r i j /\
    ~ e * weight_sum r == fedavg_sum r i j.
Proof.
  intros Hok Hd Hcs Hi Hj Hz Ht Hsum.
  destruct (skewed_entry r i j) as (f & e & Hh & Hinc & He & _ & Hm & _); [done..|].
  exists f, e. do 4 (split; [done|]). intros Hw. apply Hsum. rewrite <- Hw.
  assert (e * unsampled r == e * 0) as Hu.
  { rewrite Z.mul_0_r. replace (e * unsampled r) with (e * weight_sum r - e * (weight_sum r - unsampled r)) by lia.
    rewrite Hw, Hm. apply eqp_of_eq. lia. }
  assert (e == 0) as ->; [|apply eqp_of_eq; lia].
  apply (eqp_mul_cancel (unsampled r)); [done|]. rewrite (Z.mul_comm (unsampled r) e), Hu. apply eqp_of_eq. lia.
Qed.

End Incoming_mean.

(** ** Concrete rounds *)

(** [clients_ok] as a computation. *)
Definition client_okb (ce : nat) (c : ClientState) : bool :=
  bool_decide (NoDup (dict_keys (received_chunks c))) &&
  forallb (fun p => (0 <=? fst p) && (length (snd p) =? 2 * ce)%nat) (received_chunks c).

Definition clients_okb (r : RoundState) : bool :=
  bool_decide (NoDup (dict_keys (clients r))) &&
  forallb (fun p => (client_id (snd p) =? fst p) && client_okb (Z.to_nat (chunk_size r)) (snd p))
    (clients r).

Lemma client_okb_ok ce c : client_okb ce c = true -> client_ok ce c.
Proof.
  intros [Hnd Hall]%andb_true_iff. apply bool_decide_eq_true in Hnd. split; [done|].
  intros s d Hin. rewrite forallb_forall in Hall. apply list_elem_of_In in Hin.
  apply Hall in Hin as [H1 H2]%andb_true_iff. cbn [fst snd] in *.
  apply Z.leb_le in H1. apply Nat.eqb_eq in H2. done.
Qed.

Lemma clients_okb_ok r : clients_okb r = true -> clients_ok r.
Proof.
  intros [Hnd Hall]%andb_true_iff. apply bool_decide_eq_true in Hnd. split; [done|].
  intros k c Hin. rewrite forallb_forall in Hall. apply list_elem_of_In in Hin.
  apply Hall in Hin as [H1 H2]%andb_true_iff. cbn [fst snd] in *.
  split; [by apply Z.eqb_eq|by apply client_okb_ok].
Qed.

Definition sample_client (cid samples : Z) (received : list (Z * bytes)) : ClientState := {|
  client_id := cid; client_round_id := 1; public_key := None; shared_secret := None;
  expected_chunks := 0; received_chunks := received; completed := true; pairwise_seeds := [];
  stream_seeds := []; sample_count := samples; shamir_shares := None |}.

(** Two clients with one and three samples, two chunks of two values; the
    second value of chunk 0 is 5 and -3. *)
Definition sample_round (samples1 samples2 : Z) : RoundState := {|
  round_id := 1; expected_clients := 2; threshold := 2; chunk_size := 2; model_size := 4;
  clients := [(1, sample_client 1 samples1 [(0, [0; 4; 0; 5]); (1, [0; 1; 0; 1])]);
              (2, sample_client 2 samples2 [(1, [0; 2; 0; 9]); (0, [0; 8; 255; 253])])];
  stage := UNMASKING; dropout_clients := []; unmasked_chunks := [] |}.

Lemma no_dropouts_no_secret r : dropout_clients r = [] -> no_dropout_secret r.
Proof. intros Hd k c Hk. rewrite Hd in Hk. by apply not_elem_of_nil in Hk. Qed.

(** Both clients of the sample rounds count. *)
Lemma sample_round_kind a b : 0 < a -> 0 < b -> same_kind (contributors (sample_round a b)).
Proof. intros Ha Hb. left. by repeat constructor. Qed.

Lemma head_weighted_mean_witness :
  weight_sum (sample_round 1 3) = 4 /\ fedavg_sum (sample_round 1 3) 0 0 = 4 + 3 * 8 /\
  exists f, Head.finalize_aggregation (sample_round 1 3) = Ok f /\ weighted_means (sample_round 1 3) f.
Proof.
  split; [reflexivity|]. split; [reflexivity|].
  apply (head_weighted_mean (sample_round 1 3)).
  - apply clients_okb_ok. reflexivity.
  - apply no_dropouts_no_secret. reflexivity.
  - reflexivity.
  - apply no_dropouts_none_completed. reflexivity.
  - apply sample_round_kind; reflexivity.
  - intros [H]. discriminate H.
Defined.

Lemma incoming_weighted_mean_witness :
  exists f, incoming_aggregate true (sample_round 1 3) = Ok f /\ weighted_means (sample_round 1 3) f.
Proof.
  apply (incoming_weighted_mean true (sample_round 1 3)).
  - apply clients_okb_ok. reflexivity.
  - apply no_dropouts_no_secret. reflexivity.
  - reflexivity.
  - apply sample_round_kind; reflexivity.
  - intros [H]. discriminate H.
Defined.

(** A client without samples beside one with five, both sending 7: the mean is
    7, and 1340 is stored. *)
Definition sevens_round : RoundState := {|
  round_id := 1; expected_clients := 2; threshold := 2; chunk_size := 1; model_size := 1;
  clients := [(1, sample_client 1 0 [(0, [0; 7])]); (2, sample_client 2 5 [(0, [0; 7])])];
  stage := UNMASKING; dropout_clients := []; unmasked_chunks := [] |}.

Lemma zero_samples_skew_witness :
  (weight_sum sevens_round = 6 /\ unsampled sevens_round = 1 /\
   fedavg_sum sevens_round 0 0 = 6 * 7 /\
   Head.finalize_aggregation sevens_round = Ok [(0, [1340])]) /\
  exists f e, Head.finalize_aggregation sevens_round = Ok f /\
    incoming_aggregate true sevens_round = Ok f /\ entry f 0 0 = Some e /\
    e * (6 - 1) == 6 * 7 /\ ~ e * 6 == 6 * 7.
Proof.
  split; [split; [reflexivity|split; [reflexivity|split; reflexivity]]|].
  apply (zero_samples_skew true sevens_round 0 0).
  - apply clients_okb_ok. reflexivity.
  - reflexivity.
  - reflexivity.
  - split; [discriminate|reflexivity].
  - reflexivity.
  - intros [H]. discriminate H.
  - intros [H]. discriminate H.
  - intros [H]. discriminate H.
Defined.

Lemma aggregations_agree_witness :
  Head.finalize_aggregation (sample_round 1 3) = incoming_aggregate true (sample_round 1 3) /\
  Head.finalize_aggregation (sample_round 1 3) = Ok [(0, [7; 3328]); (1, [834; 7])].
Proof.
  split; [|reflexivity].
  apply (aggregations_agree true (sample_round 1 3)); [apply clients_okb_ok; reflexivity|reflexivity].
Defined.

(** 3326 + 3 = 3329 samples. *)
Lemma aggregation_vanishes_witness :
  exists f, Head.finalize_aggregation (sample_round 3326 3) = Ok f /\
    incoming_aggregate true (sample_round 3326 3) = Ok f /\ entry f 0 0 = Some 0.
Proof.
  apply (aggregation_vanishes true (sample_round 3326 3) 0 0).
  - apply clients_okb_ok. reflexivity.
  - reflexivity.
  - reflexivity.
  - split; [discriminate|reflexivity].
  - reflexivity.
  - reflexivity.
  - constructor. reflexivity.
Defined.
