(* ===== verification/Keys.v ===== *)
(** * Key setup and dropout recovery

    [_setup_keys_and_masks], [_orchestrate_pairwise_kem] and
    [_trigger_recovery], the same code in both sides of the bridge and in the
    classical bridge.  They differ in [_encapsulate] only, which is a
    parameter here. *)

From Stdlib Require Import ZArith Lia.
From stdpp Require Import prelude.
From S2P Require Import Prelude PyDict PyBytes Shamir Kdf Crypto Wire State.

(** [_encapsulate] of the bridge: [OQS_AVAILABLE] is True when [oqs] was
    imported, False when [pqcrypto] was, None when neither is installed.  The
    number says which encapsulation of the process this is. *)
Definition encapsulate_pq {L : CryptoLib} (OQS_AVAILABLE : option bool) (n : nat) (pubkey : bytes)
    : result (bytes * bytes) :=
  match OQS_AVAILABLE with
  | Some true => oqs_encap_secret n pubkey
  | Some false => pq_kem_encapsulate n pubkey
  | None => Err RuntimeError
  end.

(** [_encapsulate] of the classical bridge: an ephemeral X25519 exchange whose
    shared point goes through HKDF with an empty salt. *)
Definition encapsulate_x25519 {L : CryptoLib} (n : nat) (pubkey : bytes) : result (bytes * bytes) :=
  let private_key := x25519_generate n in
  shared ← x25519_exchange private_key pubkey;
  ss ← hkdf_derive [] KDF_LABEL_SESSION_KEY 32 shared;
  Ok (x25519_public private_key, ss).

(** [for i, a in enumerate(ids): for b in ids[i+1:]] *)
Fixpoint later_pairs (ids : list Z) : list (Z * Z) :=
  match ids with
  | [] => []
  | a :: rest => ((fun b => (a, b)) <$> rest) ++ later_pairs rest
  end.

Section Keys.
Context (encapsulate : nat -> bytes -> result (bytes * bytes)).
Context (reconstruct_secret : list (Z * Z) -> result Z).

(** [ct, ss = self._encapsulate(pubkey)] *)
Definition draw_encapsulation (pubkey : bytes) : M Ctx (bytes * bytes) :=
  c ← gets net;
  _ ← update_net use_encaps;
  lift (encapsulate (encaps_used c) pubkey).

(** The block that encapsulates to one client, stores the shared secret and
    sends the ciphertext if the client has a writer. *)
Definition encapsulate_to (cid : Z) (pubkey : bytes) : M Ctx unit :=
  p ← draw_encapsulation pubkey;
  _ ← update_client cid (set_shared_secret (snd p));
  r ← the_round;
  header ← lift (build_header MSG_TYPE_KEM_CIPHERTEXT (round_id r) 0 0
                   (Z.of_nat (length (fst p))));
  n ← gets net;
  match dict_get cid (client_writers n) with
  | Some writer => write_drain writer (header ++ fst p)
  | None => skip
  end.

(** [if not state.shared_secret: ...] *)
Definition ensure_secret (cid : Z) : M Ctx unit :=
  c ← get_client cid;
  if truthy (shared_secret c) then skip else encapsulate_to cid (default [] (public_key c)).

(** The first loop of [_setup_keys_and_masks]. *)
Definition setup_client (cid : Z) : M Ctx unit :=
  c ← get_client cid;
  if truthy (public_key c) && negb (truthy (shared_secret c))
  then encapsulate_to cid (default [] (public_key c)) else skip.

(** The body of its second, pairwise loop. *)
Definition setup_pair (p : Z * Z) : M Ctx unit :=
  a ← get_client (fst p);
  b ← get_client (snd p);
  if truthy (shared_secret a) && truthy (shared_secret b) then skip
  else if truthy (public_key a) && truthy (public_key b) then
    let initiator := if fst p <? snd p then fst p else snd p in
    let responder := if fst p <? snd p then snd p else fst p in
    ini ← get_client initiator;
    res ← get_client responder;
    if truthy (shared_secret ini) && truthy (shared_secret res) then skip
    else _ ← ensure_secret initiator; ensure_secret responder
  else skip.

(** The body of [_orchestrate_pairwise_kem]'s loop. *)
Definition orchestrate_pair (p : Z * Z) : M Ctx unit :=
  a ← get_client (fst p);
  b ← get_client (snd p);
  if negb (truthy (public_key a)) || negb (truthy (public_key b)) then skip
  else if truthy (shared_secret a) && truthy (shared_secret b) then skip
  else
    let initiator := if fst p <? snd p then fst p else snd p in
    let responder := if fst p <? snd p then snd p else fst p in
    _ ← ensure_secret initiator;
    _ ← ensure_secret responder;
    ini ← get_client initiator;
    res ← get_client responder;
    if truthy (shared_secret ini) && truthy (shared_secret res) then
      r ← the_round;
      seed ← lift (derive_pairwise_mask_seed (default [] (shared_secret ini)) initiator responder
                     (round_id r));
      _ ← update_client initiator (set_pairwise_seed responder seed);
      update_client responder (set_pairwise_seed initiator seed)
    else skip.

Definition orchestrate_pairwise_kem : M Ctx unit :=
  r ← the_round;
  for_each (later_pairs (dict_keys (clients r))) orchestrate_pair.

(** The last loop: every client gets a seed for every peer, derived from its
    own shared secret. *)
Definition derive_seed_for (cid peer_id : Z) : M Ctx unit :=
  c ← get_client cid;
  peer ← get_client peer_id;
  if negb (peer_id =? cid) && truthy (shared_secret peer) then
    r ← the_round;
    seed ← lift (derive_pairwise_mask_seed (default [] (shared_secret c)) (Z.min cid peer_id)
                   (Z.max cid peer_id) (round_id r));
    update_client cid (set_pairwise_seed peer_id seed)
  else skip.

Definition derive_seeds (cid : Z) : M Ctx unit :=
  c ← get_client cid;
  if truthy (shared_secret c) then
    r ← the_round; for_each (dict_keys (clients r)) (derive_seed_for cid)
  else skip.

Definition setup_keys_and_masks : M Ctx unit :=
  r ← the_round;
  _ ← for_each (dict_keys (clients r)) setup_client;
  _ ← for_each (later_pairs (dict_keys (clients r))) setup_pair;
  _ ← orchestrate_pairwise_kem;
  _ ← for_each (dict_keys (clients r)) derive_seeds;
  update_round (set_stage MASK_SETUP).

(** [shares] of one dropped client. *)
Definition collect_shares (r : RoundState) (dropout_id : Z) : result (list (Z * bytes)) :=
  fold_result
    (fun shares (p : Z * ClientState) =>
       if fst p =? dropout_id then Ok shares
       else if truthy (shared_secret (snd p)) then
         shamir_secret ← derive_shamir_secret (default [] (shared_secret (snd p))) dropout_id
                           (round_id r);
         Ok (shares ++ [(fst p, shamir_secret)])
       else Ok shares)
    (clients r) [].

Definition recover_client (dropout_id : Z) : M Ctx unit :=
  r ← the_round;
  shares ← lift (collect_shares r dropout_id);
  if threshold r <=? Z.of_nat (length shares) then
    recovered ← lift (reconstruct_secret_bytes reconstruct_secret shares);
    update_client dropout_id (set_shared_secret recovered)
  else skip.

Definition trigger_recovery : M Ctx unit :=
  r ← the_round; for_each (dropout_clients r) recover_client.

End Keys.
