(* ===== verification/Bridge.v ===== *)
(** * The protocol bridge

    The message handlers of [ProtocolBridge] (both sides of the merge
    conflict) and of [ClassicalProtocolBridge].  The three classes share every
    handler; they differ in [_encapsulate], in [_unmask_and_aggregate] and in
    the messages their dispatcher knows, and those are what the classes
    [Aggregator] and the three dispatch functions say.

    Here a handler runs to its end before another message is handled, as it
    does while [drain] finds the transport below its high-water mark and does
    not suspend.  AsyncBridge has the same methods as coroutines that others
    interrupt at each [drain]; AsyncFacts and AsyncServer relate the two. *)

From Stdlib Require Import ZArith Lia QArith.QArith_base.
From stdpp Require Import prelude.
From S2P Require Import Prelude PyDict PyBytes Field Shamir Kdf Crypto Masks Wire State Aggregate Keys.

(** ** Telemetry and the broadcast of a finished round *)

Definition collect_telemetry (r : RoundState) : result Telemetry :=
  n ← num_chunks r;
  let n_clients := Z.of_nat (length (clients r)) in
  Ok {| t_round_id := round_id r; t_keygen_cycles := 0; t_encaps_cycles := 0; t_decaps_cycles := 0;
        t_hkdf_cycles := 0; t_mask_gen_cycles := 0; t_mask_apply_cycles := 0; t_peak_sram := 0;
        t_min_free_heap := 0; t_largest_free_block := 0; t_stack_high_water := 0;
        t_heap_zero := false; t_bytes_tx := model_size r * n_clients; t_bytes_rx := model_size r;
        t_packets := n_clients * n; t_retransmissions := 0; t_fragments := 0;
        t_aggregation_success := 1; t_final_accuracy := 1 |}.

(** One ROUND_COMPLETE message: the chunk and the telemetry behind it. *)
Definition complete_message (r : RoundState) (fedavg : chunks) (telemetry_payload : bytes) (seq_num : Z)
    : result bytes :=
  row ← dict_index seq_num fedavg;
  chunk ← struct_pack (chunk_format (Z.to_nat (chunk_size r))) row;
  header ← build_header MSG_TYPE_ROUND_COMPLETE (round_id r) 0 seq_num
             (Z.of_nat (length chunk + length telemetry_payload));
  Ok (header ++ chunk ++ telemetry_payload).

Definition send_complete (fedavg : chunks) (telemetry_payload : bytes) (writer seq_num : Z) : M Ctx unit :=
  r ← the_round;
  msg ← lift (complete_message r fedavg telemetry_payload seq_num);
  write_drain writer msg.

(** The loop over the writers at the end of [_unmask_and_aggregate]. *)
Definition broadcast (fedavg : chunks) (telemetry_payload : bytes) : M Ctx unit :=
  c ← gets net;
  for_each (dict_values (client_writers c)) (fun writer =>
    r ← the_round;
    n ← lift (num_chunks r);
    for_each (range n) (send_complete fedavg telemetry_payload writer)).

(** ** The two versions of [_unmask_and_aggregate] *)

Section Aggregation.
Context {L : CryptoLib} (CRYPTO_AVAILABLE : bool).
Context (encapsulate : nat -> bytes -> result (bytes * bytes)).
Context (reconstruct_secret : list (Z * Z) -> result Z).

(** HEAD: finalize stores the result and completes the round. *)
Definition finalize_round : M Ctx unit :=
  r ← the_round;
  fedavg ← lift (Head.finalize_aggregation r);
  _ ← update_round (set_unmasked fedavg);
  update_round (set_stage ROUND_COMPLETE).

Definition head_unmask_and_aggregate : M Ctx unit :=
  _ ← setup_keys_and_masks encapsulate;
  _ ← trigger_recovery reconstruct_secret;
  _ ← finalize_round;
  r ← the_round;
  telemetry ← lift (collect_telemetry r);
  telemetry_payload ← lift (pack_telemetry telemetry);
  broadcast (unmasked_chunks r) telemetry_payload.

(** Incoming side and classical bridge.  The early return when a chunk is
    missing leaves the round in its stage. *)
Definition incoming_unmask_and_aggregate : M Ctx unit :=
  _ ← setup_keys_and_masks encapsulate;
  _ ← trigger_recovery reconstruct_secret;
  r ← the_round;
  client_unmasked ← lift (Incoming.unmask_client_chunks CRYPTO_AVAILABLE r);
  fedavg ← lift (Incoming.compute_fedavg r client_unmasked);
  n ← lift (num_chunks r);
  if forallb (fun seq_num => dict_mem seq_num fedavg) (range n) then
    _ ← update_round (set_unmasked fedavg);
    _ ← update_round (set_stage ROUND_COMPLETE);
    telemetry ← lift (collect_telemetry r);
    telemetry_payload ← lift (pack_telemetry telemetry);
    broadcast fedavg telemetry_payload
  else skip.
End Aggregation.

(** ** The interface the handlers use *)

(** What a bridge class supplies to the shared handlers. *)
Class Aggregator := {
  unmask_and_aggregate : M Ctx unit;
  agg_reconstruct_secret : list (Z * Z) -> result Z;
}.

(** ** Handlers *)

Section Handlers.
Context {A : Aggregator}.

(** [_handle_round_failure]: the error message's type is a name the module
    does not define. *)
Definition handle_round_failure : M Ctx unit :=
  c ← gets net;
  for_each (dict_values (client_writers c)) (fun writer =>
    c' ← gets net;
    if bool_decide (writer ∈ closing c') then skip else raise (NameError "MSG_TYPE_ERROR")).

Definition surviving (r : RoundState) : Z :=
  expected_clients r - Z.of_nat (length (dropout_clients r)).

Definition completed_count (r : RoundState) : Z :=
  Z.of_nat (length (filter (fun c => completed c) (dict_values (clients r)))).

Definition check_round_completion : M Ctx unit :=
  r ← the_round;
  if (surviving r <=? completed_count r) && (threshold r <=? surviving r) then
    _ ← update_round (set_stage UNMASKING);
    unmask_and_aggregate
  else if surviving r <? threshold r then
    _ ← update_round (set_stage ERROR);
    handle_round_failure
  else skip.

Definition handle_round_init (header : MessageHeader) (payload : bytes) : M Bridge unit :=
  b ← gets (fun b => b);
  if dict_mem (h_round_id header) (rounds b) then skip
  else
    p ← lift (decode_round_init payload);
    let '(expected, thr, chunk, model) := p in
    modify (fun b => {|
      rounds := dict_set (h_round_id header)
                  (new_round (h_round_id header) expected thr chunk model) (rounds b);
      current_round_id := h_round_id header;
      bridge_net := bridge_net b |}).

(** [self.client_writers[header.client_id] = writer] *)
Definition register_writer (cid writer : Z) : M Ctx unit :=
  update_net (fun n => set_writers (dict_set cid writer (client_writers n)) n).

Definition handle_public_key (header : MessageHeader) (payload : bytes) (writer : Z) : M Bridge unit :=
  with_round (h_round_id header) (
    r ← the_round;
    let cid := h_client_id header in
    _ ← match dict_get cid (clients r) with
        | Some _ => skip
        | None => update_round
                    (set_clients (dict_set cid (new_client cid (h_round_id header)) (clients r)))
        end;
    _ ← update_client cid (set_public_key payload);
    register_writer cid writer).

Definition handle_mask_chunk (header : MessageHeader) (payload : bytes) : M Bridge unit :=
  with_round (h_round_id header) (with_client (h_client_id header) (fun c =>
    r ← the_round;
    if Z.of_nat (length payload) =? chunk_size r * 2 then
      update_client (h_client_id header)
        (set_received (dict_set (h_sequence_number header) payload (received_chunks c)))
    else skip)).

Definition handle_client_complete (header : MessageHeader) (payload : bytes) : M Bridge unit :=
  with_round (h_round_id header) (with_client (h_client_id header) (fun _ =>
    _ ← (if (4 <=? length payload)%nat
         then update_client (h_client_id header) (set_sample_count (int_from_bytes (take 4 payload)))
         else skip);
    _ ← update_client (h_client_id header) set_completed;
    check_round_completion)).

Definition handle_dropout_notify (header : MessageHeader) (payload : bytes) : M Bridge unit :=
  with_round (h_round_id header) (
    r ← the_round;
    _ ← (if bool_decide (h_client_id header ∈ dropout_clients r) then skip
         else update_round (set_dropouts (dropout_clients r ++ [h_client_id header])));
    _ ← trigger_recovery agg_reconstruct_secret;
    check_round_completion).

(** [_handle_shamir_share], of the HEAD side only. *)
Definition handle_shamir_share (header : MessageHeader) (payload : bytes) : M Bridge unit :=
  with_round (h_round_id header) (with_client (h_client_id header) (fun c =>
    update_client (h_client_id header)
      (set_shamir_shares (default [] (shamir_shares c) ++ [payload])))).

(** The pairwise handlers, of the classical bridge only. *)
Definition handle_pairwise_pubkey (header : MessageHeader) (payload : bytes) (writer : Z) : M Bridge unit :=
  with_round (h_round_id header) (with_client (h_client_id header) (fun _ =>
    _ ← update_client (h_client_id header) (set_public_key payload);
    register_writer (h_client_id header) writer)).

Definition handle_pairwise_ciphertext (header : MessageHeader) (payload : bytes) : M Bridge unit :=
  with_round (h_round_id header) (with_client (h_client_id header) (fun _ =>
    if (32 <=? length payload)%nat
    then update_client (h_client_id header) (set_shared_secret (take 32 payload))
    else skip)).

(** ** Dispatch *)

(** The branches the three dispatchers share; [other] handles the rest. *)
Definition dispatch_common (header : MessageHeader) (payload : bytes) (writer : Z)
    (other : M Bridge unit) : M Bridge unit :=
  let ty := h_message_type header in
  if ty =? MSG_TYPE_KEM_PUBLIC_KEY then handle_public_key header payload writer
  else if ty =? MSG_TYPE_MASK_CHUNK then handle_mask_chunk header payload
  else if ty =? MSG_TYPE_CLIENT_COMPLETE then handle_client_complete header payload
  else if ty =? MSG_TYPE_DROPOUT_NOTIFY then handle_dropout_notify header payload
  else if ty =? MSG_TYPE_ROUND_INIT then handle_round_init header payload
  else other.

(** HEAD: the pairwise handlers it names do not exist in the class. *)
Definition dispatch_head (header : MessageHeader) (payload : bytes) (writer : Z) : M Bridge unit :=
  dispatch_common header payload writer (
    let ty := h_message_type header in
    if ty =? MSG_TYPE_PAIRWISE_KEM_PUBKEY then raise (AttributeError "_handle_pairwise_pubkey")
    else if ty =? MSG_TYPE_PAIRWISE_KEM_CIPHERTEXT
    then raise (AttributeError "_handle_pairwise_ciphertext")
    else if ty =? MSG_TYPE_SHAMIR_SHARE then handle_shamir_share header payload
    else skip).

Definition dispatch_incoming (header : MessageHeader) (payload : bytes) (writer : Z) : M Bridge unit :=
  dispatch_common header payload writer (
    let ty := h_message_type header in
    if ty =? MSG_TYPE_PAIRWISE_KEM_PUBKEY then raise (AttributeError "_handle_pairwise_pubkey")
    else if ty =? MSG_TYPE_PAIRWISE_KEM_CIPHERTEXT
    then raise (AttributeError "_handle_pairwise_ciphertext")
    else skip).

Definition dispatch_classical (header : MessageHeader) (payload : bytes) (writer : Z) : M Bridge unit :=
  dispatch_common header payload writer (
    let ty := h_message_type header in
    if ty =? MSG_TYPE_PAIRWISE_KEM_PUBKEY then handle_pairwise_pubkey header payload writer
    else if ty =? MSG_TYPE_PAIRWISE_KEM_CIPHERTEXT then handle_pairwise_ciphertext header payload
    else skip).

End Handlers.
