(* ===== verification/Frame.v ===== *)
(** * What an aggregation reads

    Two rounds with the same announcement, the same dropouts and the same
    contributions of the same clients aggregate to the same means, whatever
    their key material, stage and earlier results. *)

From Stdlib Require Import ZArith Lia.
From stdpp Require Import prelude.
From S2P Require Import Prelude PyDict PyBytes Field Lagrange Shamir Kdf Crypto Masks Wire State.
From S2P Require Import Aggregate FedAvg Keys Bridge.

(** What a client contributes. *)
Record client_data (c0 c : ClientState) : Prop := {
  cd_id : client_id c = client_id c0;
  cd_received : received_chunks c = received_chunks c0;
  cd_completed : completed c = completed c0;
  cd_samples : sample_count c = sample_count c0;
}.

Definition entry_data (p0 p : Z * ClientState) : Prop := fst p = fst p0 /\ client_data (snd p0) (snd p).

(** What a round is announced with never changes. *)
Record fixed (r r' : RoundState) : Prop := {
  fx_id : round_id r' = round_id r;
  fx_expected : expected_clients r' = expected_clients r;
  fx_threshold : threshold r' = threshold r;
  fx_chunk_size : chunk_size r' = chunk_size r;
  fx_model_size : model_size r' = model_size r;
}.

Record same_data (r r' : RoundState) : Prop := {
  sd_fixed : fixed r r';
  sd_dropouts : dropout_clients r' = dropout_clients r;
  sd_clients : Forall2 entry_data (clients r) (clients r');
}.

#[export] Instance client_data_preorder : PreOrder client_data.
Proof. split; [by intros c|]. intros c1 c2 c3 [] []. split; congruence. Qed.

#[export] Instance entry_data_preorder : PreOrder entry_data.
Proof.
  split; [by intros [k c]|].
  intros a b c [H1 H2] [H3 H4]. split; [congruence|by transitivity (snd b)].
Qed.

#[export] Instance fixed_preorder : PreOrder fixed.
Proof. split; [by intros r|]. intros r1 r2 r3 [] []. split; congruence. Qed.

#[export] Instance same_data_preorder : PreOrder same_data.
Proof.
  split; [by intros r; split|]. intros r1 r2 r3 [] []. split; [by transitivity r2|congruence|].
  by transitivity (clients r2).
Qed.

(** ** Entries *)

Lemma entries_data_keys l0 l : Forall2 entry_data l0 l -> dict_keys l = dict_keys l0.
Proof.
  unfold dict_keys. induction 1 as [|p0 p l0 l [Hk _] Hl IH]; [done|].
  rewrite !fmap_cons. by rewrite Hk, IH.
Qed.

Lemma entries_data_get l0 l k c :
  Forall2 entry_data l0 l -> dict_get k l = Some c ->
  exists c0, dict_get k l0 = Some c0 /\ client_data c0 c.
Proof.
  induction 1 as [|[k0 c0] [k1 c1] l0 l [Hk Hc] Hl IH]; [done|].
  cbn [dict_get fst snd] in *. subst k1. case_decide; [|done]. intros [= <-]. by exists c0.
Qed.

Lemma entries_data_set l k c c' :
  dict_get k l = Some c -> client_data c c' -> Forall2 entry_data l (dict_set k c' l).
Proof.
  induction l as [|[k1 c1] l IH]; [done|]. cbn [dict_get dict_set]. case_decide as Hk.
  - intros [= ->] Hc. constructor; [by subst|]. reflexivity.
  - intros Hg Hc. constructor; [reflexivity|]. by apply IH.
Qed.

Lemma data_set_client r k c c' :
  dict_get k (clients r) = Some c -> client_data c c' ->
  same_data r (set_clients (dict_set k c' (clients r)) r).
Proof. intros Hk Hc. destruct r. split; try done. simpl in *. by eapply entries_data_set. Qed.

Section Same.
Context (r r' : RoundState) (Hd : same_data r r').

Lemma data_keys : dict_keys (clients r') = dict_keys (clients r).
Proof. by apply entries_data_keys, sd_clients. Qed.

(** ** Everything the aggregation computes *)

Lemma data_fedavg_sum i j : fedavg_sum r' i j = fedavg_sum r i j.
Proof.
  unfold fedavg_sum, contributors, is_dropout.
  rewrite (fx_chunk_size _ _ (sd_fixed _ _ Hd)), (sd_dropouts _ _ Hd).
  set (ce := Z.to_nat _). set (D := dropout_clients _).
  pose proof (sd_clients _ _ Hd) as Hl. induction Hl as [|[k0 c0] [k c] l0 l [Hk Hc] Hl IH]; [done|].
  cbn [fst snd] in *. subst k. rewrite !filter_cons. cbn [fst].
  destruct (decide (negb (bool_decide (k0 ∈ D)))); [|done].
  rewrite !fmap_cons, !filter_cons. cbn [snd]. destruct Hc as [Hi Hr Hcm Hsc]. rewrite Hcm.
  destruct (decide (completed c0)); [|done]. cbn [gsum foldr].
  unfold gsum in IH. rewrite IH. f_equal. unfold weight, chunk_value. by rewrite Hsc, Hr.
Qed.

Lemma data_clients_ok : clients_ok r -> clients_ok r'.
Proof.
  intros [Hnd Hok]. split; [by rewrite data_keys|]. intros k c Hin.
  assert (Hnd' : NoDup (dict_keys (clients r'))) by by rewrite data_keys.
  apply dict_elem_get in Hin as Hget; [|done].
  destruct (entries_data_get _ _ _ _ (sd_clients _ _ Hd) Hget) as (c0 & Hc0 & [Hi Hrc _ _]).
  apply dict_get_elem in Hc0. destruct (Hok k c0 Hc0) as [Hid [Hk Hc]].
  rewrite (fx_chunk_size _ _ (sd_fixed _ _ Hd)), Hi. split; [done|]. split; by rewrite Hrc.
Qed.

Lemma data_total p :
  (forall c c', client_data c c' -> p c' = p c) ->
  total_samples p (clients r') = total_samples p (clients r).
Proof.
  intros Hp. unfold total_samples.
  enough (Forall2 client_data
            (filter (fun c => p c && completed c) (snd <$> clients r))
            (filter (fun c => p c && completed c) (snd <$> clients r'))) as H.
  - assert (Hsum : forall l l', Forall2 client_data l l' ->
      foldr Z.add 0 (sample_count <$> filter (fun c => 0 <? sample_count c) l') =
      foldr Z.add 0 (sample_count <$> filter (fun c => 0 <? sample_count c) l)).
    { induction 1 as [|c c' l l' Hc Hl IH]; [done|].
      rewrite !(filter_bool_cons (fun c => 0 <? sample_count c)). rewrite (cd_samples _ _ Hc).
      destruct (0 <? sample_count c); [|done]. rewrite !fmap_cons. cbn [foldr].
      by rewrite (cd_samples _ _ Hc), IH. }
    rewrite (Hsum _ _ H). apply Forall2_length in H. by rewrite H.
  - pose proof (sd_clients _ _ Hd) as Hl.
    induction Hl as [|[k0 c0] [k c] l0 l [_ Hc] Hl IH]; [constructor|].
    rewrite !fmap_cons, !(filter_bool_cons (fun c => p c && completed c)). cbn [snd] in *.
    rewrite (Hp _ _ Hc), (cd_completed _ _ Hc). destruct (p c0 && completed c0); [|done]. by constructor.
Qed.

Lemma data_chunk_count : chunk_count r' = chunk_count r.
Proof. unfold chunk_count. by rewrite (fx_model_size _ _ (sd_fixed _ _ Hd)), (fx_chunk_size _ _ (sd_fixed _ _ Hd)). Qed.

Lemma data_num_chunks : num_chunks r' = num_chunks r.
Proof. unfold num_chunks. by rewrite (fx_model_size _ _ (sd_fixed _ _ Hd)), (fx_chunk_size _ _ (sd_fixed _ _ Hd)). Qed.

Lemma data_spec_chunks n :
  spec_chunks n (Z.to_nat (chunk_size r')) (fedavg_sum r') =
  spec_chunks n (Z.to_nat (chunk_size r)) (fedavg_sum r).
Proof.
  rewrite (fx_chunk_size _ _ (sd_fixed _ _ Hd)). apply spec_chunks_ext. intros i j _ _.
  apply eqp_of_eq. by apply data_fedavg_sum.
Qed.

Lemma data_head_spec n : head_spec r' n = head_spec r n.
Proof. unfold head_spec. rewrite data_spec_chunks. f_equal. by apply data_total. Qed.

Lemma data_incoming_spec n : incoming_spec r' n = incoming_spec r n.
Proof.
  unfold incoming_spec. rewrite data_spec_chunks. f_equal.
  unfold is_dropout. rewrite (sd_dropouts _ _ Hd). apply data_total.
  intros c c' Hc. by rewrite (cd_id _ _ Hc).
Qed.

Lemma data_telemetry : collect_telemetry r' = collect_telemetry r.
Proof.
  unfold collect_telemetry. rewrite data_num_chunks, (fx_id _ _ (sd_fixed _ _ Hd)),
    (fx_model_size _ _ (sd_fixed _ _ Hd)). by rewrite <- (Forall2_length _ _ _ (sd_clients _ _ Hd)).
Qed.

Lemma data_completed_count : completed_count r' = completed_count r.
Proof.
  unfold completed_count, dict_values. do 1 f_equal. pose proof (sd_clients _ _ Hd) as Hl.
  induction Hl as [|[k0 c0] [k c] l0 l [_ Hc] Hl IH]; [done|]. cbn [fst snd] in *.
  rewrite !fmap_cons, !(filter_bool_cons (fun c => completed c)). cbn [snd].
  rewrite (cd_completed _ _ Hc). destruct (completed c0); [cbn [length]; lia|done].
Qed.

Lemma data_surviving : surviving r' = surviving r.
Proof. unfold surviving. by rewrite (fx_expected _ _ (sd_fixed _ _ Hd)), (sd_dropouts _ _ Hd). Qed.

Lemma data_complete_message f payload i : complete_message r' f payload i = complete_message r f payload i.
Proof.
  unfold complete_message. by rewrite (fx_id _ _ (sd_fixed _ _ Hd)), (fx_chunk_size _ _ (sd_fixed _ _ Hd)).
Qed.
End Same.

(** ** Assignments that keep it *)

Section Setters.
Lemma data_set_stage v r : same_data r (set_stage v r).
Proof. by destruct r. Qed.
Lemma data_set_unmasked v r : same_data r (set_unmasked v r).
Proof. by destruct r. Qed.
Lemma data_set_shared_secret v c : client_data c (set_shared_secret v c).
Proof. by destruct c. Qed.
Lemma data_set_pairwise_seed p v c : client_data c (set_pairwise_seed p v c).
Proof. by destruct c. Qed.
Lemma data_set_shamir_shares v c : client_data c (set_shamir_shares v c).
Proof. by destruct c. Qed.
Lemma data_set_public_key v c : client_data c (set_public_key v c).
Proof. by destruct c. Qed.
End Setters.

Create HintDb data_db.
#[export] Hint Resolve data_set_stage data_set_unmasked data_set_shared_secret data_set_pairwise_seed
  data_set_shamir_shares data_set_public_key : data_db.
