(* ===== verification/Invariant.v ===== *)
(** * The bridge's invariant

    What holds of every round a bridge object stores, whatever messages it
    received, and the proof that each method keeps it, whether it returns or
    raises. *)

From Stdlib Require Import ZArith Lia.
From stdpp Require Import prelude.
From S2P Require Import Prelude PyDict PyBytes Field Shamir Kdf Crypto Masks Wire State Aggregate Keys Bridge.

(** ** Well-formed clients, results and rounds *)

Record client_wf (rid cs k : Z) (c : ClientState) : Prop := {
  cw_id : client_id c = k;
  cw_byte : is_byte k;
  cw_round : client_round_id c = rid;
  cw_keys : NoDup (dict_keys (received_chunks c));
  cw_chunk : forall s d, (s, d) ∈ received_chunks c ->
    0 <= s < 65536 /\ Z.of_nat (length d) = 2 * cs /\ is_bytes d;
  cw_samples : 0 <= sample_count c < 2 ^ 32;
}.

(** One row of [chunk_elements] field elements per chunk, in order. *)
Record result_shape (n : Z) (ce : nat) (f : chunks) : Prop := {
  rs_keys : dict_keys f = range n;
  rs_row : forall i row, (i, row) ∈ f ->
    length row = ce /\ Forall (fun x => 0 <= x < FIELD_MODULUS) row;
}.

Definition round_result (r : RoundState) : Prop :=
  result_shape (model_size r / chunk_size r) (Z.to_nat (chunk_size r)) (unmasked_chunks r).

Record round_wf (rid : Z) (r : RoundState) : Prop := {
  rw_id : round_id r = rid;
  rw_expected : is_byte (expected_clients r);
  rw_threshold : is_byte (threshold r);
  rw_chunk_size : 0 <= chunk_size r < 65536;
  rw_model_size : 0 <= model_size r < 2 ^ 32;
  rw_keys : NoDup (dict_keys (clients r));
  rw_client : forall k c, (k, c) ∈ clients r -> client_wf rid (chunk_size r) k c;
  rw_dropouts : NoDup (dropout_clients r);
  rw_dropout_ids : Forall is_byte (dropout_clients r);
  rw_result : unmasked_chunks r = [] \/ round_result r;
  rw_complete : stage r = ROUND_COMPLETE -> 0 < chunk_size r /\ round_result r;
}.

Record bridge_wf (b : Bridge) : Prop := {
  bw_keys : NoDup (dict_keys (rounds b));
  bw_round : forall rid r, (rid, r) ∈ rounds b -> round_wf rid r;
}.

Definition ctx_wf (rid : Z) (c : Ctx) : Prop := round_wf rid (round c).

(** ** The aggregated chunks have the right shape *)

Lemma zero_chunks_shape n ce : result_shape n ce (zero_chunks n ce).
Proof.
  split.
  - unfold zero_chunks, dict_keys. rewrite <- list_fmap_compose. apply list_fmap_id.
  - intros i row Hin. apply list_elem_of_fmap in Hin as (x & [= -> ->] & _).
    split; [apply length_replicate|]. apply Forall_replicate. done.
Qed.

Lemma accumulate_shape w row values row' :
  Forall (fun x => 0 <= x < FIELD_MODULUS) row -> accumulate w row values = Ok row' ->
  length row' = length row /\ Forall (fun x => 0 <= x < FIELD_MODULUS) row'.
Proof.
  revert row row'. induction values as [|v vs IH]; intros [|x xs] row' Hr; simpl; try done.
  - intros [= <-]. done.
  - intros [= <-]. done.
  - apply Forall_cons in Hr as [Hx Hxs].
    destruct (accumulate w xs vs) as [rest|] eqn:E; run; [|done]. intros [= <-].
    destruct (IH _ _ Hxs E) as [Hl Hf]. split; [simpl; by rewrite Hl|]. constructor; [|done].
    apply mod_p_range.
Qed.

Lemma accumulate_chunk_shape n ce w s values f f' :
  result_shape n ce f -> accumulate_chunk w s values f = Ok f' -> result_shape n ce f'.
Proof.
  intros [Hk Hr]. unfold accumulate_chunk, dict_index.
  destruct (dict_get s f) as [row|] eqn:E; run; [|done].
  destruct (accumulate w row values) as [row'|] eqn:E'; run; [|done]. intros [= <-].
  apply dict_get_elem in E as Hin. destruct (Hr _ _ Hin) as [Hl Hf].
  destruct (accumulate_shape _ _ _ _ Hf E') as [Hl' Hf']. split.
  - rewrite dict_keys_set_in; [done|]. apply dict_get_is_Some. by eexists.
  - apply dict_set_Forall; [split; [by rewrite Hl'|done]|done].
Qed.

Lemma scale_chunks_shape n ce total f : result_shape n ce f -> result_shape n ce (scale_chunks total f).
Proof.
  intros [Hk Hr]. unfold scale_chunks. destruct (1 <? total); [|by split]. split.
  - rewrite <- Hk. unfold dict_keys. rewrite <- list_fmap_compose. by apply list_fmap_ext.
  - intros i row Hin. apply list_elem_of_fmap in Hin as ([i' row'] & [= -> ->] & Hin).
    apply Hr in Hin as [Hl _]. split; [by rewrite length_map|].
    apply Forall_forall. intros x Hx. apply list_elem_of_fmap in Hx as (y & -> & _). apply mod_p_range.
Qed.

Lemma head_add_client_shape n ce f c f' :
  result_shape n ce f -> Head.add_client n ce f c = Ok f' -> result_shape n ce f'.
Proof.
  intros Hf. unfold Head.add_client. destruct (completed c); [|by intros [= <-]].
  apply (fold_result_inv (result_shape n ce)); [done|].
  intros p acc acc' _ Hacc.
  destruct (struct_unpack (chunk_format ce) p.2); run; [|done].
  by apply accumulate_chunk_shape.
Qed.

Lemma head_finalize_shape r f :
  Head.finalize_aggregation r = Ok f ->
  chunk_size r <> 0 /\ result_shape (model_size r / chunk_size r) (Z.to_nat (chunk_size r)) f.
Proof.
  unfold Head.finalize_aggregation, num_chunks. destruct (Z.eqb_spec (chunk_size r) 0) as [Hz|Hz]; run; [done|].
  set (n := model_size r / chunk_size r). set (ce := Z.to_nat (chunk_size r)).
  destruct (fold_result (Head.add_client n ce) _ _) as [f1|] eqn:E1; run; [|done].
  destruct (fold_result (Head.dropout_step r) _ _) as [f2|] eqn:E2; run; [|done].
  intros [= <-]. split; [done|]. apply scale_chunks_shape.
  eapply (fold_result_inv (result_shape n ce)); [| |exact E2].
  - eapply (fold_result_inv (result_shape n ce)); [apply zero_chunks_shape| |exact E1].
    intros c acc acc' _. apply head_add_client_shape.
  - intros k acc acc' _ Hacc. unfold Head.dropout_step.
    repeat case_match; intros ?; simplify_eq; done.
Qed.

Lemma add_unmasked_shape r n ce f p f' :
  result_shape n ce f -> Incoming.add_unmasked r n f p = Ok f' -> result_shape n ce f'.
Proof.
  intros Hf. unfold Incoming.add_unmasked.
  destruct (dict_get p.1 (clients r)) as [c|]; [|by intros [= <-]].
  destruct (completed c); [|by intros [= <-]].
  apply (fold_result_inv (result_shape n ce)); [done|].
  intros s acc acc' _ Hacc. destruct (dict_get s p.2); [by apply accumulate_chunk_shape|].
  by intros [= <-].
Qed.

Lemma compute_fedavg_shape r cu f :
  Incoming.compute_fedavg r cu = Ok f ->
  chunk_size r <> 0 /\ result_shape (model_size r / chunk_size r) (Z.to_nat (chunk_size r)) f.
Proof.
  unfold Incoming.compute_fedavg, num_chunks. destruct (Z.eqb_spec (chunk_size r) 0) as [Hz|Hz]; run; [done|].
  set (n := model_size r / chunk_size r). set (ce := Z.to_nat (chunk_size r)).
  destruct (fold_result _ _ _) as [f1|] eqn:E1; run; [|done]. intros [= <-].
  split; [done|]. apply scale_chunks_shape.
  eapply (fold_result_inv (result_shape n ce)); [apply zero_chunks_shape| |exact E1].
  intros p acc acc' _. apply add_unmasked_shape.
Qed.

(** ** Assignments keep the invariant *)

Create HintDb wf_db.

Section Setters.
Context (rid cs k : Z).
Implicit Types (c : ClientState).

Lemma wf_set_public_key v c : client_wf rid cs k c -> client_wf rid cs k (set_public_key v c).
Proof. destruct c. by intros [??????]. Qed.

Lemma wf_set_shared_secret v c : client_wf rid cs k c -> client_wf rid cs k (set_shared_secret v c).
Proof. destruct c. by intros [??????]. Qed.

Lemma wf_set_completed c : client_wf rid cs k c -> client_wf rid cs k (set_completed c).
Proof. destruct c. by intros [??????]. Qed.

Lemma wf_set_pairwise_seed p v c :
  client_wf rid cs k c -> client_wf rid cs k (set_pairwise_seed p v c).
Proof. destruct c. by intros [??????]. Qed.

Lemma wf_set_shamir_shares v c : client_wf rid cs k c -> client_wf rid cs k (set_shamir_shares v c).
Proof. destruct c. by intros [??????]. Qed.

Lemma wf_set_sample_count v c :
  0 <= v < 2 ^ 32 -> client_wf rid cs k c -> client_wf rid cs k (set_sample_count v c).
Proof. destruct c. intros Hv [?????]. by split. Qed.

Lemma wf_set_received s d c :
  0 <= s < 65536 -> Z.of_nat (length d) = 2 * cs -> is_bytes d -> client_wf rid cs k c ->
  client_wf rid cs k (set_received (dict_set s d (received_chunks c)) c).
Proof.
  destruct c. intros Hs Hl Hb [???? Hc ?]. split; simpl in *; try done.
  - by apply dict_keys_set_NoDup.
  - by apply dict_set_Forall.
Qed.

Lemma wf_new_client : is_byte k -> client_wf rid cs k (new_client k rid).
Proof. intros Hk. split; try done; [constructor|]. intros s d Hin. by apply not_elem_of_nil in Hin. Qed.

End Setters.
#[export] Hint Resolve wf_set_public_key wf_set_shared_secret wf_set_completed wf_set_pairwise_seed
  wf_set_shamir_shares : wf_db.

Lemma wf_set_clients rid r cls :
  round_wf rid r -> NoDup (dict_keys cls) ->
  (forall k c, (k, c) ∈ cls -> client_wf rid (chunk_size r) k c) -> round_wf rid (set_clients cls r).
Proof. destruct r. intros [] ??. by split. Qed.

Lemma wf_set_client rid r k c :
  round_wf rid r -> client_wf rid (chunk_size r) k c ->
  round_wf rid (set_clients (dict_set k c (clients r)) r).
Proof.
  intros Hr Hc. apply wf_set_clients; [done| |].
  - apply dict_keys_set_NoDup, (rw_keys _ _ Hr).
  - apply dict_set_Forall; [done|apply (rw_client _ _ Hr)].
Qed.

Lemma wf_set_stage rid st r :
  st <> ROUND_COMPLETE -> round_wf rid r -> round_wf rid (set_stage st r).
Proof. destruct r. intros Hst []. by split. Qed.

Lemma wf_set_dropouts rid d r :
  round_wf rid r -> is_byte d -> d ∉ dropout_clients r ->
  round_wf rid (set_dropouts (dropout_clients r ++ [d]) r).
Proof.
  destruct r. intros [] Hb Hd. split; simpl in *; try done.
  - apply NoDup_app. split; [done|]. split; [set_solver|apply NoDup_singleton].
  - apply Forall_app. split; [done|]. by constructor.
Qed.

Lemma wf_complete rid r f :
  round_wf rid r -> chunk_size r <> 0 ->
  result_shape (model_size r / chunk_size r) (Z.to_nat (chunk_size r)) f ->
  round_wf rid (set_stage ROUND_COMPLETE (set_unmasked f r)).
Proof.
  destruct r. intros [] Hcs Hf. split; simpl in *; try done.
  - by right.
  - intros _. split; [lia|done].
Qed.

Lemma wf_set_unmasked rid r f :
  round_wf rid r -> chunk_size r <> 0 ->
  result_shape (model_size r / chunk_size r) (Z.to_nat (chunk_size r)) f ->
  round_wf rid (set_unmasked f r).
Proof.
  destruct r. intros [] Hcs Hf. split; simpl in *; try done.
  - by right.
  - intros _. split; [lia|done].
Qed.

(** ** Methods keep the invariant *)

Section Methods.
Context (rid : Z).

Lemma keeps_update_net f : preserves (ctx_wf rid) (update_net f).
Proof. apply preserves_modify. by intros s Hs. Qed.

Lemma keeps_update_round f :
  (forall r, round_wf rid r -> round_wf rid (f r)) -> preserves (ctx_wf rid) (update_round f).
Proof. intros Hf. apply preserves_modify. intros s. apply Hf. Qed.

Lemma keeps_get_client cid : preserves (ctx_wf rid) (get_client cid).
Proof. intros s Hs. unfold exec. by rewrite get_client_run. Qed.

Lemma keeps_update_client cid f :
  (forall cs k c, client_wf rid cs k c -> client_wf rid cs k (f c)) ->
  preserves (ctx_wf rid) (update_client cid f).
Proof.
  intros Hf s Hs. unfold exec. rewrite update_client_run.
  destruct (dict_get cid (clients (round s))) as [c|] eqn:E; [|done]. simpl.
  apply wf_set_client; [done|]. apply Hf. apply dict_get_elem in E. by apply (rw_client _ _ Hs).
Qed.

Lemma keeps_write_drain conn data : preserves (ctx_wf rid) (write_drain conn data).
Proof. intros s Hs. unfold exec. by rewrite write_drain_run. Qed.

Lemma keeps_the_round : preserves (ctx_wf rid) the_round.
Proof. apply preserves_gets. Qed.

Hint Resolve keeps_update_net keeps_update_round keeps_get_client keeps_update_client
  keeps_write_drain keeps_the_round wf_set_stage : preserves_db.

(** Walks down a method: binds, loops and branches, then the hints. *)
Ltac keep :=
  repeat first
    [ progress intros
    | solve [eauto with preserves_db wf_db]
    | apply keeps_update_client
    | apply keeps_update_round
    | apply preserves_for_each
    | apply preserves_bind
    | case_match ].

Section KeyMethods.
Context (encapsulate : nat -> bytes -> result (bytes * bytes)).
Context (reconstruct_secret : list (Z * Z) -> result Z).

Lemma keeps_encapsulate_to cid pk : preserves (ctx_wf rid) (encapsulate_to encapsulate cid pk).
Proof. unfold encapsulate_to, draw_encapsulation. keep. Qed.
Hint Resolve keeps_encapsulate_to : preserves_db.

Lemma keeps_ensure_secret cid : preserves (ctx_wf rid) (ensure_secret encapsulate cid).
Proof. unfold ensure_secret. keep. Qed.
Hint Resolve keeps_ensure_secret : preserves_db.

Lemma keeps_derive_seeds cid : preserves (ctx_wf rid) (derive_seeds cid).
Proof. unfold derive_seeds, derive_seed_for. keep. Qed.
Hint Resolve keeps_derive_seeds : preserves_db.

Lemma keeps_setup : preserves (ctx_wf rid) (setup_keys_and_masks encapsulate).
Proof.
  unfold setup_keys_and_masks, setup_client, setup_pair, orchestrate_pairwise_kem, orchestrate_pair. keep.
Qed.

Lemma keeps_recovery : preserves (ctx_wf rid) (trigger_recovery reconstruct_secret).
Proof. unfold trigger_recovery, recover_client. keep. Qed.
End KeyMethods.

Lemma keeps_broadcast f payload : preserves (ctx_wf rid) (broadcast f payload).
Proof. unfold broadcast, send_complete. keep. Qed.

Lemma keeps_round_failure : preserves (ctx_wf rid) handle_round_failure.
Proof. unfold handle_round_failure. keep. Qed.
End Methods.

(** A method that reads the round first may use what it read. *)
Lemma keeps_read_round {B} rid (f : RoundState -> M Ctx B) :
  (forall c, ctx_wf rid c -> ctx_wf rid (exec (f (round c)) c)) ->
  preserves (ctx_wf rid) (the_round ≫= f).
Proof. intros H c Hc. by apply (H c Hc). Qed.

Lemma exec_bind {S A B} (m : M S A) (f : A -> M S B) s :
  exec (m ≫= f) s = match m s with (Ok a, s') => exec (f a) s' | (Err _, s') => s' end.
Proof. unfold exec, mbind, M_bind. by destruct (m s) as [[]]. Qed.

Lemma keeps_finalize_round rid : preserves (ctx_wf rid) finalize_round.
Proof.
  apply keeps_read_round. intros c Hc. rewrite exec_bind. unfold lift.
  destruct (Head.finalize_aggregation (round c)) as [f|] eqn:E; [|done].
  apply head_finalize_shape in E as [Hcs Hf]. rewrite exec_bind. simpl. by apply wf_complete.
Qed.

Section Aggregations.
Context {L : CryptoLib} (CRYPTO_AVAILABLE : bool).
Context (encapsulate : nat -> bytes -> result (bytes * bytes)).
Context (reconstruct_secret : list (Z * Z) -> result Z).
Hint Resolve keeps_setup keeps_recovery keeps_finalize_round keeps_broadcast : preserves_db.

Lemma keeps_head_aggregate rid :
  preserves (ctx_wf rid) (head_unmask_and_aggregate encapsulate reconstruct_secret).
Proof.
  unfold head_unmask_and_aggregate.
  do 4 (apply preserves_bind; [eauto with preserves_db|intros ?]).
  do 2 (apply preserves_bind; [apply preserves_lift|intros ?]). apply keeps_broadcast.
Qed.

(** The middle of the incoming version, between recovery and broadcast. *)
Lemma keeps_store_incoming {B} rid (early : M Ctx B) (finish : chunks -> bytes -> M Ctx B) :
  preserves (ctx_wf rid) early -> (forall f p, preserves (ctx_wf rid) (finish f p)) ->
  preserves (ctx_wf rid) (
    r ← the_round;
    client_unmasked ← lift (Incoming.unmask_client_chunks CRYPTO_AVAILABLE r);
    fedavg ← lift (Incoming.compute_fedavg r client_unmasked);
    n ← lift (num_chunks r);
    if forallb (fun seq_num => dict_mem seq_num fedavg) (range n) then
      _ ← update_round (set_unmasked fedavg);
      _ ← update_round (set_stage ROUND_COMPLETE);
      telemetry ← lift (collect_telemetry r);
      telemetry_payload ← lift (pack_telemetry telemetry);
      finish fedavg telemetry_payload
    else early).
Proof.
  intros He Hf. apply keeps_read_round. intros c Hc. rewrite exec_bind. unfold lift.
  destruct (Incoming.unmask_client_chunks _ _) as [cu|]; [|done]. rewrite exec_bind.
  destruct (Incoming.compute_fedavg _ _) as [f|] eqn:E; [|done].
  apply compute_fedavg_shape in E as [Hcs Hs]. rewrite exec_bind.
  destruct (num_chunks (round c)); [|done]. case_match; [|by apply He].
  rewrite !exec_bind. cbn [update_round modify]. rewrite exec_bind. cbn [update_round modify].
  apply (preserves_bind (ctx_wf rid) (lift (collect_telemetry (round c)))
    (fun t => lift (pack_telemetry t) ≫= finish f)); [apply preserves_lift| |by apply wf_complete].
  intros t. apply preserves_bind; [apply preserves_lift|apply Hf].
Qed.

Lemma keeps_incoming_aggregate rid :
  preserves (ctx_wf rid)
    (incoming_unmask_and_aggregate CRYPTO_AVAILABLE encapsulate reconstruct_secret).
Proof.
  unfold incoming_unmask_and_aggregate.
  do 2 (apply preserves_bind; [eauto with preserves_db|intros ?]).
  apply keeps_store_incoming; [apply preserves_skip|intros f p; apply keeps_broadcast].
Qed.
End Aggregations.

(** ** The handlers *)

(** What a bridge class promises its handlers: its aggregation keeps the
    invariant. *)
Class AggregatorLaws (A : Aggregator) : Prop :=
  agg_keeps : forall rid, preserves (ctx_wf rid) unmask_and_aggregate.

(** What the framing loop passes on: header fields of the wire's widths. *)
Record header_wf (h : MessageHeader) : Prop := {
  hw_round : 0 <= h_round_id h < 2 ^ 32;
  hw_client : is_byte (h_client_id h);
  hw_type : is_byte (h_message_type h);
  hw_seq : 0 <= h_sequence_number h < 65536;
  hw_len : 0 <= h_payload_length h < 65536;
}.

Lemma keeps_on_round rid rs (m : M Ctx unit) b :
  bridge_wf b -> round_wf rid rs -> preserves (ctx_wf rid) m -> bridge_wf (exec (on_round rid rs m) b).
Proof.
  intros [Hk Hr] Hrs Hm. specialize (Hm {| net := bridge_net b; round := rs |} Hrs).
  unfold exec, on_round in *. destruct (m _) as [res c]. simpl in *. split; simpl.
  - by apply dict_keys_set_NoDup.
  - by apply dict_set_Forall.
Qed.

Lemma keeps_with_round rid m : preserves (ctx_wf rid) m -> preserves bridge_wf (with_round rid m).
Proof.
  intros Hm b Hb. unfold exec, with_round.
  destruct (dict_get rid (rounds b)) as [rs|] eqn:E; [|done].
  apply keeps_on_round; [done| |done]. apply dict_get_elem in E. by apply (bw_round _ Hb).
Qed.

Lemma keeps_with_client rid cid m :
  (forall s c, ctx_wf rid s -> dict_get cid (clients (round s)) = Some c ->
               ctx_wf rid (exec (m c) s)) ->
  preserves (ctx_wf rid) (with_client cid m).
Proof.
  intros Hm s Hs. unfold exec. rewrite with_client_run.
  destruct (dict_get cid (clients (round s))) eqn:E; [|done]. by apply Hm.
Qed.

Lemma four_bytes_range payload :
  is_bytes payload -> (4 <=? length payload)%nat = true ->
  0 <= int_from_bytes (take 4 payload) < 2 ^ 32.
Proof.
  intros Hp El. pose proof (be_decode_range (take 4 payload) ltac:(by apply Forall_take)) as Hr.
  rewrite length_take in Hr. apply Nat.leb_le in El. rewrite Nat.min_l in Hr by lia. exact Hr.
Qed.

Section Handlers.
Context {A : Aggregator} {AL : AggregatorLaws A}.
Context (h : MessageHeader) (payload : bytes) (Hh : header_wf h) (Hp : is_bytes payload).

Lemma keeps_check rid : preserves (ctx_wf rid) check_round_completion.
Proof.
  unfold check_round_completion. apply preserves_bind; [apply keeps_the_round|intros r].
  case_match; [|case_match; [|apply preserves_skip]].
  - apply preserves_bind; [apply keeps_update_round; intros r' Hr'; by apply wf_set_stage|intros _; apply agg_keeps].
  - apply preserves_bind; [apply keeps_update_round; intros r' Hr'; by apply wf_set_stage|intros _].
    apply keeps_round_failure.
Qed.

Lemma list_index_byte i v : list_index payload i = Ok v -> is_byte v.
Proof.
  unfold list_index. destruct (payload !! i) as [x|] eqn:E; [|done]. intros [= <-].
  by eapply Forall_lookup_1 in E.
Qed.

Lemma decode_round_init_range e t c m :
  decode_round_init payload = Ok (e, t, c, m) ->
  is_byte e /\ is_byte t /\ 0 <= c < 65536 /\ 0 <= m < 2 ^ 32.
Proof.
  unfold decode_round_init.
  destruct (list_index payload 0) as [b0|] eqn:E0; run; [|done].
  destruct (list_index payload 1) as [b1|] eqn:E1; run; [|done].
  destruct (list_index payload 2) as [b2|] eqn:E2; run; [|done].
  destruct (list_index payload 3) as [b3|] eqn:E3; run; [|done].
  destruct (list_index payload 4) as [b4|] eqn:E4; run; [|done].
  destruct (list_index payload 5) as [b5|] eqn:E5; run; [|done].
  destruct (list_index payload 6) as [b6|] eqn:E6; run; [|done].
  destruct (list_index payload 7) as [b7|] eqn:E7; run; [|done].
  apply list_index_byte in E0, E1, E2, E3, E4, E5, E6, E7. intros [= <- <- <- <-].
  split; [done|]. split; [done|]. split; [by apply le16_byte_range|].
  rewrite le32_add by done. unfold is_byte in *. change (2 ^ 32) with 4294967296. lia.
Qed.

Lemma keeps_round_init : preserves bridge_wf (handle_round_init h payload).
Proof.
  intros b Hb. unfold handle_round_init. rewrite exec_bind. simpl.
  destruct (dict_mem (h_round_id h) (rounds b)) eqn:Em; [done|].
  rewrite exec_bind. unfold lift.
  destruct (decode_round_init payload) as [[[[e t] c] m]|] eqn:E; [|done].
  apply decode_round_init_range in E as (He & Ht & Hc & Hm). simpl.
  destruct Hb as [Hk Hr]. split; simpl.
  - by apply dict_keys_set_NoDup.
  - apply dict_set_Forall; [|done]. split; simpl; try done; try apply NoDup_nil_2; [|by left].
    intros k c' Hin. by apply not_elem_of_nil in Hin.
Qed.

Lemma keeps_public_key writer : preserves bridge_wf (handle_public_key h payload writer).
Proof.
  apply keeps_with_round. apply keeps_read_round. intros c Hc.
  rewrite exec_bind.
  destruct (dict_get (h_client_id h) (clients (round c))) as [cl|] eqn:E.
  - cbn [skip]. match goal with |- ctx_wf ?rid (exec ?m ?s) =>
      enough (preserves (ctx_wf rid) m) as Hm; [by apply Hm|] end.
    apply preserves_bind; [apply keeps_update_client; eauto with wf_db|intros _; apply keeps_update_net].
  - cbn [update_round modify]. match goal with |- ctx_wf ?rid (exec ?m ?s) =>
      enough (preserves (ctx_wf rid) m) as Hm; [apply Hm|] end.
    + apply wf_set_client; [done|]. apply wf_new_client, (hw_client _ Hh).
    + apply preserves_bind; [apply keeps_update_client; eauto with wf_db|intros _; apply keeps_update_net].
Qed.

Lemma keeps_mask_chunk : preserves bridge_wf (handle_mask_chunk h payload).
Proof.
  apply keeps_with_round, keeps_with_client. intros s c Hs Hc. rewrite exec_bind. cbn [the_round gets].
  destruct (Z.eqb_spec (Z.of_nat (length payload)) (chunk_size (round s) * 2)) as [He|]; [|done].
  unfold exec. rewrite update_client_run, Hc. simpl. apply wf_set_client; [done|].
  apply wf_set_received; [apply (hw_seq _ Hh)|lia|done|].
  apply dict_get_elem in Hc. by apply (rw_client _ _ Hs).
Qed.

Lemma keeps_client_complete : preserves bridge_wf (handle_client_complete h payload).
Proof.
  apply keeps_with_round, keeps_with_client. intros s c Hs Hc.
  match goal with |- ctx_wf ?rid (exec ?m ?s) =>
    enough (preserves (ctx_wf rid) m) as Hm; [by apply Hm|] end.
  apply preserves_bind.
  - destruct (4 <=? length payload)%nat eqn:El; [|apply preserves_skip].
    apply keeps_update_client. intros cs k c'. by apply wf_set_sample_count, four_bytes_range.
  - intros _. apply preserves_bind; [apply keeps_update_client; eauto with wf_db|].
    intros _. apply keeps_check.
Qed.

Lemma keeps_dropout_notify : preserves bridge_wf (handle_dropout_notify h payload).
Proof.
  apply keeps_with_round, keeps_read_round. intros c Hc. rewrite exec_bind.
  assert (Hrest : forall rid, preserves (ctx_wf rid)
            (trigger_recovery agg_reconstruct_secret ≫= fun _ => check_round_completion)).
  { intros rid. apply preserves_bind; [apply keeps_recovery|intros _; apply keeps_check]. }
  case_bool_decide as Hd; cbn [skip update_round modify].
  - by apply Hrest.
  - apply Hrest. apply wf_set_dropouts; [done|apply (hw_client _ Hh)|done].
Qed.

Lemma keeps_shamir_share : preserves bridge_wf (handle_shamir_share h payload).
Proof.
  apply keeps_with_round, keeps_with_client. intros s c Hs _.
  apply keeps_update_client; [|done]. eauto with wf_db.
Qed.

Lemma keeps_pairwise_pubkey writer : preserves bridge_wf (handle_pairwise_pubkey h payload writer).
Proof.
  apply keeps_with_round, keeps_with_client. intros s c Hs _.
  apply preserves_bind; [apply keeps_update_client; eauto with wf_db| |done].
  intros _. apply keeps_update_net.
Qed.

Lemma keeps_pairwise_ciphertext : preserves bridge_wf (handle_pairwise_ciphertext h payload).
Proof.
  apply keeps_with_round, keeps_with_client. intros s c Hs _. case_match; [|done].
  apply keeps_update_client; [|done]. eauto with wf_db.
Qed.

Lemma keeps_dispatch_common writer other :
  preserves bridge_wf other -> preserves bridge_wf (dispatch_common h payload writer other).
Proof.
  intros Ho. unfold dispatch_common. repeat case_match; try done;
    auto using keeps_public_key, keeps_mask_chunk, keeps_client_complete, keeps_dropout_notify,
      keeps_round_init.
Qed.

End Handlers.

(** ** The invariant as a computation, for concrete rounds *)

Definition client_wfb (rid cs k : Z) (c : ClientState) : bool :=
  (client_id c =? k) && bool_decide (is_byte k) && (client_round_id c =? rid) &&
  bool_decide (NoDup (dict_keys (received_chunks c))) &&
  forallb (fun p => bool_decide (0 <= fst p < 65536) &&
                    (Z.of_nat (length (snd p)) =? 2 * cs) && bool_decide (is_bytes (snd p)))
    (received_chunks c) &&
  bool_decide (0 <= sample_count c < 2 ^ 32).

Lemma client_wfb_ok rid cs k c : client_wfb rid cs k c = true -> client_wf rid cs k c.
Proof.
  unfold client_wfb. rewrite !andb_true_iff, !Z.eqb_eq, !bool_decide_eq_true, forallb_forall.
  intros [[[[[H1 H2] H3] H4] H5] H6]. split; try done.
  intros s d Hin. apply list_elem_of_In, H5 in Hin. cbn [fst snd] in Hin.
  rewrite !andb_true_iff, Z.eqb_eq, !bool_decide_eq_true in Hin. by destruct Hin as [[??]?].
Qed.

(** A round that is not complete yet and has no result. *)
Definition open_round_wfb (rid : Z) (r : RoundState) : bool :=
  (round_id r =? rid) && bool_decide (is_byte (expected_clients r)) &&
  bool_decide (is_byte (threshold r)) && bool_decide (0 <= chunk_size r < 65536) &&
  bool_decide (0 <= model_size r < 2 ^ 32) && bool_decide (NoDup (dict_keys (clients r))) &&
  forallb (fun p => client_wfb rid (chunk_size r) (fst p) (snd p)) (clients r) &&
  bool_decide (NoDup (dropout_clients r)) && bool_decide (Forall is_byte (dropout_clients r)) &&
  bool_decide (unmasked_chunks r = []) && bool_decide (stage r <> ROUND_COMPLETE).

Lemma open_round_wfb_ok rid r : open_round_wfb rid r = true -> round_wf rid r.
Proof.
  unfold open_round_wfb. rewrite !andb_true_iff, Z.eqb_eq, !bool_decide_eq_true, forallb_forall.
  intros [[[[[[[[[[H1 H2] H3] H4] H5] H6] H7] H8] H9] H10] H11]. split; try done.
  - intros k c Hin. apply list_elem_of_In, H7 in Hin. by apply client_wfb_ok.
  - by left.
Qed.
