(* ===== verification/Server.v ===== *)
(** * Connections and the message loop

    [_handle_client], which cuts a connection's byte stream into messages and
    dispatches them, and the states a bridge object can reach. *)

From Stdlib Require Import ZArith Lia.
From stdpp Require Import prelude.
From S2P Require Import Prelude PyDict PyBytes Wire State Bridge Invariant.

Section Server.
Context (dispatch_message : MessageHeader -> bytes -> Z -> M Bridge unit).

(** The [while True] loop over the stream a peer sends before it closes its
    side.  [readexactly] raises [IncompleteReadError] when the stream ends
    first.  Every iteration consumes at least a header, so the stream's length
    is fuel enough. *)
Fixpoint serve (fuel : nat) (stream : bytes) (writer : Z) : M Bridge unit :=
  if (length stream <? HEADER_SIZE)%nat then raise IncompleteReadError
  else
    match fuel with
    | O => raise Diverges
    | S fuel' =>
        header ← lift (parse_header (take HEADER_SIZE stream));
        let rest := drop HEADER_SIZE stream in
        let n := Z.to_nat (h_payload_length header) in
        if (length rest <? n)%nat then raise IncompleteReadError
        else _ ← dispatch_message header (take n rest) writer;
             serve fuel' (drop n rest) writer
    end.

(** The [except] clauses and the [finally] of [_handle_client]. *)
Definition swallow (r : result unit) : result unit :=
  match r with
  | Err IncompleteReadError | Err ConnectionResetError => Ok tt
  | _ => r
  end.

Definition close_writer (writer : Z) (b : Bridge) : Bridge := {|
  rounds := rounds b; current_round_id := current_round_id b;
  bridge_net := close_conn writer (bridge_net b) |}.

Definition handle_client (stream : bytes) (writer : Z) : M Bridge unit :=
  fun b => let '(res, b') := serve (length stream) stream writer b in
           (swallow res, close_writer writer b').

(** ** Framing *)

(** A message and its bytes. *)
Definition framed (m : MessageHeader * bytes) (bs : bytes) : Prop :=
  exists hb, struct_pack HEADER_FORMAT (header_values (fst m)) = Ok hb /\
    h_payload_length (fst m) = Z.of_nat (length (snd m)) /\ bs = hb ++ snd m.

Lemma parse_packed h hb :
  struct_pack HEADER_FORMAT (header_values h) = Ok hb ->
  length hb = HEADER_SIZE /\ parse_header hb = Ok h.
Proof.
  intros Hh. pose proof (struct_pack_ok _ _ _ Hh) as (_ & Hl & _). split; [done|].
  unfold parse_header. rewrite (struct_unpack_pack _ _ _ Hh). run. by destruct h.
Qed.

Lemma serve_step fuel m bs rest writer :
  framed m bs ->
  serve (S fuel) (bs ++ rest) writer =
  (dispatch_message (fst m) (snd m) writer ≫= fun _ => serve fuel rest writer).
Proof.
  destruct m as [h payload]. intros (hb & Hh & Hlen & ->). cbn [fst snd] in *.
  destruct (parse_packed _ _ Hh) as [Hl Hp].
  cbn [serve]. rewrite !length_app, Hl.
  rewrite (proj2 (Nat.ltb_ge _ _)) by lia.
  rewrite <- !app_assoc, <- Hl, take_app_length, drop_app_length, Hp, lift_ok_bind, Hlen, Nat2Z.id.
  rewrite length_app, (proj2 (Nat.ltb_ge _ _)) by lia.
  by rewrite take_app_length, drop_app_length.
Qed.

Lemma framed_length m bs : framed m bs -> (HEADER_SIZE <= length bs)%nat.
Proof.
  intros (hb & Hh & _ & ->). apply parse_packed in Hh as [Hl _]. rewrite length_app. lia.
Qed.

Lemma serve_messages msgs bss tail writer fuel b :
  Forall2 framed msgs bss -> (length tail < HEADER_SIZE)%nat ->
  (length (concat bss ++ tail) <= fuel)%nat ->
  serve fuel (concat bss ++ tail) writer b =
  (for_each msgs (fun m => dispatch_message (fst m) (snd m) writer)
     ≫= fun _ => raise IncompleteReadError) b.
Proof.
  intros Hf Ht. revert fuel b. induction Hf as [|m bs msgs bss Hm Hf IH]; intros fuel b Hfuel.
  - simpl in *. destruct fuel; cbn [serve]; by rewrite (proj2 (Nat.ltb_lt _ _) Ht).
  - cbn [concat] in *. rewrite <- app_assoc in *. rewrite length_app in Hfuel.
    pose proof (framed_length _ _ Hm) as Hl. unfold HEADER_SIZE in Hl.
    destruct fuel as [|fuel]; [lia|].
    rewrite (serve_step fuel m) by done. cbn [for_each].
    unfold mbind, M_bind. destruct (dispatch_message m.1 m.2 writer b) as [[[]|e] b1]; [|done].
    rewrite IH by lia. unfold mbind, M_bind. done.
Qed.

(** Framing.  If a peer sends the bytes of a sequence of messages, possibly
    followed by an incomplete header, and then closes, the server dispatches
    exactly those messages, in order, up to the first exception; a connection
    error or the end of the stream ends the loop quietly, any other exception
    leaves the handler, and the writer is closed in every case. *)
Theorem framing_correct msgs bss tail writer b :
  Forall2 framed msgs bss -> (length tail < HEADER_SIZE)%nat ->
  handle_client (concat bss ++ tail) writer b =
  let '(res, b') := for_each msgs (fun m => dispatch_message (fst m) (snd m) writer) b in
  (swallow res, close_writer writer b').
Proof.
  intros Hf Ht. unfold handle_client.
  rewrite (serve_messages msgs bss) by done. unfold mbind, M_bind.
  by destruct (for_each msgs _ b) as [[[]|e] b'].
Qed.

(** The loop is never cut off. *)
Lemma serve_terminates fuel stream writer b :
  (length stream <= fuel)%nat ->
  (forall h p w s, outcome (dispatch_message h p w) s <> Err Diverges) ->
  outcome (serve fuel stream writer) b <> Err Diverges.
Proof.
  intros Hfuel Hd. revert stream b Hfuel. induction fuel as [|fuel IH]; intros stream b Hfuel.
  - cbn [serve]. rewrite (proj2 (Nat.ltb_lt _ _)); [done|unfold HEADER_SIZE; lia].
  - cbn [serve]. destruct (Nat.ltb_spec (length stream) HEADER_SIZE) as [|Hl]; [done|].
    unfold outcome, mbind, M_bind, lift.
    destruct (parse_header (take HEADER_SIZE stream)) as [h|e] eqn:E.
    + case_match; [done|]. pose proof (Hd h (take (Z.to_nat (h_payload_length h))
        (drop HEADER_SIZE stream)) writer b) as Hdb. unfold outcome in Hdb.
      destruct (dispatch_message _ _ _ b) as [[[]|e] b']; [|done].
      apply IH. rewrite !length_drop. unfold HEADER_SIZE in *. lia.
    + simpl. intros [= ->]. unfold parse_header, struct_unpack in E.
      case_decide as Hc; run; [|done]. unfold header_of_values in E. repeat case_match; done.
Qed.

(** ** Reachable states *)

(** What can happen to a bridge: a message of any connection is handled (a
    handler runs to its end, or to its exception), a connection's handler
    closes its writer, or the network closes and loses connections. *)
Inductive bridge_step : Bridge -> Bridge -> Prop :=
| step_message h payload writer b :
    header_wf h -> is_bytes payload ->
    bridge_step b (exec (dispatch_message h payload writer) b)
| step_close writer b : bridge_step b (close_writer writer b)
| step_network (f : Net -> Net) b :
    client_writers (f (bridge_net b)) = client_writers (bridge_net b) ->
    wire (f (bridge_net b)) = wire (bridge_net b) ->
    bridge_step b {| rounds := rounds b; current_round_id := current_round_id b;
                     bridge_net := f (bridge_net b) |}.

Inductive reachable : Bridge -> Prop :=
| reach_init : reachable new_bridge
| reach_step b b' : reachable b -> bridge_step b b' -> reachable b'.

Lemma parse_header_wf bs h : is_bytes bs -> parse_header bs = Ok h -> header_wf h.
Proof.
  intros Hb. unfold parse_header. destruct (struct_unpack HEADER_FORMAT bs) as [vs|] eqn:E; run; [|done].
  apply struct_unpack_range in E; [|done]. unfold header_of_values.
  repeat (destruct vs as [|? vs]; try done). intros [= <-].
  unfold HEADER_FORMAT in E. rewrite !Forall2_cons in E. cbn [code_range] in E.
  change (2 ^ 8) with 256 in E. change (2 ^ 16) with 65536 in E.
  by split; unfold is_byte; cbn; naive_solver.
Qed.

Lemma serve_reachable fuel stream writer b :
  is_bytes stream -> reachable b -> reachable (exec (serve fuel stream writer) b).
Proof.
  revert stream b. induction fuel as [|fuel IH]; intros stream b Hs Hb; cbn [serve].
  - by case_match.
  - case_match; [done|]. rewrite exec_bind. unfold lift.
    destruct (parse_header (take HEADER_SIZE stream)) as [h|e] eqn:E; [|done].
    apply parse_header_wf in E; [|by apply Forall_take]. case_match; [done|].
    rewrite exec_bind. set (p := take _ _).
    assert (Hstep : reachable (exec (dispatch_message h p writer) b)).
    { eapply reach_step; [done|]. apply step_message; [done|]. by apply Forall_take, Forall_drop. }
    unfold exec in Hstep. destruct (dispatch_message h p writer b) as [[[]|e] b']; [|done].
    apply IH; [|done]. by apply Forall_drop, Forall_drop.
Qed.

(** A whole connection is a sequence of steps. *)
Lemma handle_client_reachable stream writer b :
  is_bytes stream -> reachable b -> reachable (exec (handle_client stream writer) b).
Proof.
  intros Hs Hb. apply (serve_reachable (length stream) stream writer b Hs) in Hb.
  unfold exec, handle_client in *. destruct (serve _ _ _ b) as [res b']. simpl in *.
  eapply reach_step; [done|]. apply step_close.
Qed.

(** The dispatcher keeps the invariant on messages as the framing loop
    delivers them. *)
Definition dispatch_keeps : Prop :=
  forall h payload writer, header_wf h -> is_bytes payload ->
  preserves bridge_wf (dispatch_message h payload writer).

Lemma reachable_bridge_wf b : dispatch_keeps -> reachable b -> bridge_wf b.
Proof.
  intros Hd Hr. induction Hr as [|b b' Hr IH Hs].
  - split; [apply NoDup_nil_2|]. intros rid r Hin. by apply not_elem_of_nil in Hin.
  - destruct Hs as [h p w b Hh Hp|w b|f b _ _].
    + by apply (Hd h p w Hh Hp).
    + destruct IH. by split.
    + destruct IH. by split.
Qed.

End Server.
