(* ===== verification/DraftBridge.v ===== *)
(** * The bridge before the rewrite

    update_task5.py and phase3_fixes.py each write an earlier
    host_server/protocol_bridge.py.  Their messages, records, key derivation
    and the encapsulation loop are those of the later bridge (Wire, State,
    Kdf, Keys); chunks have a fixed 128 elements, sample counts do not exist,
    and the aggregate is a plain sum.  [Phase3] is the later of the two,
    [Task5] the handlers in which the earlier one differs. *)

From Stdlib Require Import ZArith Lia Setoid Morphisms.
From stdpp Require Import prelude.
From S2P Require Import Prelude PyDict PyBytes Field Lagrange Sha256 Kdf Crypto Masks Drafts Wire State.
From S2P Require Import Aggregate FedAvg Keys Bridge Invariant Server.
#[local] Open Scope gf_scope.

Definition CHUNK_ELEMENTS : nat := Draft.CHUNK_ELEMENTS.
Definition CHUNK_BYTES : Z := Z.of_nat Draft.CHUNK_BYTES.

(** ** What the two versions share *)

Section Shared.
Context {L : CryptoLib} (encapsulate : nat -> bytes -> result (bytes * bytes)).

(** [_setup_keys_and_masks]: encapsulate to every client that has a public
    key, then derive a seed for every pair. *)
Definition setup_keys_and_masks : M Ctx unit :=
  r ← the_round;
  _ ← for_each (dict_keys (clients r)) (setup_client encapsulate);
  _ ← for_each (dict_keys (clients r)) derive_seeds;
  update_round (set_stage MASK_SETUP).

(** The unpacking loop of one client's chunks: [row[i] = (row[i] + val) % FIELD_MODULUS]. *)
Definition add_received (n : Z) (acc : chunks) (c : ClientState) : result chunks :=
  fold_result
    (fun acc (p : Z * bytes) =>
       values ← struct_unpack (chunk_format CHUNK_ELEMENTS) (snd p);
       accumulate_chunk 1 (fst p) values acc)
    (in_range_chunks n c) acc.

(** One ROUND_COMPLETE message. *)
Definition complete_message (r : RoundState) (aggregated : chunks) (seq_num : Z) : result bytes :=
  row ← dict_index seq_num aggregated;
  data ← struct_pack (chunk_format CHUNK_ELEMENTS) row;
  header ← build_header MSG_TYPE_ROUND_COMPLETE (round_id r) 0 seq_num (Z.of_nat (length data));
  Ok (header ++ data).

Definition send_chunk (aggregated : chunks) (writer seq_num : Z) : M Ctx unit :=
  r ← the_round;
  msg ← lift (complete_message r aggregated seq_num);
  write_drain writer msg.

(** The loop over the writers. *)
Definition broadcast_chunks (aggregated : chunks) : M Ctx unit :=
  c ← gets net;
  for_each (dict_values (client_writers c)) (fun writer =>
    r ← the_round;
    n ← lift (num_chunks r);
    for_each (range n) (send_chunk aggregated writer)).

(** [_handle_mask_chunk]: the payload must be 256 bytes whatever the round's
    chunk size. *)
Definition handle_mask_chunk (header : MessageHeader) (payload : bytes) : M Bridge unit :=
  with_round (h_round_id header) (with_client (h_client_id header) (fun c =>
    if Z.of_nat (length payload) =? CHUNK_BYTES then
      update_client (h_client_id header)
        (set_received (dict_set (h_sequence_number header) payload (received_chunks c)))
    else skip)).

(** [_handle_client_complete] over a version's [_check_round_completion]. *)
Definition handle_client_complete (check : M Ctx unit) (header : MessageHeader) : M Bridge unit :=
  with_round (h_round_id header) (with_client (h_client_id header) (fun _ =>
    _ ← update_client (h_client_id header) set_completed; check)).

(** The first statements of [_handle_dropout_notify]. *)
Definition note_dropout (cid : Z) : M Ctx unit :=
  r ← the_round;
  if bool_decide (cid ∈ dropout_clients r) then skip
  else update_round (set_dropouts (dropout_clients r ++ [cid])).

(** The dispatcher, over a version's handlers. *)
Definition dispatch_draft (public_key : MessageHeader -> bytes -> Z -> M Bridge unit)
    (client_complete : MessageHeader -> M Bridge unit) (dropout : MessageHeader -> M Bridge unit)
    (header : MessageHeader) (payload : bytes) (writer : Z) : M Bridge unit :=
  let ty := h_message_type header in
  if ty =? MSG_TYPE_KEM_PUBLIC_KEY then public_key header payload writer
  else if ty =? MSG_TYPE_MASK_CHUNK then handle_mask_chunk header payload
  else if ty =? MSG_TYPE_CLIENT_COMPLETE then client_complete header
  else if ty =? MSG_TYPE_DROPOUT_NOTIFY then dropout header
  else if ty =? MSG_TYPE_ROUND_INIT then handle_round_init header payload
  else skip.
End Shared.

Module Phase3.
Section Version.
Context {L : CryptoLib} (CRYPTO_AVAILABLE : bool).
Context (encapsulate : nat -> bytes -> result (bytes * bytes)).

(** [for seq_num in range(num_chunks): for i in range(CHUNK_ELEMENTS): ...]:
    the same mask goes into every chunk. *)
Definition add_mask (n : Z) (sign : Z) (mask : list Z) (acc : chunks) : result chunks :=
  fold_result
    (fun acc seq_num =>
       row ← dict_index seq_num acc;
       row' ← add_peer_mask sign mask row CHUNK_ELEMENTS;
       Ok (dict_set seq_num row' acc))
    (range n) acc.

(** The mask a dropped client shares with one peer. *)
Definition pair_mask (secret : bytes) (dropout_id peer_id rid : Z) : result (list Z) :=
  seed ← derive_pairwise_mask_seed secret (Z.min dropout_id peer_id) (Z.max dropout_id peer_id) rid;
  generate_mask_from_seed CRYPTO_AVAILABLE seed (CHUNK_ELEMENTS * 2).

Definition add_peer (r : RoundState) (n : Z) (dropout_id : Z) (secret : bytes) (acc : chunks)
    (peer : Z * ClientState) : result chunks :=
  if fst peer =? dropout_id then Ok acc
  else if truthy (shared_secret (snd peer)) then
    mask ← pair_mask secret dropout_id (fst peer) (round_id r);
    add_mask n (mask_sign dropout_id (fst peer)) mask acc
  else Ok acc.

Definition add_dropout (r : RoundState) (n : Z) (acc : chunks) (dropout_id : Z) : result chunks :=
  match dict_get dropout_id (clients r) with
  | Some d => if truthy (shared_secret d)
              then fold_result (add_peer r n dropout_id (default [] (shared_secret d))) (clients r) acc
              else Ok acc
  | None => Ok acc
  end.

(** [_unmask_aggregated_chunks]: the survivors' chunks, completed or not, and
    the masks of the dropped clients whose secret is known. *)
Definition unmask_aggregated_chunks (r : RoundState) : result chunks :=
  n ← num_chunks r;
  let survivors := filter (fun p : Z * ClientState => negb (is_dropout r (fst p))) (clients r) in
  sums ← fold_result (add_received n) (snd <$> survivors) (zero_chunks n CHUNK_ELEMENTS);
  fold_result (add_dropout r n) (dropout_clients r) sums.

Definition aggregate_and_broadcast : M Ctx unit :=
  _ ← setup_keys_and_masks encapsulate;
  r ← the_round;
  unmasked ← lift (unmask_aggregated_chunks r);
  _ ← update_round (set_unmasked unmasked);
  broadcast_chunks unmasked.

Definition check_round_completion : M Ctx unit :=
  r ← the_round;
  if (surviving r <=? completed_count r) && (threshold r <=? surviving r) then
    _ ← update_round (set_stage AGGREGATION);
    aggregate_and_broadcast
  else if surviving r <? threshold r then
    _ ← update_round (set_stage ERROR);
    handle_round_failure
  else skip.

Definition handle_dropout_notify (header : MessageHeader) : M Bridge unit :=
  with_round (h_round_id header) (
    _ ← note_dropout (h_client_id header); check_round_completion).

Definition dispatch_message (header : MessageHeader) (payload : bytes) (writer : Z) : M Bridge unit :=
  dispatch_draft handle_public_key (handle_client_complete check_round_completion)
    handle_dropout_notify header payload writer.

(** The methods that are those of the later bridge. *)
Definition init := new_bridge.
Definition parse_header := Wire.parse_header.
Definition build_header := Wire.build_header.
Definition hkdf_extract := Kdf.hkdf_extract.
Definition hkdf_expand := Kdf.hkdf_expand.
Definition derive_pairwise_seed := derive_pairwise_mask_seed.
Definition derive_stream_seed := derive_stream_mask_seed.
Definition derive_shamir_secret := Kdf.derive_shamir_secret.
Definition encapsulate_pq := Keys.encapsulate_pq.
Definition handle_round_init := Bridge.handle_round_init.
Definition handle_public_key := Bridge.handle_public_key.
Definition handle_round_failure := Bridge.handle_round_failure.
Definition aes_ctr_stream := Masks.aes_ctr_stream CRYPTO_AVAILABLE.
Definition generate_mask_from_seed := Masks.generate_mask_from_seed CRYPTO_AVAILABLE.
Definition handle_client := Server.handle_client dispatch_message.
End Version.
End Phase3.

Module Task5.
Section Version.
Context {L : CryptoLib} (encapsulate : nat -> bytes -> result (bytes * bytes)).

(** [_handle_public_key] is not given the writer it stores: the name is not
    defined. *)
Definition handle_public_key (header : MessageHeader) (payload : bytes) : M Bridge unit :=
  with_round (h_round_id header) (
    r ← the_round;
    let cid := h_client_id header in
    _ ← match dict_get cid (clients r) with
        | Some _ => skip
        | None => update_round
                    (set_clients (dict_set cid (new_client cid (h_round_id header)) (clients r)))
        end;
    _ ← update_client cid (set_public_key payload);
    raise (NameError "writer")).

(** [_trigger_recovery], over the earlier byte-wise reconstruction. *)
Definition recover_client (dropout_id : Z) : M Ctx unit :=
  r ← the_round;
  shares ← lift (collect_shares r dropout_id);
  if threshold r <=? Z.of_nat (length shares) then
    recovered ← lift (Draft.reconstruct_secret_bytes shares);
    update_client dropout_id (set_shared_secret recovered)
  else skip.

Definition trigger_recovery : M Ctx unit :=
  r ← the_round; for_each (dropout_clients r) recover_client.

(** The sum over the clients that completed or were reported dropped. *)
Definition aggregate_chunks (r : RoundState) : result chunks :=
  n ← num_chunks r;
  fold_result (add_received n)
    (filter (fun c => completed c || is_dropout r (client_id c)) (snd <$> clients r))
    (zero_chunks n CHUNK_ELEMENTS).

Definition aggregate_and_broadcast : M Ctx unit :=
  _ ← setup_keys_and_masks encapsulate;
  r ← the_round;
  aggregated ← lift (aggregate_chunks r);
  broadcast_chunks aggregated.

Definition check_round_completion : M Ctx unit :=
  r ← the_round;
  if surviving r <=? completed_count r then
    _ ← update_round (set_stage AGGREGATION);
    aggregate_and_broadcast
  else skip.

Definition handle_dropout_notify (header : MessageHeader) : M Bridge unit :=
  with_round (h_round_id header) (
    _ ← note_dropout (h_client_id header);
    r ← the_round;
    if expected_clients r - threshold r <=? Z.of_nat (length (dropout_clients r))
    then trigger_recovery else skip).

Definition dispatch_message (header : MessageHeader) (payload : bytes) (writer : Z) : M Bridge unit :=
  dispatch_draft (fun h p _ => handle_public_key h p) (handle_client_complete check_round_completion)
    handle_dropout_notify header payload writer.

(** The methods that are those of the later bridge. *)
Definition init := new_bridge.
Definition parse_header := Wire.parse_header.
Definition build_header := Wire.build_header.
Definition hkdf_extract := Kdf.hkdf_extract.
Definition hkdf_expand := Kdf.hkdf_expand.
Definition derive_pairwise_seed := derive_pairwise_mask_seed.
Definition derive_stream_seed := derive_stream_mask_seed.
Definition derive_shamir_secret := Kdf.derive_shamir_secret.
Definition encapsulate_pq := Keys.encapsulate_pq.
Definition handle_round_init := Bridge.handle_round_init.
Definition handle_client := Server.handle_client dispatch_message.
End Version.
End Task5.
