(* ===== verification/Client.v ===== *)
(** * The mock client

    host_server/mock_client.py: one simulated device, its crypto helpers and
    its message loop, and how it fits the classical bridge. *)

From Stdlib Require Import ZArith Lia.
From stdpp Require Import prelude.
From S2P Require Import Prelude PyDict PyBytes Field Lagrange Shamir Kdf Crypto Masks Wire State.
From S2P Require Import Aggregate FedAvg Keys.
#[local] Open Scope gf_scope.

(** ** Helpers *)

(** The module defines [hkdf_extract] and [hkdf_expand] twice, alike. *)
Definition hkdf_extract := Kdf.hkdf_extract.
Definition hkdf_expand := Kdf.hkdf_expand.
Definition hkdf_extract_again := Kdf.hkdf_extract.
Definition hkdf_expand_again := Kdf.hkdf_expand.
Definition derive_pairwise_seed := derive_pairwise_mask_seed.
Definition derive_stream_seed := derive_stream_mask_seed.
Definition build_header (message_type round_id client_id seq payload_len : Z) : result bytes :=
  struct_pack HEADER_FORMAT [PROTOCOL_VERSION; round_id; client_id; message_type; seq; payload_len; 0].
Definition parse_header := Wire.parse_header.

Section Helpers.
Context {L : CryptoLib} (CRYPTO_AVAILABLE : bool).

Definition aes_ctr_stream := Masks.aes_ctr_stream CRYPTO_AVAILABLE.
Definition generate_mask_from_seed := Masks.generate_mask_from_seed CRYPTO_AVAILABLE.

(** The n-th key pair of the process. *)
Definition x25519_keypair (n : nat) : bytes * bytes :=
  let private_key := x25519_generate n in (private_key, x25519_public private_key).
Definition x25519_ecdh (private_key peer_public_key : bytes) : result bytes :=
  x25519_exchange private_key peer_public_key.
Definition derive_session_key (shared_secret : bytes) : result bytes :=
  hkdf_derive [] KDF_LABEL_SESSION_KEY 32 shared_secret.
Definition aes_gcm_encrypt (key nonce plaintext : bytes) : result bytes :=
  aesgcm_encrypt key nonce plaintext [].
Definition aes_gcm_decrypt (key nonce ciphertext : bytes) : result bytes :=
  aesgcm_decrypt key nonce ciphertext [].
End Helpers.

(** ** The client's state

    The local variables of [run_client] that survive an iteration and are read
    again, the messages it has written, and how many [os.urandom] calls were
    made.  [connection_lost] makes [drain] raise. *)

Record Client : Type := {
  cl_chunk_size : Z;
  cl_model_size : Z;
  cl_expected_chunks : Z;
  cl_shared_secret : option bytes;
  cl_session_key : option bytes;
  cl_sent : list bytes;
  cl_random : nat;
  connection_lost : bool;
}.

Definition initial_client (lost : bool) : Client := {|
  cl_chunk_size := 128; cl_model_size := 1024; cl_expected_chunks := 0; cl_shared_secret := None;
  cl_session_key := None; cl_sent := []; cl_random := 0; connection_lost := lost |}.

Definition set_sizes (chunk model : Z) (c : Client) : Client := {|
  cl_chunk_size := chunk; cl_model_size := model; cl_expected_chunks := cl_expected_chunks c;
  cl_shared_secret := cl_shared_secret c; cl_session_key := cl_session_key c; cl_sent := cl_sent c;
  cl_random := cl_random c; connection_lost := connection_lost c |}.
Definition set_expected_chunks (v : Z) (c : Client) : Client := {|
  cl_chunk_size := cl_chunk_size c; cl_model_size := cl_model_size c; cl_expected_chunks := v;
  cl_shared_secret := cl_shared_secret c; cl_session_key := cl_session_key c; cl_sent := cl_sent c;
  cl_random := cl_random c; connection_lost := connection_lost c |}.
Definition set_secret (v : bytes) (c : Client) : Client := {|
  cl_chunk_size := cl_chunk_size c; cl_model_size := cl_model_size c;
  cl_expected_chunks := cl_expected_chunks c; cl_shared_secret := Some v;
  cl_session_key := cl_session_key c; cl_sent := cl_sent c;
  cl_random := cl_random c; connection_lost := connection_lost c |}.
Definition set_session_key (v : bytes) (c : Client) : Client := {|
  cl_chunk_size := cl_chunk_size c; cl_model_size := cl_model_size c;
  cl_expected_chunks := cl_expected_chunks c; cl_shared_secret := cl_shared_secret c;
  cl_session_key := Some v; cl_sent := cl_sent c;
  cl_random := cl_random c; connection_lost := connection_lost c |}.
Definition add_sent (v : bytes) (c : Client) : Client := {|
  cl_chunk_size := cl_chunk_size c; cl_model_size := cl_model_size c;
  cl_expected_chunks := cl_expected_chunks c; cl_shared_secret := cl_shared_secret c;
  cl_session_key := cl_session_key c; cl_sent := cl_sent c ++ [v];
  cl_random := cl_random c; connection_lost := connection_lost c |}.
Definition use_random (c : Client) : Client := {|
  cl_chunk_size := cl_chunk_size c; cl_model_size := cl_model_size c;
  cl_expected_chunks := cl_expected_chunks c; cl_shared_secret := cl_shared_secret c;
  cl_session_key := cl_session_key c; cl_sent := cl_sent c;
  cl_random := S (cl_random c); connection_lost := connection_lost c |}.

Section RunClient.
Context {L : CryptoLib} (CRYPTO_AVAILABLE : bool).
(** [os.urandom]: the n-th call, asked for [len] bytes. *)
Context (urandom : nat -> nat -> bytes).
Context (client_id : Z) (client_private_key client_public_key : bytes).

Definition draw_random (len : nat) : M Client bytes :=
  c ← gets (fun c => c);
  _ ← modify use_random;
  mret (urandom (cl_random c) len).

(** [writer.write(data); await writer.drain()] *)
Definition send (data : bytes) : M Client unit :=
  _ ← modify (add_sent data);
  c ← gets (fun c => c);
  if connection_lost c then raise ConnectionResetError else skip.

(** Message 0x40: adopt the sizes and answer with the public key. *)
Definition on_round_init (round_id : Z) (payload : bytes) : M Client unit :=
  p ← lift (decode_round_init payload);
  let '(_, _, chunk, model) := p in
  _ ← modify (set_sizes chunk model);
  _ ← (if chunk =? 0 then raise ZeroDivisionError
       else modify (set_expected_chunks ((model + chunk - 1) / chunk)));
  header ← lift (struct_pack HEADER_FORMAT
                   [0x00010000; round_id; client_id; 0x01; 0; Z.of_nat (length client_public_key); 0]);
  send (header ++ client_public_key).

(** Message 0x02: the server's ephemeral key. *)
Definition on_ciphertext (payload : bytes) : M Client unit :=
  if CRYPTO_AVAILABLE then
    shared ← lift (x25519_exchange client_private_key payload);
    _ ← modify (set_secret shared);
    session_key ← lift (hkdf_derive [] KDF_LABEL_SESSION_KEY 32 shared);
    modify (set_session_key session_key)
  else
    shared ← draw_random 32;
    _ ← modify (set_secret shared);
    session_key ← draw_random 32;
    modify (set_session_key session_key).

(** [[(chunk_ints[i] + mask[i]) % 3329 for i in range(chunk_size)]] *)
Definition mask_values (chunk_size : nat) (chunk_ints mask : list Z) : result (list Z) :=
  map_result
    (fun i => x ← list_index chunk_ints i; m ← list_index mask i; Ok ((x + m) mod 3329))
    (seq 0 chunk_size).

(** Message 0x21: send one chunk of random data, masked. *)
Definition on_chunk_request (round_id chunk_idx : Z) : M Client unit :=
  c ← gets (fun c => c);
  match cl_shared_secret c with
  | None => skip
  | Some shared =>
      let n := Z.to_nat (cl_chunk_size c) in
      stream_seed ← lift (derive_stream_seed shared client_id round_id chunk_idx);
      mask ← lift (generate_mask_from_seed CRYPTO_AVAILABLE stream_seed (n * 2));
      chunk_data ← draw_random (n * 2);
      chunk_ints ← lift (struct_unpack (chunk_format n) chunk_data);
      masked ← lift (mask_values n chunk_ints mask);
      masked_bytes ← lift (struct_pack (chunk_format n) masked);
      header ← lift (struct_pack HEADER_FORMAT
                       [0x00010000; round_id; client_id; 0x21; chunk_idx;
                        Z.of_nat (length masked_bytes); 0]);
      send (header ++ masked_bytes)
  end.

Definition on_message (h : MessageHeader) (payload : bytes) : M Client unit :=
  let ty := h_message_type h in
  if ty =? 0x40 then on_round_init (h_round_id h) payload
  else if ty =? 0x02 then on_ciphertext payload
  else if ty =? 0x21 then on_chunk_request (h_round_id h) (h_sequence_number h)
  else skip.

(** The [while True] loop over the bytes the server sends: the end of the
    stream and a reset end it, any other exception leaves [run_client]. *)
Fixpoint client_loop (fuel : nat) (stream : bytes) : M Client unit :=
  if (length stream <? 16)%nat then skip
  else
    match fuel with
    | O => raise Diverges
    | S fuel' =>
        h ← lift (parse_header (take 16 stream));
        let rest := drop 16 stream in
        let n := Z.to_nat (h_payload_length h) in
        if (length rest <? n)%nat then skip
        else fun c => match on_message h (take n rest) c with
                      | (Ok _, c') => client_loop fuel' (drop n rest) c'
                      | (Err ConnectionResetError, c') | (Err IncompleteReadError, c') => (Ok tt, c')
                      | (Err e, c') => (Err e, c')
                      end
    end.

Lemma client_loop_fuel fuel fuel' stream c :
  (length stream <= fuel)%nat -> (length stream <= fuel')%nat ->
  client_loop fuel stream c = client_loop fuel' stream c.
Proof.
  revert fuel' stream c. induction fuel as [|fuel IH]; intros fuel' stream c Hf Hf'.
  - destruct stream; [|simpl in Hf; lia]. by destruct fuel'.
  - destruct fuel' as [|fuel']; [destruct stream; [done|simpl in Hf'; lia]|].
    cbn [client_loop]. destruct (Nat.ltb_spec (length stream) 16) as [|Hlen]; [done|].
    unfold mbind, M_bind, lift. destruct (parse_header (take 16 stream)) as [h|]; [|done].
    cbv zeta. set (n := Z.to_nat (h_payload_length h)). destruct (_ <? _)%nat; [done|].
    destruct (on_message h (take n (drop 16 stream)) c) as [[u|e] c']; [|done].
    apply IH; rewrite !length_drop; lia.
Qed.

Definition run_client (stream : bytes) (lost : bool) : result unit * Client :=
  client_loop (length stream) stream (initial_client lost).

End RunClient.

(** ** What the client answers *)

Section ClientFacts.
Context {L : CryptoLib} {LL : CryptoLaws L}.
Context (urandom : nat -> nat -> bytes).
Hypothesis urandom_length : forall k len, length (urandom k len) = len.
Context (client_id : Z) (client_private_key client_public_key : bytes).

Definition chunk_elements (c : Client) : nat := Z.to_nat (cl_chunk_size c).

(** The mask of one chunk. *)
Definition chunk_mask (ss : bytes) (round_id chunk_idx : Z) (n : nat) : result (list Z) :=
  seed ← derive_stream_seed ss client_id round_id chunk_idx;
  generate_mask_from_seed true seed (n * 2).

Lemma mask_values_ok n xs ms :
  length xs = n -> length ms = n ->
  mask_values n xs ms = Ok (zip_with (fun x m => (x + m) mod FIELD_MODULUS) xs ms).
Proof.
  intros Hx Hm. unfold mask_values.
  rewrite (map_result_pure _ (fun i => (nth i xs 0 + nth i ms 0) mod FIELD_MODULUS)).
  - f_equal. apply list_eq. intros i. rewrite list_lookup_fmap, lookup_zip_with.
    destruct (decide (i < n)%nat).
    + by rewrite lookup_seq_lt, (nth_lookup_Some' xs i 0), (nth_lookup_Some' ms i 0) by lia.
    + rewrite lookup_seq_ge, (lookup_ge_None_2 xs) by lia. done.
  - intros i Hi%elem_of_seq. unfold list_index.
    by rewrite (nth_lookup_Some' xs i 0), (nth_lookup_Some' ms i 0) by lia.
Qed.

Lemma zip_mod_range xs ms :
  Forall (fun x => 0 <= x < FIELD_MODULUS) (zip_with (fun x m => (x + m) mod FIELD_MODULUS) xs ms).
Proof.
  apply Forall_forall. intros x Hx. apply elem_of_lookup_zip_with in Hx as (?&?&?&->&_&_).
  apply mod_p_range.
Qed.

Lemma field_row_packs n row :
  length row = n -> Forall (fun x => 0 <= x < FIELD_MODULUS) row ->
  exists bs, struct_pack (chunk_format n) row = Ok bs /\ length bs = (2 * n)%nat.
Proof.
  intros Hl Hr. destruct (struct_pack_success (chunk_format n) row) as [bs Hbs].
  - apply Forall2_replicate_l; [done|]. eapply Forall_impl; [exact Hr|].
    intros x Hx. unfold FIELD_MODULUS in Hx. cbn [code_range]. change (2 ^ 15) with 32768. lia.
  - exists bs. split; [done|]. apply struct_pack_ok in Hbs as (_ & -> & _).
    unfold chunk_format. rewrite calcsize_replicate. change (code_size Ch) with 2%nat. lia.
Qed.

(** C33: a client that has a shared secret and a live connection answers a
    request for a chunk of at most 32767 elements, with round and chunk number
    in the range of their header fields and a client id of one byte, with one
    header and payload (and no HMAC tag): the header carries the request's
    round and chunk number, and the payload is accepted by the bridge's
    unpacking and holds, element by element, the random data plus the one mask
    derived from the client's own secret, reduced into the field: subtracting
    the mask gives the data back. *)
Theorem chunk_reply_masked c ss rid idx :
  cl_shared_secret c = Some ss -> connection_lost c = false -> is_byte client_id ->
  0 <= rid < 2 ^ 32 -> 0 <= idx < 65536 -> 0 <= cl_chunk_size c <= 32767 ->
  exists mask plain payload masked header,
    chunk_mask ss rid idx (chunk_elements c) = Ok mask /\
    struct_unpack (chunk_format (chunk_elements c))
      (urandom (cl_random c) (chunk_elements c * 2)) = Ok plain /\
    Wire.build_header MSG_TYPE_MASK_CHUNK rid client_id idx (Z.of_nat (length payload)) = Ok header /\
    struct_unpack (chunk_format (chunk_elements c)) payload = Ok masked /\
    on_chunk_request true urandom client_id rid idx c =
      (Ok tt, add_sent (header ++ payload) (use_random c)) /\
    length masked = chunk_elements c /\
    forall j, (j < chunk_elements c)%nat ->
      0 <= nth j masked 0 < FIELD_MODULUS /\ nth j masked 0 - nth j mask 0 == nth j plain 0.
Proof.
  intros Hss Hlost Hid Hrid Hidx Hcs. set (n := chunk_elements c).
  destruct (derive_ok ss (Stream client_id rid idx)) as (seed & Hseed & Hsl).
  { cbn [purpose_ok]. change (2 ^ 16) with 65536. done. }
  cbn [derive] in Hseed.
  destruct (generate_mask_ok seed n Hsl) as (mask & Hmask & Hml & Hmr).
  destruct (unpack_chunk_ok n (urandom (cl_random c) (n * 2))) as [Hplain Hpl];
    [rewrite urandom_length; lia|].
  set (plain := unpack_fields _ _) in *.
  set (masked := zip_with (fun x m => (x + m) mod FIELD_MODULUS) plain mask).
  assert (Hmkl : length masked = n) by (unfold masked; rewrite length_zip_with; lia).
  destruct (field_row_packs n masked Hmkl (zip_mod_range _ _)) as (payload & Hpack & Hpayl).
  destruct (build_header_ok MSG_TYPE_MASK_CHUNK rid client_id idx (Z.of_nat (length payload)))
    as (header & Hh & _).
  { unfold header_fits, MSG_TYPE_MASK_CHUNK, is_byte in *.
    assert (length payload = 2 * Z.to_nat (cl_chunk_size c))%nat by exact Hpayl. lia. }
  exists mask, plain, payload, masked, header.
  split; [unfold chunk_mask, derive_stream_seed; rewrite Hseed; by run|]. split; [done|].
  split; [done|]. split; [by apply struct_unpack_pack|]. split; [|split; [done|]].
  - unfold on_chunk_request. rewrite (M_bind_ok _ _ _ c c) by done. rewrite Hss.
    fold (chunk_elements c). fold n. unfold derive_stream_seed. rewrite Hseed, lift_ok_bind.
    unfold generate_mask_from_seed. rewrite Hmask, lift_ok_bind.
    unfold draw_random. rewrite (M_bind_ok _ _ _ (urandom (cl_random c) (n * 2)) (use_random c)) by done.
    rewrite Hplain, lift_ok_bind, (mask_values_ok n) by done. fold masked.
    rewrite lift_ok_bind, Hpack, lift_ok_bind.
    unfold Wire.build_header, PROTOCOL_VERSION, MSG_TYPE_MASK_CHUNK in Hh.
    rewrite Hh, lift_ok_bind. unfold send.
    rewrite (M_bind_ok _ _ _ tt (add_sent (header ++ payload) (use_random c))) by done.
    unfold mbind, M_bind, gets. cbn [connection_lost add_sent use_random]. by rewrite Hlost.
  - intros j Hj. assert (Hnth : nth j masked 0 = (nth j plain 0 + nth j mask 0) mod FIELD_MODULUS).
    { assert (masked !! j = Some ((nth j plain 0 + nth j mask 0) mod FIELD_MODULUS)) as E.
      { unfold masked. rewrite lookup_zip_with, (nth_lookup_Some' plain j 0), (nth_lookup_Some' mask j 0) by lia.
        done. }
      rewrite (nth_lookup_Some' masked j 0) in E by lia. by injection E. }
    rewrite Hnth. split; [apply mod_p_range|]. rewrite eqp_mod. apply eqp_of_eq. lia.
Qed.

(** The documented symmetry of the X25519 exchange. *)
Definition exchange_symmetric : Prop :=
  forall a b, x25519_exchange (x25519_generate a) (x25519_public (x25519_generate b)) =
              x25519_exchange (x25519_generate b) (x25519_public (x25519_generate a)).

(** Key agreement with the classical bridge.  When the bridge encapsulates
    to the client's public key and the client handles the ciphertext message,
    the client's session key is the bridge's shared secret; but the client's
    own shared secret, from which it derives its masks, is the raw exchange
    that the session key was derived from. *)
Theorem client_agrees_with_classical_bridge a b ct ss c :
  exchange_symmetric ->
  encapsulate_x25519 b (snd (x25519_keypair a)) = Ok (ct, ss) ->
  exists c' shared,
    on_ciphertext true urandom (fst (x25519_keypair a)) ct c = (Ok tt, c') /\
    cl_session_key c' = Some ss /\ cl_shared_secret c' = Some shared /\
    hkdf_derive [] KDF_LABEL_SESSION_KEY 32 shared = Ok ss /\ cl_sent c' = cl_sent c.
Proof.
  intros Hsym. unfold encapsulate_x25519, x25519_keypair. cbn [fst snd].
  destruct (x25519_exchange (x25519_generate b) _) as [shared|] eqn:E; run; [|done].
  destruct (hkdf_derive [] KDF_LABEL_SESSION_KEY 32 shared) as [k|] eqn:Ek; run; [|done].
  intros Heq. assert (ct = x25519_public (x25519_generate b) /\ k = ss) as [-> ->] by (by injection Heq).
  rewrite <- Hsym in E. exists (set_session_key ss (set_secret shared c)), shared.
  split; [|done]. unfold on_ciphertext. rewrite E, lift_ok_bind.
  rewrite (M_bind_ok _ _ _ tt (set_secret shared c)) by done. by rewrite Ek, lift_ok_bind.
Qed.

End ClientFacts.

(** ** Concrete inputs *)

Definition sample_random (k len : nat) : bytes := replicate len 1.

Definition keyed_client : Client :=
  set_sizes 3 12 (set_secret (replicate 32 7) (initial_client false)).

Lemma toy_exchange_symmetric : @exchange_symmetric toy_crypto.
Proof.
  intros a b. unfold x25519_exchange, x25519_generate, x25519_public, toy_crypto.
  rewrite !length_replicate, !zip_with_replicate. by rewrite Z.add_comm.
Qed.

Lemma chunk_reply_masked_witness :
  exists payload masked header : list Z,
    on_chunk_request true sample_random 1 5 2 keyed_client =
      (Ok tt, add_sent (header ++ payload) (use_random keyed_client)) /\
    struct_unpack (chunk_format 3) payload = Ok masked /\ length masked = 3%nat.
Proof.
  destruct (chunk_reply_masked sample_random ltac:(intros; apply length_replicate) 1
              keyed_client (replicate 32 7) 5 2) as (mask & plain & payload & masked & header & H);
    [done|done|unfold is_byte; lia|lia|lia|cbn; lia|].
  exists payload, masked, header. destruct H as (_ & _ & _ & H1 & H2 & H3 & _).
  exact (conj H2 (conj H1 H3)).
Defined.

Lemma client_agrees_with_classical_bridge_witness :
  exists c' shared ss : _,
    on_ciphertext true sample_random (fst (x25519_keypair 1)) (replicate 32 2) keyed_client = (Ok tt, c') /\
    cl_session_key c' = Some ss /\ cl_shared_secret c' = Some shared /\ ss = replicate 32 3.
Proof.
  destruct (client_agrees_with_classical_bridge sample_random 1 2 (replicate 32 2) (replicate 32 3)
              keyed_client toy_exchange_symmetric) as (c' & shared & H1 & H2 & H3 & _ & _);
    [by vm_compute|].
  exists c', shared, (replicate 32 3). by repeat split.
Defined.
