(* ===== verification/Baselines.v ===== *)
(** * The classical baselines

    experiments/baselines.py: X25519 key agreement, key derivation through the
    library's HKDF, AES-GCM with a detached tag, masks, and the mode switch.
    The Shamir sharing of the same file is [Shamir.Baseline]. *)

From Stdlib Require Import ZArith Lia Ascii.
From stdpp Require Import prelude strings.
From S2P Require Import Prelude PyDict PyBytes Field Sha256 Kdf Crypto Masks.

(** ** Operations *)

Record ClassicalKeyPair : Type := { private_key : bytes; public_key_bytes : bytes }.
Record ClassicalSharedSecret : Type := { agreed_secret : bytes; agreed_session_key : bytes }.

Section Operations.
Context {L : CryptoLib} (CLASSICAL_CRYPTO_AVAILABLE : bool).

(** The n-th key pair of the process. *)
Definition classical_keypair (n : nat) : result ClassicalKeyPair :=
  if CLASSICAL_CRYPTO_AVAILABLE then
    Ok {| private_key := x25519_generate n; public_key_bytes := x25519_public (x25519_generate n) |}
  else Err RuntimeError.

Definition classical_ecdh (private_key peer_public_key : bytes) : result bytes :=
  if CLASSICAL_CRYPTO_AVAILABLE then x25519_exchange private_key peer_public_key else Err RuntimeError.

(** Both are the library's full HKDF, one without [info] and one without salt. *)
Definition hkdf_extract (salt ikm : bytes) : result bytes :=
  hkdf_derive (match salt with [] => zero_bytes 32 | _ => salt end) [] 32 ikm.

Definition hkdf_expand (prk info : bytes) (len : nat) : result bytes :=
  hkdf_derive [] info len prk.

Definition derive_session_key (shared_secret salt info : bytes) : result bytes :=
  prk ← hkdf_extract salt shared_secret;
  hkdf_expand prk (info ++ KDF_LABEL_SESSION_KEY) 32.

Definition derive_pairwise_seed (shared_secret : bytes) (client_a client_b round_id : Z)
    : result bytes :=
  info ← pairwise_info client_a client_b round_id;
  prk ← hkdf_extract [] shared_secret;
  hkdf_expand prk (KDF_LABEL_PAIRWISE_MASK ++ info) 32.

Definition derive_stream_seed (shared_secret : bytes) (client_id round_id chunk_index : Z)
    : result bytes :=
  info ← stream_info client_id round_id chunk_index;
  prk ← hkdf_extract [] shared_secret;
  hkdf_expand prk (KDF_LABEL_STREAM_MASK ++ info) 32.

Definition derive_shamir_secret (shared_secret : bytes) (client_id round_id : Z) : result bytes :=
  info ← shamir_info client_id round_id;
  prk ← hkdf_extract [] shared_secret;
  hkdf_expand prk (KDF_LABEL_SHAMIR_SECRET ++ info) 32.

(** [(ciphertext[:-16], ciphertext[-16:])] *)
Definition split_tag (ciphertext : bytes) : bytes * bytes :=
  (take (length ciphertext - 16) ciphertext, drop (length ciphertext - 16) ciphertext).

Definition aes_gcm_encrypt (key nonce plaintext aad : bytes) : result (bytes * bytes) :=
  if CLASSICAL_CRYPTO_AVAILABLE then
    ciphertext ← aesgcm_encrypt key nonce plaintext aad;
    Ok (split_tag ciphertext)
  else Err RuntimeError.

Definition aes_gcm_decrypt (key nonce ciphertext tag aad : bytes) : result bytes :=
  if CLASSICAL_CRYPTO_AVAILABLE then aesgcm_decrypt key nonce (ciphertext ++ tag) aad
  else Err RuntimeError.

Definition aes_ctr_stream := Masks.aes_ctr_stream CLASSICAL_CRYPTO_AVAILABLE.
Definition generate_mask_from_seed := Masks.generate_mask_from_seed CLASSICAL_CRYPTO_AVAILABLE.

End Operations.

(** ** The mode switch *)

Definition PQC : string := "pqc".
Definition CLASSICAL : string := "classical".

(** [str.lower] on an ASCII string. *)
Definition lower_ascii (c : ascii) : ascii :=
  let n := N_of_ascii c in
  if ((65 <=? n) && (n <=? 90))%N then ascii_of_N (n + 32) else c.

Fixpoint lower (s : string) : string :=
  match s with
  | EmptyString => EmptyString
  | String c s' => String (lower_ascii c) (lower s')
  end.

Section Mode.
Context (environ : list (string * string)).

Definition get_crypto_mode : string := lower (default PQC (dict_get "CRYPTO_MODE" environ)).
Definition is_classical_mode : bool := bool_decide (get_crypto_mode = CLASSICAL).
Definition is_pqc_mode : bool := bool_decide (get_crypto_mode = PQC).
End Mode.

(** ** Facts *)

(** An authenticated cipher: the output is the plaintext's length plus a
    16-byte tag, and decryption inverts encryption. *)
Class AeadLaws (L : CryptoLib) : Prop := {
  aesgcm_length k n p a c : aesgcm_encrypt k n p a = Ok c -> length c = (length p + 16)%nat;
  aesgcm_inverse k n p a c : aesgcm_encrypt k n p a = Ok c -> aesgcm_decrypt k n c a = Ok p;
}.

#[export] Instance toy_aead_laws : AeadLaws toy_crypto.
Proof.
  split; intros k n p a c [= <-]; cbn.
  - rewrite length_app. cbn. lia.
  - rewrite length_app. cbn [length replicate]. by rewrite Nat.add_sub, take_app_length.
Qed.

(** The library's HKDF is RFC 5869, for the lengths RFC 5869 allows. *)
Class HkdfLaw (L : CryptoLib) : Prop :=
  hkdf_is_rfc5869 salt info len ikm :
    (0 < len <= 255 * 32)%nat ->
    hkdf_derive salt info len ikm = Kdf.hkdf_expand (Kdf.hkdf_extract salt ikm) info len.

(** The toy library with a real HKDF. *)
Definition rfc_crypto : CryptoLib := {|
  aes_ctr := @aes_ctr toy_crypto;
  hkdf_derive salt info len ikm := Kdf.hkdf_expand (Kdf.hkdf_extract salt ikm) info len;
  x25519_generate := @x25519_generate toy_crypto;
  x25519_public := @x25519_public toy_crypto;
  x25519_exchange := @x25519_exchange toy_crypto;
  aesgcm_encrypt := @aesgcm_encrypt toy_crypto;
  aesgcm_decrypt := @aesgcm_decrypt toy_crypto;
  oqs_encap_secret := @oqs_encap_secret toy_crypto;
  pq_kem_encapsulate := @pq_kem_encapsulate toy_crypto;
|}.

#[export] Instance rfc_crypto_hkdf_law : HkdfLaw rfc_crypto.
Proof. by intros salt info len ikm _. Qed.

Section Facts.
Context {L : CryptoLib}.

Lemma split_tag_app c : fst (split_tag c) ++ snd (split_tag c) = c.
Proof. apply take_drop. Qed.

(** What [aes_gcm_encrypt] returns has a ciphertext of the plaintext's
    length and a 16-byte tag, and [aes_gcm_decrypt] on the two parts gives the
    plaintext back; without the library both raise [RuntimeError]. *)
Theorem aes_gcm_roundtrip {AL : AeadLaws L} available k n p a c t :
  aes_gcm_encrypt available k n p a = Ok (c, t) ->
  available = true /\ length c = length p /\ length t = 16%nat /\
  aes_gcm_decrypt available k n c t a = Ok p.
Proof.
  unfold aes_gcm_encrypt, aes_gcm_decrypt. destruct available; [|done].
  destruct (aesgcm_encrypt k n p a) as [ct|] eqn:E; run; [|done]. intros [= <- <-].
  pose proof (aesgcm_length _ _ _ _ _ E). split; [done|].
  rewrite length_take, length_drop, take_drop. split; [lia|]. split; [lia|].
  by apply aesgcm_inverse.
Qed.

(** One derivation of this file, by purpose. *)
Definition derive (shared_secret : bytes) (p : purpose) : result bytes :=
  match p with
  | Pairwise a b r => derive_pairwise_seed shared_secret a b r
  | Stream c r k => derive_stream_seed shared_secret c r k
  | ShamirSecret c r => derive_shamir_secret shared_secret c r
  end.

(** What the extra derivation inside [hkdf_extract] gives. *)
Definition extracted (salt shared_secret : bytes) : bytes :=
  take 32 (hkdf_stream (Kdf.hkdf_extract salt shared_secret) [] 1).

Lemma extract_eq {HL : HkdfLaw L} salt ss : hkdf_extract salt ss = Ok (extracted salt ss).
Proof.
  unfold hkdf_extract. rewrite hkdf_is_rfc5869 by lia. rewrite hkdf_expand_eq.
  by destruct salt.
Qed.

(** The library's HKDF already extracts and expands, so these derivations
    run it twice: each is the bridge's derivation for the same purpose, errors
    included, but from another secret, the first 32 bytes of HKDF output for
    the shared secret; the session key likewise. *)
Theorem derivations_run_hkdf_twice {HL : HkdfLaw L} ss :
  length (extracted [] ss) = 32%nat /\
  (forall p, derive ss p = Kdf.derive (extracted [] ss) p) /\
  (forall salt info, derive_session_key ss salt info =
     Kdf.hkdf_expand (Kdf.hkdf_extract [] (extracted salt ss)) (info ++ KDF_LABEL_SESSION_KEY) 32).
Proof.
  split; [unfold extracted; by rewrite length_take, hkdf_stream_length|]. split.
  - intros p.
    destruct p; cbn [derive Kdf.derive];
      unfold derive_pairwise_seed, derive_stream_seed, derive_shamir_secret,
        derive_pairwise_mask_seed, derive_stream_mask_seed, Kdf.derive_shamir_secret;
      rewrite extract_eq;
      [destruct (pairwise_info _ _ _)|destruct (stream_info _ _ _)|destruct (shamir_info _ _)];
      run; try done; unfold hkdf_expand; by rewrite hkdf_is_rfc5869 by lia.
  - intros salt info. unfold derive_session_key. rewrite extract_eq. run.
    unfold hkdf_expand. by rewrite hkdf_is_rfc5869 by lia.
Qed.

End Facts.

Lemma aes_gcm_roundtrip_witness :
  aes_gcm_encrypt true [1] [2] [3; 4; 5] [] = Ok ([3; 4; 5], replicate 16 0) /\
  aes_gcm_decrypt true [1] [2] [3; 4; 5] (replicate 16 0) [] = Ok [3; 4; 5].
Proof.
  split; [by vm_compute|].
  apply (aes_gcm_roundtrip true [1] [2] [3; 4; 5] [] [3; 4; 5] (replicate 16 0)). by vm_compute.
Defined.

(** The two derivations really differ. *)
Definition sample_secret : bytes := replicate 32 7.

Lemma derivations_run_hkdf_twice_witness :
  @derive rfc_crypto sample_secret (Stream 1 2 3) =
    Kdf.derive (extracted [] sample_secret) (Stream 1 2 3) /\
  bool_decide (@derive rfc_crypto sample_secret (Stream 1 2 3) =
               Kdf.derive sample_secret (Stream 1 2 3)) = false.
Proof.
  split; [|vm_compute; reflexivity].
  exact (proj1 (proj2 (derivations_run_hkdf_twice (L := rfc_crypto) sample_secret)) (Stream 1 2 3)).
Defined.
