(* ===== verification/Flower.v ===== *)
(** * The Flower strategy

    host_server/flower_server.py: [ChunkedFedAvg], which cuts a model into
    chunks, averages the clients' chunks in the field and puts the model back
    together.

    numpy and Flower are not in the repository.  [FlowerLib] holds what the
    class calls and [FlowerLaws] what it relies on: the conversion of a list of
    arrays to one flat sequence of 16-bit integers, the conversion of such an
    integer back to an array's type, and the serialisation of parameters. *)

From Stdlib Require Import ZArith Lia.
From stdpp Require Import prelude.
From S2P Require Import Prelude PyDict PyBytes Field Lagrange Masks Wire State Aggregate FedAvg.
#[local] Open Scope gf_scope.

(** ** numpy and Flower *)

(** An array's shape, element type, and elements in row-major order. *)
Record ndarray (D E : Type) : Type := { shape : list nat; array_dtype : D; elements : list E }.
Arguments shape {D E} _.
Arguments array_dtype {D E} _.
Arguments elements {D E} _.

(** [arr.size] *)
Definition size {D E} (a : ndarray D E) : nat := foldr Nat.mul 1%nat (shape a).

Class FlowerLib := {
  dtype : Type;
  element : Type;
  params : Type;
  (** [np.concatenate([arr.flatten() for arr in ndarrays]).astype(np.int16)] *)
  flat_int16 : list (ndarray dtype element) -> result (list Z);
  (** [astype(ref.dtype)] on one 16-bit integer. *)
  cast_int16 : dtype -> Z -> element;
  parameters_to_ndarrays : params -> list (ndarray dtype element);
  ndarrays_to_parameters : list (ndarray dtype element) -> params;
}.

Definition is_int16 (v : Z) : Prop := -32768 <= v < 32768.

Class FlowerLaws (F : FlowerLib) := {
  (** A type that holds every 16-bit integer exactly. *)
  holds_int16 : dtype -> Prop;
  flat_int16_int16 arrs l : flat_int16 arrs = Ok l -> Forall is_int16 l;
  flat_int16_length arrs l : flat_int16 arrs = Ok l -> length l = sum_list (size <$> arrs);
  (** Arrays of such types whose elements are 16-bit integers are converted
      exactly, one array after the other. *)
  flat_int16_exact (arrs : list (ndarray dtype element)) (ints : list (list Z)) :
    arrs <> [] ->
    Forall2 (fun a l => holds_int16 (array_dtype a) /\ Forall is_int16 l /\
                        elements a = cast_int16 (array_dtype a) <$> l /\
                        length (elements a) = size a) arrs ints ->
    flat_int16 arrs = Ok (concat ints);
}.

Section Strategy.
Context {F : FlowerLib}.
Abbreviation array := (ndarray dtype element).

(** The type of what [process_chunked_update] stores. *)
Context {U : Type}.

(** The attributes of the strategy object.  [modulus] is 3329 unless the
    caller says otherwise; the chunk size is not negative. *)
Record Strategy : Type := {
  s_chunk_size : nat;
  s_modulus : Z;
  s_bridge : Net;
  s_current_round : Z;
  s_client_samples : list (Z * Z);
  s_client_chunks : list (Z * list (Z * list (Z * U)));
  s_expected_chunks : list (Z * Z);
}.

(** [ChunkedFedAvg.__init__] *)
Definition new_strategy (chunk_size : nat) (modulus : Z) (bridge : Net) : Strategy := {|
  s_chunk_size := chunk_size; s_modulus := modulus; s_bridge := bridge; s_current_round := 0;
  s_client_samples := []; s_client_chunks := []; s_expected_chunks := [] |}.

Definition set_bridge (v : Net) (s : Strategy) : Strategy :=
  let 'Build_Strategy cs m _ r sm ch e := s in Build_Strategy cs m v r sm ch e.
Definition set_samples (v : list (Z * Z)) (s : Strategy) : Strategy :=
  let 'Build_Strategy cs m b r _ ch e := s in Build_Strategy cs m b r v ch e.
Definition set_chunks (v : list (Z * list (Z * list (Z * U)))) (s : Strategy) : Strategy :=
  let 'Build_Strategy cs m b r sm _ e := s in Build_Strategy cs m b r sm v e.
Definition set_expected (v : list (Z * Z)) (s : Strategy) : Strategy :=
  let 'Build_Strategy cs m b r sm ch _ := s in Build_Strategy cs m b r sm ch v.
Definition reset_round (server_round : Z) (s : Strategy) : Strategy :=
  let 'Build_Strategy cs m b _ _ _ _ := s in Build_Strategy cs m b server_round [] [] [].

(** [configure_fit]: forget the previous round, then what the framework does. *)
Definition configure_fit {R} (super_configure_fit : Z -> result R) (server_round : Z) : M Strategy R :=
  _ ← modify (reset_round server_round);
  lift (super_configure_fit server_round).

(** ** Models and chunks *)

(** [flat[start:end]], zero-padded to the chunk size. *)
Definition chunk_row (chunk_elements : nat) (flat : list Z) (i : Z) : list Z :=
  let start := (Z.to_nat i * chunk_elements)%nat in
  let stop := Nat.min (start + chunk_elements) (length flat) in
  let chunk_data := take (stop - start) (drop start flat) in
  chunk_data ++ replicate (chunk_elements - length chunk_data) 0.

Definition count_chunks (chunk_elements total_elements : nat) : result Z :=
  if (chunk_elements =? 0)%nat then Err ZeroDivisionError
  else Ok (Z.of_nat ((total_elements + chunk_elements - 1) / chunk_elements)).

Definition model_to_chunks (chunk_elements : nat) (ndarrays : list array) : result (list (Z * bytes)) :=
  flat ← flat_int16 ndarrays;
  num_chunks ← count_chunks chunk_elements (length flat);
  fold_result
    (fun chunks i =>
       chunk_bytes ← struct_pack (chunk_format chunk_elements) (chunk_row chunk_elements flat i);
       Ok (dict_set i chunk_bytes chunks))
    (range num_chunks) [].

(** The values of all chunks, in the order of their numbers. *)
Definition all_elements (chunk_elements : nat) (chunks : list (Z * bytes)) : result (list Z) :=
  fold_result
    (fun acc i =>
       match dict_get i chunks with
       | Some d => values ← struct_unpack (chunk_format chunk_elements) d; Ok (acc ++ values)
       | None => Ok acc
       end)
    (range (Z.of_nat (length chunks))) [].

(** [flat[offset:offset+size].reshape(ref.shape).astype(ref.dtype)], array by
    array: [reshape] raises when elements are missing. *)
Fixpoint restore_arrays (flat : list Z) (reference_ndarrays : list array) : result (list array) :=
  match reference_ndarrays with
  | [] => Ok []
  | ref :: refs =>
      let slice := take (size ref) flat in
      if (length slice =? size ref)%nat then
        rest ← restore_arrays (drop (size ref) flat) refs;
        Ok ({| shape := shape ref; array_dtype := array_dtype ref;
               elements := cast_int16 (array_dtype ref) <$> slice |} :: rest)
      else Err ValueError
  end.

Definition chunks_to_model (chunk_elements : nat) (chunks : list (Z * bytes))
    (reference_ndarrays : list array) : result (list array) :=
  flat ← all_elements chunk_elements chunks;
  restore_arrays flat reference_ndarrays.

(** ** The round *)

(** [for writer in self.bridge.client_writers.values()]: write and drain. *)
Definition send_to (data : bytes) (writer : Z) : M Strategy unit :=
  _ ← modify (fun s => set_bridge (log_write writer data (s_bridge s)) s);
  s ← gets (fun s => s);
  if bool_decide (writer ∈ lost (s_bridge s)) then raise ConnectionResetError else skip.

Definition send_round_init (num_clients num_chunks : Z) : M Strategy unit :=
  s ← gets (fun s => s);
  payload ← lift (round_init_payload num_clients (Z.of_nat (s_chunk_size s)) num_chunks);
  header ← lift (build_header MSG_TYPE_ROUND_INIT (s_current_round s) 0 0 (Z.of_nat (length payload)));
  for_each (dict_values (client_writers (s_bridge s))) (send_to (header ++ payload)).

(** One client's chunk: [row[j] = (row[j] + val * weight) % self.modulus]. *)
Fixpoint accumulate_mod (modulus w : Z) (row values : list Z) : result (list Z) :=
  match values, row with
  | [], _ => Ok row
  | _ :: _, [] => Err IndexError
  | v :: vs, x :: xs => rest ← accumulate_mod modulus w xs vs; Ok ((x + v * w) mod modulus :: rest)
  end.

Definition add_chunk (chunk_elements : nat) (modulus w : Z) (aggregated : chunks) (p : Z * bytes)
    : result chunks :=
  values ← struct_unpack (chunk_format chunk_elements) (snd p);
  row ← dict_index (fst p) aggregated;
  row' ← accumulate_mod modulus w row values;
  Ok (dict_set (fst p) row' aggregated).

(** A result of the fit: the number of examples and the parameters. *)
Definition add_result (chunk_elements : nat) (modulus : Z) (aggregated : chunks) (fit_res : Z * params)
    : result chunks :=
  client_chunks ← model_to_chunks chunk_elements (parameters_to_ndarrays (snd fit_res));
  fold_result (add_chunk chunk_elements modulus (fst fit_res)) client_chunks aggregated.

Definition scale_by_total (modulus total_weight : Z) (aggregated : chunks) : chunks :=
  if 0 <? total_weight
  then let inv_total := py_pow total_weight (modulus - 2) modulus in
       map (fun p : Z * list Z => (fst p, map (fun x => (x * inv_total) mod modulus) (snd p))) aggregated
  else aggregated.

(** [self.client_samples[fit_res.num_examples] = fit_res.num_examples] *)
Definition record_samples (results : list (Z * params)) (samples : list (Z * Z)) : list (Z * Z) :=
  fold_left (fun d (r : Z * params) => dict_set (fst r) (fst r) d) results samples.

Definition pack_chunks (chunk_elements : nat) (aggregated : chunks) : result (list (Z * bytes)) :=
  map_result (fun p : Z * list Z => d ← struct_pack (chunk_format chunk_elements) (snd p); Ok (fst p, d))
    aggregated.

(** Everything after the announcement of the round. *)
Definition aggregate_results (s : Strategy) (results : list (Z * params)) (reference : list array)
    (num_chunks : Z) : result params :=
  let chunk_elements := s_chunk_size s in
  aggregated ← fold_result (add_result chunk_elements (s_modulus s)) results
                 (zero_chunks num_chunks chunk_elements);
  let total_weight := foldr Z.add 0 (dict_values (s_client_samples s)) in
  packed ← pack_chunks chunk_elements (scale_by_total (s_modulus s) total_weight aggregated);
  arrays ← chunks_to_model chunk_elements packed reference;
  Ok (ndarrays_to_parameters arrays).

(** [aggregate_fit] from the first result on.  The result is the aggregated
    parameters and the number of clients, the one entry of the metrics. *)
Definition aggregate_round (first_result : Z * params) (results : list (Z * params))
    : M Strategy (option (params * Z)) :=
  _ ← modify (fun s => set_samples (record_samples results (s_client_samples s)) s);
  s ← gets (fun s => s);
  let reference := parameters_to_ndarrays (snd first_result) in
  model_chunks ← lift (model_to_chunks (s_chunk_size s) reference);
  let num_chunks := Z.of_nat (length model_chunks) in
  _ ← modify (fun s => set_expected
                ((fun cid => (cid, num_chunks)) <$> dict_keys (s_client_samples s)) s);
  _ ← send_round_init (Z.of_nat (length results)) num_chunks;
  s ← gets (fun s => s);
  aggregated ← lift (aggregate_results s results reference num_chunks);
  mret (Some (aggregated, Z.of_nat (length results))).

Definition aggregate_fit (results : list (Z * params)) : M Strategy (option (params * Z)) :=
  match results with
  | [] => mret None
  | first_result :: _ => aggregate_round first_result results
  end.

(** Stores one chunk and tells whether the client has sent as many chunks as
    are expected of it. *)
Definition process_chunked_update (round_id client_id chunk_index : Z) (chunk_data : U)
    : M Strategy bool :=
  s ← gets (fun s => s);
  let of_round := default [] (dict_get round_id (s_client_chunks s)) in
  let of_client := dict_set chunk_index chunk_data (default [] (dict_get client_id of_round)) in
  _ ← modify (set_chunks (dict_set round_id (dict_set client_id of_client of_round) (s_client_chunks s)));
  mret (Z.of_nat (length of_client) =? default 0 (dict_get client_id (s_expected_chunks s))).

(** Both branches return None. *)
Definition get_aggregated_model (round_id : Z) (s : Strategy) : option params := None.

End Strategy.
Arguments Strategy : clear implicits.

(** ** Rows *)

Section Rows.
Context (ce : nat).

Lemma int16_row_packs row :
  length row = ce -> Forall is_int16 row -> exists d, struct_pack (chunk_format ce) row = Ok d.
Proof.
  intros Hl Hr. apply struct_pack_success, Forall2_replicate_l; [done|].
  eapply Forall_impl; [exact Hr|]. intros v Hv. cbn [code_range].
  change (2 ^ 15) with 32768. unfold is_int16 in Hv. lia.
Qed.

(** The bytes of a row of 16-bit integers. *)
Definition row_bytes (row : list Z) : bytes :=
  match struct_pack (chunk_format ce) row with Ok d => d | Err _ => [] end.

Lemma row_bytes_ok row :
  length row = ce -> Forall is_int16 row ->
  struct_pack (chunk_format ce) row = Ok (row_bytes row) /\
  struct_unpack (chunk_format ce) (row_bytes row) = Ok row.
Proof.
  intros Hl Hr. destruct (int16_row_packs row Hl Hr) as [d Hd]. unfold row_bytes. rewrite Hd.
  split; [done|by apply struct_unpack_pack].
Qed.

(** The i-th row of a sequence [h] laid out row by row. *)
Definition row_of (h : nat -> Z) (i : nat) : list Z := (fun j => h (i * ce + j)%nat) <$> seq 0 ce.

Lemma row_of_length h i : length (row_of h i) = ce.
Proof. unfold row_of. by rewrite length_fmap, length_seq. Qed.

Lemma row_of_Forall (P : Z -> Prop) h i : (forall e, P (h e)) -> Forall P (row_of h i).
Proof. intros H. apply Forall_fmap, Forall_forall. intros j _. apply H. Qed.

Lemma concat_rows h n : concat (row_of h <$> seq 0 n) = h <$> seq 0 (n * ce).
Proof.
  induction n as [|n IH]; [done|].
  rewrite seq_S, fmap_app, concat_app, IH. cbn [fmap list_fmap concat]. rewrite app_nil_r.
  replace (S n * ce)%nat with (n * ce + ce)%nat by lia. rewrite seq_app, fmap_app. f_equal.
  unfold row_of. replace (seq (0 + n * ce) ce) with (Nat.add (n * ce) <$> seq 0 ce)
    by (rewrite fmap_add_seq; f_equal; lia). by rewrite <- list_fmap_compose.
Qed.

Lemma chunk_row_eq flat i :
  0 <= i -> chunk_row ce flat i = row_of (fun e => nth e flat 0) (Z.to_nat i).
Proof.
  intros Hi. unfold chunk_row. set (start := (Z.to_nat i * ce)%nat).
  assert (take (Nat.min (start + ce) (length flat) - start) (drop start flat) =
          take ce (drop start flat)) as ->.
  { destruct (decide (start + ce <= length flat)%nat).
    - f_equal. lia.
    - rewrite !take_ge; rewrite ?length_drop; lia || done. }
  apply list_eq. intros j. unfold row_of. rewrite list_lookup_fmap.
  assert (Hl : length (take ce (drop start flat)) = Nat.min ce (length flat - start))
    by (by rewrite length_take, length_drop).
  destruct (decide (j < ce)%nat) as [Hj|Hj].
  - rewrite lookup_seq_lt by done. simpl.
    destruct (decide (j < length flat - start)%nat) as [Hin|Hout].
    + rewrite lookup_app_l by lia. rewrite lookup_take_lt, lookup_drop by done.
      by rewrite (nth_lookup_Some' _ _ 0) by lia.
    + rewrite lookup_app_r by lia. rewrite lookup_replicate_2 by lia.
      rewrite nth_overflow by (unfold start in *; lia). done.
  - rewrite lookup_seq_ge by lia. apply lookup_ge_None_2.
    rewrite length_app, Hl, length_replicate. lia.
Qed.

(** [d] chunks holding the rows of [h]. *)
Definition chunks_of (h : nat -> Z) (n : nat) : list (Z * bytes) :=
  (fun i => (i, row_bytes (row_of h (Z.to_nat i)))) <$> range (Z.of_nat n).

Lemma chunks_of_length h n : length (chunks_of h n) = n.
Proof. unfold chunks_of, range. rewrite !length_fmap, length_seq. lia. Qed.

Lemma chunks_of_keys h n : dict_keys (chunks_of h n) = range (Z.of_nat n).
Proof. unfold chunks_of, dict_keys. rewrite <- list_fmap_compose. apply list_fmap_id. Qed.

Lemma chunks_of_get h n i :
  (i < n)%nat -> dict_get (Z.of_nat i) (chunks_of h n) = Some (row_bytes (row_of h i)).
Proof.
  intros Hi. unfold chunks_of.
  rewrite (dict_get_fmap (fun i => row_bytes (row_of h (Z.to_nat i)))) by (apply elem_of_range; lia).
  by rewrite Nat2Z.id.
Qed.

Lemma all_elements_eq h n :
  (forall e, is_int16 (h e)) -> all_elements ce (chunks_of h n) = Ok (h <$> seq 0 (n * ce)).
Proof.
  intros Hh. unfold all_elements. rewrite chunks_of_length, <- concat_rows. unfold range.
  rewrite Nat2Z.id.
  enough (forall l acc, (forall i, i ∈ l -> (i < n)%nat) ->
    fold_result
      (fun acc i => match dict_get i (chunks_of h n) with
                    | Some d => values ← struct_unpack (chunk_format ce) d; Ok (acc ++ values)
                    | None => Ok acc
                    end) (Z.of_nat <$> l) acc = Ok (acc ++ concat (row_of h <$> l))) as G.
  { rewrite G; [done|]. intros i Hi%elem_of_seq. lia. }
  induction l as [|i l IH]; intros acc Hl; cbn [fmap list_fmap fold_result concat].
  - by rewrite app_nil_r.
  - rewrite chunks_of_get by (apply Hl; left). destruct (row_bytes_ok (row_of h i)) as [_ ->];
      [apply row_of_length|by apply row_of_Forall|].
    run. rewrite IH by (intros; apply Hl; by right). by rewrite <- app_assoc.
Qed.

(** The number of chunks of a model. *)
Definition chunk_count_of (total : nat) : nat := ((total + ce - 1) / ce)%nat.

Lemma chunk_count_covers total : (0 < ce)%nat -> (total <= chunk_count_of total * ce)%nat.
Proof.
  intros Hce. unfold chunk_count_of. pose proof (Nat.div_mod_eq (total + ce - 1) ce).
  pose proof (Nat.mod_upper_bound (total + ce - 1) ce). lia.
Qed.

Lemma nth_int16 flat e : Forall is_int16 flat -> is_int16 (nth e flat 0).
Proof.
  intros H. destruct (nth_in_or_default e flat 0) as [Hin| ->]; [|unfold is_int16; lia].
  apply (proj1 (Forall_forall _ _) H). by apply list_elem_of_In.
Qed.

Lemma model_to_chunks_eq {F : FlowerLib} {FL : FlowerLaws F} arrs flat :
  (0 < ce)%nat -> flat_int16 arrs = Ok flat ->
  model_to_chunks ce arrs = Ok (chunks_of (fun e => nth e flat 0) (chunk_count_of (length flat))).
Proof.
  intros Hce Hf. unfold model_to_chunks. rewrite Hf. run. unfold count_chunks.
  destruct (Nat.eqb_spec ce 0); [lia|]. run.
  rewrite (fold_dict_set (fun i : Z => i)
             (fun i => struct_pack (chunk_format ce) (chunk_row ce flat i))
             (fun i => row_bytes (row_of (fun e => nth e flat 0) (Z.to_nat i)))).
  - done.
  - intros i Hi%elem_of_range. rewrite chunk_row_eq by lia.
    apply row_bytes_ok; [apply row_of_length|]. apply row_of_Forall. intros e.
    eapply nth_int16, flat_int16_int16, Hf.
  - rewrite list_fmap_id. apply range_NoDup.
  - set_solver.
Qed.

End Rows.

(** ** Restoring arrays *)

Section Aggregation.
Context {F : FlowerLib} {FL : FlowerLaws F} {U : Type}.
Abbreviation array := (ndarray dtype element).

Definition total_size (arrs : list array) : nat := sum_list (size <$> arrs).

Lemma restore_arrays_prefix l pad (refs : list array) :
  (total_size refs <= length l)%nat -> restore_arrays (l ++ pad) refs = restore_arrays l refs.
Proof.
  revert l. induction refs as [|ref refs IH]; intros l Hl; [done|].
  assert (size ref + total_size refs <= length l)%nat as Hsum by exact Hl.
  cbn [restore_arrays]. rewrite take_app_le, drop_app_le by lia.
  by rewrite IH by (rewrite length_drop; lia).
Qed.

Lemma restore_arrays_ok l (refs : list array) :
  (total_size refs <= length l)%nat -> exists out, restore_arrays l refs = Ok out.
Proof.
  revert l. induction refs as [|ref refs IH]; intros l Hl; [by eexists|].
  assert (size ref + total_size refs <= length l)%nat as Hsum by exact Hl.
  cbn [restore_arrays]. rewrite length_take, Nat.min_l, Nat.eqb_refl by lia.
  destruct (IH (drop (size ref) l)) as [out ->]; [rewrite length_drop; lia|]. run. by eexists.
Qed.

(** An array of a type that holds 16-bit integers, with the integers [l]. *)
Definition holds (a : array) (l : list Z) : Prop :=
  holds_int16 (array_dtype a) /\ Forall is_int16 l /\
  elements a = cast_int16 (array_dtype a) <$> l /\ length (elements a) = size a.

Lemma restore_arrays_exact arrs ints :
  Forall2 holds arrs ints -> restore_arrays (concat ints) arrs = Ok arrs.
Proof.
  induction 1 as [|a l arrs ints (_ & _ & He & Hl) Hrest IH]; [done|].
  assert (length l = size a) as Hla by (by rewrite <- Hl, He, length_fmap).
  cbn [restore_arrays concat]. rewrite <- Hla, take_app_length, drop_app_length, Nat.eqb_refl, IH.
  run. do 2 f_equal. destruct a. simpl in *. by rewrite He.
Qed.

(** C27: a model of 16-bit integers survives the conversion to chunks and back,
    whatever its arrays' shapes and types that hold such integers, and whether
    or not the chunk size divides its size. *)
Theorem model_chunks_roundtrip ce arrs ints :
  (0 < ce)%nat -> arrs <> [] -> Forall2 holds arrs ints ->
  exists chunks, model_to_chunks ce arrs = Ok chunks /\
    length chunks = ((length (concat ints) + ce - 1) / ce)%nat /\
    chunks_to_model ce chunks arrs = Ok arrs.
Proof.
  intros Hce Hne Hall.
  assert (flat_int16 arrs = Ok (concat ints)) as Hflat.
  { by apply flat_int16_exact. }
  eexists. split; [by apply model_to_chunks_eq|]. split; [apply chunks_of_length|].
  unfold chunks_to_model. set (h := fun e => nth e (concat ints) 0).
  set (n := chunk_count_of ce (length (concat ints))).
  rewrite all_elements_eq by (intros e; eapply nth_int16, flat_int16_int16, Hflat). run.
  pose proof (chunk_count_covers ce (length (concat ints)) Hce) as Hcov. fold n in Hcov.
  replace (n * ce)%nat with (length (concat ints) + (n * ce - length (concat ints)))%nat by lia.
  assert (h <$> seq 0 (length (concat ints)) = concat ints) as Hid.
  { apply list_eq. intros i. rewrite list_lookup_fmap. unfold h.
    destruct (decide (i < length (concat ints))%nat).
    - by rewrite lookup_seq_lt, (nth_lookup_Some' _ _ 0) by lia.
    - rewrite lookup_seq_ge, lookup_ge_None_2 by lia. done. }
  rewrite seq_app, fmap_app, Hid, restore_arrays_prefix; [by apply restore_arrays_exact|].
  rewrite (flat_int16_length _ _ Hflat). done.
Qed.

(** ** Averaging *)

Lemma accumulate_mod_field w row values :
  accumulate_mod FIELD_MODULUS w row values = accumulate w row values.
Proof.
  revert row. induction values as [|v vs IH]; intros [|x xs]; simpl; try done. by rewrite IH.
Qed.

Lemma chunks_of_elem ce h n i d :
  (forall e, is_int16 (h e)) -> (i, d) ∈ chunks_of ce h n ->
  0 <= i < Z.of_nat n /\ length d = (2 * ce)%nat.
Proof.
  intros Hh Hin. unfold chunks_of in Hin. apply list_elem_of_fmap in Hin as (i' & Heq & Hi).
  assert (i = i' /\ d = row_bytes ce (row_of ce h (Z.to_nat i'))) as [-> ->] by (by injection Heq).
  apply elem_of_range in Hi. split; [done|].
  destruct (row_bytes_ok ce (row_of ce h (Z.to_nat i'))) as [Hp _];
    [apply row_of_length|by apply row_of_Forall|].
  apply struct_pack_ok in Hp as (_ & -> & _). unfold chunk_format. rewrite calcsize_replicate.
  change (code_size Ch) with 2%nat. lia.
Qed.

Lemma chunks_of_value ce h n i j :
  (forall e, is_int16 (h e)) -> 0 <= i < Z.of_nat n -> (j < ce)%nat ->
  raw_value ce (chunks_of ce h n) i j = h (Z.to_nat i * ce + j)%nat.
Proof.
  intros Hh Hi Hj. unfold raw_value. rewrite <- (Z2Nat.id i) at 1 by lia.
  rewrite chunks_of_get by lia.
  destruct (row_bytes_ok ce (row_of ce h (Z.to_nat i))) as [_ Hu];
    [apply row_of_length|by apply row_of_Forall|].
  unfold struct_unpack in Hu. case_decide as Hd; [|done].
  assert (unpack_fields (chunk_format ce) (row_bytes ce (row_of ce h (Z.to_nat i))) =
          row_of ce h (Z.to_nat i)) as -> by (by injection Hu).
  apply nth_lookup_Some with (d := 0). unfold row_of. rewrite list_lookup_fmap, lookup_seq_lt by done.
  done.
Qed.

(** The chunks holding the rows of [h], reduced into the field. *)
Definition field_chunks (ce n : nat) (h : nat -> Z) : chunks :=
  spec_chunks (Z.of_nat n) ce (fun i j => h (Z.to_nat i * ce + j)%nat).

Lemma field_chunks_ext ce n g h : (forall e, g e == h e) -> field_chunks ce n g = field_chunks ce n h.
Proof. intros H. apply spec_chunks_ext. auto. Qed.

Lemma add_result_eq ce n w p flat g :
  (0 < ce)%nat -> flat_int16 (parameters_to_ndarrays p) = Ok flat -> chunk_count_of ce (length flat) = n ->
  add_result ce FIELD_MODULUS (field_chunks ce n g) (w, p) =
  Ok (field_chunks ce n (fun e => g e + w * nth e flat 0)).
Proof.
  intros Hce Hf <-. unfold add_result. cbn [fst snd]. rewrite (model_to_chunks_eq ce _ flat) by done. run.
  assert (forall e, is_int16 (nth e flat 0)) as Hh by (intros e; eapply nth_int16, flat_int16_int16, Hf).
  set (n := chunk_count_of ce (length flat)).
  transitivity (fold_result
    (fun acc (p : Z * bytes) =>
       values ← struct_unpack (chunk_format ce) (snd p); accumulate_chunk w (fst p) values acc)
    (chunks_of ce (fun e => nth e flat 0) n) (field_chunks ce n g)).
  { apply fold_result_ext. intros acc [i d]. unfold add_chunk, accumulate_chunk. cbn [fst snd].
    destruct (struct_unpack _ d) as [vs|]; run; [|done].
    destruct (dict_index i acc) as [row|]; run; [|done]. by rewrite accumulate_mod_field. }
  unfold field_chunks. rewrite head_add_chunks.
  - f_equal. apply spec_chunks_ext. intros i j Hi Hj. apply eqp_of_eq. by rewrite chunks_of_value.
  - rewrite chunks_of_keys. apply range_NoDup.
  - intros s d. by apply chunks_of_elem.
Qed.

Context (flat : params -> list Z).

(** The weighted sum of the results' e-th elements. *)
Definition weighted_sum (results : list (Z * params)) (e : nat) : Z :=
  gsum (fun r => fst r * nth e (flat (snd r)) 0) results.

Lemma add_results_eq ce n results g :
  (0 < ce)%nat ->
  (forall r, r ∈ results -> flat_int16 (parameters_to_ndarrays (snd r)) = Ok (flat (snd r)) /\
                            chunk_count_of ce (length (flat (snd r))) = n) ->
  fold_result (add_result ce FIELD_MODULUS) results (field_chunks ce n g) =
  Ok (field_chunks ce n (fun e => g e + weighted_sum results e)).
Proof.
  intros Hce. revert g. induction results as [|[w p] results IH]; intros g Hall; cbn [fold_result].
  - f_equal. apply field_chunks_ext. intros e. apply eqp_of_eq. simpl. lia.
  - destruct (Hall (w, p) ltac:(left)) as [Hf Hn]. cbn [snd] in Hf, Hn.
    rewrite (add_result_eq ce n w p (flat p)) by done. run.
    rewrite IH by (intros r Hr; apply Hall; by right). f_equal. apply field_chunks_ext.
    intros e. apply eqp_of_eq. simpl. lia.
Qed.

Lemma scale_field_chunks ce n total h :
  0 < total ->
  scale_by_total FIELD_MODULUS total (field_chunks ce n h) =
  field_chunks ce n (fun e => divp (h e) total).
Proof.
  intros Ht. unfold scale_by_total. rewrite (proj2 (Z.ltb_lt _ _) Ht).
  change (py_pow total (FIELD_MODULUS - 2) FIELD_MODULUS) with (invp total).
  unfold field_chunks, spec_chunks. change @map with (fun A B f l => @fmap list _ A B f l). cbn beta.
  rewrite <- list_fmap_compose. apply list_fmap_ext. intros _ i _. unfold compose. cbn [fst snd]. f_equal.
  unfold spec_row. rewrite <- list_fmap_compose. apply list_fmap_ext. intros _ j _. unfold compose.
  by rewrite Zmult_mod_idemp_l.
Qed.

Lemma pack_field_chunks ce n h :
  pack_chunks ce (field_chunks ce n h) = Ok (chunks_of ce (fun e => h e mod FIELD_MODULUS) n).
Proof.
  unfold pack_chunks, field_chunks, spec_chunks. rewrite map_result_fmap. unfold chunks_of.
  apply map_result_pure. intros i Hi%elem_of_range. cbn [fst snd].
  change (spec_row ce (fun j => h (Z.to_nat i * ce + j)%nat)) with
    (row_of ce (fun e => h e mod FIELD_MODULUS) (Z.to_nat i)).
  destruct (row_bytes_ok ce (row_of ce (fun e => h e mod FIELD_MODULUS) (Z.to_nat i))) as [-> _].
  - apply row_of_length.
  - apply row_of_Forall. intros e. pose proof (mod_p_range (h e)). unfold is_int16, FIELD_MODULUS in *. lia.
  - done.
Qed.

(** ** The announcement *)

Lemma send_to_all data ws (s : Strategy U) :
  lost (s_bridge s) = [] ->
  for_each ws (send_to data) s =
  (Ok tt, set_bridge (fold_left (fun n w => log_write w data n) ws (s_bridge s)) s).
Proof.
  revert s. induction ws as [|w ws IH]; intros s Hl; [by destruct s|].
  cbn [for_each fold_left].
  set (s1 := set_bridge (log_write w data (s_bridge s)) s).
  assert (lost (s_bridge s1) = []) as Hl1 by (unfold s1; destruct s as [? ? []]; exact Hl).
  rewrite (M_bind_ok _ _ _ tt s1).
  - rewrite IH by done. unfold s1. by destruct s.
  - unfold send_to. rewrite (M_bind_ok _ _ _ tt s1) by done. rewrite (M_bind_ok _ _ _ s1 s1) by done.
    by rewrite Hl1, bool_decide_false by set_solver.
Qed.

Lemma log_all_wire data ws n :
  wire (fold_left (fun n w => log_write w data n) ws n) = wire n ++ ((fun w => (w, data)) <$> ws).
Proof.
  revert n. induction ws as [|w ws IH]; intros n; cbn [fold_left fmap list_fmap].
  - by rewrite app_nil_r.
  - rewrite IH. destruct n. simpl. by rewrite <- app_assoc.
Qed.

(** The announcement's bytes. *)
Definition announcement (num_clients chunk_size num_chunks round : Z) : result bytes :=
  payload ← round_init_payload num_clients chunk_size num_chunks;
  header ← build_header MSG_TYPE_ROUND_INIT round 0 0 (Z.of_nat (length payload));
  Ok (header ++ payload).

Lemma announcement_ok k cs n rid :
  0 <= k < 256 -> 0 <= cs < 65536 -> 0 <= n * cs * 2 < 2 ^ 32 -> 0 <= rid < 2 ^ 32 ->
  exists msg, announcement k cs n rid = Ok msg.
Proof.
  intros Hk Hcs Hm Hrid. unfold announcement, round_init_payload.
  unfold bytes_of_ints. rewrite decide_True by (repeat constructor; unfold is_byte; lia). run.
  destruct (struct_pack_success [CH] [cs]) as [c Hc]; [repeat constructor; cbn [code_range]; lia|].
  destruct (struct_pack_success [CI] [n * cs * 2]) as [m Hm'];
    [repeat constructor; cbn [code_range]; lia|].
  rewrite Hc. run. rewrite Hm'. run.
  apply struct_pack_ok in Hc as (_ & Hcl & _). apply struct_pack_ok in Hm' as (_ & Hml & _).
  change (calcsize [CH]) with 2%nat in Hcl. change (calcsize [CI]) with 4%nat in Hml.
  destruct (build_header_ok MSG_TYPE_ROUND_INIT rid 0 0 (Z.of_nat (length ([k; 2] ++ c ++ m))))
    as (h & Hh & _).
  { unfold header_fits, MSG_TYPE_ROUND_INIT. rewrite !length_app, Hcl, Hml. cbn [length]. lia. }
  rewrite Hh. run. by eexists.
Qed.

Lemma send_round_init_eq (s : Strategy U) k n msg :
  lost (s_bridge s) = [] ->
  announcement k (Z.of_nat (s_chunk_size s)) n (s_current_round s) = Ok msg ->
  exists net', send_round_init k n s = (Ok tt, set_bridge net' s) /\
    wire net' = wire (s_bridge s) ++ ((fun w => (w, msg)) <$> dict_values (client_writers (s_bridge s))).
Proof.
  intros Hl. unfold announcement, send_round_init. rewrite (M_bind_ok _ _ _ s s) by done.
  destruct (round_init_payload _ _ _) as [payload|]; run; [|done]. rewrite lift_ok_bind.
  destruct (build_header _ _ _ _ _) as [header|]; run; [|done]. rewrite lift_ok_bind.
  intros Hm. assert (header ++ payload = msg) as -> by (by injection Hm).
  rewrite send_to_all by done. eexists. split; [done|]. apply log_all_wire.
Qed.

(** ** The total weight *)

Lemma record_samples_snoc results acc :
  NoDup (fst <$> results) -> (forall r, r ∈ results -> fst r ∉ dict_keys acc) ->
  @record_samples F results acc = acc ++ ((fun r => (fst r, fst r)) <$> results).
Proof.
  revert acc. induction results as [|r results IH]; intros acc Hnd Hacc; cbn [record_samples fold_left].
  - by rewrite app_nil_r.
  - rewrite fmap_cons in Hnd. apply NoDup_cons in Hnd as [Hr Hnd].
    unfold record_samples in IH. rewrite dict_set_snoc by (apply Hacc; left).
    rewrite IH; [by rewrite <- app_assoc|done|]. intros r' Hr'. unfold dict_keys.
    rewrite fmap_app. apply not_elem_of_app. split; [apply Hacc; by right|].
    intros Hin. apply list_elem_of_singleton in Hin. simpl in Hin. apply Hr. rewrite <- Hin.
    by apply list_elem_of_fmap_2.
Qed.

Lemma record_samples_same w results :
  results <> [] -> (forall r, r ∈ results -> fst r = w) -> @record_samples F results [] = [(w, w)].
Proof.
  intros Hne Hall. destruct results as [|r results]; [done|].
  unfold record_samples. cbn [fold_left]. rewrite (Hall r) by left.
  assert (forall r', r' ∈ results -> fst r' = w) as Hrest by (intros; apply Hall; by right).
  clear Hall Hne. cbn [dict_set]. induction results as [|r' results IH]; [done|].
  cbn [fold_left dict_set]. rewrite (Hrest r') by left. rewrite decide_True by done.
  apply IH. intros; apply Hrest; by right.
Qed.

Definition total_weight (results : list (Z * params)) : Z :=
  foldr Z.add 0 (dict_values (record_samples results [])).

Lemma total_weight_distinct results :
  NoDup (fst <$> results) -> total_weight results = gsum fst results.
Proof.
  intros Hnd. unfold total_weight. rewrite record_samples_snoc by set_solver.
  rewrite app_nil_l. unfold dict_values. rewrite <- list_fmap_compose. clear Hnd.
  induction results as [|r results IH]; [done|]. simpl. by rewrite <- IH.
Qed.

(** ** The whole call *)

(** A call the strategy can serve: every client sends a model of [total]
    elements, no connection is lost and the announcement's fields fit. *)
Record fit_ok (s : Strategy U) (results : list (Z * params)) (total : nat) : Prop := {
  fit_chunk_size : 0 < Z.of_nat (s_chunk_size s) < 65536;
  fit_modulus : s_modulus s = FIELD_MODULUS;
  fit_fresh : s_client_samples s = [];
  fit_connected : lost (s_bridge s) = [];
  fit_round : 0 <= s_current_round s < 2 ^ 32;
  fit_clients : (0 < length results < 256)%nat;
  fit_model : Z.of_nat (chunk_count_of (s_chunk_size s) total) * Z.of_nat (s_chunk_size s) * 2 < 2 ^ 32;
  fit_flat : forall r, r ∈ results ->
    flat_int16 (parameters_to_ndarrays (snd r)) = Ok (flat (snd r)) /\ length (flat (snd r)) = total;
}.

(** The arrays of the first client. *)
Definition reference_of (results : list (Z * params)) : list array :=
  match results with [] => [] | r :: _ => parameters_to_ndarrays (snd r) end.

(** The keys under which expected chunk counts are stored. *)
Lemma record_samples_keys (results : list (Z * params)) acc k :
  k ∈ dict_keys (record_samples results acc) -> k ∈ (fst <$> results) \/ k ∈ dict_keys acc.
Proof.
  revert acc. induction results as [|r results IH]; intros acc; [by right|].
  unfold record_samples. cbn [fold_left]. intros [Hin|Hin]%IH; [left; by right|].
  apply dict_elem_of_keys_set in Hin as [->|Hin]; [left; left|by right].
Qed.

(** What a served call does: it sends the announcement to every connected
    client, returns arrays of the reference's shapes holding [value], and files
    the expected chunk counts under the example counts. *)
Definition fit_returns (s : Strategy U) (results : list (Z * params)) (total : nat)
    (value : nat -> Z) : Prop :=
  exists out s' msg,
    aggregate_fit results s = (Ok (Some (ndarrays_to_parameters out, Z.of_nat (length results))), s') /\
    restore_arrays (value <$> seq 0 total) (reference_of results) = Ok out /\
    announcement (Z.of_nat (length results)) (Z.of_nat (s_chunk_size s))
      (Z.of_nat (chunk_count_of (s_chunk_size s) total)) (s_current_round s) = Ok msg /\
    wire (s_bridge s') =
      wire (s_bridge s) ++ ((fun w => (w, msg)) <$> dict_values (client_writers (s_bridge s))) /\
    dict_keys (s_expected_chunks s') = dict_keys (record_samples results []).

Lemma aggregate_results_eq s results total refs :
  fit_ok s results total -> 0 < total_weight results -> (total_size refs = total)%nat ->
  exists out,
    restore_arrays ((fun e => divp (weighted_sum results e) (total_weight results) mod FIELD_MODULUS)
                      <$> seq 0 total) refs = Ok out /\
    aggregate_results (set_samples (record_samples results []) s) results refs
      (Z.of_nat (chunk_count_of (s_chunk_size s) total)) = Ok (ndarrays_to_parameters out).
Proof.
  intros Hok Hw Href. set (ce := s_chunk_size s). set (n := chunk_count_of ce total).
  pose proof (fit_chunk_size _ _ _ Hok) as Hce.
  set (value := fun e => divp (weighted_sum results e) (total_weight results)).
  destruct (restore_arrays_ok ((fun e => value e mod FIELD_MODULUS) <$> seq 0 total) refs) as [out Hout];
    [by rewrite length_fmap, length_seq, Href|].
  exists out. split; [done|]. unfold aggregate_results.
  assert (s_chunk_size (set_samples (record_samples results []) s) = ce) as -> by (by destruct s).
  assert (s_modulus (set_samples (record_samples results []) s) = FIELD_MODULUS) as ->
    by (rewrite <- (fit_modulus _ _ _ Hok); by destruct s).
  assert (s_client_samples (set_samples (record_samples results []) s) = record_samples results []) as ->
    by (by destruct s).
  rewrite zero_chunks_spec. fold ce n.
  change (spec_chunks (Z.of_nat n) ce (fun _ _ => 0)) with (field_chunks ce n (fun _ => 0)).
  rewrite (add_results_eq ce n results (fun _ => 0)); [|unfold ce; lia|].
  2:{ intros r Hr. destruct (fit_flat _ _ _ Hok r Hr) as [Hf Hl]. by rewrite Hl. }
  run. fold (total_weight results). rewrite scale_field_chunks by done. rewrite pack_field_chunks. run.
  unfold chunks_to_model. rewrite all_elements_eq.
  2:{ intros e. pose proof (mod_p_range (divp (0 + weighted_sum results e) (total_weight results))).
      unfold is_int16, FIELD_MODULUS in *. lia. }
  run. pose proof (chunk_count_covers ce total ltac:(unfold ce; lia)) as Hcov. fold n in Hcov.
  replace (n * ce)%nat with (total + (n * ce - total))%nat by lia.
  rewrite seq_app, fmap_app, restore_arrays_prefix by (by rewrite length_fmap, length_seq, Href).
  change (fun e => divp (0 + weighted_sum results e) (total_weight results) mod FIELD_MODULUS)
    with (fun e => value e mod FIELD_MODULUS).
  rewrite Hout. by run.
Qed.

Lemma aggregate_fit_returns s results total :
  fit_ok s results total -> 0 < total_weight results ->
  fit_returns s results total
    (fun e => divp (weighted_sum results e) (total_weight results) mod FIELD_MODULUS).
Proof.
  intros Hok Hw. pose proof (fit_chunk_size _ _ _ Hok) as Hce. pose proof (fit_clients _ _ _ Hok) as Hk.
  set (ce := s_chunk_size s) in *. set (n := chunk_count_of ce total).
  destruct (announcement_ok (Z.of_nat (length results)) (Z.of_nat ce) (Z.of_nat n) (s_current_round s))
    as [msg Hmsg]; [lia|lia|pose proof (fit_model _ _ _ Hok) as Hm; subst n ce; lia|apply (fit_round _ _ _ Hok)|].
  destruct results as [|r0 rest] eqn:Eres; [simpl in Hk; lia|]. rewrite <- Eres in *.
  assert (r0 ∈ results) as H0 by (rewrite Eres; left).
  assert (reference_of results = parameters_to_ndarrays (snd r0)) as Href by (by rewrite Eres).
  destruct (fit_flat _ _ _ Hok r0 H0) as [Hf0 Hl0].
  destruct (aggregate_results_eq s results total (reference_of results)) as (out & Hout & Hagg);
    [done|done|by rewrite Href, <- Hl0, (flat_int16_length _ _ Hf0)|].
  set (s1 := set_samples (record_samples results []) s).
  set (s2 := set_expected ((fun cid => (cid, Z.of_nat n)) <$> dict_keys (s_client_samples s1)) s1).
  destruct (send_round_init_eq s2 (Z.of_nat (length results)) (Z.of_nat n) msg) as (net' & Hsend & Hwire).
  { unfold s2, s1. destruct s. apply (fit_connected _ _ _ Hok). }
  { rewrite <- Hmsg. unfold s2, s1. by destruct s. }
  exists out, (set_bridge net' s2), msg. split; [|split; [done|split; [done|]]].
  2:{ split; [clear -Hwire; unfold s2, s1 in Hwire; by destruct s|]. unfold s2, s1. destruct s. cbn.
      unfold dict_keys. rewrite <- list_fmap_compose. by rewrite list_fmap_id. }
  assert (aggregate_fit results = aggregate_round r0 results) as -> by (by rewrite Eres).
  unfold aggregate_round.
  rewrite (M_bind_ok _ _ _ tt s1) by (unfold modify, s1; by rewrite (fit_fresh _ _ _ Hok)).
  rewrite (M_bind_ok _ _ _ s1 s1) by done. cbv zeta.
  assert (s_chunk_size s1 = ce) as -> by (unfold s1; by destruct s).
  rewrite (model_to_chunks_eq ce _ (flat (snd r0))) by (done || lia). rewrite lift_ok_bind.
  rewrite chunks_of_length, Hl0. fold n.
  rewrite (M_bind_ok _ _ _ tt s2) by done. rewrite (M_bind_ok _ _ _ tt (set_bridge net' s2)) by done.
  rewrite (M_bind_ok _ _ _ (set_bridge net' s2) (set_bridge net' s2)) by done.
  rewrite <- Href.
  assert (aggregate_results (set_bridge net' s2) = aggregate_results s1) as -> by
    (unfold s2, s1; by destruct s).
  fold s1 in Hagg. fold ce n in Hagg. rewrite Hagg, lift_ok_bind. done.
Qed.

Lemma divp_is_mean total sum :
  ~ total == 0 -> is_mean total sum (divp sum total mod FIELD_MODULUS).
Proof.
  intros Ht. assert (divp sum total mod FIELD_MODULUS * total == sum) as He.
  { rewrite eqp_mod. unfold divp. transitivity (sum * (invp total * total)).
    - apply eqp_of_eq. lia.
    - rewrite invp_l by done. apply eqp_of_eq. lia. }
  split; [apply mod_p_range|]. split; [done|]. intros q Hq Hsum.
  apply eqp_small; [apply mod_p_range|done|]. apply (eqp_mul_cancel total); [done|].
  rewrite <- Hsum, Z.mul_comm. exact He.
Qed.

(** C26: with distinct example counts whose sum is positive and not a multiple
    of 3329, [aggregate_fit] returns arrays of the first client's shapes whose
    elements are, in the field, the mean of the clients' elements weighted by
    their example counts (exact when the sum of the counts divides the weighted
    sum and the quotient is a field element), after announcing the round to
    every connected client.  For between 1 and 255 clients whose models have
    equally many elements, all of them 16-bit integers, a chunk size in
    1..65535, a round id and model size that fit 32 bits, the modulus 3329, no
    lost connection, and no sample counts left from an earlier call. *)
Theorem aggregate_fit_weighted_mean s results total :
  fit_ok s results total -> NoDup (fst <$> results) ->
  0 < gsum fst results -> ~ gsum fst results == 0 ->
  exists value, fit_returns s results total value /\
    forall e, is_mean (gsum fst results) (weighted_sum results e) (value e).
Proof.
  intros Hok Hnd Hpos Hne. pose proof (total_weight_distinct results Hnd) as Hw.
  eexists. split; [apply aggregate_fit_returns; [done|by rewrite Hw]|].
  intros e. rewrite Hw. by apply divp_is_mean.
Qed.

(** Counts that are distinct but add up to a multiple of 3329, as 1329 and
    2000: the inverse is zero, and so is every element returned. *)
Theorem aggregate_fit_vanishes s results total :
  fit_ok s results total -> NoDup (fst <$> results) ->
  0 < gsum fst results -> gsum fst results == 0 ->
  fit_returns s results total (fun _ => 0).
Proof.
  intros Hok Hnd Hpos Hz. pose proof (total_weight_distinct results Hnd) as Hw.
  destruct (aggregate_fit_returns s results total Hok ltac:(by rewrite Hw)) as (out & s' & msg & Ha & Hr & H).
  exists out, s', msg. split; [exact Ha|]. split; [|exact H]. rewrite <- Hr. f_equal.
  apply list_fmap_ext. intros _ e _. unfold divp. by rewrite Hw, invp_zero, Z.mul_0_r by done.
Qed.

(** With equal example counts, as when every client holds the same number
    of examples, the strategy counts one of them only: each element is the sum
    of the clients' elements in the field, not their mean. *)
Theorem aggregate_fit_equal_counts s results total w :
  fit_ok s results total -> (forall r, r ∈ results -> fst r = w) -> 0 < w -> ~ w == 0 ->
  exists value, fit_returns s results total value /\
    forall e, 0 <= value e < FIELD_MODULUS /\
              value e == gsum (fun r => nth e (flat (snd r)) 0) results.
Proof.
  intros Hok Hall Hpos Hne.
  assert (results <> []) as Hres by (intros ->; pose proof (fit_clients _ _ _ Hok); simpl in *; lia).
  assert (total_weight results = w) as Hw.
  { unfold total_weight. rewrite (record_samples_same w) by done. simpl. lia. }
  eexists. split; [apply aggregate_fit_returns; [done|by rewrite Hw]|].
  intros e. rewrite Hw. split; [apply mod_p_range|]. rewrite eqp_mod.
  assert (weighted_sum results e = w * gsum (fun r => nth e (flat (snd r)) 0) results) as ->.
  { unfold weighted_sum. rewrite <- gsum_scale. apply gsum_ext. intros r Hr. by rewrite (Hall r Hr). }
  unfold divp. transitivity (gsum (fun r => nth e (flat (snd r)) 0) results * (invp w * w)).
  - apply eqp_of_eq. lia.
  - rewrite invp_l by done. apply eqp_of_eq. lia.
Qed.

(** A sequence of updates, each a round, a client, a chunk number and data. *)
Definition process_all (updates : list (Z * Z * Z * U)) (s : Strategy U) : list (result bool) * Strategy U :=
  fold_left
    (fun '(answers, s) '(round_id, client_id, idx, d) =>
       let '(a, s') := process_chunked_update round_id client_id idx d s in (answers ++ [a], s'))
    updates ([], s).

Lemma process_unexpected round_id client_id idx d (s : Strategy U) :
  dict_get client_id (s_expected_chunks s) = None ->
  exists s', process_chunked_update round_id client_id idx d s = (Ok false, s') /\
             s_expected_chunks s' = s_expected_chunks s.
Proof.
  intros Hnone. unfold process_chunked_update. rewrite (M_bind_ok _ _ _ s s) by done. cbv zeta.
  eexists. split.
  - rewrite (M_bind_ok _ _ _ tt (set_chunks _ s)) by done. rewrite Hnone. cbn [default].
    set (l := dict_set idx d _).
    assert (Z.of_nat (length l) =? 0 = false) as ->; [|done].
    apply Z.eqb_neq. assert (idx ∈ dict_keys l) as Hin by (by apply dict_elem_of_keys_set; left).
    destruct l; [set_solver|simpl; lia].
  - by destruct s.
Qed.

(** [aggregate_fit] files the expected number of chunks under the example
    counts, not the client ids, so after it no update of a client whose id is
    no client's example count is ever reported complete, whatever updates are
    processed. *)
Theorem updates_never_complete s results total updates :
  fit_ok s results total -> 0 < total_weight results ->
  (forall u, u ∈ updates -> snd (fst (fst u)) ∉ (fst <$> results)) ->
  Forall (eq (Ok false)) (fst (process_all updates (snd (aggregate_fit results s)))).
Proof.
  intros Hok Hw Hids. destruct (aggregate_fit_returns s results total Hok Hw)
    as (out & s' & msg & -> & _ & _ & _ & Hkeys). cbn [snd]. unfold process_all.
  enough (forall us answers s1, (forall u, u ∈ us -> u ∈ updates) ->
    s_expected_chunks s1 = s_expected_chunks s' -> Forall (eq (Ok false)) answers ->
    Forall (eq (Ok false))
      (fst (fold_left
        (fun '(answers, s) '(round_id, client_id, idx, d) =>
           let '(a, s') := process_chunked_update round_id client_id idx d s in (answers ++ [a], s'))
        us (answers, s1)))) as G by (apply G; done).
  induction us as [|[[[rid cid] idx] d] us IH]; intros answers s1 Hus He Ha; [done|].
  cbn [fold_left].
  destruct (process_unexpected rid cid idx d s1) as (s2 & -> & He2).
  { rewrite He. apply dict_get_None. rewrite Hkeys.
    intros [Hin|Hin]%record_samples_keys; [|set_solver].
    by apply (Hids (rid, cid, idx, d)); [apply Hus; left|]. }
  apply IH; [intros; apply Hus; by right|by rewrite He2|]. apply Forall_app. by split; [|constructor].
Qed.

End Aggregation.

(** ** A concrete numpy, and concrete inputs

    Arrays of integers, wrapped to 16 bits; parameters are lists of arrays. *)

Definition wrap16 (v : Z) : Z := (v + 32768) mod 65536 - 32768.

Definition toy_flatten (a : ndarray unit Z) : list Z :=
  (fun i => wrap16 (nth i (elements a) 0)) <$> seq 0 (size a).

#[export] Instance toy_flower : FlowerLib := {|
  dtype := unit;
  element := Z;
  params := list (ndarray unit Z);
  flat_int16 arrs := match arrs with [] => Err ValueError | _ => Ok (concat (toy_flatten <$> arrs)) end;
  cast_int16 _ v := v;
  parameters_to_ndarrays p := p;
  ndarrays_to_parameters p := p;
|}.

Lemma wrap16_id v : is_int16 v -> wrap16 v = v.
Proof. unfold is_int16, wrap16. intros H. rewrite Z.mod_small; lia. Qed.

Lemma toy_flatten_exact (a : ndarray unit Z) l :
  Forall is_int16 l -> elements a = l -> length l = size a -> toy_flatten a = l.
Proof.
  intros Hl He Hlen. unfold toy_flatten. rewrite He, <- Hlen. apply list_eq. intros i.
  rewrite list_lookup_fmap. destruct (decide (i < length l)%nat) as [Hi|Hi].
  - rewrite lookup_seq_lt, (nth_lookup_Some' l i 0) by done. simpl. f_equal.
    apply wrap16_id. by apply nth_int16.
  - rewrite lookup_seq_ge, (lookup_ge_None_2 l) by lia. done.
Qed.

#[export] Instance toy_flower_laws : FlowerLaws toy_flower.
Proof.
  refine {| holds_int16 := fun _ => True |}.
  - intros [|a arrs] l; [done|]. intros H.
    assert (concat (toy_flatten <$> a :: arrs) = l) as <- by (by injection H).
    apply Forall_concat, Forall_fmap, Forall_forall. intros b _. apply Forall_fmap, Forall_forall.
    intros i _. unfold compose, is_int16, wrap16.
    pose proof (Z.mod_pos_bound (nth i (elements b) 0 + 32768) 65536 ltac:(done)). lia.
  - intros [|a arrs] l; [done|]. intros H.
    assert (concat (toy_flatten <$> a :: arrs) = l) as <- by (by injection H).
    clear H. generalize (a :: arrs) as arrs'. induction arrs' as [|b arrs' IH]; [done|].
    rewrite !fmap_cons. cbn [concat]. rewrite length_app, IH. f_equal. unfold toy_flatten.
    by rewrite length_fmap, length_seq.
  - intros arrs ints Hne Hall. destruct arrs as [|a arrs]; [done|]. cbn [flat_int16 toy_flower].
    do 2 f_equal. clear Hne. induction Hall as [|b l arrs' ints' (_ & Hl & He & Hlen) Hall IH]; [done|].
    rewrite fmap_cons, IH. f_equal. cbn in He. rewrite list_fmap_id in He.
    apply toy_flatten_exact; [done|done|]. rewrite <- He. exact Hlen.
Defined.

Definition vector (l : list Z) : ndarray unit Z :=
  {| shape := [length l]; array_dtype := tt; elements := l |}.
Definition matrix22 (a b c d : Z) : ndarray unit Z :=
  {| shape := [2; 2]%nat; array_dtype := tt; elements := [a; b; c; d] |}.

Lemma model_chunks_roundtrip_witness :
  exists chunks, model_to_chunks 3 [matrix22 1 2 3 4; vector [-5]] = Ok chunks /\
    length chunks = 2%nat /\ chunks_to_model 3 chunks [matrix22 1 2 3 4; vector [-5]] = Ok [matrix22 1 2 3 4; vector [-5]].
Proof.
  refine (model_chunks_roundtrip 3 [matrix22 1 2 3 4; vector [-5]] [[1; 2; 3; 4]; [-5]] ltac:(lia) ltac:(done) _).
  repeat constructor; unfold is_int16; lia.
Defined.

(** Two connected clients with models of three elements, chunks of two. *)
Definition sample_strategy : Strategy Z :=
  new_strategy 2 3329 (set_writers [(1, 7); (2, 8)] empty_net).
Definition sample_results (w1 w2 : Z) : list (Z * @params toy_flower) :=
  [(w1, [vector [1; 2; 3]]); (w2, [vector [5; 6; 7]])].
Definition toy_flat (p : @params toy_flower) : list Z := concat (toy_flatten <$> p).

Lemma sample_fit_ok w1 w2 : fit_ok toy_flat sample_strategy (sample_results w1 w2) 3.
Proof.
  split; try done; try (cbn; lia).
  intros r Hr. unfold sample_results in Hr.
  apply elem_of_cons in Hr as [->|Hr]; [done|]. by apply list_elem_of_singleton in Hr as ->.
Qed.

Lemma aggregate_fit_weighted_mean_witness :
  exists value, fit_returns sample_strategy (sample_results 1 3) 3 value /\
    is_mean 4 16 (value 0%nat) /\ value 0%nat = 4.
Proof.
  destruct (aggregate_fit_weighted_mean toy_flat sample_strategy (sample_results 1 3) 3)
    as (value & Hv & Hm).
  - apply sample_fit_ok.
  - by apply (bool_decide_unpack _).
  - done.
  - intros [H]. by vm_compute in H.
  - exists value. split; [exact Hv|]. split; [exact (Hm 0%nat)|].
    by apply (proj2 (proj2 (Hm 0%nat)) 4).
Defined.

Example aggregate_fit_vanishes_1329_2000 :
  fit_returns sample_strategy (sample_results 1329 2000) 3 (fun _ => 0).
Proof.
  apply (aggregate_fit_vanishes toy_flat); [apply sample_fit_ok|by apply (bool_decide_unpack _)|done|].
  constructor. reflexivity.
Qed.

Lemma aggregate_fit_equal_counts_witness :
  exists value, fit_returns sample_strategy (sample_results 4 4) 3 value /\
    0 <= value 0%nat < FIELD_MODULUS /\ value 0%nat == 6.
Proof.
  destruct (aggregate_fit_equal_counts toy_flat sample_strategy (sample_results 4 4) 3 4)
    as (value & Hv & Hm).
  - apply sample_fit_ok.
  - intros r Hr. unfold sample_results in Hr.
    apply elem_of_cons in Hr as [->|Hr]; [done|]. by apply list_elem_of_singleton in Hr as ->.
  - done.
  - intros [H]. by vm_compute in H.
  - exists value. split; [exact Hv|]. exact (Hm 0%nat).
Defined.

Lemma updates_never_complete_witness :
  Forall (eq (Ok false))
    (fst (process_all [(1, 1, 0, 10); (1, 1, 1, 20); (1, 2, 0, 30); (1, 2, 1, 40)]
            (snd (aggregate_fit (sample_results 50 60) sample_strategy)))).
Proof.
  apply (updates_never_complete toy_flat sample_strategy (sample_results 50 60) 3).
  - apply sample_fit_ok.
  - done.
  - apply Forall_forall. repeat (constructor; [by apply (bool_decide_unpack _)|]). constructor.
Defined.
