(* ===== verification/Metrics.v ===== *)
(** * The metrics logger

    The HEAD side of experiments/metrics_logger.py: [MetricSample],
    [MetricsLogger] and its files.  Floats are exact rationals.  The sample
    that [start_round] creates is one object, appended to [samples] and kept as
    [current_sample]; the model keeps its position in [samples] instead of a
    second copy, so that the records made through [current_sample] reach it. *)

From Stdlib Require Import ZArith QArith Lia.
From stdpp Require Import prelude strings.
From S2P Require Import Prelude PyDict.
#[local] Open Scope Z_scope.

(** ** Samples *)

(** A value of a sample's dictionary. *)
Inductive Value : Type :=
  | VStr (s : string)
  | VInt (z : Z)
  | VFloat (q : Q)
  | VBool (b : bool).

Record MetricSample : Type := {
  timestamp : Q;
  run_id : string;
  device_id : string;
  round_id : Z;
  num_clients : Z;
  dropout_rate : Q;
  model_size_bytes : Z;
  chunk_size_bytes : Z;
  crypto_mode : string;
  keygen_cycles : Z;
  encapsulation_cycles : Z;
  decapsulation_cycles : Z;
  ntt_cycles : Z;
  mask_generation_cycles : Z;
  masking_cycles : Z;
  peak_sram_bytes : Z;
  minimum_free_heap_bytes : Z;
  largest_free_heap_block_bytes : Z;
  task_stack_high_water_bytes : Z;
  heap_zero_confirmed : bool;
  bytes_tx : Z;
  bytes_rx : Z;
  packet_count : Z;
  retransmissions : Z;
  fragment_count : Z;
  round_latency_ms : Q;
  dropout_detection_ms : Q;
  recovery_latency_ms : Q;
  aggregation_success : bool;
  final_accuracy : Q;
}.

(** The fields in order, and whether the class gives a default. *)
Definition FIELDS : list (string * bool) :=
  [("timestamp", false); ("run_id", false); ("device_id", false); ("round_id", false);
   ("num_clients", false); ("dropout_rate", false); ("model_size_bytes", false);
   ("chunk_size_bytes", false); ("crypto_mode", false); ("keygen_cycles", true);
   ("encapsulation_cycles", true); ("decapsulation_cycles", true); ("ntt_cycles", true);
   ("mask_generation_cycles", true); ("masking_cycles", true); ("peak_sram_bytes", true);
   ("minimum_free_heap_bytes", true); ("largest_free_heap_block_bytes", true);
   ("task_stack_high_water_bytes", true); ("heap_zero_confirmed", true); ("bytes_tx", true);
   ("bytes_rx", true); ("packet_count", true); ("retransmissions", true);
   ("fragment_count", true); ("round_latency_ms", true); ("dropout_detection_ms", true);
   ("recovery_latency_ms", true); ("aggregation_success", true); ("final_accuracy", true)].

(** [MetricSample(...)] with the nine arguments that have no default. *)
Definition new_sample (f_timestamp : Q) (f_run_id f_device_id : string) (f_round_id f_num_clients : Z)
    (f_dropout_rate : Q) (f_model_size_bytes f_chunk_size_bytes : Z) (f_crypto_mode : string)
    : MetricSample := {|
  timestamp := f_timestamp; run_id := f_run_id; device_id := f_device_id;
  round_id := f_round_id; num_clients := f_num_clients; dropout_rate := f_dropout_rate;
  model_size_bytes := f_model_size_bytes; chunk_size_bytes := f_chunk_size_bytes;
  crypto_mode := f_crypto_mode; keygen_cycles := 0; encapsulation_cycles := 0;
  decapsulation_cycles := 0; ntt_cycles := 0; mask_generation_cycles := 0; masking_cycles := 0;
  peak_sram_bytes := 0; minimum_free_heap_bytes := 0; largest_free_heap_block_bytes := 0;
  task_stack_high_water_bytes := 0; heap_zero_confirmed := false; bytes_tx := 0; bytes_rx := 0;
  packet_count := 0; retransmissions := 0; fragment_count := 0; round_latency_ms := 0%Q;
  dropout_detection_ms := 0%Q; recovery_latency_ms := 0%Q; aggregation_success := false;
  final_accuracy := 0%Q |}.

(** [asdict(sample)] *)
Definition asdict (s : MetricSample) : list (string * Value) :=
  [("timestamp", VFloat (timestamp s)); ("run_id", VStr (run_id s));
   ("device_id", VStr (device_id s)); ("round_id", VInt (round_id s));
   ("num_clients", VInt (num_clients s)); ("dropout_rate", VFloat (dropout_rate s));
   ("model_size_bytes", VInt (model_size_bytes s));
   ("chunk_size_bytes", VInt (chunk_size_bytes s)); ("crypto_mode", VStr (crypto_mode s));
   ("keygen_cycles", VInt (keygen_cycles s));
   ("encapsulation_cycles", VInt (encapsulation_cycles s));
   ("decapsulation_cycles", VInt (decapsulation_cycles s));
   ("ntt_cycles", VInt (ntt_cycles s));
   ("mask_generation_cycles", VInt (mask_generation_cycles s));
   ("masking_cycles", VInt (masking_cycles s)); ("peak_sram_bytes", VInt (peak_sram_bytes s));
   ("minimum_free_heap_bytes", VInt (minimum_free_heap_bytes s));
   ("largest_free_heap_block_bytes", VInt (largest_free_heap_block_bytes s));
   ("task_stack_high_water_bytes", VInt (task_stack_high_water_bytes s));
   ("heap_zero_confirmed", VBool (heap_zero_confirmed s)); ("bytes_tx", VInt (bytes_tx s));
   ("bytes_rx", VInt (bytes_rx s)); ("packet_count", VInt (packet_count s));
   ("retransmissions", VInt (retransmissions s)); ("fragment_count", VInt (fragment_count s));
   ("round_latency_ms", VFloat (round_latency_ms s));
   ("dropout_detection_ms", VFloat (dropout_detection_ms s));
   ("recovery_latency_ms", VFloat (recovery_latency_ms s));
   ("aggregation_success", VBool (aggregation_success s));
   ("final_accuracy", VFloat (final_accuracy s))].

(** The assignments of [record_cycles]. *)
Definition with_cycles (keygen encaps decaps ntt mask_gen masking : Z) (s : MetricSample) : MetricSample := {|
  timestamp := timestamp s; run_id := run_id s; device_id := device_id s;
  round_id := round_id s; num_clients := num_clients s; dropout_rate := dropout_rate s;
  model_size_bytes := model_size_bytes s; chunk_size_bytes := chunk_size_bytes s;
  crypto_mode := crypto_mode s; keygen_cycles := keygen; encapsulation_cycles := encaps;
  decapsulation_cycles := decaps; ntt_cycles := ntt; mask_generation_cycles := mask_gen;
  masking_cycles := masking; peak_sram_bytes := peak_sram_bytes s;
  minimum_free_heap_bytes := minimum_free_heap_bytes s;
  largest_free_heap_block_bytes := largest_free_heap_block_bytes s;
  task_stack_high_water_bytes := task_stack_high_water_bytes s;
  heap_zero_confirmed := heap_zero_confirmed s; bytes_tx := bytes_tx s; bytes_rx := bytes_rx s;
  packet_count := packet_count s; retransmissions := retransmissions s;
  fragment_count := fragment_count s; round_latency_ms := round_latency_ms s;
  dropout_detection_ms := dropout_detection_ms s; recovery_latency_ms := recovery_latency_ms s;
  aggregation_success := aggregation_success s; final_accuracy := final_accuracy s |}.

(** The assignments of [record_memory]. *)
Definition with_memory (peak_sram min_free_heap largest_free_block stack_high_water : Z) (heap_zero : bool) (s : MetricSample) : MetricSample := {|
  timestamp := timestamp s; run_id := run_id s; device_id := device_id s;
  round_id := round_id s; num_clients := num_clients s; dropout_rate := dropout_rate s;
  model_size_bytes := model_size_bytes s; chunk_size_bytes := chunk_size_bytes s;
  crypto_mode := crypto_mode s; keygen_cycles := keygen_cycles s;
  encapsulation_cycles := encapsulation_cycles s;
  decapsulation_cycles := decapsulation_cycles s; ntt_cycles := ntt_cycles s;
  mask_generation_cycles := mask_generation_cycles s; masking_cycles := masking_cycles s;
  peak_sram_bytes := peak_sram; minimum_free_heap_bytes := min_free_heap;
  largest_free_heap_block_bytes := largest_free_block;
  task_stack_high_water_bytes := stack_high_water; heap_zero_confirmed := heap_zero;
  bytes_tx := bytes_tx s; bytes_rx := bytes_rx s; packet_count := packet_count s;
  retransmissions := retransmissions s; fragment_count := fragment_count s;
  round_latency_ms := round_latency_ms s; dropout_detection_ms := dropout_detection_ms s;
  recovery_latency_ms := recovery_latency_ms s; aggregation_success := aggregation_success s;
  final_accuracy := final_accuracy s |}.

(** The assignments of [record_network]. *)
Definition with_network (tx rx packets retrans fragments : Z) (s : MetricSample) : MetricSample := {|
  timestamp := timestamp s; run_id := run_id s; device_id := device_id s;
  round_id := round_id s; num_clients := num_clients s; dropout_rate := dropout_rate s;
  model_size_bytes := model_size_bytes s; chunk_size_bytes := chunk_size_bytes s;
  crypto_mode := crypto_mode s; keygen_cycles := keygen_cycles s;
  encapsulation_cycles := encapsulation_cycles s;
  decapsulation_cycles := decapsulation_cycles s; ntt_cycles := ntt_cycles s;
  mask_generation_cycles := mask_generation_cycles s; masking_cycles := masking_cycles s;
  peak_sram_bytes := peak_sram_bytes s; minimum_free_heap_bytes := minimum_free_heap_bytes s;
  largest_free_heap_block_bytes := largest_free_heap_block_bytes s;
  task_stack_high_water_bytes := task_stack_high_water_bytes s;
  heap_zero_confirmed := heap_zero_confirmed s; bytes_tx := tx; bytes_rx := rx;
  packet_count := packets; retransmissions := retrans; fragment_count := fragments;
  round_latency_ms := round_latency_ms s; dropout_detection_ms := dropout_detection_ms s;
  recovery_latency_ms := recovery_latency_ms s; aggregation_success := aggregation_success s;
  final_accuracy := final_accuracy s |}.

(** The assignments of [record_timing]. *)
Definition with_timing (round_latency dropout_detection recovery_latency : Q) (s : MetricSample) : MetricSample := {|
  timestamp := timestamp s; run_id := run_id s; device_id := device_id s;
  round_id := round_id s; num_clients := num_clients s; dropout_rate := dropout_rate s;
  model_size_bytes := model_size_bytes s; chunk_size_bytes := chunk_size_bytes s;
  crypto_mode := crypto_mode s; keygen_cycles := keygen_cycles s;
  encapsulation_cycles := encapsulation_cycles s;
  decapsulation_cycles := decapsulation_cycles s; ntt_cycles := ntt_cycles s;
  mask_generation_cycles := mask_generation_cycles s; masking_cycles := masking_cycles s;
  peak_sram_bytes := peak_sram_bytes s; minimum_free_heap_bytes := minimum_free_heap_bytes s;
  largest_free_heap_block_bytes := largest_free_heap_block_bytes s;
  task_stack_high_water_bytes := task_stack_high_water_bytes s;
  heap_zero_confirmed := heap_zero_confirmed s; bytes_tx := bytes_tx s; bytes_rx := bytes_rx s;
  packet_count := packet_count s; retransmissions := retransmissions s;
  fragment_count := fragment_count s; round_latency_ms := round_latency;
  dropout_detection_ms := dropout_detection; recovery_latency_ms := recovery_latency;
  aggregation_success := aggregation_success s; final_accuracy := final_accuracy s |}.

(** The assignments of [record_result]. *)
Definition with_result (success : bool) (accuracy : Q) (s : MetricSample) : MetricSample := {|
  timestamp := timestamp s; run_id := run_id s; device_id := device_id s;
  round_id := round_id s; num_clients := num_clients s; dropout_rate := dropout_rate s;
  model_size_bytes := model_size_bytes s; chunk_size_bytes := chunk_size_bytes s;
  crypto_mode := crypto_mode s; keygen_cycles := keygen_cycles s;
  encapsulation_cycles := encapsulation_cycles s;
  decapsulation_cycles := decapsulation_cycles s; ntt_cycles := ntt_cycles s;
  mask_generation_cycles := mask_generation_cycles s; masking_cycles := masking_cycles s;
  peak_sram_bytes := peak_sram_bytes s; minimum_free_heap_bytes := minimum_free_heap_bytes s;
  largest_free_heap_block_bytes := largest_free_heap_block_bytes s;
  task_stack_high_water_bytes := task_stack_high_water_bytes s;
  heap_zero_confirmed := heap_zero_confirmed s; bytes_tx := bytes_tx s; bytes_rx := bytes_rx s;
  packet_count := packet_count s; retransmissions := retransmissions s;
  fragment_count := fragment_count s; round_latency_ms := round_latency_ms s;
  dropout_detection_ms := dropout_detection_ms s; recovery_latency_ms := recovery_latency_ms s;
  aggregation_success := success; final_accuracy := accuracy |}.
(** ** The logger *)

(** What a run of the logger leaves on disk: a CSV file's header and rows, or
    the list of dictionaries of a JSON file. *)
Inductive File : Type :=
  | CsvFile (header : list string) (rows : list (list Value))
  | JsonFile (entries : list (list (string * Value))).

(** [files] is the directory's contents, by path. *)
Record MetricsLogger : Type := {
  logger_run_id : string;
  output_dir : string;
  samples : list MetricSample;
  current_sample : option nat;
  files : list (string * File);
}.

Definition set_samples (l : list MetricSample) (cur : option nat) (m : MetricsLogger) : MetricsLogger :=
  {| logger_run_id := logger_run_id m; output_dir := output_dir m; samples := l;
     current_sample := cur; files := files m |}.
Definition set_file (path : string) (f : File) (m : MetricsLogger) : MetricsLogger :=
  {| logger_run_id := logger_run_id m; output_dir := output_dir m; samples := samples m;
     current_sample := current_sample m; files := dict_set path f (files m) |}.

Definition new_logger (run : string) (dir : string) : MetricsLogger :=
  {| logger_run_id := run; output_dir := dir; samples := []; current_sample := None; files := [] |}.
Definition create_logger (run : string) : MetricsLogger := new_logger run "experiments/results".

(** [start_round], at time [now]; the caller's copy of the sample is the
    position it returns. *)
Definition start_round (now : Q) (device : string) (rid clients : Z) (rate : Q) (model chunk : Z)
    (mode : string) : M MetricsLogger nat :=
  m ← gets (fun m => m);
  let sample := new_sample now (logger_run_id m) device rid clients rate model chunk mode in
  let pos := length (samples m) in
  _ ← modify (set_samples (samples m ++ [sample]) (Some pos));
  mret pos.

(** [if self.current_sample:] and the assignments to its attributes. *)
Definition record (f : MetricSample -> MetricSample) : M MetricsLogger unit :=
  modify (fun m => match current_sample m with
                   | None => m
                   | Some pos => set_samples (alter f pos (samples m)) (current_sample m) m
                   end).

Definition record_cycles (keygen encaps decaps ntt mask_gen masking : Z) : M MetricsLogger unit :=
  record (with_cycles keygen encaps decaps ntt mask_gen masking).
Definition record_memory (peak_sram min_free_heap largest_free_block stack_high_water : Z)
    (heap_zero : bool) : M MetricsLogger unit :=
  record (with_memory peak_sram min_free_heap largest_free_block stack_high_water heap_zero).
Definition record_network (tx rx packets retrans fragments : Z) : M MetricsLogger unit :=
  record (with_network tx rx packets retrans fragments).
Definition record_timing (round_latency dropout_detection recovery_latency : Q) : M MetricsLogger unit :=
  record (with_timing round_latency dropout_detection recovery_latency).
Definition record_result (success : bool) (accuracy : Q) : M MetricsLogger unit :=
  record (with_result success accuracy).

(** ** Writing the files *)

(** [dir(MetricSample)] without the private names and the methods: in
    alphabetical order, the fields that are attributes of the class, which are
    those with a default. *)
Fixpoint insert_name (n : string) (l : list string) : list string :=
  match l with
  | [] => [n]
  | x :: l' => if String.leb n x then n :: l else x :: insert_name n l'
  end.
Definition sort_names (l : list string) : list string := foldr insert_name [] l.
Definition fieldnames : list string :=
  sort_names (fst <$> filter (fun p : string * bool => snd p = true) FIELDS).

(** [DictWriter.writerow]: a key that is no field name raises. *)
Definition writerow (names : list string) (row : list (string * Value)) : result (list Value) :=
  if forallb (fun p => bool_decide (fst p ∈ names)) row
  then Ok ((fun n => default (VStr "") (dict_get n row)) <$> names)
  else Err ValueError.

(** [os.path.join(self.output_dir, ...)] *)
Definition metrics_path (m : MetricsLogger) (extension : string) : string :=
  (output_dir m ++ "/" ++ logger_run_id m ++ "_metrics." ++ extension)%string.

Definition write_csv_row (path : string) (sample : MetricSample) : M MetricsLogger unit :=
  m ← gets (fun m => m);
  row ← lift (writerow fieldnames (asdict sample));
  match dict_get path (files m) with
  | Some (CsvFile header rows) => modify (set_file path (CsvFile header (rows ++ [row])))
  | _ => skip
  end.

Definition flush : M MetricsLogger unit :=
  m ← gets (fun m => m);
  let csv_path := metrics_path m "csv" in
  _ ← modify (set_file csv_path (CsvFile fieldnames []));
  _ ← for_each (samples m) (write_csv_row csv_path);
  modify (set_file (metrics_path m "json") (JsonFile (asdict <$> samples m))).

(** ** The summary *)

Record Summary : Type := {
  sum_run_id : string;
  total_rounds : Z;
  successful_rounds : Z;
  success_rate : Q;
  avg_latency_ms : Q;
  avg_peak_sram_bytes : Q;
  sum_crypto_mode : string;
}.

Definition qsum (l : list Q) : Q := foldr Qplus 0%Q l.

(** [get_summary]; None is the empty dictionary. *)
Definition get_summary (m : MetricsLogger) : option Summary :=
  match samples m with
  | [] => None
  | first :: _ =>
      let n := Z.of_nat (length (samples m)) in
      let successful :=
        Z.of_nat (length (filter (fun s => aggregation_success s = true) (samples m))) in
      Some {| sum_run_id := logger_run_id m;
              total_rounds := n;
              successful_rounds := successful;
              success_rate := if 0 <? n then (inject_Z successful / inject_Z n)%Q else 0%Q;
              avg_latency_ms := (qsum (round_latency_ms <$> samples m) / inject_Z n)%Q;
              avg_peak_sram_bytes :=
                (qsum ((fun s => inject_Z (peak_sram_bytes s)) <$> samples m) / inject_Z n)%Q;
              sum_crypto_mode := crypto_mode first |}
  end.

(** ** Properties *)

(** One round as a caller logs it: the arguments of [start_round] and the
    assignments its [record_*] calls make, in order. *)
Record LoggedRound : Type := {
  lr_time : Q; lr_device : string; lr_round : Z; lr_clients : Z; lr_rate : Q;
  lr_model : Z; lr_chunk : Z; lr_mode : string;
  lr_records : list (MetricSample -> MetricSample);
}.

Definition log_round (r : LoggedRound) : M MetricsLogger unit :=
  _ ← start_round (lr_time r) (lr_device r) (lr_round r) (lr_clients r) (lr_rate r)
        (lr_model r) (lr_chunk r) (lr_mode r);
  for_each (lr_records r) record.

Definition logged_sample (run : string) (r : LoggedRound) : MetricSample :=
  fold_left (fun s f => f s) (lr_records r)
    (new_sample (lr_time r) run (lr_device r) (lr_round r) (lr_clients r) (lr_rate r)
       (lr_model r) (lr_chunk r) (lr_mode r)).

Lemma record_all fs before s m :
  samples m = before ++ [s] -> current_sample m = Some (length before) ->
  for_each fs record m =
  (Ok tt, set_samples (before ++ [fold_left (fun s f => f s) fs s]) (Some (length before)) m).
Proof.
  revert s m. induction fs as [|f fs IH]; intros s m Hs Hc; cbn [for_each fold_left].
  - unfold skip, set_samples. destruct m. cbn in *. by subst.
  - set (m1 := set_samples (before ++ [f s]) (Some (length before)) m).
    rewrite (M_bind_ok _ _ _ tt m1).
    + rewrite (IH (f s)); [by destruct m|done|done].
    + unfold record, modify. rewrite Hc, Hs. unfold m1. do 3 f_equal.
      by rewrite list.alter_app_r_alt, Nat.sub_diag by lia.
Qed.

Lemma log_round_run r m :
  log_round r m =
  (Ok tt, set_samples (samples m ++ [logged_sample (logger_run_id m) r])
            (Some (length (samples m))) m).
Proof.
  unfold log_round.
  set (s0 := new_sample (lr_time r) (logger_run_id m) (lr_device r) (lr_round r) (lr_clients r)
               (lr_rate r) (lr_model r) (lr_chunk r) (lr_mode r)).
  rewrite (M_bind_ok _ _ _ (length (samples m)) (set_samples (samples m ++ [s0]) (Some (length (samples m))) m))
    by done.
  by rewrite (record_all _ (samples m) s0).
Qed.

(** The log of any number of rounds: each round's records reach its own
    sample and no other, in order, and the samples stay in the order the
    rounds were started. *)
Theorem rounds_logged rs m :
  outcome (for_each rs log_round) m = Ok tt /\
  samples (exec (for_each rs log_round) m) = samples m ++ (logged_sample (logger_run_id m) <$> rs) /\
  files (exec (for_each rs log_round) m) = files m /\
  (current_sample m = None -> forall f, exec (record f) m = m).
Proof.
  split; [|split; [|split]].
  4:{ intros Hc f. unfold exec, record, modify. cbn. by rewrite Hc. }
  all: unfold outcome, exec; revert m; induction rs as [|r rs IH]; intros m; cbn [for_each]; try done.
  - rewrite (M_bind_ok _ _ _ _ _ (log_round_run r m)). apply IH.
  - by rewrite app_nil_r.
  - rewrite (M_bind_ok _ _ _ _ _ (log_round_run r m)), IH. cbn. by rewrite <- app_assoc.
  - rewrite (M_bind_ok _ _ _ _ _ (log_round_run r m)), IH. done.
Qed.

Lemma asdict_has_undefaulted s : writerow fieldnames (asdict s) = Err ValueError.
Proof. destruct s. reflexivity. Qed.

Lemma fieldnames_length : length fieldnames = 21%nat.
Proof. reflexivity. Qed.

Lemma csv_json_paths m : metrics_path m "csv" <> metrics_path m "json".
Proof.
  unfold metrics_path. intros Heq. apply (inj _) in Heq. apply (inj _) in Heq.
  apply (inj _) in Heq. discriminate.
Qed.

#[local] Opaque fieldnames metrics_path.

Lemma flush_fails m :
  samples m <> [] -> flush m = (Err ValueError, set_file (metrics_path m "csv") (CsvFile fieldnames []) m).
Proof.
  intros Hne. unfold flush. rewrite (M_bind_ok _ _ _ m m) by done. set (csv := metrics_path m "csv").
  rewrite (M_bind_ok _ _ _ tt (set_file csv (CsvFile fieldnames []) m)) by done.
  destruct (samples m) as [|s ss]; [done|]. cbn [for_each]. apply M_bind_err, M_bind_err.
  unfold write_csv_row. rewrite (M_bind_ok _ _ _ (set_file csv (CsvFile fieldnames []) m) _) by done.
  by rewrite asdict_has_undefaulted.
Qed.

(** [flush] never saves a sample.  The column names are the attributes of
    the class, which lack the nine fields without a default, so the first row
    raises [ValueError]: the CSV file is left with its header only and the
    JSON file is not written.  Without samples it writes two empty files. *)
Theorem flush_saves_nothing m :
  let csv := metrics_path m "csv" in
  let after := exec flush m in
  (samples m <> [] -> outcome flush m = Err ValueError /\
     files after = dict_set csv (CsvFile fieldnames []) (files m)) /\
  (samples m = [] -> outcome flush m = Ok tt /\
     dict_get csv (files after) = Some (CsvFile fieldnames []) /\
     dict_get (metrics_path m "json") (files after) = Some (JsonFile [])) /\
  samples after = samples m /\ length fieldnames = 21%nat.
Proof.
  intros csv after. unfold after, outcome, exec, flush. rewrite (M_bind_ok _ _ _ m m) by done.
  fold csv. rewrite (M_bind_ok _ _ _ tt (set_file csv (CsvFile fieldnames []) m)) by done.
  destruct (samples m) as [|s ss] eqn:E.
  - split; [done|]. split; [|split; [exact E|exact fieldnames_length]]. intros _. cbn [for_each].
    rewrite (M_bind_ok _ _ _ tt (set_file csv (CsvFile fieldnames []) m)) by done. cbn.
    split; [done|]. rewrite dict_get_set_eq, dict_get_set_ne by (apply not_eq_sym, csv_json_paths).
    by rewrite dict_get_set_eq.
  - pose proof (flush_fails m) as Hf. rewrite E in Hf. specialize (Hf ltac:(done)).
    unfold flush in Hf. rewrite (M_bind_ok _ _ _ m m) in Hf by done. fold csv in Hf.
    rewrite (M_bind_ok _ _ _ tt (set_file csv (CsvFile fieldnames []) m)), E in Hf by done.
    rewrite Hf. split; [done|]. split; [done|]. split; [exact E|exact fieldnames_length].
Qed.
