(* ===== verification/Experiment.v ===== *)
(** * Running processes and logging a round

    What the experiment scripts under experiments/ share: an environment for
    child processes, [subprocess.Popen], [terminate] and [poll], the clock,
    and a metrics logger.  Whether a process can be started, whether it is
    still running when asked, and what the clock says are the machine's
    choice, given by an [Oracle]. *)

From Stdlib Require Import ZArith QArith Lia.
From stdpp Require Import prelude strings.
From S2P Require Import Prelude PyDict Metrics.
#[local] Open Scope Z_scope.

(** ** The machine *)

(** The text of an environment variable: a string, or [str] of a number, left
    unevaluated. *)
Inductive Text : Type :=
  | Txt (s : string)
  | OfInt (z : Z)
  | OfFloat (q : Q).

Abbreviation Environ := (list (string * Text)).

(** [signalled]: [terminate()] was called, which sends a signal and returns; what
    the process then does is not known. *)
Record Process : Type := { module_name : string; environ : Environ; signalled : bool }.

(** The n-th [Popen] may raise, the n-th process may have exited by itself
    when it is polled, and the n-th [time.time()] has a value. *)
Record Oracle : Type := {
  popen_error : nat -> option exn;
  has_exited : nat -> bool;
  clock : nat -> Q;
}.

Record World : Type := {
  w_logger : MetricsLogger;
  w_procs : list Process;
  w_popens : nat;
  w_ticks : nat;
}.

Definition set_logger (l : MetricsLogger) (w : World) : World :=
  {| w_logger := l; w_procs := w_procs w; w_popens := w_popens w; w_ticks := w_ticks w |}.
Definition set_procs (l : list Process) (w : World) : World :=
  {| w_logger := w_logger w; w_procs := l; w_popens := w_popens w; w_ticks := w_ticks w |}.
Definition count_popen (w : World) : World :=
  {| w_logger := w_logger w; w_procs := w_procs w; w_popens := S (w_popens w); w_ticks := w_ticks w |}.
Definition tick (w : World) : World :=
  {| w_logger := w_logger w; w_procs := w_procs w; w_popens := w_popens w; w_ticks := S (w_ticks w) |}.

Definition new_world (l : MetricsLogger) : World :=
  {| w_logger := l; w_procs := []; w_popens := 0; w_ticks := 0 |}.

(** [try: m except Exception as e: handler] *)
Definition try_except {S A} (m : M S A) (handler : exn -> M S A) : M S A :=
  fun s => match m s with
           | (Ok a, s') => (Ok a, s')
           | (Err e, s') => handler e s'
           end.

(** A list comprehension, or a loop that appends, over an effectful body. *)
Fixpoint collect {S A B} (l : list A) (f : A -> M S B) : M S (list B) :=
  match l with
  | [] => mret []
  | x :: l' => y ← f x; ys ← collect l' f; mret (y :: ys)
  end.

Section Machine.
Context (O : Oracle).

Definition on_logger {A} (m : M MetricsLogger A) : M World A :=
  fun w => let '(r, l) := m (w_logger w) in (r, set_logger l w).

Definition now : M World Q :=
  w ← gets (fun w => w);
  _ ← modify tick;
  mret (clock O (w_ticks w)).

(** [subprocess.Popen([sys.executable, "-m", name], env=env, ...)] *)
Definition popen (name : string) (env : Environ) : M World nat :=
  w ← gets (fun w => w);
  _ ← modify count_popen;
  match popen_error O (w_popens w) with
  | Some e => raise e
  | None =>
      _ ← modify (fun w => set_procs
                    (w_procs w ++ [{| module_name := name; environ := env; signalled := false |}]) w);
      mret (length (w_procs w))
  end.

Definition terminate_process (p : Process) : Process :=
  {| module_name := module_name p; environ := environ p; signalled := true |}.
Definition terminate (i : nat) : M World unit :=
  modify (fun w => set_procs (alter terminate_process i (w_procs w)) w).

(** [if proc.poll() is None: proc.terminate()] *)
Definition stop (i : nat) : M World unit := if has_exited O i then skip else terminate i.

(** ** One round of an experiment *)

Definition server_module : string := "host_server.protocol_bridge".
Definition client_module : string := "host_server.mock_client".

Definition client_env (env : Environ) (i : nat) : Environ :=
  dict_set "CLIENT_ID" (OfInt (Z.of_nat i + 1)) env.

Definition start_clients (env : Environ) (devices : nat) : M World (list nat) :=
  collect (seq 0 devices) (fun i => popen client_module (client_env env i)).

(** The dictionary a round returns. *)
Record RoundResult : Type := { success : bool; latency_ms : Q; error : option exn }.

Definition elapsed (start_time : Q) : M World Q :=
  t ← now; mret ((t - start_time) * 1000)%Q.

(** The [except] branch. *)
Definition round_failed (start_time : Q) (e : exn) : M World RoundResult :=
  round_latency ← elapsed start_time;
  _ ← on_logger (record_timing round_latency 0 0);
  _ ← on_logger (record_result false 0);
  mret {| success := false; latency_ms := round_latency; error := Some e |}.

(** The [try] branch of a sweep: start the bridge and the clients, wait, log
    the round, stop everything. *)
Definition round_body (env : Environ) (devices : nat) (start_time : Q) : M World RoundResult :=
  server_proc ← popen server_module env;
  client_procs ← start_clients env devices;
  round_latency ← elapsed start_time;
  _ ← on_logger (record_timing round_latency 0 0);
  _ ← on_logger (record_result true 1);
  _ ← terminate server_proc;
  _ ← for_each client_procs stop;
  mret {| success := true; latency_ms := round_latency; error := None |}.

(** The arguments of a [logger.start_round] call. *)
Record Setting : Type := {
  st_device : string; st_round : Z; st_clients : Z; st_rate : Q; st_model : Z; st_chunk : Z;
  st_mode : string;
}.

Definition start_setting (c : Setting) : M World nat :=
  timestamp ← now;
  on_logger (start_round timestamp (st_device c) (st_round c) (st_clients c) (st_rate c)
               (st_model c) (st_chunk c) (st_mode c)).

(** One round of a sweep. *)
Definition sweep_round (env : Environ) (devices : nat) (c : Setting) : M World RoundResult :=
  _ ← start_setting c;
  start_time ← now;
  try_except (round_body env devices start_time) (round_failed start_time).

(** ** How the pieces run *)

Lemma popen_run name env w :
  popen name env w =
  match popen_error O (w_popens w) with
  | Some e => (Err e, count_popen w)
  | None => (Ok (length (w_procs w)),
             set_procs (w_procs w ++ [{| module_name := name; environ := env; signalled := false |}])
               (count_popen w))
  end.
Proof. unfold popen, mbind, M_bind, gets, modify. by destruct (popen_error O (w_popens w)). Qed.

Definition client_process (env : Environ) (i : nat) : Process :=
  {| module_name := client_module; environ := client_env env i; signalled := false |}.
Definition server_process (env : Environ) : Process :=
  {| module_name := server_module; environ := env; signalled := false |}.

(** The world after [k] further successful [Popen]s of the processes [ps]. *)
Definition started (ps : list Process) (w : World) : World :=
  {| w_logger := w_logger w; w_procs := w_procs w ++ ps;
     w_popens := (w_popens w + length ps)%nat; w_ticks := w_ticks w |}.

Lemma started_nil w : started [] w = w.
Proof. unfold started. destruct w. simpl. by rewrite app_nil_r, Nat.add_0_r. Qed.

Lemma started_app ps qs w : started qs (started ps w) = started (ps ++ qs) w.
Proof. unfold started. simpl. by rewrite <- app_assoc, length_app, Nat.add_assoc. Qed.

Lemma popen_ok name env w :
  popen_error O (w_popens w) = None ->
  popen name env w =
  (Ok (length (w_procs w)), started [{| module_name := name; environ := env; signalled := false |}] w).
Proof.
  intros H. rewrite popen_run, H. unfold started. do 2 f_equal. simpl. by rewrite Nat.add_1_r.
Qed.

(** The clients [i, i+1, ..., i+n-1] when no [Popen] fails. *)
Lemma collect_clients_ok env i n w :
  (forall k, (k < n)%nat -> popen_error O (w_popens w + k) = None) ->
  collect (seq i n) (fun i => popen client_module (client_env env i)) w =
  (Ok (seq (length (w_procs w)) n), started (client_process env <$> seq i n) w).
Proof.
  revert i w. induction n as [|n IH]; intros i w H; cbn [seq collect fmap list_fmap].
  - by rewrite started_nil.
  - rewrite (M_bind_ok _ _ _ _ _ (popen_ok _ _ w ltac:(rewrite <- (H 0%nat) by lia; f_equal; lia))).
    fold (client_process env i). set (w1 := started [client_process env i] w).
    rewrite (M_bind_ok _ _ w1 (seq (length (w_procs w1)) n)
               (started (client_process env <$> seq (S i) n) w1)).
    + unfold w1 at 2. rewrite started_app. unfold mret, M_ret. do 4 f_equal.
      unfold w1. simpl. rewrite length_app. simpl. lia.
    + apply IH. intros k Hk. unfold w1. simpl. rewrite <- (H (S k)) by lia. f_equal. lia.
Qed.

(** The same loop up to the first [Popen] that fails. *)
Lemma collect_clients_err env i n w k e :
  (k < n)%nat -> (forall j, (j < k)%nat -> popen_error O (w_popens w + j) = None) ->
  popen_error O (w_popens w + k) = Some e ->
  collect (seq i n) (fun i => popen client_module (client_env env i)) w =
  (Err e, count_popen (started (client_process env <$> seq i k) w)).
Proof.
  revert i w k. induction n as [|n IH]; intros i w k Hk Hok He; [lia|]. cbn [seq collect].
  destruct k as [|k]; cbn [seq fmap list_fmap].
  - rewrite started_nil. apply M_bind_err. rewrite popen_run.
    rewrite Nat.add_0_r in He. by rewrite He.
  - rewrite (M_bind_ok _ _ _ _ _ (popen_ok _ _ w ltac:(rewrite <- (Hok 0%nat) by lia; f_equal; lia))).
    fold (client_process env i). apply M_bind_err. set (w1 := started [client_process env i] w).
    rewrite (IH (S i) w1 k).
    + unfold w1. by rewrite started_app.
    + lia.
    + intros j Hj. unfold w1. simpl. rewrite <- (Hok (S j)) by lia. f_equal. lia.
    + unfold w1. simpl. rewrite <- He. f_equal. lia.
Qed.

(** What [stop] makes of the i-th process: it is signalled unless it had exited
    when it was polled. *)
Definition told (i : nat) (p : Process) : Process := if has_exited O i then p else terminate_process p.

Lemma stop_run i w :
  stop i w = (Ok tt, set_procs (if has_exited O i then w_procs w
                               else alter terminate_process i (w_procs w)) w).
Proof.
  unfold stop. destruct (has_exited O i); [|done]. unfold skip, set_procs. by destruct w.
Qed.

Lemma stop_all l w :
  NoDup l ->
  exists procs, for_each l stop w = (Ok tt, set_procs procs w) /\
    (forall i, i ∈ l -> procs !! i = told i <$> w_procs w !! i) /\
    (forall i, i ∉ l -> procs !! i = w_procs w !! i).
Proof.
  intros Hnd. revert w. induction Hnd as [|i l Hi Hnd IH]; intros w.
  - exists (w_procs w). split; [by destruct w|]. by split; [set_solver|].
  - set (procs1 := if has_exited O i then w_procs w else alter terminate_process i (w_procs w)).
    destruct (IH (set_procs procs1 w)) as (procs & Hrun & Hin & Hout). exists procs.
    cbn [for_each]. rewrite (M_bind_ok _ _ _ _ _ (stop_run i w)). fold procs1. rewrite Hrun.
    split; [by destruct w|]. cbn [w_procs set_procs] in Hin, Hout. split.
    + intros j [->|Hj]%elem_of_cons.
      * rewrite Hout by done. unfold procs1, told. destruct (has_exited O i); [by destruct (w_procs w !! i)|].
        apply list_lookup_alter_eq.
      * rewrite Hin by done. f_equal. unfold procs1. destruct (has_exited O i); [done|].
        apply list_lookup_alter_ne. congruence.
    + intros j Hj. rewrite Hout by set_solver. unfold procs1.
      destruct (has_exited O i); [done|]. apply list_lookup_alter_ne. set_solver.
Qed.

(** The processes of a round at its end, the first of them the n-th of all. *)
Definition round_processes (env : Environ) (devices n : nat) : list Process :=
  terminate_process (server_process env) ::
  ((fun i => told (S n + i) (client_process env i)) <$> seq 0 devices).

Lemma told_clients_lookup env devices n j :
  ((fun i => told (S n + i) (client_process env i)) <$> seq 0 devices) !! j =
  told (S n + j) <$> (client_process env <$> seq 0 devices) !! j.
Proof.
  rewrite !list_lookup_fmap.
  destruct (decide (j < devices)%nat); [by rewrite !lookup_seq_lt|by rewrite !lookup_seq_ge by lia].
Qed.

(** The sample of a round that started at the n-th tick. *)
Definition round_sample (run : string) (t : nat) (c : Setting) (latency : Q) (ok : bool) (accuracy : Q)
    : MetricSample :=
  logged_sample run
    {| lr_time := clock O t; lr_device := st_device c; lr_round := st_round c;
       lr_clients := st_clients c; lr_rate := st_rate c; lr_model := st_model c;
       lr_chunk := st_chunk c; lr_mode := st_mode c;
       lr_records := [with_timing latency 0 0; with_result ok accuracy] |}.

(** The [start_round] call and the two records of a round, on the logger. *)
Definition logged (w : World) (c : Setting) (latency : Q) (ok : bool) (accuracy : Q) : MetricsLogger :=
  let l := w_logger w in
  Metrics.set_samples (samples l ++ [round_sample (logger_run_id l) (w_ticks w) c latency ok accuracy])
    (Some (length (samples l))) l.

(** The world after [start_setting] and the reading of [start_time]. *)
Definition opened (w : World) (c : Setting) : World :=
  let l := w_logger w in
  {| w_logger := Metrics.set_samples
       (samples l ++ [new_sample (clock O (w_ticks w)) (logger_run_id l) (st_device c) (st_round c)
                        (st_clients c) (st_rate c) (st_model c) (st_chunk c) (st_mode c)])
       (Some (length (samples l))) l;
     w_procs := w_procs w; w_popens := w_popens w; w_ticks := S (S (w_ticks w)) |}.

(** The time between the second and the third reading of the clock. *)
Definition round_time (w : World) : Q := ((clock O (S (S (w_ticks w))) - clock O (S (w_ticks w))) * 1000)%Q.

Lemma sweep_round_opened env devices c w :
  sweep_round env devices c w =
  try_except (round_body env devices (clock O (S (w_ticks w))))
    (round_failed (clock O (S (w_ticks w)))) (opened w c).
Proof. reflexivity. Qed.

(** Two records on the sample of the current round. *)
Lemma records_on_logger (w w1 : World) c lat ok acc :
  w_logger w1 = w_logger (opened w c) ->
  exec (record_result ok acc) (exec (record_timing lat 0 0) (w_logger w1)) = logged w c lat ok acc.
Proof.
  intros ->. unfold exec, record_result, record_timing, record, modify, opened. cbn [w_logger fst snd].
  cbn [current_sample Metrics.set_samples samples].
  rewrite !list.alter_app_r_alt, !Nat.sub_diag by lia. done.
Qed.

(** The world of a round just before its clients are told to stop. *)
Definition before_stop env devices c (w : World) : World :=
  {| w_logger := logged w c (round_time w) true 1;
     w_procs := w_procs w ++ terminate_process (server_process env) ::
                  (client_process env <$> seq 0 devices);
     w_popens := (w_popens w + S devices)%nat;
     w_ticks := S (S (S (w_ticks w))) |}.

Lemma round_body_run env devices c w w' :
  (forall k, (k <= devices)%nat -> popen_error O (w_popens w + k) = None) ->
  for_each (seq (S (length (w_procs w))) devices) stop (before_stop env devices c w) = (Ok tt, w') ->
  sweep_round env devices c w =
    (Ok {| success := true; latency_ms := round_time w; error := None |}, w').
Proof.
  intros Hok Hstop. rewrite sweep_round_opened. set (w0 := opened w c).
  set (w1 := started [server_process env] w0).
  set (w2 := started (client_process env <$> seq 0 devices) w1).
  set (w3 := tick w2). set (n := length (w_procs w)).
  set (w4 := set_logger (logged w c (round_time w) true 1) w3).
  unfold try_except, round_body.
  rewrite (M_bind_ok _ _ w0 n w1)
    by (apply popen_ok; rewrite <- (Hok 0%nat) by lia; unfold w0; simpl; f_equal; lia).
  rewrite (M_bind_ok _ _ w1 (seq (S n) devices) w2).
  2:{ unfold start_clients. rewrite collect_clients_ok.
      - unfold w1 at 1. simpl. rewrite length_app. simpl. by rewrite Nat.add_1_r.
      - intros k Hk. unfold w1, w0. simpl. rewrite <- (Hok (S k)) by lia. f_equal. lia. }
  rewrite (M_bind_ok _ _ w2 (round_time w) w3) by done.
  rewrite (M_bind_ok _ _ w3 tt (set_logger (exec (record_timing (round_time w) 0 0) (w_logger w3)) w3)) by done.
  rewrite (M_bind_ok _ _ _ tt w4) by (unfold w4; by rewrite <- (records_on_logger w w3 c (round_time w) true 1)).
  rewrite (M_bind_ok _ _ w4 tt (before_stop env devices c w)).
  2:{ unfold terminate, modify, before_stop, set_procs, w4, w3, w2, w1, w0. simpl.
      rewrite <- app_assoc, list.alter_app_r_alt, Nat.sub_diag by lia. simpl.
      rewrite length_fmap, length_seq.
      assert (w_popens w + 1 + devices = w_popens w + S devices)%nat as -> by lia. done. }
  by rewrite (M_bind_ok _ _ _ tt w').
Qed.

(** C40: a round whose processes can all be started.  It reports success, logs
    one sample marked successful with accuracy 1 and the measured time,
    whatever the bridge and the clients did.  Exactly one bridge process and one
    client per device, client i with CLIENT_ID i + 1 in the round's environment,
    were started; at the end the bridge has been sent the termination signal,
    and so has every client that had not exited when it was polled.  The code
    does not wait for any of them, so nothing is said of whether they still run;
    processes of earlier rounds are left as they were. *)
Theorem round_success env devices c w :
  (forall k, (k <= devices)%nat -> popen_error O (w_popens w + k) = None) ->
  exists w',
    sweep_round env devices c w =
      (Ok {| success := true; latency_ms := round_time w; error := None |}, w') /\
    w_logger w' = logged w c (round_time w) true 1 /\
    w_popens w' = (w_popens w + S devices)%nat /\
    w_procs w' = w_procs w ++ round_processes env devices (length (w_procs w)).
Proof.
  intros Hok. set (n := length (w_procs w)). set (w5 := before_stop env devices c w).
  destruct (stop_all (seq (S n) devices) w5) as (procs & Hstop & Hin & Hout); [apply NoDup_seq|].
  exists (set_procs procs w5). split; [by apply round_body_run|]. split; [done|]. split; [done|].
  cbn [w_procs set_procs]. apply list_eq. intros i. unfold w5 in Hin, Hout. cbn [w_procs before_stop] in *.
  destruct (decide (i < n)%nat) as [Hi|Hi].
  { rewrite Hout by (rewrite elem_of_seq; lia). by rewrite !lookup_app_l. }
  rewrite (lookup_app_r _ (round_processes _ _ _)) by lia.
  destruct (i - length (w_procs w))%nat as [|j] eqn:Ej.
  { rewrite Hout, lookup_app_r, Ej by (rewrite ?elem_of_seq; lia). done. }
  etransitivity; [|symmetry; exact (told_clients_lookup env devices n j)].
  assert (Hrest : forall p ps, (w_procs w ++ p :: ps) !! i = ps !! j).
  { intros p ps. rewrite lookup_app_r by lia. by rewrite Ej. }
  destruct (decide (j < devices)%nat) as [Hj|Hj].
  - rewrite Hin, Hrest by (rewrite elem_of_seq; lia). by replace i with (S n + j)%nat by lia.
  - rewrite Hout, Hrest by (rewrite elem_of_seq; lia). by rewrite list_lookup_fmap, lookup_seq_ge by lia.
Qed.

(** The world of a round whose [k]-th [Popen] raised. *)
Definition leaking env devices c (k : nat) (w : World) : World :=
  set_logger (logged w c (round_time w) false 0)
    (tick (count_popen (started (take k (server_process env :: (client_process env <$> seq 0 devices)))
                          (opened w c)))).

Lemma round_failure_run env devices c w k e :
  (k <= devices)%nat -> (forall j, (j < k)%nat -> popen_error O (w_popens w + j) = None) ->
  popen_error O (w_popens w + k) = Some e ->
  sweep_round env devices c w =
    (Ok {| success := false; latency_ms := round_time w; error := Some e |}, leaking env devices c k w).
Proof.
  intros Hk Hok He. rewrite sweep_round_opened. set (w0 := opened w c).
  set (ps := take k (server_process env :: (client_process env <$> seq 0 devices))).
  set (wf := count_popen (started ps w0)).
  assert (round_body env devices (clock O (S (w_ticks w))) w0 = (Err e, wf)) as Hbody.
  { unfold round_body. destruct k as [|k].
    - apply M_bind_err. rewrite popen_run. unfold wf, ps. simpl take. rewrite started_nil.
      rewrite Nat.add_0_r in He. unfold w0. simpl. by rewrite He.
    - set (w1 := started [server_process env] w0).
      rewrite (M_bind_ok _ _ w0 (length (w_procs w)) w1)
        by (apply popen_ok; rewrite <- (Hok 0%nat) by lia; unfold w0; simpl; f_equal; lia).
      apply M_bind_err. unfold start_clients. rewrite (collect_clients_err env 0 devices w1 k e).
      + unfold wf, w1, ps. rewrite started_app. cbn [take app]. rewrite <- fmap_take, take_seq, Nat.min_l by lia.
        done.
      + lia.
      + intros j Hj. unfold w1, w0. simpl. rewrite <- (Hok (S j)) by lia. f_equal. lia.
      + unfold w1, w0. simpl. rewrite <- He. f_equal. lia. }
  unfold try_except. rewrite Hbody. unfold round_failed.
  rewrite (M_bind_ok _ _ wf (round_time w) (tick wf)) by done.
  rewrite (M_bind_ok _ _ (tick wf) tt (set_logger (exec (record_timing (round_time w) 0 0) (w_logger (tick wf))) (tick wf)))
    by done.
  rewrite (M_bind_ok _ _ _ tt (set_logger (logged w c (round_time w) false 0) (tick wf))); [done|].
  by rewrite <- (records_on_logger w (tick wf) c (round_time w) false 0).
Qed.

(** A round in which some [Popen] raises.  The exception is caught, one
    sample marked unsuccessful is logged, and the processes that were started
    before it, the bridge among them, are left running. *)
Theorem round_failure_leaks env devices c w k e :
  (k <= devices)%nat -> (forall j, (j < k)%nat -> popen_error O (w_popens w + j) = None) ->
  popen_error O (w_popens w + k) = Some e ->
  exists w',
    sweep_round env devices c w =
      (Ok {| success := false; latency_ms := round_time w; error := Some e |}, w') /\
    w_logger w' = logged w c (round_time w) false 0 /\
    w_procs w' = w_procs w ++ take k (server_process env :: (client_process env <$> seq 0 devices)) /\
    Forall (fun p => signalled p = false) (drop (length (w_procs w)) (w_procs w')).
Proof.
  intros Hk Hok He. exists (leaking env devices c k w). split; [by apply round_failure_run|].
  split; [done|]. split; [done|]. cbn. rewrite drop_app_length. apply Forall_take.
  constructor; [done|]. apply Forall_fmap, Forall_forall. done.
Qed.

Lemma first_failure base n :
  ~ Forall (fun k => popen_error O (base + k) = None) (seq 0 n) ->
  exists k e, (k < n)%nat /\ (forall j, (j < k)%nat -> popen_error O (base + j) = None) /\
    popen_error O (base + k) = Some e.
Proof.
  induction n as [|n IH]; intros Hnot; [by destruct Hnot|].
  destruct (decide (Forall (fun k => popen_error O (base + k) = None) (seq 0 n))) as [Hall|Hnot'].
  - destruct (popen_error O (base + n)) as [e|] eqn:E.
    + exists n, e. split; [lia|]. split; [|done]. rewrite Forall_forall in Hall.
      intros j Hj. apply Hall, elem_of_seq. lia.
    + destruct Hnot. rewrite seq_S. apply Forall_app. split; [done|]. by constructor.
  - destruct (IH Hnot') as (k & e & Hk & Hb & He). exists k, e. split; [lia|]. by split.
Qed.

(** What is on disk does not change during a round, and its sample is logged
    whatever happens. *)
Lemma sweep_round_logs env devices c w :
  exists res w', sweep_round env devices c w = (Ok res, w') /\
    w_logger w' = logged w c (round_time w) (success res) (if success res then 1 else 0)%Q.
Proof.
  destruct (decide (Forall (fun k => popen_error O (w_popens w + k) = None) (seq 0 (S devices))))
    as [Hall|Hnot].
  - rewrite Forall_forall in Hall. destruct (stop_all (seq (S (length (w_procs w))) devices) (before_stop env devices c w))
      as (procs & Hstop & _); [apply NoDup_seq|].
    rewrite (round_body_run env devices c w _ ltac:(intros k Hk; apply Hall, elem_of_seq; lia) Hstop).
    by eexists _, _.
  - destruct (first_failure (w_popens w) (S devices)) as (k & e & Hk & Hbefore & He); [done|].
    rewrite (round_failure_run env devices c w k e) by (done || lia). by eexists _, _.
Qed.

End Machine.

(** ** Concrete inputs *)

(** A machine on which the [Popen]s from the [k]-th on fail and no process
    exits by itself. *)
Definition machine (k : nat) : Oracle :=
  {| popen_error := fun i => if (i <? k)%nat then None else Some (LibError 2);
     has_exited := fun _ => false; clock := fun i => inject_Z (Z.of_nat i) |}.

Definition sample_setting : Setting := {|
  st_device := "server"; st_round := 0; st_clients := 2; st_rate := 0; st_model := 1024;
  st_chunk := 128; st_mode := "pqc" |}.

Lemma round_success_witness :
  exists w', sweep_round (machine 10) [] 2 sample_setting (new_world (create_logger "r")) =
    (Ok {| success := true; latency_ms := round_time (machine 10) (new_world (create_logger "r"));
           error := None |}, w') /\
    w_procs w' = [{| module_name := server_module; environ := []; signalled := true |};
                  {| module_name := client_module; environ := [("CLIENT_ID", OfInt 1)]; signalled := true |};
                  {| module_name := client_module; environ := [("CLIENT_ID", OfInt 2)]; signalled := true |}].
Proof.
  destruct (round_success (machine 10) [] 2 sample_setting (new_world (create_logger "r")))
    as (w' & Hr & _ & _ & Hl).
  - intros k Hk. cbn -[Nat.ltb]. by rewrite (proj2 (Nat.ltb_lt _ _)) by lia.
  - exists w'. split; [exact Hr|exact Hl].
Defined.

Lemma round_failure_leaks_witness :
  exists w', sweep_round (machine 2) [] 2 sample_setting (new_world (create_logger "r")) =
    (Ok {| success := false; latency_ms := round_time (machine 2) (new_world (create_logger "r"));
           error := Some (LibError 2) |}, w') /\
    w_procs w' = [server_process []; client_process [] 0].
Proof.
  destruct (round_failure_leaks (machine 2) [] 2 sample_setting (new_world (create_logger "r")) 2
              (LibError 2)) as (w' & Hr & _ & Hp & _).
  - lia.
  - intros j Hj. cbn -[Nat.ltb]. by rewrite (proj2 (Nat.ltb_lt _ _)) by lia.
  - done.
  - exists w'. split; [exact Hr|exact Hp].
Defined.
