(* ===== verification/Sweeps.v ===== *)
(** * The sweep scripts and their driver

    experiments/scripts/: run_variant_comparison.py, run_model_scaling.py,
    run_chunk_optimization.py and run_dropout_sweep.py, one module each, and
    the HEAD side of run_all_experiments.py.  Each script contains a line
    break inside a string literal; it is read as the escape [\n] it stands
    for in the output. *)

From Stdlib Require Import ZArith QArith Lia Ascii.
From stdpp Require Import prelude strings pretty.
From S2P Require Import Prelude PyDict Metrics Experiment.
#[local] Open Scope Z_scope.

(** ** The common main loop *)

(** [int(t)] of a time. *)
Definition int_of_time (t : Q) : Z := Qnum t / Zpos (Qden t).

(** A logger that writes to an existing directory. *)
Definition mount (disk : list (string * File)) (m : MetricsLogger) : MetricsLogger :=
  {| logger_run_id := logger_run_id m; output_dir := output_dir m; samples := samples m;
     current_sample := current_sample m; files := disk |}.

Section Main.
Context (O : Oracle).

(** [for x in values: for round_num in range(n): await run(x, round_num)] *)
Definition sweep_loop {X} (values : list X) (n : nat) (run : X -> Z -> M World RoundResult)
    : M World unit :=
  for_each values (fun x => for_each (seq 0 n) (fun r => _ ← run x (Z.of_nat r); skip)).

(** The end of [main]: write the files, then summarise. *)
Definition sweep_end : M World (option Summary) :=
  _ ← on_logger flush;
  on_logger (gets get_summary).

(** [main]: a logger named after the time, the loops, the files. *)
Definition sweep_main {X} (prefix : string) (values : list X) (n : nat)
    (run : X -> Z -> M World RoundResult) (disk : list (string * File))
    : result (option Summary) * World :=
  let run_id := (prefix ++ pretty (int_of_time (clock O 0)))%string in
  let w := tick (new_world (mount disk (create_logger run_id))) in
  (_ ← sweep_loop values n run; sweep_end) w.
End Main.

(** The variables every sweep sets, in the order it sets them. *)
Definition set_sizes (device_count : Z) (dropout_rate : Q) (chunk_size model_size round_num : Z)
    (env : Environ) : Environ :=
  dict_set "ROUND_NUM" (OfInt round_num)
    (dict_set "MODEL_SIZE" (OfInt model_size)
      (dict_set "CHUNK_SIZE" (OfInt chunk_size)
        (dict_set "DROPOUT_RATE" (OfFloat dropout_rate)
          (dict_set "DEVICE_COUNT" (OfInt device_count) env)))).

(** ** The four scripts *)

Module ChunkOptimization.
Definition CHUNK_SIZES : list Z := [64; 128; 256; 512; 1024].
Definition DEVICE_COUNT : Z := 5.
Definition DROPOUT_RATE : Q := 0.
Definition MODEL_SIZE : Z := 102400.
Definition CRYPTO_MODE : string := "pqc".
Definition ROUNDS_PER_CHUNK : nat := 3.
Definition setting (chunk_size round_num : Z) : Setting := {|
  st_device := "server"; st_round := round_num; st_clients := DEVICE_COUNT; st_rate := DROPOUT_RATE;
  st_model := MODEL_SIZE; st_chunk := chunk_size; st_mode := CRYPTO_MODE |}.
Definition run_chunk_size (O : Oracle) (base : Environ) (chunk_size round_num : Z) : M World RoundResult :=
  let env := set_sizes DEVICE_COUNT DROPOUT_RATE chunk_size MODEL_SIZE round_num
               (dict_set "CRYPTO_MODE" (Txt CRYPTO_MODE) base) in
  sweep_round O env (Z.to_nat DEVICE_COUNT) (setting chunk_size round_num).
Definition main (O : Oracle) (base : Environ) :=
  sweep_main O "chunk_opt_" CHUNK_SIZES ROUNDS_PER_CHUNK (run_chunk_size O base).
End ChunkOptimization.

Module DropoutSweep.
Definition DROPOUT_RATES : list Q := [0; 1#10; 2#10; 3#10; 4#10; 5#10]%Q.
Definition DEVICE_COUNT : Z := 50.
Definition CHUNK_SIZE : Z := 128.
Definition MODEL_SIZE : Z := 10240.
Definition CRYPTO_MODE : string := "pqc".
Definition ROUNDS_PER_RATE : nat := 3.
Definition setting (dropout_rate : Q) (round_num : Z) : Setting := {|
  st_device := "server"; st_round := round_num; st_clients := DEVICE_COUNT; st_rate := dropout_rate;
  st_model := MODEL_SIZE; st_chunk := CHUNK_SIZE; st_mode := CRYPTO_MODE |}.
(** The rate is passed to the processes and logged; nothing is stopped early. *)
Definition run_dropout_rate (O : Oracle) (base : Environ) (dropout_rate : Q) (round_num : Z)
    : M World RoundResult :=
  let env := set_sizes DEVICE_COUNT dropout_rate CHUNK_SIZE MODEL_SIZE round_num
               (dict_set "CRYPTO_MODE" (Txt CRYPTO_MODE) base) in
  sweep_round O env (Z.to_nat DEVICE_COUNT) (setting dropout_rate round_num).
Definition main (O : Oracle) (base : Environ) :=
  sweep_main O "dropout_sweep_" DROPOUT_RATES ROUNDS_PER_RATE (run_dropout_rate O base).
End DropoutSweep.

Module ModelScaling.
Definition MODEL_SIZES : list Z := [10240; 51200; 102400; 256000; 512000; 1048576].
Definition DEVICE_COUNT : Z := 5.
Definition DROPOUT_RATE : Q := 0.
Definition CHUNK_SIZE : Z := 128.
Definition CRYPTO_MODE : string := "pqc".
Definition ROUNDS_PER_SIZE : nat := 3.
Definition setting (model_size round_num : Z) : Setting := {|
  st_device := "server"; st_round := round_num; st_clients := DEVICE_COUNT; st_rate := DROPOUT_RATE;
  st_model := model_size; st_chunk := CHUNK_SIZE; st_mode := CRYPTO_MODE |}.
Definition run_model_size (O : Oracle) (base : Environ) (model_size round_num : Z) : M World RoundResult :=
  let env := set_sizes DEVICE_COUNT DROPOUT_RATE CHUNK_SIZE model_size round_num
               (dict_set "CRYPTO_MODE" (Txt CRYPTO_MODE) base) in
  sweep_round O env (Z.to_nat DEVICE_COUNT) (setting model_size round_num).
Definition main (O : Oracle) (base : Environ) :=
  sweep_main O "model_scaling_" MODEL_SIZES ROUNDS_PER_SIZE (run_model_size O base).
End ModelScaling.

Module VariantComparison.
Definition VARIANTS : list (string * string) :=
  [("ML-KEM-512", "KEMLIB_ML_KEM_512"); ("ML-KEM-768", "KEMLIB_ML_KEM_768");
   ("ML-KEM-1024", "KEMLIB_ML_KEM_1024")].
Definition DEVICE_COUNT : Z := 5.
Definition DROPOUT_RATE : Q := 0.
Definition CHUNK_SIZE : Z := 128.
Definition MODEL_SIZE : Z := 10240.
Definition ROUNDS_PER_VARIANT : nat := 3.
Definition setting (variant : string * string) (round_num : Z) : Setting := {|
  st_device := "server"; st_round := round_num; st_clients := DEVICE_COUNT; st_rate := DROPOUT_RATE;
  st_model := MODEL_SIZE; st_chunk := CHUNK_SIZE; st_mode := fst variant |}.
(** [env.update({"KEM_VARIANT": variant_env_val})] comes first, the mode last. *)
Definition run_variant (O : Oracle) (base : Environ) (variant : string * string) (round_num : Z)
    : M World RoundResult :=
  let env := dict_set "CRYPTO_MODE" (Txt "pqc")
               (set_sizes DEVICE_COUNT DROPOUT_RATE CHUNK_SIZE MODEL_SIZE round_num
                 (dict_set "KEM_VARIANT" (Txt (snd variant)) base)) in
  sweep_round O env (Z.to_nat DEVICE_COUNT) (setting variant round_num).
Definition main (O : Oracle) (base : Environ) :=
  sweep_main O "variant_cmp_" VARIANTS ROUNDS_PER_VARIANT (run_variant O base).
End VariantComparison.

(** ** The driver *)

Inductive Script := VARIANT_COMPARISON | MODEL_SCALING | CHUNK_OPTIMIZATION | DROPOUT_SWEEP.

Definition SCRIPTS : list Script :=
  [VARIANT_COMPARISON; MODEL_SCALING; CHUNK_OPTIMIZATION; DROPOUT_SWEEP].

Definition script_name (s : Script) : string :=
  match s with
  | VARIANT_COMPARISON => "run_variant_comparison.py"
  | MODEL_SCALING => "run_model_scaling.py"
  | CHUNK_OPTIMIZATION => "run_chunk_optimization.py"
  | DROPOUT_SWEEP => "run_dropout_sweep.py"
  end.

Definition script_main (s : Script) :=
  match s with
  | VARIANT_COMPARISON => VariantComparison.main
  | MODEL_SCALING => ModelScaling.main
  | CHUNK_OPTIMIZATION => ChunkOptimization.main
  | DROPOUT_SWEEP => DropoutSweep.main
  end.

Definition REQUIRED_KEYS : list string :=
  ["run_id"; "round_id"; "mlkem_variant"; "peak_sram_bytes"; "recovery_latency_ms"; "round_latency_ms"].

Abbreviation Disk := (list (string * File)).

(** A missing file raises and is invalid. *)
Definition validate_csv (disk : Disk) (csv_path : string) : bool :=
  match dict_get csv_path disk with
  | Some (CsvFile header _) =>
      negb (bool_decide (header = [])) && forallb (fun key => bool_decide (key ∈ header)) REQUIRED_KEYS
  | _ => false
  end.

(** [script.split('_')[1][0]] *)
Fixpoint after_underscore (s : string) : string :=
  match s with
  | EmptyString => EmptyString
  | String c s' => if Ascii.eqb c "_"%char then s' else after_underscore s'
  end.
Definition csv_letter (name : string) : result ascii :=
  match after_underscore name with
  | EmptyString => Err IndexError
  | String c _ => if Ascii.eqb c "_"%char then Err IndexError else Ok c
  end.
Definition RESULTS_DIR : string := "C:\DROP\experiments\results".
Definition csv_path_of (name : string) : result string :=
  c ← csv_letter name;
  Ok (RESULTS_DIR ++ "\experiment_" ++ String c ".csv")%string.

Section Driver.
(** Whether the script's file is missing or its process cannot be run to its
    end, and the machine each script runs on. *)
Context (unavailable : Script -> bool) (machine : Script -> Oracle) (base : Environ).

(** [run_script]: the script's exit status is zero when its [main] returns. *)
Definition run_script (s : Script) (disk : Disk) : bool * Disk :=
  if unavailable s then (false, disk)
  else let '(r, w) := script_main s (machine s) base disk in (is_ok r, files (w_logger w)).

(** [main]: the exit status, the disk, and the scripts that were run. *)
Fixpoint run_scripts (l : list Script) (disk : Disk) : result Z * Disk * list Script :=
  match l with
  | [] => (Ok 0, disk, [])
  | s :: l' =>
      let '(ok, disk) := run_script s disk in
      if ok then
        match csv_path_of (script_name s) with
        | Err e => (Err e, disk, [s])
        | Ok path =>
            if validate_csv disk path
            then let '(status, disk, ran) := run_scripts l' disk in (status, disk, s :: ran)
            else (Ok 1, disk, [s])
        end
      else (Ok 1, disk, [s])
  end.
Definition main (disk : Disk) : result Z * Disk * list Script := run_scripts SCRIPTS disk.
End Driver.

(** ** What a sweep leaves behind *)

(** The configuration a sample records. *)
Definition setting_of (s : MetricSample) : Setting := {|
  st_device := device_id s; st_round := round_id s; st_clients := num_clients s;
  st_rate := dropout_rate s; st_model := model_size_bytes s; st_chunk := chunk_size_bytes s;
  st_mode := crypto_mode s |}.

(** The logger [m'] is [m] with samples of the configurations [cs] added. *)
Definition extends (m m' : MetricsLogger) (cs : list Setting) : Prop :=
  setting_of <$> samples m' = (setting_of <$> samples m) ++ cs /\
  files m' = files m /\ output_dir m' = output_dir m /\ logger_run_id m' = logger_run_id m.

Lemma extends_refl m : extends m m [].
Proof. split; [by rewrite app_nil_r|done]. Qed.

Lemma extends_trans m1 m2 m3 cs ds : extends m1 m2 cs -> extends m2 m3 ds -> extends m1 m3 (cs ++ ds).
Proof.
  unfold extends. intros (H1 & Hf & Hd & Hi) (H2 & -> & -> & ->). split; [|done]. by rewrite H2, H1, app_assoc.
Qed.

(** Every configuration of a sweep, in the order it runs them. *)
Definition configurations {X} (values : list X) (n : nat) (setting : X -> Z -> Setting) : list Setting :=
  values ≫= fun x => (fun r => setting x (Z.of_nat r)) <$> seq 0 n.

Lemma list_fmap_bind_singleton {A B} (f : A -> B) l : (l ≫= fun x => [f x]) = f <$> l.
Proof. induction l as [|x l IH]; [done|]. cbn. by f_equal. Qed.

(** A loop whose every pass adds the samples [cs x]. *)
Lemma for_each_extends {X} (l : list X) (body : X -> M World unit) (cs : X -> list Setting) :
  (forall x w, exists w', body x w = (Ok tt, w') /\ extends (w_logger w) (w_logger w') (cs x)) ->
  forall w, exists w', for_each l body w = (Ok tt, w') /\
    extends (w_logger w) (w_logger w') (l ≫= cs).
Proof.
  intros Hbody. induction l as [|x l IH]; intros w.
  - exists w. split; [done|apply extends_refl].
  - destruct (Hbody x w) as (w1 & Hrun & Hext1). destruct (IH w1) as (w2 & Hrest & Hext2).
    exists w2. cbn [for_each]. rewrite (M_bind_ok _ _ w tt w1) by done. split; [done|].
    exact (extends_trans _ _ _ _ _ Hext1 Hext2).
Qed.

(** The end of a [main] that has logged something. *)
Lemma sweep_end_fails w m cs :
  extends m (w_logger w) cs -> cs <> [] ->
  exists w', sweep_end w = (Err ValueError, w') /\ samples (w_logger w') = samples (w_logger w) /\
    files (w_logger w') = dict_set (metrics_path m "csv") (CsvFile fieldnames []) (files m).
Proof.
  intros (Hs & Hf & Hd & Hid) Hne. assert (samples (w_logger w) <> []) as Hsne.
  { intros E. rewrite E in Hs. cbn in Hs. by apply eq_sym, app_nil in Hs as [_ ->]. }
  exists (set_logger (set_file (metrics_path (w_logger w) "csv") (CsvFile fieldnames []) (w_logger w)) w).
  split; [|split; [done|]].
  - unfold sweep_end. apply M_bind_err. unfold on_logger. by rewrite flush_fails.
  - cbn [w_logger set_logger files set_file]. rewrite Hf. unfold metrics_path. by rewrite Hd, Hid.
Qed.

Section Loop.
Context (O : Oracle) {X : Type} (run : X -> Z -> M World RoundResult) (setting : X -> Z -> Setting).
Hypothesis run_logs : forall x r w,
  exists res w' lat ok acc, run x r w = (Ok res, w') /\
    w_logger w' = logged O w (setting x r) lat ok acc.

Lemma logged_extends w c lat ok acc : extends (w_logger w) (logged O w c lat ok acc) [c].
Proof.
  split; [|done]. unfold logged. cbn [samples Metrics.set_samples]. rewrite fmap_app. f_equal.
  cbn. by destruct c.
Qed.

Lemma sweep_loop_extends values n w :
  exists w', sweep_loop values n run w = (Ok tt, w') /\
    extends (w_logger w) (w_logger w') (configurations values n setting).
Proof.
  apply for_each_extends. intros x w0.
  destruct (for_each_extends (seq 0 n) (fun r => _ ← run x (Z.of_nat r); skip)
              (fun r => [setting x (Z.of_nat r)])) with (w := w0) as (w1 & Hrun & Hext).
  - intros r w2. destruct (run_logs x (Z.of_nat r) w2) as (res & w3 & lat & ok & acc & Hrun & Hl).
    exists w3. rewrite (M_bind_ok _ _ w2 res w3) by done. split; [done|]. rewrite Hl.
    apply logged_extends.
  - exists w1. split; [done|]. rewrite <- (list_fmap_bind_singleton (fun r => setting x (Z.of_nat r))). done.
Qed.

(** The file names of a sweep. *)
Definition sweep_csv (prefix : string) : string :=
  ("experiments/results/" ++ (prefix ++ pretty (int_of_time (clock O 0%nat))) ++ "_metrics.csv")%string.

Lemma sweep_main_eq prefix values n disk :
  configurations values n setting <> [] ->
  exists w, sweep_main O prefix values n run disk = (Err ValueError, w) /\
    setting_of <$> samples (w_logger w) = configurations values n setting /\
    files (w_logger w) = dict_set (sweep_csv prefix) (CsvFile fieldnames []) disk.
Proof.
  intros Hne. unfold sweep_main. set (w0 := tick _).
  destruct (sweep_loop_extends values n w0) as (w1 & Hrun & Hext).
  rewrite (M_bind_ok _ _ w0 tt w1) by done.
  destruct (sweep_end_fails w1 (w_logger w0) _ Hext Hne) as (w2 & Hend & Hs & Hf).
  exists w2. split; [done|]. split; [|exact Hf]. rewrite Hs. apply Hext.
Qed.
End Loop.

(** Every script's configurations, and the prefix of its files. *)
Definition script_configurations (s : Script) : list Setting :=
  match s with
  | VARIANT_COMPARISON => configurations VariantComparison.VARIANTS 3 VariantComparison.setting
  | MODEL_SCALING => configurations ModelScaling.MODEL_SIZES 3 ModelScaling.setting
  | CHUNK_OPTIMIZATION => configurations ChunkOptimization.CHUNK_SIZES 3 ChunkOptimization.setting
  | DROPOUT_SWEEP => configurations DropoutSweep.DROPOUT_RATES 3 DropoutSweep.setting
  end.

Definition script_prefix (s : Script) : string :=
  match s with
  | VARIANT_COMPARISON => "variant_cmp_"
  | MODEL_SCALING => "model_scaling_"
  | CHUNK_OPTIMIZATION => "chunk_opt_"
  | DROPOUT_SWEEP => "dropout_sweep_"
  end.

Lemma script_run s O base disk :
  exists w, script_main s O base disk = (Err ValueError, w) /\
    setting_of <$> samples (w_logger w) = script_configurations s /\
    files (w_logger w) = dict_set (sweep_csv O (script_prefix s)) (CsvFile fieldnames []) disk.
Proof.
  assert (forall env devices c w, exists res w' lat ok acc,
    sweep_round O env devices c w = (Ok res, w') /\ w_logger w' = logged O w c lat ok acc) as Hlogs.
  { intros env devices c w. destruct (sweep_round_logs O env devices c w) as (res & w' & Hr & Hl).
    by eexists _, _, _, _, _. }
  destruct s; (apply sweep_main_eq; [intros; apply Hlogs|done]).
Qed.

(** Every sweep script measures and then loses its results.  Whatever the
    machine does, it logs exactly one sample per configuration and round, in
    order, and then its [flush] raises [ValueError]: [main] does not return,
    and all it adds to the disk is one CSV file with a header and no row. *)
Theorem sweeps_lose_results s O base disk :
  let (r, w) := script_main s O base disk in
  r = Err ValueError /\
  setting_of <$> samples (w_logger w) = script_configurations s /\
  length (samples (w_logger w)) =
    match s with
    | VARIANT_COMPARISON => 9 | MODEL_SCALING => 18 | CHUNK_OPTIMIZATION => 15 | DROPOUT_SWEEP => 18
    end%nat /\
  files (w_logger w) = dict_set (sweep_csv O (script_prefix s)) (CsvFile fieldnames []) disk.
Proof.
  destruct (script_run s O base disk) as (w & -> & Hs & Hf). split; [done|]. split; [done|].
  split; [|done]. apply (f_equal length) in Hs. rewrite length_fmap in Hs. rewrite Hs. by destruct s.
Qed.

Lemma fieldnames_invalid disk path rows :
  dict_get path disk = Some (CsvFile fieldnames rows) -> validate_csv disk path = false.
Proof. intros H. unfold validate_csv. rewrite H. vm_compute. reflexivity. Qed.

(** The driver always fails on its first script, however often scripts and
    driver are run on a disk: it returns 1 after the variant comparison and
    runs no other script, and no file a metrics logger writes would pass its
    validation, since no sample has the required key [mlkem_variant]. *)
Theorem driver_fails unavailable machine base disk :
  (exists disk', main unavailable machine base disk = (Ok 1, disk', [VARIANT_COMPARISON])) /\
  forall path rows, validate_csv (dict_set path (CsvFile fieldnames rows) disk) path = false.
Proof.
  split.
  - unfold main, SCRIPTS. cbn [run_scripts]. unfold run_script.
    destruct (unavailable VARIANT_COMPARISON); [by eexists|].
    destruct (script_run VARIANT_COMPARISON (machine VARIANT_COMPARISON) base disk) as (w & -> & _ & _).
    by eexists.
  - intros path rows. eapply fieldnames_invalid, dict_get_set_eq.
Qed.
