(* ===== verification/Benchmarks.v ===== *)
(** * The benchmark matrix

    experiments/run_benchmarks.py: one round with telemetry and simulated
    dropouts, and the matrix of configurations. *)

From Stdlib Require Import ZArith QArith Qround Lia.
From stdpp Require Import prelude strings pretty.
From S2P Require Import Prelude PyDict PyBytes Wire Metrics Experiment Sweeps.
#[local] Open Scope Z_scope.

Record ExperimentConfig : Type := {
  device_counts : list Z;
  dropout_rates : list Q;
  chunk_sizes : list Z;
  crypto_modes : list string;
  model_sizes : list Z;
  rounds_per_config : nat;
}.

Definition DEFAULT_CONFIG : ExperimentConfig := {|
  device_counts := [3; 5; 10]; dropout_rates := [0; 1#10; 3#10]%Q;
  chunk_sizes := [64; 128; 256; 512]; crypto_modes := ["pqc"; "classical"];
  model_sizes := [1024; 10240; 102400]; rounds_per_config := 3 |}.

Definition QUICK_CONFIG : ExperimentConfig := {|
  device_counts := [3]; dropout_rates := [0; 1#10]%Q; chunk_sizes := [128; 256];
  crypto_modes := ["pqc"; "classical"]; model_sizes := [1024]; rounds_per_config := 1 |}.

(** ** The telemetry server *)

(** [handle_telemetry_client] on the bytes of one connection: what it puts
    into the queue.  A short read ends it, and so does any exception. *)
Fixpoint telemetry_loop (fuel : nat) (stream : bytes) : list ParsedTelemetry :=
  match fuel with
  | O => []
  | S fuel' =>
      if (length stream <? 16)%nat then []
      else
        match parse_header (take 16 stream) with
        | Err _ => []
        | Ok h =>
            let rest := drop 16 stream in
            let n := Z.to_nat (h_payload_length h) in
            if (length rest <? n)%nat then []
            else
              match telemetry_of_message (h_message_type h) (take n rest) with
              | Err _ => []
              | Ok None => telemetry_loop fuel' (drop n rest)
              | Ok (Some t) => t :: telemetry_loop fuel' (drop n rest)
              end
        end
  end.

(** Every message takes at least 16 bytes, so its length is fuel enough. *)
Definition handle_telemetry_client (stream : bytes) : list ParsedTelemetry :=
  telemetry_loop (length stream) stream.

Lemma telemetry_loop_fuel fuel fuel' stream :
  (length stream <= fuel)%nat -> (length stream <= fuel')%nat ->
  telemetry_loop fuel stream = telemetry_loop fuel' stream.
Proof.
  revert fuel' stream. induction fuel as [|fuel IH]; intros fuel' stream Hf Hf'.
  - destruct stream; [|simpl in Hf; lia]. by destruct fuel'.
  - destruct fuel' as [|fuel']; [destruct stream; [done|simpl in Hf'; lia]|].
    cbn [telemetry_loop]. destruct (Nat.ltb_spec (length stream) 16) as [|Hlen]; [done|].
    destruct (parse_header (take 16 stream)) as [h|]; [|done]. cbv zeta.
    destruct (_ <? _)%nat; [done|]. set (n := Z.to_nat (h_payload_length h)).
    assert (length (drop n (drop 16 stream)) + 16 <= length stream)%nat as Hd
      by (rewrite !length_drop; lia).
    destruct (telemetry_of_message _ _) as [[t|]|]; [f_equal| |done]; apply IH; lia.
Qed.

(** [telemetry_queue.get()] after the given connections. *)
Definition first_telemetry (streams : list bytes) : option ParsedTelemetry :=
  head (streams ≫= handle_telemetry_client).

(** ** One round *)

Section Round.
(** [bind_error] is what starting the telemetry server raises, if anything. *)
Context (O : Oracle) (bind_error : option exn).

(** [telemetry_task.cancel()] and [await telemetry_task]: a cancelled task is
    ignored, one that has failed raises. *)
Definition join_telemetry (failed : option exn) : M World unit :=
  match failed with Some e => raise e | None => skip end.

Definition num_dropout (device_count : Z) (dropout_rate : Q) : Z :=
  Z.max 1 (Qfloor (inject_Z device_count * dropout_rate)).

Definition simulate_dropouts (device_count : Z) (dropout_rate : Q) (client_procs : list nat)
    : M World unit :=
  if Qle_bool dropout_rate 0 then skip
  else for_each (take (Z.to_nat (num_dropout device_count dropout_rate)) client_procs) terminate.

(** The records made from telemetry, if there is any. *)
Definition record_telemetry (device_count model_size chunk_size : Z) (telemetry : option ParsedTelemetry)
    : M World unit :=
  match telemetry with
  | None => skip
  | Some t =>
      _ ← on_logger (record_memory (pt_peak_sram t) (pt_min_free_heap t) (pt_largest_free_block t)
                       (pt_stack_high_water t) (pt_heap_zero t));
      _ ← (if chunk_size =? 0 then raise ZeroDivisionError
           else on_logger (record_network (model_size * device_count) model_size
                             (device_count * (model_size / chunk_size)) 0 0));
      on_logger (record_cycles (pt_keygen_cycles t) (pt_encaps_cycles t) (pt_decaps_cycles t)
                   (pt_hkdf_cycles t) (pt_mask_gen_cycles t) (pt_mask_apply_cycles t))
  end.

(** The [try] branch after the bridge has been started. *)
Definition single_round_rest (env : Environ) (c : Setting) (streams : list bytes) (start_time : Q)
    (server_proc : nat) : M World RoundResult :=
  client_procs ← start_clients O env (Z.to_nat (st_clients c));
  _ ← simulate_dropouts (st_clients c) (st_rate c) client_procs;
  round_latency ← elapsed O start_time;
  _ ← on_logger (record_timing round_latency 0 0);
  _ ← on_logger (record_result true 1);
  _ ← record_telemetry (st_clients c) (st_model c) (st_chunk c) (first_telemetry streams);
  _ ← terminate server_proc;
  _ ← for_each client_procs (stop O);
  _ ← join_telemetry bind_error;
  mret {| success := true; latency_ms := round_latency; error := None |}.

(** The [except] branch. *)
Definition single_round_failed (failed : option exn) (start_time : Q) (e : exn) : M World RoundResult :=
  r ← round_failed O start_time e;
  _ ← join_telemetry failed;
  mret r.

(** The telemetry task only runs once the bridge has been started: before
    that it cannot have failed. *)
Definition single_round_body (env : Environ) (c : Setting) (streams : list bytes) (start_time : Q)
    : M World RoundResult :=
  server ← try_except (i ← popen O server_module env; mret (inl i)) (fun e => mret (inr e));
  match server with
  | inl i => try_except (single_round_rest env c streams start_time i)
               (single_round_failed bind_error start_time)
  | inr e => single_round_failed None start_time e
  end.

Definition single_round_env (base : Environ) (c : Setting) : Environ :=
  set_sizes (st_clients c) (st_rate c) (st_chunk c) (st_model c) (st_round c)
    (dict_set "CRYPTO_MODE" (Txt (st_mode c)) base).

(** [run_single_round], given what arrives at the telemetry server. *)
Definition run_single_round (base : Environ) (streams : list bytes) (device_count : Z) (dropout_rate : Q)
    (chunk_size : Z) (crypto_mode : string) (model_size round_num : Z) : M World RoundResult :=
  let c := {| st_device := "server"; st_round := round_num; st_clients := device_count;
              st_rate := dropout_rate; st_model := model_size; st_chunk := chunk_size;
              st_mode := crypto_mode |} in
  _ ← start_setting O c;
  start_time ← now O;
  single_round_body (single_round_env base c) c streams start_time.

(** ** The matrix *)

Definition total_experiments (config : ExperimentConfig) : nat :=
  (length (device_counts config) * length (dropout_rates config) * length (chunk_sizes config) *
   length (crypto_modes config) * length (model_sizes config) * rounds_per_config config)%nat.

(** The six nested loops; [arrivals] gives each round's telemetry. *)
Definition matrix_loop (config : ExperimentConfig) (base : Environ) (arrivals : Setting -> list bytes)
    : M World unit :=
  for_each (device_counts config) (fun device_count =>
    for_each (dropout_rates config) (fun dropout_rate =>
      for_each (chunk_sizes config) (fun chunk_size =>
        for_each (crypto_modes config) (fun crypto_mode =>
          for_each (model_sizes config) (fun model_size =>
            for_each (seq 0 (rounds_per_config config)) (fun round_num =>
              let c := {| st_device := "server"; st_round := Z.of_nat round_num;
                          st_clients := device_count; st_rate := dropout_rate; st_model := model_size;
                          st_chunk := chunk_size; st_mode := crypto_mode |} in
              _ ← run_single_round base (arrivals c) device_count dropout_rate chunk_size crypto_mode
                    model_size (Z.of_nat round_num);
              skip)))))).

Definition run_experiment_matrix (config : ExperimentConfig) (base : Environ)
    (arrivals : Setting -> list bytes) (disk : Disk) : result (option Summary) * World :=
  let run_id := ("exp_" ++ pretty (int_of_time (clock O 0)))%string in
  let w := tick (new_world (mount disk (create_logger run_id))) in
  (_ ← matrix_loop config base arrivals; sweep_end) w.

(** [main]: the configuration is chosen by the first argument. *)
Definition chosen_config (argv : list string) : ExperimentConfig :=
  match argv with
  | _ :: arg :: _ => if String.eqb arg "--quick" then QUICK_CONFIG else DEFAULT_CONFIG
  | _ => DEFAULT_CONFIG
  end.

Definition main (argv : list string) := run_experiment_matrix (chosen_config argv).

End Round.

(** ** Every round logs its configuration *)

Section Logged.
Context (O : Oracle).

(** The logger [m0] with one open sample of configuration [c]. *)
Record open_log (m0 : MetricsLogger) (c : Setting) (w : World) : Prop := {
  open_samples : exists s, samples (w_logger w) = samples m0 ++ [s] /\ setting_of s = c;
  open_current : current_sample (w_logger w) = Some (length (samples m0));
  open_files : files (w_logger w) = files m0;
  open_dir : output_dir (w_logger w) = output_dir m0;
  open_run : logger_run_id (w_logger w) = logger_run_id m0;
}.

Lemma open_log_extends m0 c w : open_log m0 c w -> extends m0 (w_logger w) [c].
Proof.
  intros [(s & Hs & Hc) _ Hf Hd Hr]. split; [|done]. rewrite Hs, fmap_app. cbn. by rewrite Hc.
Qed.

Lemma start_setting_opens c w :
  exists w', start_setting O c w = (Ok (length (samples (w_logger w))), w') /\
    open_log (w_logger w) c w'.
Proof.
  eexists. split; [reflexivity|]. split; [|done|done|done|done].
  eexists. split; [reflexivity|]. by destruct c.
Qed.

Section Preserved.
Context (m0 : MetricsLogger) (c : Setting).

Lemma now_open : preserves (open_log m0 c) (now O).
Proof. intros w []. by split. Qed.

Lemma elapsed_open t : preserves (open_log m0 c) (elapsed O t).
Proof. intros w []. by split. Qed.

Lemma popen_open name env : preserves (open_log m0 c) (popen O name env).
Proof. intros w []. unfold exec. rewrite popen_run. by destruct (popen_error O (w_popens w)). Qed.

Lemma terminate_open i : preserves (open_log m0 c) (terminate i).
Proof. intros w []. by split. Qed.

Lemma stop_open i : preserves (open_log m0 c) (stop O i).
Proof. unfold stop. destruct (has_exited O i); [apply preserves_skip|apply terminate_open]. Qed.

Lemma record_open f :
  (forall s, setting_of (f s) = setting_of s) -> preserves (open_log m0 c) (on_logger (record f)).
Proof.
  intros Hf w [(s & Hs & Hc) Hcur Hfi Hd Hr]. unfold exec, on_logger, record, modify. rewrite Hcur.
  split; cbn; try done. exists (f s). rewrite Hs, list.alter_app_r_alt, Nat.sub_diag by lia.
  split; [done|]. by rewrite Hf.
Qed.

Lemma collect_open {A B} (l : list A) (f : A -> M World B) :
  (forall x, preserves (open_log m0 c) (f x)) -> preserves (open_log m0 c) (collect l f).
Proof.
  intros Hf. induction l as [|x l IH]; [apply preserves_ret|]. cbn [collect].
  apply preserves_bind; [apply Hf|]. intros y. apply preserves_bind; [apply IH|]. intros ys.
  apply preserves_ret.
Qed.

Lemma try_except_open {A} (m : M World A) h :
  preserves (open_log m0 c) m -> (forall e, preserves (open_log m0 c) (h e)) ->
  preserves (open_log m0 c) (try_except m h).
Proof.
  intros Hm Hh w Hw. specialize (Hm w Hw). unfold exec, try_except in *.
  destruct (m w) as [[a|e] w']; [done|]. by apply Hh.
Qed.

Create HintDb open_db.
Hint Resolve now_open elapsed_open popen_open terminate_open stop_open record_open collect_open
  try_except_open preserves_skip preserves_ret preserves_raise preserves_lift : open_db.

(** Peels one bind, loop or branch, or applies a fact about a call. *)
Ltac keeps_open :=
  repeat first
    [ solve [eauto with open_db]
    | apply preserves_bind; [|intros ?]
    | apply preserves_for_each; intros ? ?
    | progress case_match ].

Lemma round_failed_open t e : preserves (open_log m0 c) (round_failed O t e).
Proof. unfold round_failed, record_timing, record_result. keeps_open. Qed.

Lemma record_telemetry_open d m ch t : preserves (open_log m0 c) (record_telemetry d m ch t).
Proof.
  unfold record_telemetry, record_memory, record_network, record_cycles. keeps_open.
Qed.

Lemma single_round_open be env c' streams t :
  preserves (open_log m0 c) (single_round_body O be env c' streams t).
Proof.
  assert (forall failed e, preserves (open_log m0 c) (single_round_failed O failed t e)) as Hfail.
  { intros failed e. unfold single_round_failed, join_telemetry. pose proof round_failed_open. keeps_open. }
  assert (forall i, preserves (open_log m0 c) (single_round_rest O be env c' streams t i)) as Hrest.
  { intros i. unfold single_round_rest, start_clients, simulate_dropouts, join_telemetry, record_timing,
      record_result. pose proof record_telemetry_open. keeps_open. }
  unfold single_round_body. apply preserves_bind.
  { apply try_except_open; [|intros; apply preserves_ret].
    apply preserves_bind; [apply popen_open|intros; apply preserves_ret]. }
  intros [i|e]; [|apply Hfail].
  by apply try_except_open.
Qed.
End Preserved.

(** Without a failing telemetry server every round returns. *)
Lemma single_round_returns env c streams t w :
  exists res w', single_round_body O None env c streams t w = (Ok res, w').
Proof.
  unfold single_round_body.
  destruct (popen O server_module env w) as [[i|e] w1] eqn:E.
  - rewrite (M_bind_ok _ _ w (inl i) w1).
    2:{ unfold try_except. by rewrite (M_bind_ok _ _ w i w1). }
    unfold try_except. destruct (single_round_rest O None env c streams t i w1) as [[r|e] w2]; by eexists _, _.
  - rewrite (M_bind_ok _ _ w (inr e) w1); [by eexists _, _|].
    unfold try_except. by rewrite (M_bind_err _ _ w e w1).
Qed.

Lemma run_single_round_logs base streams d r ch mode m k w :
  exists res w', run_single_round O None base streams d r ch mode m k w = (Ok res, w') /\
    extends (w_logger w) (w_logger w')
      [{| st_device := "server"; st_round := k; st_clients := d; st_rate := r; st_model := m;
          st_chunk := ch; st_mode := mode |}].
Proof.
  unfold run_single_round. set (c := {| st_device := _; st_round := k |}).
  destruct (start_setting_opens c w) as (w1 & Hstart & Hopen).
  rewrite (M_bind_ok _ _ w _ w1 Hstart).
  rewrite (M_bind_ok _ _ w1 (clock O (w_ticks w1)) (tick w1)) by done.
  destruct (single_round_returns (single_round_env base c) c streams (clock O (w_ticks w1)) (tick w1))
    as (res & w2 & Hrun).
  exists res, w2. split; [done|]. apply open_log_extends.
  pose proof (single_round_open (w_logger w) c None (single_round_env base c) c streams
                (clock O (w_ticks w1)) (tick w1)) as Hp.
  unfold exec in Hp. rewrite Hrun in Hp. apply Hp. by destruct Hopen.
Qed.

End Logged.

(** The configurations of the matrix, in the order of the loops. *)
Definition matrix_configurations (config : ExperimentConfig) : list Setting :=
  device_counts config ≫= fun d => dropout_rates config ≫= fun r => chunk_sizes config ≫= fun ch =>
  crypto_modes config ≫= fun mode => model_sizes config ≫= fun m =>
  seq 0 (rounds_per_config config) ≫= fun k =>
    [{| st_device := "server"; st_round := Z.of_nat k; st_clients := d; st_rate := r; st_model := m;
        st_chunk := ch; st_mode := mode |}].

Lemma length_bind_const {A B} (l : list A) (f : A -> list B) n :
  (forall x, length (f x) = n) -> length (l ≫= f) = (length l * n)%nat.
Proof. intros H. induction l as [|x l IH]; [done|]. cbn. rewrite length_app, H. f_equal. exact IH. Qed.

Lemma matrix_configurations_length config :
  length (matrix_configurations config) = total_experiments config.
Proof.
  unfold matrix_configurations, total_experiments. rewrite <- !Nat.mul_assoc.
  repeat (apply length_bind_const; intros ?).
  by rewrite (length_bind_const _ _ 1), length_seq, Nat.mul_1_r.
Qed.

Lemma matrix_loop_extends O config base arrivals w :
  exists w', matrix_loop O None config base arrivals w = (Ok tt, w') /\
    extends (w_logger w) (w_logger w') (matrix_configurations config).
Proof.
  unfold matrix_loop, matrix_configurations. revert w.
  do 6 (apply for_each_extends; intros ?). intros w.
  destruct (run_single_round_logs O base (arrivals {| st_device := "server"; st_round := Z.of_nat x4;
    st_clients := x; st_rate := x0; st_model := x3; st_chunk := x1; st_mode := x2 |}) x x0 x1 x2 x3
    (Z.of_nat x4) w) as (res & w' & Hrun & Hext).
  exists w'. by rewrite (M_bind_ok _ _ w res w').
Qed.

(** C36: with the telemetry port free, the benchmark runs every configuration of
    the matrix exactly once, in the order of its loops, whatever processes
    fail to start, exit early or send as telemetry: as many rounds as it
    announces.  Then it raises [ValueError] from [flush] and leaves a CSV file
    with a header and no row. *)
Theorem matrix_runs_all O config base arrivals disk :
  total_experiments config <> 0%nat ->
  exists w, run_experiment_matrix O None config base arrivals disk = (Err ValueError, w) /\
    setting_of <$> samples (w_logger w) = matrix_configurations config /\
    length (samples (w_logger w)) = total_experiments config /\
    files (w_logger w) = dict_set (sweep_csv O "exp_") (CsvFile fieldnames []) disk.
Proof.
  intros Hne. unfold run_experiment_matrix. set (w0 := tick _).
  destruct (matrix_loop_extends O config base arrivals w0) as (w1 & Hrun & Hext).
  rewrite (M_bind_ok _ _ w0 tt w1) by done.
  assert (matrix_configurations config <> []) as Hcs.
  { intros E. by rewrite <- matrix_configurations_length, E in Hne. }
  destruct (sweep_end_fails w1 (w_logger w0) _ Hext Hcs) as (w2 & Hend & Hs & Hf).
  assert (setting_of <$> samples (w_logger w2) = matrix_configurations config) as Hset
    by (rewrite Hs; apply Hext).
  exists w2. split; [done|]. split; [done|]. split; [|exact Hf].
  by rewrite <- matrix_configurations_length, <- Hset, length_fmap.
Qed.

(** A machine on which everything works. *)
Definition quiet_machine : Oracle :=
  {| popen_error := fun _ => None; has_exited := fun _ => false; clock := fun k => inject_Z (Z.of_nat k) |}.

Lemma matrix_runs_all_witness :
  exists w, run_experiment_matrix quiet_machine None QUICK_CONFIG [] (fun _ => []) [] = (Err ValueError, w) /\
    length (samples (w_logger w)) = 8%nat.
Proof.
  destruct (matrix_runs_all quiet_machine QUICK_CONFIG [] (fun _ => []) []) as (w & Hr & _ & Hl & _);
    [done|].
  exists w. split; [exact Hr|exact Hl].
Defined.
