(* ===== verification/DraftBenchmarks.v ===== *)
(** * The benchmark runner before telemetry

    create_phase4.py writes an earlier experiments/run_benchmarks.py.  Its
    configurations, environment, dropout simulation and matrix are those of
    the later one (Benchmarks); a round stops its processes before it looks at
    the clock, and what it logs about memory, cycles and the network are
    constants of the script.  (The experiments/baselines.py and
    experiments/metrics_logger.py the script writes are the files Baselines
    and Metrics model.) *)

From Stdlib Require Import ZArith QArith Lia.
From stdpp Require Import prelude strings pretty.
From S2P Require Import Prelude PyDict Wire Metrics Experiment Sweeps Benchmarks.
#[local] Open Scope Z_scope.

Section Round.
Context (O : Oracle).

(** The five [logger.record_*] calls of the [try] branch. *)
Definition draft_records (device_count model_size chunk_size : Z) (round_latency : Q) : M World unit :=
  _ ← on_logger (record_timing round_latency 0 0);
  _ ← on_logger (record_result true 1);
  _ ← on_logger (record_memory 8192 4096 2048 512 true);
  _ ← (if chunk_size =? 0 then raise ZeroDivisionError
       else on_logger (record_network (model_size * device_count) model_size
                         (device_count * (model_size / chunk_size)) 0 0));
  on_logger (record_cycles 100000 80000 90000 50000 10000 5000).

(** The [try] branch of the earlier [run_single_round]. *)
Definition draft_round_body (env : Environ) (c : Setting) (start_time : Q) : M World RoundResult :=
  server_proc ← popen O server_module env;
  client_procs ← start_clients O env (Z.to_nat (st_clients c));
  _ ← simulate_dropouts (st_clients c) (st_rate c) client_procs;
  _ ← terminate server_proc;
  _ ← for_each client_procs (stop O);
  round_latency ← elapsed O start_time;
  _ ← draft_records (st_clients c) (st_model c) (st_chunk c) round_latency;
  mret {| success := true; latency_ms := round_latency; error := None |}.

(** The earlier [run_single_round]. *)
Definition draft_single_round (base : Environ) (device_count : Z) (dropout_rate : Q)
    (chunk_size : Z) (crypto_mode : string) (model_size round_num : Z) : M World RoundResult :=
  let c := {| st_device := "server"; st_round := round_num; st_clients := device_count;
              st_rate := dropout_rate; st_model := model_size; st_chunk := chunk_size;
              st_mode := crypto_mode |} in
  _ ← start_setting O c;
  start_time ← now O;
  try_except (draft_round_body (single_round_env base c) c start_time) (round_failed O start_time).

(** The earlier [run_experiment_matrix]. *)
Definition draft_matrix_loop (config : ExperimentConfig) (base : Environ) : M World unit :=
  for_each (device_counts config) (fun device_count =>
    for_each (dropout_rates config) (fun dropout_rate =>
      for_each (chunk_sizes config) (fun chunk_size =>
        for_each (crypto_modes config) (fun crypto_mode =>
          for_each (model_sizes config) (fun model_size =>
            for_each (seq 0 (rounds_per_config config)) (fun round_num =>
              _ ← draft_single_round base device_count dropout_rate chunk_size crypto_mode
                    model_size (Z.of_nat round_num);
              skip)))))).

Definition draft_experiment_matrix (config : ExperimentConfig) (base : Environ)
    (disk : list (string * File)) : result (option Summary) * World :=
  let run_id := ("exp_" ++ pretty (int_of_time (clock O 0)))%string in
  let w := tick (new_world (mount disk (create_logger run_id))) in
  (_ ← draft_matrix_loop config base; sweep_end) w.

(** ** What a successful round logs *)

(** Nothing before the records touches the logger. *)
Definition logger_is (l : MetricsLogger) (w : World) : Prop := w_logger w = l.

Lemma popen_logger l name env : preserves (logger_is l) (popen O name env).
Proof. intros w Hw. unfold exec. rewrite popen_run. by destruct (popen_error O (w_popens w)). Qed.

Lemma terminate_logger l i : preserves (logger_is l) (terminate i).
Proof. intros w Hw. exact Hw. Qed.

Lemma stop_logger l i : preserves (logger_is l) (stop O i).
Proof. unfold stop. destruct (has_exited O i); [apply preserves_skip|apply terminate_logger]. Qed.

Lemma start_clients_logger l env n : preserves (logger_is l) (start_clients O env n).
Proof.
  unfold start_clients. induction (seq 0 n) as [|i ids IH]; cbn [collect]; [apply preserves_ret|].
  apply preserves_bind; [apply popen_logger|]. intros p.
  apply preserves_bind; [exact IH|]. intros ps. apply preserves_ret.
Qed.

Lemma simulate_dropouts_logger l d r ps : preserves (logger_is l) (simulate_dropouts d r ps).
Proof.
  unfold simulate_dropouts. destruct (Qle_bool r 0); [apply preserves_skip|].
  apply preserves_for_each. intros i _. apply terminate_logger.
Qed.

(** The values of the script, whatever was measured. *)
Definition constant_records (c : Setting) (latency : Q) : list (MetricSample -> MetricSample) :=
  [with_timing latency 0 0; with_result true 1; with_memory 8192 4096 2048 512 true;
   with_network (st_model c * st_clients c) (st_model c) (st_clients c * (st_model c / st_chunk c)) 0 0;
   with_cycles 100000 80000 90000 50000 10000 5000].

Lemma draft_records_run c latency w :
  st_chunk c <> 0 ->
  draft_records (st_clients c) (st_model c) (st_chunk c) latency w =
  (Ok tt, set_logger (exec (for_each (constant_records c latency) record) (w_logger w)) w).
Proof.
  intros Hc. unfold draft_records. rewrite (proj2 (Z.eqb_neq _ _) Hc). by destruct w.
Qed.

(** A computation that keeps the logger, as a step of a longer one. *)
Lemma keeps_logger_step {A B} l (m : M World A) (f : A -> M World B) w b w' :
  preserves (logger_is l) m -> w_logger w = l -> (m ≫= f) w = (Ok b, w') ->
  exists a w1, w_logger w1 = l /\ f a w1 = (Ok b, w').
Proof.
  intros Hm Hl H. specialize (Hm w Hl). unfold exec in Hm. unfold mbind, M_bind in H.
  destruct (m w) as [[a|e] w1]; [|done]. exists a, w1. done.
Qed.

Lemma draft_body_logs env c start w r w' :
  st_chunk c <> 0 -> draft_round_body env c start w = (Ok r, w') ->
  exists latency, w_logger w' = exec (for_each (constant_records c latency) record) (w_logger w).
Proof.
  intros Hc H. unfold draft_round_body in H.
  eapply keeps_logger_step in H as (s & w1 & H1 & H); [|apply popen_logger|reflexivity].
  eapply keeps_logger_step in H as (ps & w2 & H2 & H); [|apply start_clients_logger|exact H1].
  eapply keeps_logger_step in H as (u & w3 & H3 & H); [|apply simulate_dropouts_logger|exact H2].
  eapply keeps_logger_step in H as (u' & w4 & H4 & H); [|apply terminate_logger|exact H3].
  eapply keeps_logger_step in H as (u'' & w5 & H5 & H);
    [|apply preserves_for_each; intros i _; apply stop_logger|exact H4].
  eapply keeps_logger_step in H as (lat & w6 & H6 & H); [|intros v Hv; exact Hv|exact H5].
  rewrite (M_bind_ok _ _ _ _ _ (draft_records_run c lat w6 Hc)) in H.
  exists lat. injection H as _ <-. cbn [w_logger set_logger]. by rewrite H6.
Qed.

(** The earlier benchmark logs measurements it never takes.  Whenever a
    round with a non-zero chunk size reports success, on any machine, it has
    logged one more sample whose memory, network and cycle fields are fixed
    numbers: 8192 bytes of peak SRAM, a confirmed heap wipe, 100000 cycles of
    key generation and so on, and as traffic a product of its own settings. *)
Theorem draft_measurements_fixed base d rate ch mode m k w r w' :
  ch <> 0 -> draft_single_round base d rate ch mode m k w = (Ok r, w') -> success r = true ->
  exists s, samples (w_logger w') = samples (w_logger w) ++ [s] /\
    setting_of s = {| st_device := "server"; st_round := k; st_clients := d; st_rate := rate;
                      st_model := m; st_chunk := ch; st_mode := mode |} /\
    (peak_sram_bytes s, minimum_free_heap_bytes s, heap_zero_confirmed s) = (8192, 4096, true) /\
    (keygen_cycles s, encapsulation_cycles s, decapsulation_cycles s) = (100000, 80000, 90000) /\
    (bytes_tx s, bytes_rx s) = (m * d, m) /\ packet_count s = d * (m / ch).
Proof.
  intros Hch H Hs. unfold draft_single_round in H. set (c := {| st_round := k |}) in *.
  destruct (start_setting_opens O c w) as (w1 & Hstart & Hopen).
  rewrite (M_bind_ok _ _ w _ w1 Hstart) in H.
  rewrite (M_bind_ok _ _ w1 (clock O (w_ticks w1)) (tick w1)) in H by done.
  unfold try_except in H.
  destruct (draft_round_body _ c _ (tick w1)) as [[r0|e] w2] eqn:E.
  - injection H as -> ->. apply draft_body_logs in E as [lat Hl]; [|exact Hch].
    destruct Hopen as [(s0 & Hs0 & Hc0) Hcur _ _ _].
    exists (fold_left (fun s f => f s) (constant_records c lat) s0). rewrite Hl. unfold exec.
    change (w_logger (tick w1)) with (w_logger w1).
    rewrite (record_all _ (samples (w_logger w)) s0) by done.
    split; [done|]. split; [exact Hc0|]. by repeat split.
  - unfold round_failed in H. injection H as <- _. discriminate Hs.
Qed.
End Round.

Lemma draft_measurements_fixed_witness :
  exists r w', draft_single_round quiet_machine [] 3 0 128 "pqc" 1024 0 (new_world (create_logger "r"))
      = (Ok r, w') /\
    exists s, samples (w_logger w') = [s] /\ bytes_tx s = 3072.
Proof.
  assert (match fst (draft_single_round quiet_machine [] 3 0 128 "pqc" 1024 0 (new_world (create_logger "r"))) with
          | Ok r => success r = true | Err _ => False end) as Hok by (vm_compute; reflexivity).
  destruct (draft_single_round quiet_machine [] 3 0 128 "pqc" 1024 0 (new_world (create_logger "r")))
    as [[r|e] w'] eqn:Hrun; [|destruct Hok].
  exists r, w'. split; [reflexivity|].
  destruct (draft_measurements_fixed quiet_machine [] 3 0 128 "pqc" 1024 0 (new_world (create_logger "r")) r w')
    as (s & Hs & _ & _ & _ & Hb & _); [discriminate|exact Hrun|exact Hok|].
  exists s. split; [exact Hs|]. injection Hb as -> _. reflexivity.
Defined.
