(* ===== verification/Workflow.v ===== *)
(** * The workflow orchestrator

    experiments/scripts/run_workflow.py: the protocol's state machine, node by
    node, as the orchestrator drives and logs it.  A set of node numbers is
    kept as the ascending list Python iterates it in. *)

From Stdlib Require Import ZArith QArith Lia.
From stdpp Require Import prelude strings.
From S2P Require Import Prelude PyDict Masks.
#[local] Open Scope Z_scope.

(** ** Data *)

Inductive ProtocolState :=
  | ROUND_INIT | KEY_SETUP | MASK_SETUP | LOCAL_TRAINING | MASKED_UPDATE_STREAM | CLIENT_COMPLETION
  | AGGREGATION | DROPOUT_DETECTION | MASK_RECOVERY | UNMASK | FEDAVG | ROUND_COMPLETE.

#[export] Instance ProtocolState_eq_dec : EqDecision ProtocolState.
Proof. solve_decision. Defined.

(** The enumeration's values. *)
Definition state_value (s : ProtocolState) : Z :=
  match s with
  | ROUND_INIT => 0 | KEY_SETUP => 1 | MASK_SETUP => 2 | LOCAL_TRAINING => 3
  | MASKED_UPDATE_STREAM => 4 | CLIENT_COMPLETION => 5 | AGGREGATION => 6 | DROPOUT_DETECTION => 7
  | MASK_RECOVERY => 8 | UNMASK => 9 | FEDAVG => 10 | ROUND_COMPLETE => 11
  end.

Inductive MetaValue := MStr (s : string) | MInt (z : Z) | MInts (l : list Z) | MBool (b : bool).
Abbreviation Metadata := (list (string * MetaValue)).
Definition action (s : string) : Metadata := [("action", MStr s)].

Record NodeState : Type := {
  node_id : Z;
  node_state : ProtocolState;
  node_round : Z;
  timestamp : Q;
  metadata : option Metadata;
}.

(** A row of the CSV log. *)
Record LogRow : Type := {
  row_timestamp : Q;
  row_node : Z;
  row_round : Z;
  row_state : ProtocolState;
  row_metadata : Metadata;
}.

(** What [start_infrastructure] makes: the address of the bridge, the strategy's
    [min_fit_clients], and the bridge's [start()] as a task of its own.  The
    orchestrator uses none of them afterwards. *)
Record Infrastructure : Type := { bridge_address : string * Z; min_fit_clients : Z; bridge_task : bool }.

(** [log] is the log file's rows, [infrastructure] the bridge and the Flower
    strategy, [renode] the simulator's process, if
    started, and whether it was told to terminate. *)
Record Orchestrator : Type := {
  num_nodes : Z;
  threshold : Z;
  current_round : Z;
  node_states : list (Z * NodeState);
  log : list LogRow;
  renode : option bool;
  active_nodes : list Z;
  completed_nodes : list Z;
  dropout_nodes : list Z;
  infrastructure : option Infrastructure;
  ticks : nat;
}.

Definition new_orchestrator (n t : Z) : Orchestrator := {|
  num_nodes := n; threshold := t; current_round := 0; node_states := []; log := []; renode := None;
  active_nodes := []; completed_nodes := []; dropout_nodes := []; infrastructure := None; ticks := 0 |}.

Definition set_round (rid : Z) (o : Orchestrator) : Orchestrator :=
  {| num_nodes := num_nodes o; threshold := threshold o; current_round := rid;
     node_states := node_states o; log := log o; renode := renode o;
     active_nodes := range (num_nodes o); completed_nodes := []; dropout_nodes := [];
     infrastructure := infrastructure o; ticks := ticks o |}.
Definition set_node (k : Z) (s : NodeState) (o : Orchestrator) : Orchestrator :=
  {| num_nodes := num_nodes o; threshold := threshold o; current_round := current_round o;
     node_states := dict_set k s (node_states o); log := log o; renode := renode o;
     active_nodes := active_nodes o; completed_nodes := completed_nodes o;
     dropout_nodes := dropout_nodes o; infrastructure := infrastructure o; ticks := ticks o |}.
Definition add_row (r : LogRow) (o : Orchestrator) : Orchestrator :=
  {| num_nodes := num_nodes o; threshold := threshold o; current_round := current_round o;
     node_states := node_states o; log := log o ++ [r]; renode := renode o;
     active_nodes := active_nodes o; completed_nodes := completed_nodes o;
     dropout_nodes := dropout_nodes o; infrastructure := infrastructure o; ticks := ticks o |}.
Definition set_renode (v : option bool) (o : Orchestrator) : Orchestrator :=
  {| num_nodes := num_nodes o; threshold := threshold o; current_round := current_round o;
     node_states := node_states o; log := log o; renode := v;
     active_nodes := active_nodes o; completed_nodes := completed_nodes o;
     dropout_nodes := dropout_nodes o; infrastructure := infrastructure o; ticks := ticks o |}.
Definition set_sets (completed dropouts : list Z) (o : Orchestrator) : Orchestrator :=
  {| num_nodes := num_nodes o; threshold := threshold o; current_round := current_round o;
     node_states := node_states o; log := log o; renode := renode o;
     active_nodes := active_nodes o; completed_nodes := completed; dropout_nodes := dropouts;
     infrastructure := infrastructure o; ticks := ticks o |}.
Definition tick (o : Orchestrator) : Orchestrator :=
  {| num_nodes := num_nodes o; threshold := threshold o; current_round := current_round o;
     node_states := node_states o; log := log o; renode := renode o;
     active_nodes := active_nodes o; completed_nodes := completed_nodes o;
     dropout_nodes := dropout_nodes o; infrastructure := infrastructure o; ticks := S (ticks o) |}.

Definition set_infrastructure (v : option Infrastructure) (o : Orchestrator) : Orchestrator :=
  {| num_nodes := num_nodes o; threshold := threshold o; current_round := current_round o;
     node_states := node_states o; log := log o; renode := renode o;
     active_nodes := active_nodes o; completed_nodes := completed_nodes o;
     dropout_nodes := dropout_nodes o; infrastructure := v; ticks := ticks o |}.

(** [set.add], on the ascending list. *)
Fixpoint set_add (x : Z) (l : list Z) : list Z :=
  match l with
  | [] => [x]
  | y :: l' => if x <? y then x :: l else if x =? y then l else y :: set_add x l'
  end.
Definition set_diff (l l' : list Z) : list Z := filter (fun x => x ∉ l') l.

(** ** Operations *)

Section Operations.
(** The clock, what the constructor of Flower's strategy raises, and what
    starting and stopping the simulator raises. *)
Context (clock : nat -> Q) (flower_error renode_error wait_error : option exn).

Definition now : M Orchestrator Q :=
  o ← gets (fun o => o); _ ← modify tick; mret (clock (ticks o)).

(** [CSVLogger.log] *)
Definition log_state (s : NodeState) : M Orchestrator unit :=
  modify (add_row {| row_timestamp := timestamp s; row_node := node_id s; row_round := node_round s;
                     row_state := node_state s; row_metadata := default [] (metadata s) |}).

(** The body of [initialize_round]'s loop. *)
Definition initialize_node (rid node : Z) : M Orchestrator unit :=
  t ← now;
  let state := {| node_id := node; node_state := ROUND_INIT; node_round := rid; timestamp := t;
                  metadata := Some (action "round_init_sent") |} in
  _ ← modify (set_node node state);
  log_state state.

Definition initialize_round (rid : Z) : M Orchestrator unit :=
  _ ← modify (set_round rid);
  o ← gets (fun o => o);
  for_each (active_nodes o) (initialize_node rid).

(** [if metadata:] — an empty dictionary is not stored. *)
Definition transition_state (node : Z) (new_state : ProtocolState) (md : Metadata) : M Orchestrator unit :=
  o ← gets (fun o => o);
  match dict_get node (node_states o) with
  | None => skip
  | Some s =>
      t ← now;
      let s' := {| node_id := node_id s; node_state := new_state; node_round := node_round s;
                   timestamp := t;
                   metadata := match md with [] => metadata s | _ => Some md end |} in
      _ ← modify (set_node node s');
      log_state s'
  end.

(** [for node_id in self.active_nodes: await self.transition_state(node_id, ...)] *)
Definition transition_active (new_state : ProtocolState) (md : Metadata) : M Orchestrator unit :=
  o ← gets (fun o => o);
  for_each (active_nodes o) (fun node => transition_state node new_state md).

Definition run_key_setup : M Orchestrator unit :=
  _ ← transition_active KEY_SETUP (action "kem_keypair_gen");
  transition_active MASK_SETUP (action "pairwise_mask_derived").

Definition run_local_training : M Orchestrator unit :=
  _ ← transition_active LOCAL_TRAINING (action "local_sgd_start");
  transition_active MASKED_UPDATE_STREAM (action "streaming_start").

Definition complete_node (node : Z) : M Orchestrator unit :=
  _ ← transition_state node CLIENT_COMPLETION (action "all_chunks_sent");
  modify (fun o => set_sets (set_add node (completed_nodes o)) (dropout_nodes o) o).

Definition run_masked_stream : M Orchestrator unit :=
  _ ← transition_active MASKED_UPDATE_STREAM [("chunks_sent", MInt 0)];
  o ← gets (fun o => o);
  for_each (active_nodes o) complete_node.

(** The body of [run_mask_recovery]'s loop: its first line uses [secrets],
    which the module does not import. *)
Definition recover_node (dropout_id : Z) : M Orchestrator unit := raise (NameError "secrets").

Definition run_mask_recovery : M Orchestrator unit :=
  o ← gets (fun o => o);
  _ ← transition_state 0 MASK_RECOVERY
        (action "shamir_reconstruction_start" ++ [("dropout_nodes", MInts (dropout_nodes o))]);
  _ ← for_each (dropout_nodes o) recover_node;
  transition_state 0 UNMASK (action "masks_cancelled").

Definition detect_dropout (node : Z) : M Orchestrator unit :=
  transition_state node DROPOUT_DETECTION (action "dropout_detected" ++ [("missing_node", MInt node)]).

Definition check_dropouts : M Orchestrator unit :=
  o ← gets (fun o => o);
  if (length (completed_nodes o) <? length (active_nodes o))%nat then
    let dropouts := set_diff (active_nodes o) (completed_nodes o) in
    _ ← modify (set_sets (completed_nodes o) dropouts);
    _ ← for_each dropouts detect_dropout;
    run_mask_recovery
  else skip.

Definition run_aggregation : M Orchestrator unit :=
  _ ← transition_state 0 AGGREGATION (action "server_aggregation_start");
  check_dropouts.

Definition run_fedavg : M Orchestrator unit :=
  _ ← transition_state 0 FEDAVG (action "fedavg_computation");
  transition_state 0 ROUND_COMPLETE (action "round_complete").

(** One pass of [run_workflow]'s loop. *)
Definition run_round (rid : Z) : M Orchestrator unit :=
  _ ← initialize_round rid;
  _ ← run_key_setup;
  _ ← run_local_training;
  _ ← run_masked_stream;
  _ ← run_aggregation;
  run_fedavg.

(** [start_infrastructure]; the bridge's task runs when the orchestrator waits, and
    touches nothing of the orchestrator's. *)
Definition start_infrastructure : M Orchestrator unit :=
  o ← gets (fun o => o);
  match flower_error with
  | Some e => raise e
  | None =>
      modify (set_infrastructure (Some {|
        bridge_address := ("0.0.0.0", 8888); min_fit_clients := num_nodes o; bridge_task := true |}))
  end.

Definition start_renode : M Orchestrator unit :=
  match renode_error with Some e => raise e | None => modify (set_renode (Some false)) end.

Definition cleanup : M Orchestrator unit :=
  o ← gets (fun o => o);
  match renode o with
  | None => skip
  | Some _ =>
      _ ← modify (set_renode (Some true));
      match wait_error with Some e => raise e | None => skip end
  end.

Definition run_workflow (rounds : Z) : M Orchestrator unit :=
  _ ← start_infrastructure;
  _ ← start_renode;
  _ ← for_each (range rounds) run_round;
  cleanup.

End Operations.

(** ** Traces *)

(** What a round does not touch. *)
Definition outside (o : Orchestrator) : option bool * option Infrastructure := (renode o, infrastructure o).

(** What the log says, without times and metadata. *)
Definition trace (o : Orchestrator) : list (Z * Z * ProtocolState) :=
  (fun r => (row_node r, row_round r, row_state r)) <$> log o.

Definition at_state (rid : Z) (st : ProtocolState) (nodes : list Z) : list (Z * Z * ProtocolState) :=
  (fun k => (k, rid, st)) <$> nodes.

(** The rows of one round of [n] nodes. *)
Definition round_trace (n rid : Z) : list (Z * Z * ProtocolState) :=
  at_state rid ROUND_INIT (range n) ++ at_state rid KEY_SETUP (range n) ++
  at_state rid MASK_SETUP (range n) ++ at_state rid LOCAL_TRAINING (range n) ++
  at_state rid MASKED_UPDATE_STREAM (range n) ++ at_state rid MASKED_UPDATE_STREAM (range n) ++
  at_state rid CLIENT_COMPLETION (range n) ++
  [(0, rid, AGGREGATION); (0, rid, FEDAVG); (0, rid, ROUND_COMPLETE)].

(** The node [k] is known, under its own number, in round [rid]. *)
Definition node_ok (rid k : Z) (o : Orchestrator) : Prop :=
  exists s, dict_get k (node_states o) = Some s /\ node_id s = k /\ node_round s = rid.

(** All [n] nodes are known and in round [rid]. *)
Record in_round (n rid : Z) (o : Orchestrator) : Prop := {
  round_size : num_nodes o = n;
  round_keys : dict_keys (node_states o) = range n;
  round_nodes : forall k, k ∈ range n -> node_ok rid k o;
  round_active : active_nodes o = range n;
}.

Section Runs.
Context (clock : nat -> Q) (n rid : Z).

(** From a state of the round, [m] returns, stays in the round, keeps the
    completed and dropped nodes and the simulator, and logs [rows]. *)
Definition logs (m : M Orchestrator unit) (rows : list (Z * Z * ProtocolState)) : Prop :=
  forall o, in_round n rid o ->
    exists o', m o = (Ok tt, o') /\ in_round n rid o' /\ outside o' = outside o /\
      completed_nodes o' = completed_nodes o /\ dropout_nodes o' = dropout_nodes o /\
      trace o' = trace o ++ rows.

Lemma logs_skip : logs skip [].
Proof. intros o Ho. exists o. repeat (split; [done|]). by rewrite app_nil_r. Qed.

Lemma logs_bind m k rows rows' : logs m rows -> logs k rows' -> logs (_ ← m; k) (rows ++ rows').
Proof.
  intros Hm Hk o Ho. destruct (Hm o Ho) as (o1 & Hr1 & Ho1 & Hf1 & Hc1 & Hd1 & Ht1).
  destruct (Hk o1 Ho1) as (o2 & Hr2 & Ho2 & Hf2 & Hc2 & Hd2 & Ht2). exists o2.
  rewrite (M_bind_ok _ _ o tt o1) by done. split; [done|]. split; [done|].
  split; [congruence|]. split; [congruence|]. split; [congruence|].
  by rewrite Ht2, Ht1, app_assoc.
Qed.

(** Storing a node's new state. *)
Lemma set_node_in_round k s o :
  in_round n rid o -> k ∈ range n -> node_id s = k -> node_round s = rid ->
  in_round n rid (set_node k s o).
Proof.
  intros [Hs Hk Hn Ha] Hin Hid Hr. split; [done| |intros j Hj|done]; unfold set_node;
    cbn [node_states].
  - rewrite dict_keys_set_in; [done|]. by rewrite Hk.
  - unfold node_ok. cbn [node_states]. rewrite dict_get_set. case_decide as Hjk.
    + exists s. subst. done.
    + by apply Hn.
Qed.

Lemma transition_logs k st md : k ∈ range n -> logs (transition_state clock k st md) [(k, rid, st)].
Proof.
  intros Hk o Ho. destruct (round_nodes _ _ _ Ho k Hk) as (s & Hs & Hid & Hr).
  unfold transition_state. rewrite (M_bind_ok _ _ o o o) by done. rewrite Hs.
  rewrite (M_bind_ok _ _ o (clock (ticks o)) (tick o)) by done. cbv zeta.
  set (s' := {| node_id := _; node_state := st |}).
  eexists. split; [by rewrite (M_bind_ok _ _ (tick o) tt (set_node k s' (tick o)))|].
  assert (in_round n rid (set_node k s' (tick o))) as Hs'
    by (apply set_node_in_round; [by destruct Ho|done|done|done]).
  split; [by destruct Hs'|]. repeat (split; [done|]).
  unfold trace. cbn. rewrite fmap_app. cbn. by rewrite Hid, Hr.
Qed.

Lemma transitions_log l st (md : Z -> Metadata) :
  (forall k, k ∈ l -> k ∈ range n) ->
  logs (for_each l (fun k => transition_state clock k st (md k))) (at_state rid st l).
Proof.
  induction l as [|k l IH]; intros Hl; [apply logs_skip|].
  cbn [for_each]. apply (logs_bind _ _ [(k, rid, st)]).
  - apply transition_logs, Hl. left.
  - apply IH. intros j Hj. apply Hl. by right.
Qed.

Lemma transition_active_logs st md : logs (transition_active clock st md) (at_state rid st (range n)).
Proof.
  intros o Ho. unfold transition_active. rewrite (M_bind_ok _ _ o o o) by done.
  rewrite (round_active _ _ _ Ho). by apply transitions_log.
Qed.

(** ** Completion *)

Lemma set_add_last x l : Forall (fun y => y < x) l -> set_add x l = l ++ [x].
Proof.
  induction 1 as [|y l Hy Hl IH]; [done|]. simpl. rewrite IH.
  rewrite (proj2 (Z.ltb_ge _ _)) by lia. by rewrite (proj2 (Z.eqb_neq _ _)) by lia.
Qed.

Lemma complete_nodes_log m i :
  (Z.of_nat (i + m) <= n) -> forall o, in_round n rid o -> completed_nodes o = range (Z.of_nat i) ->
  exists o', for_each (Z.of_nat <$> seq i m) (complete_node clock) o = (Ok tt, o') /\
    in_round n rid o' /\ outside o' = outside o /\ completed_nodes o' = range (Z.of_nat (i + m)) /\
    dropout_nodes o' = dropout_nodes o /\
    trace o' = trace o ++ at_state rid CLIENT_COMPLETION (Z.of_nat <$> seq i m).
Proof.
  revert i. induction m as [|m IH]; intros i Hi o Ho Hc; cbn [seq fmap list_fmap for_each].
  - exists o. rewrite Nat.add_0_r. repeat (split; [done|]). by rewrite app_nil_r.
  - destruct (transition_logs (Z.of_nat i) CLIENT_COMPLETION (action "all_chunks_sent"))
      with (o := o) as (o1 & Hr1 & Ho1 & Hf1 & Hc1 & Hd1 & Ht1); [apply elem_of_range; lia|done|].
    set (o2 := set_sets (set_add (Z.of_nat i) (completed_nodes o1)) (dropout_nodes o1) o1).
    assert (completed_nodes o2 = range (Z.of_nat (S i))) as Hc2.
    { unfold o2. cbn. rewrite Hc1, Hc, set_add_last.
      - unfold range. rewrite !Nat2Z.id, seq_S, fmap_app. done.
      - apply Forall_forall. intros y Hy%elem_of_range. lia. }
    destruct (IH (S i) ltac:(lia) o2) as (o3 & Hr3 & Ho3 & Hf3 & Hc3 & Hd3 & Ht3);
      [by destruct Ho1|done|].
    exists o3. rewrite (M_bind_ok _ _ o tt o2).
    2:{ unfold complete_node. by rewrite (M_bind_ok _ _ o tt o1). }
    split; [done|]. split; [done|]. split; [by rewrite Hf3|].
    split; [rewrite Hc3; f_equal; lia|]. split; [by rewrite Hd3|].
    rewrite Ht3. unfold trace in *. cbn. by rewrite Ht1, <- app_assoc.
Qed.

(** ** The start of a round *)

(** The nodes are those of an earlier round, or the first [i] of them. *)
Definition known (i : Z) (o : Orchestrator) : Prop :=
  dict_keys (node_states o) = range n \/ dict_keys (node_states o) = range i.

Lemma initialize_nodes_log m i :
  Z.of_nat (i + m) = n -> forall o, num_nodes o = n -> active_nodes o = range n -> known (Z.of_nat i) o ->
  (forall k, k ∈ range (Z.of_nat i) -> node_ok rid k o) ->
  exists o', for_each (Z.of_nat <$> seq i m) (initialize_node clock rid) o = (Ok tt, o') /\
    in_round n rid o' /\ outside o' = outside o /\ completed_nodes o' = completed_nodes o /\
    dropout_nodes o' = dropout_nodes o /\
    trace o' = trace o ++ at_state rid ROUND_INIT (Z.of_nat <$> seq i m).
Proof.
  revert i. induction m as [|m IH]; intros i Hi o Hn Ha Hk Hok; cbn [seq fmap list_fmap for_each].
  - exists o. rewrite Nat.add_0_r in Hi. rewrite Hi in Hok. unfold known in Hk. rewrite Hi in Hk.
    split; [done|]. split; [split; [done|by destruct Hk|done|done]|]. repeat (split; [done|]). by rewrite app_nil_r.
  - set (s := {| node_id := Z.of_nat i; node_state := ROUND_INIT; node_round := rid;
                 timestamp := clock (ticks o); metadata := Some (action "round_init_sent") |}).
    set (o1 := exec (log_state s) (set_node (Z.of_nat i) s (tick o))).
    assert (initialize_node clock rid (Z.of_nat i) o = (Ok tt, o1)) as Hrun by reflexivity.
    destruct (IH (S i) ltac:(lia) o1) as (o2 & Hr2 & Ho2 & Hf2 & Hc2 & Hd2 & Ht2); [done|done| | |].
    + unfold known in *. unfold o1. cbn -[dict_keys range]. destruct Hk as [Hk|Hk].
      * left. rewrite dict_keys_set_in; [done|]. rewrite Hk. apply elem_of_range. lia.
      * right. rewrite dict_keys_set_notin by (rewrite Hk, elem_of_range; lia). rewrite Hk.
        unfold range. rewrite !Nat2Z.id, seq_S, fmap_app. done.
    + intros k Hkr. unfold node_ok, o1. cbn -[range]. rewrite dict_get_set. case_decide as Hki.
      * exists s. by subst.
      * apply Hok. apply elem_of_range in Hkr. apply elem_of_range. lia.
    + exists o2. rewrite (M_bind_ok _ _ o tt o1) by done. split; [done|]. split; [done|].
      split; [by rewrite Hf2|]. split; [by rewrite Hc2|]. split; [by rewrite Hd2|].
      rewrite Ht2. unfold trace. cbn. by rewrite fmap_app, <- app_assoc.
Qed.

End Runs.

(** ** A whole round *)

Section Workflow.
Context (clock : nat -> Q).

Lemma logs_then n rid m k o rows (Q : Orchestrator -> Prop) :
  logs n rid m rows -> in_round n rid o ->
  (forall o1, in_round n rid o1 -> outside o1 = outside o -> completed_nodes o1 = completed_nodes o ->
     dropout_nodes o1 = dropout_nodes o -> trace o1 = trace o ++ rows ->
     exists o', k o1 = (Ok tt, o') /\ Q o') ->
  exists o', (_ ← m; k) o = (Ok tt, o') /\ Q o'.
Proof.
  intros Hm Ho Hk. destruct (Hm o Ho) as (o1 & Hr1 & Ho1 & Hf1 & Hc1 & Hd1 & Ht1).
  destruct (Hk o1 Ho1 Hf1 Hc1 Hd1 Ht1) as (o2 & Hr2 & HQ). exists o2.
  by rewrite (M_bind_ok _ _ o tt o1).
Qed.

(** The end of a round in which every node has completed. *)
Lemma finish_round n rid o :
  0 < n -> in_round n rid o -> completed_nodes o = range n ->
  exists o', (_ ← run_aggregation clock; run_fedavg clock) o = (Ok tt, o') /\
    in_round n rid o' /\ outside o' = outside o /\ completed_nodes o' = range n /\
    dropout_nodes o' = dropout_nodes o /\
    trace o' = trace o ++ [(0, rid, AGGREGATION); (0, rid, FEDAVG); (0, rid, ROUND_COMPLETE)].
Proof.
  intros Hn Ho Hc. assert (0 ∈ range n) as H0 by (apply elem_of_range; lia).
  assert (forall o, in_round n rid o -> completed_nodes o = range n -> check_dropouts clock o = (Ok tt, o))
    as Hcheck.
  { intros o1 Ho1 Hc1. unfold check_dropouts. rewrite (M_bind_ok _ _ o1 o1 o1) by done.
    by rewrite Hc1, (round_active _ _ _ Ho1), Nat.ltb_irrefl. }
  destruct (transition_logs clock n rid 0 AGGREGATION (action "server_aggregation_start") H0 o Ho)
    as (o1 & Hr1 & Ho1 & Hf1 & Hc1 & Hd1 & Ht1).
  destruct (logs_bind _ _ _ _ _ _ (transition_logs clock n rid 0 FEDAVG (action "fedavg_computation") H0)
              (transition_logs clock n rid 0 ROUND_COMPLETE (action "round_complete") H0) o1 Ho1)
    as (o2 & Hr2 & Ho2 & Hf2 & Hc2 & Hd2 & Ht2).
  exists o2. rewrite (M_bind_ok _ _ o tt o1).
  2:{ unfold run_aggregation. rewrite (M_bind_ok _ _ o tt o1) by done. apply Hcheck; [done|congruence]. }
  split; [exact Hr2|]. split; [done|]. split; [congruence|]. split; [congruence|].
  split; [congruence|]. by rewrite Ht2, Ht1, <- app_assoc.
Qed.

(** The two phases before the stream, as one computation. *)
Lemma run_round_log n rid o :
  0 < n -> num_nodes o = n -> known n 0 o ->
  exists o', run_round clock rid o = (Ok tt, o') /\ in_round n rid o' /\ outside o' = outside o /\
    completed_nodes o' = range n /\ dropout_nodes o' = [] /\ trace o' = trace o ++ round_trace n rid.
Proof.
  intros Hn Hs Hk. set (o0 := set_round rid o).
  destruct (initialize_nodes_log clock n rid (Z.to_nat n) 0 ltac:(lia) o0)
    as (o1 & Hr1 & Ho1 & Hf1 & Hc1 & Hd1 & Ht1);
    [done|unfold o0; simpl; by rewrite Hs|done|by intros k ?%elem_of_range; lia|].
  change (Z.of_nat <$> seq 0 (Z.to_nat n)) with (range n) in *.
  unfold run_round. rewrite (M_bind_ok _ _ o tt o1).
  2:{ unfold initialize_round. rewrite (M_bind_ok _ _ o tt o0) by done.
      rewrite (M_bind_ok _ _ o0 o0 o0) by done. unfold o0 at 1. simpl active_nodes. by rewrite Hs. }
  unfold run_key_setup, run_local_training, run_masked_stream.
  eapply (logs_then n rid); [apply logs_bind; apply transition_active_logs|exact Ho1|].
  intros o2 Ho2 Hf2 Hc2 Hd2 Ht2.
  eapply (logs_then n rid); [apply logs_bind; apply transition_active_logs|exact Ho2|].
  intros o3 Ho3 Hf3 Hc3 Hd3 Ht3.
  destruct (transition_active_logs clock n rid MASKED_UPDATE_STREAM [("chunks_sent", MInt 0)] o3 Ho3)
    as (o4 & Hr4 & Ho4 & Hf4 & Hc4 & Hd4 & Ht4).
  destruct (complete_nodes_log clock n rid (Z.to_nat n) 0 ltac:(lia) o4 Ho4)
    as (o5 & Hr5 & Ho5 & Hf5 & Hc5 & Hd5 & Ht5);
    [rewrite Hc4, Hc3, Hc2, Hc1; reflexivity|].
  change (Z.of_nat <$> seq 0 (Z.to_nat n)) with (range n) in *.
  rewrite Nat.add_0_l, Z2Nat.id in Hc5 by lia.
  destruct (finish_round n rid o5 Hn Ho5 Hc5) as (o6 & Hr6 & Ho6 & Hf6 & Hc6 & Hd6 & Ht6).
  exists o6. rewrite (M_bind_ok _ _ o3 tt o5).
  2:{ rewrite (M_bind_ok _ _ o3 tt o4) by done. rewrite (M_bind_ok _ _ o4 o4 o4) by done.
      by rewrite (round_active _ _ _ Ho4). }
  split; [exact Hr6|]. split; [done|]. split; [rewrite Hf6, Hf5, Hf4, Hf3, Hf2, Hf1; reflexivity|].
  split; [done|]. split; [rewrite Hd6, Hd5, Hd4, Hd3, Hd2, Hd1; reflexivity|].
  rewrite Ht6, Ht5, Ht4, Ht3, Ht2, Ht1. unfold round_trace, o0. by rewrite <- !app_assoc.
Qed.

Lemma rounds_log n rids o :
  0 < n -> num_nodes o = n -> known n 0 o ->
  exists o', for_each rids (run_round clock) o = (Ok tt, o') /\ num_nodes o' = n /\
    outside o' = outside o /\ trace o' = trace o ++ concat (round_trace n <$> rids) /\
    match rids with [] => o' = o | _ => completed_nodes o' = range n /\ dropout_nodes o' = [] end.
Proof.
  intros Hn. revert o. induction rids as [|rid rids IH]; intros o Hs Hk.
  - exists o. repeat (split; [done|]). split; [by rewrite app_nil_r|done].
  - destruct (run_round_log n rid o Hn Hs Hk) as (o1 & Hr1 & Ho1 & Hf1 & Hc1 & Hd1 & Ht1).
    destruct (IH o1) as (o2 & Hr2 & Hs2 & Hf2 & Ht2 & Hend2);
      [apply (round_size _ _ _ Ho1)|left; apply (round_keys _ _ _ Ho1)|].
    exists o2. cbn [for_each]. rewrite (M_bind_ok _ _ o tt o1) by done.
    split; [done|]. split; [done|]. split; [congruence|].
    split; [rewrite Ht2, Ht1, <- app_assoc; done|].
    destruct rids; [by subst o2|done].
Qed.

(** C35: with Flower and the simulator available, the workflow of any number of
    nodes and rounds creates its bridge and strategy, starts the bridge, runs to
    its end and logs, round by round, every node through the
    states of the protocol in order; every node always completes, so no
    dropout is ever detected and no mask is ever recovered. *)
Theorem workflow_log n t rounds :
  0 < n ->
  exists o', run_workflow clock None None None rounds (new_orchestrator n t) = (Ok tt, o') /\
    trace o' = concat (round_trace n <$> range rounds) /\
    (0 < rounds -> completed_nodes o' = range n) /\ dropout_nodes o' = [] /\ renode o' = Some true /\
    infrastructure o' = Some {|
      bridge_address := ("0.0.0.0", 8888); min_fit_clients := n; bridge_task := true |} /\
    Forall (fun row => snd row ∉ [DROPOUT_DETECTION; MASK_RECOVERY; UNMASK]) (trace o').
Proof.
  intros Hn. unfold run_workflow. set (infra := Some {| bridge_address := ("0.0.0.0", 8888); min_fit_clients := n; bridge_task := true |}).
  set (o0 := set_renode (Some false) (set_infrastructure infra (new_orchestrator n t))).
  rewrite (M_bind_ok _ _ _ tt (set_infrastructure infra (new_orchestrator n t))) by done.
  rewrite (M_bind_ok _ _ _ tt o0) by done.
  destruct (rounds_log n (range rounds) o0 Hn) as (o1 & Hr1 & _ & Hf1 & Ht1 & Hend); [done|by right|].
  rewrite (M_bind_ok _ _ o0 tt o1) by done. exists (set_renode (Some true) o1). injection Hf1 as Hren Hinf.
  assert (trace o1 = concat (round_trace n <$> range rounds)) as Htr by (by rewrite Ht1).
  split; [|split; [exact Htr|]].
  { unfold cleanup. rewrite (M_bind_ok _ _ o1 o1 o1) by done. by rewrite Hren. }
  split; [|split; [|split; [done|split; [exact Hinf|]]]].
  - intros Hr. destruct (range rounds) eqn:E; [|apply Hend].
    apply (f_equal length) in E. rewrite range_length in E. simpl in E. lia.
  - destruct (range rounds); [by subst o1|apply Hend].
  - change (trace (set_renode (Some true) o1)) with (trace o1). rewrite Htr.
    apply Forall_concat, Forall_fmap, Forall_forall. intros rid _. unfold round_trace, at_state, compose.
    rewrite !Forall_app, !Forall_fmap.
    repeat split; try (apply Forall_forall; intros k _; by apply (bool_decide_unpack _)).
    repeat constructor; by apply (bool_decide_unpack _).
Qed.

Lemma elem_of_set_diff l l' : NoDup l -> (length l' < length l)%nat -> set_diff l l' <> [].
Proof.
  intros Hnd Hlen Hnil. assert (forall x, x ∈ l -> x ∈ l') as Hsub.
  { intros x Hx. destruct (decide (x ∈ l')) as [|Hnot]; [done|].
    assert (x ∈ set_diff l l') as Hin by (by apply list_elem_of_filter). rewrite Hnil in Hin. set_solver. }
  apply NoDup_submseteq in Hsub; [|done]. apply submseteq_length in Hsub. lia.
Qed.

(** A dropout would stop the workflow.  In any round where fewer nodes have
    completed than are active, [run_aggregation] logs the aggregation, one
    detected dropout per missing node and the start of the recovery, and then
    raises [NameError]: [run_mask_recovery] uses [secrets] without importing it. *)
Theorem dropout_stops_workflow n rid o :
  0 < n -> in_round n rid o -> (length (completed_nodes o) < length (active_nodes o))%nat ->
  let missing := set_diff (active_nodes o) (completed_nodes o) in
  exists o', run_aggregation clock o = (Err (NameError "secrets"), o') /\
    dropout_nodes o' = missing /\ missing <> [] /\
    trace o' = trace o ++ (0, rid, AGGREGATION) :: at_state rid DROPOUT_DETECTION missing ++
                 [(0, rid, MASK_RECOVERY)].
Proof.
  intros Hn Ho Hlen missing. assert (0 ∈ range n) as H0 by (apply elem_of_range; lia).
  assert (missing <> []) as Hmiss.
  { apply elem_of_set_diff; [|done]. rewrite (round_active _ _ _ Ho). apply range_NoDup. }
  destruct (transition_logs clock n rid 0 AGGREGATION (action "server_aggregation_start") H0 o Ho)
    as (o1 & Hr1 & Ho1 & _ & Hc1 & _ & Ht1).
  assert (active_nodes o1 = active_nodes o) as Ha1
    by (by rewrite (round_active _ _ _ Ho1), (round_active _ _ _ Ho)).
  set (o2 := set_sets (completed_nodes o1) missing o1).
  assert (in_round n rid o2) as Ho2 by (by destruct Ho1).
  destruct (transitions_log clock n rid missing DROPOUT_DETECTION
              (fun k => action "dropout_detected" ++ [("missing_node", MInt k)]))
    with (o := o2) as (o3 & Hr3 & Ho3 & _ & _ & Hd3 & Ht3);
    [intros k Hk; apply list_elem_of_filter in Hk as [_ Hk]; by rewrite <- (round_active _ _ _ Ho)|done|].
  destruct (transition_logs clock n rid 0 MASK_RECOVERY
    (action "shamir_reconstruction_start" ++ [("dropout_nodes", MInts (dropout_nodes o3))]) H0 o3 Ho3)
    as (o4 & Hr4 & Ho4 & _ & _ & Hd4 & Ht4).
  exists o4. split; [|split; [rewrite Hd4, Hd3; done|split; [done|]]].
  2:{ rewrite Ht4, Ht3. change (trace o2) with (trace o1). by rewrite Ht1, <- !app_assoc. }
  unfold run_aggregation. rewrite (M_bind_ok _ _ o tt o1) by done. unfold check_dropouts.
  rewrite (M_bind_ok _ _ o1 o1 o1) by done. rewrite Hc1, Ha1, (proj2 (Nat.ltb_lt _ _)) by done.
  cbv zeta. fold missing.
  assert (set_sets (completed_nodes o) missing o1 = o2) as Heq by (unfold o2; by rewrite Hc1).
  rewrite (M_bind_ok _ _ o1 tt o2) by (by rewrite <- Heq).
  rewrite (M_bind_ok _ _ o2 tt o3) by done. unfold run_mask_recovery.
  rewrite (M_bind_ok _ _ o3 o3 o3) by done. rewrite (M_bind_ok _ _ o3 tt o4) by done.
  rewrite Hd3. cbn [dropout_nodes set_sets o2]. destruct missing; [done|]. by apply M_bind_err.
Qed.

End Workflow.

(** ** Concrete inputs *)

Definition stopped_clock (k : nat) : Q := 0%Q.

Lemma workflow_log_witness :
  exists o', run_workflow stopped_clock None None None 2 (new_orchestrator 2 1) = (Ok tt, o') /\
    length (trace o') = 34%nat.
Proof.
  destruct (workflow_log stopped_clock 2 1 2) as (o' & Hr & Ht & _); [done|].
  exists o'. split; [exact Hr|]. rewrite Ht. by vm_compute.
Defined.

(** Three nodes in round 4, of which node 1 has completed. *)
Definition sample_orchestrator : Orchestrator :=
  set_sets [1] [] (exec (initialize_round stopped_clock 4) (new_orchestrator 3 2)).

Lemma sample_in_round : in_round 3 4 sample_orchestrator.
Proof.
  split; [done|done| |done]. intros k Hk%elem_of_range.
  assert (k = 0 \/ k = 1 \/ k = 2) as [->|[->| ->]] by lia; by eexists.
Qed.

Lemma dropout_stops_workflow_witness :
  exists o', run_aggregation stopped_clock sample_orchestrator = (Err (NameError "secrets"), o') /\
    dropout_nodes o' = [0; 2].
Proof.
  destruct (dropout_stops_workflow stopped_clock 3 4 sample_orchestrator) as (o' & Hr & Hd & _);
    [done|apply sample_in_round|by apply Nat.ltb_lt|].
  exists o'. split; [exact Hr|]. rewrite Hd. by vm_compute.
Defined.
