(* ===== verification/Dependencies.v ===== *)
(** * Dependency initialisation

    scripts/init_deps.py: two git commands through a shell.  The return codes
    and outputs of the commands are the argument [answer]; what is printed and
    the commands started are the state. *)

From Stdlib Require Import ZArith Lia.
From stdpp Require Import prelude strings.
From S2P Require Import Prelude.
#[local] Open Scope string_scope.

(** [subprocess.CompletedProcess] *)
Record Completed : Type := { returncode : Z; stdout : string; stderr : string }.

(** A command with its working directory. *)
Record Shell : Type := { started : list (string * string); printed : list string }.

Definition new_shell : Shell := {| started := []; printed := [] |}.

Definition repo_root : string := "C:\DROP".
Definition add_pqm4 : string := "git submodule add https://github.com/mupq/pqm4 deps/pqm4".
Definition update_submodules : string := "git submodule update --init --recursive".

Section Init.
Context (answer : nat -> Completed).

Definition print (line : string) : M Shell unit :=
  modify (fun s => {| started := started s; printed := (printed s ++ [line])%list |}).

(** [subprocess.run(cmd, shell=True, cwd=cwd, capture_output=True, text=True)] *)
Definition subprocess_run (cmd cwd : string) : M Shell Completed :=
  s ← gets (fun s => s);
  _ ← modify (fun s => {| started := (started s ++ [(cwd, cmd)])%list; printed := printed s |});
  mret (answer (length (started s))).

Definition run_cmd (cmd cwd : string) : M Shell bool :=
  result ← subprocess_run cmd cwd;
  if (returncode result =? 0)%Z
  then _ ← print (stdout result); mret true
  else _ ← print ("Error: " +:+ stderr result); mret false.

(** The script's exit status. *)
Definition init_deps : M Shell Z :=
  added ← run_cmd add_pqm4 repo_root;
  if negb added then mret 1%Z
  else
    updated ← run_cmd update_submodules repo_root;
    if negb updated then mret 1%Z
    else _ ← print "Dependencies initialized successfully"; mret 0%Z.

Definition succeeded (i : nat) : bool := (returncode (answer i) =? 0)%Z.

Lemma run_cmd_run cmd cwd s :
  run_cmd cmd cwd s =
  (Ok (succeeded (length (started s))),
   {| started := (started s ++ [(cwd, cmd)])%list;
      printed := (printed s ++ [if succeeded (length (started s)) then stdout (answer (length (started s)))
                                else "Error: " +:+ stderr (answer (length (started s)))])%list |}).
Proof.
  unfold run_cmd, subprocess_run, succeeded. run. unfold mbind, M_bind, gets, modify. simpl.
  by destruct (returncode _ =? 0)%Z.
Qed.

(** The script exits with 0 exactly if both commands succeed, the submodules
    are updated only if the first command succeeded, and every command's output
    or error is printed. *)
Theorem init_deps_runs :
  outcome init_deps new_shell = Ok (if succeeded 0 && succeeded 1 then 0 else 1)%Z /\
  started (exec init_deps new_shell) =
    (repo_root, add_pqm4) :: (if succeeded 0 then [(repo_root, update_submodules)] else []) /\
  length (printed (exec init_deps new_shell)) =
    (if succeeded 0 then if succeeded 1 then 3 else 2 else 1)%nat.
Proof.
  unfold outcome, exec, init_deps. rewrite (M_bind_ok _ _ _ _ _ (run_cmd_run _ _ _)). cbn [started printed new_shell app length].
  destruct (succeeded 0) eqn:E0; cbn [negb andb]; [|done].
  rewrite (M_bind_ok _ _ _ _ _ (run_cmd_run _ _ _)). cbn [started printed app length].
  by destruct (succeeded 1).
Qed.
End Init.
