(* ===== verification/Text.v ===== *)
(** * Text as the patch scripts handle it

    Python's [str.replace], [str.find] and [in] on text held as a string of
    characters, the escape sequences of its string literals, and the newline
    translation of files opened in text mode. *)

From Stdlib Require Import ZArith Lia Ascii.
From stdpp Require Import prelude strings.
From S2P Require Import Prelude.
#[local] Open Scope string_scope.

(** ** Searching and replacing *)

(** [s.startswith(p)], returning what follows. *)
Fixpoint strip (p s : string) : option string :=
  match p, s with
  | EmptyString, _ => Some s
  | String a p', String b s' => if Ascii.eqb a b then strip p' s' else None
  | String _ _, EmptyString => None
  end.

Definition starts (p s : string) : bool := match strip p s with Some _ => true | None => false end.

(** [s.find(p)]: the first position, or -1. *)
Fixpoint find_from (i : Z) (p s : string) : Z :=
  if starts p s then i
  else match s with EmptyString => -1 | String _ s' => find_from (i + 1) p s' end.
Definition find (p s : string) : Z := find_from 0 p s.

(** [p in s] *)
Fixpoint contains (p s : string) : bool :=
  starts p s || match s with EmptyString => false | String _ s' => contains p s' end.

(** [s.replace(old, new)] for a non-empty [old]: occurrences from the left,
    not overlapping; [skip] characters of an occurrence are still to drop. *)
Fixpoint replace_from (skip : nat) (old new s : string) : string :=
  match s with
  | EmptyString => EmptyString
  | String c s' =>
      match skip with
      | S k => replace_from k old new s'
      | O => if starts old s then new +:+ replace_from (pred (String.length old)) old new s'
             else String c (replace_from O old new s')
      end
  end.
Definition replace (old new s : string) : string := replace_from O old new s.

(** [s.replace(old, new, 1)] *)
Fixpoint replace_first (old new s : string) : string :=
  match strip old s with
  | Some rest => new +:+ rest
  | None => match s with EmptyString => EmptyString | String c s' => String c (replace_first old new s') end
  end.

(** [s.count(p)] for a non-empty [p]. *)
Fixpoint count_from (skip : nat) (p s : string) : nat :=
  match s with
  | EmptyString => O
  | String _ s' =>
      match skip with
      | S k => count_from k p s'
      | O => if starts p s then S (count_from (pred (String.length p)) p s') else count_from O p s'
      end
  end.
Definition count (p s : string) : nat := count_from O p s.

(** stdpp keeps [+:+] from reducing. *)
Lemma app_cons c (a b : string) : String c a +:+ b = String c (a +:+ b).
Proof. done. Qed.

Lemma app_empty (b : string) : "" +:+ b = b.
Proof. done. Qed.

Create HintDb text_db.
#[export] Hint Rewrite app_cons app_empty : text_db.
Ltac text := autorewrite with text_db in *.

Lemma string_app_assoc (a b c : string) : a +:+ (b +:+ c) = (a +:+ b) +:+ c.
Proof. induction a as [|x a IH]; [done|]. text. by rewrite IH. Qed.

Lemma string_app_nil (a : string) : a +:+ "" = a.
Proof. induction a as [|x a IH]; [done|]. text. by rewrite IH. Qed.

Lemma string_length_app (a b : string) :
  String.length (a +:+ b) = (String.length a + String.length b)%nat.
Proof. induction a as [|x a IH]; [done|]. text. cbn [String.length]. by rewrite IH. Qed.

Lemma strip_spec p s r : strip p s = Some r <-> s = p +:+ r.
Proof.
  revert s. induction p as [|a p IH]; intros s; cbn [strip].
  - split; [by intros [= ->]|by intros ->].
  - destruct s as [|b s]; [done|]. destruct (Ascii.eqb_spec a b) as [<-|Hne].
    + rewrite IH. text. split; [by intros ->|by intros [= ->]].
    + split; [done|]. text. by intros [= ? _].
Qed.

Lemma starts_spec p s : starts p s = true <-> exists r, s = p +:+ r.
Proof.
  unfold starts. destruct (strip p s) as [r|] eqn:E.
  - apply strip_spec in E. split; [by exists r|done].
  - split; [done|]. intros [r Hr]. apply strip_spec in Hr. by rewrite Hr in E.
Qed.

(** [p] occurs in [s]. *)
Definition occurs (p s : string) : Prop := exists a b, s = a +:+ p +:+ b.

Lemma contains_spec p s : contains p s = true <-> occurs p s.
Proof.
  induction s as [|c s IH]; cbn [contains]; rewrite orb_true_iff, starts_spec.
  - split.
    + intros [[r Hr]|]; [|done]. by exists "", r.
    + intros ([|x a] & b & H); [left; by exists b|done].
  - rewrite IH. split.
    + intros [[r Hr]|(a & b & ->)]; [by exists "", r|by exists (String c a), b].
    + intros ([|x a] & b & H); [left; by exists b|]. injection H as <- ->. right. by exists a, b.
Qed.

Lemma find_absent p s i : 0 <= i -> find_from i p s = -1 <-> contains p s = false.
Proof.
  revert i. induction s as [|c s IH]; intros i Hi; cbn [find_from contains].
  - destruct (starts p ""); cbn; [lia|done].
  - destruct (starts p (String c s)); cbn [orb]; [lia|]. apply IH. lia.
Qed.

(** ** [replace] *)

Lemma replace_from_skip old new a s :
  replace_from (String.length a) old new (a +:+ s) = replace_from O old new s.
Proof. induction a as [|c a IH]; [done|]. apply IH. Qed.

Lemma replace_hit old new s : old <> "" -> replace old new (old +:+ s) = new +:+ replace old new s.
Proof.
  intros Hne. destruct old as [|c old]; [done|]. unfold replace at 1. rewrite app_cons. cbn [replace_from].
  rewrite <- app_cons, (proj2 (starts_spec (String c old) _)) by by exists s.
  cbn [String.length pred]. by rewrite replace_from_skip.
Qed.

Lemma replace_miss old new c s :
  starts old (String c s) = false -> replace old new (String c s) = String c (replace old new s).
Proof. intros H. unfold replace. cbn [replace_from]. by rewrite H. Qed.

(** The reasoning principle of [replace]: what is in front is an occurrence or
    it is not. *)
Lemma replace_ind (old : string) (P : string -> Prop) :
  old <> "" -> P "" -> (forall s, P s -> P (old +:+ s)) ->
  (forall c s, starts old (String c s) = false -> P s -> P (String c s)) -> forall s, P s.
Proof.
  intros Hne H0 Hhit Hmiss s. remember (String.length s) as n eqn:Hn.
  revert s Hn. induction (lt_wf n) as [n _ IH]. intros s ->.
  destruct s as [|c s]; [done|]. destruct (starts old (String c s)) eqn:E.
  - apply starts_spec in E as [r Hr]. rewrite Hr in *. apply Hhit. eapply IH; [|done].
    rewrite string_length_app. destruct old; [done|]. cbn [String.length]. lia.
  - apply Hmiss; [done|]. eapply IH; [|done]. cbn [String.length]. lia.
Qed.

Lemma replace_absent old new s : contains old s = false -> replace old new s = s.
Proof.
  induction s as [|c s IH]; [done|]. cbn [contains]. intros [Hs Hc]%orb_false_iff.
  rewrite replace_miss by done. by rewrite IH.
Qed.

(** ** When a replacement leaves no occurrence *)

(** One of the two is a prefix of the other. *)
Definition comparable (p s : string) : bool := starts p s || starts s p.

Fixpoint suffixes (s : string) : list string :=
  s :: match s with EmptyString => [] | String _ s' => suffixes s' end.

Definition proper_suffixes (s : string) : list string :=
  filter (fun w => w <> "") (match s with EmptyString => [] | String _ s' => suffixes s' end).

(** [new] can neither hold, end nor begin a part of [old]. *)
Definition separate (old new : string) : bool :=
  forallb (fun w => negb (comparable old w)) (filter (fun w => w <> "") (suffixes new)) &&
  forallb (fun w => negb (comparable w new)) (proper_suffixes old).

Lemma prefixes_comparable a b s : starts a s = true -> starts b s = true -> comparable a b = true.
Proof.
  unfold comparable. revert b s. induction a as [|x a IH]; intros b s Ha Hb.
  - apply orb_true_iff. left. apply starts_spec. by exists b.
  - destruct b as [|y b]; [apply orb_true_iff; right; apply starts_spec; by exists (String x a)|].
    apply starts_spec in Ha as [r ->]. apply starts_spec in Hb as [r' Hr]. text.
    injection Hr as -> Hr. unfold starts in *. cbn [strip]. rewrite Ascii.eqb_refl.
    apply (IH b (a +:+ r)); [by apply starts_spec; exists r|rewrite Hr; by apply starts_spec; exists r'].
Qed.

Lemma suffixes_app a b : b ∈ suffixes (a +:+ b).
Proof. induction a as [|c a IH]; text; [destruct b; left|]. cbn [suffixes]. by right. Qed.

(** The text a replacement starts with was there before, if it is part of [old]. *)
Lemma replace_prefix old new w s :
  old <> "" -> new <> "" -> separate old new = true ->
  (forall v, v ∈ suffixes w -> v <> "" -> v ∈ proper_suffixes old) ->
  starts w (replace old new s) = true -> starts w s = true.
Proof.
  intros Hne Hnew Hsep. apply andb_true_iff in Hsep as [_ Hsep]. rewrite forallb_forall in Hsep.
  revert w. pattern s. apply (replace_ind old); [done|done| |]; clear s.
  - intros s IH w Hw H. rewrite replace_hit in H by done. destruct w as [|x w]; [done|].
    specialize (Hw (String x w) ltac:(left) ltac:(done)). apply list_elem_of_In, Hsep in Hw.
    rewrite (prefixes_comparable _ new (new +:+ replace old new s)) in Hw; [done|done|].
    apply starts_spec. by eexists.
  - intros c s Hc IH w Hw H. rewrite replace_miss in H by done. destruct w as [|x w]; [done|].
    unfold starts in *. cbn [strip] in *. destruct (Ascii.eqb x c); [|done].
    apply IH; [|done]. intros v Hv. apply Hw. by right.
Qed.

Lemma contains_after old new R v :
  (forall w, w ∈ suffixes new -> w <> "" -> comparable old w = false) ->
  (forall w, w ∈ suffixes v -> w ∈ suffixes new) ->
  contains old R = false -> contains old (v +:+ R) = false.
Proof.
  intros Hsep. induction v as [|c v IH]; intros Hv HR; text; [done|].
  cbn [contains]. apply orb_false_iff. split.
  - destruct (starts old (String c (v +:+ R))) eqn:E; [|done].
    rewrite <- (Hsep (String c v)); [|apply Hv; left|done]. symmetry.
    apply (prefixes_comparable _ _ (String c (v +:+ R)) E). apply starts_spec. by exists R.
  - apply IH; [|done]. intros w Hw. apply Hv. cbn [suffixes]. by right.
Qed.

Lemma replace_removes old new s :
  old <> "" -> new <> "" -> separate old new = true -> contains old (replace old new s) = false.
Proof.
  intros Hne Hnew Hsep. pose proof Hsep as [Hs1 Hs2]%andb_true_iff.
  rewrite forallb_forall in Hs1.
  pattern s. apply (replace_ind old); [done| | |]; clear s.
  - by destruct old.
  - intros s IH. rewrite replace_hit by done. apply (contains_after old new _ new); [|done|done].
    intros w Hw Hnil. apply negb_true_iff, Hs1, list_elem_of_In, list_elem_of_filter. by split.
  - intros c s Hc IH. rewrite replace_miss by done. cbn [contains]. rewrite IH, orb_false_r.
    destruct old as [|x old]; [done|]. unfold starts in *. cbn [strip] in *.
    destruct (Ascii.eqb x c); [|done]. change (starts old (replace (String x old) new s) = false).
    change (starts old s = false) in Hc.
    destruct (starts old (replace (String x old) new s)) eqn:E; [|done].
    rewrite <- Hc. symmetry. apply (replace_prefix (String x old) new); try done.
    intros v Hv Hnil. unfold proper_suffixes. apply list_elem_of_filter. by split.
Qed.

Lemma replace_idempotent old new s :
  old <> "" -> new <> "" -> separate old new = true ->
  replace old new (replace old new s) = replace old new s.
Proof. intros. apply replace_absent. by apply replace_removes. Qed.


(** ** [replace] is splitting and joining *)

(** [sep.join(parts)] *)
Fixpoint join (sep : string) (parts : list string) : string :=
  match parts with
  | [] => ""
  | [p] => p
  | p :: rest => p +:+ sep +:+ join sep rest
  end.

Lemma join_cons_char sep c p parts :
  join sep (String c p :: parts) = String c (join sep (p :: parts)).
Proof. destruct parts; cbn [join]; by text. Qed.

Lemma join_empty_head sep p parts : join sep ("" :: p :: parts) = sep +:+ join sep (p :: parts).
Proof. by cbn [join]. Qed.

Lemma count_from_skip p a s : count_from (String.length a) p (a +:+ s) = count_from O p s.
Proof. induction a as [|c a IH]; [done|]. apply IH. Qed.

Lemma count_hit p s : p <> "" -> count p (p +:+ s) = S (count p s).
Proof.
  intros Hne. destruct p as [|c p]; [done|]. unfold count. rewrite app_cons. cbn [count_from].
  rewrite <- app_cons, (proj2 (starts_spec (String c p) _)) by by exists s.
  cbn [String.length pred]. by rewrite count_from_skip.
Qed.

(** The text splits at the [count] occurrences found from the left, and the
    result joins the parts with the new text. *)
Lemma replace_parts old new s :
  old <> "" -> exists parts, length parts = S (count old s) /\
    s = join old parts /\ replace old new s = join new parts.
Proof.
  intros Hne. pattern s. apply (replace_ind old); [done| | |]; clear s.
  - exists [""]. done.
  - intros s (parts & Hl & Hs & Hr). destruct parts as [|p parts]; [done|].
    exists ("" :: p :: parts). rewrite count_hit, replace_hit by done.
    split; [cbn [length] in *; lia|]. rewrite !join_empty_head. split; congruence.
  - intros c s Hc (parts & Hl & Hs & Hr). destruct parts as [|p parts]; [done|].
    exists (String c p :: parts). rewrite replace_miss by done. rewrite !join_cons_char.
    split; [|split; congruence]. unfold count in *. cbn [count_from]. by rewrite Hc.
Qed.

(** ** Newlines in text mode *)

Definition CR : ascii := Ascii.ascii_of_nat 13.
Definition LF : ascii := Ascii.ascii_of_nat 10.
Definition QUOTE : ascii := Ascii.ascii_of_nat 34.
Definition NUL : ascii := Ascii.zero.

(** Universal newlines: what [open(path, 'r').read()] makes of the bytes.
    [after_cr] says that a carriage return was just turned into a newline. *)
Fixpoint from_disk (after_cr : bool) (s : string) : string :=
  match s with
  | EmptyString => EmptyString
  | String c s' =>
      if Ascii.eqb c CR then String LF (from_disk true s')
      else if Ascii.eqb c LF && after_cr then from_disk false s'
      else String c (from_disk false s')
  end.

(** Every newline becomes [os.linesep] on the way out. *)
Fixpoint to_disk (linesep : string) (s : string) : string :=
  match s with
  | EmptyString => EmptyString
  | String c s' => if Ascii.eqb c LF then linesep +:+ to_disk linesep s' else String c (to_disk linesep s')
  end.

Fixpoint has_char (c : ascii) (s : string) : bool :=
  match s with EmptyString => false | String d s' => Ascii.eqb c d || has_char c s' end.

(** The two separators Python runs with. *)
Definition linesep_ok (linesep : string) : Prop :=
  linesep = String LF "" \/ linesep = String CR (String LF "").

(** Text without carriage returns survives being written and read back. *)
Lemma text_mode_roundtrip linesep s after :
  linesep_ok linesep -> has_char CR s = false ->
  (after = false \/ match s with String c _ => c <> LF | EmptyString => True end) ->
  from_disk after (to_disk linesep s) = s.
Proof.
  intros Hsep. revert after. induction s as [|c s IH]; intros after Hcr Hafter; [done|].
  cbn [has_char] in Hcr. apply orb_false_iff in Hcr as [Hc Hs].
  cbn [to_disk]. destruct (Ascii.eqb_spec c LF) as [->|Hlf].
  - destruct Hafter as [->|]; [|done]. destruct Hsep as [->| ->]; text; cbn.
    + f_equal. apply IH; [done|by left].
    + f_equal. apply IH; [done|by left].
  - cbn [from_disk]. rewrite Ascii.eqb_sym, Hc. rewrite (proj2 (Ascii.eqb_neq c LF) Hlf).
    cbn [andb]. f_equal. apply IH; [done|by left].
Qed.

(** ** String literals

    A script's text is given as its source lines.  Rocq strings have no
    escapes, so a backslash stands for itself; a backquote, which none of the
    texts contains, stands for the double quote. *)

Fixpoint unquote (s : string) : string :=
  match s with
  | EmptyString => EmptyString
  | String c s' => String (if Ascii.eqb c "`" then QUOTE else c) (unquote s')
  end.

(** Source lines, each ended by a newline. *)
Definition lines (ls : list string) : string :=
  foldr (fun l acc => unquote l +:+ String LF acc) "" ls.

(** The value of a hexadecimal digit. *)
Definition hex_digit (c : ascii) : option N :=
  let n := N_of_ascii c in
  if (48 <=? n)%N && (n <=? 57)%N then Some (n - 48)%N
  else if (97 <=? n)%N && (n <=? 102)%N then Some (n - 87)%N
  else if (65 <=? n)%N && (n <=? 70)%N then Some (n - 55)%N
  else None.

(** The escapes of one character after the backslash. *)
Definition simple_escape (c : ascii) : option string :=
  if Ascii.eqb c "\" then Some "\"
  else if Ascii.eqb c "'" then Some "'"
  else if Ascii.eqb c QUOTE then Some (String QUOTE "")
  else if Ascii.eqb c "a" then Some (String (ascii_of_N 7) "")
  else if Ascii.eqb c "b" then Some (String (ascii_of_N 8) "")
  else if Ascii.eqb c "t" then Some (String (ascii_of_N 9) "")
  else if Ascii.eqb c "n" then Some (String LF "")
  else if Ascii.eqb c "v" then Some (String (ascii_of_N 11) "")
  else if Ascii.eqb c "f" then Some (String (ascii_of_N 12) "")
  else if Ascii.eqb c "r" then Some (String CR "")
  else if Ascii.eqb c LF then Some ""
  else None.

(** The value of a literal without the [r] prefix: the simple escapes and
    [\xhh]; an unknown escape keeps its backslash.  Octal and named escapes do
    not occur in the scripts. *)
Fixpoint unescape (s : string) : string :=
  match s with
  | String b (String c s' as rest) =>
      if Ascii.eqb b "\" then
        match simple_escape c with
        | Some e => e +:+ unescape s'
        | None =>
            if Ascii.eqb c "x" then
              match s' with
              | String h (String l s'') =>
                  match hex_digit h, hex_digit l with
                  | Some h, Some l => String (ascii_of_N (16 * h + l)) (unescape s'')
                  | _, _ => String b (unescape rest)
                  end
              | _ => String b (unescape rest)
              end
            else String b (unescape rest)
        end
      else String b (unescape rest)
  | _ => s
  end.

(** A literal without backslashes means what it says. *)
Lemma unescape_plain s : has_char "\" s = false -> unescape s = s.
Proof.
  induction s as [|b s IH]; [done|]. cbn [has_char]. intros [Hb Hs]%orb_false_iff.
  specialize (IH Hs). destruct s as [|c s]; [done|]. cbn [unescape] in *.
  rewrite Ascii.eqb_sym, Hb. by rewrite IH.
Qed.

Example unescape_nul : unescape "b`\x00` * length" = "b`" +:+ String NUL "` * length".
Proof. reflexivity. Qed.
Example unescape_double : unescape "C:\\DROP\n" = "C:\DROP" +:+ String LF "".
Proof. reflexivity. Qed.
