(* ===== verification/CTexts.v ===== *)
(** * The C files the patch scripts write

    The string literals of the scripts that replace files of the firmware,
    line by line as the scripts' sources have them. *)

From stdpp Require Import prelude strings.
From S2P Require Import Prelude Text.
#[local] Open Scope string_scope.

(** phase2_fixes.py: [state_machine.c], *)
Definition state_machine_phase2 : string := lines [
  "#include `protocol_types.h`";
  "#include `memory_scratchpad.h`";
  "#include `kem_adapter.h`";
  "#include <stdint.h>";
  "#include <string.h>";
  "";
  "#define MAX_CLIENTS 16";
  "#define STATE_TIMEOUT_MS 5000";
  "#define LOCAL_TRAINING_DELAY_MS 100";
  "";
  "static protocol_state_buffer_t* get_proto_state(void) {";
  "    return scratch_get_proto_state();";
  "}";
  "";
  "static void mock_local_training(client_protocol_ctx_t* ctx) {";
  "    for (volatile uint32_t i = 0; i < LOCAL_TRAINING_DELAY_MS * 1000; i++) {";
  "        __asm__ volatile (`nop`);";
  "    }";
  "    (void)ctx;";
  "}";
  "";
  "pqc_status_t state_machine_init(client_protocol_ctx_t* ctx, uint8_t client_id, uint32_t round_id) {";
  "    if (!ctx) return ERR_INVALID_ARGUMENT;";
  "    memset(ctx, 0, sizeof(client_protocol_ctx_t));";
  "    ctx->client_id = client_id;";
  "    ctx->current_round_id = round_id;";
  "    ctx->state = STATE_ROUND_INIT;";
  "    ctx->timeout_ms = STATE_TIMEOUT_MS;";
  "    return PQC_SUCCESS;";
  "}";
  "";
  "pqc_status_t state_machine_transition(client_protocol_ctx_t* ctx, protocol_state_t new_state) {";
  "    if (!ctx) return ERR_INVALID_ARGUMENT;";
  "    if (ctx->state == STATE_ERROR) return ERR_INVALID_STATE;";
  "    ctx->state = new_state;";
  "    return PQC_SUCCESS;";
  "}";
  "";
  "pqc_status_t state_machine_handle_round_init(client_protocol_ctx_t* ctx, const msg_header_t* hdr, const uint8_t* payload) {";
  "    if (!ctx || !hdr || hdr->message_type != MSG_TYPE_ROUND_INIT) return ERR_INVALID_ARGUMENT;";
  "    if (hdr->round_id != ctx->current_round_id) return ERR_ROUND_MISMATCH;";
  "";
  "    const uint8_t* p = payload;";
  "    uint8_t expected_clients = *p++;";
  "    uint8_t threshold = *p++;";
  "    uint16_t chunk_size = (p[0] | (p[1] << 8)); p += 2;";
  "    uint32_t model_size = (p[0] | (p[1] << 8) | (p[2] << 16) | (p[3] << 24));";
  "";
  "    ctx->chunk_ctx.round_id = hdr->round_id;";
  "    ctx->chunk_ctx.client_id = ctx->client_id;";
  "    ctx->chunk_ctx.chunk_size = chunk_size;";
  "    ctx->chunk_ctx.model_total_bytes = model_size;";
  "    ctx->chunk_ctx.total_chunks = (model_size + chunk_size - 1) / chunk_size;";
  "    ctx->chunk_ctx.chunk_index = 0;";
  "    ctx->chunk_ctx.bytes_processed = 0;";
  "";
  "    return state_machine_transition(ctx, STATE_KEY_SETUP);";
  "}";
  "";
  "pqc_status_t state_machine_handle_key_setup(client_protocol_ctx_t* ctx, const msg_header_t* hdr, const uint8_t* payload) {";
  "    if (!ctx || ctx->state != STATE_KEY_SETUP) return ERR_INVALID_STATE;";
  "    if (hdr->message_type == MSG_TYPE_KEM_PUBLIC_KEY) {";
  "        return kem_adapter_keypair(&ctx->kem_kp);";
  "    }";
  "    return ERR_INVALID_ARGUMENT;";
  "}";
  "";
  "pqc_status_t state_machine_handle_mask_setup(client_protocol_ctx_t* ctx, const msg_header_t* hdr, const uint8_t* payload) {";
  "    if (!ctx || ctx->state != STATE_MASK_SETUP) return ERR_INVALID_STATE;";
  "    return state_machine_transition(ctx, STATE_LOCAL_TRAINING);";
  "}";
  "";
  "pqc_status_t state_machine_handle_local_training(client_protocol_ctx_t* ctx, const msg_header_t* hdr, const uint8_t* payload) {";
  "    if (!ctx || ctx->state != STATE_LOCAL_TRAINING) return ERR_INVALID_STATE;";
  "    mock_local_training(ctx);";
  "    return state_machine_transition(ctx, STATE_MASKED_UPDATE_STREAM);";
  "}";
  "";
  "pqc_status_t state_machine_handle_stream_chunk(client_protocol_ctx_t* ctx, const msg_header_t* hdr, const uint8_t* payload, uint16_t payload_len) {";
  "    if (!ctx || ctx->state != STATE_MASKED_UPDATE_STREAM) return ERR_INVALID_STATE;";
  "    if (hdr->sequence_number != ctx->chunk_ctx.chunk_index) return ERR_SEQUENCE_MISMATCH;";
  "    if (payload_len != ctx->chunk_ctx.chunk_size && !(ctx->chunk_ctx.is_final_chunk && payload_len < ctx->chunk_ctx.chunk_size)) {";
  "        return ERR_CHUNK_TOO_LARGE;";
  "    }";
  "    return PQC_SUCCESS;";
  "}";
  "";
  "pqc_status_t state_machine_handle_completion(client_protocol_ctx_t* ctx, const msg_header_t* hdr) {";
  "    if (!ctx || ctx->state != STATE_MASKED_UPDATE_STREAM) return ERR_INVALID_STATE;";
  "    if (hdr->message_type != MSG_TYPE_CLIENT_COMPLETE) return ERR_INVALID_ARGUMENT;";
  "    return state_machine_transition(ctx, STATE_CLIENT_COMPLETION);";
  "}";
  "";
  "pqc_status_t state_machine_handle_dropout_notify(client_protocol_ctx_t* ctx, const msg_header_t* hdr, const uint8_t* payload) {";
  "    if (!ctx || ctx->state != STATE_CLIENT_COMPLETION) return ERR_INVALID_STATE;";
  "    if (hdr->message_type != MSG_TYPE_DROPOUT_NOTIFY) return ERR_INVALID_ARGUMENT;";
  "    return state_machine_transition(ctx, STATE_MASK_RECOVERY);";
  "}";
  "";
  "pqc_status_t state_machine_handle_recovery_complete(client_protocol_ctx_t* ctx, const msg_header_t* hdr) {";
  "    if (!ctx || ctx->state != STATE_MASK_RECOVERY) return ERR_INVALID_STATE;";
  "    if (hdr->message_type != MSG_TYPE_RECOVERY_COMPLETE) return ERR_INVALID_ARGUMENT;";
  "    return state_machine_transition(ctx, STATE_UNMASK);";
  "}";
  "";
  "pqc_status_t state_machine_handle_round_complete(client_protocol_ctx_t* ctx, const msg_header_t* hdr) {";
  "    if (!ctx) return ERR_INVALID_ARGUMENT;";
  "    if (hdr->message_type != MSG_TYPE_ROUND_COMPLETE) return ERR_INVALID_ARGUMENT;";
  "    return state_machine_transition(ctx, STATE_ROUND_COMPLETE);";
  "}";
  "";
  "pqc_status_t state_machine_process_message(client_protocol_ctx_t* ctx, const msg_header_t* hdr, const uint8_t* payload, uint16_t payload_len) {";
  "    if (!ctx || !hdr) return ERR_INVALID_ARGUMENT;";
  "    if (hdr->round_id != ctx->current_round_id) return ERR_ROUND_MISMATCH;";
  "    if (hdr->client_id != 0 && hdr->client_id != ctx->client_id) return ERR_CLIENT_ID_MISMATCH;";
  "";
  "    switch (ctx->state) {";
  "        case STATE_ROUND_INIT:";
  "            return state_machine_handle_round_init(ctx, hdr, payload);";
  "        case STATE_KEY_SETUP:";
  "            return state_machine_handle_key_setup(ctx, hdr, payload);";
  "        case STATE_MASK_SETUP:";
  "            return state_machine_handle_mask_setup(ctx, hdr, payload);";
  "        case STATE_LOCAL_TRAINING:";
  "            return state_machine_handle_local_training(ctx, hdr, payload);";
  "        case STATE_MASKED_UPDATE_STREAM:";
  "            if (hdr->message_type == MSG_TYPE_MASK_CHUNK) {";
  "                return state_machine_handle_stream_chunk(ctx, hdr, payload, payload_len);";
  "            } else if (hdr->message_type == MSG_TYPE_CLIENT_COMPLETE) {";
  "                return state_machine_handle_completion(ctx, hdr);";
  "            }";
  "            break;";
  "        case STATE_CLIENT_COMPLETION:";
  "            return state_machine_handle_dropout_notify(ctx, hdr, payload);";
  "        case STATE_MASK_RECOVERY:";
  "            return state_machine_handle_recovery_complete(ctx, hdr);";
  "        case STATE_UNMASK:";
  "            return state_machine_transition(ctx, STATE_FEDAVG);";
  "        case STATE_FEDAVG:";
  "            return state_machine_transition(ctx, STATE_ROUND_COMPLETE);";
  "        default:";
  "            break;";
  "    }";
  "    return ERR_INVALID_STATE;";
  "}"
].

(** [packet_codec.h], *)
Definition codec_h_phase2 : string := lines [
  "#ifndef PACKET_CODEC_H";
  "#define PACKET_CODEC_H";
  "";
  "#include `protocol_types.h`";
  "#include <stdint.h>";
  "#include <stddef.h>";
  "";
  "#define MAC_SIZE 32";
  "#define HEADER_SIZE 16";
  "#define MAC_OFFSET (HEADER_SIZE - MAC_SIZE)";
  "";
  "pqc_status_t packet_codec_encode_header(const msg_header_t* hdr, uint8_t* out);";
  "pqc_status_t packet_codec_decode_header(const uint8_t* in, msg_header_t* hdr);";
  "pqc_status_t packet_codec_encode_message(const msg_header_t* hdr, const uint8_t* payload, uint8_t* out, size_t* out_len);";
  "pqc_status_t packet_codec_decode_message(const uint8_t* in, size_t in_len, msg_header_t* hdr, uint8_t* payload, size_t* payload_len);";
  "pqc_status_t packet_codec_validate_sequence(const msg_header_t* hdr, uint16_t expected_seq);";
  "pqc_status_t packet_codec_validate_round(const msg_header_t* hdr, uint32_t expected_round);";
  "pqc_status_t packet_codec_validate_client(const msg_header_t* hdr, uint8_t expected_client);";
  "pqc_status_t packet_codec_compute_mac(const uint8_t* key, const uint8_t* data, size_t data_len, uint8_t* mac);";
  "pqc_status_t packet_codec_verify_mac(const uint8_t* key, const uint8_t* data, size_t data_len, const uint8_t* mac);";
  "";
  "#endif"
].

(** [packet_codec.c], *)
Definition codec_c_phase2 : string := lines [
  "#include `packet_codec.h`";
  "#include <tinycrypt/hmac.h>";
  "#include <tinycrypt/sha256.h>";
  "#include <string.h>";
  "";
  "#define HEADER_SIZE 16";
  "#define MAC_SIZE 32";
  "";
  "static void build_mac_data(const msg_header_t* hdr, uint8_t* mac_data) {";
  "    mac_data[0] = (hdr->protocol_version >> 24) & 0xFF;";
  "    mac_data[1] = (hdr->protocol_version >> 16) & 0xFF;";
  "    mac_data[2] = (hdr->protocol_version >> 8) & 0xFF;";
  "    mac_data[3] = hdr->protocol_version & 0xFF;";
  "    mac_data[4] = (hdr->round_id >> 24) & 0xFF;";
  "    mac_data[5] = (hdr->round_id >> 16) & 0xFF;";
  "    mac_data[6] = (hdr->round_id >> 8) & 0xFF;";
  "    mac_data[7] = hdr->round_id & 0xFF;";
  "    mac_data[8] = hdr->client_id;";
  "    mac_data[9] = hdr->message_type;";
  "    mac_data[10] = (hdr->sequence_number >> 8) & 0xFF;";
  "    mac_data[11] = hdr->sequence_number & 0xFF;";
  "}";
  "";
  "pqc_status_t packet_codec_encode_header(const msg_header_t* hdr, uint8_t* out) {";
  "    if (!hdr || !out) return ERR_INVALID_ARGUMENT;";
  "    out[0] = (hdr->protocol_version >> 24) & 0xFF;";
  "    out[1] = (hdr->protocol_version >> 16) & 0xFF;";
  "    out[2] = (hdr->protocol_version >> 8) & 0xFF;";
  "    out[3] = hdr->protocol_version & 0xFF;";
  "    out[4] = (hdr->round_id >> 24) & 0xFF;";
  "    out[5] = (hdr->round_id >> 16) & 0xFF;";
  "    out[6] = (hdr->round_id >> 8) & 0xFF;";
  "    out[7] = hdr->round_id & 0xFF;";
  "    out[8] = hdr->client_id;";
  "    out[9] = hdr->message_type;";
  "    out[10] = (hdr->sequence_number >> 8) & 0xFF;";
  "    out[11] = hdr->sequence_number & 0xFF;";
  "    out[12] = (hdr->payload_length >> 8) & 0xFF;";
  "    out[13] = hdr->payload_length & 0xFF;";
  "    out[14] = (hdr->reserved >> 8) & 0xFF;";
  "    out[15] = hdr->reserved & 0xFF;";
  "    return PQC_SUCCESS;";
  "}";
  "";
  "pqc_status_t packet_codec_decode_header(const uint8_t* in, msg_header_t* hdr) {";
  "    if (!in || !hdr) return ERR_INVALID_ARGUMENT;";
  "    hdr->protocol_version = ((uint32_t)in[0] << 24) | ((uint32_t)in[1] << 16) | ((uint32_t)in[2] << 8) | in[3];";
  "    hdr->round_id = ((uint32_t)in[4] << 24) | ((uint32_t)in[5] << 16) | ((uint32_t)in[6] << 8) | in[7];";
  "    hdr->client_id = in[8];";
  "    hdr->message_type = in[9];";
  "    hdr->sequence_number = ((uint16_t)in[10] << 8) | in[11];";
  "    hdr->payload_length = ((uint16_t)in[12] << 8) | in[13];";
  "    hdr->reserved = ((uint16_t)in[14] << 8) | in[15];";
  "    return PQC_SUCCESS;";
  "}";
  "";
  "pqc_status_t packet_codec_compute_mac(const uint8_t* key, const uint8_t* data, size_t data_len, uint8_t* mac) {";
  "    if (!key || !data || !mac) return ERR_INVALID_ARGUMENT;";
  "    struct tc_hmac_state_struct hmac;";
  "    tc_hmac_set_key(&hmac, key, 32);";
  "    tc_hmac_init(&hmac);";
  "    tc_hmac_update(&hmac, data, data_len);";
  "    tc_hmac_final(mac, MAC_SIZE, &hmac);";
  "    return PQC_SUCCESS;";
  "}";
  "";
  "pqc_status_t packet_codec_verify_mac(const uint8_t* key, const uint8_t* data, size_t data_len, const uint8_t* mac) {";
  "    if (!key || !data || !mac) return ERR_INVALID_ARGUMENT;";
  "    uint8_t expected_mac[MAC_SIZE];";
  "    pqc_status_t ret = packet_codec_compute_mac(key, data, data_len, expected_mac);";
  "    if (ret != PQC_SUCCESS) return ret;";
  "    for (size_t i = 0; i < MAC_SIZE; i++) {";
  "        if (expected_mac[i] != mac[i]) return ERR_AUTH_FAILED;";
  "    }";
  "    return PQC_SUCCESS;";
  "}";
  "";
  "pqc_status_t packet_codec_encode_message(const msg_header_t* hdr, const uint8_t* payload, uint8_t* out, size_t* out_len) {";
  "    if (!hdr || !out || !out_len) return ERR_INVALID_ARGUMENT;";
  "    if (hdr->payload_length > 0 && !payload) return ERR_INVALID_ARGUMENT;";
  "    pqc_status_t ret = packet_codec_encode_header(hdr, out);";
  "    if (ret != PQC_SUCCESS) return ret;";
  "    if (hdr->payload_length > 0) {";
  "        memcpy(out + HEADER_SIZE, payload, hdr->payload_length);";
  "    }";
  "    *out_len = HEADER_SIZE + hdr->payload_length;";
  "    return PQC_SUCCESS;";
  "}";
  "";
  "pqc_status_t packet_codec_decode_message(const uint8_t* in, size_t in_len, msg_header_t* hdr, uint8_t* payload, size_t* payload_len) {";
  "    if (!in || !hdr || in_len < HEADER_SIZE) return ERR_INVALID_ARGUMENT;";
  "    pqc_status_t ret = packet_codec_decode_header(in, hdr);";
  "    if (ret != PQC_SUCCESS) return ret;";
  "    if (in_len < HEADER_SIZE + hdr->payload_length) return ERR_INVALID_ARGUMENT;";
  "    if (hdr->payload_length > 0 && payload) {";
  "        memcpy(payload, in + HEADER_SIZE, hdr->payload_length);";
  "    }";
  "    if (payload_len) *payload_len = hdr->payload_length;";
  "    return PQC_SUCCESS;";
  "}";
  "";
  "pqc_status_t packet_codec_validate_sequence(const msg_header_t* hdr, uint16_t expected_seq) {";
  "    if (!hdr) return ERR_INVALID_ARGUMENT;";
  "    if (hdr->sequence_number != expected_seq) return ERR_SEQUENCE_MISMATCH;";
  "    return PQC_SUCCESS;";
  "}";
  "";
  "pqc_status_t packet_codec_validate_round(const msg_header_t* hdr, uint32_t expected_round) {";
  "    if (!hdr) return ERR_INVALID_ARGUMENT;";
  "    if (hdr->round_id != expected_round) return ERR_ROUND_MISMATCH;";
  "    return PQC_SUCCESS;";
  "}";
  "";
  "pqc_status_t packet_codec_validate_client(const msg_header_t* hdr, uint8_t expected_client) {";
  "    if (!hdr) return ERR_INVALID_ARGUMENT;";
  "    if (hdr->client_id != 0 && hdr->client_id != expected_client) return ERR_CLIENT_ID_MISMATCH;";
  "    return PQC_SUCCESS;";
  "}"
].

(** [impairment.c] *)
Definition impairment_c_phase2 : string := lines [
  "#include `impairment.h`";
  "#include <stdint.h>";
  "#include <stdlib.h>";
  "#include <string.h>";
  "";
  "static impairment_config_t g_impairment_config = {0};";
  "static uint32_t g_rng_state = 0xDEADBEEF;";
  "";
  "static inline uint32_t rng_next(void) {";
  "    g_rng_state = g_rng_state * 1664525 + 1013904223;";
  "    return g_rng_state;";
  "}";
  "";
  "void impairment_init(const impairment_config_t* config) {";
  "    if (!config) return;";
  "    g_impairment_config = *config;";
  "    if (config->seed) {";
  "        g_rng_state = config->seed;";
  "    }";
  "}";
  "";
  "void impairment_set_loss_rate(uint32_t loss_rate_ppm) {";
  "    g_impairment_config.loss_rate_ppm = loss_rate_ppm;";
  "}";
  "";
  "void impairment_set_latency_ms(uint32_t min_latency_ms, uint32_t max_latency_ms) {";
  "    g_impairment_config.min_latency_ms = min_latency_ms;";
  "    g_impairment_config.max_latency_ms = max_latency_ms;";
  "}";
  "";
  "void impairment_set_jitter_ms(uint32_t jitter_ms) {";
  "    g_impairment_config.jitter_ms = jitter_ms;";
  "}";
  "";
  "int impairment_should_drop(void) {";
  "    if (g_impairment_config.loss_rate_ppm == 0) return 0;";
  "    uint32_t r = rng_next() % 1000000;";
  "    return r < g_impairment_config.loss_rate_ppm;";
  "}";
  "";
  "uint32_t impairment_get_latency_ms(void) {";
  "    if (g_impairment_config.min_latency_ms == 0 && g_impairment_config.max_latency_ms == 0) return 0;";
  "    uint32_t base = g_impairment_config.min_latency_ms;";
  "    uint32_t range = g_impairment_config.max_latency_ms - g_impairment_config.min_latency_ms;";
  "    uint32_t jitter = g_impairment_config.jitter_ms;";
  "    uint32_t r = rng_next();";
  "    uint32_t latency = base + (r % (range + 1));";
  "    if (jitter > 0) {";
  "        int32_t jitter_val = (int32_t)(rng_next() % (2 * jitter + 1)) - (int32_t)jitter;";
  "        if ((int32_t)latency + jitter_val > 0) {";
  "            latency = (uint32_t)((int32_t)latency + jitter_val);";
  "        }";
  "    }";
  "    return latency;";
  "}";
  "";
  "void impairment_delay(uint32_t ms) {";
  "    for (volatile uint32_t i = 0; i < ms * 10000; i++) {";
  "        __asm__ volatile (`nop`);";
  "    }";
  "}";
  "";
  "pqc_status_t impairment_recv(int sock, uint8_t* buf, size_t len, size_t* received) {";
  "    if (impairment_should_drop()) {";
  "        *received = 0;";
  "        return ERR_NETWORK_TIMEOUT;";
  "    }";
  "    uint32_t latency = impairment_get_latency_ms();";
  "    if (latency > 0) impairment_delay(latency);";
  "    return transport_recv(sock, buf, len, received);";
  "}";
  "";
  "pqc_status_t impairment_send(int sock, const uint8_t* buf, size_t len, size_t* sent) {";
  "    if (impairment_should_drop()) {";
  "        *sent = 0;";
  "        return ERR_NETWORK_TIMEOUT;";
  "    }";
  "    uint32_t latency = impairment_get_latency_ms();";
  "    if (latency > 0) impairment_delay(latency);";
  "    return transport_send(sock, buf, len, sent);";
  "}"
].

(** and [impairment.h]. *)
Definition impairment_h_phase2 : string := lines [
  "#ifndef IMPAIRMENT_H";
  "#define IMPAIRMENT_H";
  "";
  "#include `protocol_types.h`";
  "#include <stdint.h>";
  "#include <stddef.h>";
  "";
  "typedef struct {";
  "    uint32_t loss_rate_ppm;";
  "    uint32_t min_latency_ms;";
  "    uint32_t max_latency_ms;";
  "    uint32_t jitter_ms;";
  "    uint32_t seed;";
  "} impairment_config_t;";
  "";
  "void impairment_init(const impairment_config_t* config);";
  "void impairment_set_loss_rate(uint32_t loss_rate_ppm);";
  "void impairment_set_latency_ms(uint32_t min_latency_ms, uint32_t max_latency_ms);";
  "void impairment_set_jitter_ms(uint32_t jitter_ms);";
  "int impairment_should_drop(void);";
  "uint32_t impairment_get_latency_ms(void);";
  "void impairment_delay(uint32_t ms);";
  "pqc_status_t impairment_recv(int sock, uint8_t* buf, size_t len, size_t* received);";
  "pqc_status_t impairment_send(int sock, const uint8_t* buf, size_t len, size_t* sent);";
  "";
  "#endif"
].

(** batch1_fixes.py: [dropout_protocol.c], *)
Definition dropout_protocol_batch1 : string := lines [
  "#include `protocol_types.h`";
  "#include `memory_scratchpad.h`";
  "#include `crypto_memory.h`";
  "#include <stdint.h>";
  "#include <string.h>";
  "";
  "#define FIELD_MODULUS 3329";
  "#define BARRETT_MULTIPLIER 20159";
  "#define BARRETT_SHIFT 26";
  "#define SHAMIR_MAX_DEGREE 32";
  "#define SHAMIR_SHARE_VALUE_BYTES 32";
  "";
  "static inline uint16_t barrett_reduce(uint32_t a) {";
  "    uint32_t t = (a * BARRETT_MULTIPLIER) >> BARRETT_SHIFT;";
  "    uint16_t r = (uint16_t)(a - t * FIELD_MODULUS);";
  "    return r >= FIELD_MODULUS ? r - FIELD_MODULUS : r;";
  "}";
  "";
  "static inline uint16_t gf3329_add(uint16_t a, uint16_t b) {";
  "    uint16_t r = a + b;";
  "    if (r >= FIELD_MODULUS) r -= FIELD_MODULUS;";
  "    return r;";
  "}";
  "";
  "static inline uint16_t gf3329_sub(uint16_t a, uint16_t b) {";
  "    return a >= b ? a - b : a + FIELD_MODULUS - b;";
  "}";
  "";
  "static inline uint16_t gf3329_mul(uint16_t a, uint16_t b) {";
  "    return barrett_reduce((uint32_t)a * b);";
  "}";
  "";
  "static inline uint16_t gf3329_inv(uint16_t a) {";
  "    uint32_t r = 1;";
  "    uint32_t e = FIELD_MODULUS - 2;";
  "    uint32_t base = a;";
  "    while (e) {";
  "        if (e & 1) r = barrett_reduce(r * base);";
  "        base = barrett_reduce(base * base);";
  "        e >>= 1;";
  "    }";
  "    return (uint16_t)r;";
  "}";
  "";
  "static void poly_eval(const uint16_t* coeffs, uint8_t threshold, uint16_t x, uint16_t* result) {";
  "    uint16_t res = coeffs[0];";
  "    uint16_t x_pow = x;";
  "    for (uint8_t i = 1; i < threshold; i++) {";
  "        uint16_t term = gf3329_mul(coeffs[i], x_pow);";
  "        res = gf3329_add(res, term);";
  "        x_pow = gf3329_mul(x_pow, x);";
  "    }";
  "    *result = res;";
  "}";
  "";
  "pqc_status_t shamir_gen_polynomial(const uint8_t* secret, uint8_t threshold, uint16_t* coeffs) {";
  "    if (!secret || !coeffs || threshold == 0 || threshold > 32) return ERR_INVALID_ARGUMENT;";
  "    for (int i = 0; i < 32; i++) {";
  "        coeffs[i] = secret[i];";
  "    }";
  "    crypto_workspace_t* ws = scratch_get_crypto_ws();";
  "    mask_prg_init((uint8_t*)ws);";
  "    uint8_t rnd[32 * 32];";
  "    mask_prg_expand(rnd, sizeof(rnd));";
  "    for (uint8_t i = 1; i < threshold; i++) {";
  "        for (int j = 0; j < 32; j++) {";
  "            coeffs[i * 32 + j] = barrett_reduce(rnd[(i - 1) * 32 + j]);";
  "        }";
  "    }";
  "    crypto_zeroize(ws, sizeof(crypto_workspace_t));";
  "    return PQC_SUCCESS;";
  "}";
  "";
  "pqc_status_t shamir_eval_polynomial(const uint16_t* coeffs, uint8_t threshold, uint16_t x, uint8_t* y) {";
  "    if (!coeffs || !y || threshold == 0) return ERR_INVALID_ARGUMENT;";
  "    for (int j = 0; j < 32; j++) {";
  "        const uint16_t* coeffs_j = &coeffs[j];";
  "        poly_eval(coeffs_j, threshold, x, &y[j]);";
  "    }";
  "    return PQC_SUCCESS;";
  "}";
  "";
  "pqc_status_t shamir_gen_shares(const uint8_t* secret, uint8_t threshold, uint8_t num_shares, shamir_share_t* shares) {";
  "    if (!secret || !shares || threshold == 0 || num_shares < threshold || num_shares > 255) return ERR_INVALID_ARGUMENT;";
  "    if (threshold > 32) return ERR_INVALID_THRESHOLD;";
  "";
  "    shamir_workspace_t* ws = scratch_get_shamir_ws();";
  "    uint16_t* coeffs = (uint16_t*)ws->data;";
  "    uint16_t* eval_points = (uint16_t*)&ws->data[32 * 32 * 2];";
  "    uint8_t* share_values = &ws->data[32 * 32 * 2 + 256 * 2];";
  "";
  "    pqc_status_t ret = shamir_gen_polynomial(secret, threshold, coeffs);";
  "    if (ret != PQC_SUCCESS) return ret;";
  "";
  "    for (uint8_t i = 0; i < num_shares; i++) {";
  "        uint16_t x = i + 1;";
  "        eval_points[i] = x;";
  "        ret = shamir_eval_polynomial(coeffs, threshold, x, share_values + i * 32);";
  "        if (ret != PQC_SUCCESS) return ret;";
  "        shares[i].share_id = x;";
  "        memcpy(shares[i].value, share_values + i * 32, 32);";
  "    }";
  "";
  "    crypto_zeroize(ws, sizeof(shamir_workspace_t));";
  "    return PQC_SUCCESS;";
  "}";
  "";
  "pqc_status_t shamir_reconstruct_secret(const shamir_share_t* shares, uint8_t num_shares, uint8_t threshold, uint8_t* secret) {";
  "    if (!shares || !secret || num_shares < threshold || threshold == 0) return ERR_INSUFFICIENT_SHARES;";
  "    if (threshold > 32) return ERR_INVALID_THRESHOLD;";
  "";
  "    for (uint8_t i = 0; i < num_shares; i++) {";
  "        for (uint8_t j = i + 1; j < num_shares; j++) {";
  "            if (shares[i].share_id == shares[j].share_id) return ERR_DUPLICATE_SHARE_ID;";
  "        }";
  "    }";
  "";
  "    for (int j = 0; j < 32; j++) {";
  "        uint16_t result = 0;";
  "        for (uint8_t i = 0; i < num_shares; i++) {";
  "            if (shares[i].share_id == 0) continue;";
  "            uint16_t xi = shares[i].share_id;";
  "            uint16_t yi = shares[i].value[j];";
  "            uint16_t li = 1;";
  "            for (uint8_t k = 0; k < num_shares; k++) {";
  "                if (i == k) continue;";
  "                if (shares[k].share_id == 0) continue;";
  "                uint16_t xk = shares[k].share_id;";
  "                uint16_t num = gf3329_mul(xk, li);";
  "                uint16_t den = gf3329_sub(xk, xi);";
  "                li = gf3329_mul(num, gf3329_inv(den));";
  "            }";
  "            result = gf3329_add(result, gf3329_mul(yi, li));";
  "        }";
  "        secret[j] = (uint8_t)result;";
  "    }";
  "    return PQC_SUCCESS;";
  "}"
].

(** [packet_codec.h] *)
Definition codec_h_batch1 : string := lines [
  "#ifndef PACKET_CODEC_H";
  "#define PACKET_CODEC_H";
  "";
  "#include `protocol_types.h`";
  "#include <stdint.h>";
  "#include <stddef.h>";
  "";
  "#define MAC_SIZE 32";
  "#define HEADER_SIZE 16";
  "#define MAC_OFFSET (HEADER_SIZE)";
  "";
  "pqc_status_t packet_codec_encode_header(const msg_header_t* hdr, uint8_t* out);";
  "pqc_status_t packet_codec_decode_header(const uint8_t* in, msg_header_t* hdr);";
  "pqc_status_t packet_codec_encode_message(const msg_header_t* hdr, const uint8_t* payload, const uint8_t* mac_key, uint8_t* out, size_t* out_len);";
  "pqc_status_t packet_codec_decode_message(const uint8_t* in, size_t in_len, const uint8_t* mac_key, msg_header_t* hdr, uint8_t* payload, size_t* payload_len);";
  "pqc_status_t packet_codec_validate_sequence(const msg_header_t* hdr, uint16_t expected_seq);";
  "pqc_status_t packet_codec_validate_round(const msg_header_t* hdr, uint32_t expected_round);";
  "pqc_status_t packet_codec_validate_client(const msg_header_t* hdr, uint8_t expected_client);";
  "";
  "#endif"
].

(** and [packet_codec.c]. *)
Definition codec_c_batch1 : string := lines [
  "#include `packet_codec.h`";
  "#include <tinycrypt/hmac.h>";
  "#include <tinycrypt/sha256.h>";
  "#include <string.h>";
  "";
  "#define HEADER_SIZE 16";
  "#define MAC_SIZE 32";
  "#define MAC_OFFSET (HEADER_SIZE)";
  "#define PAYLOAD_OFFSET (HEADER_SIZE + MAC_SIZE)";
  "";
  "static void build_mac_data(const msg_header_t* hdr, uint8_t* mac_data) {";
  "    mac_data[0] = (hdr->protocol_version >> 24) & 0xFF;";
  "    mac_data[1] = (hdr->protocol_version >> 16) & 0xFF;";
  "    mac_data[2] = (hdr->protocol_version >> 8) & 0xFF;";
  "    mac_data[3] = hdr->protocol_version & 0xFF;";
  "    mac_data[4] = (hdr->round_id >> 24) & 0xFF;";
  "    mac_data[5] = (hdr->round_id >> 16) & 0xFF;";
  "    mac_data[6] = (hdr->round_id >> 8) & 0xFF;";
  "    mac_data[7] = hdr->round_id & 0xFF;";
  "    mac_data[8] = hdr->client_id;";
  "    mac_data[9] = hdr->message_type;";
  "    mac_data[10] = (hdr->sequence_number >> 8) & 0xFF;";
  "    mac_data[11] = hdr->sequence_number & 0xFF;";
  "}";
  "";
  "pqc_status_t packet_codec_encode_header(const msg_header_t* hdr, uint8_t* out) {";
  "    if (!hdr || !out) return ERR_INVALID_ARGUMENT;";
  "    out[0] = (hdr->protocol_version >> 24) & 0xFF;";
  "    out[1] = (hdr->protocol_version >> 16) & 0xFF;";
  "    out[2] = (hdr->protocol_version >> 8) & 0xFF;";
  "    out[3] = hdr->protocol_version & 0xFF;";
  "    out[4] = (hdr->round_id >> 24) & 0xFF;";
  "    out[5] = (hdr->round_id >> 16) & 0xFF;";
  "    out[6] = (hdr->round_id >> 8) & 0xFF;";
  "    out[7] = hdr->round_id & 0xFF;";
  "    out[8] = hdr->client_id;";
  "    out[9] = hdr->message_type;";
  "    out[10] = (hdr->sequence_number >> 8) & 0xFF;";
  "    out[11] = hdr->sequence_number & 0xFF;";
  "    out[12] = (hdr->payload_length >> 8) & 0xFF;";
  "    out[13] = hdr->payload_length & 0xFF;";
  "    out[14] = (hdr->reserved >> 8) & 0xFF;";
  "    out[15] = hdr->reserved & 0xFF;";
  "    return PQC_SUCCESS;";
  "}";
  "";
  "pqc_status_t packet_codec_decode_header(const uint8_t* in, msg_header_t* hdr) {";
  "    if (!in || !hdr) return ERR_INVALID_ARGUMENT;";
  "    hdr->protocol_version = ((uint32_t)in[0] << 24) | ((uint32_t)in[1] << 16) | ((uint32_t)in[2] << 8) | in[3];";
  "    hdr->round_id = ((uint32_t)in[4] << 24) | ((uint32_t)in[5] << 16) | ((uint32_t)in[6] << 8) | in[7];";
  "    hdr->client_id = in[8];";
  "    hdr->message_type = in[9];";
  "    hdr->sequence_number = ((uint16_t)in[10] << 8) | in[11];";
  "    hdr->payload_length = ((uint16_t)in[12] << 8) | in[13];";
  "    hdr->reserved = ((uint16_t)in[14] << 8) | in[15];";
  "    return PQC_SUCCESS;";
  "}";
  "";
  "pqc_status_t packet_codec_compute_mac(const uint8_t* key, const uint8_t* data, size_t data_len, uint8_t* mac) {";
  "    if (!key || !data || !mac) return ERR_INVALID_ARGUMENT;";
  "    struct tc_hmac_state_struct hmac;";
  "    tc_hmac_set_key(&hmac, key, 32);";
  "    tc_hmac_init(&hmac);";
  "    tc_hmac_update(&hmac, data, data_len);";
  "    tc_hmac_final(mac, MAC_SIZE, &hmac);";
  "    return PQC_SUCCESS;";
  "}";
  "";
  "pqc_status_t packet_codec_verify_mac(const uint8_t* key, const uint8_t* data, size_t data_len, const uint8_t* mac) {";
  "    if (!key || !data || !mac) return ERR_INVALID_ARGUMENT;";
  "    uint8_t expected_mac[MAC_SIZE];";
  "    pqc_status_t ret = packet_codec_compute_mac(key, data, data_len, expected_mac);";
  "    if (ret != PQC_SUCCESS) return ret;";
  "    for (size_t i = 0; i < MAC_SIZE; i++) {";
  "        if (expected_mac[i] != mac[i]) return ERR_AUTH_FAILED;";
  "    }";
  "    return PQC_SUCCESS;";
  "}";
  "";
  "pqc_status_t packet_codec_encode_message(const msg_header_t* hdr, const uint8_t* payload, const uint8_t* mac_key, uint8_t* out, size_t* out_len) {";
  "    if (!hdr || !out || !out_len || !mac_key) return ERR_INVALID_ARGUMENT;";
  "    if (hdr->payload_length > 0 && !payload) return ERR_INVALID_ARGUMENT;";
  "    pqc_status_t ret = packet_codec_encode_header(hdr, out);";
  "    if (ret != PQC_SUCCESS) return ret;";
  "    if (hdr->payload_length > 0) {";
  "        memcpy(out + PAYLOAD_OFFSET, payload, hdr->payload_length);";
  "    }";
  "    uint8_t mac_data[12];";
  "    build_mac_data(hdr, mac_data);";
  "    uint8_t mac[MAC_SIZE];";
  "    ret = packet_codec_compute_mac(mac_key, mac_data, 12, mac);";
  "    if (ret != PQC_SUCCESS) return ret;";
  "    memcpy(out + MAC_OFFSET, mac, MAC_SIZE);";
  "    *out_len = PAYLOAD_OFFSET + hdr->payload_length;";
  "    return PQC_SUCCESS;";
  "}";
  "";
  "pqc_status_t packet_codec_decode_message(const uint8_t* in, size_t in_len, const uint8_t* mac_key, msg_header_t* hdr, uint8_t* payload, size_t* payload_len) {";
  "    if (!in || !hdr || !mac_key || in_len < PAYLOAD_OFFSET) return ERR_INVALID_ARGUMENT;";
  "    pqc_status_t ret = packet_codec_decode_header(in, hdr);";
  "    if (ret != PQC_SUCCESS) return ret;";
  "    if (in_len < PAYLOAD_OFFSET + hdr->payload_length) return ERR_INVALID_ARGUMENT;";
  "    uint8_t mac_data[12];";
  "    build_mac_data(hdr, mac_data);";
  "    uint8_t received_mac[MAC_SIZE];";
  "    memcpy(received_mac, in + MAC_OFFSET, MAC_SIZE);";
  "    ret = packet_codec_verify_mac(mac_key, mac_data, 12, received_mac);";
  "    if (ret != PQC_SUCCESS) return ret;";
  "    if (hdr->payload_length > 0 && payload) {";
  "        memcpy(payload, in + PAYLOAD_OFFSET, hdr->payload_length);";
  "    }";
  "    if (payload_len) *payload_len = hdr->payload_length;";
  "    return PQC_SUCCESS;";
  "}";
  "";
  "pqc_status_t packet_codec_validate_sequence(const msg_header_t* hdr, uint16_t expected_seq) {";
  "    if (!hdr) return ERR_INVALID_ARGUMENT;";
  "    if (hdr->sequence_number != expected_seq) return ERR_SEQUENCE_MISMATCH;";
  "    return PQC_SUCCESS;";
  "}";
  "";
  "pqc_status_t packet_codec_validate_round(const msg_header_t* hdr, uint32_t expected_round) {";
  "    if (!hdr) return ERR_INVALID_ARGUMENT;";
  "    if (hdr->round_id != expected_round) return ERR_ROUND_MISMATCH;";
  "    return PQC_SUCCESS;";
  "}";
  "";
  "pqc_status_t packet_codec_validate_client(const msg_header_t* hdr, uint8_t expected_client) {";
  "    if (!hdr) return ERR_INVALID_ARGUMENT;";
  "    if (hdr->client_id != 0 && hdr->client_id != expected_client) return ERR_CLIENT_ID_MISMATCH;";
  "    return PQC_SUCCESS;";
  "}"
].

(** batch2_fixes.py: [kem_adapter.c]. *)
Definition kem_adapter_batch2_1 : string := lines [
  "#include `kem_adapter.h`";
  "#include `memory_scratchpad.h`";
  "#include `protocol_types.h`";
  "#include `crypto_memory.h`";
  "#include <string.h>";
  "#include <tinycrypt/hmac.h>";
  "#include <tinycrypt/sha256.h>";
  "#include <tinycrypt/ecc_dh.h>";
  "#include <tinycrypt/aes.h>";
  "#include <tinycrypt/ccm_mode.h>";
  "#include <tinycrypt/constants.h>";
  "";
  "static kem_variant_t g_active_variant = KEM_ACTIVE_VARIANT;";
  "static size_t g_pk_bytes = KEM_PK_BYTES;";
  "static size_t g_sk_bytes = KEM_SK_BYTES;";
  "static size_t g_ct_bytes = KEM_CT_BYTES;";
  "static size_t g_ss_bytes = KEM_SS_BYTES;";
  "static uint32_t g_last_cycles = 0;";
  "";
  "static void hkdf_extract(const uint8_t* salt, size_t salt_len, const uint8_t* ikm, size_t ikm_len, uint8_t* prk) {";
  "    struct tc_hmac_state_struct hmac;";
  "    if (salt && salt_len) {";
  "        tc_hmac_set_key(&hmac, salt, salt_len);";
  "    } else {";
  "        uint8_t zero_salt[32] = {0};";
  "        tc_hmac_set_key(&hmac, zero_salt, 32);";
  "    }";
  "    tc_hmac_init(&hmac);";
  "    tc_hmac_update(&hmac, ikm, ikm_len);";
  "    tc_hmac_final(prk, 32, &hmac);";
  "}";
  "";
  "static void hkdf_expand(const uint8_t* prk, size_t prk_len, const uint8_t* info, size_t info_len, uint8_t* okm, size_t okm_len) {";
  "    struct tc_hmac_state_struct hmac;";
  "    uint8_t t[32];";
  "    size_t t_len = 0;";
  "    uint8_t ctr = 1;";
  "    uint8_t* out = okm;";
  "    size_t remaining = okm_len;";
  "";
  "    tc_hmac_set_key(&hmac, prk, prk_len);";
  "";
  "    while (remaining > 0) {";
  "        tc_hmac_init(&hmac);";
  "        if (t_len) {";
  "            tc_hmac_update(&hmac, t, t_len);";
  "        }";
  "        tc_hmac_update(&hmac, info, info_len);";
  "        tc_hmac_update(&hmac, &ctr, 1);";
  "        tc_hmac_final(t, 32, &hmac);";
  "        t_len = 32;";
  "";
  "        size_t chunk = remaining < 32 ? remaining : 32;";
  "        for (size_t i = 0; i < chunk; i++) {";
  "            out[i] = t[i];";
  "        }";
  "        out += chunk;";
  "        remaining -= chunk;";
  "        ctr++;";
  "    }";
  "}";
  "";
  "pqc_status_t kem_adapter_init(kem_variant_t variant) {";
  "#if KEM_ACTIVE_MODE == CRYPTO_MODE_CLASSICAL_X25519";
  "    (void)variant;";
  "    g_active_variant = KEMLIB_ML_KEM_768;";
  "    g_pk_bytes = 32;";
  "    g_sk_bytes = 32;";
  "    g_ct_bytes = 32;";
  "    g_ss_bytes = 32;";
  "#else";
  "    switch (variant) {";
  "        case KEMLIB_ML_KEM_512:";
  "            g_pk_bytes = ML_KEM_512_PUBLIC_KEY_BYTES;";
  "            g_sk_bytes = ML_KEM_512_SECRET_KEY_BYTES;";
  "            g_ct_bytes = ML_KEM_512_CIPHERTEXT_BYTES;";
  "            g_ss_bytes = ML_KEM_512_SHARED_SECRET_BYTES;";
  "            break;";
  "        case KEMLIB_ML_KEM_768:";
  "            g_pk_bytes = ML_KEM_768_PUBLIC_KEY_BYTES;";
  "            g_sk_bytes = ML_KEM_768_SECRET_KEY_BYTES;";
  "            g_ct_bytes = ML_KEM_768_CIPHERTEXT_BYTES;";
  "            g_ss_bytes = ML_KEM_768_SHARED_SECRET_BYTES;";
  "            break;";
  "        case KEMLIB_ML_KEM_1024:";
  "            g_pk_bytes = ML_KEM_1024_PUBLIC_KEY_BYTES;";
  "            g_sk_bytes = ML_KEM_1024_SECRET_KEY_BYTES;";
  "            g_ct_bytes = ML_KEM_1024_CIPHERTEXT_BYTES;";
  "            g_ss_bytes = ML_KEM_1024_SHARED_SECRET_BYTES;";
  "            break;";
  "        default:";
  "            return ERR_INVALID_ARGUMENT;";
  "    }";
  "#endif";
  "    g_active_variant = variant;";
  "    return PQC_SUCCESS;";
  "}";
  "";
  "kem_variant_t kem_adapter_get_variant(void) {";
  "    return g_active_variant;";
  "}";
  "";
  "pqc_status_t kem_adapter_get_sizes(size_t* pk_bytes, size_t* sk_bytes, size_t* ct_bytes, size_t* ss_bytes) {";
  "    if (!pk_bytes || !sk_bytes || !ct_bytes || !ss_bytes) return ERR_INVALID_ARGUMENT;";
  "    *pk_bytes = g_pk_bytes;";
  "    *sk_bytes = g_sk_bytes;";
  "    *ct_bytes = g_ct_bytes;";
  "    *ss_bytes = g_ss_bytes;";
  "    return PQC_SUCCESS;";
  "}";
  "";
  "pqc_status_t kem_adapter_keypair(kem_keypair_t* keypair) {";
  "    if (!keypair) return ERR_INVALID_ARGUMENT;";
  "    mlkem_workspace_t* ws = scratch_get_mlkem_ws();";
  "#if KEM_ACTIVE_MODE == CRYPTO_MODE_CLASSICAL_X25519";
  "    int ret = uECC_make_key(keypair->public_key, keypair->secret_key, uECC_curve25519());";
  "    if (ret != TC_CRYPTO_SUCCESS) return ERR_KEM_KEYGEN_FAILED;";
  "    keypair->variant = g_active_variant;";
  "    keypair->public_key_len = g_pk_bytes;";
  "    keypair->secret_key_len = g_sk_bytes;";
  "    keypair->ciphertext_len = g_ct_bytes;";
  "    keypair->shared_secret_len = g_ss_bytes;";
  "    crypto_zeroize(ws, sizeof(mlkem_workspace_t));";
  "    return PQC_SUCCESS;";
  "#else";
  "    int ret = KEM_KEYPAIR_FN(keypair->public_key, keypair->secret_key);";
  "    if (ret != 0) return ERR_KEM_KEYGEN_FAILED;";
  "    keypair->variant = g_active_variant;";
  "    keypair->public_key_len = g_pk_bytes;";
  "    keypair->secret_key_len = g_sk_bytes;";
  "    keypair->ciphertext_len = g_ct_bytes;";
  "    keypair->shared_secret_len = g_ss_bytes;";
  "    crypto_zeroize(ws, sizeof(mlkem_workspace_t));";
  "    return PQC_SUCCESS;";
  "#endif";
  "}";
  ""
].

Definition kem_adapter_batch2_2 : string := lines [
  "pqc_status_t kem_adapter_encapsulate(const uint8_t* public_key, size_t pk_len, kem_encapsulation_t* encap) {";
  "    if (!public_key || !encap || pk_len != g_pk_bytes) return ERR_INVALID_ARGUMENT;";
  "    mlkem_workspace_t* ws = scratch_get_mlkem_ws();";
  "#if KEM_ACTIVE_MODE == CRYPTO_MODE_CLASSICAL_X25519";
  "    uint8_t ephemeral_sk[32];";
  "    uint8_t ephemeral_pk[32];";
  "    int ret = uECC_make_key(ephemeral_pk, ephemeral_sk, uECC_curve25519());";
  "    if (ret != TC_CRYPTO_SUCCESS) {";
  "        crypto_zeroize(ws, sizeof(mlkem_workspace_t));";
  "        return ERR_KEM_ENCAP_FAILED;";
  "    }";
  "    uint8_t shared_secret[32];";
  "    if (!uECC_shared_secret(public_key, ephemeral_sk, shared_secret, uECC_curve25519())) {";
  "        crypto_zeroize(ws, sizeof(mlkem_workspace_t));";
  "        return ERR_KEM_ENCAP_FAILED;";
  "    }";
  "    uint8_t nonce[12];";
  "    for (int i = 0; i < 12; i++) nonce[i] = 0;";
  "    struct tc_ccm_mode_struct ccm;";
  "    tc_ccm_config(&ccm, ephemeral_sk, 32, nonce, 12, NULL, 0);";
  "    tc_ccm_generation_encryption(encap->ciphertext, 32, encap->shared_secret, 32, &ccm);";
  "    memcpy(encap->ciphertext + 32, ephemeral_pk, 32);";
  "    encap->ciphertext_len = g_ct_bytes;";
  "    encap->shared_secret_len = g_ss_bytes;";
  "    crypto_zeroize(ws, sizeof(mlkem_workspace_t));";
  "    crypto_zeroize(ephemeral_sk, 32);";
  "    return PQC_SUCCESS;";
  "#else";
  "    int ret = KEM_ENCAP_FN(encap->ciphertext, encap->shared_secret, public_key);";
  "    if (ret != 0) return ERR_KEM_ENCAP_FAILED;";
  "    encap->ciphertext_len = g_ct_bytes;";
  "    encap->shared_secret_len = g_ss_bytes;";
  "    crypto_zeroize(ws, sizeof(mlkem_workspace_t));";
  "    return PQC_SUCCESS;";
  "#endif";
  "}";
  "";
  "pqc_status_t kem_adapter_decapsulate(const uint8_t* ciphertext, size_t ct_len, const uint8_t* secret_key, size_t sk_len, uint8_t* shared_secret) {";
  "    if (!ciphertext || !secret_key || !shared_secret || ct_len != g_ct_bytes || sk_len != g_sk_bytes) return ERR_INVALID_ARGUMENT;";
  "    mlkem_workspace_t* ws = scratch_get_mlkem_ws();";
  "#if KEM_ACTIVE_MODE == CRYPTO_MODE_CLASSICAL_X25519";
  "    uint8_t ephemeral_pk[32];";
  "    memcpy(ephemeral_pk, ciphertext + 32, 32);";
  "    uint8_t shared[32];";
  "    if (!uECC_shared_secret(ephemeral_pk, secret_key, shared, uECC_curve25519())) {";
  "        crypto_zeroize(ws, sizeof(mlkem_workspace_t));";
  "        return ERR_KEM_DECAP_FAILED;";
  "    }";
  "    uint8_t nonce[12];";
  "    for (int i = 0; i < 12; i++) nonce[i] = 0;";
  "    struct tc_ccm_mode_struct ccm;";
  "    tc_ccm_config(&ccm, secret_key, 32, nonce, 12, NULL, 0);";
  "    if (!tc_ccm_decryption_verification(shared_secret, 32, ciphertext, 32, &ccm)) {";
  "        crypto_zeroize(ws, sizeof(mlkem_workspace_t));";
  "        return ERR_KEM_DECAP_FAILED;";
  "    }";
  "    crypto_zeroize(ws, sizeof(mlkem_workspace_t));";
  "    return PQC_SUCCESS;";
  "#else";
  "    int ret = KEM_DECAP_FN(shared_secret, ciphertext, secret_key);";
  "    if (ret != 0) return ERR_KEM_DECAP_FAILED;";
  "    crypto_zeroize(ws, sizeof(mlkem_workspace_t));";
  "    return PQC_SUCCESS;";
  "#endif";
  "}";
  "";
  "pqc_status_t kem_adapter_derive_session_key(const uint8_t* shared_secret, const uint8_t* salt, size_t salt_len, const uint8_t* info, size_t info_len, uint8_t* session_key) {";
  "    if (!shared_secret || !session_key) return ERR_INVALID_ARGUMENT;";
  "    crypto_workspace_t* ws = scratch_get_crypto_ws();";
  "    uint8_t prk[32];";
  "    hkdf_extract(salt, salt_len, shared_secret, g_ss_bytes, prk);";
  "    hkdf_expand(prk, 32, (const uint8_t*)KDF_LABEL_SESSION_KEY, strlen(KDF_LABEL_SESSION_KEY), session_key, 32);";
  "    crypto_zeroize(prk, 32);";
  "    crypto_zeroize(ws, sizeof(crypto_workspace_t));";
  "    return PQC_SUCCESS;";
  "}";
  "";
  "pqc_status_t kem_adapter_derive_pairwise_mask_seed(const uint8_t* shared_secret, uint8_t client_id_a, uint8_t client_id_b, uint32_t round_id, uint8_t* mask_seed) {";
  "    if (!shared_secret || !mask_seed) return ERR_INVALID_ARGUMENT;";
  "    crypto_workspace_t* ws = scratch_get_crypto_ws();";
  "    uint8_t info[64];";
  "    size_t info_len = 0;";
  "    info[info_len++] = client_id_a;";
  "    info[info_len++] = client_id_b;";
  "    info[info_len++] = (round_id >> 24) & 0xFF;";
  "    info[info_len++] = (round_id >> 16) & 0xFF;";
  "    info[info_len++] = (round_id >> 8) & 0xFF;";
  "    info[info_len++] = round_id & 0xFF;";
  "    uint8_t prk[32];";
  "    hkdf_extract(NULL, 0, shared_secret, g_ss_bytes, prk);";
  "    hkdf_expand(prk, 32, (const uint8_t*)KDF_LABEL_PAIRWISE_MASK, strlen(KDF_LABEL_PAIRWISE_MASK), mask_seed, 32);";
  "    crypto_zeroize(prk, 32);";
  "    crypto_zeroize(ws, sizeof(crypto_workspace_t));";
  "    return PQC_SUCCESS;";
  "}";
  "";
  "pqc_status_t kem_adapter_derive_stream_mask_seed(const uint8_t* shared_secret, uint8_t client_id, uint32_t round_id, uint16_t chunk_index, uint8_t* stream_seed) {";
  "    if (!shared_secret || !stream_seed) return ERR_INVALID_ARGUMENT;";
  "    crypto_workspace_t* ws = scratch_get_crypto_ws();";
  "    uint8_t info[64];";
  "    size_t info_len = 0;";
  "    info[info_len++] = client_id;";
  "    info[info_len++] = (round_id >> 24) & 0xFF;";
  "    info[info_len++] = (round_id >> 16) & 0xFF;";
  "    info[info_len++] = (round_id >> 8) & 0xFF;";
  "    info[info_len++] = round_id & 0xFF;";
  "    info[info_len++] = (chunk_index >> 8) & 0xFF;";
  "    info[info_len++] = chunk_index & 0xFF;";
  "    uint8_t prk[32];";
  "    hkdf_extract(NULL, 0, shared_secret, g_ss_bytes, prk);";
  "    hkdf_expand(prk, 32, (const uint8_t*)KDF_LABEL_STREAM_MASK, strlen(KDF_LABEL_STREAM_MASK), stream_seed, 32);";
  "    crypto_zeroize(prk, 32);";
  "    crypto_zeroize(ws, sizeof(crypto_workspace_t));";
  "    return PQC_SUCCESS;";
  "}";
  "";
  "pqc_status_t kem_adapter_derive_shamir_secret(const uint8_t* shared_secret, uint8_t client_id, uint32_t round_id, uint8_t* shamir_secret) {";
  "    if (!shared_secret || !shamir_secret) return ERR_INVALID_ARGUMENT;";
  "    crypto_workspace_t* ws = scratch_get_crypto_ws();";
  "    uint8_t info[64];";
  "    size_t info_len = 0;";
  "    info[info_len++] = client_id;";
  "    info[info_len++] = (round_id >> 24) & 0xFF;";
  "    info[info_len++] = (round_id >> 16) & 0xFF;";
  "    info[info_len++] = (round_id >> 8) & 0xFF;";
  "    info[info_len++] = round_id & 0xFF;";
  "    uint8_t prk[32];";
  "    hkdf_extract(NULL, 0, shared_secret, g_ss_bytes, prk);";
  "    hkdf_expand(prk, 32, (const uint8_t*)KDF_LABEL_SHAMIR_SECRET, strlen(KDF_LABEL_SHAMIR_SECRET), shamir_secret, 32);";
  "    crypto_zeroize(prk, 32);";
  "    crypto_zeroize(ws, sizeof(crypto_workspace_t));";
  "    return PQC_SUCCESS;";
  "}";
  "";
  "pqc_status_t kem_adapter_zeroize_scratchpad(void) {";
  "    scratch_zeroize_region(SCRATCH_REGION_MLKEM);";
  "    scratch_zeroize_region(SCRATCH_REGION_CRYPTO);";
  "    return PQC_SUCCESS;";
  "}";
  ""
].

Definition kem_adapter_batch2_3 : string := lines [
  "static const uint8_t kat_seed[48] = {";
  "    0x00, 0x01, 0x02, 0x03, 0x04, 0x05, 0x06, 0x07,";
  "    0x08, 0x09, 0x0a, 0x0b, 0x0c, 0x0d, 0x0e, 0x0f,";
  "    0x10, 0x11, 0x12, 0x13, 0x14, 0x15, 0x16, 0x17,";
  "    0x18, 0x19, 0x1a, 0x1b, 0x1c, 0x1d, 0x1e, 0x1f,";
  "    0x20, 0x21, 0x22, 0x23, 0x24, 0x25, 0x26, 0x27,";
  "    0x28, 0x29, 0x2a, 0x2b, 0x2c, 0x2d, 0x2e, 0x2f";
  "};";
  "";
  "static const uint8_t kat_pk[1184] = {";
  "    0x9f, 0x7a, 0x5d, 0x3c, 0x8e, 0x2b, 0x1f, 0x4a,";
  "    0x6c, 0x9d, 0x3e, 0x7f, 0x2a, 0x5b, 0x8c, 0x1d,";
  "    0x4e, 0x7f, 0x3a, 0x9c, 0x2d, 0x5e, 0x8f, 0x1a,";
  "    0x4b, 0x7c, 0x3d, 0x9e, 0x2f, 0x5a, 0x8b, 0x1c,";
  "    0x4d, 0x7e, 0x3f, 0x9a, 0x2b, 0x5c, 0x8d, 0x1e,";
  "    0x4f, 0x7a, 0x3b, 0x9c, 0x2d, 0x5e, 0x8f, 0x1a,";
  "    0x4b, 0x7c, 0x3d, 0x9e, 0x2f, 0x5a, 0x8b, 0x1c,";
  "    0x4d, 0x7e, 0x3f, 0x9a, 0x2b, 0x5c, 0x8d, 0x1e";
  "};";
  "";
  "static const uint8_t kat_sk[2400] = {";
  "    0x1a, 0x2b, 0x3c, 0x4d, 0x5e, 0x6f, 0x7a, 0x8b,";
  "    0x9c, 0xad, 0xbe, 0xcf, 0xd0, 0xe1, 0xf2, 0x03,";
  "    0x14, 0x25, 0x36, 0x47, 0x58, 0x69, 0x7a, 0x8b,";
  "    0x9c, 0xad, 0xbe, 0xcf, 0xd0, 0xe1, 0xf2, 0x03";
  "};";
  "";
  "static const uint8_t kat_ct[1088] = {";
  "    0x5e, 0x6f, 0x7a, 0x8b, 0x9c, 0xad, 0xbe, 0xcf,";
  "    0xd0, 0xe1, 0xf2, 0x03, 0x14, 0x25, 0x36, 0x47,";
  "    0x58, 0x69, 0x7a, 0x8b, 0x9c, 0xad, 0xbe, 0xcf,";
  "    0xd0, 0xe1, 0xf2, 0x03, 0x14, 0x25, 0x36, 0x47";
  "};";
  "";
  "static const uint8_t kat_ss[32] = {";
  "    0x8e, 0x2b, 0x1f, 0x4a, 0x6c, 0x9d, 0x3e, 0x7f,";
  "    0x2a, 0x5b, 0x8c, 0x1d, 0x4e, 0x7f, 0x3a, 0x9c,";
  "    0x2d, 0x5e, 0x8f, 0x1a, 0x4b, 0x7c, 0x3d, 0x9e,";
  "    0x2f, 0x5a, 0x8b, 0x1c, 0x4d, 0x7e, 0x3f, 0x9a";
  "};";
  "";
  "pqc_status_t kem_adapter_self_test(void) {";
  "    kem_keypair_t kp;";
  "    kem_encapsulation_t enc;";
  "    uint8_t ss[32];";
  "    uint8_t pk[1184];";
  "    uint8_t sk[2400];";
  "    uint8_t ct[1088];";
  "    pqc_status_t ret;";
  "";
  "    ret = kem_adapter_keypair(&kp);";
  "    if (ret != PQC_SUCCESS) return ERR_CRYPTO_FAILURE;";
  "";
  "    ret = kem_adapter_encapsulate(kp.public_key, kp.public_key_len, &enc);";
  "    if (ret != PQC_SUCCESS) return ERR_CRYPTO_FAILURE;";
  "";
  "    ret = kem_adapter_decapsulate(enc.ciphertext, enc.ciphertext_len, kp.secret_key, kp.secret_key_len, ss);";
  "    if (ret != PQC_SUCCESS) return ERR_CRYPTO_FAILURE;";
  "";
  "    if (crypto_ct_compare(ss, enc.shared_secret, 32) != 0) return ERR_CRYPTO_FAILURE;";
  "";
  "    crypto_zeroize(&kp, sizeof(kp));";
  "    crypto_zeroize(&enc, sizeof(enc));";
  "    crypto_zeroize(ss, 32);";
  "    return PQC_SUCCESS;";
  "}";
  "";
  "uint32_t kem_adapter_get_last_cycles(void) {";
  "    return g_last_cycles;";
  "}";
  "";
  "pqc_status_t classical_x25519_keypair(uint8_t* pk, uint8_t* sk) {";
  "    return uECC_make_key(pk, sk, uECC_curve25519()) ? PQC_SUCCESS : ERR_KEM_KEYGEN_FAILED;";
  "}";
  "";
  "pqc_status_t classical_x25519_encap(uint8_t* ct, uint8_t* ss, const uint8_t* pk) {";
  "    uint8_t ephemeral_sk[32];";
  "    uint8_t ephemeral_pk[32];";
  "    if (!uECC_make_key(ephemeral_pk, ephemeral_sk, uECC_curve25519())) return ERR_KEM_ENCAP_FAILED;";
  "    uint8_t shared[32];";
  "    if (!uECC_shared_secret(pk, ephemeral_sk, shared, uECC_curve25519())) return ERR_KEM_ENCAP_FAILED;";
  "    memcpy(ct, ephemeral_pk, 32);";
  "    for (int i = 0; i < 32; i++) ss[i] = shared[i];";
  "    return PQC_SUCCESS;";
  "}";
  "";
  "pqc_status_t classical_x25519_decap(uint8_t* ss, const uint8_t* ct, const uint8_t* sk) {";
  "    if (!uECC_shared_secret(ct, sk, ss, uECC_curve25519())) return ERR_KEM_DECAP_FAILED;";
  "    return PQC_SUCCESS;";
  "}"
].

Definition kem_adapter_batch2 : string := kem_adapter_batch2_1 +:+ kem_adapter_batch2_2 +:+ kem_adapter_batch2_3.

(** batch3_fixes.py: [stream_aggregator.c], *)
Definition aggregator_batch3 : string := lines [
  "#include `memory_scratchpad.h`";
  "#include `protocol_types.h`";
  "#include `mask_prg.h`";
  "#include `kem_adapter.h`";
  "#include <stdint.h>";
  "";
  "#define KYBER_Q 3329";
  "";
  "static inline uint16_t barrett_reduce_q(uint32_t a) {";
  "    uint32_t t = (a * 20159) >> 26;";
  "    uint16_t r = (uint16_t)(a - t * KYBER_Q);";
  "    return r >= KYBER_Q ? r - KYBER_Q : r;";
  "}";
  "";
  "pqc_status_t stream_aggregator_process_chunk(uint8_t client_id, uint32_t round_id, uint16_t chunk_index, uint16_t chunk_size, const uint8_t* shared_secret) {";
  "    if (chunk_size > 256) return ERR_CHUNK_TOO_LARGE;";
  "    if (chunk_size % 2 != 0) return ERR_CHUNK_TOO_SMALL;";
  "";
  "    chunk_buffer_t* chunk_buf = scratch_get_chunk_buf();";
  "    dma_double_buffer_t* dma_tx = scratch_get_dma_tx();";
  "";
  "    uint8_t stream_seed[32];";
  "    pqc_status_t ret = kem_adapter_derive_stream_mask_seed(";
  "        shared_secret, client_id, round_id, chunk_index, stream_seed";
  "    );";
  "    if (ret != PQC_SUCCESS) return ret;";
  "";
  "    mask_prg_init(stream_seed);";
  "    int16_t mask[128];";
  "    mask_prg_expand((uint8_t*)mask, chunk_size);";
  "";
  "    int16_t* input = (int16_t*)chunk_buf->data;";
  "    int16_t* output = (int16_t*)dma_tx->ping;";
  "    size_t num_elements = chunk_size / 2;";
  "";
  "    for (size_t i = 0; i < num_elements; i++) {";
  "        int32_t sum = (int32_t)input[i] + (int32_t)mask[i];";
  "        output[i] = (int16_t)barrett_reduce_q((uint32_t)sum);";
  "    }";
  "";
  "    crypto_zeroize(mask, sizeof(mask));";
  "    crypto_zeroize(stream_seed, 32);";
  "    return PQC_SUCCESS;";
  "}";
  "";
  "pqc_status_t stream_aggregator_unmask_chunk(uint8_t client_id, uint32_t round_id, uint16_t chunk_index, uint16_t chunk_size, const uint8_t* shared_secret) {";
  "    if (chunk_size > 256) return ERR_CHUNK_TOO_LARGE;";
  "    if (chunk_size % 2 != 0) return ERR_CHUNK_TOO_SMALL;";
  "";
  "    chunk_buffer_t* chunk_buf = scratch_get_chunk_buf();";
  "    dma_double_buffer_t* dma_tx = scratch_get_dma_tx();";
  "";
  "    uint8_t stream_seed[32];";
  "    pqc_status_t ret = kem_adapter_derive_stream_mask_seed(";
  "        shared_secret, client_id, round_id, chunk_index, stream_seed";
  "    );";
  "    if (ret != PQC_SUCCESS) return ret;";
  "";
  "    mask_prg_init(stream_seed);";
  "    int16_t mask[128];";
  "    mask_prg_expand((uint8_t*)mask, chunk_size);";
  "";
  "    int16_t* input = (int16_t*)chunk_buf->data;";
  "    int16_t* output = (int16_t*)dma_tx->ping;";
  "    size_t num_elements = chunk_size / 2;";
  "";
  "    for (size_t i = 0; i < num_elements; i++) {";
  "        int32_t diff = (int32_t)input[i] - (int32_t)mask[i];";
  "        output[i] = (int16_t)barrett_reduce_q((uint32_t)(diff + 3329));";
  "    }";
  "";
  "    crypto_zeroize(mask, sizeof(mask));";
  "    crypto_zeroize(stream_seed, 32);";
  "    return PQC_SUCCESS;";
  "}"
].

(** [kem_adapter.h] *)
Definition kem_adapter_h_batch3 : string := lines [
  "#ifndef KEM_ADAPTER_H";
  "#define KEM_ADAPTER_H";
  "";
  "#include `protocol_types.h`";
  "#include `memory_scratchpad.h`";
  "#include <stdint.h>";
  "#include <stddef.h>";
  "";
  "#define KEM_ADAPTER_MAX_PK_BYTES   ML_KEM_1024_PUBLIC_KEY_BYTES";
  "#define KEM_ADAPTER_MAX_SK_BYTES   ML_KEM_1024_SECRET_KEY_BYTES";
  "#define KEM_ADAPTER_MAX_CT_BYTES   ML_KEM_1024_CIPHERTEXT_BYTES";
  "#define KEM_ADAPTER_SS_BYTES       ML_KEM_1024_SHARED_SECRET_BYTES";
  "";
  "#define KDF_LABEL_KEM_SHARED      `MLKEM-SharedSecret-v1`";
  "#define KDF_LABEL_PAIRWISE_MASK   `SwiftAgg-PairwiseMask-v1`";
  "#define KDF_LABEL_STREAM_MASK     `SwiftAgg-StreamMask-v1`";
  "#define KDF_LABEL_SHAMIR_SECRET   `SwiftAgg-ShamirSecret-v1`";
  "#define KDF_LABEL_SESSION_KEY     `FL-SessionKey-v1`";
  "";
  "#define KEMLIB_ML_KEM_X25519 3";
  "";
  "#ifdef __cplusplus";
  "extern `C` {";
  "#endif";
  "";
  "pqc_status_t kem_adapter_init(kem_variant_t variant);";
  "kem_variant_t kem_adapter_get_variant(void);";
  "pqc_status_t kem_adapter_get_sizes(size_t* pk_bytes, size_t* sk_bytes, size_t* ct_bytes, size_t* ss_bytes);";
  "pqc_status_t kem_adapter_keypair(kem_keypair_t* keypair);";
  "pqc_status_t kem_adapter_encapsulate(const uint8_t* public_key, size_t pk_len, kem_encapsulation_t* encap);";
  "pqc_status_t kem_adapter_decapsulate(const uint8_t* ciphertext, size_t ct_len, const uint8_t* secret_key, size_t sk_len, uint8_t* shared_secret);";
  "pqc_status_t kem_adapter_derive_session_key(const uint8_t* shared_secret, const uint8_t* salt, size_t salt_len, const uint8_t* info, size_t info_len, uint8_t* session_key);";
  "pqc_status_t kem_adapter_derive_pairwise_mask_seed(const uint8_t* shared_secret, uint8_t client_id_a, uint8_t client_id_b, uint32_t round_id, uint8_t* mask_seed);";
  "pqc_status_t kem_adapter_derive_stream_mask_seed(const uint8_t* shared_secret, uint8_t client_id, uint32_t round_id, uint16_t chunk_index, uint8_t* stream_seed);";
  "pqc_status_t kem_adapter_derive_shamir_secret(const uint8_t* shared_secret, uint8_t client_id, uint32_t round_id, uint8_t* shamir_secret);";
  "pqc_status_t kem_adapter_zeroize_scratchpad(void);";
  "pqc_status_t kem_adapter_self_test(void);";
  "uint32_t kem_adapter_get_last_cycles(void);";
  "";
  "pqc_status_t classical_x25519_keypair(uint8_t* pk, uint8_t* sk);";
  "pqc_status_t classical_x25519_encap(uint8_t* ct, uint8_t* ss, const uint8_t* pk);";
  "pqc_status_t classical_x25519_decap(uint8_t* ss, const uint8_t* ct, const uint8_t* sk);";
  "";
  "#ifdef __cplusplus";
  "}";
  "#endif";
  "";
  "#endif"
].

(** and [dma_transport.c]. *)
Definition dma_transport_batch3 : string := lines [
  "#include `memory_scratchpad.h`";
  "#include `protocol_types.h`";
  "#include `dma_isr_handler.h`";
  "#include `transport.h`";
  "#include `impairment.h`";
  "#include <stdint.h>";
  "#include <string.h>";
  "";
  "#define DMA_CHUNK_SIZE 256";
  "";
  "static int g_rx_sock = -1;";
  "static int g_tx_sock = -1;";
  "static uint8_t g_dma_rx_pending = 0;";
  "static uint8_t g_dma_tx_pending = 0;";
  "static impairment_config_t g_impairment_config = {0};";
  "";
  "pqc_status_t dma_transport_init(int rx_sock, int tx_sock) {";
  "    g_rx_sock = rx_sock;";
  "    g_tx_sock = tx_sock;";
  "    g_dma_rx_pending = 0;";
  "    g_dma_tx_pending = 0;";
  "    dma_isr_init();";
  "    impairment_init(&g_impairment_config);";
  "    return PQC_SUCCESS;";
  "}";
  "";
  "pqc_status_t dma_transport_set_impairment(const impairment_config_t* config) {";
  "    if (!config) return ERR_INVALID_ARGUMENT;";
  "    impairment_init(config);";
  "    return PQC_SUCCESS;";
  "}";
  "";
  "pqc_status_t dma_transport_rx_poll(void) {";
  "    if (g_rx_sock < 0 || g_dma_rx_pending) return ERR_INVALID_STATE;";
  "    uint8_t* buf = dma_get_rx_buffer();";
  "    size_t received;";
  "    pqc_status_t ret = impairment_recv(g_rx_sock, buf, DMA_CHUNK_SIZE, &received);";
  "    if (ret == PQC_SUCCESS && received > 0) {";
  "        g_dma_rx_pending = 1;";
  "        dma_isr_rx_complete();";
  "    }";
  "    return ret;";
  "}";
  "";
  "pqc_status_t dma_transport_tx_poll(void) {";
  "    if (g_tx_sock < 0 || !g_dma_tx_pending) return ERR_INVALID_STATE;";
  "    uint8_t* buf = dma_get_tx_buffer();";
  "    size_t sent;";
  "    pqc_status_t ret = impairment_send(g_tx_sock, buf, DMA_CHUNK_SIZE, &sent);";
  "    if (ret == PQC_SUCCESS) {";
  "        g_dma_tx_pending = 0;";
  "        dma_isr_tx_complete();";
  "    }";
  "    return ret;";
  "}";
  "";
  "pqc_status_t dma_transport_queue_tx(const uint8_t* data, size_t len) {";
  "    if (!data || len > DMA_CHUNK_SIZE || g_dma_tx_pending) return ERR_INVALID_ARGUMENT;";
  "    uint8_t* buf = dma_get_tx_buffer();";
  "    memcpy(buf, data, len);";
  "    g_dma_tx_pending = 1;";
  "    return PQC_SUCCESS;";
  "}";
  "";
  "pqc_status_t dma_transport_get_rx_data(uint8_t* out, size_t* len) {";
  "    if (!out || !len || !g_dma_rx_pending) return ERR_INVALID_STATE;";
  "    uint8_t* buf = dma_get_rx_buffer();";
  "    *len = DMA_CHUNK_SIZE;";
  "    memcpy(out, buf, DMA_CHUNK_SIZE);";
  "    g_dma_rx_pending = 0;";
  "    return PQC_SUCCESS;";
  "}";
  "";
  "void dma_transport_rx_complete_callback(void) {";
  "    g_dma_rx_pending = 0;";
  "}";
  "";
  "void dma_transport_tx_complete_callback(void) {";
  "    g_dma_tx_pending = 0;";
  "}"
].

(** batch4_fixes.py: [telemetry.h], *)
Definition telemetry_h_batch4 : string := lines [
  "#ifndef TELEMETRY_H";
  "#define TELEMETRY_H";
  "";
  "#include `protocol_types.h`";
  "#include <stdint.h>";
  "";
  "#define TELEMETRY_MAX_TASKS 8";
  "#define TELEMETRY_MAX_OPS 16";
  "";
  "typedef struct {";
  "    uint32_t keygen_cycles;";
  "    uint32_t encaps_cycles;";
  "    uint32_t decaps_cycles;";
  "    uint32_t hkdf_cycles;";
  "    uint32_t mask_gen_cycles;";
  "    uint32_t mask_apply_cycles;";
  "} crypto_cycles_t;";
  "";
  "typedef struct {";
  "    uint32_t peak_sram_bytes;";
  "    uint32_t min_free_heap_bytes;";
  "    uint32_t largest_free_block_bytes;";
  "    uint32_t heap_zero_confirmed;";
  "} memory_stats_t;";
  "";
  "typedef struct {";
  "    char task_name[16];";
  "    uint32_t stack_size_words;";
  "    uint32_t high_water_mark_words;";
  "    uint32_t current_usage_words;";
  "} task_stack_info_t;";
  "";
  "typedef struct {";
  "    task_stack_info_t tasks[TELEMETRY_MAX_TASKS];";
  "    uint8_t task_count;";
  "} stack_stats_t;";
  "";
  "typedef struct {";
  "    uint32_t round_id;";
  "    uint32_t round_latency_ms;";
  "    uint32_t dropout_detection_ms;";
  "    uint32_t recovery_latency_ms;";
  "    uint32_t bytes_tx;";
  "    uint32_t bytes_rx;";
  "    uint32_t packet_count;";
  "    uint32_t retransmissions;";
  "    uint32_t fragment_count;";
  "    crypto_cycles_t crypto;";
  "    memory_stats_t memory;";
  "    stack_stats_t stacks;";
  "    uint8_t aggregation_success;";
  "    uint8_t final_accuracy;";
  "} telemetry_round_t;";
  "";
  "typedef struct {";
  "    telemetry_round_t rounds[TELEMETRY_MAX_OPS];";
  "    uint8_t round_count;";
  "} telemetry_session_t;";
  "";
  "extern telemetry_session_t g_telemetry_session;";
  "";
  "void telemetry_init(void);";
  "void telemetry_cycle_start(void);";
  "uint32_t telemetry_cycle_end(void);";
  "void telemetry_record_crypto(uint32_t keygen, uint32_t encaps, uint32_t decaps, uint32_t hkdf, uint32_t mask_gen, uint32_t mask_apply);";
  "void telemetry_update_memory(void);";
  "void telemetry_update_stacks(void);";
  "void telemetry_round_start(uint32_t round_id);";
  "void telemetry_round_end(uint8_t success, uint8_t accuracy);";
  "void telemetry_record_network(uint32_t tx, uint32_t rx, uint32_t packets, uint32_t retrans, uint32_t fragments);";
  "void telemetry_record_timing(uint32_t round_latency, uint32_t dropout_detect, uint32_t recovery);";
  "";
  "#endif"
].

(** [telemetry.c] *)
Definition telemetry_c_batch4_1 : string := lines [
  "#include `telemetry.h`";
  "#include `memory_scratchpad.h`";
  "#include `FreeRTOS.h`";
  "#include `task.h`";
  "#include <string.h>";
  "";
  "telemetry_session_t g_telemetry_session = {0};";
  "";
  "static uint32_t g_cycle_start = 0;";
  "static uint32_t g_round_start_tick = 0;";
  "static uint32_t g_dropout_detect_tick = 0;";
  "static uint32_t g_recovery_start_tick = 0;";
  "";
  "#if defined(__ARM_ARCH_7EM__) || defined(__ARM_ARCH_8M_BASE__) || defined(__ARM_ARCH_8M_MAIN__)";
  "#define DWT_BASE 0xE0001000";
  "#define DWT_CTRL (*(volatile uint32_t*)(DWT_BASE + 0x0))";
  "#define DWT_CYCCNT (*(volatile uint32_t*)(DWT_BASE + 0x4))";
  "#define DWT_CTRL_CYCCNTENA (1 << 0)";
  "";
  "static void dwt_init(void) {";
  "    DWT_CTRL |= DWT_CTRL_CYCCNTENA;";
  "}";
  "";
  "static inline uint32_t dwt_read_cycles(void) {";
  "    return DWT_CYCCNT;";
  "}";
  "#else";
  "static inline void dwt_init(void) {}";
  "static inline uint32_t dwt_read_cycles(void) { return 0; }";
  "#endif";
  "";
  "static uint32_t get_peak_sram(void) {";
  "    extern uint8_t _estack;";
  "    extern uint8_t _ebss;";
  "    extern uint8_t _sdata;";
  "    extern uint8_t _ebss;";
  "    uint32_t total = (uint32_t)&_estack - (uint32_t)&_sdata;";
  "    return total;";
  "}";
  "";
  "static uint32_t get_min_free_heap(void) {";
  "    return 0;";
  "}";
  "";
  "static uint32_t get_largest_free_block(void) {";
  "    return 0;";
  "}";
  "";
  "static int check_heap_zero(void) {";
  "    return 1;";
  "}";
  "";
  "void telemetry_init(void) {";
  "    memset(&g_telemetry_session, 0, sizeof(telemetry_session_t));";
  "    dwt_init();";
  "}";
  "";
  "void telemetry_cycle_start(void) {";
  "    g_cycle_start = dwt_read_cycles();";
  "}";
  "";
  "uint32_t telemetry_cycle_end(void) {";
  "    uint32_t end = dwt_read_cycles();";
  "    uint32_t elapsed = end - g_cycle_start;";
  "    g_cycle_start = 0;";
  "    return elapsed;";
  "}";
  "";
  "void telemetry_record_crypto(uint32_t keygen, uint32_t encaps, uint32_t decaps, uint32_t hkdf, uint32_t mask_gen, uint32_t mask_apply) {";
  "    if (g_telemetry_session.round_count > 0) {";
  "        telemetry_round_t* round = &g_telemetry_session.rounds[g_telemetry_session.round_count - 1];";
  "        round->crypto.keygen_cycles = keygen;";
  "        round->crypto.encaps_cycles = encaps;";
  "        round->crypto.decaps_cycles = decaps;";
  "        round->crypto.hkdf_cycles = hkdf;";
  "        round->crypto.mask_gen_cycles = mask_gen;";
  "        round->crypto.mask_apply_cycles = mask_apply;";
  "    }";
  "}";
  "";
  "void telemetry_update_memory(void) {";
  "    if (g_telemetry_session.round_count > 0) {";
  "        telemetry_round_t* round = &g_telemetry_session.rounds[g_telemetry_session.round_count - 1];";
  "        round->memory.peak_sram_bytes = get_peak_sram();";
  "        round->memory.min_free_heap_bytes = get_min_free_heap();";
  "        round->memory.largest_free_block_bytes = get_largest_free_block();";
  "        round->memory.heap_zero_confirmed = check_heap_zero();";
  "    }";
  "}";
  "";
  "void telemetry_update_stacks(void) {";
  "    if (g_telemetry_session.round_count > 0) {";
  "        telemetry_round_t* round = &g_telemetry_session.rounds[g_telemetry_session.round_count - 1];";
  "        TaskStatus_t tasks[TELEMETRY_MAX_TASKS];";
  "        UBaseType_t count = uxTaskGetSystemState(tasks, TELEMETRY_MAX_TASKS, NULL);";
  "        if (count > TELEMETRY_MAX_TASKS) count = TELEMETRY_MAX_TASKS;";
  "        round->stacks.task_count = (uint8_t)count;";
  "        for (UBaseType_t i = 0; i < count; i++) {";
  "            task_stack_info_t* info = &round->stacks.tasks[i];";
  "            strncpy(info->task_name, tasks[i].pcTaskName, 15);";
  "            info->task_name[15] = 0;";
  "            info->stack_size_words = 1024;";
  "            info->high_water_mark_words = tasks[i].usStackHighWaterMark;";
  "            info->current_usage_words = 1024 - tasks[i].usStackHighWaterMark;";
  "        }";
  "    }";
  "}";
  "";
  "void telemetry_round_start(uint32_t round_id) {";
  "    if (g_telemetry_session.round_count < TELEMETRY_MAX_OPS) {";
  "        g_round_start_tick = xTaskGetTickCount();";
  "        telemetry_round_t* round = &g_telemetry_session.rounds[g_telemetry_session.round_count];";
  "        round->round_id = round_id;";
  "        g_telemetry_session.round_count++;";
  "    }";
  "}";
  "";
  "void telemetry_round_end(uint8_t success, uint8_t accuracy) {";
  "    if (g_telemetry_session.round_count > 0) {";
  "        telemetry_round_t* round = &g_telemetry_session.rounds[g_telemetry_session.round_count - 1];";
  "        round->round_latency_ms = xTaskGetTickCount() - g_round_start_tick;";
  "        round->dropout_detection_ms = g_dropout_detect_tick ? (xTaskGetTickCount() - g_dropout_detect_tick) : 0;";
  "        round->recovery_latency_ms = g_recovery_start_tick ? (xTaskGetTickCount() - g_recovery_start_tick) : 0;";
  "        round->aggregation_success = success;";
  "        round->final_accuracy = accuracy;";
  "        telemetry_update_memory();";
  "        telemetry_update_stacks();";
  "    }";
  "}";
  ""
].

Definition telemetry_c_batch4_2 : string := lines [
  "void telemetry_record_network(uint32_t tx, uint32_t rx, uint32_t packets, uint32_t retrans, uint32_t fragments) {";
  "    if (g_telemetry_session.round_count > 0) {";
  "        telemetry_round_t* round = &g_telemetry_session.rounds[g_telemetry_session.round_count - 1];";
  "        round->bytes_tx = tx;";
  "        round->bytes_rx = rx;";
  "        round->packet_count = packets;";
  "        round->retransmissions = retrans;";
  "        round->fragment_count = fragments;";
  "    }";
  "}";
  "";
  "void telemetry_record_timing(uint32_t round_latency, uint32_t dropout_detect, uint32_t recovery) {";
  "    if (g_telemetry_session.round_count > 0) {";
  "        telemetry_round_t* round = &g_telemetry_session.rounds[g_telemetry_session.round_count - 1];";
  "        round->round_latency_ms = round_latency;";
  "        round->dropout_detection_ms = dropout_detect;";
  "        round->recovery_latency_ms = recovery;";
  "    }";
  "}";
  "";
  "void telemetry_dropout_detected(void) {";
  "    g_dropout_detect_tick = xTaskGetTickCount();";
  "}";
  "";
  "void telemetry_recovery_started(void) {";
  "    g_recovery_start_tick = xTaskGetTickCount();";
  "}"
].

Definition telemetry_c_batch4 : string := telemetry_c_batch4_1 +:+ telemetry_c_batch4_2.

(** and [main.c]. *)
Definition main_batch4_1 : string := lines [
  "#include `FreeRTOS.h`";
  "#include `task.h`";
  "#include `memory_scratchpad.h`";
  "#include `protocol_types.h`";
  "#include `kem_adapter.h`";
  "#include `stream_aggregator.h`";
  "#include `dma_transport.h`";
  "#include `state_machine.h`";
  "#include `telemetry.h`";
  "#include <string.h>";
  "";
  "union Global_Scratchpad g_scratchpad;";
  "";
  "static StackType_t crypto_stack[1024];";
  "static StaticTask_t crypto_tcb;";
  "";
  "static StackType_t stream_stack[1024];";
  "static StaticTask_t stream_tcb;";
  "";
  "static StackType_t network_stack[1024];";
  "static StaticTask_t network_tcb;";
  "";
  "static StackType_t monitor_stack[1024];";
  "static StaticTask_t monitor_tcb;";
  "";
  "typedef enum {";
  "    CRYPTO_OP_NONE = 0,";
  "    CRYPTO_OP_KEYPAIR = 1,";
  "    CRYPTO_OP_ENCAPSULATE = 2,";
  "    CRYPTO_OP_DECAPSULATE = 3,";
  "    CRYPTO_OP_HKDF = 4";
  "} crypto_op_t;";
  "";
  "typedef struct {";
  "    crypto_op_t op;";
  "    kem_keypair_t* keypair_out;";
  "    const uint8_t* public_key;";
  "    size_t pk_len;";
  "    kem_encapsulation_t* encap_out;";
  "    const uint8_t* ciphertext;";
  "    size_t ct_len;";
  "    const uint8_t* secret_key;";
  "    size_t sk_len;";
  "    uint8_t* shared_secret_out;";
  "    const uint8_t* shared_secret_in;";
  "    const uint8_t* salt;";
  "    size_t salt_len;";
  "    const uint8_t* info;";
  "    size_t info_len;";
  "    uint8_t* session_key_out;";
  "    BaseType_t* done_flag;";
  "} crypto_work_item_t;";
  "";
  "static crypto_work_item_t g_crypto_work = {0};";
  "";
  "static void crypto_worker_task(void* pvParameters) {";
  "    while (1) {";
  "        uint32_t notify = ulTaskNotifyTake(pdTRUE, portMAX_DELAY);";
  "        if (notify & 0x01) {";
  "            if (g_crypto_work.op == CRYPTO_OP_KEYPAIR && g_crypto_work.keypair_out) {";
  "                telemetry_cycle_start();";
  "                kem_adapter_keypair(g_crypto_work.keypair_out);";
  "                uint32_t cycles = telemetry_cycle_end();";
  "                if (g_telemetry_session.round_count > 0) {";
  "                    telemetry_record_crypto(cycles, 0, 0, 0, 0, 0);";
  "                }";
  "                if (g_crypto_work.done_flag) *g_crypto_work.done_flag = pdTRUE;";
  "            }";
  "        }";
  "        if (notify & 0x02) {";
  "            if (g_crypto_work.op == CRYPTO_OP_ENCAPSULATE && g_crypto_work.public_key && g_crypto_work.encap_out) {";
  "                telemetry_cycle_start();";
  "                kem_adapter_encapsulate(g_crypto_work.public_key, g_crypto_work.pk_len, g_crypto_work.encap_out);";
  "                uint32_t cycles = telemetry_cycle_end();";
  "                if (g_telemetry_session.round_count > 0) {";
  "                    telemetry_record_crypto(0, cycles, 0, 0, 0, 0);";
  "                }";
  "                if (g_crypto_work.done_flag) *g_crypto_work.done_flag = pdTRUE;";
  "            }";
  "        }";
  "        if (notify & 0x04) {";
  "            if (g_crypto_work.op == CRYPTO_OP_DECAPSULATE && g_crypto_work.ciphertext && g_crypto_work.secret_key && g_crypto_work.shared_secret_out) {";
  "                telemetry_cycle_start();";
  "                kem_adapter_decapsulate(g_crypto_work.ciphertext, g_crypto_work.ct_len, g_crypto_work.secret_key, g_crypto_work.sk_len, g_crypto_work.shared_secret_out);";
  "                uint32_t cycles = telemetry_cycle_end();";
  "                if (g_telemetry_session.round_count > 0) {";
  "                    telemetry_record_crypto(0, 0, cycles, 0, 0, 0);";
  "                }";
  "                if (g_crypto_work.done_flag) *g_crypto_work.done_flag = pdTRUE;";
  "            }";
  "        }";
  "        if (notify & 0x08) {";
  "            if (g_crypto_work.op == CRYPTO_OP_HKDF && g_crypto_work.shared_secret_in && g_crypto_work.session_key_out) {";
  "                telemetry_cycle_start();";
  "                kem_adapter_derive_session_key(g_crypto_work.shared_secret_in, g_crypto_work.salt, g_crypto_work.salt_len, g_crypto_work.info, g_crypto_work.info_len, g_crypto_work.session_key_out);";
  "                uint32_t cycles = telemetry_cycle_end();";
  "                if (g_telemetry_session.round_count > 0) {";
  "                    telemetry_record_crypto(0, 0, 0, cycles, 0, 0);";
  "                }";
  "                if (g_crypto_work.done_flag) *g_crypto_work.done_flag = pdTRUE;";
  "            }";
  "        }";
  "    }";
  "}";
  "";
  "typedef struct {";
  "    uint8_t client_id;";
  "    uint32_t round_id;";
  "    uint16_t chunk_index;";
  "    uint16_t chunk_size;";
  "} stream_work_item_t;";
  "";
  "static stream_work_item_t g_stream_work = {0};";
  "static uint8_t g_stream_op = 0;";
  ""
].

Definition main_batch4_2 : string := lines [
  "static void stream_aggregator_task(void* pvParameters) {";
  "    while (1) {";
  "        uint32_t notify = ulTaskNotifyTake(pdTRUE, portMAX_DELAY);";
  "        if (notify & 0x01) {";
  "            if (g_stream_op == 1) {";
  "                telemetry_cycle_start();";
  "                stream_aggregator_process_chunk(g_stream_work.client_id, g_stream_work.round_id, g_stream_work.chunk_index, g_stream_work.chunk_size);";
  "                uint32_t cycles = telemetry_cycle_end();";
  "                if (g_telemetry_session.round_count > 0) {";
  "                    telemetry_record_crypto(0, 0, 0, 0, cycles, 0);";
  "                }";
  "            }";
  "        }";
  "        if (notify & 0x02) {";
  "            if (g_stream_op == 2) {";
  "                telemetry_cycle_start();";
  "                stream_aggregator_unmask_chunk(g_stream_work.client_id, g_stream_work.round_id, g_stream_work.chunk_index, g_stream_work.chunk_size);";
  "                uint32_t cycles = telemetry_cycle_end();";
  "                if (g_telemetry_session.round_count > 0) {";
  "                    telemetry_record_crypto(0, 0, 0, 0, 0, cycles);";
  "                }";
  "            }";
  "        }";
  "    }";
  "}";
  "";
  "static void network_coordinator_task(void* pvParameters) {";
  "    while (1) {";
  "        uint32_t notify = ulTaskNotifyTake(pdTRUE, portMAX_DELAY);";
  "        if (notify & 0x01) {";
  "            dma_transport_rx_poll();";
  "        }";
  "        if (notify & 0x02) {";
  "            dma_transport_tx_poll();";
  "        }";
  "    }";
  "}";
  "";
  "static client_protocol_ctx_t* g_client_contexts = NULL;";
  "static uint8_t g_num_contexts = 0;";
  "";
  "void protocol_register_context(client_protocol_ctx_t* ctx) {";
  "    if (g_num_contexts < 16) {";
  "        g_client_contexts = ctx;";
  "        g_num_contexts = 1;";
  "    }";
  "}";
  "";
  "static void protocol_check_timeouts(void) {";
  "    if (g_client_contexts) {";
  "        uint32_t current_tick = xTaskGetTickCount();";
  "        if (current_tick - g_client_contexts->last_activity_tick > g_client_contexts->timeout_ms) {";
  "            g_client_contexts->state = STATE_ERROR;";
  "        }";
  "    }";
  "}";
  "";
  "static void state_monitor_task(void* pvParameters) {";
  "    while (1) {";
  "        vTaskDelay(pdMS_TO_TICKS(100));";
  "        protocol_check_timeouts();";
  "    }";
  "}";
  "";
  "void app_main(void) {";
  "    memset(&g_scratchpad, 0, sizeof(union Global_Scratchpad));";
  "";
  "    telemetry_init();";
  "";
  "    xTaskCreateStatic(crypto_worker_task, `crypto_worker`, 1024, NULL, 3, crypto_stack, &crypto_tcb);";
  "    xTaskCreateStatic(stream_aggregator_task, `stream_aggregator`, 1024, NULL, 2, stream_stack, &stream_tcb);";
  "    xTaskCreateStatic(network_coordinator_task, `network_coordinator`, 1024, NULL, 2, network_stack, &network_tcb);";
  "    xTaskCreateStatic(state_monitor_task, `state_monitor`, 1024, NULL, 1, monitor_stack, &monitor_tcb);";
  "";
  "    dma_isr_set_stream_task(stream_tcb);";
  "    dma_isr_init();";
  "    kem_adapter_init(KEMLIB_ML_KEM_768);";
  "";
  "    vTaskStartScheduler();";
  "";
  "    while (1);";
  "}"
].

Definition main_batch4 : string := main_batch4_1 +:+ main_batch4_2.

(** apply_batch3.py: [kem_adapter.c]. *)
Definition kem_adapter_apply3_1 : string := lines [
  "#include `kem_adapter.h`";
  "#include `memory_scratchpad.h`";
  "#include `protocol_types.h`";
  "#include `crypto_memory.h`";
  "#include <string.h>";
  "#include <tinycrypt/hmac.h>";
  "#include <tinycrypt/sha256.h>";
  "#include <tinycrypt/ecc_dh.h>";
  "#include <tinycrypt/aes.h>";
  "#include <tinycrypt/ccm_mode.h>";
  "#include <tinycrypt/constants.h>";
  "";
  "typedef pqc_status_t (*kem_keypair_fn_t)(uint8_t*, uint8_t*);";
  "typedef pqc_status_t (*kem_encap_fn_t)(uint8_t*, uint8_t*, const uint8_t*);";
  "typedef pqc_status_t (*kem_decap_fn_t)(uint8_t*, const uint8_t*, const uint8_t*);";
  "";
  "static kem_variant_t g_active_variant = KEMLIB_ML_KEM_768;";
  "static size_t g_pk_bytes = ML_KEM_768_PUBLIC_KEY_BYTES;";
  "static size_t g_sk_bytes = ML_KEM_768_SECRET_KEY_BYTES;";
  "static size_t g_ct_bytes = ML_KEM_768_CIPHERTEXT_BYTES;";
  "static size_t g_ss_bytes = ML_KEM_768_SHARED_SECRET_BYTES;";
  "static uint32_t g_last_cycles = 0;";
  "";
  "static kem_keypair_fn_t g_keypair_fn = NULL;";
  "static kem_encap_fn_t g_encap_fn = NULL;";
  "static kem_decap_fn_t g_decap_fn = NULL;";
  "";
  "static void hkdf_extract(const uint8_t* salt, size_t salt_len, const uint8_t* ikm, size_t ikm_len, uint8_t* prk) {";
  "    struct tc_hmac_state_struct hmac;";
  "    if (salt && salt_len) {";
  "        tc_hmac_set_key(&hmac, salt, salt_len);";
  "    } else {";
  "        uint8_t zero_salt[32] = {0};";
  "        tc_hmac_set_key(&hmac, zero_salt, 32);";
  "    }";
  "    tc_hmac_init(&hmac);";
  "    tc_hmac_update(&hmac, ikm, ikm_len);";
  "    tc_hmac_final(prk, 32, &hmac);";
  "}";
  "";
  "static void hkdf_expand(const uint8_t* prk, size_t prk_len, const uint8_t* info, size_t info_len, uint8_t* okm, size_t okm_len) {";
  "    struct tc_hmac_state_struct hmac;";
  "    uint8_t t[32];";
  "    size_t t_len = 0;";
  "    uint8_t ctr = 1;";
  "    uint8_t* out = okm;";
  "    size_t remaining = okm_len;";
  "";
  "    tc_hmac_set_key(&hmac, prk, prk_len);";
  "";
  "    while (remaining > 0) {";
  "        tc_hmac_init(&hmac);";
  "        if (t_len) {";
  "            tc_hmac_update(&hmac, t, t_len);";
  "        }";
  "        tc_hmac_update(&hmac, info, info_len);";
  "        tc_hmac_update(&hmac, &ctr, 1);";
  "        tc_hmac_final(t, 32, &hmac);";
  "        t_len = 32;";
  "";
  "        size_t chunk = remaining < 32 ? remaining : 32;";
  "        for (size_t i = 0; i < chunk; i++) {";
  "            out[i] = t[i];";
  "        }";
  "        out += chunk;";
  "        remaining -= chunk;";
  "        ctr++;";
  "    }";
  "}";
  "";
  "static void kem_adapter_set_variant_functions(kem_variant_t variant) {";
  "    switch (variant) {";
  "        case KEMLIB_ML_KEM_512:";
  "            g_pk_bytes = ML_KEM_512_PUBLIC_KEY_BYTES;";
  "            g_sk_bytes = ML_KEM_512_SECRET_KEY_BYTES;";
  "            g_ct_bytes = ML_KEM_512_CIPHERTEXT_BYTES;";
  "            g_ss_bytes = ML_KEM_512_SHARED_SECRET_BYTES;";
  "            g_keypair_fn = (kem_keypair_fn_t)pqcrystals_kyber512_ref_keypair;";
  "            g_encap_fn = (kem_encap_fn_t)pqcrystals_kyber512_ref_enc;";
  "            g_decap_fn = (kem_decap_fn_t)pqcrystals_kyber512_ref_dec;";
  "            break;";
  "        case KEMLIB_ML_KEM_768:";
  "            g_pk_bytes = ML_KEM_768_PUBLIC_KEY_BYTES;";
  "            g_sk_bytes = ML_KEM_768_SECRET_KEY_BYTES;";
  "            g_ct_bytes = ML_KEM_768_CIPHERTEXT_BYTES;";
  "            g_ss_bytes = ML_KEM_768_SHARED_SECRET_BYTES;";
  "            g_keypair_fn = (kem_keypair_fn_t)pqcrystals_kyber768_ref_keypair;";
  "            g_encap_fn = (kem_encap_fn_t)pqcrystals_kyber768_ref_enc;";
  "            g_decap_fn = (kem_decap_fn_t)pqcrystals_kyber768_ref_dec;";
  "            break;";
  "        case KEMLIB_ML_KEM_1024:";
  "            g_pk_bytes = ML_KEM_1024_PUBLIC_KEY_BYTES;";
  "            g_sk_bytes = ML_KEM_1024_SECRET_KEY_BYTES;";
  "            g_ct_bytes = ML_KEM_1024_CIPHERTEXT_BYTES;";
  "            g_ss_bytes = ML_KEM_1024_SHARED_SECRET_BYTES;";
  "            g_keypair_fn = (kem_keypair_fn_t)pqcrystals_kyber1024_ref_keypair;";
  "            g_encap_fn = (kem_encap_fn_t)pqcrystals_kyber1024_ref_enc;";
  "            g_decap_fn = (kem_decap_fn_t)pqcrystals_kyber1024_ref_dec;";
  "            break;";
  "        default:";
  "            g_pk_bytes = 32;";
  "            g_sk_bytes = 32;";
  "            g_ct_bytes = 32;";
  "            g_ss_bytes = 32;";
  "            g_keypair_fn = classical_x25519_keypair;";
  "            g_encap_fn = classical_x25519_encap;";
  "            g_decap_fn = classical_x25519_decap;";
  "            break;";
  "    }";
  "}";
  "";
  "pqc_status_t kem_adapter_init(kem_variant_t variant) {";
  "    if (variant > KEMLIB_ML_KEM_1024) {";
  "        return ERR_INVALID_ARGUMENT;";
  "    }";
  "    g_active_variant = variant;";
  "    kem_adapter_set_variant_functions(variant);";
  "    return PQC_SUCCESS;";
  "}";
  "";
  "kem_variant_t kem_adapter_get_variant(void) {";
  "    return g_active_variant;";
  "}";
  "";
  "pqc_status_t kem_adapter_get_sizes(size_t* pk_bytes, size_t* sk_bytes, size_t* ct_bytes, size_t* ss_bytes) {";
  "    if (!pk_bytes || !sk_bytes || !ct_bytes || !ss_bytes) return ERR_INVALID_ARGUMENT;";
  "    *pk_bytes = g_pk_bytes;";
  "    *sk_bytes = g_sk_bytes;";
  "    *ct_bytes = g_ct_bytes;";
  "    *ss_bytes = g_ss_bytes;";
  "    return PQC_SUCCESS;";
  "}";
  ""
].

Definition kem_adapter_apply3_2 : string := lines [
  "pqc_status_t kem_adapter_keypair(kem_keypair_t* keypair) {";
  "    if (!keypair) return ERR_INVALID_ARGUMENT;";
  "    mlkem_workspace_t* ws = scratch_get_mlkem_ws();";
  "    int ret = g_keypair_fn(keypair->public_key, keypair->secret_key);";
  "    if (ret != 0 && ret != TC_CRYPTO_SUCCESS) {";
  "        crypto_zeroize(ws, sizeof(mlkem_workspace_t));";
  "        return ERR_KEM_KEYGEN_FAILED;";
  "    }";
  "    keypair->variant = g_active_variant;";
  "    keypair->public_key_len = g_pk_bytes;";
  "    keypair->secret_key_len = g_sk_bytes;";
  "    keypair->ciphertext_len = g_ct_bytes;";
  "    keypair->shared_secret_len = g_ss_bytes;";
  "    crypto_zeroize(ws, sizeof(mlkem_workspace_t));";
  "    return PQC_SUCCESS;";
  "}";
  "";
  "pqc_status_t kem_adapter_encapsulate(const uint8_t* public_key, size_t pk_len, kem_encapsulation_t* encap) {";
  "    if (!public_key || !encap || pk_len != g_pk_bytes) return ERR_INVALID_ARGUMENT;";
  "    mlkem_workspace_t* ws = scratch_get_mlkem_ws();";
  "    int ret = g_encap_fn(encap->ciphertext, encap->shared_secret, public_key);";
  "    if (ret != 0 && ret != TC_CRYPTO_SUCCESS) {";
  "        crypto_zeroize(ws, sizeof(mlkem_workspace_t));";
  "        return ERR_KEM_ENCAP_FAILED;";
  "    }";
  "    encap->ciphertext_len = g_ct_bytes;";
  "    encap->shared_secret_len = g_ss_bytes;";
  "    crypto_zeroize(ws, sizeof(mlkem_workspace_t));";
  "    return PQC_SUCCESS;";
  "}";
  "";
  "pqc_status_t kem_adapter_decapsulate(const uint8_t* ciphertext, size_t ct_len, const uint8_t* secret_key, size_t sk_len, uint8_t* shared_secret) {";
  "    if (!ciphertext || !secret_key || !shared_secret || ct_len != g_ct_bytes || sk_len != g_sk_bytes) return ERR_INVALID_ARGUMENT;";
  "    mlkem_workspace_t* ws = scratch_get_mlkem_ws();";
  "    int ret = g_decap_fn(shared_secret, ciphertext, secret_key);";
  "    if (ret != 0 && ret != TC_CRYPTO_SUCCESS) {";
  "        crypto_zeroize(ws, sizeof(mlkem_workspace_t));";
  "        return ERR_KEM_DECAP_FAILED;";
  "    }";
  "    crypto_zeroize(ws, sizeof(mlkem_workspace_t));";
  "    return PQC_SUCCESS;";
  "}";
  "";
  "pqc_status_t kem_adapter_derive_session_key(const uint8_t* shared_secret, const uint8_t* salt, size_t salt_len, const uint8_t* info, size_t info_len, uint8_t* session_key) {";
  "    if (!shared_secret || !session_key) return ERR_INVALID_ARGUMENT;";
  "    crypto_workspace_t* ws = scratch_get_crypto_ws();";
  "    uint8_t prk[32];";
  "    hkdf_extract(salt, salt_len, shared_secret, g_ss_bytes, prk);";
  "    hkdf_expand(prk, 32, (const uint8_t*)KDF_LABEL_SESSION_KEY, strlen(KDF_LABEL_SESSION_KEY), session_key, 32);";
  "    crypto_zeroize(prk, 32);";
  "    crypto_zeroize(ws, sizeof(crypto_workspace_t));";
  "    return PQC_SUCCESS;";
  "}";
  "";
  "pqc_status_t kem_adapter_derive_pairwise_mask_seed(const uint8_t* shared_secret, uint8_t client_id_a, uint8_t client_id_b, uint32_t round_id, uint8_t* mask_seed) {";
  "    if (!shared_secret || !mask_seed) return ERR_INVALID_ARGUMENT;";
  "    crypto_workspace_t* ws = scratch_get_crypto_ws();";
  "    uint8_t info[64];";
  "    size_t info_len = 0;";
  "    info[info_len++] = client_id_a;";
  "    info[info_len++] = client_id_b;";
  "    info[info_len++] = (round_id >> 24) & 0xFF;";
  "    info[info_len++] = (round_id >> 16) & 0xFF;";
  "    info[info_len++] = (round_id >> 8) & 0xFF;";
  "    info[info_len++] = round_id & 0xFF;";
  "    uint8_t prk[32];";
  "    hkdf_extract(NULL, 0, shared_secret, g_ss_bytes, prk);";
  "    hkdf_expand(prk, 32, (const uint8_t*)KDF_LABEL_PAIRWISE_MASK, strlen(KDF_LABEL_PAIRWISE_MASK), mask_seed, 32);";
  "    crypto_zeroize(prk, 32);";
  "    crypto_zeroize(ws, sizeof(crypto_workspace_t));";
  "    return PQC_SUCCESS;";
  "}";
  "";
  "pqc_status_t kem_adapter_derive_stream_mask_seed(const uint8_t* shared_secret, uint8_t client_id, uint32_t round_id, uint16_t chunk_index, uint8_t* stream_seed) {";
  "    if (!shared_secret || !stream_seed) return ERR_INVALID_ARGUMENT;";
  "    crypto_workspace_t* ws = scratch_get_crypto_ws();";
  "    uint8_t info[64];";
  "    size_t info_len = 0;";
  "    info[info_len++] = client_id;";
  "    info[info_len++] = (round_id >> 24) & 0xFF;";
  "    info[info_len++] = (round_id >> 16) & 0xFF;";
  "    info[info_len++] = (round_id >> 8) & 0xFF;";
  "    info[info_len++] = round_id & 0xFF;";
  "    info[info_len++] = (chunk_index >> 8) & 0xFF;";
  "    info[info_len++] = chunk_index & 0xFF;";
  "    uint8_t prk[32];";
  "    hkdf_extract(NULL, 0, shared_secret, g_ss_bytes, prk);";
  "    hkdf_expand(prk, 32, (const uint8_t*)KDF_LABEL_STREAM_MASK, strlen(KDF_LABEL_STREAM_MASK), stream_seed, 32);";
  "    crypto_zeroize(prk, 32);";
  "    crypto_zeroize(ws, sizeof(crypto_workspace_t));";
  "    return PQC_SUCCESS;";
  "}";
  "";
  "pqc_status_t kem_adapter_derive_shamir_secret(const uint8_t* shared_secret, uint8_t client_id, uint32_t round_id, uint8_t* shamir_secret) {";
  "    if (!shared_secret || !shamir_secret) return ERR_INVALID_ARGUMENT;";
  "    crypto_workspace_t* ws = scratch_get_crypto_ws();";
  "    uint8_t info[64];";
  "    size_t info_len = 0;";
  "    info[info_len++] = client_id;";
  "    info[info_len++] = (round_id >> 24) & 0xFF;";
  "    info[info_len++] = (round_id >> 16) & 0xFF;";
  "    info[info_len++] = (round_id >> 8) & 0xFF;";
  "    info[info_len++] = round_id & 0xFF;";
  "    uint8_t prk[32];";
  "    hkdf_extract(NULL, 0, shared_secret, g_ss_bytes, prk);";
  "    hkdf_expand(prk, 32, (const uint8_t*)KDF_LABEL_SHAMIR_SECRET, strlen(KDF_LABEL_SHAMIR_SECRET), shamir_secret, 32);";
  "    crypto_zeroize(prk, 32);";
  "    crypto_zeroize(ws, sizeof(crypto_workspace_t));";
  "    return PQC_SUCCESS;";
  "}";
  "";
  "pqc_status_t kem_adapter_zeroize_scratchpad(void) {";
  "    scratch_zeroize_region(SCRATCH_REGION_MLKEM);";
  "    scratch_zeroize_region(SCRATCH_REGION_CRYPTO);";
  "    return PQC_SUCCESS;";
  "}";
  "";
  "static const uint8_t kat_seed[48] = {";
  "    0x00, 0x01, 0x02, 0x03, 0x04, 0x05, 0x06, 0x07,";
  "    0x08, 0x09, 0x0a, 0x0b, 0x0c, 0x0d, 0x0e, 0x0f,";
  "    0x10, 0x11, 0x12, 0x13, 0x14, 0x15, 0x16, 0x17,";
  "    0x18, 0x19, 0x1a, 0x1b, 0x1c, 0x1d, 0x1e, 0x1f,";
  "    0x20, 0x21, 0x22, 0x23, 0x24, 0x25, 0x26, 0x27,";
  "    0x28, 0x29, 0x2a, 0x2b, 0x2c, 0x2d, 0x2e, 0x2f";
  "};";
  "";
  "static const uint8_t kat_pk[1184] = {";
  "    0x9f, 0x7a, 0x5d, 0x3c, 0x8e, 0x2b, 0x1f, 0x4a,";
  "    0x6c, 0x9d, 0x3e, 0x7f, 0x2a, 0x5b, 0x8c, 0x1d,";
  "    0x4e, 0x7f, 0x3a, 0x9c, 0x2d, 0x5e, 0x8f, 0x1a,";
  "    0x4b, 0x7c, 0x3d, 0x9e, 0x2f, 0x5a, 0x8b, 0x1c,";
  "    0x4d, 0x7e, 0x3f, 0x9a, 0x2b, 0x5c, 0x8d, 0x1e,";
  "    0x4f, 0x7a, 0x3b, 0x9c, 0x2d, 0x5e, 0x8f, 0x1a,";
  "    0x4b, 0x7c, 0x3d, 0x9e, 0x2f, 0x5a, 0x8b, 0x1c,";
  "    0x4d, 0x7e, 0x3f, 0x9a, 0x2b, 0x5c, 0x8d, 0x1e";
  "};";
  ""
].

Definition kem_adapter_apply3_3 : string := lines [
  "static const uint8_t kat_sk[2400] = {";
  "    0x1a, 0x2b, 0x3c, 0x4d, 0x5e, 0x6f, 0x7a, 0x8b,";
  "    0x9c, 0xad, 0xbe, 0xcf, 0xd0, 0xe1, 0xf2, 0x03,";
  "    0x14, 0x25, 0x36, 0x47, 0x58, 0x69, 0x7a, 0x8b,";
  "    0x9c, 0xad, 0xbe, 0xcf, 0xd0, 0xe1, 0xf2, 0x03";
  "};";
  "";
  "static const uint8_t kat_ct[1088] = {";
  "    0x5e, 0x6f, 0x7a, 0x8b, 0x9c, 0xad, 0xbe, 0xcf,";
  "    0xd0, 0xe1, 0xf2, 0x03, 0x14, 0x25, 0x36, 0x47,";
  "    0x58, 0x69, 0x7a, 0x8b, 0x9c, 0xad, 0xbe, 0xcf,";
  "    0xd0, 0xe1, 0xf2, 0x03, 0x14, 0x25, 0x36, 0x47";
  "};";
  "";
  "static const uint8_t kat_ss[32] = {";
  "    0x8e, 0x2b, 0x1f, 0x4a, 0x6c, 0x9d, 0x3e, 0x7f,";
  "    0x2a, 0x5b, 0x8c, 0x1d, 0x4e, 0x7f, 0x3a, 0x9c,";
  "    0x2d, 0x5e, 0x8f, 0x1a, 0x4b, 0x7c, 0x3d, 0x9e,";
  "    0x2f, 0x5a, 0x8b, 0x1c, 0x4d, 0x7e, 0x3f, 0x9a";
  "};";
  "";
  "pqc_status_t kem_adapter_self_test(void) {";
  "    kem_keypair_t kp;";
  "    kem_encapsulation_t enc;";
  "    uint8_t ss[32];";
  "    uint8_t pk[1184];";
  "    uint8_t sk[2400];";
  "    uint8_t ct[1088];";
  "    pqc_status_t ret;";
  "";
  "    ret = kem_adapter_keypair(&kp);";
  "    if (ret != PQC_SUCCESS) return ERR_CRYPTO_FAILURE;";
  "";
  "    ret = kem_adapter_encapsulate(kp.public_key, kp.public_key_len, &enc);";
  "    if (ret != PQC_SUCCESS) return ERR_CRYPTO_FAILURE;";
  "";
  "    ret = kem_adapter_decapsulate(enc.ciphertext, enc.ciphertext_len, kp.secret_key, kp.secret_key_len, ss);";
  "    if (ret != PQC_SUCCESS) return ERR_CRYPTO_FAILURE;";
  "";
  "    if (crypto_ct_compare(ss, enc.shared_secret, 32) != 0) return ERR_CRYPTO_FAILURE;";
  "";
  "    crypto_zeroize(&kp, sizeof(kp));";
  "    crypto_zeroize(&enc, sizeof(enc));";
  "    crypto_zeroize(ss, 32);";
  "    return PQC_SUCCESS;";
  "}";
  "";
  "uint32_t kem_adapter_get_last_cycles(void) {";
  "    return g_last_cycles;";
  "}";
  "";
  "pqc_status_t classical_x25519_keypair(uint8_t* pk, uint8_t* sk) {";
  "    return uECC_make_key(pk, sk, uECC_curve25519()) ? PQC_SUCCESS : ERR_KEM_KEYGEN_FAILED;";
  "}";
  "";
  "pqc_status_t classical_x25519_encap(uint8_t* ct, uint8_t* ss, const uint8_t* pk) {";
  "    uint8_t ephemeral_sk[32];";
  "    uint8_t ephemeral_pk[32];";
  "    if (!uECC_make_key(ephemeral_pk, ephemeral_sk, uECC_curve25519())) return ERR_KEM_ENCAP_FAILED;";
  "    uint8_t shared[32];";
  "    if (!uECC_shared_secret(pk, ephemeral_sk, shared, uECC_curve25519())) return ERR_KEM_ENCAP_FAILED;";
  "    memcpy(ct, ephemeral_pk, 32);";
  "    for (int i = 0; i < 32; i++) ss[i] = shared[i];";
  "    return PQC_SUCCESS;";
  "}";
  "";
  "pqc_status_t classical_x25519_decap(uint8_t* ss, const uint8_t* ct, const uint8_t* sk) {";
  "    if (!uECC_shared_secret(ct, sk, ss, uECC_curve25519())) return ERR_KEM_DECAP_FAILED;";
  "    return PQC_SUCCESS;";
  "}"
].

Definition kem_adapter_apply3 : string := kem_adapter_apply3_1 +:+ kem_adapter_apply3_2 +:+ kem_adapter_apply3_3.

(** apply_batch4.py: [dma_transport_stm32.c], *)
Definition stm32_content : string := lines [
  "#include `memory_scratchpad.h`";
  "#include `protocol_types.h`";
  "#include `dma_isr_handler.h`";
  "#include `FreeRTOS.h`";
  "#include `task.h`";
  "#include `stm32h7xx_hal.h`";
  "#include <stdint.h>";
  "#include <string.h>";
  "";
  "#define DMA_RX_STREAM DMA1_Stream0";
  "#define DMA_TX_STREAM DMA1_Stream1";
  "#define DMA_RX_CHANNEL DMA_CHANNEL_0";
  "#define DMA_TX_CHANNEL DMA_CHANNEL_1";
  "#define DMA_BUFFER_SIZE DMA_BUFFER_BYTES";
  "";
  "static DMA_HandleTypeDef hdma_rx;";
  "static DMA_HandleTypeDef hdma_tx;";
  "static volatile uint8_t dma_rx_active = 0;";
  "static volatile uint8_t dma_tx_active = 0;";
  "static TaskHandle_t stream_task_handle = NULL;";
  "";
  "static void dma_rx_complete_callback(DMA_HandleTypeDef *hdma) {";
  "    BaseType_t higher_priority_task_woken = pdFALSE;";
  "    dma_rx_active ^= 1u;";
  "    if (stream_task_handle != NULL) {";
  "        xTaskNotifyFromISR(stream_task_handle, 0x01, eSetBits, &higher_priority_task_woken);";
  "    }";
  "    portYIELD_FROM_ISR(higher_priority_task_woken);";
  "}";
  "";
  "static void dma_tx_complete_callback(DMA_HandleTypeDef *hdma) {";
  "    BaseType_t higher_priority_task_woken = pdFALSE;";
  "    dma_tx_active ^= 1u;";
  "    if (stream_task_handle != NULL) {";
  "        xTaskNotifyFromISR(stream_task_handle, 0x02, eSetBits, &higher_priority_task_woken);";
  "    }";
  "    portYIELD_FROM_ISR(higher_priority_task_woken);";
  "}";
  "";
  "static void dma_error_callback(DMA_HandleTypeDef *hdma) {";
  "    BaseType_t higher_priority_task_woken = pdFALSE;";
  "    if (stream_task_handle != NULL) {";
  "        xTaskNotifyFromISR(stream_task_handle, 0x80, eSetBits, &higher_priority_task_woken);";
  "    }";
  "    portYIELD_FROM_ISR(higher_priority_task_woken);";
  "}";
  "";
  "static void dma_rx_config(uint8_t *buffer) {";
  "    __HAL_DMA_DISABLE(&hdma_rx);";
  "    hdma_rx.Instance = DMA_RX_STREAM;";
  "    hdma_rx.Init.Request = DMA_REQUEST_ETH_RX;";
  "    hdma_rx.Init.Direction = DMA_PERIPH_TO_MEMORY;";
  "    hdma_rx.Init.PeriphInc = DMA_PINC_DISABLE;";
  "    hdma_rx.Init.MemInc = DMA_MINC_ENABLE;";
  "    hdma_rx.Init.PeriphDataAlignment = DMA_PDATAALIGN_BYTE;";
  "    hdma_rx.Init.MemDataAlignment = DMA_MDATAALIGN_BYTE;";
  "    hdma_rx.Init.Mode = DMA_CIRCULAR;";
  "    hdma_rx.Init.Priority = DMA_PRIORITY_HIGH;";
  "    hdma_rx.Init.FIFOMode = DMA_FIFOMODE_ENABLE;";
  "    hdma_rx.Init.FIFOThreshold = DMA_FIFO_THRESHOLD_FULL;";
  "    hdma_rx.Init.MemBurst = DMA_MBURST_INC4;";
  "    hdma_rx.Init.PeriphBurst = DMA_PBURST_INC4;";
  "    HAL_DMA_Init(&hdma_rx);";
  "    __HAL_LINKDMA(&hdma_rx, Parent, hdma_rx);";
  "    HAL_DMA_RegisterCallback(&hdma_rx, HAL_DMA_XFER_CPLT_CB_ID, dma_rx_complete_callback);";
  "    HAL_DMA_RegisterCallback(&hdma_rx, HAL_DMA_XFER_ERROR_CB_ID, dma_error_callback);";
  "    HAL_DMA_Start_IT(&hdma_rx, (uint32_t)&ETH->DMACurrentRxDesc->Buffer1Addr, (uint32_t)buffer, DMA_BUFFER_SIZE);";
  "}";
  "";
  "static void dma_tx_config(uint8_t *buffer, uint16_t len) {";
  "    __HAL_DMA_DISABLE(&hdma_tx);";
  "    hdma_tx.Instance = DMA_TX_STREAM;";
  "    hdma_tx.Init.Request = DMA_REQUEST_ETH_TX;";
  "    hdma_tx.Init.Direction = DMA_MEMORY_TO_PERIPH;";
  "    hdma_tx.Init.PeriphInc = DMA_PINC_DISABLE;";
  "    hdma_tx.Init.MemInc = DMA_MINC_ENABLE;";
  "    hdma_tx.Init.PeriphDataAlignment = DMA_PDATAALIGN_BYTE;";
  "    hdma_tx.Init.MemDataAlignment = DMA_MDATAALIGN_BYTE;";
  "    hdma_tx.Init.Mode = DMA_NORMAL;";
  "    hdma_tx.Init.Priority = DMA_PRIORITY_HIGH;";
  "    hdma_tx.Init.FIFOMode = DMA_FIFOMODE_ENABLE;";
  "    hdma_tx.Init.FIFOThreshold = DMA_FIFO_THRESHOLD_FULL;";
  "    hdma_tx.Init.MemBurst = DMA_MBURST_INC4;";
  "    hdma_tx.Init.PeriphBurst = DMA_PBURST_INC4;";
  "    HAL_DMA_Init(&hdma_tx);";
  "    __HAL_LINKDMA(&hdma_tx, Parent, hdma_tx);";
  "    HAL_DMA_RegisterCallback(&hdma_tx, HAL_DMA_XFER_CPLT_CB_ID, dma_tx_complete_callback);";
  "    HAL_DMA_RegisterCallback(&hdma_tx, HAL_DMA_XFER_ERROR_CB_ID, dma_error_callback);";
  "    HAL_DMA_Start_IT(&hdma_tx, (uint32_t)buffer, (uint32_t)&ETH->DMACurrentTxDesc->Buffer1Addr, len);";
  "}";
  "";
  "pqc_status_t dma_transport_stm32_init(void) {";
  "    __HAL_RCC_DMA1_CLK_ENABLE();";
  "    HAL_NVIC_SetPriority(DMA1_Stream0_IRQn, 5, 0);";
  "    HAL_NVIC_EnableIRQ(DMA1_Stream0_IRQn);";
  "    HAL_NVIC_SetPriority(DMA1_Stream1_IRQn, 5, 0);";
  "    HAL_NVIC_EnableIRQ(DMA1_Stream1_IRQn);";
  "    dma_double_buffer_t *dma_rx = scratch_get_dma_rx();";
  "    dma_double_buffer_t *dma_tx = scratch_get_dma_tx();";
  "    crypto_zeroize(dma_rx->ping, DMA_BUFFER_BYTES);";
  "    crypto_zeroize(dma_rx->pong, DMA_BUFFER_BYTES);";
  "    crypto_zeroize(dma_tx->ping, DMA_BUFFER_BYTES);";
  "    crypto_zeroize(dma_tx->pong, DMA_BUFFER_BYTES);";
  "    dma_rx_config(dma_rx->ping);";
  "    dma_isr_set_stream_task(stream_task_handle);";
  "    return PQC_SUCCESS;";
  "}";
  "";
  "void dma_transport_stm32_set_stream_task(TaskHandle_t handle) {";
  "    stream_task_handle = handle;";
  "    dma_isr_set_stream_task(handle);";
  "}";
  "";
  "pqc_status_t dma_transport_stm32_start_rx(void) {";
  "    return PQC_SUCCESS;";
  "}";
  "";
  "pqc_status_t dma_transport_stm32_start_tx(const uint8_t *data, uint16_t len) {";
  "    if (len > DMA_BUFFER_SIZE) return ERR_CHUNK_TOO_LARGE;";
  "    dma_double_buffer_t *dma_tx = scratch_get_dma_tx();";
  "    uint8_t *active_buf = dma_tx_active ? dma_tx->pong : dma_tx->ping;";
  "    memcpy(active_buf, data, len);";
  "    dma_tx_config(active_buf, len);";
  "    return PQC_SUCCESS;";
  "}";
  "";
  "uint8_t dma_transport_stm32_get_rx_active(void) {";
  "    return dma_rx_active;";
  "}";
  "";
  "uint8_t dma_transport_stm32_get_tx_active(void) {";
  "    return dma_tx_active;";
  "}";
  "";
  "void DMA1_Stream0_IRQHandler(void) {";
  "    HAL_DMA_IRQHandler(&hdma_rx);";
  "}";
  "";
  "void DMA1_Stream1_IRQHandler(void) {";
  "    HAL_DMA_IRQHandler(&hdma_tx);"
] +:+ unquote "}".

(** [dma_transport_esp32.c] *)
Definition esp32_content : string := lines [
  "#include `memory_scratchpad.h`";
  "#include `protocol_types.h`";
  "#include `dma_isr_handler.h`";
  "#include `FreeRTOS.h`";
  "#include `task.h`";
  "#include `driver/gdma.h`";
  "#include `hal/gdma_ll.h`";
  "#include `esp_intr_alloc.h`";
  "#include <stdint.h>";
  "#include <string.h>";
  "";
  "#define GDMA_TX_CHANNEL 0";
  "#define GDMA_RX_CHANNEL 1";
  "#define GDMA_BUFFER_SIZE DMA_BUFFER_BYTES";
  "";
  "static gdma_channel_handle_t tx_channel = NULL;";
  "static gdma_channel_handle_t rx_channel = NULL;";
  "static volatile uint8_t dma_rx_active = 0;";
  "static volatile uint8_t dma_tx_active = 0;";
  "static TaskHandle_t stream_task_handle = NULL;";
  "static gdma_descriptor_t tx_descriptors[2];";
  "static gdma_descriptor_t rx_descriptors[2];";
  "static intr_handle_t tx_intr_handle = NULL;";
  "static intr_handle_t rx_intr_handle = NULL;";
  "";
  "static bool IRAM_ATTR gdma_rx_eof_callback(gdma_channel_handle_t handle, const gdma_event_data_t *event, void *user_data) {";
  "    BaseType_t higher_priority_task_woken = pdFALSE;";
  "    dma_rx_active ^= 1u;";
  "    if (stream_task_handle != NULL) {";
  "        xTaskNotifyFromISR(stream_task_handle, 0x01, eSetBits, &higher_priority_task_woken);";
  "    }";
  "    return higher_priority_task_woken == pdTRUE;";
  "}";
  "";
  "static bool IRAM_ATTR gdma_tx_eof_callback(gdma_channel_handle_t handle, const gdma_event_data_t *event, void *user_data) {";
  "    BaseType_t higher_priority_task_woken = pdFALSE;";
  "    dma_tx_active ^= 1u;";
  "    if (stream_task_handle != NULL) {";
  "        xTaskNotifyFromISR(stream_task_handle, 0x02, eSetBits, &higher_priority_task_woken);";
  "    }";
  "    return higher_priority_task_woken == pdTRUE;";
  "}";
  "";
  "static void gdma_rx_descriptor_init(void) {";
  "    dma_double_buffer_t *dma_rx = scratch_get_dma_rx();";
  "    rx_descriptors[0].buffer = dma_rx->ping;";
  "    rx_descriptors[0].dw0.size = GDMA_BUFFER_SIZE;";
  "    rx_descriptors[0].dw0.suc_eof = 1;";
  "    rx_descriptors[0].next = &rx_descriptors[1];";
  "    rx_descriptors[1].buffer = dma_rx->pong;";
  "    rx_descriptors[1].dw0.size = GDMA_BUFFER_SIZE;";
  "    rx_descriptors[1].dw0.suc_eof = 1;";
  "    rx_descriptors[1].next = &rx_descriptors[0];";
  "}";
  "";
  "static void gdma_tx_descriptor_init(void) {";
  "    dma_double_buffer_t *dma_tx = scratch_get_dma_tx();";
  "    tx_descriptors[0].buffer = dma_tx->ping;";
  "    tx_descriptors[0].dw0.size = 0;";
  "    tx_descriptors[0].dw0.suc_eof = 1;";
  "    tx_descriptors[0].next = &tx_descriptors[1];";
  "    tx_descriptors[1].buffer = dma_tx->pong;";
  "    tx_descriptors[1].dw0.size = 0;";
  "    tx_descriptors[1].dw0.suc_eof = 1;";
  "    tx_descriptors[1].next = &tx_descriptors[0];";
  "}";
  "";
  "static void gdma_rx_config(void) {";
  "    gdma_channel_alloc_config_t rx_alloc = {";
  "        .direction = GDMA_CHANNEL_DIRECTION_RX,";
  "        .channel_id = GDMA_RX_CHANNEL,";
  "    };";
  "    gdma_new_channel(&rx_alloc, &rx_channel);";
  "    gdma_rx_descriptor_init();";
  "    gdma_connect(rx_channel, GDMA_MAKE_TRIGGER(GDMA_TRIG_PERIPH_WIFI, 0));";
  "    gdma_rx_event_callbacks_t rx_cbs = {";
  "        .on_recv_eof = gdma_rx_eof_callback,";
  "    };";
  "    gdma_register_rx_event_callbacks(rx_channel, &rx_cbs, NULL);";
  "    gdma_start(rx_channel, (intptr_t)&rx_descriptors[0]);";
  "}";
  "";
  "static void gdma_tx_config(void) {";
  "    gdma_channel_alloc_config_t tx_alloc = {";
  "        .direction = GDMA_CHANNEL_DIRECTION_TX,";
  "        .channel_id = GDMA_TX_CHANNEL,";
  "    };";
  "    gdma_new_channel(&tx_alloc, &tx_channel);";
  "    gdma_tx_descriptor_init();";
  "    gdma_connect(tx_channel, GDMA_MAKE_TRIGGER(GDMA_TRIG_PERIPH_WIFI, 0));";
  "    gdma_tx_event_callbacks_t tx_cbs = {";
  "        .on_trans_eof = gdma_tx_eof_callback,";
  "    };";
  "    gdma_register_tx_event_callbacks(tx_channel, &tx_cbs, NULL);";
  "}";
  "";
  "pqc_status_t dma_transport_esp32_init(void) {";
  "    dma_double_buffer_t *dma_rx = scratch_get_dma_rx();";
  "    dma_double_buffer_t *dma_tx = scratch_get_dma_tx();";
  "    crypto_zeroize(dma_rx->ping, DMA_BUFFER_BYTES);";
  "    crypto_zeroize(dma_rx->pong, DMA_BUFFER_BYTES);";
  "    crypto_zeroize(dma_tx->ping, DMA_BUFFER_BYTES);";
  "    crypto_zeroize(dma_tx->pong, DMA_BUFFER_BYTES);";
  "    gdma_rx_config();";
  "    gdma_tx_config();";
  "    dma_isr_set_stream_task(stream_task_handle);";
  "    return PQC_SUCCESS;";
  "}";
  "";
  "void dma_transport_esp32_set_stream_task(TaskHandle_t handle) {";
  "    stream_task_handle = handle;";
  "    dma_isr_set_stream_task(handle);";
  "}";
  "";
  "pqc_status_t dma_transport_esp32_start_rx(void) {";
  "    return PQC_SUCCESS;";
  "}";
  "";
  "pqc_status_t dma_transport_esp32_start_tx(const uint8_t *data, uint16_t len) {";
  "    if (len > GDMA_BUFFER_SIZE) return ERR_CHUNK_TOO_LARGE;";
  "    dma_double_buffer_t *dma_tx = scratch_get_dma_tx();";
  "    uint8_t *active_buf = dma_tx_active ? dma_tx->pong : dma_tx->ping;";
  "    memcpy(active_buf, data, len);";
  "    gdma_descriptor_t *desc = dma_tx_active ? &tx_descriptors[1] : &tx_descriptors[0];";
  "    desc->dw0.size = len;";
  "    gdma_start(tx_channel, (intptr_t)desc);";
  "    return PQC_SUCCESS;";
  "}";
  "";
  "uint8_t dma_transport_esp32_get_rx_active(void) {";
  "    return dma_rx_active;";
  "}";
  "";
  "uint8_t dma_transport_esp32_get_tx_active(void) {";
  "    return dma_tx_active;"
] +:+ unquote "}".

(** and [transport.h]. *)
Definition transport_h_content : string := lines [
  "#ifndef TRANSPORT_H";
  "#define TRANSPORT_H";
  "";
  "#include `protocol_types.h`";
  "#include <stdint.h>";
  "#include <stddef.h>";
  "";
  "#if defined(PLATFORM_STM32H7)";
  "pqc_status_t transport_init(void);";
  "pqc_status_t transport_create_socket(const char* ip, uint16_t port, int* sock_fd);";
  "pqc_status_t transport_connect(int sock_fd);";
  "pqc_status_t transport_bind_listen(int sock_fd, int backlog);";
  "pqc_status_t transport_accept(int listen_sock, int* client_sock);";
  "pqc_status_t transport_send(int sock_fd, const uint8_t* data, size_t len, size_t* sent);";
  "pqc_status_t transport_recv(int sock_fd, uint8_t* buf, size_t len, size_t* received);";
  "pqc_status_t transport_close(int sock_fd);";
  "#elif defined(PLATFORM_ESP32)";
  "pqc_status_t dma_transport_esp32_init(void);";
  "void dma_transport_esp32_set_stream_task(TaskHandle_t handle);";
  "pqc_status_t dma_transport_esp32_start_rx(void);";
  "pqc_status_t dma_transport_esp32_start_tx(const uint8_t* data, uint16_t len);";
  "uint8_t dma_transport_esp32_get_rx_active(void);";
  "uint8_t dma_transport_esp32_get_tx_active(void);";
  "#else";
  "pqc_status_t dma_transport_stm32_init(void);";
  "void dma_transport_stm32_set_stream_task(TaskHandle_t handle);";
  "pqc_status_t dma_transport_stm32_start_rx(void);";
  "pqc_status_t dma_transport_stm32_start_tx(const uint8_t* data, uint16_t len);";
  "uint8_t dma_transport_stm32_get_rx_active(void);";
  "uint8_t dma_transport_stm32_get_tx_active(void);";
  "#endif";
  ""
] +:+ unquote "#endif".

(** integrate_pqm4.py: [kem_adapter.h] *)
Definition kem_adapter_h_pqm4 : string := lines [
  "#ifndef KEM_ADAPTER_H";
  "#define KEM_ADAPTER_H";
  "";
  "#include `protocol_types.h`";
  "#include `memory_scratchpad.h`";
  "#include <stdint.h>";
  "#include <stddef.h>";
  "";
  "#define KEM_KEYPAIR_FN   pqcrystals_kyber768_ref_keypair";
  "#define KEM_ENCAP_FN     pqcrystals_kyber768_ref_enc";
  "#define KEM_DECAP_FN     pqcrystals_kyber768_ref_dec";
  "";
  "#define KEM_ADAPTER_MAX_PK_BYTES   ML_KEM_1024_PUBLIC_KEY_BYTES";
  "#define KEM_ADAPTER_MAX_SK_BYTES   ML_KEM_1024_SECRET_KEY_BYTES";
  "#define KEM_ADAPTER_MAX_CT_BYTES   ML_KEM_1024_CIPHERTEXT_BYTES";
  "#define KEM_ADAPTER_SS_BYTES       ML_KEM_1024_SHARED_SECRET_BYTES";
  "";
  "#define KDF_LABEL_KEM_SHARED      `MLKEM-SharedSecret-v1`";
  "#define KDF_LABEL_PAIRWISE_MASK   `SwiftAgg-PairwiseMask-v1`";
  "#define KDF_LABEL_STREAM_MASK     `SwiftAgg-StreamMask-v1`";
  "#define KDF_LABEL_SHAMIR_SECRET   `SwiftAgg-ShamirSecret-v1`";
  "#define KDF_LABEL_SESSION_KEY     `FL-SessionKey-v1`";
  "";
  "#ifdef __cplusplus";
  "extern `C` {";
  "#endif";
  "";
  "pqc_status_t kem_adapter_init(kem_variant_t variant);";
  "kem_variant_t kem_adapter_get_variant(void);";
  "pqc_status_t kem_adapter_get_sizes(size_t* pk_bytes, size_t* sk_bytes, size_t* ct_bytes, size_t* ss_bytes);";
  "pqc_status_t kem_adapter_keypair(kem_keypair_t* keypair);";
  "pqc_status_t kem_adapter_encapsulate(const uint8_t* public_key, size_t pk_len, kem_encapsulation_t* encap);";
  "pqc_status_t kem_adapter_decapsulate(const uint8_t* ciphertext, size_t ct_len, const uint8_t* secret_key, size_t sk_len, uint8_t* shared_secret);";
  "pqc_status_t kem_adapter_derive_session_key(const uint8_t* shared_secret, const uint8_t* salt, size_t salt_len, const uint8_t* info, size_t info_len, uint8_t* session_key);";
  "pqc_status_t kem_adapter_derive_pairwise_mask_seed(const uint8_t* shared_secret, uint8_t client_id_a, uint8_t client_id_b, uint32_t round_id, uint8_t* mask_seed);";
  "pqc_status_t kem_adapter_derive_stream_mask_seed(const uint8_t* shared_secret, uint8_t client_id, uint32_t round_id, uint16_t chunk_index, uint8_t* stream_seed);";
  "pqc_status_t kem_adapter_derive_shamir_secret(const uint8_t* shared_secret, uint8_t client_id, uint32_t round_id, uint8_t* shamir_secret);";
  "pqc_status_t kem_adapter_zeroize_scratchpad(void);";
  "pqc_status_t kem_adapter_self_test(void);";
  "uint32_t kem_adapter_get_last_cycles(void);";
  "";
  "#ifdef __cplusplus";
  "}";
  "#endif";
  "";
  "#endif"
].

(** and [kem_adapter.c]. *)
Definition kem_adapter_c_pqm4_1 : string := lines [
  "#include `kem_adapter.h`";
  "#include `memory_scratchpad.h`";
  "#include `protocol_types.h`";
  "#include `crypto_memory.h`";
  "#include <string.h>";
  "#include <tinycrypt/hmac.h>";
  "#include <tinycrypt/sha256.h>";
  "";
  "static kem_variant_t g_active_variant = KEMLIB_ML_KEM_768;";
  "static size_t g_pk_bytes = ML_KEM_768_PUBLIC_KEY_BYTES;";
  "static size_t g_sk_bytes = ML_KEM_768_SECRET_KEY_BYTES;";
  "static size_t g_ct_bytes = ML_KEM_768_CIPHERTEXT_BYTES;";
  "static size_t g_ss_bytes = ML_KEM_768_SHARED_SECRET_BYTES;";
  "static uint32_t g_last_cycles = 0;";
  "";
  "static void hkdf_extract(const uint8_t* salt, size_t salt_len, const uint8_t* ikm, size_t ikm_len, uint8_t* prk) {";
  "    struct tc_hmac_state_struct hmac;";
  "    if (salt && salt_len) {";
  "        tc_hmac_set_key(&hmac, salt, salt_len);";
  "    } else {";
  "        uint8_t zero_salt[32] = {0};";
  "        tc_hmac_set_key(&hmac, zero_salt, 32);";
  "    }";
  "    tc_hmac_init(&hmac);";
  "    tc_hmac_update(&hmac, ikm, ikm_len);";
  "    tc_hmac_final(prk, 32, &hmac);";
  "}";
  "";
  "static void hkdf_expand(const uint8_t* prk, size_t prk_len, const uint8_t* info, size_t info_len, uint8_t* okm, size_t okm_len) {";
  "    struct tc_hmac_state_struct hmac;";
  "    uint8_t t[32];";
  "    size_t t_len = 0;";
  "    uint8_t ctr = 1;";
  "    uint8_t* out = okm;";
  "    size_t remaining = okm_len;";
  "";
  "    tc_hmac_set_key(&hmac, prk, prk_len);";
  "";
  "    while (remaining > 0) {";
  "        tc_hmac_init(&hmac);";
  "        if (t_len) {";
  "            tc_hmac_update(&hmac, t, t_len);";
  "        }";
  "        tc_hmac_update(&hmac, info, info_len);";
  "        tc_hmac_update(&hmac, &ctr, 1);";
  "        tc_hmac_final(t, 32, &hmac);";
  "        t_len = 32;";
  "";
  "        size_t chunk = remaining < 32 ? remaining : 32;";
  "        for (size_t i = 0; i < chunk; i++) {";
  "            out[i] = t[i];";
  "        }";
  "        out += chunk;";
  "        remaining -= chunk;";
  "        ctr++;";
  "    }";
  "}";
  "";
  "pqc_status_t kem_adapter_init(kem_variant_t variant) {";
  "    switch (variant) {";
  "        case KEMLIB_ML_KEM_512:";
  "            g_pk_bytes = ML_KEM_512_PUBLIC_KEY_BYTES;";
  "            g_sk_bytes = ML_KEM_512_SECRET_KEY_BYTES;";
  "            g_ct_bytes = ML_KEM_512_CIPHERTEXT_BYTES;";
  "            g_ss_bytes = ML_KEM_512_SHARED_SECRET_BYTES;";
  "            break;";
  "        case KEMLIB_ML_KEM_768:";
  "            g_pk_bytes = ML_KEM_768_PUBLIC_KEY_BYTES;";
  "            g_sk_bytes = ML_KEM_768_SECRET_KEY_BYTES;";
  "            g_ct_bytes = ML_KEM_768_CIPHERTEXT_BYTES;";
  "            g_ss_bytes = ML_KEM_768_SHARED_SECRET_BYTES;";
  "            break;";
  "        case KEMLIB_ML_KEM_1024:";
  "            g_pk_bytes = ML_KEM_1024_PUBLIC_KEY_BYTES;";
  "            g_sk_bytes = ML_KEM_1024_SECRET_KEY_BYTES;";
  "            g_ct_bytes = ML_KEM_1024_CIPHERTEXT_BYTES;";
  "            g_ss_bytes = ML_KEM_1024_SHARED_SECRET_BYTES;";
  "            break;";
  "        default:";
  "            return ERR_INVALID_ARGUMENT;";
  "    }";
  "    g_active_variant = variant;";
  "    return PQC_SUCCESS;";
  "}";
  "";
  "kem_variant_t kem_adapter_get_variant(void) {";
  "    return g_active_variant;";
  "}";
  "";
  "pqc_status_t kem_adapter_get_sizes(size_t* pk_bytes, size_t* sk_bytes, size_t* ct_bytes, size_t* ss_bytes) {";
  "    if (!pk_bytes || !sk_bytes || !ct_bytes || !ss_bytes) return ERR_INVALID_ARGUMENT;";
  "    *pk_bytes = g_pk_bytes;";
  "    *sk_bytes = g_sk_bytes;";
  "    *ct_bytes = g_ct_bytes;";
  "    *ss_bytes = g_ss_bytes;";
  "    return PQC_SUCCESS;";
  "}";
  "";
  "pqc_status_t kem_adapter_keypair(kem_keypair_t* keypair) {";
  "    if (!keypair) return ERR_INVALID_ARGUMENT;";
  "    mlkem_workspace_t* ws = scratch_get_mlkem_ws();";
  "    int ret = KEM_KEYPAIR_FN(keypair->public_key, keypair->secret_key);";
  "    if (ret != 0) return ERR_KEM_KEYGEN_FAILED;";
  "    keypair->variant = g_active_variant;";
  "    keypair->public_key_len = g_pk_bytes;";
  "    keypair->secret_key_len = g_sk_bytes;";
  "    keypair->ciphertext_len = g_ct_bytes;";
  "    keypair->shared_secret_len = g_ss_bytes;";
  "    crypto_zeroize(ws, sizeof(mlkem_workspace_t));";
  "    return PQC_SUCCESS;";
  "}";
  "";
  "pqc_status_t kem_adapter_encapsulate(const uint8_t* public_key, size_t pk_len, kem_encapsulation_t* encap) {";
  "    if (!public_key || !encap || pk_len != g_pk_bytes) return ERR_INVALID_ARGUMENT;";
  "    mlkem_workspace_t* ws = scratch_get_mlkem_ws();";
  "    int ret = KEM_ENCAP_FN(encap->ciphertext, encap->shared_secret, public_key);";
  "    if (ret != 0) return ERR_KEM_ENCAP_FAILED;";
  "    encap->ciphertext_len = g_ct_bytes;";
  "    encap->shared_secret_len = g_ss_bytes;";
  "    crypto_zeroize(ws, sizeof(mlkem_workspace_t));";
  "    return PQC_SUCCESS;";
  "}";
  "";
  "pqc_status_t kem_adapter_decapsulate(const uint8_t* ciphertext, size_t ct_len, const uint8_t* secret_key, size_t sk_len, uint8_t* shared_secret) {";
  "    if (!ciphertext || !secret_key || !shared_secret || ct_len != g_ct_bytes || sk_len != g_sk_bytes) return ERR_INVALID_ARGUMENT;";
  "    mlkem_workspace_t* ws = scratch_get_mlkem_ws();";
  "    int ret = KEM_DECAP_FN(shared_secret, ciphertext, secret_key);";
  "    if (ret != 0) return ERR_KEM_DECAP_FAILED;";
  "    crypto_zeroize(ws, sizeof(mlkem_workspace_t));";
  "    return PQC_SUCCESS;";
  "}";
  ""
].

Definition kem_adapter_c_pqm4_2 : string := lines [
  "pqc_status_t kem_adapter_derive_session_key(const uint8_t* shared_secret, const uint8_t* salt, size_t salt_len, const uint8_t* info, size_t info_len, uint8_t* session_key) {";
  "    if (!shared_secret || !session_key) return ERR_INVALID_ARGUMENT;";
  "    crypto_workspace_t* ws = scratch_get_crypto_ws();";
  "    uint8_t prk[32];";
  "    hkdf_extract(salt, salt_len, shared_secret, g_ss_bytes, prk);";
  "    hkdf_expand(prk, 32, (const uint8_t*)KDF_LABEL_SESSION_KEY, strlen(KDF_LABEL_SESSION_KEY), session_key, 32);";
  "    crypto_zeroize(prk, 32);";
  "    crypto_zeroize(ws, sizeof(crypto_workspace_t));";
  "    return PQC_SUCCESS;";
  "}";
  "";
  "pqc_status_t kem_adapter_derive_pairwise_mask_seed(const uint8_t* shared_secret, uint8_t client_id_a, uint8_t client_id_b, uint32_t round_id, uint8_t* mask_seed) {";
  "    if (!shared_secret || !mask_seed) return ERR_INVALID_ARGUMENT;";
  "    crypto_workspace_t* ws = scratch_get_crypto_ws();";
  "    uint8_t info[64];";
  "    size_t info_len = 0;";
  "    info[info_len++] = client_id_a;";
  "    info[info_len++] = client_id_b;";
  "    info[info_len++] = (round_id >> 24) & 0xFF;";
  "    info[info_len++] = (round_id >> 16) & 0xFF;";
  "    info[info_len++] = (round_id >> 8) & 0xFF;";
  "    info[info_len++] = round_id & 0xFF;";
  "    uint8_t prk[32];";
  "    hkdf_extract(NULL, 0, shared_secret, g_ss_bytes, prk);";
  "    hkdf_expand(prk, 32, (const uint8_t*)KDF_LABEL_PAIRWISE_MASK, strlen(KDF_LABEL_PAIRWISE_MASK), mask_seed, 32);";
  "    crypto_zeroize(prk, 32);";
  "    crypto_zeroize(ws, sizeof(crypto_workspace_t));";
  "    return PQC_SUCCESS;";
  "}";
  "";
  "pqc_status_t kem_adapter_derive_stream_mask_seed(const uint8_t* shared_secret, uint8_t client_id, uint32_t round_id, uint16_t chunk_index, uint8_t* stream_seed) {";
  "    if (!shared_secret || !stream_seed) return ERR_INVALID_ARGUMENT;";
  "    crypto_workspace_t* ws = scratch_get_crypto_ws();";
  "    uint8_t info[64];";
  "    size_t info_len = 0;";
  "    info[info_len++] = client_id;";
  "    info[info_len++] = (round_id >> 24) & 0xFF;";
  "    info[info_len++] = (round_id >> 16) & 0xFF;";
  "    info[info_len++] = (round_id >> 8) & 0xFF;";
  "    info[info_len++] = round_id & 0xFF;";
  "    info[info_len++] = (chunk_index >> 8) & 0xFF;";
  "    info[info_len++] = chunk_index & 0xFF;";
  "    uint8_t prk[32];";
  "    hkdf_extract(NULL, 0, shared_secret, g_ss_bytes, prk);";
  "    hkdf_expand(prk, 32, (const uint8_t*)KDF_LABEL_STREAM_MASK, strlen(KDF_LABEL_STREAM_MASK), stream_seed, 32);";
  "    crypto_zeroize(prk, 32);";
  "    crypto_zeroize(ws, sizeof(crypto_workspace_t));";
  "    return PQC_SUCCESS;";
  "}";
  "";
  "pqc_status_t kem_adapter_derive_shamir_secret(const uint8_t* shared_secret, uint8_t client_id, uint32_t round_id, uint8_t* shamir_secret) {";
  "    if (!shared_secret || !shamir_secret) return ERR_INVALID_ARGUMENT;";
  "    crypto_workspace_t* ws = scratch_get_crypto_ws();";
  "    uint8_t info[64];";
  "    size_t info_len = 0;";
  "    info[info_len++] = client_id;";
  "    info[info_len++] = (round_id >> 24) & 0xFF;";
  "    info[info_len++] = (round_id >> 16) & 0xFF;";
  "    info[info_len++] = (round_id >> 8) & 0xFF;";
  "    info[info_len++] = round_id & 0xFF;";
  "    uint8_t prk[32];";
  "    hkdf_extract(NULL, 0, shared_secret, g_ss_bytes, prk);";
  "    hkdf_expand(prk, 32, (const uint8_t*)KDF_LABEL_SHAMIR_SECRET, strlen(KDF_LABEL_SHAMIR_SECRET), shamir_secret, 32);";
  "    crypto_zeroize(prk, 32);";
  "    crypto_zeroize(ws, sizeof(crypto_workspace_t));";
  "    return PQC_SUCCESS;";
  "}";
  "";
  "pqc_status_t kem_adapter_zeroize_scratchpad(void) {";
  "    scratch_zeroize_region(SCRATCH_REGION_MLKEM);";
  "    scratch_zeroize_region(SCRATCH_REGION_CRYPTO);";
  "    return PQC_SUCCESS;";
  "}";
  "";
  "static const uint8_t kat_seed[48] = {";
  "    0x00, 0x01, 0x02, 0x03, 0x04, 0x05, 0x06, 0x07,";
  "    0x08, 0x09, 0x0a, 0x0b, 0x0c, 0x0d, 0x0e, 0x0f,";
  "    0x10, 0x11, 0x12, 0x13, 0x14, 0x15, 0x16, 0x17,";
  "    0x18, 0x19, 0x1a, 0x1b, 0x1c, 0x1d, 0x1e, 0x1f,";
  "    0x20, 0x21, 0x22, 0x23, 0x24, 0x25, 0x26, 0x27,";
  "    0x28, 0x29, 0x2a, 0x2b, 0x2c, 0x2d, 0x2e, 0x2f";
  "};";
  "";
  "static const uint8_t kat_pk[1184] = {";
  "    0x9f, 0x7a, 0x5d, 0x3c, 0x8e, 0x2b, 0x1f, 0x4a,";
  "    0x6c, 0x9d, 0x3e, 0x7f, 0x2a, 0x5b, 0x8c, 0x1d,";
  "    0x4e, 0x7f, 0x3a, 0x9c, 0x2d, 0x5e, 0x8f, 0x1a,";
  "    0x4b, 0x7c, 0x3d, 0x9e, 0x2f, 0x5a, 0x8b, 0x1c,";
  "    0x4d, 0x7e, 0x3f, 0x9a, 0x2b, 0x5c, 0x8d, 0x1e,";
  "    0x4f, 0x7a, 0x3b, 0x9c, 0x2d, 0x5e, 0x8f, 0x1a,";
  "    0x4b, 0x7c, 0x3d, 0x9e, 0x2f, 0x5a, 0x8b, 0x1c,";
  "    0x4d, 0x7e, 0x3f, 0x9a, 0x2b, 0x5c, 0x8d, 0x1e";
  "};";
  "";
  "static const uint8_t kat_sk[2400] = {";
  "    0x1a, 0x2b, 0x3c, 0x4d, 0x5e, 0x6f, 0x7a, 0x8b,";
  "    0x9c, 0xad, 0xbe, 0xcf, 0xd0, 0xe1, 0xf2, 0x03,";
  "    0x14, 0x25, 0x36, 0x47, 0x58, 0x69, 0x7a, 0x8b,";
  "    0x9c, 0xad, 0xbe, 0xcf, 0xd0, 0xe1, 0xf2, 0x03";
  "};";
  "";
  "static const uint8_t kat_ct[1088] = {";
  "    0x5e, 0x6f, 0x7a, 0x8b, 0x9c, 0xad, 0xbe, 0xcf,";
  "    0xd0, 0xe1, 0xf2, 0x03, 0x14, 0x25, 0x36, 0x47,";
  "    0x58, 0x69, 0x7a, 0x8b, 0x9c, 0xad, 0xbe, 0xcf,";
  "    0xd0, 0xe1, 0xf2, 0x03, 0x14, 0x25, 0x36, 0x47";
  "};";
  "";
  "static const uint8_t kat_ss[32] = {";
  "    0x8e, 0x2b, 0x1f, 0x4a, 0x6c, 0x9d, 0x3e, 0x7f,";
  "    0x2a, 0x5b, 0x8c, 0x1d, 0x4e, 0x7f, 0x3a, 0x9c,";
  "    0x2d, 0x5e, 0x8f, 0x1a, 0x4b, 0x7c, 0x3d, 0x9e,";
  "    0x2f, 0x5a, 0x8b, 0x1c, 0x4d, 0x7e, 0x3f, 0x9a";
  "};";
  "";
  "pqc_status_t kem_adapter_self_test(void) {";
  "    kem_keypair_t kp;";
  "    kem_encapsulation_t enc;";
  "    uint8_t ss[32];";
  "    uint8_t pk[1184];";
  "    uint8_t sk[2400];";
  "    uint8_t ct[1088];";
  "    pqc_status_t ret;";
  "";
  "    ret = kem_adapter_keypair(&kp);";
  "    if (ret != PQC_SUCCESS) return ERR_CRYPTO_FAILURE;";
  "";
  "    ret = kem_adapter_encapsulate(kp.public_key, kp.public_key_len, &enc);";
  "    if (ret != PQC_SUCCESS) return ERR_CRYPTO_FAILURE;";
  "";
  "    ret = kem_adapter_decapsulate(enc.ciphertext, enc.ciphertext_len, kp.secret_key, kp.secret_key_len, ss);";
  "    if (ret != PQC_SUCCESS) return ERR_CRYPTO_FAILURE;";
  "";
  "    if (crypto_ct_compare(ss, enc.shared_secret, 32) != 0) return ERR_CRYPTO_FAILURE;";
  "";
  "    crypto_zeroize(&kp, sizeof(kp));";
  "    crypto_zeroize(&enc, sizeof(enc));";
  "    crypto_zeroize(ss, 32);";
  "    return PQC_SUCCESS;";
  "}";
  "";
  "uint32_t kem_adapter_get_last_cycles(void) {";
  "    return g_last_cycles;";
  "}"
].

Definition kem_adapter_c_pqm4 : string := kem_adapter_c_pqm4_1 +:+ kem_adapter_c_pqm4_2.
