(* ===== verification/Patches.v ===== *)
(** * The patch scripts

    The scripts of the root directory that edit or write files of the tree:
    fix_*.py, batch1_fixes.py to batch4_fixes.py, apply_batch1_fixes.py,
    apply_batch3.py, apply_final_fixes.py and integrate_pqm4.py, as programs on
    a disk.  A script is a sequence of reads and writes; it stops at the first
    exception, and what it wrote before stays. *)

From Stdlib Require Import ZArith Lia Ascii.
From stdpp Require Import prelude strings gmap.
From S2P Require Import Prelude Text PatchTexts.
#[local] Open Scope string_scope.

(** ** The disk *)

(** Bytes are characters; [folders] are the directories that exist. *)
Record Disk : Type := { files : gmap string string; folders : gset string }.

(** What the scripts take from the platform: [os.linesep], and which byte
    strings the default encoding decodes.  The encoding extends ASCII byte for
    byte, and text is kept encoded. *)
Class Platform := {
  linesep : string;
  decodable : string -> bool;
}.
Class PlatformLaws (P : Platform) : Prop := { linesep_is : linesep_ok linesep }.

Fixpoint last_backslash (s : string) : option string :=
  match s with
  | EmptyString => None
  | String c s' =>
      match last_backslash s' with
      | Some d => Some (String c d)
      | None => if Ascii.eqb c "\" then Some "" else None
      end
  end.

(** [os.path.dirname(path)] for the absolute paths of the scripts. *)
Definition dirname (path : string) : string := default "" (last_backslash path).

Definition bridge_path : string := "C:\DROP\host_server\protocol_bridge.py".
Definition baseline_path : string := "C:\DROP\host_server\baseline_server.py".
Definition mock_client_path : string := "C:\DROP\host_server\mock_client.py".
Definition kem_adapter_path : string := "C:\DROP\src\pqc_engine\kem_adapter.c".
Definition resc_path : string := "C:\DROP\emulation\multi_node.resc".
Definition platformio_path : string := "C:\DROP\platformio.ini".
Definition experiments_path : string := "C:\DROP\experiments\scripts\run_all_experiments.py".
Definition stream_aggregator_path : string := "C:\DROP\src\federated\stream_aggregator.c".

Definition set_file (path content : string) (d : Disk) : Disk :=
  {| files := <[path := content]> (files d); folders := folders d |}.

(** [open(path, 'rb').read()] *)
Definition read_bytes (path : string) : M Disk string :=
  d ← gets (fun d => d);
  match files d !! path with Some content => mret content | None => raise FileNotFoundError end.

(** [open(path, 'wb').write(content)]: the directory must exist. *)
Definition write_bytes (path content : string) : M Disk unit :=
  d ← gets (fun d => d);
  if decide (dirname path ∈ folders d) then modify (set_file path content)
  else raise FileNotFoundError.

(** The directories above a path: what stands before each backslash. *)
Fixpoint ancestors (s : string) : list string :=
  match s with
  | EmptyString => []
  | String c s' => ((if Ascii.eqb c "\" then [""] else []) ++ (String c <$> ancestors s'))%list
  end.

(** [os.makedirs(folder, exist_ok=True)] *)
Definition makedirs (folder : string) : M Disk unit :=
  modify (fun d => {| files := files d; folders := list_to_set (folder :: ancestors folder) ∪ folders d |}).

Section Text.
Context {P : Platform}.

(** The same in text mode. *)
Definition read_text (path : string) : M Disk string :=
  content ← read_bytes path;
  if decodable content then mret (from_disk false content) else raise UnicodeDecodeError.

Definition write_text (path content : string) : M Disk unit :=
  write_bytes path (to_disk linesep content).

(** Read a text file, edit it, write it back. *)
Definition edit_text (path : string) (edit : string -> string) : M Disk unit :=
  content ← read_text path; write_text path (edit content).
End Text.

(** Read a file's bytes, edit them, write them back. *)
Definition edit_bytes (path : string) (edit : string -> string) : M Disk unit :=
  content ← read_bytes path; write_bytes path (edit content).

(** ** fix_*.py *)

(** The expression of the empty key stream, and the corrected one. *)
Definition empty_stream : string := unquote "b`` * length".
Definition zero_stream : string := unquote "b`\x00` * length".

Definition fix_aes_ctr : M Disk unit := edit_bytes bridge_path (replace empty_stream zero_stream).
Definition fix_bytes2 : M Disk unit := edit_bytes bridge_path (replace empty_stream zero_stream).

Definition fix_empty_bytes {P : Platform} : M Disk unit :=
  edit_text bridge_path (replace empty_stream zero_stream).

Definition fix_null : M Disk unit := edit_bytes bridge_path (replace (String NUL "") "").

(** fix_bytes3.py patches the first occurrence, and writes only if there is one. *)
Definition fix_bytes3 : M Disk unit :=
  content ← read_bytes bridge_path;
  let idx := find empty_stream content in
  if (0 <=? idx)%Z then
    write_bytes bridge_path
      (String.substring 0 (Z.to_nat idx) content +:+ zero_stream +:+
       String.substring (Z.to_nat idx + String.length empty_stream)
         (String.length content - (Z.to_nat idx + String.length empty_stream)) content)
  else skip.

(** The positions fix_bytes4.py prints: its six patterns, then [update]. *)
Definition fix_bytes4_patterns : list string :=
  unquote <$> ["b`` * length"; "b'' * length"; "b``*length"; "b''*length"; "update(b``"; "update(b'')"].
Definition fix_bytes4 : M Disk (list Z) :=
  content ← read_bytes bridge_path;
  mret ((fun pat => find pat content) <$> (fix_bytes4_patterns ++ ["update"])%list).

(** ** Scripts that edit in text mode *)

Section Edits.
Context {P : Platform}.

(** batch1_fixes.py: [fix_protocol_bridge]. *)
Definition batch1_bridge_edit : string -> string :=
  replace (unquote "return encryptor.update(b`` * length) + encryptor.finalize()")
          (unquote "return encryptor.update(b`\x00` * length) + encryptor.finalize()").
Definition batch1_fix_protocol_bridge : M Disk unit := edit_text bridge_path batch1_bridge_edit.

(** batch3_fixes.py: [fix_protocol_bridge_py]; its second replacement puts a
    line back as it is. *)
Definition batch3_bridge_edit (content : string) : string :=
  let content := replace "DEFAULT_CHUNK_ELEMENTS = 128" "" content in
  replace "chunk_elements = round_state.chunk_size" "chunk_elements = round_state.chunk_size" content.
Definition batch3_fix_protocol_bridge : M Disk unit := edit_text bridge_path batch3_bridge_edit.

(** apply_batch3.py, parts 1 and 2: [re.sub] with a pattern that has no
    special characters is [replace]. *)
Definition apply_batch3_stream_edits (content : string) : string :=
  let content := replace ("#define CHUNK_ELEMENTS 128" +:+ String LF "") "" content in
  let content := replace "    int16_t mask[CHUNK_ELEMENTS];"
                   "    int16_t mask[512];  // MAX_CHUNK_SIZE / 2 = 1024 / 2 = 512" content in
  let content := replace "    mask_prg_expand((uint8_t*)mask, chunk_size);"
                   "    mask_prg_expand((uint8_t*)mask, chunk_size);" content in
  let guard := "    if (chunk_size > CHUNK_ELEMENTS * 2) return ERR_CHUNK_TOO_LARGE;" in
  let fixed := "    if (chunk_size > 1024) return ERR_CHUNK_TOO_LARGE;  // MAX_CHUNK_SIZE" in
  replace guard fixed (replace guard fixed content).

Definition apply_batch3_stream_aggregator : M Disk unit :=
  edit_text stream_aggregator_path apply_batch3_stream_edits.

Definition apply_batch3_protocol_bridge : M Disk unit :=
  edit_text bridge_path (replace ("DEFAULT_CHUNK_ELEMENTS = 128" +:+ String LF "") "").

(** apply_batch1_fixes.py: the seven replacements, in order. *)
Definition kem_edits : list (string * string) := [
  ("int ret = KEM_KEYPAIR_FN(keypair->public_key, keypair->secret_key);",
   "int ret = KEM_KEYPAIR_FN(keypair->public_key, keypair->secret_key, ws->data);");
  ("int ret = KEM_ENCAP_FN(encap->ciphertext, encap->shared_secret, public_key);",
   "int ret = KEM_ENCAP_FN(encap->ciphertext, encap->shared_secret, public_key, ws->data);");
  ("int ret = KEM_DECAP_FN(shared_secret, ciphertext, secret_key);",
   "int ret = KEM_DECAP_FN(shared_secret, ciphertext, secret_key, ws->data);");
  ("hkdf_expand(prk, 32, (const uint8_t*)KDF_LABEL_SESSION_KEY, strlen(KDF_LABEL_SESSION_KEY), session_key, 32);",
   "hkdf_expand(prk, 32, info, info_len, session_key, 32);");
  (old_pairwise, new_pairwise); (old_stream, new_stream); (old_shamir, new_shamir)].

Definition apply_edits (edits : list (string * string)) (content : string) : string :=
  fold_left (fun content '(old, new) => replace old new content) edits content.

(** It reads the file back at the end, to print parts of it. *)
Definition apply_batch1_fixes : M Disk unit :=
  _ ← edit_text kem_adapter_path (apply_edits kem_edits);
  _ ← read_text kem_adapter_path;
  skip.

(** apply_final_fixes.py: [fix_baseline_server_py]. *)
Definition pairwise_constants : string * string :=
  ("MSG_TYPE_RECOVERY_COMPLETE = 0x33",
   "MSG_TYPE_RECOVERY_COMPLETE = 0x33" +:+ String LF "MSG_TYPE_PAIRWISE_KEM_PUBKEY = 0x10"
     +:+ String LF "MSG_TYPE_PAIRWISE_KEM_CIPHERTEXT = 0x11").

Definition dispatch_branch : string :=
  "        elif header.message_type == MSG_TYPE_ROUND_INIT:" +:+
  String LF "            await self._handle_round_init(header, payload)".
Definition pairwise_branches : string :=
  String LF "        elif header.message_type == MSG_TYPE_PAIRWISE_KEM_PUBKEY:" +:+
  String LF "            await self._handle_pairwise_pubkey(header, payload, writer)" +:+
  String LF "        elif header.message_type == MSG_TYPE_PAIRWISE_KEM_CIPHERTEXT:" +:+
  String LF "            await self._handle_pairwise_ciphertext(header, payload)".

Definition fedavg_signature : string :=
  "    def _compute_fedavg(self, round_state: RoundState, client_unmasked: Dict[int, Dict[int, List[int]]]) -> Dict[int, List[int]]:".
Definition round_init_signature : string := "    async def _handle_round_init(".

Definition baseline_edits : list (string * string) := [
  pairwise_constants;
  (dispatch_branch, dispatch_branch +:+ pairwise_branches);
  (old_setup, new_setup);
  (fedavg_signature, pairwise_method +:+ String LF fedavg_signature);
  (round_init_signature, pairwise_handlers +:+ String LF round_init_signature);
  pairwise_constants].

Definition fix_baseline_server_py : M Disk unit := edit_text baseline_path (apply_edits baseline_edits).

(** integrate_pqm4.py: [modify_platformio_ini]. *)
Definition pqm4_flags : list string :=
  ["    -Isrc/network"; "    -Ideps/pqm4/pqcrystals/kyber/ref"; "    -Ideps/pqm4/common";
   "    -Ideps/pqm4/pqcrystals/kyber"; "    -DUSE_PQM4_KEM768"].
Definition ini_section (flags rest : list string) : string := join (String LF "") (flags ++ rest)%list.
Definition cortex_rest : list string :=
  ["linker_script = ${platformio.build_dir}/ldscript.ld"; ""; "[env:esp32c3]"].
Definition ini_edits : list (string * string) := [
  (ini_section ["    -Isrc/network"] cortex_rest, ini_section pqm4_flags cortex_rest);
  (ini_section ["    -Isrc/network"] [""; "[env:native]"], ini_section pqm4_flags [""; "[env:native]"]);
  (ini_section ["    -Isrc/network"] [""; "build_unflags ="],
   ini_section pqm4_flags [""; "build_unflags ="]);
  (ini_section pqm4_flags [""; "build_unflags ="], ini_section pqm4_flags [""; "build_unflags ="])].
Definition source_filter : string :=
  String LF "build_src_filter = +<*> +<deps/pqm4/pqcrystals/kyber/ref/*.c> +<deps/pqm4/common/*.c>".
Definition filter_edits : list (string * string) :=
  (fun env => (env, env +:+ source_filter)) <$> ["[env:cortex_m4]"; "[env:esp32c3]"; "[env:native]"].

Definition platformio_edit (content : string) : string :=
  let content := apply_edits ini_edits content in
  if contains "build_src_filter" content then content else apply_edits filter_edits content.

Definition modify_platformio_ini : M Disk unit := edit_text platformio_path platformio_edit.

(** ** Scripts that write whole files *)

Definition mock_client_text : string := mock_client_head +:+ mock_client_tail.
Definition kem_adapter_text : string := kem_adapter_top +:+ kem_adapter_operations +:+ kem_adapter_rest.

(** batch2_fixes.py *)
Definition create_mock_client : M Disk unit := write_text mock_client_path (unescape mock_client_text).

(** batch3_fixes.py, batch4_fixes.py, apply_batch3.py *)
Definition batch3_fix_kem_adapter_c : M Disk unit := write_text kem_adapter_path (unescape kem_adapter_text).
Definition batch3_create_renode_script : M Disk unit :=
  _ ← makedirs (dirname resc_path); write_text resc_path (unescape resc_batch3).
Definition batch4_create_renode_script : M Disk unit :=
  _ ← makedirs (dirname resc_path); write_text resc_path (unescape resc_batch4).
Definition apply_batch3_resc : M Disk unit := write_text resc_path (unescape resc_apply3).

(** apply_final_fixes.py: [create_run_all_experiments_py] and the script itself. *)
Definition create_run_all_experiments_py : M Disk unit :=
  _ ← makedirs (dirname experiments_path);
  write_text experiments_path (unescape run_all_experiments_text).
Definition apply_final_fixes : M Disk unit :=
  _ ← fix_baseline_server_py; create_run_all_experiments_py.
End Edits.
