(* ===== verification/PatchFacts.v ===== *)
(** * What the patch scripts do to the tree

    The scripts that repair the AES-CTR key stream, the files that arrive
    broken because a backslash was not doubled, and the edits of
    kem_adapter.c. *)

From Stdlib Require Import ZArith Lia Ascii.
From stdpp Require Import prelude strings gmap.
From S2P Require Import Prelude Text PatchTexts Patches.
#[local] Open Scope string_scope.

(** ** Reading and writing *)

(** A file stands in a directory that exists. *)
Definition has_file (path content : string) (d : Disk) : Prop :=
  files d !! path = Some content /\ dirname path ∈ folders d.

Lemma set_file_get path content d : files (set_file path content d) !! path = Some content.
Proof. apply lookup_insert_eq. Qed.

Lemma set_file_ne path content d path' :
  path <> path' -> files (set_file path content d) !! path' = files d !! path'.
Proof. intros. by apply lookup_insert_ne. Qed.

Lemma set_file_same path content d : files d !! path = Some content -> set_file path content d = d.
Proof. intros H. destruct d. unfold set_file. simpl in *. by rewrite insert_id. Qed.

Lemma set_file_set path c c' d : set_file path c' (set_file path c d) = set_file path c' d.
Proof. unfold set_file. simpl. by rewrite insert_insert_eq. Qed.

Lemma has_file_set path content content' d :
  has_file path content d -> has_file path content' (set_file path content' d).
Proof. intros [_ Hd]. split; [apply set_file_get|done]. Qed.

Lemma read_bytes_run path d :
  read_bytes path d =
  (match files d !! path with Some c => Ok c | None => Err FileNotFoundError end, d).
Proof. unfold read_bytes, mbind, M_bind, gets. by destruct (files d !! path). Qed.

Lemma write_bytes_run path content d :
  dirname path ∈ folders d -> write_bytes path content d = (Ok tt, set_file path content d).
Proof. intros H. unfold write_bytes, mbind, M_bind, gets. by rewrite decide_True. Qed.

Lemma edit_bytes_run path edit content d :
  has_file path content d ->
  edit_bytes path edit d = (Ok tt, set_file path (edit content) d).
Proof.
  intros [Hf Hd]. unfold edit_bytes. rewrite (M_bind_ok _ _ _ content d).
  - by apply write_bytes_run.
  - rewrite read_bytes_run. by rewrite Hf.
Qed.

Lemma edit_bytes_missing path edit d :
  files d !! path = None -> edit_bytes path edit d = (Err FileNotFoundError, d).
Proof. intros Hf. apply M_bind_err. rewrite read_bytes_run. by rewrite Hf. Qed.

Section Platform.
Context {P : Platform} {Laws : PlatformLaws P}.

Lemma read_text_run path content d :
  files d !! path = Some content -> decodable content = true ->
  read_text path d = (Ok (from_disk false content), d).
Proof.
  intros Hf Hdec. unfold read_text. rewrite (M_bind_ok _ _ _ content d).
  - by rewrite Hdec.
  - rewrite read_bytes_run. by rewrite Hf.
Qed.

Lemma edit_text_run path edit content d :
  has_file path content d -> decodable content = true ->
  edit_text path edit d = (Ok tt, set_file path (to_disk linesep (edit (from_disk false content))) d).
Proof.
  intros [Hf Hd] Hdec. unfold edit_text.
  rewrite (M_bind_ok _ _ _ _ d (read_text_run _ _ _ Hf Hdec)). by apply write_bytes_run.
Qed.

(** Newline translation neither makes nor breaks an occurrence of a one-line text. *)
Definition one_line (p : string) : bool := negb (has_char LF p) && negb (has_char CR p).

Lemma starts_to_disk p s : one_line p = true -> starts p (to_disk linesep s) = starts p s.
Proof.
  destruct Laws as [Hsep]. unfold one_line, starts. revert s.
  induction p as [|c p IH]; intros s Hp; [by destruct (to_disk linesep s), s|].
  cbn [has_char] in Hp. apply andb_true_iff in Hp as [Hlf Hcr].
  apply negb_true_iff, orb_false_iff in Hlf as [Hlf Hlf'], Hcr as [Hcr Hcr'].
  destruct s as [|d s]; [done|]. cbn [to_disk]. destruct (Ascii.eqb_spec d LF) as [->|Hd].
  - rewrite Ascii.eqb_sym in Hlf, Hcr. cbn [strip]. rewrite Hlf.
    destruct Hsep as [->| ->]; text; cbn [strip]; by rewrite ?Hlf, ?Hcr.
  - cbn [strip]. destruct (Ascii.eqb c d); [|done]. apply IH. by rewrite Hlf', Hcr'.
Qed.

Lemma contains_to_disk p s :
  p <> "" -> one_line p = true -> contains p (to_disk linesep s) = contains p s.
Proof.
  intros Hne Hp. induction s as [|d s IH]; [done|]. cbn [contains]. rewrite <- IH.
  rewrite <- (starts_to_disk p (String d s)) by done. cbn [to_disk].
  destruct (Ascii.eqb_spec d LF) as [->|Hd]; [|done].
  destruct Laws as [Hsep]. destruct p as [|c p]; [done|].
  unfold one_line in Hp. cbn [has_char] in Hp.
  apply andb_true_iff in Hp as [Hlf Hcr].
  apply negb_true_iff, orb_false_iff in Hlf as [Hlf _], Hcr as [Hcr _].
  rewrite Ascii.eqb_sym in Hlf, Hcr.
  destruct Hsep as [Hs|Hs]; rewrite Hs in *; text; cbn [contains]; unfold starts; cbn [strip];
    by rewrite ?Hlf, ?Hcr.
Qed.

(** ** The key-stream repairs *)

Lemma streams_separate : separate empty_stream zero_stream = true.
Proof. reflexivity. Qed.

(** C37: on a disk with the bridge's source, fix_aes_ctr.py and fix_bytes2.py
    are the same edit: afterwards no [b"" * length] is left, every one became
    [b"\x00" * length] (the text splits at the occurrences), running either
    again changes nothing, and no other file is touched.  fix_empty_bytes.py,
    which works in text mode, leaves no occurrence either, on any platform. *)
Theorem ctr_scripts_repair content d :
  has_file bridge_path content d -> decodable content = true ->
  exists fixed d',
    fix_aes_ctr d = (Ok tt, d') /\ fix_bytes2 d = (Ok tt, d') /\
    files d' !! bridge_path = Some fixed /\ contains empty_stream fixed = false /\
    (exists parts, content = join empty_stream parts /\ fixed = join zero_stream parts) /\
    fix_bytes2 d' = (Ok tt, d') /\
    (forall path, path <> bridge_path -> files d' !! path = files d !! path) /\
    (exists text, fix_empty_bytes d = (Ok tt, set_file bridge_path text d) /\
       contains empty_stream text = false).
Proof.
  intros Hfile Hdec. exists (replace empty_stream zero_stream content).
  exists (set_file bridge_path (replace empty_stream zero_stream content) d).
  split; [by apply edit_bytes_run|]. split; [by apply edit_bytes_run|].
  split; [apply set_file_get|]. split; [by apply replace_removes|].
  split; [|split; [|split]].
  - destruct (replace_parts empty_stream zero_stream content) as (parts & _ & Hc & Hr); [done|].
    by exists parts.
  - unfold fix_bytes2. erewrite edit_bytes_run by (by eapply has_file_set).
    by rewrite replace_idempotent, set_file_set.
  - intros path Hne. by apply set_file_ne.
  - eexists. split; [by apply edit_text_run|]. rewrite contains_to_disk by done.
    by apply replace_removes.
Qed.

End Platform.

(** Removing one character. *)
Fixpoint drop_char (c : ascii) (s : string) : string :=
  match s with
  | EmptyString => EmptyString
  | String d s' => if Ascii.eqb c d then drop_char c s' else String d (drop_char c s')
  end.

Lemma replace_drop c s : replace (String c "") "" s = drop_char c s.
Proof.
  induction s as [|d s IH]; [done|]. cbn [drop_char]. destruct (Ascii.eqb_spec c d) as [<-|Hne].
  - rewrite <- IH. exact (replace_hit (String c "") "" s ltac:(done)).
  - rewrite replace_miss; [by rewrite IH|]. unfold starts. cbn [strip].
    by rewrite (proj2 (Ascii.eqb_neq c d)).
Qed.

Lemma drop_char_none c s : has_char c (drop_char c s) = false.
Proof.
  induction s as [|d s IH]; [done|]. cbn [drop_char]. destruct (Ascii.eqb c d) eqn:E; [done|].
  cbn [has_char]. by rewrite E.
Qed.

Lemma drop_char_absent c s : has_char c s = false -> drop_char c s = s.
Proof.
  induction s as [|d s IH]; [done|]. cbn [has_char drop_char]. intros [-> Hs]%orb_false_iff.
  by rewrite IH.
Qed.

Lemma drop_char_app c a b : drop_char c (a +:+ b) = drop_char c a +:+ drop_char c b.
Proof.
  induction a as [|d a IH]; text; [done|]. cbn [drop_char]. destruct (Ascii.eqb c d); [done|].
  text. by rewrite IH.
Qed.

(** A character that only the replacement brings in is dropped again. *)
Lemma drop_replace c old new s :
  old <> "" -> drop_char c new = old -> has_char c s = false ->
  drop_char c (replace old new s) = s.
Proof.
  intros Hne Hnew. pattern s. apply (replace_ind old); [done|done| |]; clear s.
  - intros s IH Hs. rewrite replace_hit, drop_char_app, Hnew by done. rewrite IH; [done|].
    clear -Hs. induction old as [|d old IH]; [done|]. text. cbn [has_char] in Hs.
    apply orb_false_iff in Hs as [_ Hs]. by apply IH.
  - intros d s Hd IH Hs. rewrite replace_miss by done. cbn [has_char drop_char] in *.
    apply orb_false_iff in Hs as [Hcd Hs]. rewrite Hcd. by rewrite IH.
Qed.

(** The expression with a NUL character between the quotes, which is what
    [b"\x00" * length] becomes when a script's literal decodes the escape. *)
Definition nul_stream : string := "b" +:+ String QUOTE (String NUL (String QUOTE " * length")).

(** fix_null.py deletes exactly the NUL characters of the bridge's source,
    so it undoes a replacement of [b"" * length] by the same text with a NUL
    between the quotes, byte for byte; what it leaves is the empty key stream,
    and fix_bytes2.py run after it repairs that. *)
Theorem null_then_ctr content original d :
  has_file bridge_path content d ->
  has_char NUL original = false -> content = replace empty_stream nul_stream original ->
  fix_null d = (Ok tt, set_file bridge_path original d) /\
  (_ ← fix_null; fix_bytes2) d =
    (Ok tt, set_file bridge_path (replace empty_stream zero_stream original) d).
Proof.
  intros Hfile Hnul Hc.
  assert (Hn : fix_null d = (Ok tt, set_file bridge_path original d)).
  { unfold fix_null. rewrite (edit_bytes_run _ _ content) by done. rewrite replace_drop, Hc.
    by rewrite drop_replace. }
  split; [done|]. rewrite (M_bind_ok _ _ _ tt _ Hn). unfold fix_bytes2.
  erewrite edit_bytes_run by (by eapply has_file_set). by rewrite set_file_set.
Qed.

(** ** Files that arrive broken *)

Section Written.
Context {P : Platform} {Laws : PlatformLaws P}.

Lemma write_text_run path text d :
  dirname path ∈ folders d -> write_text path text d = (Ok tt, set_file path (to_disk linesep text) d).
Proof. intros H. unfold write_text. by rewrite write_bytes_run. Qed.

Lemma makedirs_write path text d :
  exists d', (_ ← makedirs (dirname path); write_text path text) d = (Ok tt, d') /\
    files d' = <[path := to_disk linesep text]> (files d) /\ dirname path ∈ folders d'.
Proof.
  eexists. split; [|split].
  - rewrite (M_bind_ok _ _ _ tt {| files := files d;
      folders := list_to_set (dirname path :: ancestors (dirname path)) ∪ folders d |}) by done.
    apply write_text_run. simpl. set_solver.
  - done.
  - simpl. set_solver.
Qed.

Definition firmware_image : string := "C:\DROP\build\cortex_m4\firmware.elf".
Definition BS : ascii := Ascii.ascii_of_nat 8.
Definition FF : ascii := Ascii.ascii_of_nat 12.

(** The Renode script a disk holds, as text. *)
Definition resc_on_disk (d : Disk) (text : string) : Prop :=
  files d !! resc_path = Some (to_disk linesep text).

(** batch4_fixes.py writes its Renode script from a literal with single
    backslashes, so the image path loses [\b] and [\f] to a backspace and a
    form feed and the emulation has no image; the scripts batch3_fixes.py and
    apply_batch3.py write have the path.  Whichever runs last decides, whatever
    was there before: batch4 after batch3 breaks the file, apply_batch3 after
    batch4 mends it. *)
Theorem renode_script_last_writer d :
  exists d3 d4 t3 t4 ta,
    batch3_create_renode_script d = (Ok tt, d3) /\ resc_on_disk d3 t3 /\
    batch4_create_renode_script d3 = (Ok tt, d4) /\ resc_on_disk d4 t4 /\
    exists da, apply_batch3_resc d4 = (Ok tt, da) /\ resc_on_disk da ta /\
    contains firmware_image t3 = true /\ contains firmware_image ta = true /\
    contains firmware_image t4 = false /\
    (has_char BS t4 && has_char FF t4) = true /\
    (has_char BS t3 || has_char FF t3 || has_char BS ta || has_char FF ta) = false.
Proof.
  destruct (makedirs_write resc_path (unescape resc_batch3) d) as (d3 & H3 & F3 & _).
  destruct (makedirs_write resc_path (unescape resc_batch4) d3) as (d4 & H4 & F4 & D4).
  exists d3, d4, (unescape resc_batch3), (unescape resc_batch4), (unescape resc_apply3).
  split; [exact H3|]. split; [unfold resc_on_disk; rewrite F3; apply lookup_insert_eq|].
  split; [exact H4|]. split; [unfold resc_on_disk; rewrite F4; apply lookup_insert_eq|].
  exists (set_file resc_path (to_disk linesep (unescape resc_apply3)) d4).
  split; [|split; [apply set_file_get|repeat split; vm_compute; reflexivity]].
  by apply write_text_run.
Qed.

(** The lines of a text with an odd number of double quotes: in the files
    below, string literals that a line break cuts in two. *)
Fixpoint odd_quote_lines (odd : bool) (s : string) : nat :=
  match s with
  | EmptyString => if odd then 1 else 0
  | String c s' =>
      if Ascii.eqb c LF then (if odd then 1 else 0) + odd_quote_lines false s'
      else odd_quote_lines (if Ascii.eqb c QUOTE then negb odd else odd) s'
  end.

(** Two Python files are written so that Python cannot load them.  The
    [mock_client.py] of batch2_fixes.py holds one NUL character (from
    [b"\x00"], decoded in the script's own literal), and in the
    [run_all_experiments.py] of apply_final_fixes.py each of the five
    [\n] inside a string has become a line break that cuts the string in two,
    while in the script's literal no line has an odd number of quotes. *)
Theorem generated_python_broken d :
  dirname mock_client_path ∈ folders d ->
  exists d1 d2 mock driver,
    create_mock_client d = (Ok tt, d1) /\
    files d1 !! mock_client_path = Some (to_disk linesep mock) /\ count (String NUL "") mock = 1%nat /\
    create_run_all_experiments_py d = (Ok tt, d2) /\
    files d2 !! experiments_path = Some (to_disk linesep driver) /\
    odd_quote_lines false driver = 10%nat /\
    odd_quote_lines false run_all_experiments_text = 0%nat.
Proof.
  intros Hd. destruct (makedirs_write experiments_path (unescape run_all_experiments_text) d)
    as (d2 & H2 & F2 & _).
  eexists _, d2, (unescape mock_client_text), (unescape run_all_experiments_text).
  split; [by apply write_text_run|]. split; [apply set_file_get|]. split; [vm_compute; reflexivity|].
  split; [exact H2|]. split; [rewrite F2; apply lookup_insert_eq|].
  split; vm_compute; reflexivity.
Qed.

(** ** The edits of kem_adapter.c *)

(** Edits that find nothing leave the text alone. *)
Lemma apply_edits_absent edits s :
  Forall (fun e => contains (fst e) s = false) edits -> apply_edits edits s = s.
Proof.
  induction edits as [|[old new] edits IH]; intros H; [done|].
  apply Forall_cons in H as [Hold H]. unfold apply_edits. cbn [fold_left].
  rewrite (replace_absent old new s Hold). by apply IH.
Qed.

(** Text without carriage returns that an edit script reads back. *)
Lemma edit_text_written path edit text d :
  dirname path ∈ folders d -> decodable (to_disk linesep text) = true -> has_char CR text = false ->
  edit_text path edit (set_file path (to_disk linesep text) d) =
    (Ok tt, set_file path (to_disk linesep (edit text)) d).
Proof.
  intros Hd Hdec Hcr. rewrite (edit_text_run path edit (to_disk linesep text)).
  - rewrite text_mode_roundtrip, set_file_set; [done|apply linesep_is|done|by left].
  - split; [apply set_file_get|done].
  - done.
Qed.

Definition edited_kem_adapter : string := apply_edits kem_edits (unescape kem_adapter_text).

(** The seven replacements of apply_batch1_fixes.py, run on the
    kem_adapter.c that batch3_fixes.py writes, on a platform whose encoding
    decodes that file before and after the edits: every text it looks for occurs
    there exactly once, so each replacement happens once, none of them is left
    afterwards, and running the script again leaves the disk as it is. *)
Theorem kem_edits_apply_once d :
  dirname kem_adapter_path ∈ folders d ->
  decodable (to_disk linesep (unescape kem_adapter_text)) = true ->
  decodable (to_disk linesep edited_kem_adapter) = true ->
  Forall (fun e => count (fst e) (unescape kem_adapter_text) = 1%nat) kem_edits /\
  Forall (fun e => contains (fst e) edited_kem_adapter = false) kem_edits /\
  let once := set_file kem_adapter_path (to_disk linesep edited_kem_adapter) d in
  (_ ← batch3_fix_kem_adapter_c; apply_batch1_fixes) d = (Ok tt, once) /\
  apply_batch1_fixes once = (Ok tt, once).
Proof.
  intros Hd Hdec Hdec'.
  assert (Hcount : forallb (fun e => Nat.eqb (count (fst e) (unescape kem_adapter_text)) 1) kem_edits = true)
    by (vm_compute; reflexivity).
  assert (Hnone : forallb (fun e => negb (contains (fst e) edited_kem_adapter)) kem_edits = true)
    by (vm_compute; reflexivity).
  assert (Hcr : has_char CR (unescape kem_adapter_text) = false) by (vm_compute; reflexivity).
  assert (Hcr' : has_char CR edited_kem_adapter = false) by (vm_compute; reflexivity).
  rewrite forallb_forall in Hcount, Hnone.
  assert (Habs : Forall (fun e => contains (fst e) edited_kem_adapter = false) kem_edits).
  { apply Forall_forall. intros e He. apply list_elem_of_In, Hnone in He. by apply negb_true_iff. }
  split; [|split; [done|]].
  - apply Forall_forall. intros e He. apply list_elem_of_In, Hcount in He. by apply Nat.eqb_eq.
  - assert (Hrun : forall text text', apply_edits kem_edits text = text' -> has_char CR text = false ->
      decodable (to_disk linesep text) = true -> decodable (to_disk linesep text') = true ->
      apply_batch1_fixes (set_file kem_adapter_path (to_disk linesep text) d) =
        (Ok tt, set_file kem_adapter_path (to_disk linesep text') d)).
    { intros text text' <- Ht H1 H2. unfold apply_batch1_fixes.
      rewrite (M_bind_ok _ _ _ _ _ (edit_text_written _ _ text d Hd H1 Ht)).
      by rewrite (M_bind_ok _ _ _ _ _ (read_text_run _ _ _ (set_file_get _ _ _) H2)). }
    split.
    + unfold batch3_fix_kem_adapter_c.
      rewrite (M_bind_ok _ _ _ _ _ (write_text_run _ _ d Hd)).
      exact (Hrun _ edited_kem_adapter eq_refl Hcr Hdec Hdec').
    + exact (Hrun _ _ (apply_edits_absent _ _ Habs) Hcr' Hdec' Hdec').
Qed.
End Written.

(** ** Concrete instances *)

(** cp1252 has no character for five bytes. *)
Definition cp1252 (s : string) : bool :=
  forallb (fun n => negb (has_char (ascii_of_nat n) s)) [129; 141; 143; 144; 157]%nat.

#[export] Instance windows : Platform := {| linesep := String CR (String LF ""); decodable := cp1252 |}.
#[export] Instance windows_laws : PlatformLaws windows.
Proof. split. by right. Qed.

(** A disk with the tree's directories and a two-line bridge. *)
Definition sample_disk : Disk := {|
  files := {[ bridge_path := unquote "return update(b`` * length)" +:+ String LF "" ]};
  folders := {[ dirname bridge_path; dirname kem_adapter_path ]} |}.

Lemma sample_disk_file : has_file bridge_path (unquote "return update(b`` * length)" +:+ String LF "") sample_disk.
Proof. split; [apply lookup_singleton_eq|]. simpl. set_solver. Qed.

Lemma ctr_scripts_repair_witness :
  exists fixed d', fix_aes_ctr sample_disk = (Ok tt, d') /\ files d' !! bridge_path = Some fixed /\
    contains empty_stream fixed = false.
Proof.
  destruct (@ctr_scripts_repair windows windows_laws _ sample_disk sample_disk_file eq_refl)
    as (fixed & d' & H1 & _ & H2 & H3 & _).
  exists fixed, d'. split; [exact H1|]. split; [exact H2|exact H3].
Defined.

Definition nul_disk : Disk :=
  set_file bridge_path (replace empty_stream nul_stream (unquote "x = b`` * length")) sample_disk.

Lemma null_then_ctr_witness :
  fix_null nul_disk = (Ok tt, set_file bridge_path (unquote "x = b`` * length") nul_disk).
Proof.
  apply (null_then_ctr (replace empty_stream nul_stream (unquote "x = b`` * length"))
           (unquote "x = b`` * length") nul_disk).
  - split; [apply set_file_get|]. simpl. set_solver.
  - reflexivity.
  - reflexivity.
Defined.

Lemma generated_python_broken_witness :
  exists d1 mock, create_mock_client sample_disk = (Ok tt, d1) /\
    files d1 !! mock_client_path = Some (to_disk linesep mock) /\ count (String NUL "") mock = 1%nat.
Proof.
  destruct (generated_python_broken sample_disk) as (d1 & _ & mock & _ & H1 & H2 & H3 & _).
  - simpl. set_solver.
  - exists d1, mock. split; [exact H1|]. split; [exact H2|exact H3].
Defined.

Lemma kem_edits_apply_once_witness :
  apply_batch1_fixes (set_file kem_adapter_path (to_disk linesep edited_kem_adapter) sample_disk) =
    (Ok tt, set_file kem_adapter_path (to_disk linesep edited_kem_adapter) sample_disk).
Proof.
  apply (kem_edits_apply_once sample_disk).
  - simpl. set_solver.
  - vm_compute. reflexivity.
  - vm_compute. reflexivity.
Defined.
