(* ===== verification/Scripts.v ===== *)
(** * The scripts that replace files

    phase2_fixes.py, batch1_fixes.py to batch4_fixes.py, apply_batch3.py,
    apply_batch4.py, integrate_pqm4.py and create_phase4.py as programs on a
    disk: their functions under the names they have there, and what each script
    runs.  The texts are those of CTexts, PyTexts and PatchTexts; a function
    that edits a file in place is the one of Patches. *)

From stdpp Require Import prelude strings gmap.
From S2P Require Import Prelude Text PatchTexts CTexts PyTexts Patches.
#[local] Open Scope string_scope.

Definition state_machine_path : string := "C:\DROP\src\federated\state_machine.c".
Definition codec_h_path : string := "C:\DROP\src\network\packet_codec.h".
Definition codec_c_path : string := "C:\DROP\src\network\packet_codec.c".
Definition impairment_c_path : string := "C:\DROP\src\network\impairment.c".
Definition impairment_h_path : string := "C:\DROP\src\network\impairment.h".
Definition dropout_protocol_path : string := "C:\DROP\src\federated\dropout_protocol.c".
Definition kem_adapter_h_path : string := "C:\DROP\src\pqc_engine\kem_adapter.h".
Definition dma_transport_path : string := "C:\DROP\src\network\dma_transport.c".
Definition telemetry_h_path : string := "C:\DROP\src\core_rtos\telemetry.h".
Definition telemetry_c_path : string := "C:\DROP\src\core_rtos\telemetry.c".
Definition main_path : string := "C:\DROP\src\core_rtos\main.c".
Definition stm32_path : string := "C:\DROP\src\network\dma_transport_stm32.c".
Definition esp32_path : string := "C:\DROP\src\network\dma_transport_esp32.c".
Definition transport_h_path : string := "C:\DROP\src\network\transport.h".
Definition baselines_path : string := "C:\DROP\experiments\baselines.py".
Definition metrics_logger_path : string := "C:\DROP\experiments\metrics_logger.py".
Definition run_benchmarks_path : string := "C:\DROP\experiments\run_benchmarks.py".

Section Scripts.
Context {P : Platform}.

(** ** phase2_fixes.py *)

Definition fix_state_machine : M Disk unit := write_text state_machine_path (unescape state_machine_phase2).
Definition create_packet_codec_h : M Disk unit := write_text codec_h_path (unescape codec_h_phase2).
Definition phase2_fix_packet_codec_c : M Disk unit := write_text codec_c_path (unescape codec_c_phase2).
Definition create_impairment_c : M Disk unit := write_text impairment_c_path (unescape impairment_c_phase2).
Definition create_impairment_h : M Disk unit := write_text impairment_h_path (unescape impairment_h_phase2).

Definition phase2_fixes : M Disk unit :=
  _ ← fix_state_machine;
  _ ← create_packet_codec_h;
  _ ← phase2_fix_packet_codec_c;
  _ ← create_impairment_c;
  create_impairment_h.

(** ** batch1_fixes.py *)

Definition fix_dropout_protocol : M Disk unit :=
  write_text dropout_protocol_path (unescape dropout_protocol_batch1).
Definition fix_packet_codec_h : M Disk unit := write_text codec_h_path (unescape codec_h_batch1).
Definition batch1_fix_packet_codec_c : M Disk unit := write_text codec_c_path (unescape codec_c_batch1).

Definition batch1_fixes : M Disk unit :=
  _ ← fix_dropout_protocol;
  _ ← batch1_fix_protocol_bridge;
  _ ← fix_packet_codec_h;
  batch1_fix_packet_codec_c.

(** ** batch2_fixes.py *)

Definition fix_kem_adapter : M Disk unit := write_text kem_adapter_path (unescape kem_adapter_batch2).

Definition batch2_fixes : M Disk unit :=
  _ ← create_mock_client;
  fix_kem_adapter.

(** ** batch3_fixes.py *)

Definition fix_stream_aggregator_c : M Disk unit :=
  write_text stream_aggregator_path (unescape aggregator_batch3).
Definition fix_kem_adapter_h : M Disk unit := write_text kem_adapter_h_path (unescape kem_adapter_h_batch3).
Definition fix_dma_transport_c : M Disk unit := write_text dma_transport_path (unescape dma_transport_batch3).

Definition batch3_fixes : M Disk unit :=
  _ ← fix_stream_aggregator_c;
  _ ← batch3_fix_protocol_bridge;
  _ ← batch3_fix_kem_adapter_c;
  _ ← fix_kem_adapter_h;
  _ ← fix_dma_transport_c;
  batch3_create_renode_script.

(** ** batch4_fixes.py *)

Definition create_telemetry_header : M Disk unit :=
  _ ← makedirs (dirname telemetry_h_path);
  write_text telemetry_h_path (unescape telemetry_h_batch4).
Definition create_telemetry_c : M Disk unit := write_text telemetry_c_path (unescape telemetry_c_batch4).
Definition modify_main_c : M Disk unit := write_text main_path (unescape main_batch4).

Definition batch4_fixes : M Disk unit :=
  _ ← create_telemetry_header;
  _ ← create_telemetry_c;
  _ ← modify_main_c;
  batch4_create_renode_script.

(** ** apply_batch3.py

    Part 3 reads kem_adapter.c and does not use it; part 4 only reads
    dma_transport.c. *)

Definition apply_batch3_kem_adapter : M Disk unit :=
  _ ← read_text kem_adapter_path;
  write_text kem_adapter_path (unescape kem_adapter_apply3).

Definition apply_batch3 : M Disk unit :=
  _ ← apply_batch3_stream_aggregator;
  _ ← apply_batch3_protocol_bridge;
  _ ← apply_batch3_kem_adapter;
  _ ← read_text dma_transport_path;
  apply_batch3_resc.

(** ** apply_batch4.py *)

Definition files_to_write : list (string * string) := [
  (stm32_path, unescape stm32_content);
  (esp32_path, unescape esp32_content);
  (transport_h_path, unescape transport_h_content)].

Definition apply_batch4 : M Disk unit :=
  for_each files_to_write (fun e => write_text (fst e) (snd e)).

(** ** integrate_pqm4.py *)

Definition modify_kem_adapter_h : M Disk unit := write_text kem_adapter_h_path (unescape kem_adapter_h_pqm4).
Definition modify_kem_adapter_c : M Disk unit := write_text kem_adapter_path (unescape kem_adapter_c_pqm4).

Definition integrate_pqm4 : M Disk unit :=
  _ ← modify_platformio_ini;
  _ ← modify_kem_adapter_h;
  modify_kem_adapter_c.

(** ** create_phase4.py *)

Definition create_baselines_py : M Disk unit := write_text baselines_path (unescape baselines_phase4).
Definition create_metrics_logger : M Disk unit := write_text metrics_logger_path (unescape metrics_logger_phase4).
Definition create_run_benchmarks : M Disk unit := write_text run_benchmarks_path (unescape run_benchmarks_phase4).

Definition create_phase4 : M Disk unit :=
  _ ← makedirs (dirname baselines_path);
  _ ← create_baselines_py;
  _ ← create_metrics_logger;
  create_run_benchmarks.
End Scripts.
