(* ===== verification/ScriptFacts.v ===== *)
(** * What the file-replacing scripts leave behind

    What a sequence of scripts makes of a tree, which of the texts they write
    arrive as they were meant, and which order the scripts that touch
    kem_adapter.c need. *)

From Stdlib Require Import ZArith Lia Ascii.
From stdpp Require Import prelude strings gmap.
From S2P Require Import Prelude Text PatchTexts CTexts PyTexts Patches PatchFacts Scripts.
#[local] Open Scope string_scope.

(** ** The texts *)

(** The files that phase2_fixes.py, batch1_fixes.py to batch4_fixes.py,
    apply_batch3.py, apply_batch4.py, integrate_pqm4.py, create_phase4.py and
    apply_final_fixes.py write whole, with their texts; phase3_fixes.py,
    update_task5.py and create_tests.py write others. *)
Definition generated : list (string * string) := [
  ("phase2_fixes: state_machine.c", unescape state_machine_phase2);
  ("phase2_fixes: packet_codec.h", unescape codec_h_phase2);
  ("phase2_fixes: packet_codec.c", unescape codec_c_phase2);
  ("phase2_fixes: impairment.c", unescape impairment_c_phase2);
  ("phase2_fixes: impairment.h", unescape impairment_h_phase2);
  ("batch1_fixes: dropout_protocol.c", unescape dropout_protocol_batch1);
  ("batch1_fixes: packet_codec.h", unescape codec_h_batch1);
  ("batch1_fixes: packet_codec.c", unescape codec_c_batch1);
  ("batch2_fixes: mock_client.py", unescape mock_client_text);
  ("batch2_fixes: kem_adapter.c", unescape kem_adapter_batch2);
  ("batch3_fixes: stream_aggregator.c", unescape aggregator_batch3);
  ("batch3_fixes: kem_adapter.c", unescape kem_adapter_text);
  ("batch3_fixes: kem_adapter.h", unescape kem_adapter_h_batch3);
  ("batch3_fixes: dma_transport.c", unescape dma_transport_batch3);
  ("batch3_fixes: multi_node.resc", unescape resc_batch3);
  ("batch4_fixes: telemetry.h", unescape telemetry_h_batch4);
  ("batch4_fixes: telemetry.c", unescape telemetry_c_batch4);
  ("batch4_fixes: main.c", unescape main_batch4);
  ("batch4_fixes: multi_node.resc", unescape resc_batch4);
  ("apply_batch3: kem_adapter.c", unescape kem_adapter_apply3);
  ("apply_batch3: multi_node.resc", unescape resc_apply3);
  ("apply_batch4: dma_transport_stm32.c", unescape stm32_content);
  ("apply_batch4: dma_transport_esp32.c", unescape esp32_content);
  ("apply_batch4: transport.h", unescape transport_h_content);
  ("integrate_pqm4: kem_adapter.h", unescape kem_adapter_h_pqm4);
  ("integrate_pqm4: kem_adapter.c", unescape kem_adapter_c_pqm4);
  ("create_phase4: baselines.py", unescape baselines_phase4);
  ("create_phase4: metrics_logger.py", unescape metrics_logger_phase4);
  ("create_phase4: run_benchmarks.py", unescape run_benchmarks_phase4);
  ("apply_final_fixes: run_all_experiments.py", unescape run_all_experiments_text)].

(** Printable ASCII and line ends only. *)
Fixpoint printable (s : string) : bool :=
  match s with
  | EmptyString => true
  | String c s' =>
      let n := N_of_ascii c in
      (Ascii.eqb c LF || ((32 <=? n)%N && (n <? 127)%N)) && printable s'
  end.

(** No control characters, no string cut by a line break. *)
Definition intact (text : string) : bool := printable text && (odd_quote_lines false text =? 0)%nat.

(** The texts that do not arrive as they were meant to. *)
Definition damaged : list string :=
  fst <$> List.filter (fun e => negb (intact (snd e))) generated.

(** Which generated files are damaged.  Of the thirty texts of these scripts,
    exactly three do not arrive as their literals have them, all for an
    undoubled backslash: [mock_client.py] of batch2_fixes.py holds a NUL
    character (from [b"\x00"]), the Renode script of batch4_fixes.py holds a
    backspace and a form feed (from [\b] and [\f] in a path), and in
    [run_all_experiments.py] of apply_final_fixes.py five strings are cut in two
    by a line break (from [\n]), although in the literal no line has an odd
    number of quotes.  All others consist of printable ASCII and line ends and
    have no string cut by a line break. *)
Example three_texts_damaged :
  damaged = ["batch2_fixes: mock_client.py"; "batch4_fixes: multi_node.resc";
             "apply_final_fixes: run_all_experiments.py"] /\
  count (String NUL "") (unescape mock_client_text) = 1%nat /\
  (has_char BS (unescape resc_batch4) && has_char FF (unescape resc_batch4)) = true /\
  odd_quote_lines false (unescape run_all_experiments_text) = 10%nat /\
  odd_quote_lines false run_all_experiments_text = 0%nat.
Proof. do 4 (split; [vm_compute; reflexivity|]). vm_compute. reflexivity. Qed.

(** ** Sequences of scripts *)

(** What one statement does to the disk. *)
Inductive change : Type :=
  | Write (path text : string)
  | Make (folder : string)
  | Edit (path : string) (edit : string -> string).

Section Changes.
Context {P : Platform}.

Definition effect (c : change) (d : Disk) : Disk :=
  match c with
  | Write path text => set_file path (to_disk linesep text) d
  | Make folder => {| files := files d; folders := list_to_set (folder :: ancestors folder) ∪ folders d |}
  | Edit path edit =>
      {| files := alter (fun content => to_disk linesep (edit (from_disk false content))) path (files d);
         folders := folders d |}
  end.

Definition effects (cs : list change) (d : Disk) : Disk := fold_left (fun d c => effect c d) cs d.

(** Files that are read exist, folders that are written to exist. *)
Definition possible (d : Disk) (c : change) : Prop :=
  match c with
  | Write path _ => dirname path ∈ folders d
  | Make _ => True
  | Edit path _ => is_Some (files d !! path) /\ dirname path ∈ folders d
  end.

Lemma effect_keeps c d path : is_Some (files d !! path) -> is_Some (files (effect c d) !! path).
Proof.
  intros H. destruct c as [p t|f|p f]; cbn; try done.
  - rewrite lookup_insert. by case_decide.
  - rewrite lookup_alter. case_decide; [|done]. by subst; rewrite fmap_is_Some.
Qed.

Lemma possible_effect c c' d : possible d c' -> possible (effect c d) c'.
Proof.
  assert (Hf : forall f, f ∈ folders d -> f ∈ folders (effect c d)) by (intros f; destruct c; simpl; set_solver).
  destruct c' as [p t|f|p f]; cbn; auto using effect_keeps. intros []. auto using effect_keeps.
Qed.

(** What is read in text mode is text in the platform's encoding at the time. *)
Fixpoint readable (cs : list change) (d : Disk) : Prop :=
  match cs with
  | [] => True
  | c :: cs' =>
      match c with
      | Edit path _ => forall content, files d !! path = Some content -> decodable content = true
      | Write _ _ | Make _ => True
      end /\ readable cs' (effect c d)
  end.

Lemma effects_app cs cs' d : effects (cs ++ cs') d = effects cs' (effects cs d).
Proof. apply fold_left_app. Qed.

Lemma readable_app cs cs' d : readable (cs ++ cs') d <-> readable cs d /\ readable cs' (effects cs d).
Proof.
  revert d. induction cs as [|c cs IH]; intros d; cbn [app readable]; [by split; [|intros []]|].
  rewrite IH. change (effects (c :: cs) d) with (effects cs (effect c d)). tauto.
Qed.

(** Nothing to read. *)
Definition writes_only (cs : list change) : bool :=
  forallb (fun c => match c with Write _ _ | Make _ => true | _ => false end) cs.

Lemma writes_readable cs d : writes_only cs = true -> readable cs d.
Proof.
  revert d. induction cs as [|c cs IH]; intros d; cbn [writes_only forallb readable]; [done|].
  intros [Hc Hcs]%andb_true_iff. destruct c; try done; (split; [done|by apply IH]).
Qed.

(** A script that makes these changes, wherever it can and can read what it
    edits, and raises nothing. *)
Definition performs (m : M Disk unit) (cs : list change) : Prop :=
  forall d, Forall (possible d) cs -> readable cs d -> m d = (Ok tt, effects cs d).

(** A script that stops after these changes, at an edit of a file it cannot
    decode. *)
Definition stops (m : M Disk unit) (cs : list change) (path : string) : Prop :=
  forall d content, Forall (possible d) cs -> readable cs d -> files (effects cs d) !! path = Some content ->
    decodable content = false -> m d = (Err UnicodeDecodeError, effects cs d).

Lemma possible_effects cs c' d : possible d c' -> possible (effects cs d) c'.
Proof.
  revert d. induction cs as [|c cs IH]; intros d H; [done|]. apply (IH (effect c d)). by apply possible_effect.
Qed.

Lemma performs_bind m m' cs cs' :
  performs m cs -> performs m' cs' -> performs (_ ← m; m') (cs ++ cs').
Proof.
  intros H H' d [Hc Hc']%Forall_app [Hr Hr']%readable_app. rewrite (M_bind_ok _ _ _ _ _ (H d Hc Hr)), effects_app.
  apply H'; [|done]. eapply Forall_impl; [exact Hc'|]. intros x. apply possible_effects.
Qed.

Lemma performs_write path text : performs (write_text path text) [Write path text].
Proof. intros d [Hd _]%Forall_cons _. by apply write_text_run. Qed.

Lemma performs_make folder : performs (makedirs folder) [Make folder].
Proof. by intros d _ _. Qed.

Lemma performs_edit path edit : performs (edit_text path edit) [Edit path edit].
Proof.
  intros d [[[content Hf] Hd] _]%Forall_cons [Hdec _]. rewrite (edit_text_run _ _ content) by (by split || by apply Hdec).
  unfold effects, set_file. cbn [fold_left effect]. f_equal. f_equal. apply map_eq. intros p. rewrite lookup_insert, lookup_alter.
  case_decide; [subst|done]. by rewrite Hf.
Qed.

Lemma stops_edit path edit : stops (edit_text path edit) [] path.
Proof.
  intros d content _ _ Hf Hd. cbn [effects fold_left] in *. unfold edit_text. apply M_bind_err. unfold read_text.
  assert (read_bytes path d = (Ok content, d)) as Hr.
  { unfold read_bytes. rewrite (M_bind_ok _ _ d d d) by done. by rewrite Hf. }
  rewrite (M_bind_ok _ _ _ _ _ Hr). by rewrite Hd.
Qed.

Lemma stops_later m m' cs cs' path : performs m cs -> stops m' cs' path -> stops (_ ← m; m') (cs ++ cs') path.
Proof.
  intros H H' d content [Hc Hc']%Forall_app [Hr Hr']%readable_app. rewrite effects_app. intros Hf Hd.
  rewrite (M_bind_ok _ _ _ _ _ (H d Hc Hr)). apply (H' _ content); [|done..].
  eapply Forall_impl; [exact Hc'|]. intros x. apply possible_effects.
Qed.

Lemma stops_now m m' cs path : stops m cs path -> stops (_ ← m; m') cs path.
Proof. intros H d content Hc Hr Hf Hd. apply M_bind_err. by apply (H d content). Qed.

(** ** The last writer of a file *)

Definition touches (path : string) (c : change) : bool :=
  match c with
  | Write p _ | Edit p _ => String.eqb p path
  | Make _ => false
  end.

Lemma untouched path cs d :
  forallb (fun c => negb (touches path c)) cs = true -> files (effects cs d) !! path = files d !! path.
Proof.
  revert d. induction cs as [|c cs IH]; intros d; [done|]. cbn [forallb]. intros [Hc Hcs]%andb_true_iff.
  unfold effects. cbn [fold_left]. fold (effects cs (effect c d)). rewrite IH by done.
  destruct c as [p t|f|p f]; cbn in *; try done.
  - apply lookup_insert_ne. intros ->. by rewrite String.eqb_refl in Hc.
  - apply lookup_alter_ne. intros ->. by rewrite String.eqb_refl in Hc.
Qed.

Fixpoint last_text (path : string) (cs : list change) : option string :=
  match cs with
  | [] => None
  | c :: cs' =>
      if forallb (fun c => negb (touches path c)) cs'
      then match c with Write p text => if String.eqb p path then Some text else None | _ => None end
      else last_text path cs'
  end.

Lemma last_text_wins path text cs d :
  last_text path cs = Some text -> files (effects cs d) !! path = Some (to_disk linesep text).
Proof.
  revert d. induction cs as [|c cs IH]; intros d; [done|]. cbn [last_text].
  destruct (forallb _ cs) eqn:E.
  - destruct c as [p t| |]; try done. destruct (String.eqb_spec p path) as [->|]; [|done].
    intros [= ->]. unfold effects. cbn [fold_left]. fold (effects cs (effect (Write path text) d)).
    rewrite untouched by done. apply set_file_get.
  - intros H. by apply IH.
Qed.
End Changes.

(** ** The batches *)

(** What each script does, statement by statement. *)
Definition phase2_changes : list change := [
  Write state_machine_path (unescape state_machine_phase2);
  Write codec_h_path (unescape codec_h_phase2);
  Write codec_c_path (unescape codec_c_phase2);
  Write impairment_c_path (unescape impairment_c_phase2);
  Write impairment_h_path (unescape impairment_h_phase2)].

Definition batch1_changes : list change := [
  Write dropout_protocol_path (unescape dropout_protocol_batch1);
  Edit bridge_path batch1_bridge_edit;
  Write codec_h_path (unescape codec_h_batch1);
  Write codec_c_path (unescape codec_c_batch1)].

Definition batch2_changes : list change := [
  Write mock_client_path (unescape mock_client_text);
  Write kem_adapter_path (unescape kem_adapter_batch2)].

Definition batch3_changes : list change := [
  Write stream_aggregator_path (unescape aggregator_batch3);
  Edit bridge_path batch3_bridge_edit;
  Write kem_adapter_path (unescape kem_adapter_text);
  Write kem_adapter_h_path (unescape kem_adapter_h_batch3);
  Write dma_transport_path (unescape dma_transport_batch3);
  Make (dirname resc_path);
  Write resc_path (unescape resc_batch3)].

Definition batch4_changes : list change := [
  Make (dirname telemetry_h_path);
  Write telemetry_h_path (unescape telemetry_h_batch4);
  Write telemetry_c_path (unescape telemetry_c_batch4);
  Write main_path (unescape main_batch4);
  Make (dirname resc_path);
  Write resc_path (unescape resc_batch4)].

Definition batch_changes : list change :=
  (phase2_changes ++ batch1_changes ++ batch2_changes ++ batch3_changes ++ batch4_changes)%list.

(** What is done before the first edit of the bridge, between the two and after
    them. *)
Definition until_first_edit : list change :=
  (phase2_changes ++ [Write dropout_protocol_path (unescape dropout_protocol_batch1)])%list.
Definition between_edits : list change :=
  ([Write codec_h_path (unescape codec_h_batch1); Write codec_c_path (unescape codec_c_batch1)] ++
   batch2_changes ++ [Write stream_aggregator_path (unescape aggregator_batch3)])%list.
Definition after_edits : list change := (drop 2 batch3_changes ++ batch4_changes)%list.
Definition until_second_edit : list change :=
  (until_first_edit ++ Edit bridge_path batch1_bridge_edit :: between_edits)%list.

Lemma batch_changes_split :
  batch_changes = (until_second_edit ++ Edit bridge_path batch3_bridge_edit :: after_edits)%list.
Proof. reflexivity. Qed.

(** The files they leave, each with the text of its last writer. *)
Definition batch_tree : list (string * string) := [
  (state_machine_path, unescape state_machine_phase2);
  (impairment_c_path, unescape impairment_c_phase2);
  (impairment_h_path, unescape impairment_h_phase2);
  (dropout_protocol_path, unescape dropout_protocol_batch1);
  (codec_h_path, unescape codec_h_batch1);
  (codec_c_path, unescape codec_c_batch1);
  (mock_client_path, unescape mock_client_text);
  (stream_aggregator_path, unescape aggregator_batch3);
  (kem_adapter_path, unescape kem_adapter_text);
  (kem_adapter_h_path, unescape kem_adapter_h_batch3);
  (dma_transport_path, unescape dma_transport_batch3);
  (telemetry_h_path, unescape telemetry_h_batch4);
  (telemetry_c_path, unescape telemetry_c_batch4);
  (main_path, unescape main_batch4);
  (resc_path, unescape resc_batch4)].

Definition batch_paths : list string := bridge_path :: (fst <$> batch_tree).

(** The directories of the tree. *)
Definition tree_folders : list string := [
  "C:\DROP\src\federated"; "C:\DROP\src\network"; "C:\DROP\src\pqc_engine"; "C:\DROP\src\core_rtos";
  "C:\DROP\host_server"; "C:\DROP\emulation"; "C:\DROP\experiments"].

Definition run_batches {P : Platform} : M Disk unit :=
  _ ← phase2_fixes; _ ← batch1_fixes; _ ← batch2_fixes; _ ← batch3_fixes; batch4_fixes.

Section Batches.
Context {P : Platform} {Laws : PlatformLaws P}.

Ltac performs :=
  lazymatch goal with
  | |- performs (mbind _ _) _ =>
      first [eapply (performs_bind _ _ [_] _); [performs|performs]
            |eapply (performs_bind _ _ [_; _] _); [performs|performs]]
  | |- performs (write_text _ _) _ => apply performs_write
  | |- performs (makedirs _) _ => apply performs_make
  | |- performs (edit_text _ _) _ => apply performs_edit
  | |- performs (?script _) _ => unfold script; performs
  end.

Lemma batches_perform : performs run_batches batch_changes.
Proof. unfold run_batches, batch_changes. repeat apply performs_bind; performs. Qed.

Lemma batches_stop_first : stops run_batches until_first_edit bridge_path.
Proof.
  unfold run_batches, until_first_edit. apply stops_later; [performs|]. apply stops_now. unfold batch1_fixes.
  apply (stops_later _ _ [_] []); [performs|]. apply stops_now, stops_edit.
Qed.

Lemma batches_stop_second : stops run_batches until_second_edit bridge_path.
Proof.
  change until_second_edit with
    (phase2_changes ++ batch1_changes ++ batch2_changes ++ [Write stream_aggregator_path (unescape aggregator_batch3)])%list.
  unfold run_batches. do 3 (apply stops_later; [performs|]). apply stops_now. unfold batch3_fixes.
  apply (stops_later _ _ [_] []); [performs|]. apply stops_now, stops_edit.
Qed.

(** A file read in text mode, edited, and written back. *)
Definition rewritten (edit : string -> string) (content : string) : string :=
  to_disk linesep (edit (from_disk false content)).

Lemma effects_edit path edit cs d content :
  files d !! path = Some content -> forallb (fun c => negb (touches path c)) cs = true ->
  files (effects (Edit path edit :: cs) d) !! path = Some (rewritten edit content).
Proof.
  intros Hf Hcs. change (effects (Edit path edit :: cs) d) with (effects cs (effect (Edit path edit) d)).
  rewrite untouched by done. cbn [effect files]. by rewrite lookup_alter_eq, Hf.
Qed.

Lemma batches_possible d :
  Forall (fun folder => folder ∈ folders d) tree_folders -> is_Some (files d !! bridge_path) ->
  Forall (possible d) batch_changes.
Proof.
  intros Hf Hb. rewrite Forall_forall in Hf. apply Forall_forall. intros c Hc.
  assert (Hall : forallb (fun c => match c with
    | Write p _ => bool_decide (dirname p ∈ tree_folders)
    | Edit p _ => bool_decide (dirname p ∈ tree_folders) && String.eqb p bridge_path
    | Make _ => true end) batch_changes = true) by (vm_compute; reflexivity).
  rewrite forallb_forall in Hall. specialize (Hall c (proj1 (list_elem_of_In _ _) Hc)).
  clear Hc. destruct c as [p t|f|p f]; cbn [possible] in *; try done.
  - apply Hf. by apply bool_decide_eq_true in Hall.
  - apply andb_true_iff in Hall as [Hp Hbr].
    apply bool_decide_eq_true in Hp. apply String.eqb_eq in Hbr. subst p.
    split; [exact Hb|apply Hf; exact Hp].
Qed.

Lemma batches_texts d :
  Forall (fun e => files (effects batch_changes d) !! fst e = Some (to_disk linesep (snd e))) batch_tree.
Proof.
  apply Forall_forall. intros e He. apply last_text_wins.
  assert (Hall : forallb (fun e => match last_text (fst e) batch_changes with
    | Some text => String.eqb text (snd e) | None => false end) batch_tree = true) by (vm_compute; reflexivity).
  rewrite forallb_forall in Hall. specialize (Hall e (proj1 (list_elem_of_In _ _) He)). clear He.
  destruct (last_text _ _) as [text|]; [|done]. by apply String.eqb_eq in Hall as ->.
Qed.

Lemma batches_keep_others path d :
  path ∉ batch_paths -> files (effects batch_changes d) !! path = files d !! path.
Proof.
  intros Hp. apply untouched. apply forallb_forall. intros c Hc. apply negb_true_iff.
  destruct (touches path c) eqn:E; [|done]. destruct Hp.
  assert (Hall : forallb (fun c => match c with
    | Write p _ | Edit p _ => bool_decide (p ∈ batch_paths) | _ => true end)
    batch_changes = true) by (vm_compute; reflexivity).
  rewrite forallb_forall in Hall. specialize (Hall c Hc).
  destruct c; try done; apply String.eqb_eq in E as <-; by apply bool_decide_eq_true in Hall.
Qed.

(** The bridge at its two edits. *)
Lemma bridge_at_first d : files (effects until_first_edit d) !! bridge_path = files d !! bridge_path.
Proof. apply untouched. vm_compute. reflexivity. Qed.

Lemma bridge_at_second d bridge :
  files d !! bridge_path = Some bridge ->
  files (effects until_second_edit d) !! bridge_path = Some (rewritten batch1_bridge_edit bridge).
Proof.
  intros Hb. unfold until_second_edit. rewrite effects_app. apply effects_edit; [by rewrite bridge_at_first|].
  vm_compute. reflexivity.
Qed.

Lemma readable_second d bridge :
  files d !! bridge_path = Some bridge -> decodable bridge = true -> readable until_second_edit d.
Proof.
  intros Hb Hd. unfold until_second_edit. apply readable_app. split; [by apply writes_readable|].
  split; [|by apply writes_readable]. intros content. rewrite bridge_at_first, Hb. by intros [= <-].
Qed.

(** C38: the batches on a tree.  On a disk that has the tree's directories and
    the bridge, phase2_fixes.py and the four batches, run in the order of their
    numbers, read one file, the bridge, in text mode, twice.  If the platform's
    encoding decodes it both times, they raise nothing; each of the fifteen
    files they write has the text of the script that wrote it last, with the
    platform's line ends, whatever was there before; the bridge has had the two
    edits; and no other file is changed.  If the bridge does not decode, the run
    ends with UnicodeDecodeError in batch1_fixes.py, after phase2_fixes.py's
    files and dropout_protocol.c; if it does not decode once it was edited, in
    batch3_fixes.py, after stream_aggregator.c. *)
Theorem batches_rebuild_tree d bridge :
  Forall (fun folder => folder ∈ folders d) tree_folders -> files d !! bridge_path = Some bridge ->
  let bridge1 := rewritten batch1_bridge_edit bridge in
  (decodable bridge = true -> decodable bridge1 = true ->
   exists d', run_batches d = (Ok tt, d') /\
     Forall (fun e => files d' !! fst e = Some (to_disk linesep (snd e))) batch_tree /\
     files d' !! bridge_path = Some (rewritten batch3_bridge_edit bridge1) /\
     forall path, path ∉ batch_paths -> files d' !! path = files d !! path) /\
  (decodable bridge = false -> run_batches d = (Err UnicodeDecodeError, effects until_first_edit d)) /\
  (decodable bridge = true -> decodable bridge1 = false ->
   run_batches d = (Err UnicodeDecodeError, effects until_second_edit d)).
Proof.
  intros Hf Hb bridge1. pose proof (batches_possible d Hf (mk_is_Some _ _ Hb)) as Hposs.
  pose proof (bridge_at_second d bridge Hb) as Hb1. rewrite batch_changes_split in Hposs.
  apply Forall_app in Hposs as Hposs'. destruct Hposs' as [Hposs2 _]. split; [|split].
  - intros Hd Hd1. exists (effects batch_changes d). split; [|split; [apply batches_texts|split; [|intros path; apply batches_keep_others]]].
    + apply batches_perform; rewrite batch_changes_split; [done|]. apply readable_app.
      split; [by apply (readable_second d bridge)|]. split; [|by apply writes_readable].
      intros content. rewrite Hb1. by intros [= <-].
    + rewrite batch_changes_split, effects_app. apply effects_edit; [exact Hb1|]. vm_compute. reflexivity.
  - intros Hd. apply (batches_stop_first d bridge); [|by apply writes_readable|by rewrite bridge_at_first|done].
    unfold until_second_edit in Hposs2. apply Forall_app in Hposs2 as [H _]. exact H.
  - intros Hd Hd1. exact (batches_stop_second d bridge1 Hposs2 (readable_second d bridge Hb Hd) Hb1 Hd1).
Qed.

(** ** stream_aggregator.c *)

(** On the file batch3_fixes.py writes, the edits of apply_batch3.py change
    nothing. *)
Lemma stream_edits_idle :
  apply_batch3_stream_edits (unescape aggregator_batch3) = unescape aggregator_batch3.
Proof. vm_compute. reflexivity. Qed.

(** ** The order of the scripts that write kem_adapter.c *)

(** The versions of the file, by the script that writes them. *)
Definition kem_adapter_versions : list string := [
  unescape kem_adapter_batch2; unescape kem_adapter_text; unescape kem_adapter_apply3;
  unescape kem_adapter_c_pqm4].

(** How often each text that apply_batch1_fixes.py looks for is there. *)
Definition edits_found (text : string) : list nat := (fun e => count (fst e) text) <$> kem_edits.

(** apply_batch1_fixes.py edits the kem_adapter.c it finds.  In the versions of
    batch2_fixes.py, batch3_fixes.py and integrate_pqm4.py each of the seven
    texts it looks for is there exactly once; in that of apply_batch3.py, which
    calls through tables of functions, the three KEM calls are not.  Run after
    any of the four, where the encoding decodes the file before and after, the script raises nothing and makes the edits it can; after
    apply_batch3.py none of the three calls gets its workspace, and nothing
    says so. *)
Theorem workspace_edits_need_order d text :
  dirname kem_adapter_path ∈ folders d -> text ∈ kem_adapter_versions ->
  decodable (to_disk linesep text) = true -> decodable (to_disk linesep (apply_edits kem_edits text)) = true ->
  (_ ← write_text kem_adapter_path text; apply_batch1_fixes) d =
    (Ok tt, set_file kem_adapter_path (to_disk linesep (apply_edits kem_edits text)) d) /\
  (if String.eqb text (unescape kem_adapter_apply3)
   then edits_found text = [0; 0; 0; 1; 1; 1; 1]%nat /\
        contains "ws->data);" (apply_edits kem_edits text) = false
   else edits_found text = [1; 1; 1; 1; 1; 1; 1]%nat /\
        count "ws->data);" (apply_edits kem_edits text) = 3%nat).
Proof.
  intros Hd Hin Hdec1 Hdec2. split.
  - assert (Hcr : forallb (fun t => negb (has_char CR t)) kem_adapter_versions = true) by (vm_compute; reflexivity).
    rewrite forallb_forall in Hcr. specialize (Hcr text (proj1 (list_elem_of_In _ _) Hin)).
    apply negb_true_iff in Hcr. rewrite (M_bind_ok _ _ _ _ _ (write_text_run _ _ d Hd)). unfold apply_batch1_fixes.
    rewrite (M_bind_ok _ _ _ _ _ (edit_text_written _ _ text d Hd Hdec1 Hcr)).
    by rewrite (M_bind_ok _ _ _ _ _ (read_text_run _ _ _ (set_file_get _ _ _) Hdec2)).
  - assert (Hall : forallb (fun t => if String.eqb t (unescape kem_adapter_apply3)
      then bool_decide (edits_found t = [0; 0; 0; 1; 1; 1; 1]%nat) &&
           negb (contains "ws->data);" (apply_edits kem_edits t))
      else bool_decide (edits_found t = [1; 1; 1; 1; 1; 1; 1]%nat) &&
           bool_decide (count "ws->data);" (apply_edits kem_edits t) = 3%nat)) kem_adapter_versions = true)
      by (vm_compute; reflexivity).
    rewrite forallb_forall in Hall. specialize (Hall text (proj1 (list_elem_of_In _ _) Hin)). clear Hin.
    destruct (String.eqb text _); apply andb_true_iff in Hall as [H1 H2]; apply bool_decide_eq_true in H1;
      (split; [exact H1|]); [by apply negb_true_iff|by apply bool_decide_eq_true in H2].
Qed.
End Batches.

(** ** A concrete tree *)

(** A disk with the tree's directories and a one-line bridge, on Windows. *)
Definition sample_tree : Disk := {|
  files := {[ bridge_path := "DEFAULT_CHUNK_ELEMENTS = 128"; codec_h_path := "old" ]};
  folders := list_to_set tree_folders |}.

Lemma sample_tree_folders : Forall (fun folder => folder ∈ folders sample_tree) tree_folders.
Proof. apply Forall_forall. intros folder Hf. cbn [folders sample_tree]. by apply elem_of_list_to_set. Qed.

Lemma sample_tree_bridge : files sample_tree !! bridge_path = Some "DEFAULT_CHUNK_ELEMENTS = 128".
Proof. vm_compute. reflexivity. Qed.

Lemma readme_untouched : "C:\DROP\README.md" ∉ batch_paths.
Proof.
  assert (H : forallb (fun p => negb (String.eqb "C:\DROP\README.md" p)) batch_paths = true)
    by (vm_compute; reflexivity).
  intros Hin. rewrite forallb_forall in H. specialize (H _ (proj1 (list_elem_of_In _ _) Hin)).
  by rewrite String.eqb_refl in H.
Qed.

Lemma tree_file {P : Platform} path text d :
  Forall (fun e => files d !! fst e = Some (to_disk linesep (snd e))) batch_tree ->
  (path, text) ∈ batch_tree -> files d !! path = Some (to_disk linesep text).
Proof. rewrite Forall_forall. intros H Hin. exact (H _ Hin). Qed.

Lemma codec_h_in_tree : (codec_h_path, unescape codec_h_batch1) ∈ batch_tree.
Proof. unfold batch_tree. do 4 right. left. Qed.

Lemma batches_rebuild_tree_witness :
  exists d', run_batches sample_tree = (Ok tt, d') /\
    files d' !! codec_h_path = Some (to_disk linesep (unescape codec_h_batch1)) /\
    files d' !! "C:\DROP\README.md" = None.
Proof.
  destruct (proj1 (@batches_rebuild_tree windows sample_tree _ sample_tree_folders sample_tree_bridge)
    eq_refl eq_refl) as (d' & Hrun & Htree & _ & Hrest).
  exists d'. split; [exact Hrun|]. split.
  - exact (tree_file _ _ _ Htree codec_h_in_tree).
  - rewrite (Hrest _ readme_untouched). vm_compute. reflexivity.
Defined.
