(* ===== verification/KeySetup.v ===== *)
(** * What key setup and recovery achieve

    [_setup_keys_and_masks] touches key material only, gives every client with
    a public key a shared secret, and derives a pairwise seed for every pair;
    its pairwise loops never have anything to do.  [_trigger_recovery] cannot
    recover anything. *)

From Stdlib Require Import ZArith Lia.
From stdpp Require Import prelude.
From S2P Require Import Prelude PyDict PyBytes Field Lagrange Shamir Kdf Crypto Masks Wire State.
From S2P Require Import Aggregate FedAvg Keys Bridge Frame Invariant.

(** ** Frames *)

(** Only the shared secret (if it was missing) and the pairwise seeds differ. *)
Definition client_frame (c0 c : ClientState) : Prop :=
  client_id c = client_id c0 /\ client_round_id c = client_round_id c0 /\
  public_key c = public_key c0 /\ received_chunks c = received_chunks c0 /\
  completed c = completed c0 /\ sample_count c = sample_count c0 /\
  shamir_shares c = shamir_shares c0 /\
  (truthy (shared_secret c0) = true -> shared_secret c = shared_secret c0).

Definition entry_frame (p0 p : Z * ClientState) : Prop := fst p = fst p0 /\ client_frame (snd p0) (snd p).

(** Everything about the round but its key material and its stage. *)
Record round_frame (r0 r : RoundState) : Prop := {
  rf_id : round_id r = round_id r0;
  rf_expected : expected_clients r = expected_clients r0;
  rf_threshold : threshold r = threshold r0;
  rf_chunk_size : chunk_size r = chunk_size r0;
  rf_model_size : model_size r = model_size r0;
  rf_dropouts : dropout_clients r = dropout_clients r0;
  rf_unmasked : unmasked_chunks r = unmasked_chunks r0;
  rf_clients : Forall2 entry_frame (clients r0) (clients r);
}.

(** The connections: writes are appended, nothing else changes. *)
Record net_frame (n0 n : Net) : Prop := {
  nf_writers : client_writers n = client_writers n0;
  nf_closing : closing n = closing n0;
  nf_lost : lost n = lost n0;
  nf_wire : exists w, wire n = wire n0 ++ w;
}.

#[export] Instance client_frame_preorder : PreOrder client_frame.
Proof.
  split.
  - by intros c.
  - intros a b c (?&?&?&?&?&?&?&Hs) (?&?&?&?&?&?&?&Hs').
    repeat (split; [congruence|]). intros Ht. pose proof (Hs Ht) as E. rewrite Hs'; [done|].
    by rewrite E.
Qed.

#[export] Instance entry_frame_preorder : PreOrder entry_frame.
Proof.
  split; [by intros [k c]|].
  intros a b c [H1 H2] [H3 H4]. split; [congruence|by transitivity (snd b)].
Qed.

#[export] Instance round_frame_preorder : PreOrder round_frame.
Proof.
  split.
  - intros r. by split.
  - intros a b c [] []. split; try congruence. by transitivity (clients b).
Qed.

#[export] Instance net_frame_preorder : PreOrder net_frame.
Proof.
  split.
  - intros n. split; try done. exists []. by rewrite app_nil_r.
  - intros a b c [???[w1 H1]] [???[w2 H2]]. split; try congruence.
    exists (w1 ++ w2). by rewrite H2, H1, app_assoc.
Qed.

Lemma entries_keys l0 l : Forall2 entry_frame l0 l -> dict_keys l = dict_keys l0.
Proof.
  unfold dict_keys. induction 1 as [|p0 p l0 l [Hk _] Hl IH]; [done|].
  rewrite !fmap_cons. by rewrite Hk, IH.
Qed.

Lemma entries_get l0 l k c :
  Forall2 entry_frame l0 l -> dict_get k l = Some c ->
  exists c0, dict_get k l0 = Some c0 /\ client_frame c0 c.
Proof.
  induction 1 as [|[k0 c0] [k1 c1] l0 l [Hk Hc] Hl IH]; [done|].
  cbn [dict_get fst snd] in *. subst k1. case_decide; [|done]. intros [= <-]. by exists c0.
Qed.

(** Replacing one entry by a later version of it. *)
Lemma entries_set l k c c' :
  dict_get k l = Some c -> client_frame c c' -> Forall2 entry_frame l (dict_set k c' l).
Proof.
  induction l as [|[k1 c1] l IH]; [done|]. cbn [dict_get dict_set]. case_decide as Hk.
  - intros [= ->] Hc. constructor; [by subst|]. reflexivity.
  - intros Hg Hc. constructor; [reflexivity|]. by apply IH.
Qed.

Lemma frame_set_client r k c c' :
  dict_get k (clients r) = Some c -> client_frame c c' ->
  round_frame r (set_clients (dict_set k c' (clients r)) r).
Proof. intros Hk Hc. destruct r. split; try done. simpl in *. by eapply entries_set. Qed.

Lemma frame_keys r0 r : round_frame r0 r -> dict_keys (clients r) = dict_keys (clients r0).
Proof. intros H. by apply entries_keys, rf_clients. Qed.

Lemma frame_get r0 r k c :
  round_frame r0 r -> dict_get k (clients r) = Some c ->
  exists c0, dict_get k (clients r0) = Some c0 /\ client_frame c0 c.
Proof. intros H. apply entries_get, (rf_clients _ _ H). Qed.

(** In particular what an aggregation reads stays. *)
Lemma frame_same_data r0 r : round_frame r0 r -> same_data r0 r.
Proof.
  intros []. split; [by split|done|]. eapply Forall2_impl; [done|].
  intros [k0 c0] [k c] [Hk (?&?&?&?&?&?&?)]. split; [done|]. by split.
Qed.

(** ** One encapsulation *)

Lemma later_pairs_elem l a b : (a, b) ∈ later_pairs l -> a ∈ l /\ b ∈ l.
Proof.
  induction l as [|x l IH]; cbn [later_pairs]; [intros H; by apply not_elem_of_nil in H|].
  intros [H|H]%elem_of_app; [|set_solver].
  apply list_elem_of_fmap in H as (y & [= -> ->] & Hy). set_solver.
Qed.

Section Setup.
Context (encapsulate : nat -> bytes -> result (bytes * bytes)).
Hypothesis encapsulate_nonempty : forall n pk ct ss,
  encapsulate n pk = Ok (ct, ss) -> truthy (Some ss) = true.
Context (rid : Z) (r0 : RoundState) (n0 : Net).
Context (Hwf : round_wf rid r0) (Hrid : 0 <= rid < 2 ^ 32).

(** Nothing goes wrong outside the bridge. *)
Definition favourable : Prop :=
  lost n0 = [] /\
  forall n pk, exists ct ss, encapsulate n pk = Ok (ct, ss) /\ Z.of_nat (length ct) < 65536.

(** The state during setup, and the state setup may stop in. *)
Definition during (s : Ctx) : Prop :=
  round_frame r0 (round s) /\ stage (round s) = stage r0 /\ net_frame n0 (net s).
Definition stopped (e : exn) (s : Ctx) : Prop := during s /\ ~ favourable.

(** A client with a public key has a shared secret. *)
Definition keyed (r : RoundState) (k : Z) : Prop :=
  forall c, dict_get k (clients r) = Some c ->
  truthy (public_key c) = true -> truthy (shared_secret c) = true.

Lemma keyed_frame r r' k : round_frame r r' -> keyed r k -> keyed r' k.
Proof.
  intros Hf Hk c Hc Hp. destruct (frame_get _ _ _ _ Hf Hc) as (c0 & Hc0 & Hcf).
  destruct Hcf as (_&_&Hpk&_&_&_&_&Hss). rewrite Hpk in Hp. pose proof (Hk c0 Hc0 Hp) as Ht.
  by rewrite (Hss Ht).
Qed.

Lemma encapsulate_to_run cid pk (s : Ctx) :
  encapsulate_to encapsulate cid pk s =
  let n1 := use_encaps (net s) in
  match encapsulate (encaps_used (net s)) pk with
  | Err e => (Err e, {| net := n1; round := round s |})
  | Ok (ct, ss) =>
      match dict_get cid (clients (round s)) with
      | None => (Err KeyError, {| net := n1; round := round s |})
      | Some c =>
          let r' := set_clients (dict_set cid (set_shared_secret ss c) (clients (round s))) (round s) in
          match build_header MSG_TYPE_KEM_CIPHERTEXT (round_id r') 0 0 (Z.of_nat (length ct)) with
          | Err e => (Err e, {| net := n1; round := r' |})
          | Ok hd =>
              match dict_get cid (client_writers n1) with
              | None => (Ok tt, {| net := n1; round := r' |})
              | Some w => write_drain w (hd ++ ct) {| net := n1; round := r' |}
              end
          end
      end
  end.
Proof.
  unfold encapsulate_to, draw_encapsulation, mbind, M_bind, lift, gets, update_net, modify.
  cbn [net round]. destruct (encapsulate (encaps_used (net s)) pk) as [[ct ss]|e]; [|done].
  rewrite update_client_run. cbn [net round fst snd].
  destruct (dict_get cid (clients (round s))) as [c|]; [|done].
  unfold the_round, gets. cbn [net round].
  destruct (build_header _ _ _ _ _); [|done]. by case_match.
Qed.

Lemma ciphertext_header_ok r len :
  round_frame r0 r -> 0 <= len < 65536 ->
  exists hd, build_header MSG_TYPE_KEM_CIPHERTEXT (round_id r) 0 0 len = Ok hd.
Proof.
  intros Hf Hlen. destruct (build_header_ok MSG_TYPE_KEM_CIPHERTEXT (round_id r) 0 0 len) as (hd & E & _);
    [|by eexists].
  rewrite (rf_id _ _ Hf), (rw_id _ _ Hwf). repeat split; lia || done.
Qed.

Lemma net_frame_use n : net_frame n0 n -> net_frame n0 (use_encaps n).
Proof. destruct n. by intros []. Qed.

Lemma net_frame_log n w d : net_frame n0 n -> net_frame n0 (log_write w d n).
Proof.
  destruct n. intros [H1 H2 H3 [l Hl]]. split; simpl in *; try done.
  exists (l ++ [(w, d)]). by rewrite Hl, app_assoc.
Qed.

Lemma frame_secret ss c :
  truthy (shared_secret c) = false -> client_frame c (set_shared_secret ss c).
Proof.
  destruct c; simpl. intros Hss. repeat (split; [done|]). simpl. by rewrite Hss.
Qed.

Lemma encapsulate_to_triple cid pk r1 c1 :
  dict_get cid (clients r1) = Some c1 -> truthy (shared_secret c1) = false ->
  triple (fun s => during s /\ round s = r1)
    (encapsulate_to encapsulate cid pk)
    (fun _ s => during s /\ round_frame r1 (round s) /\ keyed (round s) cid) stopped.
Proof.
  intros Hc Hss s [(Hf & Hst & Hn) Hr]. rewrite encapsulate_to_run. cbv zeta.
  apply net_frame_use in Hn as Hn1. rewrite Hr in *. rewrite Hc.
  destruct (encapsulate (encaps_used (net s)) pk) as [[ct ss]|e] eqn:Ee.
  2: { split; [done|]. intros [_ Hfav]. destruct (Hfav (encaps_used (net s)) pk) as (?&?&?&?). congruence. }
  set (r' := set_clients _ r1).
  assert (Hfr : round_frame r1 r') by (eapply frame_set_client; [done|by apply frame_secret]).
  assert (Hf' : round_frame r0 r') by (by transitivity r1).
  assert (Hst' : stage r' = stage r0) by (rewrite <- Hst; by destruct r1).
  assert (Hk : keyed r' cid).
  { intros c Hget _. unfold r' in Hget. destruct r1. simpl in *. rewrite dict_get_set_eq in Hget.
    injection Hget as <-. destruct c1. simpl. by eapply encapsulate_nonempty. }
  destruct (build_header _ _ _ _ _) as [hd|e] eqn:Eh.
  2: { split; [done|]. intros [_ Hfav].
       destruct (Hfav (encaps_used (net s)) pk) as (ct' & ss' & E' & Hlen).
       assert (ct' = ct) as -> by congruence.
       destruct (ciphertext_header_ok r' (Z.of_nat (length ct)) Hf' ltac:(lia)). congruence. }
  destruct (dict_get cid (client_writers (use_encaps (net s)))) as [w|]; [|done].
  rewrite write_drain_run. cbn [net round]. apply (net_frame_log _ w (hd ++ ct)) in Hn1 as Hn2.
  case_bool_decide as Hl; [|done]. split; [done|]. intros [Hlost _].
  rewrite (nf_lost _ _ Hn1), Hlost in Hl. by apply not_elem_of_nil in Hl.
Qed.

(** ** The first loop *)

Lemma get_client_known r k :
  round_frame r0 r -> k ∈ dict_keys (clients r0) -> exists c, dict_get k (clients r) = Some c.
Proof. intros Hf Hk. rewrite <- (frame_keys _ _ Hf) in Hk. by apply dict_get_is_Some in Hk as [c Hc]; exists c. Qed.

Lemma get_client_bind {B} k (f : ClientState -> M Ctx B) s c :
  dict_get k (clients (round s)) = Some c -> (get_client k ≫= f) s = f c s.
Proof. intros H. apply M_bind_ok. rewrite get_client_run. unfold dict_index. by rewrite H. Qed.

Lemma setup_client_triple cid r1 :
  cid ∈ dict_keys (clients r0) ->
  triple (fun s => during s /\ round s = r1) (setup_client encapsulate cid)
    (fun _ s => during s /\ round_frame r1 (round s) /\ keyed (round s) cid) stopped.
Proof.
  intros Hk s [Hd <-]. destruct (get_client_known _ _ (proj1 Hd) Hk) as [c Hc].
  unfold setup_client. rewrite (get_client_bind _ _ _ c Hc).
  destruct (truthy (public_key c)) eqn:Hp; cbn [andb negb].
  - destruct (truthy (shared_secret c)) eqn:Hs; cbn [negb].
    + split; [done|]. split; [done|]. intros c' Hc' _. congruence.
    + by apply (encapsulate_to_triple cid _ (round s) c).
  - split; [done|]. split; [done|]. intros c' Hc' Hp'. congruence.
Qed.

Definition all_keyed (r : RoundState) : Prop := forall k, k ∈ dict_keys (clients r0) -> keyed r k.

Lemma setup_clients_triple :
  triple during (for_each (dict_keys (clients r0)) (setup_client encapsulate))
    (fun _ s => during s /\ all_keyed (round s)) stopped.
Proof.
  eapply triple_conseq.
  - apply (triple_for_each (fun visited s => during s /\ forall k, k ∈ visited -> keyed (round s) k)).
    intros visited k rest Hl s [Hd Hv].
    pose proof (setup_client_triple k (round s) ltac:(rewrite Hl; set_solver) s (conj Hd eq_refl)) as Ht.
    destruct (setup_client encapsulate k s) as [[[]|e] s']; [|done].
    destruct Ht as (Hd' & Hf & Hk). split; [done|]. intros k' [Hk'|Hk']%elem_of_app.
    + by eapply keyed_frame; [|apply Hv].
    + by apply list_elem_of_singleton in Hk' as ->.
  - intros s Hd. split; [done|]. intros k Hk. by apply not_elem_of_nil in Hk.
  - done.
  - done.
Qed.

(** ** The pairwise loops have nothing left to do *)

Lemma for_each_quiet {B} (l : list B) (body : B -> M Ctx unit) s :
  (forall x, x ∈ l -> body x s = (Ok tt, s)) -> for_each l body s = (Ok tt, s).
Proof.
  induction l as [|x l IH]; intros H; [done|]. cbn [for_each].
  rewrite (M_bind_ok _ _ _ tt s) by (apply H; left). apply IH. intros y Hy. apply H. by right.
Qed.

Lemma setup_pair_quiet p s :
  during s -> all_keyed (round s) -> p ∈ later_pairs (dict_keys (clients r0)) ->
  setup_pair encapsulate p s = (Ok tt, s) /\ orchestrate_pair encapsulate p s = (Ok tt, s).
Proof.
  intros Hd Hk Hp. destruct p as [a b]. apply later_pairs_elem in Hp as [Ha Hb].
  destruct (get_client_known _ _ (proj1 Hd) Ha) as [ca Hca].
  destruct (get_client_known _ _ (proj1 Hd) Hb) as [cb Hcb].
  unfold setup_pair, orchestrate_pair. cbn [fst snd].
  rewrite !(get_client_bind a _ _ ca Hca), !(get_client_bind b _ _ cb Hcb).
  pose proof (Hk a Ha ca Hca) as Hka. pose proof (Hk b Hb cb Hcb) as Hkb.
  destruct (truthy (public_key ca)); cbn [negb orb andb].
  - rewrite Hka by done. destruct (truthy (public_key cb)); cbn [negb orb andb].
    + by rewrite Hkb.
    + by case_match.
  - by destruct (truthy (shared_secret ca) && truthy (shared_secret cb)).
Qed.

Lemma pairwise_loops_quiet s :
  during s -> all_keyed (round s) ->
  for_each (later_pairs (dict_keys (clients r0))) (setup_pair encapsulate) s = (Ok tt, s) /\
  orchestrate_pairwise_kem encapsulate s = (Ok tt, s).
Proof.
  intros Hd Hk. split.
  - apply for_each_quiet. intros p Hp. by apply setup_pair_quiet.
  - unfold orchestrate_pairwise_kem. rewrite (M_bind_ok _ _ _ (round s) s) by done.
    rewrite (frame_keys r0) by apply Hd. apply for_each_quiet. intros p Hp. by apply setup_pair_quiet.
Qed.


(** ** The pairwise seeds *)

(** The seed [k] ends up with for [p]: derived from [k]'s own secret. *)
Definition seeded (r : RoundState) (k p : Z) : Prop :=
  forall c peer, dict_get k (clients r) = Some c -> dict_get p (clients r) = Some peer -> p <> k ->
  truthy (shared_secret c) = true -> truthy (shared_secret peer) = true ->
  exists seed,
    derive_pairwise_mask_seed (default [] (shared_secret c)) (Z.min k p) (Z.max k p) rid = Ok seed /\
    dict_get p (pairwise_seeds c) = Some seed.

Lemma frame_seed p v c : client_frame c (set_pairwise_seed p v c).
Proof. by destruct c. Qed.

Lemma set_pairwise_secret p v c : shared_secret (set_pairwise_seed p v c) = shared_secret c.
Proof. by destruct c. Qed.

Lemma set_pairwise_get p v c q :
  dict_get q (pairwise_seeds (set_pairwise_seed p v c)) =
  if decide (p = q) then Some v else dict_get q (pairwise_seeds c).
Proof. destruct c. simpl. by rewrite dict_get_set. Qed.

(** Writing the right seed keeps the seeds that are in place and adds one. *)
Lemma seeded_set r k p c v k' p' :
  dict_get k (clients r) = Some c ->
  derive_pairwise_mask_seed (default [] (shared_secret c)) (Z.min k p) (Z.max k p) rid = Ok v ->
  seeded r k' p' \/ (k', p') = (k, p) ->
  seeded (set_clients (dict_set k (set_pairwise_seed p v c) (clients r)) r) k' p'.
Proof.
  intros Hc Hv H c1 peer Hc1 Hpeer Hne Hs1 Hs2.
  assert (Hcl : forall cls, clients (set_clients cls r) = cls) by (intros; by destruct r).
  rewrite Hcl, dict_get_set in Hc1, Hpeer.
  assert (Hpeer' : exists peer0, dict_get p' (clients r) = Some peer0 /\
                     shared_secret peer0 = shared_secret peer).
  { destruct (decide (k = p')) as [->|].
    - injection Hpeer as <-. exists c. by rewrite set_pairwise_secret.
    - by exists peer. }
  destruct Hpeer' as (peer0 & Hp0 & Hps). rewrite <- Hps in Hs2.
  destruct (decide (k = k')) as [<-|Hk].
  - injection Hc1 as <-. rewrite set_pairwise_secret in *. rewrite set_pairwise_get.
    destruct (decide (p = p')) as [<-|Hpp]; [by exists v|].
    destruct H as [H|[= ->]]; [|done]. by apply (H c peer0).
  - destruct H as [H|[= -> ->]]; [|done]. by apply (H c1 peer0).
Qed.

Definition seeding (done : Z -> Z -> Prop) (s : Ctx) : Prop :=
  during s /\ all_keyed (round s) /\ forall k p, done k p -> seeded (round s) k p.

Lemma derive_seed_triple D cid peer :
  cid ∈ dict_keys (clients r0) -> peer ∈ dict_keys (clients r0) ->
  triple (seeding D) (derive_seed_for cid peer)
    (fun _ => seeding (fun k p => D k p \/ (k, p) = (cid, peer))) stopped.
Proof.
  intros Hk Hp s (Hd & Hkeyed & Hs).
  destruct (get_client_known _ _ (proj1 Hd) Hk) as [c Hc].
  destruct (get_client_known _ _ (proj1 Hd) Hp) as [pc Hpc].
  unfold derive_seed_for. rewrite (get_client_bind _ _ _ c Hc), (get_client_bind _ _ _ pc Hpc).
  destruct (Z.eqb_spec peer cid) as [->|Hne]; cbn [negb andb].
  { split; [done|]. split; [done|]. intros k p [HD|[= -> ->]]; [by apply Hs|]. by intros ??????. }
  destruct (truthy (shared_secret pc)) eqn:Hts.
  2: { split; [done|]. split; [done|]. intros k p [HD|[= -> ->]]; [by apply Hs|].
       intros c1 p1 ? Hp1 ???. cbn [round] in *. congruence. }
  rewrite (M_bind_ok _ _ _ (round s) s) by done.
  assert (Hid : round_id (round s) = rid) by (rewrite (rf_id _ _ (proj1 Hd)); apply (rw_id _ _ Hwf)).
  assert (Hb : forall k, k ∈ dict_keys (clients r0) -> is_byte k).
  { intros k ([k1 c1] & -> & Hin)%list_elem_of_fmap. by apply (rw_client _ _ Hwf) in Hin as []. }
  destruct (derive_ok (default [] (shared_secret c)) (Pairwise (Z.min cid peer) (Z.max cid peer) rid))
    as (seed & Hseed & _).
  { apply Hb in Hk, Hp. cbn [purpose_ok]. unfold is_byte in *. lia. }
  cbn [derive] in Hseed. rewrite Hid, Hseed, lift_ok_bind, update_client_run, Hc.
  assert (Hfr : round_frame (round s)
            (set_clients (dict_set cid (set_pairwise_seed peer seed c) (clients (round s))) (round s)))
    by (eapply frame_set_client; [done|apply frame_seed]).
  split; [split; [|split]|split]; cbn [net round].
  - transitivity (round s); [apply Hd|done].
  - destruct Hd as (_ & <- & _). by destruct (round s).
  - apply Hd.
  - intros k Hk'. eapply keyed_frame; [done|by apply Hkeyed].
  - intros k p HD. apply seeded_set; [done|done|]. destruct HD as [HD|]; [left; by apply Hs|by right].
Qed.

Lemma derive_seeds_triple D cid :
  cid ∈ dict_keys (clients r0) ->
  triple (seeding D) (derive_seeds cid)
    (fun _ => seeding (fun k p => D k p \/ k = cid /\ p ∈ dict_keys (clients r0))) stopped.
Proof.
  intros Hk s (Hd & Hkeyed & Hs). destruct (get_client_known _ _ (proj1 Hd) Hk) as [c Hc].
  unfold derive_seeds. rewrite (get_client_bind _ _ _ c Hc).
  destruct (truthy (shared_secret c)) eqn:Ht.
  - rewrite (M_bind_ok _ _ _ (round s) s) by done. rewrite (frame_keys r0) by apply Hd.
    assert (Hloop : triple (seeding (fun k p => D k p \/ k = cid /\ p ∈ @nil Z))
      (for_each (dict_keys (clients r0)) (derive_seed_for cid))
      (fun _ => seeding (fun k p => D k p \/ k = cid /\ p ∈ dict_keys (clients r0))) stopped).
    { apply (triple_for_each (fun visited => seeding (fun k p => D k p \/ k = cid /\ p ∈ visited))).
      intros visited p rest Hl. eapply triple_conseq.
      - apply (derive_seed_triple (fun k q => D k q \/ k = cid /\ q ∈ visited) cid p); [done|].
        rewrite Hl. set_solver.
      - done.
      - intros _ s' (H1 & H2 & H3). split; [done|]. split; [done|]. intros k q Hkq. apply H3.
        destruct Hkq as [|[-> [?|?%list_elem_of_singleton]%elem_of_app]]; subst; tauto.
      - done. }
    apply Hloop. split; [done|]. split; [done|]. intros k p [?|[_ Hp]]; [by apply Hs|].
    by apply not_elem_of_nil in Hp.
  - split; [done|]. split; [done|]. intros k p [?|[-> _]]; [by apply Hs|].
    intros c1 ? Hc1 ????. cbn [round] in *. congruence.
Qed.

(** ** The whole of [_setup_keys_and_masks] *)

Lemma setup_triple :
  triple (fun s => net s = n0 /\ round s = r0) (setup_keys_and_masks encapsulate)
    (fun _ s => round_frame r0 (round s) /\ net_frame n0 (net s) /\ stage (round s) = MASK_SETUP /\
       all_keyed (round s) /\ (forall k p, k ∈ dict_keys (clients r0) -> p ∈ dict_keys (clients r0) ->
                               seeded (round s) k p)) stopped.
Proof.
  intros s [Hn Hr]. unfold setup_keys_and_masks. rewrite (M_bind_ok _ _ _ (round s) s) by done. rewrite Hr.
  assert (Hd0 : during s) by (split; [by rewrite Hr|split; [by rewrite Hr|by rewrite Hn]]).
  pose proof (setup_clients_triple s Hd0) as H1. unfold mbind at 1, M_bind at 1.
  destruct (for_each _ (setup_client encapsulate) s) as [[[]|e] s1]; [|done].
  destruct H1 as [Hd1 Hk1]. destruct (pairwise_loops_quiet s1 Hd1 Hk1) as [Hq1 Hq2].
  rewrite (M_bind_ok _ _ _ tt s1) by done. rewrite (M_bind_ok _ _ _ tt s1) by done.
  assert (Hloop : triple (seeding (fun k p => k ∈ @nil Z /\ p ∈ dict_keys (clients r0)))
    (for_each (dict_keys (clients r0)) derive_seeds)
    (fun _ => seeding (fun k p => k ∈ dict_keys (clients r0) /\ p ∈ dict_keys (clients r0))) stopped).
  { apply (triple_for_each (fun visited =>
      seeding (fun k p => k ∈ visited /\ p ∈ dict_keys (clients r0)))).
    intros visited k rest Hl. eapply triple_conseq.
    - apply (derive_seeds_triple (fun k p => k ∈ visited /\ p ∈ dict_keys (clients r0)) k).
      rewrite Hl. set_solver.
    - done.
    - intros _ s' (A & B & C). split; [done|]. split; [done|]. intros k' p [Hk' Hp]. apply C.
      apply elem_of_app in Hk' as [?|?%list_elem_of_singleton]; subst; tauto.
    - done. }
  assert (Hs1 : seeding (fun k p => k ∈ @nil Z /\ p ∈ dict_keys (clients r0)) s1).
  { split; [done|]. split; [done|]. intros k p [Hk _]. by apply not_elem_of_nil in Hk. }
  specialize (Hloop s1 Hs1). unfold mbind, M_bind.
  destruct (for_each _ derive_seeds s1) as [[[]|e] s2]; [|done].
  destruct Hloop as ((Hf & _ & Hnf) & Hk2 & Hseeds).
  assert (Hfs : forall r, round_frame r (set_stage MASK_SETUP r)) by (intros []; by split).
  assert (Hcl : clients (set_stage MASK_SETUP (round s2)) = clients (round s2)) by (by destruct (round s2)).
  cbn [update_round modify net round]. split; [by transitivity (round s2)|]. split; [done|].
  split; [by destruct (round s2)|]. split.
  - intros k Hk. eapply keyed_frame; [apply Hfs|by apply Hk2].
  - intros k p Hk Hp. unfold seeded. rewrite Hcl. by apply Hseeds.
Qed.

End Setup.

(** C17: key setup.  Run on a well-formed round with a KEM whose secrets are not
    empty, [_setup_keys_and_masks] changes key material only.  When it returns,
    the round is in [MASK_SETUP], every client with a public key has a shared
    secret, and for every ordered pair of clients with secrets the first holds
    the pairwise seed derived from {its own} secret for the two ids in
    increasing order.  It raises only if an encapsulation failed, a ciphertext
    was too long for its header, or a connection was lost, and then leaves the
    stage alone. *)
Theorem setup_establishes_keys encapsulate rid s :
  (forall n pk ct ss, encapsulate n pk = Ok (ct, ss) -> truthy (Some ss) = true) ->
  round_wf rid (round s) -> 0 <= rid < 2 ^ 32 ->
  match setup_keys_and_masks encapsulate s with
  | (Ok _, s') =>
      round_frame (round s) (round s') /\ net_frame (net s) (net s') /\
      stage (round s') = MASK_SETUP /\
      forall k, k ∈ dict_keys (clients (round s)) ->
        keyed (round s') k /\
        forall p, p ∈ dict_keys (clients (round s)) -> seeded rid (round s') k p
  | (Err _, s') =>
      round_frame (round s) (round s') /\ net_frame (net s) (net s') /\
      stage (round s') = stage (round s) /\ ~ favourable encapsulate (net s)
  end.
Proof.
  intros Hne Hwf Hrid.
  pose proof (setup_triple encapsulate Hne rid (round s) (net s) Hwf Hrid s (conj eq_refl eq_refl)) as H.
  destruct (setup_keys_and_masks encapsulate s) as [[[]|e] s'].
  - destruct H as (Hf & Hn & Hst & Hk & Hs). do 3 (split; [done|]). intros k Hin.
    split; [by apply Hk|]. intros p Hp. by apply Hs.
  - destruct H as [(Hf & Hst & Hn) Hfav]. done.
Qed.

(** ** Recovery *)

(** A client other than [d] that holds a shared secret. *)
Definition holds_share (d : Z) (p : Z * ClientState) : bool :=
  negb (fst p =? d) && truthy (shared_secret (snd p)).
Definition share_holders (r : RoundState) (d : Z) : list (Z * ClientState) :=
  filter (fun p => holds_share d p) (clients r).

Lemma collect_shares_ok r d :
  is_byte d -> 0 <= round_id r < 2 ^ 32 ->
  exists shares, collect_shares r d = Ok shares /\
    length shares = length (share_holders r d) /\ Forall (fun p => length (snd p) = 32%nat) shares.
Proof.
  intros Hd Hr. unfold collect_shares, share_holders.
  enough (forall l acc, Forall (fun p : Z * bytes => length (snd p) = 32%nat) acc ->
    exists shares, fold_result
      (fun shares (p : Z * ClientState) =>
         if fst p =? d then Ok shares
         else if truthy (shared_secret (snd p)) then
           shamir_secret ← derive_shamir_secret (default [] (shared_secret (snd p))) d (round_id r);
           Ok (shares ++ [(fst p, shamir_secret)])
         else Ok shares) l acc = Ok shares /\
      length shares = (length acc + length (filter (fun p => holds_share d p) l))%nat /\
      Forall (fun p => length (snd p) = 32%nat) shares) as H by (destruct (H (clients r) []); eauto).
  induction l as [|[k c] l IH]; intros acc Hacc; cbn [fold_result].
  - exists acc. split; [done|]. split; [simpl; lia|done].
  - rewrite (filter_bool_cons (holds_share d)). unfold holds_share at 1. cbn [fst snd].
    destruct (k =? d); cbn [negb andb]; run; [by apply IH|].
    destruct (truthy (shared_secret c)); run; [|by apply IH].
    destruct (derive_ok (default [] (shared_secret c)) (ShamirSecret d (round_id r)))
      as (seed & Hs & Hl); [done|]. cbn [derive] in Hs. rewrite Hs. run.
    destruct (IH (acc ++ [(k, seed)])) as (shares & -> & Hlen & Hall).
    { apply Forall_app. split; [done|]. by constructor. }
    exists shares. split; [done|]. split; [|done]. rewrite Hlen, length_app. simpl. lia.
Qed.

(** Shares of 32 bytes are never accepted. *)
Lemma reconstruct_32_fails rs shares :
  Forall (fun p : Z * bytes => length (snd p) = 32%nat) shares ->
  reconstruct_secret_bytes rs shares = Err ValueError.
Proof.
  intros Hs. destruct Hs as [|[x y] shares Hy _]; [done|]. cbn [snd] in Hy.
  unfold reconstruct_secret_bytes. by rewrite Hy.
Qed.

Lemma recover_client_run rs d (s : Ctx) :
  is_byte d -> 0 <= round_id (round s) < 2 ^ 32 ->
  recover_client rs d s =
  (if threshold (round s) <=? Z.of_nat (length (share_holders (round s) d))
   then Err ValueError else Ok tt, s).
Proof.
  intros Hd Hr. destruct (collect_shares_ok (round s) d Hd Hr) as (shares & Hs & Hlen & Hall).
  unfold recover_client. rewrite (M_bind_ok _ _ _ (round s) s) by done.
  rewrite Hs, lift_ok_bind, Hlen. case_match; [|done].
  by rewrite reconstruct_32_fails.
Qed.

Lemma trigger_recovery_run rs (s : Ctx) :
  Forall is_byte (dropout_clients (round s)) -> 0 <= round_id (round s) < 2 ^ 32 ->
  trigger_recovery rs s =
  (if existsb (fun d => threshold (round s) <=? Z.of_nat (length (share_holders (round s) d)))
        (dropout_clients (round s))
   then Err ValueError else Ok tt, s).
Proof.
  intros Hd Hr. unfold trigger_recovery. rewrite (M_bind_ok _ _ _ (round s) s) by done.
  induction Hd as [|d l Hd Hl IH]; [done|]. cbn [for_each existsb].
  pose proof (recover_client_run rs d s Hd Hr) as Hrun.
  destruct (threshold (round s) <=? _) eqn:E; cbn [orb].
  - by apply M_bind_err.
  - by rewrite (M_bind_ok _ _ _ tt s).
Qed.

(** C19: dropout recovery recovers nothing.  [_trigger_recovery] never changes
    the round or the connections: it raises [ValueError] as soon as one dropped
    client has at least a threshold of peers with shared secrets, because the
    derived 32-byte values are passed to a reconstruction that demands 64, and
    otherwise returns without having done anything. *)
Theorem recovery_never_recovers rs rid (s : Ctx) :
  round_wf rid (round s) -> 0 <= rid < 2 ^ 32 ->
  trigger_recovery rs s =
  (if existsb (fun d => threshold (round s) <=? Z.of_nat (length (share_holders (round s) d)))
        (dropout_clients (round s))
   then Err ValueError else Ok tt, s).
Proof.
  intros Hwf Hrid. apply trigger_recovery_run; [apply (rw_dropout_ids _ _ Hwf)|].
  by rewrite (rw_id _ _ Hwf).
Qed.

(** ** A dropout blocks the aggregation *)

(** A client other than [d] that sent a public key. *)
Definition sends_key (d : Z) (p : Z * ClientState) : bool :=
  negb (fst p =? d) && truthy (public_key (snd p)).
Definition key_senders (r : RoundState) (d : Z) : list (Z * ClientState) :=
  filter (fun p => sends_key d p) (clients r).

Lemma senders_hold r r' d :
  round_frame r r' -> NoDup (dict_keys (clients r)) ->
  (forall k, k ∈ dict_keys (clients r) -> keyed r' k) ->
  (length (key_senders r d) <= length (share_holders r' d))%nat.
Proof.
  intros Hf Hnd Hk.
  assert (Hk' : forall k c, (k, c) ∈ clients r' -> truthy (public_key c) = true ->
                truthy (shared_secret c) = true).
  { intros k c Hin. rewrite <- (frame_keys _ _ Hf) in Hnd. apply (Hk k).
    - rewrite <- (frame_keys _ _ Hf). apply list_elem_of_fmap. by exists (k, c).
    - by apply dict_elem_get. }
  unfold key_senders, share_holders. pose proof (rf_clients _ _ Hf) as Hl. clear Hnd Hk Hf.
  revert Hk'. induction Hl as [|[k0 c0] [k c] l0 l [Hke Hc] Hl IH]; intros Hk'; [done|].
  cbn [fst snd] in *. subst k.
  rewrite (filter_bool_cons (sends_key d)), (filter_bool_cons (holds_share d)).
  assert (Hrest : (length (filter (fun p => sends_key d p) l0) <=
                   length (filter (fun p => holds_share d p) l))%nat).
  { apply IH. intros k c' Hin. apply (Hk' k). by right. }
  unfold sends_key at 1, holds_share at 1. cbn [fst snd].
  destruct (k0 =? d); cbn [negb andb]; [done|].
  pose proof (Hk' k0 c ltac:(left)) as Hkc. destruct Hc as (_&_&Hpk&_). rewrite Hpk in Hkc.
  destruct (truthy (public_key c0)).
  - rewrite Hkc by done. simpl. lia.
  - destruct (truthy (shared_secret c)); simpl; lia.
Qed.

(** What follows the recovery does not matter. *)
Lemma aggregation_blocked encapsulate rs rid (k : unit -> M Ctx unit) (s : Ctx) d :
  (forall n pk ct ss, encapsulate n pk = Ok (ct, ss) -> truthy (Some ss) = true) ->
  round_wf rid (round s) -> 0 <= rid < 2 ^ 32 ->
  d ∈ dropout_clients (round s) ->
  threshold (round s) <= Z.of_nat (length (key_senders (round s) d)) ->
  let '(res, s') := (setup_keys_and_masks encapsulate ≫= fun _ => trigger_recovery rs ≫= k) s in
  res <> Ok tt /\ round_frame (round s) (round s') /\
  (stage (round s') = stage (round s) \/ stage (round s') = MASK_SETUP).
Proof.
  intros Hne Hwf Hrid Hd Ht.
  pose proof (setup_triple encapsulate Hne rid (round s) (net s) Hwf Hrid s (conj eq_refl eq_refl)) as H.
  unfold mbind, M_bind. destruct (setup_keys_and_masks encapsulate s) as [[[]|e] s1].
  2: { destruct H as [(Hf & Hst & Hn) _]. auto. }
  destruct H as (Hf & _ & Hst & Hk & _).
  rewrite trigger_recovery_run.
  - rewrite (proj2 (existsb_exists _ _)); [auto|]. exists d. split.
    + apply list_elem_of_In. by rewrite (rf_dropouts _ _ Hf).
    + apply Z.leb_le. rewrite (rf_threshold _ _ Hf).
      pose proof (senders_hold _ _ d Hf (rw_keys _ _ Hwf) Hk). lia.
  - rewrite (rf_dropouts _ _ Hf). apply (rw_dropout_ids _ _ Hwf).
  - by rewrite (rf_id _ _ Hf), (rw_id _ _ Hwf).
Qed.

(** C20: a dropout blocks the round.  If some client dropped out and at least a
    threshold of the others have sent a public key, neither version of
    [_unmask_and_aggregate] ever returns normally: the round keeps its stage or
    stops in [MASK_SETUP], and no result is stored. *)
Theorem dropout_blocks_aggregation {L : CryptoLib} crypto encapsulate rs rid (s : Ctx) d :
  (forall n pk ct ss, encapsulate n pk = Ok (ct, ss) -> truthy (Some ss) = true) ->
  round_wf rid (round s) -> 0 <= rid < 2 ^ 32 ->
  d ∈ dropout_clients (round s) ->
  threshold (round s) <= Z.of_nat (length (key_senders (round s) d)) ->
  Forall (fun m : M Ctx unit =>
    let '(res, s') := m s in
    res <> Ok tt /\ unmasked_chunks (round s') = unmasked_chunks (round s) /\
    (stage (round s') = stage (round s) \/ stage (round s') = MASK_SETUP))
  [head_unmask_and_aggregate encapsulate rs; incoming_unmask_and_aggregate crypto encapsulate rs].
Proof.
  intros Hne Hwf Hrid Hd Ht. rewrite !Forall_cons, Forall_nil.
  unfold head_unmask_and_aggregate, incoming_unmask_and_aggregate.
  assert (Hgen : forall k, let '(res, s') :=
      (setup_keys_and_masks encapsulate ≫= fun _ => trigger_recovery rs ≫= k) s in
    res <> Ok tt /\ unmasked_chunks (round s') = unmasked_chunks (round s) /\
    (stage (round s') = stage (round s) \/ stage (round s') = MASK_SETUP)).
  { intros k. pose proof (aggregation_blocked encapsulate rs rid k s d Hne Hwf Hrid Hd Ht) as H.
    destruct ((setup_keys_and_masks encapsulate ≫= fun _ => trigger_recovery rs ≫= k) s)
      as [res s']. destruct H as (Hr & Hf & Hst).
    split; [done|]. split; [apply (rf_unmasked _ _ Hf)|done]. }
  split; [apply Hgen|]. split; [apply Hgen|done].
Qed.

(** ** A concrete round: three clients with keys, the third dropped out *)

Definition sample_key_client (cid : Z) : ClientState :=
  set_public_key [cid; 7; 7] (new_client cid 5).

Definition dropout_round : RoundState := {|
  round_id := 5; expected_clients := 3; threshold := 2; chunk_size := 2; model_size := 4;
  clients := [(1, sample_key_client 1); (2, sample_key_client 2); (3, sample_key_client 3)];
  stage := UNMASKING; dropout_clients := [3]; unmasked_chunks := [] |}.

Definition dropout_ctx : Ctx := {| net := empty_net; round := dropout_round |}.

Lemma toy_encapsulate_nonempty n pk ct ss :
  encapsulate_pq (Some true) n pk = Ok (ct, ss) -> truthy (Some ss) = true.
Proof. cbn [encapsulate_pq oqs_encap_secret toy_crypto]. by intros [= _ <-]. Qed.

Lemma setup_establishes_keys_witness :
  exists s', setup_keys_and_masks (encapsulate_pq (Some true)) dropout_ctx = (Ok tt, s') /\
    keyed (round s') 3.
Proof.
  pose proof (setup_establishes_keys (encapsulate_pq (Some true)) 5 dropout_ctx
    toy_encapsulate_nonempty (open_round_wfb_ok 5 dropout_round eq_refl) ltac:(lia)) as H.
  assert (is_ok (outcome (setup_keys_and_masks (encapsulate_pq (Some true))) dropout_ctx) = true) as Hok
    by reflexivity.
  unfold outcome in Hok.
  destruct (setup_keys_and_masks (encapsulate_pq (Some true)) dropout_ctx) as [[[]|e] s'];
    [|discriminate Hok].
  exists s'. split; [reflexivity|]. apply H. right. right. left.
Defined.

(** Clients 1 and 2 hold secrets; the threshold is 2. *)
Definition recovering_ctx : Ctx := {|
  net := empty_net;
  round := set_clients [(1, set_shared_secret [1] (sample_key_client 1));
                        (2, set_shared_secret [2] (sample_key_client 2));
                        (3, sample_key_client 3)] dropout_round |}.

Lemma recovery_never_recovers_witness :
  trigger_recovery Shamir.Head.reconstruct_secret recovering_ctx = (Err ValueError, recovering_ctx).
Proof.
  rewrite (recovery_never_recovers _ 5); [reflexivity| |lia].
  apply open_round_wfb_ok. reflexivity.
Defined.

Lemma dropout_blocks_aggregation_witness :
  outcome (head_unmask_and_aggregate (encapsulate_pq (Some true)) Shamir.Head.reconstruct_secret)
    dropout_ctx <> Ok tt.
Proof.
  pose proof (dropout_blocks_aggregation true (encapsulate_pq (Some true))
    Shamir.Head.reconstruct_secret 5 dropout_ctx 3 toy_encapsulate_nonempty
    (open_round_wfb_ok 5 dropout_round eq_refl) ltac:(lia) ltac:(left) ltac:(vm_compute; discriminate)) as H.
  apply Forall_cons in H as [H _]. unfold outcome.
  destruct (head_unmask_and_aggregate _ _ dropout_ctx) as [res s']. apply H.
Defined.
