(* ===== verification/Completion.v ===== *)
(** * A round completes

    When nobody dropped out and nothing fails outside the bridge, the
    aggregation returns, stores the average, and sends every connected client
    every chunk. *)

From Stdlib Require Import ZArith Lia QArith.QArith_base.
From stdpp Require Import prelude.
From S2P Require Import Prelude PyDict PyBytes Field Lagrange Shamir Kdf Crypto Masks Wire State.
From S2P Require Import Aggregate FedAvg Keys Bridge Frame Invariant KeySetup.

(** ** From the invariant to the aggregation's precondition *)

Lemma client_wf_ok rid cs k c : 0 <= cs -> client_wf rid cs k c -> client_ok (Z.to_nat cs) c.
Proof.
  intros Hcs Hc. split; [apply (cw_keys _ _ _ _ Hc)|].
  intros s d Hin. apply (cw_chunk _ _ _ _ Hc) in Hin as (Hs & Hl & _). lia.
Qed.

Lemma round_wf_clients_ok rid r : round_wf rid r -> clients_ok r.
Proof.
  intros Hr. split; [apply (rw_keys _ _ Hr)|]. intros k c Hin.
  apply (rw_client _ _ Hr) in Hin as Hc. split; [apply (cw_id _ _ _ _ Hc)|].
  eapply client_wf_ok; [|done]. apply (rw_chunk_size _ _ Hr).
Qed.

(** ** The broadcast *)

(** The message of chunk [seq_num]. *)
Definition chunk_message (r : RoundState) (f : chunks) (payload : bytes) (seq_num : Z) : bytes :=
  match complete_message r f payload seq_num with Ok m => m | Err _ => [] end.

(** What every writer in [writers] is sent. *)
Definition completion_messages (r : RoundState) (f : chunks) (payload : bytes) (n : Z) (writers : list Z)
    : list (Z * bytes) :=
  concat ((fun w => (fun i => (w, chunk_message r f payload i)) <$> range n) <$> writers).

Definition add_wire (msgs : list (Z * bytes)) (s : Ctx) : Ctx := {|
  net := {| client_writers := client_writers (net s); wire := wire (net s) ++ msgs;
            closing := closing (net s); lost := lost (net s); encaps_used := encaps_used (net s) |};
  round := round s |}.

Lemma add_wire_nil s : add_wire [] s = s.
Proof. destruct s as [[] r]. unfold add_wire. simpl. by rewrite app_nil_r. Qed.

Lemma add_wire_app m m' s : add_wire m' (add_wire m s) = add_wire (m ++ m') s.
Proof. unfold add_wire. simpl. by rewrite app_assoc. Qed.

Lemma for_each_sends {B} (l : list B) (body : B -> M Ctx unit) (msgs : B -> list (Z * bytes)) s :
  (forall x m, x ∈ l -> body x (add_wire m s) = (Ok tt, add_wire (m ++ msgs x) s)) ->
  for_each l body s = (Ok tt, add_wire (concat (msgs <$> l)) s).
Proof.
  intros H. rewrite <- (add_wire_nil s) at 1.
  enough (forall m, for_each l body (add_wire m s) = (Ok tt, add_wire (m ++ concat (msgs <$> l)) s)) as G
    by apply (G []).
  induction l as [|x l IH]; intros m.
  - simpl. by rewrite app_nil_r.
  - cbn [for_each]. rewrite (M_bind_ok _ _ _ tt (add_wire (m ++ msgs x) s)) by (apply H; left).
    rewrite IH by (intros; apply H; by right). rewrite fmap_cons. cbn [concat]. by rewrite app_assoc.
Qed.

(** Sending a message per chunk to every writer, the message being a function
    of the round and the chunk's number. *)
Definition sent_message (make : RoundState -> Z -> result bytes) (r : RoundState) (i : Z) : bytes :=
  match make r i with Ok m => m | Err _ => [] end.

Lemma send_all_run (make : RoundState -> Z -> result bytes) (send : Z -> Z -> M Ctx unit) writers n s :
  (forall w i, send w i = (r ← the_round; msg ← lift (make r i); write_drain w msg)) ->
  lost (net s) = [] -> num_chunks (round s) = Ok n ->
  (forall i, i ∈ range n -> exists m, make (round s) i = Ok m) ->
  for_each writers (fun w => r ← the_round; n ← lift (num_chunks r); for_each (range n) (send w)) s =
  (Ok tt, add_wire (concat ((fun w => (fun i => (w, sent_message make (round s) i)) <$> range n)
                              <$> writers)) s).
Proof.
  intros Hsend Hlost Hn Hm. apply for_each_sends. intros w m _.
  rewrite (M_bind_ok _ _ _ (round s) (add_wire m s)) by done. rewrite Hn, lift_ok_bind.
  rewrite (for_each_sends _ _ (fun i => [(w, sent_message make (round s) i)])).
  - rewrite add_wire_app. do 3 f_equal. clear. induction (range n) as [|i l IH]; [done|].
    rewrite !fmap_cons. cbn [concat app]. by rewrite <- IH.
  - intros i m' Hi. rewrite Hsend, (M_bind_ok _ _ _ (round s) (add_wire m' (add_wire m s))) by done.
    unfold sent_message. destruct (Hm i Hi) as [msg Hmsg]. rewrite Hmsg, lift_ok_bind, write_drain_run.
    rewrite bool_decide_false; [|cbn; rewrite Hlost; apply not_elem_of_nil].
    f_equal. unfold add_wire. simpl. f_equal. by rewrite app_assoc.
Qed.

Lemma broadcast_run f payload n s :
  lost (net s) = [] -> num_chunks (round s) = Ok n ->
  (forall i, i ∈ range n -> exists m, complete_message (round s) f payload i = Ok m) ->
  broadcast f payload s =
  (Ok tt, add_wire (completion_messages (round s) f payload n (dict_values (client_writers (net s)))) s).
Proof.
  intros Hlost Hn Hm. unfold broadcast. rewrite (M_bind_ok _ _ _ (net s) s) by done.
  by apply (send_all_run (fun r i => complete_message r f payload i)).
Qed.

(** ** The messages can be built *)

Lemma spec_row_range ce g : Forall (fun x => 0 <= x < FIELD_MODULUS) (spec_row ce g).
Proof. apply Forall_fmap, Forall_true. intros j. apply mod_p_range. Qed.

Lemma scale_get total f i row :
  dict_get i f = Some row ->
  exists row', dict_get i (scale_chunks total f) = Some row' /\ length row' = length row /\
    (Forall (fun x => 0 <= x < FIELD_MODULUS) row -> Forall (fun x => 0 <= x < FIELD_MODULUS) row').
Proof.
  intros H. unfold scale_chunks. destruct (1 <? total); [|by exists row].
  exists (map (fun x => (x * py_pow total (FIELD_MODULUS - 2) FIELD_MODULUS) mod FIELD_MODULUS) row).
  split.
  - pose proof (dict_get_map_values
      (map (fun x => (x * py_pow total (FIELD_MODULUS - 2) FIELD_MODULUS) mod FIELD_MODULUS)) i f) as E.
    rewrite H in E. exact E.
  - split; [apply length_map|]. intros _. apply Forall_forall. intros x Hx.
    apply list_elem_of_fmap in Hx as (y & -> & _). apply mod_p_range.
Qed.

Lemma complete_message_ok rid r total g payload i :
  round_wf rid r -> 0 <= rid < 2 ^ 32 -> length payload = 60%nat ->
  chunk_size r <= 32737 -> 0 <= i < chunk_count r -> chunk_count r <= 65536 ->
  exists m, complete_message r
    (scale_chunks total (spec_chunks (chunk_count r) (Z.to_nat (chunk_size r)) g)) payload i = Ok m.
Proof.
  intros Hwf Hrid Hp Hcs Hi Hn. set (ce := Z.to_nat (chunk_size r)).
  destruct (scale_get total (spec_chunks (chunk_count r) ce g) i (spec_row ce (g i)))
    as (row & Hrow & Hlen & Hrange); [by apply spec_chunks_get|].
  specialize (Hrange (spec_row_range _ _)). rewrite spec_row_length in Hlen.
  unfold complete_message, dict_index. rewrite Hrow. run. fold ce.
  destruct (struct_pack_success (chunk_format ce) row) as [chunk Hchunk].
  { apply Forall2_replicate_l; [done|]. eapply Forall_impl; [exact Hrange|].
    intros x Hx. unfold FIELD_MODULUS in Hx. cbn [code_range]. change (2 ^ 15) with 32768. lia. }
  rewrite Hchunk. run. apply struct_pack_ok in Hchunk as (_ & Hl & _).
  unfold chunk_format in Hl. rewrite calcsize_replicate in Hl. change (code_size Ch) with 2%nat in Hl.
  destruct (build_header_ok MSG_TYPE_ROUND_COMPLETE (round_id r) 0 i
              (Z.of_nat (length chunk + length payload))) as (hd & -> & _).
  - rewrite (rw_id _ _ Hwf). unfold header_fits, MSG_TYPE_ROUND_COMPLETE. lia.
  - run. by eexists.
Qed.

Lemma telemetry_length t payload : pack_telemetry t = Ok payload -> length payload = 60%nat.
Proof. unfold pack_telemetry. intros H. by apply struct_pack_ok in H as (_ & -> & _). Qed.

Lemma telemetry_ok rid r :
  round_wf rid r -> 0 <= rid < 2 ^ 32 -> chunk_size r <> 0 ->
  exists t payload, collect_telemetry r = Ok t /\ pack_telemetry t = Ok payload /\
    length payload = 60%nat.
Proof.
  intros Hwf Hrid Hcs. unfold collect_telemetry, num_chunks.
  rewrite (proj2 (Z.eqb_neq _ _) Hcs). run. eexists.
  destruct (struct_pack_success TELEMETRY_FORMAT
    [round_id r; 0; 0; 0; 0; 0; 0; 0; 0; 0; 0; 0; 0; 0; 0; 1; 255; 0]) as [payload Hp].
  { rewrite (rw_id _ _ Hwf). unfold TELEMETRY_FORMAT. cbn [replicate app].
    rewrite !Forall2_cons, Forall2_nil. cbn [code_range].
    change (2 ^ 32) with 4294967296 in *. change (2 ^ 8) with 256. lia. }
  exists payload. split; [done|]. split; [exact Hp|]. by apply struct_pack_ok in Hp as (_ & -> & _).
Qed.

(** ** The aggregation returns *)

Section Completes.
Context {L : CryptoLib} (CRYPTO_AVAILABLE : bool).
Context (encapsulate : nat -> bytes -> result (bytes * bytes)).
Context (reconstruct_secret : list (Z * Z) -> result Z).

(** The limits of the header's 16-bit fields. *)
Record deliverable (r : RoundState) : Prop := {
  del_chunk : 0 < chunk_size r <= 32737;
  del_count : chunk_count r <= 65536;
}.

(** What a completed aggregation leaves behind: the result [f] in the round,
    and behind the ciphertexts one message per writer and chunk. *)
Definition completed_with (s s' : Ctx) (f : chunks) : Prop :=
  round_frame (round s) (set_unmasked (unmasked_chunks (round s)) (round s')) /\
  stage (round s') = ROUND_COMPLETE /\ unmasked_chunks (round s') = f /\
  exists ciphertexts payload,
    length payload = 60%nat /\
    wire (net s') = wire (net s) ++ ciphertexts ++
      completion_messages (round s') f payload (chunk_count (round s))
        (dict_values (client_writers (net s))).

Lemma complete_after_setup rid s s1 f k :
  round_wf rid (round s) -> 0 <= rid < 2 ^ 32 -> deliverable (round s) -> lost (net s) = [] ->
  round_frame (round s) (round s1) -> net_frame (net s) (net s1) ->
  (exists total g, f = scale_chunks total
     (spec_chunks (chunk_count (round s)) (Z.to_nat (chunk_size (round s))) g)) ->
  (forall t payload, collect_telemetry (round s) = Ok t -> pack_telemetry t = Ok payload ->
     k s1 = broadcast f payload
              {| net := net s1; round := set_stage ROUND_COMPLETE (set_unmasked f (round s1)) |}) ->
  exists s', k s1 = (Ok tt, s') /\ completed_with s s' f.
Proof.
  intros Hwf Hrid Hdel Hlost Hf Hn (total & g & ->) Hk.
  pose proof (del_chunk _ Hdel) as Hcs.
  destruct (telemetry_ok rid (round s) Hwf Hrid ltac:(lia)) as (t & payload & Ht & Hp & Hpl).
  rewrite (Hk t payload Ht Hp). clear Hk. set (f := scale_chunks _ _). set (s2 := {| net := net s1 |}).
  assert (Hr2 : round_id (round s2) = rid /\ chunk_size (round s2) = chunk_size (round s) /\
                model_size (round s2) = model_size (round s)).
  { pose proof (rf_id _ _ Hf). pose proof (rw_id _ _ Hwf). pose proof (rf_chunk_size _ _ Hf).
    pose proof (rf_model_size _ _ Hf). unfold s2. destruct (round s1). simpl in *. split_and!; congruence. }
  destruct Hr2 as (Hid2 & Hcs2 & Hms2).
  assert (Hcm : forall i, complete_message (round s2) f payload i = complete_message (round s) f payload i).
  { intros i. unfold complete_message. by rewrite Hid2, Hcs2, (rw_id _ _ Hwf). }
  rewrite (broadcast_run f payload (chunk_count (round s)) s2).
  - eexists. split; [done|]. destruct (nf_wire _ _ Hn) as [cts Hw].
    split; [|split; [|split]]; try (unfold s2; by destruct (round s1)).
    + destruct Hf, (round s1), (round s). by split.
    + exists cts, payload. split; [done|]. cbn [add_wire net wire].
      unfold s2 at 1. cbn [net]. rewrite Hw, <- app_assoc.
      unfold s2 at 2. cbn [net]. by rewrite (nf_writers _ _ Hn).
  - unfold s2. cbn [net]. by rewrite (nf_lost _ _ Hn).
  - unfold num_chunks. rewrite Hcs2, Hms2, (proj2 (Z.eqb_neq _ _)) by lia. done.
  - intros i Hi%elem_of_range. rewrite Hcm. eapply complete_message_ok; try done; [lia|].
    apply (del_count _ Hdel).
Qed.

Lemma finished_telemetry r f :
  collect_telemetry (set_stage ROUND_COMPLETE (set_unmasked f r)) = collect_telemetry r.
Proof. by destruct r. Qed.

(** Setup and recovery succeed when nobody dropped out. *)
Lemma setup_succeeds rid s :
  (forall n pk ct ss, encapsulate n pk = Ok (ct, ss) -> truthy (Some ss) = true) ->
  round_wf rid (round s) -> 0 <= rid < 2 ^ 32 -> dropout_clients (round s) = [] ->
  favourable encapsulate (net s) ->
  exists s1, round_frame (round s) (round s1) /\ net_frame (net s) (net s1) /\
    setup_keys_and_masks encapsulate s = (Ok tt, s1) /\
    trigger_recovery reconstruct_secret s1 = (Ok tt, s1).
Proof.
  intros Hne Hwf Hrid Hd Hfav.
  pose proof (setup_triple encapsulate Hne rid (round s) (net s) Hwf Hrid s (conj eq_refl eq_refl)) as H.
  destruct (setup_keys_and_masks encapsulate s) as [[[]|e] s1] eqn:Es.
  2: { destruct H as [_ Hn]. by destruct Hn. }
  destruct H as (Hf & Hn & _). exists s1. split; [done|]. split; [done|].
  split; [done|]. rewrite trigger_recovery_run; rewrite ?(rf_dropouts _ _ Hf), ?Hd; [done|done|].
  by rewrite (rf_id _ _ Hf), (rw_id _ _ Hwf).
Qed.

(** After key setup HEAD stores the weighted means and completes the round. *)
Lemma finalize_same rid s r :
  round_wf rid r -> deliverable r -> dropout_clients r = [] -> same_data r (round s) ->
  finalize_round s = (Ok tt, {| net := net s; round := set_stage ROUND_COMPLETE
    (set_unmasked (head_spec r (chunk_count r)) (round s)) |}).
Proof.
  intros Hwf Hdel Hd Hf. pose proof (del_chunk _ Hdel) as Hcs.
  unfold finalize_round. rewrite (M_bind_ok _ _ _ (round s) s) by done.
  rewrite head_finalize_eq.
  - rewrite (data_head_spec r) by done. rewrite lift_ok_bind.
    change (model_size (round s) / chunk_size (round s)) with (chunk_count (round s)).
    by rewrite (data_chunk_count r).
  - eapply data_clients_ok; [done|]. by eapply round_wf_clients_ok.
  - apply no_dropouts_no_secret. by rewrite (sd_dropouts _ _ Hf).
  - rewrite (fx_chunk_size _ _ (sd_fixed _ _ Hf)). lia.
Qed.

(** The other version computes the same means. *)
Lemma incoming_same rid r r' :
  round_wf rid r -> deliverable r -> dropout_clients r = [] -> same_data r r' ->
  incoming_aggregate CRYPTO_AVAILABLE r' = Ok (head_spec r (chunk_count r)).
Proof.
  intros Hwf Hdel Hd Hf. pose proof (del_chunk _ Hdel) as Hcs. rewrite incoming_aggregate_eq.
  - rewrite (data_incoming_spec r), (data_chunk_count r) by done.
    unfold incoming_spec, head_spec. do 2 f_equal. apply total_samples_ext.
    intros c _. unfold is_dropout. by rewrite Hd.
  - eapply data_clients_ok; [done|]. by eapply round_wf_clients_ok.
  - apply no_dropouts_no_secret. by rewrite (sd_dropouts _ _ Hf).
  - rewrite (fx_chunk_size _ _ (sd_fixed _ _ Hf)). lia.
Qed.

Section OneRound.
Context (rid : Z) (s : Ctx).
Hypothesis secrets_nonempty : forall n pk ct ss, encapsulate n pk = Ok (ct, ss) -> truthy (Some ss) = true.
Hypothesis round_ok : round_wf rid (round s).
Hypothesis rid_range : 0 <= rid < 2 ^ 32.
Hypothesis sizes_fit : deliverable (round s).
Hypothesis no_dropouts : dropout_clients (round s) = [].
Hypothesis outside_works : favourable encapsulate (net s).
Let means : chunks := head_spec (round s) (chunk_count (round s)).

Lemma means_shape : exists total g, means = scale_chunks total
  (spec_chunks (chunk_count (round s)) (Z.to_nat (chunk_size (round s))) g).
Proof. by eexists _, _. Qed.

Lemma head_completes :
  exists s', head_unmask_and_aggregate encapsulate reconstruct_secret s = (Ok tt, s') /\
    completed_with s s' means.
Proof.
  unfold head_unmask_and_aggregate.
  destruct (setup_succeeds rid s) as (s1 & Hf & Hn & Hsetup & Hrec); try done.
  rewrite (M_bind_ok _ _ _ tt s1 Hsetup), (M_bind_ok _ _ _ tt s1 Hrec).
  match goal with |- exists s', ?m s1 = _ /\ _ =>
    apply (complete_after_setup rid s s1 means (fun x => m x)); try done end.
  - apply (proj1 outside_works).
  - apply means_shape.
  - intros t payload Ht Hp.
    rewrite (M_bind_ok _ _ _ _ _ (finalize_same rid s1 (round s) round_ok sizes_fit no_dropouts (frame_same_data _ _ Hf))).
    rewrite (M_bind_ok _ _ _ (set_stage ROUND_COMPLETE (set_unmasked means (round s1))) _) by done.
    rewrite finished_telemetry, (data_telemetry (round s)), Ht, lift_ok_bind, Hp, lift_ok_bind by by apply frame_same_data.
    by destruct (round s1).
Qed.

Lemma incoming_completes :
  exists s', incoming_unmask_and_aggregate CRYPTO_AVAILABLE encapsulate reconstruct_secret s =
    (Ok tt, s') /\ completed_with s s' means.
Proof.
  unfold incoming_unmask_and_aggregate. pose proof (del_chunk _ sizes_fit) as Hcs.
  destruct (setup_succeeds rid s) as (s1 & Hf & Hn & Hsetup & Hrec); try done.
  rewrite (M_bind_ok _ _ _ tt s1 Hsetup), (M_bind_ok _ _ _ tt s1 Hrec).
  match goal with |- exists s', ?m s1 = _ /\ _ =>
    apply (complete_after_setup rid s s1 means (fun x => m x)); try done end.
  { apply (proj1 outside_works). }
  { apply means_shape. }
  intros t payload Ht Hp. rewrite (M_bind_ok _ _ _ (round s1) s1) by done.
  pose proof (incoming_same rid (round s) (round s1) round_ok sizes_fit no_dropouts (frame_same_data _ _ Hf)) as Hagg.
  fold means in Hagg. unfold incoming_aggregate in Hagg.
  destruct (Incoming.unmask_client_chunks _ _) as [cu|]; [|done].
  rewrite result_bind_ok in Hagg. rewrite lift_ok_bind, Hagg, lift_ok_bind.
  unfold num_chunks. rewrite (rf_chunk_size _ _ Hf), (rf_model_size _ _ Hf).
  rewrite (proj2 (Z.eqb_neq _ _)) by lia. rewrite lift_ok_bind.
  apply compute_fedavg_shape in Hagg as [_ [Hkeys _]].
  rewrite (rf_chunk_size _ _ Hf), (rf_model_size _ _ Hf) in Hkeys.
  rewrite (proj2 (forallb_forall _ _)).
  - rewrite (M_bind_ok _ _ _ tt {| net := net s1; round := set_unmasked means (round s1) |}) by done.
    rewrite (M_bind_ok _ _ _ tt {| net := net s1;
      round := set_stage ROUND_COMPLETE (set_unmasked means (round s1)) |}) by done.
    by rewrite (data_telemetry (round s)), Ht, lift_ok_bind, Hp, lift_ok_bind by by apply frame_same_data.
  - intros i Hi. apply list_elem_of_In in Hi. rewrite <- Hkeys in Hi. unfold dict_mem.
    apply dict_get_is_Some in Hi as [row ->]. done.
Qed.
End OneRound.

(** A round without dropouts completes.  On a well-formed round whose sizes
    fit the message header, with a KEM that works and live connections, both
    versions of [_unmask_and_aggregate] return; the round is complete, stores
    the weighted means (the same for both), and every connected client has been
    sent every chunk, in order, after the KEM ciphertexts. *)
Theorem aggregation_completes rid s :
  (forall n pk ct ss, encapsulate n pk = Ok (ct, ss) -> truthy (Some ss) = true) ->
  round_wf rid (round s) -> 0 <= rid < 2 ^ 32 -> deliverable (round s) ->
  dropout_clients (round s) = [] -> favourable encapsulate (net s) ->
  let f := head_spec (round s) (chunk_count (round s)) in
  (exists s', head_unmask_and_aggregate encapsulate reconstruct_secret s = (Ok tt, s') /\
     completed_with s s' f) /\
  (exists s', incoming_unmask_and_aggregate CRYPTO_AVAILABLE encapsulate reconstruct_secret s =
     (Ok tt, s') /\ completed_with s s' f).
Proof. intros. split; [by apply (head_completes rid)|by apply (incoming_completes rid)]. Qed.

End Completes.
