(* ===== verification/DraftBridgeFacts.v ===== *)
(** * What the earlier bridges do

    The plain sum with the masks of dropped clients and the completed round
    ([Phase3]), the connections that the undefined [writer] breaks ([Task5]),
    and the key setup, which the later bridge only seems to extend. *)

From Stdlib Require Import ZArith Lia Setoid Morphisms.
From stdpp Require Import prelude.
From S2P Require Import Prelude PyDict PyBytes Field Lagrange Sha256 Kdf Crypto Masks Drafts Wire State.
From S2P Require Import Aggregate FedAvg Keys Bridge Frame Invariant KeySetup Completion DraftBridge.
#[local] Open Scope gf_scope.

(** ** The sum of the received chunks *)

Section Unmask.
Context {L : CryptoLib} {Laws : CryptoLaws L}.

(** Element [j] of the mask a dropped client with secret [secret] shares with
    [peer]; the same in every chunk. *)
Definition pair_mask_value (secret : bytes) (dropped peer rid : Z) (j : nat) : Z :=
  match Phase3.pair_mask true secret dropped peer rid with Ok m => nth j m 0 | Err _ => 0 end.

Definition peer_term (r : RoundState) (dropped : Z) (secret : bytes) (j : nat)
    (peer : Z * ClientState) : Z :=
  if (fst peer =? dropped) || negb (truthy (shared_secret (snd peer))) then 0
  else (if dropped <? fst peer then 1 else -1) * pair_mask_value secret dropped (fst peer) (round_id r) j.

(** What a dropped client adds to element [j] of every chunk. *)
Definition dropout_term (r : RoundState) (j : nat) (dropped : Z) : Z :=
  match dict_get dropped (clients r) with
  | Some d => if truthy (shared_secret d)
              then gsum (peer_term r dropped (default [] (shared_secret d)) j) (clients r) else 0
  | None => 0
  end.

Definition draft_survivors (r : RoundState) : list ClientState :=
  snd <$> filter (fun p : Z * ClientState => negb (is_dropout r (fst p))) (clients r).

Definition draft_sum (r : RoundState) (i : Z) (j : nat) : Z :=
  gsum (fun c => chunk_value CHUNK_ELEMENTS c i j) (draft_survivors r) +
  gsum (dropout_term r j) (dropout_clients r).

Lemma add_received_spec n g c :
  client_ok CHUNK_ELEMENTS c ->
  add_received n (spec_chunks n CHUNK_ELEMENTS g) c =
  Ok (spec_chunks n CHUNK_ELEMENTS (fun i j => g i j + chunk_value CHUNK_ELEMENTS c i j)).
Proof.
  intros Hok. unfold add_received. rewrite head_add_chunks.
  - f_equal. apply spec_chunks_ext. intros i j Hi _. apply eqp_of_eq.
    rewrite raw_value_in_range by lia. lia.
  - apply dict_filter_NoDup, (ok_keys _ _ Hok).
  - intros s d. by apply elem_of_in_range.
Qed.

Lemma add_all_received n cs g :
  Forall (client_ok CHUNK_ELEMENTS) cs ->
  fold_result (add_received n) cs (spec_chunks n CHUNK_ELEMENTS g) =
  Ok (spec_chunks n CHUNK_ELEMENTS
        (fun i j => g i j + gsum (fun c => chunk_value CHUNK_ELEMENTS c i j) cs)).
Proof.
  intros Hcs. revert g. induction Hcs as [|c cs Hc Hcs IH]; intros g; cbn [fold_result].
  - f_equal. apply spec_chunks_ext. intros i j _ _. apply eqp_of_eq. simpl. lia.
  - rewrite add_received_spec by done. run. rewrite IH. f_equal. apply spec_chunks_ext.
    intros i j _ _. apply eqp_of_eq. simpl. lia.
Qed.

(** One mask, added to the chunks of a list of sequence numbers. *)
Lemma add_mask_rows n sign mask l g :
  length mask = CHUNK_ELEMENTS -> NoDup l -> (forall s, s ∈ l -> 0 <= s < n) ->
  fold_result
    (fun acc seq_num =>
       row ← dict_index seq_num acc;
       row' ← add_peer_mask sign mask row CHUNK_ELEMENTS;
       Ok (dict_set seq_num row' acc))
    l (spec_chunks n CHUNK_ELEMENTS g) =
  Ok (spec_chunks n CHUNK_ELEMENTS
        (fun i j => g i j + if decide (i ∈ l) then sign * nth j mask 0 else 0)).
Proof.
  intros Hm. revert g. induction l as [|s l IH]; intros g Hnd Hl; cbn [fold_result].
  - f_equal. apply spec_chunks_ext. intros i j _ _. apply eqp_of_eq.
    rewrite decide_False by apply not_elem_of_nil. lia.
  - apply NoDup_cons in Hnd as [Hs Hnd]. pose proof (Hl s ltac:(left)) as Hr.
    unfold dict_index. rewrite spec_chunks_get by done. run.
    rewrite add_peer_mask_ok by (rewrite ?spec_row_length; done). run.
    assert (Hrow : ((fun j => (nth j (spec_row CHUNK_ELEMENTS (g s)) 0 + sign * nth j mask 0)
                       mod FIELD_MODULUS) <$> seq 0 CHUNK_ELEMENTS)
                   = spec_row CHUNK_ELEMENTS (fun j => g s j + sign * nth j mask 0)).
    { unfold spec_row at 2. apply list_fmap_ext. intros k j Hk%list_elem_of_lookup_2.
      apply elem_of_seq in Hk. erewrite nth_lookup_Some by (apply spec_row_lookup; lia).
      by rewrite Zplus_mod_idemp_l. }
    rewrite Hrow, spec_chunks_set by done.
    rewrite IH; [|done|intros; apply Hl; by right]. f_equal. apply spec_chunks_ext.
    intros i j _ _. apply eqp_of_eq. destruct (decide (i = s)) as [->|Hne].
    + rewrite (decide_False (P := s ∈ l)), decide_True by (done || left). lia.
    + destruct (decide (i ∈ l)) as [Hi|Hi].
      * by rewrite decide_True by (by right).
      * rewrite decide_False; [done|]. intros [|]%elem_of_cons; done.
Qed.

Lemma add_mask_spec n sign mask g :
  length mask = CHUNK_ELEMENTS ->
  Phase3.add_mask n sign mask (spec_chunks n CHUNK_ELEMENTS g) =
  Ok (spec_chunks n CHUNK_ELEMENTS (fun i j => g i j + sign * nth j mask 0)).
Proof.
  intros Hm. unfold Phase3.add_mask. rewrite add_mask_rows; [|done|apply range_NoDup|].
  - f_equal. apply spec_chunks_ext. intros i j Hi _. apply eqp_of_eq.
    by rewrite decide_True by by apply elem_of_range.
  - intros s. apply elem_of_range.
Qed.

Lemma pair_mask_ok secret dropped peer rid :
  is_byte dropped -> is_byte peer -> 0 <= rid < 2 ^ 32 ->
  exists m, Phase3.pair_mask true secret dropped peer rid = Ok m /\ length m = CHUNK_ELEMENTS.
Proof.
  intros Hd Hp Hr. unfold Phase3.pair_mask.
  destruct (derive_ok secret (Pairwise (Z.min dropped peer) (Z.max dropped peer) rid))
    as (seed & Hs & Hl); [cbn [purpose_ok]; unfold is_byte in *; lia|].
  cbn [derive] in Hs. rewrite Hs. run.
  destruct (generate_mask_ok seed CHUNK_ELEMENTS Hl) as (m & -> & Hml & _). by exists m.
Qed.

Lemma add_peers_spec r n dropped secret peers g :
  is_byte dropped -> Forall is_byte (dict_keys peers) -> 0 <= round_id r < 2 ^ 32 ->
  fold_result (Phase3.add_peer true r n dropped secret) peers (spec_chunks n CHUNK_ELEMENTS g) =
  Ok (spec_chunks n CHUNK_ELEMENTS (fun i j => g i j + gsum (peer_term r dropped secret j) peers)).
Proof.
  intros Hd Hp Hr. revert g. induction peers as [|[k c] peers IH]; intros g; cbn [fold_result].
  - f_equal. apply spec_chunks_ext. intros i j _ _. apply eqp_of_eq. simpl. lia.
  - unfold dict_keys in Hp. rewrite fmap_cons in Hp. apply Forall_cons in Hp as [Hk Hp].
    simpl in Hk. destruct (pair_mask_ok secret dropped k (round_id r) Hd Hk Hr) as (m & Hm & Hl).
    assert (Phase3.add_peer true r n dropped secret (spec_chunks n CHUNK_ELEMENTS g) (k, c) =
            Ok (spec_chunks n CHUNK_ELEMENTS (fun i j => g i j + peer_term r dropped secret j (k, c))))
      as ->.
    { unfold Phase3.add_peer, peer_term, pair_mask_value. cbn [fst snd]. rewrite Hm.
      destruct (k =? dropped), (truthy (shared_secret c)); cbn [orb negb]; run;
        rewrite ?add_mask_spec by done; f_equal; apply spec_chunks_ext; intros; apply eqp_of_eq; lia. }
    run. rewrite IH by done. f_equal. apply spec_chunks_ext. intros i j _ _.
    apply eqp_of_eq. simpl. lia.
Qed.

Lemma add_dropouts_spec r n ids g :
  Forall is_byte ids -> Forall is_byte (dict_keys (clients r)) -> 0 <= round_id r < 2 ^ 32 ->
  fold_result (Phase3.add_dropout true r n) ids (spec_chunks n CHUNK_ELEMENTS g) =
  Ok (spec_chunks n CHUNK_ELEMENTS (fun i j => g i j + gsum (dropout_term r j) ids)).
Proof.
  intros Hids Hp Hr. revert g. induction Hids as [|d ids Hd Hids IH]; intros g; cbn [fold_result].
  - f_equal. apply spec_chunks_ext. intros i j _ _. apply eqp_of_eq. simpl. lia.
  - assert (Phase3.add_dropout true r n (spec_chunks n CHUNK_ELEMENTS g) d =
            Ok (spec_chunks n CHUNK_ELEMENTS (fun i j => g i j + dropout_term r j d))) as ->.
    { unfold Phase3.add_dropout, dropout_term. destruct (dict_get d (clients r)) as [c|];
        [destruct (truthy (shared_secret c)); [by apply add_peers_spec|]|];
        f_equal; apply spec_chunks_ext; intros; apply eqp_of_eq; lia. }
    run. rewrite IH. f_equal. apply spec_chunks_ext. intros i j _ _. apply eqp_of_eq. simpl. lia.
Qed.

(** What the handlers guarantee of a round: byte-sized ids and 256-byte chunks. *)
Record draft_round_ok (r : RoundState) : Prop := {
  dr_chunk_size : chunk_size r <> 0;
  dr_round_id : 0 <= round_id r < 2 ^ 32;
  dr_dropouts : Forall is_byte (dropout_clients r);
  dr_ids : Forall is_byte (dict_keys (clients r));
  dr_clients : Forall (client_ok CHUNK_ELEMENTS) (dict_values (clients r));
}.

(** C28: the earlier bridge's [_unmask_aggregated_chunks] gives, for every
    chunk and element, the sum in GF(3329) of what the clients that did not
    drop out sent - completed or not - plus, for each dropped client whose
    secret is known, the signed mask it shares with every other client whose
    secret is known; that mask is the same in every chunk. *)
Theorem draft_unmask_sum r i j :
  draft_round_ok r -> 0 <= i < chunk_count r -> (j < CHUNK_ELEMENTS)%nat ->
  exists f, Phase3.unmask_aggregated_chunks true r = Ok f /\
    entry f i j = Some (draft_sum r i j mod FIELD_MODULUS).
Proof.
  intros [Hcs Hr Hd Hk Hc] Hi Hj. unfold Phase3.unmask_aggregated_chunks, num_chunks.
  rewrite (proj2 (Z.eqb_neq _ _) Hcs). run. fold (chunk_count r).
  rewrite zero_chunks_spec, add_all_received.
  - run. rewrite add_dropouts_spec by done. eexists. split; [done|].
    rewrite entry_spec by done. done.
  - unfold dict_values in Hc. apply Forall_fmap.
    apply Forall_forall. intros p [_ Hp]%list_elem_of_filter. rewrite Forall_forall in Hc.
    apply Hc, (list_elem_of_fmap_2 snd _ _ Hp).
Qed.
End Unmask.

(** ** update_task5.py's bridge never answers *)

Section Silent.
Context {L : CryptoLib} (encapsulate : nat -> bytes -> result (bytes * bytes)).

Definition silent_net (n : Net) : Prop := client_writers n = [] /\ wire n = [].
Definition silent_ctx (c : Ctx) : Prop := silent_net (net c).
Definition silent (b : Bridge) : Prop := silent_net (bridge_net b).

Lemma silent_update_round f : preserves silent_ctx (update_round f).
Proof. by apply preserves_modify. Qed.

Lemma silent_get_client cid : preserves silent_ctx (get_client cid).
Proof. intros s Hs. unfold exec. by rewrite get_client_run. Qed.

Lemma silent_update_client cid f : preserves silent_ctx (update_client cid f).
Proof. intros s Hs. unfold exec. rewrite update_client_run. by case_match. Qed.

Lemma silent_the_round {A} (f : RoundState -> M Ctx A) :
  (forall r, preserves silent_ctx (f r)) -> preserves silent_ctx (the_round ≫= f).
Proof. intros H. apply preserves_bind; [apply preserves_gets|done]. Qed.

Lemma silent_draw pk : preserves silent_ctx (draw_encapsulation encapsulate pk).
Proof.
  unfold draw_encapsulation. apply preserves_bind; [apply preserves_gets|]. intros c.
  apply preserves_bind; [|intros _; apply preserves_lift].
  apply preserves_modify. intros s Hs. by destruct s as [[] r].
Qed.

Lemma silent_round : preserves silent_ctx the_round.
Proof. apply preserves_gets. Qed.

Create HintDb silent_db.
#[local] Hint Resolve silent_update_round silent_round silent_get_client silent_update_client silent_draw
  preserves_skip preserves_lift preserves_raise preserves_gets : silent_db.

(** Runs through a method whose statements all keep [silent_ctx]. *)
Ltac silent_auto :=
  keeps_walk ltac:(fun _ => auto with silent_db).

(** The ciphertext has nowhere to go: no writer is registered. *)
Lemma silent_encapsulate_to cid pk : preserves silent_ctx (encapsulate_to encapsulate cid pk).
Proof.
  unfold encapsulate_to. do 4 (apply preserves_bind; [solve [auto with silent_db]|intros ?]).
  apply preserves_bind_gets. intros s Hs. destruct Hs as [Hw Hwire]. rewrite Hw. by split.
Qed.
#[local] Hint Resolve silent_encapsulate_to : silent_db.

Lemma silent_broadcast f : preserves silent_ctx (broadcast_chunks f).
Proof.
  unfold broadcast_chunks. apply preserves_bind_gets. intros s Hs.
  destruct Hs as [Hw Hwire]. rewrite Hw. by split.
Qed.
#[local] Hint Resolve silent_broadcast : silent_db.

Lemma silent_setup : preserves silent_ctx (setup_keys_and_masks encapsulate).
Proof. unfold setup_keys_and_masks, setup_client, derive_seeds, derive_seed_for. silent_auto. Qed.
#[local] Hint Resolve silent_setup : silent_db.

Lemma silent_check : preserves silent_ctx (Task5.check_round_completion encapsulate).
Proof. unfold Task5.check_round_completion, Task5.aggregate_and_broadcast. silent_auto. Qed.

Lemma silent_recovery : preserves silent_ctx Task5.trigger_recovery.
Proof. unfold Task5.trigger_recovery, Task5.recover_client. silent_auto. Qed.
#[local] Hint Resolve silent_check silent_recovery : silent_db.

(** From a method on a round to a handler on the bridge. *)
Lemma silent_with_round rid m : preserves silent_ctx m -> preserves silent (with_round rid m).
Proof.
  intros Hm b Hb. unfold exec, with_round. destruct (dict_get rid (rounds b)) as [rs|]; [|done].
  unfold on_round. specialize (Hm {| net := bridge_net b; round := rs |} Hb). unfold exec in Hm.
  by destruct (m _) as [res c].
Qed.

Lemma silent_with_client cid m :
  (forall c, preserves silent_ctx (m c)) -> preserves silent_ctx (with_client cid m).
Proof. intros Hm s Hs. unfold exec. rewrite with_client_run. case_match; [by apply Hm|done]. Qed.

Lemma silent_dispatch h payload writer :
  preserves silent (Task5.dispatch_message encapsulate h payload writer).
Proof.
  unfold Task5.dispatch_message, dispatch_draft. repeat case_match.
  - apply silent_with_round. silent_auto.
  - apply silent_with_round, silent_with_client. intros c. silent_auto.
  - apply silent_with_round, silent_with_client. intros c. silent_auto.
  - apply silent_with_round. unfold note_dropout. silent_auto.
  - intros b Hb. unfold exec, handle_round_init.
    rewrite (M_bind_ok _ _ _ b b) by done. case_match; [done|].
    destruct (decode_round_init payload) as [[[[e t] c] m]|e]; [done|done].
  - apply preserves_skip.
Qed.

(** Any sequence of messages, each with its header, payload and connection. *)
Definition task5_run (msgs : list (MessageHeader * bytes * Z)) (b : Bridge) : Bridge :=
  fold_left (fun b '(h, payload, writer) => exec (Task5.dispatch_message encapsulate h payload writer) b)
    msgs b.

(** C30: the bridge that update_task5.py writes never sends a byte: storing the
    writer of a KEM_PUBLIC_KEY message is a [NameError], raised after the key
    was stored, so whatever messages arrive, no writer is ever registered and
    neither ciphertexts nor results leave the server. *)
Theorem task5_never_writes msgs :
  client_writers (bridge_net (task5_run msgs new_bridge)) = [] /\
  wire (bridge_net (task5_run msgs new_bridge)) = [] /\
  forall b h payload writer rs,
    h_message_type h = MSG_TYPE_KEM_PUBLIC_KEY -> dict_get (h_round_id h) (rounds b) = Some rs ->
    outcome (Task5.dispatch_message encapsulate h payload writer) b = Err (NameError "writer").
Proof.
  assert (Hs : silent (task5_run msgs new_bridge)).
  { unfold task5_run. apply (fold_left_inv silent); [done|].
    intros b [[h p] w] Hb. by apply silent_dispatch. }
  split; [apply Hs|]. split; [apply Hs|]. intros b h payload writer rs Hty Hrs.
  unfold Task5.dispatch_message, dispatch_draft. rewrite Hty. cbn [Z.eqb].
  change (MSG_TYPE_KEM_PUBLIC_KEY =? MSG_TYPE_KEM_PUBLIC_KEY) with true. cbn iota.
  unfold outcome, Task5.handle_public_key, with_round. rewrite Hrs. unfold on_round.
  set (s := {| net := bridge_net b; round := rs |}). rewrite (M_bind_ok _ _ _ rs s) by done.
  destruct (dict_get (h_client_id h) (clients rs)) as [c|] eqn:E.
  - rewrite (M_bind_ok _ _ _ tt s) by done. unfold mbind, M_bind. rewrite update_client_run.
    subst s. cbn [round]. rewrite E. done.
  - unfold mbind, M_bind, update_round, modify. rewrite update_client_run. subst s. cbn [round net].
    destruct rs. simpl. by rewrite dict_get_set_eq.
Qed.
End Silent.

(** ** Key setup did not change *)

Lemma setup_same encapsulate rid s :
  (forall n pk ct ss, encapsulate n pk = Ok (ct, ss) -> truthy (Some ss) = true) ->
  round_wf rid (round s) -> 0 <= rid < 2 ^ 32 ->
  Keys.setup_keys_and_masks encapsulate s = setup_keys_and_masks encapsulate s.
Proof.
  intros Hne Hwf Hrid. unfold Keys.setup_keys_and_masks, setup_keys_and_masks.
  rewrite !(M_bind_ok _ _ _ (round s) s) by done.
  assert (Hd : during (round s) (net s) s).
  { split; [done|]. split; [done|]. done. }
  pose proof (setup_clients_triple encapsulate Hne rid (round s) (net s) Hwf Hrid s Hd) as H.
  unfold mbind at 1, M_bind at 1. unfold mbind at 4, M_bind at 4.
  destruct (for_each _ (setup_client encapsulate) s) as [[[]|e] s1]; [|done].
  destruct H as [Hd1 Hk1].
  destruct (pairwise_loops_quiet encapsulate (round s) (net s) s1 Hd1 Hk1) as [Hq1 Hq2].
  rewrite (M_bind_ok _ _ _ tt s1) by done. by rewrite (M_bind_ok _ _ _ tt s1).
Qed.

(** C18: the pairwise passes that the later bridge adds to
    [_setup_keys_and_masks] - the initiator/responder loop and
    [_orchestrate_pairwise_kem] - never do anything.  On every well-formed
    round, with a KEM whose secrets are not empty, the later method and the
    earlier one, which has neither pass, return the same result, raise the
    same exceptions and leave the same state and the same messages. *)
Theorem pairwise_passes_idle encapsulate rid s :
  (forall n pk ct ss, encapsulate n pk = Ok (ct, ss) -> truthy (Some ss) = true) ->
  round_wf rid (round s) -> 0 <= rid < 2 ^ 32 ->
  Keys.setup_keys_and_masks encapsulate s = setup_keys_and_masks encapsulate s.
Proof. apply setup_same. Qed.

(** ** The earlier round completes *)

Section Phase3Completes.
Context {L : CryptoLib} {Laws : CryptoLaws L}.
Context (encapsulate : nat -> bytes -> result (bytes * bytes)).
Hypothesis encapsulate_nonempty : forall n pk ct ss,
  encapsulate n pk = Ok (ct, ss) -> truthy (Some ss) = true.

(** The sums over all clients, and what a writer is sent. *)
Definition plain_sums (r : RoundState) : chunks :=
  spec_chunks (chunk_count r) CHUNK_ELEMENTS
    (fun i j => gsum (fun c => chunk_value CHUNK_ELEMENTS c i j) (dict_values (clients r))).

Definition draft_messages (r : RoundState) (f : chunks) (writers : list Z) : list (Z * bytes) :=
  concat ((fun w => (fun i => (w, sent_message (fun r i => complete_message r f i) r i))
                      <$> range (chunk_count r)) <$> writers).

(** With no dropouts the masks do not enter. *)
Lemma unmask_no_dropouts r :
  dropout_clients r = [] -> chunk_size r <> 0 ->
  Forall (client_ok CHUNK_ELEMENTS) (dict_values (clients r)) ->
  Phase3.unmask_aggregated_chunks true r = Ok (plain_sums r).
Proof.
  intros Hd Hcs Hc. unfold Phase3.unmask_aggregated_chunks, num_chunks.
  rewrite (proj2 (Z.eqb_neq _ _) Hcs). run. rewrite Hd.
  assert (Hall : filter (fun p : Z * ClientState => negb (is_dropout r (fst p))) (clients r) = clients r).
  { unfold is_dropout. rewrite Hd. clear. induction (clients r) as [|p l IH]; [done|].
    by rewrite filter_cons_True, IH. }
  fold (dict_values (filter (fun p : Z * ClientState => negb (is_dropout r (fst p))) (clients r))).
  rewrite Hall, zero_chunks_spec, add_all_received by done. run. done.
Qed.

Lemma plain_sums_frame r r' : round_frame r r' -> plain_sums r' = plain_sums r.
Proof.
  intros Hf. unfold plain_sums. rewrite (data_chunk_count r) by by apply frame_same_data. apply spec_chunks_ext.
  intros i j _ _. apply eqp_of_eq. unfold dict_values.
  pose proof (rf_clients _ _ Hf) as Hl. induction Hl as [|p p' l l' [_ Hc] Hl IH]; [done|].
  rewrite !fmap_cons. cbn [gsum foldr]. unfold gsum in IH. rewrite IH. f_equal.
  destruct Hc as (_&_&_&Hr&_). unfold chunk_value. by rewrite Hr.
Qed.

Lemma frame_values_ok r r' :
  round_frame r r' -> Forall (client_ok CHUNK_ELEMENTS) (dict_values (clients r)) ->
  Forall (client_ok CHUNK_ELEMENTS) (dict_values (clients r')).
Proof.
  intros Hf H. unfold dict_values in *.
  pose proof (rf_clients _ _ Hf) as Hl. induction Hl as [|p p' l l' [_ Hc] Hl IH]; [done|].
  rewrite fmap_cons in *. apply Forall_cons in H as [[Hk Hch] H]. constructor; [|by apply IH].
  destruct Hc as (_&_&_&Hr&_). split; by rewrite Hr.
Qed.

Lemma draft_message_ok rid r g i :
  round_id r = rid -> 0 <= rid < 2 ^ 32 -> 0 <= i < chunk_count r -> chunk_count r <= 65536 ->
  exists m, complete_message r (spec_chunks (chunk_count r) CHUNK_ELEMENTS g) i = Ok m.
Proof.
  intros Hid Hrid Hi Hn. unfold complete_message, dict_index. rewrite spec_chunks_get by done. run.
  destruct (struct_pack_success (chunk_format CHUNK_ELEMENTS) (spec_row CHUNK_ELEMENTS (g i)))
    as [data Hdata].
  { apply Forall2_replicate_l; [by rewrite spec_row_length|].
    eapply Forall_impl; [apply spec_row_range|].
    intros x Hx. unfold FIELD_MODULUS in Hx. cbn [code_range]. change (2 ^ 15) with 32768. lia. }
  rewrite Hdata. run. apply struct_pack_ok in Hdata as (_ & Hl & _).
  unfold chunk_format in Hl. rewrite calcsize_replicate in Hl.
  change (CHUNK_ELEMENTS * code_size Ch)%nat with 256%nat in Hl.
  destruct (build_header_ok MSG_TYPE_ROUND_COMPLETE (round_id r) 0 i (Z.of_nat (length data)))
    as (hd & -> & _); [|run; by eexists].
  rewrite Hid. unfold header_fits, MSG_TYPE_ROUND_COMPLETE. lia.
Qed.

Lemma client_values_ok rid r :
  round_wf rid r -> chunk_size r = 128 -> Forall (client_ok CHUNK_ELEMENTS) (dict_values (clients r)).
Proof.
  intros Hwf Hcs. apply Forall_forall. intros c ([k c'] & -> & Hin)%list_elem_of_fmap.
  apply (rw_client _ _ Hwf) in Hin. rewrite Hcs in Hin. by apply (client_wf_ok rid 128 k c').
Qed.

(** C29: the earlier bridge completes a well-formed round of 128-element chunks
    without dropouts: with at most 65536 chunks, a round id below 2^32, a KEM
    whose encapsulations succeed with non-empty secrets and no lost connection,
    [_aggregate_and_broadcast] returns, stores the plain sums of the chunks all
    clients sent (no division, no sample weights) and sends each connected
    client every chunk in order; but it leaves the round in [MASK_SETUP].
    Nothing is claimed of other rounds. *)
Theorem phase3_aggregation_completes rid s :
  round_wf rid (round s) -> 0 <= rid < 2 ^ 32 -> chunk_size (round s) = 128 ->
  chunk_count (round s) <= 65536 -> dropout_clients (round s) = [] ->
  favourable encapsulate (net s) ->
  exists s', Phase3.aggregate_and_broadcast true encapsulate s = (Ok tt, s') /\
    stage (round s') = MASK_SETUP /\ unmasked_chunks (round s') = plain_sums (round s) /\
    exists ciphertexts, wire (net s') = wire (net s) ++ ciphertexts ++
      draft_messages (round s') (plain_sums (round s)) (dict_values (client_writers (net s))).
Proof.
  intros Hwf Hrid Hcs Hn Hd Hfav. unfold Phase3.aggregate_and_broadcast.
  pose proof (setup_triple encapsulate encapsulate_nonempty rid (round s) (net s) Hwf Hrid s
                (conj eq_refl eq_refl)) as H.
  rewrite (setup_same encapsulate rid s) in H by done.
  destruct (setup_keys_and_masks encapsulate s) as [[[]|e] s1] eqn:Es;
    [|by destruct H as [_ []]].
  destruct H as (Hf & Hnet & Hst & _). rewrite (M_bind_ok _ _ _ tt s1) by done.
  rewrite (M_bind_ok _ _ _ (round s1) s1) by done.
  assert (Hcs1 : chunk_size (round s1) = 128) by (by rewrite (rf_chunk_size _ _ Hf)).
  rewrite unmask_no_dropouts, lift_ok_bind, (plain_sums_frame (round s));
    [|done|by rewrite (rf_dropouts _ _ Hf)|lia|].
  2:{ apply (frame_values_ok (round s)); [done|]. by eapply client_values_ok. }
  set (f := plain_sums (round s)). set (s2 := {| net := net s1; round := set_unmasked f (round s1) |}).
  rewrite (M_bind_ok _ _ _ tt s2) by done.
  assert (Hr2 : round_id (round s2) = rid /\ chunk_count (round s2) = chunk_count (round s) /\
                chunk_size (round s2) = 128 /\ stage (round s2) = MASK_SETUP /\
                unmasked_chunks (round s2) = f).
  { pose proof (rf_id _ _ Hf). pose proof (rw_id _ _ Hwf).
    pose proof (data_chunk_count _ _ (frame_same_data _ _ Hf)) as Hcc. unfold chunk_count, s2 in *.
    destruct (round s1). simpl in *. split_and!; congruence. }
  destruct Hr2 as (Hid2 & Hcc2 & Hcs2 & Hst2 & Hu2).
  unfold broadcast_chunks. rewrite (M_bind_ok _ _ _ (net s2) s2) by done.
  rewrite (send_all_run (fun r i => complete_message r f i) _ _ (chunk_count (round s)) s2).
  - eexists. split; [done|]. split; [done|]. split; [done|]. destruct (nf_wire _ _ Hnet) as [cts Hw].
    exists cts. cbn [add_wire net wire round]. change (wire (net s2)) with (wire (net s1)).
    rewrite Hw, <- app_assoc. do 2 f_equal.
    unfold draft_messages. rewrite Hcc2. by rewrite <- (nf_writers _ _ Hnet).
  - done.
  - change (net s2) with (net s1). rewrite (nf_lost _ _ Hnet). apply Hfav.
  - unfold num_chunks. rewrite Hcs2. rewrite <- Hcc2. unfold chunk_count. by rewrite Hcs2.
  - intros i Hi%elem_of_range. unfold f, plain_sums. rewrite <- Hcc2.
    apply (draft_message_ok rid); try done; lia.
Qed.
End Phase3Completes.

(** ** Concrete instances *)

Definition draft_client (cid : Z) (received : list (Z * bytes)) : ClientState :=
  set_received received (set_public_key [cid; 7; 7] (new_client cid 5)).

(** Two clients with two chunks of 128 elements; a third one may drop out. *)
Definition draft_round (dropouts : list Z) : RoundState := {|
  round_id := 5; expected_clients := 3; threshold := 2; chunk_size := 128; model_size := 256;
  clients := [(1, set_shared_secret [9] (draft_client 1 [(0, replicate 256 1)]));
              (2, set_shared_secret [4] (draft_client 2 [(1, replicate 256 2); (0, replicate 256 3)]));
              (3, set_shared_secret [6] (draft_client 3 []))];
  stage := INIT; dropout_clients := dropouts; unmasked_chunks := [] |}.

Definition draft_ctx : Ctx := {|
  net := set_writers [(1, 11); (2, 12)] empty_net; round := draft_round [] |}.

Lemma draft_unmask_sum_witness :
  exists f, Phase3.unmask_aggregated_chunks true (draft_round [3]) = Ok f /\
    entry f 1 7 = Some (draft_sum (draft_round [3]) 1 7 mod FIELD_MODULUS).
Proof.
  apply (draft_unmask_sum (draft_round [3]) 1 7).
  - split; try (by apply (bool_decide_unpack _)).
    repeat (apply Forall_cons; split; [apply client_okb_ok; reflexivity|]). by apply Forall_nil.
  - split; [discriminate|reflexivity].
  - apply (bool_decide_unpack _). reflexivity.
Defined.

(** A key message to a bridge that knows the round. *)
Definition key_message : MessageHeader := {|
  h_protocol_version := PROTOCOL_VERSION; h_round_id := 5; h_client_id := 1;
  h_message_type := MSG_TYPE_KEM_PUBLIC_KEY; h_sequence_number := 0; h_payload_length := 3;
  h_reserved := 0 |}.

Lemma task5_never_writes_witness :
  outcome (Task5.dispatch_message (encapsulate_pq (Some true)) key_message [1; 2; 3] 11)
    {| rounds := [(5, draft_round [])]; current_round_id := 5; bridge_net := empty_net |}
  = Err (NameError "writer").
Proof.
  destruct (task5_never_writes (encapsulate_pq (Some true)) []) as (_ & _ & H).
  apply (H _ key_message [1; 2; 3] 11 (draft_round [])); reflexivity.
Defined.

Lemma pairwise_passes_idle_witness :
  Keys.setup_keys_and_masks (encapsulate_pq (Some true)) dropout_ctx =
  setup_keys_and_masks (encapsulate_pq (Some true)) dropout_ctx.
Proof.
  apply (pairwise_passes_idle (encapsulate_pq (Some true)) 5 dropout_ctx).
  - apply toy_encapsulate_nonempty.
  - apply open_round_wfb_ok. reflexivity.
  - lia.
Defined.

Lemma phase3_aggregation_completes_witness :
  exists s', Phase3.aggregate_and_broadcast true (encapsulate_pq (Some true)) draft_ctx = (Ok tt, s') /\
    stage (round s') = MASK_SETUP /\
    entry (unmasked_chunks (round s')) 0 9 = Some (257 * 4).
Proof.
  destruct (phase3_aggregation_completes (encapsulate_pq (Some true)) toy_encapsulate_nonempty 5 draft_ctx)
    as (s' & Hs' & Hst & Hu & _).
  - apply open_round_wfb_ok. reflexivity.
  - lia.
  - reflexivity.
  - apply (bool_decide_unpack _). reflexivity.
  - reflexivity.
  - split; [reflexivity|]. intros k pk. eexists _, _. split; [reflexivity|]. rewrite length_take. lia.
  - exists s'. split; [exact Hs'|]. split; [exact Hst|]. rewrite Hu. reflexivity.
Defined.
