(* ===== verification/Variants.v ===== *)
(** * The three bridges

    [ProtocolBridge] as HEAD has it, [ProtocolBridge] as the incoming side of
    the merge conflict has it, and [ClassicalProtocolBridge] of
    host_server/baseline_server.py, each assembled from the shared handlers,
    and the theorems about their message handling. *)

From Stdlib Require Import ZArith Lia.
From stdpp Require Import prelude.
From S2P Require Import Prelude PyDict PyBytes Field Lagrange Shamir Sha256 Kdf Crypto Masks Wire.
From S2P Require Import State Aggregate FedAvg Keys Bridge Invariant Server KeySetup Completion.

(** ** HEAD's methods that have a twin elsewhere

    HEAD keeps the incoming side's [_unmask_client_chunks] and
    [_compute_fedavg], which nothing calls any more, and its own copies of the
    key derivation of host_server/shamir_recovery.py. *)

Module HeadBridge.
Section Copies.
Context {L : CryptoLib} (CRYPTO_AVAILABLE : bool).

Definition hkdf_extract := Kdf.hkdf_extract.
Definition hkdf_expand := Kdf.hkdf_expand.
Definition derive_pairwise_seed := derive_pairwise_mask_seed.
Definition derive_stream_seed := derive_stream_mask_seed.
Definition aes_ctr_stream := bridge_aes_ctr_stream CRYPTO_AVAILABLE.
Definition generate_mask_from_seed := bridge_generate_mask_from_seed CRYPTO_AVAILABLE.
Definition unmask_client_chunks := Incoming.unmask_client_chunks CRYPTO_AVAILABLE.
Definition compute_fedavg := Incoming.compute_fedavg.

End Copies.
End HeadBridge.

(** ** The incoming side's copies of the shared methods *)

Module IncomingBridge.
Section Copies.
Context {L : CryptoLib} (CRYPTO_AVAILABLE : bool) (OQS_AVAILABLE : option bool).
Context (reconstruct_secret : list (Z * Z) -> result Z).

Definition MessageHeader := Wire.MessageHeader.
Definition ClientState := State.ClientState.
Definition RoundState := State.RoundState.
Definition init := new_bridge.
Definition parse_header := Wire.parse_header.
Definition build_header := Wire.build_header.
Definition hkdf_extract := Kdf.hkdf_extract.
Definition hkdf_expand := Kdf.hkdf_expand.
Definition derive_pairwise_seed := derive_pairwise_mask_seed.
Definition derive_stream_seed := derive_stream_mask_seed.
Definition derive_shamir_secret := Kdf.derive_shamir_secret.
Definition aes_ctr_stream := Masks.aes_ctr_stream CRYPTO_AVAILABLE.
Definition generate_mask_from_seed := Masks.generate_mask_from_seed CRYPTO_AVAILABLE.
Definition encapsulate := encapsulate_pq OQS_AVAILABLE.
Definition setup_keys_and_masks : M Ctx unit := Keys.setup_keys_and_masks encapsulate.
Definition orchestrate_pairwise_kem : M Ctx unit := Keys.orchestrate_pairwise_kem encapsulate.
Definition trigger_recovery : M Ctx unit := Keys.trigger_recovery reconstruct_secret.
Definition unmask_and_aggregate : M Ctx unit :=
  incoming_unmask_and_aggregate CRYPTO_AVAILABLE encapsulate reconstruct_secret.
Definition collect_telemetry := Bridge.collect_telemetry.
Definition pack_telemetry := Wire.pack_telemetry.

#[export] Instance aggregator : Aggregator := {|
  Bridge.unmask_and_aggregate := unmask_and_aggregate;
  agg_reconstruct_secret := reconstruct_secret |}.

Definition check_round_completion : M Ctx unit := Bridge.check_round_completion.
Definition handle_round_failure : M Ctx unit := Bridge.handle_round_failure.
Definition handle_round_init := Bridge.handle_round_init.
Definition handle_public_key := Bridge.handle_public_key.
Definition handle_mask_chunk := Bridge.handle_mask_chunk.
Definition handle_client_complete := Bridge.handle_client_complete.
Definition handle_dropout_notify := Bridge.handle_dropout_notify.
Definition dispatch_message := Bridge.dispatch_incoming.
Definition handle_client := Server.handle_client dispatch_message.

End Copies.
End IncomingBridge.

(** ** The classical bridge's copies *)

Module ClassicalBridge.
Section Copies.
Context {L : CryptoLib} (CRYPTO_AVAILABLE : bool).
Context (reconstruct_secret : list (Z * Z) -> result Z).

Definition MessageHeader := Wire.MessageHeader.
Definition ClientState := State.ClientState.
Definition RoundState := State.RoundState.
Definition init := new_bridge.
Definition parse_header := Wire.parse_header.
Definition build_header := Wire.build_header.
Definition hkdf_extract := Kdf.hkdf_extract.
Definition hkdf_expand := Kdf.hkdf_expand.
Definition derive_pairwise_seed := derive_pairwise_mask_seed.
Definition derive_stream_seed := derive_stream_mask_seed.
Definition derive_shamir_secret := Kdf.derive_shamir_secret.
Definition aes_ctr_stream := bridge_aes_ctr_stream true.
Definition generate_mask_from_seed := bridge_generate_mask_from_seed true.
Definition encapsulate := encapsulate_x25519.
Definition setup_keys_and_masks : M Ctx unit := Keys.setup_keys_and_masks encapsulate.
Definition orchestrate_pairwise_kem : M Ctx unit := Keys.orchestrate_pairwise_kem encapsulate.
Definition trigger_recovery : M Ctx unit := Keys.trigger_recovery reconstruct_secret.
Definition unmask_client_chunks := Incoming.unmask_client_chunks CRYPTO_AVAILABLE.
Definition compute_fedavg := Incoming.compute_fedavg.
Definition unmask_and_aggregate : M Ctx unit :=
  incoming_unmask_and_aggregate CRYPTO_AVAILABLE encapsulate reconstruct_secret.
Definition collect_telemetry := Bridge.collect_telemetry.
Definition pack_telemetry := Wire.pack_telemetry.

#[export] Instance aggregator : Aggregator := {|
  Bridge.unmask_and_aggregate := unmask_and_aggregate;
  agg_reconstruct_secret := reconstruct_secret |}.

Definition check_round_completion : M Ctx unit := Bridge.check_round_completion.
Definition handle_round_failure : M Ctx unit := Bridge.handle_round_failure.
Definition handle_round_init := Bridge.handle_round_init.
Definition handle_public_key := Bridge.handle_public_key.
Definition handle_mask_chunk := Bridge.handle_mask_chunk.
Definition handle_client_complete := Bridge.handle_client_complete.
Definition handle_dropout_notify := Bridge.handle_dropout_notify.
Definition handle_pairwise_pubkey := Bridge.handle_pairwise_pubkey.
Definition handle_pairwise_ciphertext := Bridge.handle_pairwise_ciphertext.
Definition dispatch_message := Bridge.dispatch_classical.
Definition handle_client := Server.handle_client dispatch_message.

End Copies.
End ClassicalBridge.

(** ** HEAD, and the choice between the three *)

Inductive variant := HEAD | INCOMING | CLASSICAL.

Section Variants.
Context {L : CryptoLib} (CRYPTO_AVAILABLE : bool) (OQS_AVAILABLE : option bool).
Context (reconstruct_secret : list (Z * Z) -> result Z).

Definition head_aggregator : Aggregator := {|
  Bridge.unmask_and_aggregate :=
    head_unmask_and_aggregate (encapsulate_pq OQS_AVAILABLE) reconstruct_secret;
  agg_reconstruct_secret := reconstruct_secret |}.

Definition encapsulate (v : variant) : nat -> bytes -> result (bytes * bytes) :=
  match v with CLASSICAL => ClassicalBridge.encapsulate | _ => encapsulate_pq OQS_AVAILABLE end.

Definition aggregator (v : variant) : Aggregator :=
  match v with
  | HEAD => head_aggregator
  | INCOMING => IncomingBridge.aggregator CRYPTO_AVAILABLE OQS_AVAILABLE reconstruct_secret
  | CLASSICAL => ClassicalBridge.aggregator CRYPTO_AVAILABLE reconstruct_secret
  end.

Definition dispatch (v : variant) : MessageHeader -> bytes -> Z -> M Bridge unit :=
  match v with
  | HEAD => @dispatch_head (aggregator HEAD)
  | INCOMING => IncomingBridge.dispatch_message CRYPTO_AVAILABLE OQS_AVAILABLE reconstruct_secret
  | CLASSICAL => ClassicalBridge.dispatch_message CRYPTO_AVAILABLE reconstruct_secret
  end.

#[export] Instance aggregator_laws v : AggregatorLaws (aggregator v).
Proof. intros rid. destruct v; [apply keeps_head_aggregate|apply keeps_incoming_aggregate..]. Qed.

Lemma dispatch_keeps_wf v : dispatch_keeps (dispatch v).
Proof.
  pose proof (aggregator_laws v) as Hv. intros h p w Hh Hp.
  destruct v; apply (@keeps_dispatch_common _ Hv h p Hh Hp);
    cbv zeta; repeat case_match; try (by intros b Hb);
    auto using keeps_shamir_share, keeps_pairwise_pubkey, keeps_pairwise_ciphertext.
Qed.

(** The bridges' invariant.  In every state any of the three bridges can
    reach, whatever messages arrive and in whatever order and interleaving, and
    whatever exceptions its handlers raised on the way: rounds and clients are
    stored under their own ids, every stored chunk has exactly the round's
    chunk size and a 16-bit number, ids and counts fit their wire fields, the
    dropout list has no duplicates, a stored result has one row of field
    elements per chunk, and a round marked complete has a result. *)
Theorem bridges_keep_invariant v b : reachable (dispatch v) b -> bridge_wf b.
Proof. apply reachable_bridge_wf, dispatch_keeps_wf. Qed.

(** Both sides of the merge conflict dispatch the pairwise KEM messages
    0x10 and 0x11 to methods the class does not have: the message raises
    [AttributeError] and changes nothing. *)
Theorem pairwise_messages_unhandled v h payload writer b :
  v <> CLASSICAL ->
  (h_message_type h = MSG_TYPE_PAIRWISE_KEM_PUBKEY ->
     dispatch v h payload writer b = (Err (AttributeError "_handle_pairwise_pubkey"), b)) /\
  (h_message_type h = MSG_TYPE_PAIRWISE_KEM_CIPHERTEXT ->
     dispatch v h payload writer b = (Err (AttributeError "_handle_pairwise_ciphertext"), b)).
Proof.
  intros Hv. destruct v; [| |done];
    unfold dispatch, IncomingBridge.dispatch_message, dispatch_incoming, dispatch_head, dispatch_common;
    by split; intros ->.
Qed.

Lemma handle_round_failure_run (s : Ctx) :
  handle_round_failure s =
  (if forallb (fun w => bool_decide (w ∈ closing (net s))) (dict_values (client_writers (net s)))
   then Ok tt else Err (NameError "MSG_TYPE_ERROR"), s).
Proof.
  unfold handle_round_failure. rewrite (M_bind_ok _ _ _ (net s) s) by done.
  induction (dict_values (client_writers (net s))) as [|w l IH]; [done|]. cbn [for_each forallb].
  destruct (bool_decide (w ∈ closing (net s))) eqn:E.
  - rewrite (M_bind_ok _ _ _ tt s); [done|]. rewrite (M_bind_ok _ _ _ (net s) s) by done. by rewrite E.
  - apply M_bind_err. rewrite (M_bind_ok _ _ _ (net s) s) by done. by rewrite E.
Qed.

(** What the completion check does, in each of its three cases: it enters
    [UNMASKING] and aggregates when enough clients have completed and enough
    survive; it enters [ERROR] when too few survive, and then raises
    [NameError] if any connection is still open, so that no client is ever told
    of the failure; otherwise it waits. *)
Theorem check_round_completion_cases v (s : Ctx) :
  let r := round s in
  @check_round_completion (aggregator v) s =
  if (surviving r <=? completed_count r) && (threshold r <=? surviving r) then
    @unmask_and_aggregate (aggregator v) {| net := net s; round := set_stage UNMASKING r |}
  else if surviving r <? threshold r then
    (if forallb (fun w => bool_decide (w ∈ closing (net s))) (dict_values (client_writers (net s)))
     then Ok tt else Err (NameError "MSG_TYPE_ERROR"),
     {| net := net s; round := set_stage ERROR r |})
  else (Ok tt, s).
Proof.
  intros r. unfold check_round_completion. rewrite (M_bind_ok _ _ _ (round s) s) by done. fold r.
  case_match; [|case_match; [|done]].
  - by rewrite (M_bind_ok _ _ _ tt {| net := net s; round := set_stage UNMASKING r |}).
  - rewrite (M_bind_ok _ _ _ tt {| net := net s; round := set_stage ERROR r |}) by done.
    by rewrite handle_round_failure_run.
Qed.


(** ** The last CLIENT_COMPLETE *)

(** What CLIENT_COMPLETE records about its client. *)
Definition mark_complete (payload : bytes) (c : ClientState) : ClientState :=
  set_completed
    (if (4 <=? length payload)%nat then set_sample_count (int_from_bytes (take 4 payload)) c else c).

Definition mark_in_round (cid : Z) (payload : bytes) (c : ClientState) (r : RoundState) : RoundState :=
  set_clients (dict_set cid (mark_complete payload c) (clients r)) r.

Lemma set_clients_twice a b r : set_clients b (set_clients a r) = set_clients b r.
Proof. by destruct r. Qed.

Lemma clients_set_clients a r : clients (set_clients a r) = a.
Proof. by destruct r. Qed.

Lemma mark_run cid payload c (s : Ctx) :
  dict_get cid (clients (round s)) = Some c ->
  (_ ← (if (4 <=? length payload)%nat
        then update_client cid (set_sample_count (int_from_bytes (take 4 payload))) else skip);
   update_client cid set_completed) s =
  (Ok tt, {| net := net s; round := mark_in_round cid payload c (round s) |}).
Proof.
  intros Hc. unfold mark_in_round, mark_complete. destruct (4 <=? length payload)%nat.
  - rewrite (M_bind_ok _ _ _ tt {| net := net s; round := set_clients (dict_set cid
      (set_sample_count (int_from_bytes (take 4 payload)) c) (clients (round s))) (round s) |}).
    + rewrite update_client_run. cbn [round net].
      by rewrite clients_set_clients, dict_get_set_eq, set_clients_twice, dict_set_set.
    + by rewrite update_client_run, Hc.
  - rewrite (M_bind_ok _ _ _ tt s) by done. by rewrite update_client_run, Hc.
Qed.

Lemma client_complete_run v h payload writer b r c :
  h_message_type h = MSG_TYPE_CLIENT_COMPLETE ->
  dict_get (h_round_id h) (rounds b) = Some r -> dict_get (h_client_id h) (clients r) = Some c ->
  dispatch v h payload writer b =
  on_round (h_round_id h) (mark_in_round (h_client_id h) payload c r)
    (@check_round_completion (aggregator v)) b.
Proof.
  intros Hty Hr Hc.
  assert (dispatch v h payload writer b = @handle_client_complete (aggregator v) h payload b) as ->.
  { destruct v; unfold dispatch, IncomingBridge.dispatch_message, ClassicalBridge.dispatch_message,
      dispatch_incoming, dispatch_head, dispatch_classical, dispatch_common; by rewrite Hty. }
  unfold handle_client_complete, with_round. rewrite Hr. unfold on_round.
  rewrite with_client_run. cbn [round net]. rewrite Hc.
  rewrite <- (M_bind_assoc _ _ (fun _ => check_round_completion)).
  by rewrite (M_bind_ok _ _ _ _ _ (mark_run (h_client_id h) payload c
    {| net := bridge_net b; round := r |} Hc)).
Qed.

Lemma wf_mark_complete rid cs k payload c :
  is_bytes payload -> client_wf rid cs k c -> client_wf rid cs k (mark_complete payload c).
Proof.
  intros Hp Hc. apply wf_set_completed. destruct (4 <=? length payload)%nat eqn:El; [|done].
  apply wf_set_sample_count; [|done].
  by apply four_bytes_range.
Qed.

(** Whatever the class, its aggregation completes a round without dropouts. *)
Lemma aggregator_completes v rid s :
  (forall n pk ct ss, encapsulate v n pk = Ok (ct, ss) -> truthy (Some ss) = true) ->
  round_wf rid (round s) -> 0 <= rid < 2 ^ 32 -> deliverable (round s) ->
  dropout_clients (round s) = [] -> favourable (encapsulate v) (net s) ->
  exists s', @Bridge.unmask_and_aggregate (aggregator v) s = (Ok tt, s') /\
    completed_with s s' (head_spec (round s) (chunk_count (round s))).
Proof.
  intros. destruct v; [by apply (head_completes (encapsulate HEAD) reconstruct_secret rid)|..];
    by eapply incoming_completes.
Qed.

(** C6: the round completes with its last client.  When the CLIENT_COMPLETE
    message of the last expected client reaches any of the three bridges, in a
    well-formed state with no dropouts, the handler returns, and the round is
    complete and stores the aggregate of the chunks the clients sent, this
    client's sample count included.  The aggregate is the weighted mean of those
    chunks, element by element, if the completed clients all have samples or
    all have none and the sum of their weights is not a multiple of 3329.  The
    round's chunk size is in 1..32737 and its chunk count at most 65536, its
    threshold is at most the number of expected clients, no connection is lost,
    the cryptographic libraries are there, and encapsulation gives non-empty
    secrets. *)
Theorem last_client_completes_round v h payload writer b r c :
  (forall n pk ct ss, encapsulate v n pk = Ok (ct, ss) -> truthy (Some ss) = true) ->
  bridge_wf b -> header_wf h -> is_bytes payload ->
  h_message_type h = MSG_TYPE_CLIENT_COMPLETE ->
  dict_get (h_round_id h) (rounds b) = Some r -> dict_get (h_client_id h) (clients r) = Some c ->
  dropout_clients r = [] -> deliverable r -> favourable (encapsulate v) (bridge_net b) ->
  let r1 := set_stage UNMASKING (mark_in_round (h_client_id h) payload c r) in
  threshold r <= expected_clients r <= completed_count r1 ->
  exists b' r', dispatch v h payload writer b = (Ok tt, b') /\
    dict_get (h_round_id h) (rounds b') = Some r' /\ stage r' = ROUND_COMPLETE /\
    unmasked_chunks r' = head_spec r1 (chunk_count r) /\
    (same_kind (contributors r1) -> ~ (weight_sum r1 == 0)%gf -> weighted_means r1 (unmasked_chunks r')).
Proof.
  intros Hne Hb Hh Hp Hty Hr Hc Hd Hdel Hfav r1 Hcount.
  rewrite (client_complete_run v h payload writer b r c Hty Hr Hc). unfold on_round.
  apply dict_get_elem in Hr as Hin. apply (bw_round _ Hb) in Hin as Hwf.
  pose (s := {| net := bridge_net b; round := r1 |}).
  assert (Hwf1 : round_wf (h_round_id h) r1).
  { apply wf_set_stage; [done|]. apply wf_set_client; [done|]. apply wf_mark_complete; [done|].
    apply dict_get_elem in Hc. by apply (rw_client _ _ Hwf). }
  assert (Hsame : dropout_clients r1 = dropout_clients r /\ threshold r1 = threshold r /\
            expected_clients r1 = expected_clients r /\ chunk_size r1 = chunk_size r /\
            model_size r1 = model_size r) by (by destruct r).
  destruct Hsame as (Hd1 & Ht1 & He1 & Hcs1 & Hm1).
  assert (Hcc : chunk_count r1 = chunk_count r) by (unfold chunk_count; by rewrite Hcs1, Hm1).
  assert (Hdel1 : deliverable r1) by (destruct Hdel; split; by rewrite ?Hcs1, ?Hcc).
  assert (Hcheck : @check_round_completion (aggregator v)
            {| net := bridge_net b; round := mark_in_round (h_client_id h) payload c r |} =
          @Bridge.unmask_and_aggregate (aggregator v) s).
  { unfold check_round_completion.
    rewrite (M_bind_ok _ _ _ (mark_in_round (h_client_id h) payload c r) _) by done.
    assert (surviving (mark_in_round (h_client_id h) payload c r) = expected_clients r) as ->.
    { unfold surviving. destruct r. simpl in *. rewrite Hd. simpl. lia. }
    assert (completed_count (mark_in_round (h_client_id h) payload c r) = completed_count r1) as ->
      by (by destruct r).
    assert (threshold (mark_in_round (h_client_id h) payload c r) = threshold r) as -> by (by destruct r).
    rewrite (proj2 (Z.leb_le _ _)), (proj2 (Z.leb_le _ _)) by lia. cbn [andb].
    by rewrite (M_bind_ok _ _ _ tt s). }
  rewrite Hcheck.
  assert (Hagg : exists s', @Bridge.unmask_and_aggregate (aggregator v) s = (Ok tt, s') /\
            completed_with s s' (head_spec r1 (chunk_count r))).
  { rewrite <- Hcc. apply (aggregator_completes v (h_round_id h)); try done.
    - apply (hw_round _ Hh).
    - exact (eq_trans Hd1 Hd). }
  destruct Hagg as (s' & -> & _ & Hst & Hres & _). eexists _, (round s'). split; [done|].
  split; [apply dict_get_set_eq|]. split; [done|]. split; [done|]. intros Hk Hw.
  rewrite Hres, <- Hcc. apply head_spec_means; [|done|done].
  apply no_dropouts_none_completed. exact (eq_trans Hd1 Hd).
Qed.

End Variants.

(** ** A concrete exchange *)

Definition message (ty rid cid seq : Z) (payload : bytes) : MessageHeader * bytes :=
  (Build_MessageHeader PROTOCOL_VERSION rid cid ty seq (Z.of_nat (length payload)) 0, payload).

(** Round 1: two clients, threshold 2, chunks of 2 values, 4 values; client 2 is
    about to report 3 samples. *)
Definition ready_client (cid : Z) (done : bool) (samples : Z) (received : list (Z * bytes)) : ClientState := {|
  client_id := cid; client_round_id := 1; public_key := Some [cid; 9]; shared_secret := None;
  expected_chunks := 0; received_chunks := received; completed := done; pairwise_seeds := [];
  stream_seeds := []; sample_count := samples; shamir_shares := None |}.

Definition ready_round (done2 : bool) (samples2 : Z) : RoundState := {|
  round_id := 1; expected_clients := 2; threshold := 2; chunk_size := 2; model_size := 4;
  clients := [(1, ready_client 1 true 1 [(0, [0; 4; 0; 5]); (1, [0; 1; 0; 1])]);
              (2, ready_client 2 done2 samples2 [(1, [0; 2; 0; 9]); (0, [0; 8; 255; 253])])];
  stage := INIT; dropout_clients := []; unmasked_chunks := [] |}.

Definition ready_net : Net := {|
  client_writers := [(1, 11); (2, 12)]; wire := []; closing := []; lost := []; encaps_used := 0 |}.

Definition ready_bridge : Bridge := {|
  rounds := [(1, ready_round false 0)]; current_round_id := 1; bridge_net := ready_net |}.

Definition last_message : MessageHeader * bytes := message MSG_TYPE_CLIENT_COMPLETE 1 2 0 [0; 0; 0; 3].

Lemma ready_bridge_wf : bridge_wf ready_bridge.
Proof.
  split; [apply NoDup_singleton|]. intros rid r Hin. apply list_elem_of_singleton in Hin as [= -> ->].
  apply open_round_wfb_ok. reflexivity.
Qed.

Lemma last_message_wf : header_wf (fst last_message).
Proof. split; vm_compute; (split; [discriminate|reflexivity]). Qed.

Lemma toy_favourable n : lost n = [] -> favourable (encapsulate (Some true) HEAD) n.
Proof.
  intros Hl. split; [done|]. intros k pk. eexists _, _. split; [reflexivity|].
  rewrite length_take. lia.
Qed.

Lemma aggregation_completes_witness :
  exists s', head_unmask_and_aggregate (encapsulate_pq (Some true)) Shamir.Head.reconstruct_secret
    {| net := ready_net; round := ready_round true 3 |} = (Ok tt, s') /\
    unmasked_chunks (round s') = [(0, [7; 3328]); (1, [834; 7])].
Proof.
  destruct (aggregation_completes true (encapsulate_pq (Some true)) Shamir.Head.reconstruct_secret 1
    {| net := ready_net; round := ready_round true 3 |}) as [(s' & Hs' & _ & _ & Hf & _) _].
  - apply toy_encapsulate_nonempty.
  - apply open_round_wfb_ok. reflexivity.
  - lia.
  - split; vm_compute; [split; [reflexivity|discriminate]|discriminate].
  - reflexivity.
  - apply toy_favourable. reflexivity.
  - exists s'. split; [exact Hs'|]. rewrite Hf. reflexivity.
Defined.

(** The round of [ready_bridge] once client 2 has completed: both clients have
    samples, four in all. *)
Definition completed_round : RoundState :=
  set_stage UNMASKING (mark_in_round (h_client_id (fst last_message)) (snd last_message)
    (ready_client 2 false 0 [(1, [0; 2; 0; 9]); (0, [0; 8; 255; 253])]) (ready_round false 0)).

Lemma completed_round_kind : same_kind (contributors completed_round) /\ weight_sum completed_round = 4.
Proof. split; [left; repeat constructor|reflexivity]. Qed.

Lemma last_client_completes_round_witness :
  exists b' r', dispatch true (Some true) Shamir.Head.reconstruct_secret HEAD
      (fst last_message) (snd last_message) 12 ready_bridge = (Ok tt, b') /\
    dict_get 1 (rounds b') = Some r' /\ stage r' = ROUND_COMPLETE /\
    unmasked_chunks r' = [(0, [7; 3328]); (1, [834; 7])] /\
    weighted_means completed_round (unmasked_chunks r').
Proof.
  destruct (last_client_completes_round true (Some true) Shamir.Head.reconstruct_secret HEAD
    (fst last_message) (snd last_message) 12 ready_bridge (ready_round false 0)
    (ready_client 2 false 0 [(1, [0; 2; 0; 9]); (0, [0; 8; 255; 253])]))
    as (b' & r' & Hrun & Hr & Hst & Hres & Hmeans).
  - apply toy_encapsulate_nonempty.
  - apply ready_bridge_wf.
  - apply last_message_wf.
  - repeat (constructor; [split; lia|]). constructor.
  - reflexivity.
  - reflexivity.
  - reflexivity.
  - reflexivity.
  - split; vm_compute; [split; [reflexivity|discriminate]|discriminate].
  - apply toy_favourable. reflexivity.
  - vm_compute. split; discriminate.
  - exists b', r'. split; [exact Hrun|]. split; [exact Hr|]. split; [exact Hst|]. split; [exact Hres|].
    apply Hmeans; [apply completed_round_kind|].
    change (~ (weight_sum completed_round == 0)%gf). rewrite (proj2 completed_round_kind).
    intros [H]. discriminate H.
Defined.

(** The first two messages of a round. *)
Definition init_message : MessageHeader * bytes :=
  message MSG_TYPE_ROUND_INIT 1 0 0 [2; 2; 2; 0; 4; 0; 0; 0].

Lemma bridges_keep_invariant_witness :
  bridge_wf (exec (dispatch true (Some true) Shamir.Head.reconstruct_secret HEAD
                     (fst init_message) (snd init_message) 11) new_bridge).
Proof.
  apply (bridges_keep_invariant true (Some true) Shamir.Head.reconstruct_secret HEAD).
  eapply reach_step; [apply reach_init|]. apply step_message.
  - split; vm_compute; (split; [discriminate|reflexivity]).
  - repeat (constructor; [split; lia|]). constructor.
Defined.

Lemma pairwise_messages_unhandled_witness :
  dispatch true (Some true) Shamir.Head.reconstruct_secret INCOMING
    (fst (message 0x10 1 1 0 [])) [] 11 new_bridge =
  (Err (AttributeError "_handle_pairwise_pubkey"), new_bridge).
Proof.
  apply (pairwise_messages_unhandled true (Some true) Shamir.Head.reconstruct_secret INCOMING).
  - discriminate.
  - reflexivity.
Defined.

(** The stream of the initialisation message, cut off in the next header. *)
Definition init_stream : bytes :=
  [0; 1; 0; 0; 0; 0; 0; 1; 0; 0x40; 0; 0; 0; 8; 0; 0] ++ snd init_message.

Lemma framing_correct_witness :
  handle_client (dispatch true (Some true) Shamir.Head.reconstruct_secret HEAD)
    (init_stream ++ [0; 1; 0]) 11 new_bridge =
  (Ok tt, {| rounds := [(1, new_round 1 2 2 2 4)]; current_round_id := 1;
             bridge_net := close_conn 11 empty_net |}).
Proof.
  change init_stream with (concat [init_stream]).
  rewrite (framing_correct _ [init_message] [init_stream] [0; 1; 0] 11 new_bridge).
  - reflexivity.
  - constructor; [|constructor]. eexists. split; [reflexivity|]. split; reflexivity.
  - simpl. unfold HEADER_SIZE. lia.
Defined.
