(* ===== verification/Effects.v ===== *)
(** * What the bridges' methods do

    The effects of every method, for callers that do not know its code: what
    it leaves alone in the round, which connections it touches, and that every
    [writer.write] hands over one message of the protocol. *)

From Stdlib Require Import ZArith Lia.
From stdpp Require Import prelude.
From S2P Require Import Prelude PyDict PyBytes Field Lagrange Shamir Sha256 Kdf Crypto Masks Wire.
From S2P Require Import State Aggregate FedAvg Keys Bridge Frame Invariant Server KeySetup Completion Variants.

(** ** The messages of a server *)

(** The body of a ROUND_COMPLETE message: a row of 16-bit elements, packed,
    and a packed telemetry block. *)
Definition complete_body (payload : bytes) : Prop :=
  exists row chunk t telemetry, struct_pack (chunk_format (length row)) row = Ok chunk /\
    pack_telemetry t = Ok telemetry /\ payload = chunk ++ telemetry.

Record server_message (ids : list Z) (h : MessageHeader) (payload : bytes) : Prop := {
  sm_version : h_protocol_version h = PROTOCOL_VERSION;
  sm_round : h_round_id h ∈ ids;
  sm_client : h_client_id h = 0;
  sm_kind : (h_message_type h = MSG_TYPE_KEM_CIPHERTEXT /\ h_sequence_number h = 0) \/
            (h_message_type h = MSG_TYPE_ROUND_COMPLETE /\ complete_body payload);
}.

(** One message, framed. *)
Definition typed (ids : list Z) (data : bytes) : Prop :=
  exists h payload, framed (h, payload) data /\ server_message ids h payload.

Lemma typed_weaken ids ids' data : ids ⊆ ids' -> typed ids data -> typed ids' data.
Proof. intros Hs (h & p & Hf & []). exists h, p. split; [done|]. split; auto. Qed.

(** The wire grew by messages about the rounds [ids]. *)
Definition sent (ids : list Z) (w w' : list (Z * bytes)) : Prop :=
  exists msgs, w' = w ++ msgs /\ Forall (fun p => typed ids (snd p)) msgs.

#[export] Instance sent_refl ids : Reflexive (sent ids).
Proof. intros w. exists []. by rewrite app_nil_r. Qed.
#[export] Instance sent_trans ids : Transitive (sent ids).
Proof.
  intros w1 w2 w3 (m1 & -> & H1) (m2 & -> & H2). exists (m1 ++ m2).
  by rewrite <- app_assoc, Forall_app.
Qed.

Lemma sent_weaken ids ids' w w' : ids ⊆ ids' -> sent ids w w' -> sent ids' w w'.
Proof.
  intros Hs (m & -> & Hm). exists m. split; [done|]. eapply Forall_impl; [exact Hm|].
  intros p. by apply typed_weaken.
Qed.

(** ** What methods on a round do

    They leave what an aggregation reads, register no writer, lose no
    connection, and write messages about their round only. *)
Record advances (rid : Z) (c c' : Ctx) : Prop := {
  av_round : same_data (round c) (round c');
  av_writers : client_writers (net c') = client_writers (net c);
  av_lost : lost (net c') = lost (net c);
  av_sent : sent [rid] (wire (net c)) (wire (net c'));
}.

#[export] Instance advances_preorder rid : PreOrder (advances rid).
Proof.
  split; [by intros c|]. intros c1 c2 c3 [] []. split; try congruence; by etransitivity.
Qed.

(** The states a method on round [rid] reaches from [c0]. *)
Definition since (rid : Z) (c0 c : Ctx) : Prop := round_id (round c) = rid /\ advances rid c0 c.

Section Methods.
Context (rid : Z) (c0 : Ctx).

Lemma since_step c c' :
  since rid c0 c -> advances rid c c' -> since rid c0 c'.
Proof.
  intros [Hr Ha] H. split; [|by transitivity c]. rewrite <- Hr. apply (sd_fixed _ _ (av_round _ _ _ H)).
Qed.

Lemma since_write (c : Ctx) conn data :
  since rid c0 c -> typed [rid] data -> since rid c0 (exec (write_drain conn data) c).
Proof.
  intros Hc Hd. apply (since_step c); [done|]. unfold exec. rewrite write_drain_run.
  destruct c as [[] r]. split; try done. exists [(conn, data)]. split; [done|]. by constructor.
Qed.

Lemma since_use_encaps : preserves (since rid c0) (update_net use_encaps).
Proof. apply preserves_modify. intros s Hs. apply (since_step s); [done|]. by destruct s as [[] r]. Qed.

Lemma since_update_round f : (forall r, same_data r (f r)) -> preserves (since rid c0) (update_round f).
Proof. intros Hf. apply preserves_modify. intros s Hs. apply (since_step s); [done|]. by split. Qed.

Lemma since_get_client cid : preserves (since rid c0) (get_client cid).
Proof. intros s Hs. unfold exec. by rewrite get_client_run. Qed.

Lemma since_update_client cid f :
  (forall c, client_data c (f c)) -> preserves (since rid c0) (update_client cid f).
Proof.
  intros Hf s Hs. apply (since_step s); [done|]. unfold exec. rewrite update_client_run.
  case_match; [|done]. split; try done. by eapply data_set_client.
Qed.

Lemma since_the_round : preserves (since rid c0) the_round.
Proof. apply preserves_gets. Qed.

(** A value that was computed without an exception. *)
Lemma preserves_bind_lift {A B} (r : result A) (f : A -> M Ctx B) :
  (forall a, r = Ok a -> preserves (since rid c0) (f a)) -> preserves (since rid c0) (lift r ≫= f).
Proof. intros H s Hs. rewrite exec_bind. destruct r as [a|e]; [by apply H|done]. Qed.

Lemma since_read_round {B} (f : RoundState -> M Ctx B) :
  (forall r, round_id r = rid -> preserves (since rid c0) (f r)) ->
  preserves (since rid c0) (the_round ≫= f).
Proof. intros H c Hc. apply (H (round c)); [apply Hc|done]. Qed.
End Methods.

Create HintDb sent_db.
#[export] Hint Resolve since_use_encaps since_update_round since_get_client since_update_client since_the_round
  preserves_skip preserves_lift preserves_raise preserves_gets : sent_db.
Ltac keep_since := keeps_walk ltac:(fun _ => eauto with sent_db data_db).

(** The two messages a server sends. *)
Lemma ciphertext_typed rid ct hb :
  build_header MSG_TYPE_KEM_CIPHERTEXT rid 0 0 (Z.of_nat (length ct)) = Ok hb -> typed [rid] (hb ++ ct).
Proof.
  intros Hhb. eexists (Build_MessageHeader _ _ _ _ _ _ _), ct.
  split; [exists hb; split; [exact Hhb|by split]|]. split; [done|by left|done|by left].
Qed.

Lemma complete_message_typed r f t telemetry i msg :
  pack_telemetry t = Ok telemetry ->
  complete_message r f telemetry i = Ok msg -> typed [round_id r] msg.
Proof.
  intros Ht. unfold complete_message.
  destruct (dict_index i f) as [row|] eqn:Ei; run; [|done].
  destruct (struct_pack _ row) as [chunk|] eqn:Ec; run; [|done].
  destruct (build_header _ _ _ _ _) as [hb|] eqn:Eh; run; [|done]. intros [= <-].
  eexists (Build_MessageHeader _ _ _ _ _ _ _), (chunk ++ telemetry).
  split; [exists hb; split; [exact Eh|]; split; [cbn [h_payload_length fst snd]; rewrite length_app; lia|done]|].
  split; [done|by left|done|]. right. split; [done|]. exists row, chunk, t, telemetry. split; [|done].
  pose proof (struct_pack_ok _ _ _ Ec) as (Hl & _ & _). apply Forall2_length in Hl.
  unfold chunk_format in Hl. rewrite length_replicate in Hl. by rewrite <- Hl.
Qed.

Section Sends.
Context (rid : Z) (c0 : Ctx) (encapsulate : nat -> bytes -> result (bytes * bytes)).
Context (reconstruct_secret : list (Z * Z) -> result Z).

Lemma since_draw pk : preserves (since rid c0) (draw_encapsulation encapsulate pk).
Proof. unfold draw_encapsulation. keep_since. Qed.

Lemma since_encapsulate_to cid pk : preserves (since rid c0) (encapsulate_to encapsulate cid pk).
Proof.
  unfold encapsulate_to. apply preserves_bind; [apply since_draw|intros [ct ss]].
  apply preserves_bind; [keep_since|intros _].
  apply since_read_round. intros r Hr. apply preserves_bind_lift. intros hb Hhb.
  apply preserves_bind; [keep_since|intros n]. case_match; [|keep_since].
  intros c Hc. apply since_write; [done|]. rewrite <- Hr. by apply ciphertext_typed.
Qed.
#[local] Hint Resolve since_encapsulate_to : sent_db.

Lemma since_setup : preserves (since rid c0) (setup_keys_and_masks encapsulate).
Proof.
  unfold setup_keys_and_masks, setup_client, setup_pair, orchestrate_pairwise_kem, orchestrate_pair,
    derive_seeds, derive_seed_for, ensure_secret. keep_since.
Qed.

Lemma since_recovery : preserves (since rid c0) (trigger_recovery reconstruct_secret).
Proof. unfold trigger_recovery, recover_client. keep_since. Qed.

Lemma since_finalize : preserves (since rid c0) finalize_round.
Proof. unfold finalize_round. keep_since. Qed.

Lemma since_round_failure : preserves (since rid c0) handle_round_failure.
Proof. unfold handle_round_failure. keep_since. Qed.

Lemma since_broadcast f t telemetry :
  pack_telemetry t = Ok telemetry -> preserves (since rid c0) (broadcast f telemetry).
Proof.
  intros Ht. unfold broadcast, send_complete. apply preserves_bind; [keep_since|intros n].
  apply preserves_for_each. intros w _. apply preserves_bind; [keep_since|intros r].
  apply preserves_bind_lift. intros k _. apply preserves_for_each. intros i _.
  apply since_read_round. intros r' <-.
  apply preserves_bind_lift. intros msg Hmsg c Hc. apply since_write; [done|].
  by eapply complete_message_typed.
Qed.

Lemma since_head_aggregate :
  preserves (since rid c0) (head_unmask_and_aggregate encapsulate reconstruct_secret).
Proof.
  unfold head_unmask_and_aggregate. apply preserves_bind; [apply since_setup|intros _].
  apply preserves_bind; [apply since_recovery|intros _]. apply preserves_bind; [apply since_finalize|intros _].
  apply preserves_bind; [keep_since|intros r].
  apply preserves_bind_lift. intros t _. apply preserves_bind_lift. intros tel Ht.
  by eapply since_broadcast.
Qed.

Lemma since_incoming_aggregate {L : CryptoLib} available :
  preserves (since rid c0) (incoming_unmask_and_aggregate available encapsulate reconstruct_secret).
Proof.
  unfold incoming_unmask_and_aggregate. apply preserves_bind; [apply since_setup|intros _].
  apply preserves_bind; [apply since_recovery|intros _]. do 4 (apply preserves_bind; [keep_since|intros ?]).
  case_match; [|keep_since]. do 2 (apply preserves_bind; [keep_since|intros ?]).
  apply preserves_bind_lift. intros t _. apply preserves_bind_lift. intros tel Ht.
  by eapply since_broadcast.
Qed.
End Sends.

(** ** What handlers do to a round

    A handler may also record what a client sent, or that it dropped out. *)
Record changes (rid : Z) (c c' : Ctx) : Prop := {
  ch_round : fixed (round c) (round c');
  ch_writers : client_writers (net c') = client_writers (net c);
  ch_lost : lost (net c') = lost (net c);
  ch_sent : sent [rid] (wire (net c)) (wire (net c'));
}.

#[export] Instance changes_preorder rid : PreOrder (changes rid).
Proof.
  split; [by intros c|]. intros c1 c2 c3 [] []. split; try congruence; by etransitivity.
Qed.

Lemma advances_changes rid c c' : advances rid c c' -> changes rid c c'.
Proof. intros []. split; try done. by apply sd_fixed. Qed.

Definition changed (rid : Z) (c0 c : Ctx) : Prop := round_id (round c) = rid /\ changes rid c0 c.

Section Changed.
Context (rid : Z) (c0 : Ctx).

Lemma changed_step c c' : changed rid c0 c -> changes rid c c' -> changed rid c0 c'.
Proof.
  intros [Hr Ha] H. split; [|by transitivity c]. rewrite <- Hr. apply (ch_round _ _ _ H).
Qed.

Lemma changed_since {A} (m : M Ctx A) :
  (forall c, preserves (since rid c) m) -> preserves (changed rid c0) m.
Proof.
  intros Hm c Hc. apply (changed_step c); [done|]. apply advances_changes, (Hm c c). by split; [apply Hc|].
Qed.

Lemma changed_update_round f : (forall r, fixed r (f r)) -> preserves (changed rid c0) (update_round f).
Proof. intros Hf. apply preserves_modify. intros s Hs. apply (changed_step s); [done|]. by split. Qed.

Lemma changed_update_client cid f : preserves (changed rid c0) (update_client cid f).
Proof.
  intros s Hs. apply (changed_step s); [done|]. unfold exec. rewrite update_client_run. case_match; [|done].
  split; try done. cbn [snd round]. by destruct (round s).
Qed.

Lemma changed_with_client cid m :
  (forall c, preserves (changed rid c0) (m c)) -> preserves (changed rid c0) (with_client cid m).
Proof. intros Hm s Hs. unfold exec. rewrite with_client_run. case_match; [by apply Hm|done]. Qed.

Lemma fixed_set_clients v r : fixed r (set_clients v r).
Proof. by destruct r. Qed.
Lemma fixed_set_dropouts v r : fixed r (set_dropouts v r).
Proof. by destruct r. Qed.
End Changed.

#[export] Hint Resolve changed_update_round changed_update_client fixed_set_clients fixed_set_dropouts : sent_db.

(** ** What handlers do to a bridge *)

(** Rounds stay and keep what they were announced with, writers keep their
    keys apart, no connection is lost, and the wire grows by messages about
    known rounds. *)
Record progress (b b' : Bridge) : Prop := {
  pg_rounds : forall rid r, dict_get rid (rounds b) = Some r ->
    exists r', dict_get rid (rounds b') = Some r' /\ fixed r r';
  pg_writers : NoDup (dict_keys (client_writers (bridge_net b))) ->
    NoDup (dict_keys (client_writers (bridge_net b')));
  pg_lost : lost (bridge_net b') = lost (bridge_net b);
  pg_sent : sent (dict_keys (rounds b')) (wire (bridge_net b)) (wire (bridge_net b'));
}.

Lemma progress_keys b b' : progress b b' -> dict_keys (rounds b) ⊆ dict_keys (rounds b').
Proof.
  intros Hp k Hk. apply dict_get_is_Some in Hk as [r Hr]. apply dict_get_is_Some.
  destruct (pg_rounds _ _ Hp k r Hr) as (r' & Hr' & _). by exists r'.
Qed.

#[export] Instance progress_preorder : PreOrder progress.
Proof.
  split.
  - intros b. split; [|done..]. intros rid r Hr. by exists r.
  - intros b1 b2 b3 H1 H2. pose proof (progress_keys _ _ H2). destruct H1 as [R1 W1 L1 S1], H2 as [R2 W2 L2 S2].
    split; [|auto|congruence|].
    + intros rid r Hr. destruct (R1 rid r Hr) as (r' & Hr' & Hf). destruct (R2 rid r' Hr') as (r'' & ? & ?).
      exists r''. split; [done|]. by transitivity r'.
    + etransitivity; [|exact S2]. by eapply sent_weaken.
Qed.

(** Nothing an aggregation of round [rid] depends on is touched: no writer is
    registered, and the round's data stays. *)
Record quiet (rid : Z) (b b' : Bridge) : Prop := {
  qu_progress : progress b b';
  qu_writers : client_writers (bridge_net b') = client_writers (bridge_net b);
  qu_data : forall r, dict_get rid (rounds b) = Some r ->
    exists r', dict_get rid (rounds b') = Some r' /\ same_data r r';
}.

#[export] Instance quiet_preorder rid : PreOrder (quiet rid).
Proof.
  split; [intros b; split; try done; intros r Hr; by exists r|].
  intros b1 b2 b3 [P1 W1 D1] [P2 W2 D2]. split; [by transitivity b2|congruence|].
  intros r Hr. destruct (D1 r Hr) as (r' & Hr' & ?). destruct (D2 r' Hr') as (r'' & ? & ?).
  exists r''. split; [done|]. by transitivity r'.
Qed.

Section OnRound.
Context (rid : Z) (rs : RoundState) (b : Bridge) (c' : Ctx) (Hrs : dict_get rid (rounds b) = Some rs).
Let c := {| net := bridge_net b; round := rs |}.

Lemma progress_on_round :
  fixed rs (round c') -> (NoDup (dict_keys (client_writers (net c))) -> NoDup (dict_keys (client_writers (net c')))) ->
  lost (net c') = lost (net c) -> sent [rid] (wire (net c)) (wire (net c')) -> progress b (with_ctx rid c' b).
Proof.
  intros Hf Hw Hl Hs. split; [|done..|]; simpl.
  - intros k r Hk. rewrite dict_get_set. case_decide as Ek; [subst k|by exists r].
    rewrite Hrs in Hk. injection Hk as <-. by exists (round c').
  - eapply sent_weaken; [|exact Hs]. intros k ->%list_elem_of_singleton.
    apply dict_get_is_Some. rewrite dict_get_set_eq. by eexists.
Qed.

Lemma progress_changes : changes rid c c' -> progress b (with_ctx rid c' b).
Proof. intros [Hf Hw Hl Hs]. apply progress_on_round; [done| |done|done]. by rewrite Hw. Qed.

(** What a method does to its own round does not concern another. *)
Lemma quiet_changes rid' : rid' <> rid -> changes rid c c' -> quiet rid' b (with_ctx rid c' b).
Proof.
  intros Hne Hc. split; [by apply progress_changes|apply Hc|]. intros r Hr. exists r.
  split; [|done]. cbn [with_ctx rounds]. by rewrite dict_get_set, decide_False.
Qed.

Lemma quiet_advances rid' : advances rid c c' -> quiet rid' b (with_ctx rid c' b).
Proof.
  intros Ha. destruct (decide (rid' = rid)) as [->|Hne]; [|by apply quiet_changes, advances_changes].
  split; [by apply progress_changes, advances_changes|apply Ha|].
  intros r Hr. exists (round c'). cbn [with_ctx rounds]. rewrite dict_get_set_eq. split; [done|].
  rewrite Hrs in Hr. injection Hr as <-. apply Ha.
Qed.
End OnRound.

(** A method on the round under [rid]: [G] relates the bridges if it relates
    the contexts. *)
Lemma exec_with_round (G : relation Bridge) `{!Reflexive G} (R : Z -> relation Ctx) rid m b :
  bridge_wf b -> (forall c, ctx_wf rid c -> R rid c (exec m c)) ->
  (forall rs c', dict_get rid (rounds b) = Some rs ->
     R rid {| net := bridge_net b; round := rs |} c' -> G b (with_ctx rid c' b)) ->
  G b (exec (with_round rid m) b).
Proof.
  intros Hb Hm HG. unfold exec, with_round. destruct (dict_get rid (rounds b)) as [rs|] eqn:E; [|done].
  apply dict_get_elem in E as Hin. apply (bw_round _ Hb) in Hin as Hwf.
  specialize (HG rs _ eq_refl (Hm {| net := bridge_net b; round := rs |} Hwf)).
  unfold on_round. unfold exec in HG. by destruct (m _) as [res c'].
Qed.

Lemma quiet_with_round rid' rid m b :
  bridge_wf b -> (forall c0, preserves (since rid c0) m) -> quiet rid' b (exec (with_round rid m) b).
Proof.
  intros Hb Hm. apply (exec_with_round _ advances); [done| |].
  - intros c Hc. apply (Hm c c). by split; [apply (rw_id _ _ Hc)|].
  - intros rs c' Hrs. by apply quiet_advances.
Qed.

Lemma changes_with_round rid' rid m b :
  bridge_wf b -> (forall c0, preserves (changed rid c0) m) ->
  progress b (exec (with_round rid m) b) /\ (rid' <> rid -> quiet rid' b (exec (with_round rid m) b)).
Proof.
  intros Hb Hm. assert (Hc : forall c, ctx_wf rid c -> changes rid c (exec m c)).
  { intros c Hc. apply (Hm c c). by split; [apply (rw_id _ _ Hc)|]. }
  split; [|intros Hne]; apply (exec_with_round _ changes); try done; intros rs c' Hrs.
  - by apply progress_changes.
  - by apply quiet_changes.
Qed.

Section Handlers.
Context {A : Aggregator}.
Context (aggregate_sends : forall rid c0, preserves (since rid c0) unmask_and_aggregate).

Lemma since_check rid c0 : preserves (since rid c0) check_round_completion.
Proof.
  specialize (aggregate_sends rid c0). pose proof (since_round_failure rid c0).
  unfold check_round_completion. keep_since.
Qed.

Lemma since_with_client rid c0 cid m :
  (forall c, preserves (since rid c0) (m c)) -> preserves (since rid c0) (with_client cid m).
Proof. intros Hm s Hs. unfold exec. rewrite with_client_run. case_match; [by apply Hm|done]. Qed.

Lemma quiet_round_init rid h payload b : quiet rid b (exec (handle_round_init h payload) b).
Proof.
  unfold handle_round_init. rewrite exec_bind. cbn [gets].
  destruct (dict_mem (h_round_id h) (rounds b)) eqn:Em; [done|]. rewrite exec_bind. unfold lift.
  destruct (decode_round_init payload) as [[[[e t] c] m]|]; [|done]. simpl.
  assert (Hget : forall k r, dict_get k (rounds b) = Some r ->
    dict_get k (dict_set (h_round_id h) (new_round (h_round_id h) e t c m) (rounds b)) = Some r).
  { intros k r Hr. rewrite dict_get_set. case_decide as Ek; [|done]. subst k.
    unfold dict_mem in Em. by rewrite Hr in Em. }
  split; [split; [|done..]|done|]; intros; eexists; split; try by apply Hget. all: done.
Qed.

(** The handlers that record something about their round's clients. *)
Lemma changes_mask_chunk rid h payload b :
  bridge_wf b -> progress b (exec (handle_mask_chunk h payload) b) /\
  (rid <> h_round_id h -> quiet rid b (exec (handle_mask_chunk h payload) b)).
Proof. intros Hb. apply changes_with_round; [done|]. intros c0. apply changed_with_client. intros c. keep_since. Qed.

Lemma changes_client_complete rid h payload b :
  bridge_wf b -> progress b (exec (handle_client_complete h payload) b) /\
  (rid <> h_round_id h -> quiet rid b (exec (handle_client_complete h payload) b)).
Proof.
  intros Hb. apply changes_with_round; [done|]. intros c0. apply changed_with_client. intros c.
  pose proof (changed_since (h_round_id h) c0 _ (since_check (h_round_id h))). keep_since.
Qed.

Lemma changes_dropout_notify rid h payload b :
  bridge_wf b -> progress b (exec (handle_dropout_notify h payload) b) /\
  (rid <> h_round_id h -> quiet rid b (exec (handle_dropout_notify h payload) b)).
Proof.
  intros Hb. apply changes_with_round; [done|]. intros c0.
  pose proof (changed_since (h_round_id h) c0 _ (since_check (h_round_id h))).
  pose proof (changed_since (h_round_id h) c0 _ (fun c => since_recovery (h_round_id h) c agg_reconstruct_secret)).
  keep_since.
Qed.

(** Registering a writer changes nothing else. *)
Lemma progress_register cid writer rid rs b (m : M Ctx unit) :
  bridge_wf b -> dict_get rid (rounds b) = Some rs -> (forall c0, preserves (changed rid c0) m) ->
  progress b (exec (on_round rid rs (_ ← m; register_writer cid writer)) b).
Proof.
  intros Hb E Hm. apply dict_get_elem in E as Hin. apply (bw_round _ Hb) in Hin as Hwf.
  set (c := {| net := bridge_net b; round := rs |}).
  destruct (Hm c c) as [_ Ha]; [split; [apply (rw_id _ _ Hwf)|done]|].
  unfold exec, on_round. fold c. unfold exec in Ha. unfold mbind, M_bind.
  destruct (m c) as [[[]|e] c']; cbn [snd]; [|by apply (progress_changes rid rs)].
  destruct Ha as [Hf Hw Hl Hs]. cbn [snd round net] in *.
  apply (progress_on_round rid rs b {| net := set_writers _ (net c'); round := round c' |} E); cbn [round net].
  - done.
  - intros Hnd. destruct (net c') as [ws w cl lo e]. simpl in *. apply dict_keys_set_NoDup. by rewrite Hw.
  - by destruct (net c').
  - by destruct (net c').
Qed.

Lemma on_round_ext rid rs (m m' : M Ctx unit) b :
  (forall s, m s = m' s) -> on_round rid rs m b = on_round rid rs m' b.
Proof. intros H. unfold on_round. by rewrite H. Qed.

Lemma progress_public_key h payload writer b :
  bridge_wf b -> progress b (exec (handle_public_key h payload writer) b).
Proof.
  intros Hb. unfold handle_public_key, exec, with_round.
  destruct (dict_get (h_round_id h) (rounds b)) as [rs|] eqn:E; [|done].
  erewrite (on_round_ext _ _ _ ((r ← the_round;
      _ ← match dict_get (h_client_id h) (clients r) with
          | Some _ => skip
          | None => update_round (set_clients (dict_set (h_client_id h)
                      (new_client (h_client_id h) (h_round_id h)) (clients r)))
          end;
      update_client (h_client_id h) (set_public_key payload)) ≫= fun _ =>
      register_writer (h_client_id h) writer)).
  - apply progress_register; [done..|]. intros c0. keep_since.
  - intros s. rewrite M_bind_assoc. apply M_bind_ext; [done|]. intros r s1 _. by rewrite M_bind_assoc.
Qed.

Lemma progress_pairwise_pubkey h payload writer b :
  bridge_wf b -> progress b (exec (handle_pairwise_pubkey h payload writer) b).
Proof.
  intros Hb. unfold handle_pairwise_pubkey, exec, with_round.
  destruct (dict_get (h_round_id h) (rounds b)) as [rs|] eqn:E; [|done].
  destruct (dict_get (h_client_id h) (clients rs)) as [c|] eqn:Ec.
  - pose proof (progress_register (h_client_id h) writer _ rs b
      (update_client (h_client_id h) (set_public_key payload)) Hb E) as H.
    unfold exec, on_round in *. rewrite with_client_run. cbn [round]. rewrite Ec.
    apply H. intros c0. keep_since.
  - unfold on_round. rewrite with_client_run. cbn [round]. rewrite Ec. cbn [snd net round].
    rewrite dict_set_same by done. by destruct b.
Qed.

(** The messages that may register a writer, and those that change what an
    aggregation of round [rid] reads. *)
Definition registers (h : MessageHeader) : bool :=
  (h_message_type h =? MSG_TYPE_KEM_PUBLIC_KEY) || (h_message_type h =? MSG_TYPE_PAIRWISE_KEM_PUBKEY).

Definition disturbs (rid : Z) (h : MessageHeader) : bool :=
  registers h ||
  ((h_round_id h =? rid) &&
   ((h_message_type h =? MSG_TYPE_MASK_CHUNK) || (h_message_type h =? MSG_TYPE_CLIENT_COMPLETE) ||
    (h_message_type h =? MSG_TYPE_DROPOUT_NOTIFY))).

Lemma quiet_pairwise_ciphertext rid h payload b :
  bridge_wf b -> quiet rid b (exec (handle_pairwise_ciphertext h payload) b).
Proof.
  intros Hb. apply quiet_with_round; [done|]. intros c0. apply since_with_client. intros c. keep_since.
Qed.

Lemma quiet_shamir_share rid h payload b :
  bridge_wf b -> quiet rid b (exec (handle_shamir_share h payload) b).
Proof.
  intros Hb. apply quiet_with_round; [done|]. intros c0. apply since_with_client. intros c. keep_since.
Qed.

Lemma progress_dispatch_common h payload writer other b :
  bridge_wf b -> progress b (exec other b) ->
  progress b (exec (dispatch_common h payload writer other) b).
Proof.
  intros Hb Ho. unfold dispatch_common. repeat case_match; try done.
  - by apply progress_public_key.
  - by apply (proj1 (changes_mask_chunk 0 h payload b Hb)).
  - by apply (proj1 (changes_client_complete 0 h payload b Hb)).
  - by apply (proj1 (changes_dropout_notify 0 h payload b Hb)).
  - by apply (qu_progress 0), quiet_round_init.
Qed.

Lemma quiet_dispatch_common rid h payload writer other b :
  bridge_wf b -> disturbs rid h = false -> quiet rid b (exec other b) ->
  quiet rid b (exec (dispatch_common h payload writer other) b).
Proof.
  intros Hb [Hreg Hd]%orb_false_iff Ho. apply orb_false_iff in Hreg as [H1 _].
  unfold dispatch_common. rewrite H1.
  assert (Hne : h_message_type h =? MSG_TYPE_MASK_CHUNK = true \/
                h_message_type h =? MSG_TYPE_CLIENT_COMPLETE = true \/
                h_message_type h =? MSG_TYPE_DROPOUT_NOTIFY = true -> rid <> h_round_id h).
  { intros [E|[E|E]] ->; rewrite E, Z.eqb_refl, ?orb_true_r in Hd; done. }
  case_match; [by apply changes_mask_chunk; auto|]. case_match; [by apply changes_client_complete; auto|].
  case_match; [by apply changes_dropout_notify; auto|]. case_match; [by apply quiet_round_init|done].
Qed.
End Handlers.

(** ** The three bridges *)

Section Bridges.
Context {L : CryptoLib} (CRYPTO_AVAILABLE : bool) (OQS_AVAILABLE : option bool).
Context (reconstruct_secret : list (Z * Z) -> result Z).
Let dispatch := dispatch CRYPTO_AVAILABLE OQS_AVAILABLE reconstruct_secret.

Lemma since_aggregator v rid c0 :
  preserves (since rid c0)
    (@Bridge.unmask_and_aggregate (aggregator CRYPTO_AVAILABLE OQS_AVAILABLE reconstruct_secret v)).
Proof. destruct v; [apply since_head_aggregate|apply since_incoming_aggregate..]. Qed.

Lemma progress_dispatch v h payload writer b :
  bridge_wf b -> progress b (exec (dispatch v h payload writer) b).
Proof.
  intros Hb. pose proof (since_aggregator v) as Hv.
  destruct v; apply (progress_dispatch_common Hv); try done; cbv zeta; repeat case_match; try done.
  all: first [by apply progress_pairwise_pubkey | by apply (qu_progress 0), quiet_shamir_share
    | by apply (qu_progress 0), quiet_pairwise_ciphertext].
Qed.

Lemma quiet_dispatch v rid h payload writer b :
  bridge_wf b -> disturbs rid h = false -> quiet rid b (exec (dispatch v h payload writer) b).
Proof.
  intros Hb Hd. pose proof (since_aggregator v) as Hv.
  assert (h_message_type h =? MSG_TYPE_PAIRWISE_KEM_PUBKEY = false) as E.
  { unfold disturbs, registers in Hd. by apply orb_false_iff in Hd as [[_ H]%orb_false_iff _]. }
  destruct v; apply (quiet_dispatch_common Hv); try done; cbv zeta; rewrite E;
    repeat case_match; try done; auto using quiet_shamir_share, quiet_pairwise_ciphertext.
Qed.
End Bridges.
