(* ===== verification/Emission.v ===== *)
(** * What the bridges send

    The typing of the server's side of the protocol: every [writer.write] of a
    bridge hands over exactly one message of the format the framing loop of
    the other side reads, about a round the bridge knows, and of one of the two
    kinds a server sends. *)

From Stdlib Require Import ZArith Lia.
From stdpp Require Import prelude.
From S2P Require Import Prelude PyDict PyBytes Field Lagrange Shamir Sha256 Kdf Crypto Masks Wire.
From S2P Require Import State Aggregate FedAvg Keys Bridge Frame Invariant Server KeySetup Completion Variants.
From S2P Require Import Effects.

Section Bridges.
Context {L : CryptoLib} (CRYPTO_AVAILABLE : bool) (OQS_AVAILABLE : option bool).
Context (reconstruct_secret : list (Z * Z) -> result Z).
Let dispatch := dispatch CRYPTO_AVAILABLE OQS_AVAILABLE reconstruct_secret.

(** Type soundness of the server's side of the protocol.  In every state
    any of the three bridges can reach, each entry of the wire log - each call
    of [writer.write] - is exactly one message: a 16-byte header that parses,
    of the protocol's version, without a client id, whose payload length is
    the number of bytes that follow it, about a round the bridge was told of,
    and which is either a KEM ciphertext with sequence number 0 or a
    ROUND_COMPLETE message carrying a packed row of 16-bit elements and a
    packed telemetry block. *)
Theorem bridges_send_messages v b :
  reachable (dispatch v) b ->
  forall conn data, (conn, data) ∈ wire (bridge_net b) ->
  exists h payload, framed (h, payload) data /\ server_message (dict_keys (rounds b)) h payload.
Proof.
  intros Hr. assert (Hb : Forall (fun p => typed (dict_keys (rounds b)) (snd p)) (wire (bridge_net b))).
  { induction Hr as [|b b' Hr IH Hs]; [constructor|].
    destruct Hs as [h p w b _ _|w b|f b _ Hw].
    - pose proof (progress_dispatch CRYPTO_AVAILABLE OQS_AVAILABLE reconstruct_secret v h p w b (reachable_bridge_wf _ b (dispatch_keeps_wf _ _ _ v) Hr)
        : progress b (exec (dispatch v h p w) b)) as Hp.
      destruct (pg_sent _ _ Hp) as (msgs & -> & Hm). apply Forall_app. split; [|done].
      eapply Forall_impl; [exact IH|]. intros q. apply typed_weaken. by apply progress_keys.
    - by destruct b as [? ? []].
    - simpl. by rewrite Hw. }
  intros conn data Hin. rewrite Forall_forall in Hb. apply (Hb _ Hin).
Qed.
End Bridges.

(** ** A concrete round *)

(** The bytes of a sequence of messages. *)
Definition stream (msgs : list (MessageHeader * bytes)) : bytes :=
  concat ((fun m => match struct_pack HEADER_FORMAT (header_values (fst m)) with
                    | Ok hb => hb ++ snd m
                    | Err _ => []
                    end) <$> msgs).

(** What a client sends: its key, two chunks of two values, its sample count. *)
Definition client_stream (cid : Z) : list (MessageHeader * bytes) := [
  message MSG_TYPE_KEM_PUBLIC_KEY 1 cid 0 [cid; 9];
  message MSG_TYPE_MASK_CHUNK 1 cid 0 [0; cid; 0; 5];
  message MSG_TYPE_MASK_CHUNK 1 cid 1 [0; 1; 0; 7];
  message MSG_TYPE_CLIENT_COMPLETE 1 cid 0 [0; 0; 0; cid]].

(** Two clients, one after the other. *)
Definition after_round : Bridge :=
  let d := dispatch true (Some true) Shamir.Head.reconstruct_secret HEAD in
  exec (handle_client d (stream (client_stream 2)) 12)
    (exec (handle_client d (stream (init_message :: client_stream 1)) 11) new_bridge).

Lemma bridges_send_messages_witness :
  (fun p => (fst p, take 2 (drop 9 (snd p)))) <$> wire (bridge_net after_round) =
    [(11, [0x02; 0]); (12, [0x02; 0]); (11, [0x41; 0]); (11, [0x41; 0]); (12, [0x41; 0]); (12, [0x41; 0])] /\
  Forall (fun p => exists h payload, framed (h, payload) (snd p) /\ h_round_id h = 1)
    (wire (bridge_net after_round)).
Proof.
  split; [vm_compute; reflexivity|]. apply Forall_forall. intros [conn data] Hin.
  destruct (bridges_send_messages true (Some true) Shamir.Head.reconstruct_secret HEAD after_round)
    with (conn := conn) (data := data) as (h & payload & Hf & Hm); [|exact Hin|].
  - do 2 (apply handle_client_reachable; [apply (bool_decide_unpack _); vm_compute; reflexivity|]).
    apply reach_init.
  - exists h, payload. split; [exact Hf|]. pose proof (sm_round _ _ _ Hm) as Hr.
    replace (dict_keys (rounds after_round)) with [1] in Hr by (vm_compute; reflexivity).
    by apply list_elem_of_singleton in Hr.
Defined.
