(* ===== verification/Async.v ===== *)
(** * Coroutines

    The model of [await].  A coroutine is a finite tree of atomic actions and
    of suspension points: between two of them nothing else runs, at one of
    them any other coroutine may.  [run] executes a coroutine that is never
    kept waiting, which is what the sequential model of Bridge and Server
    describes; [segment] executes it up to the next suspension point. *)

From Stdlib Require Import ZArith Lia.
From stdpp Require Import prelude.
From S2P Require Import Prelude.

Inductive task (S A : Type) : Type :=
  | Stop (r : result A)
  | Step (upd : S -> S) (next : S -> task S A)
  | Await (rest : task S A).
Arguments Stop {S A} r.
Arguments Step {S A} upd next.
Arguments Await {S A} rest.

(** Statements without an [await]: one action, whose outcome is read off the
    state it starts in. *)
Definition atomic {S A} (m : M S A) : task S A := Step (exec m) (fun s => Stop (outcome m s)).

Fixpoint task_bind {S A B} (f : A -> task S B) (t : task S A) : task S B :=
  match t with
  | Stop (Ok a) => f a
  | Stop (Err e) => Stop (Err e)
  | Step upd next => Step upd (fun s => task_bind f (next s))
  | Await rest => Await (task_bind f rest)
  end.

#[export] Instance task_mret {S} : MRet (task S) := fun A a => Stop (Ok a).
#[export] Instance task_mbind {S} : MBind (task S) := fun A B f t => task_bind f t.

Definition pass {S} : task S unit := Stop (Ok tt).

(** [await asyncio.sleep(0)], or any wait for the event loop. *)
Definition await {S} : task S unit := Await pass.

Fixpoint each {S B} (l : list B) (body : B -> task S unit) : task S unit :=
  match l with
  | [] => pass
  | x :: l' => _ ← body x; each l' body
  end.

(** [for k in d: body(k)] over a live dictionary to which keys can only be
    added: at every step, the last one included, the iterator compares the
    dictionary's size with the size at the start. *)
Definition check_size {S} (size : S -> nat) (n : nat) : M S unit :=
  m ← gets size; if (m =? n)%nat then skip else raise RuntimeError.

Fixpoint iterate {S K} (size : S -> nat) (n : nat) (l : list K) (body : K -> task S unit) : task S unit :=
  match l with
  | [] => atomic (check_size size n)
  | k :: l' => _ ← atomic (check_size size n); _ ← body k; iterate size n l' body
  end.

Definition live_each {S K} (keys : S -> list K) (body : K -> task S unit) : task S unit :=
  ks ← atomic (gets keys); iterate (fun s => length (keys s)) (length ks) ks body.

(** ** Execution *)

Fixpoint run {S A} (t : task S A) (s : S) : result A * S :=
  match t with
  | Stop r => (r, s)
  | Step upd next => run (next s) (upd s)
  | Await rest => run rest s
  end.

Fixpoint segment {S A} (t : task S A) (s : S) : task S A * S :=
  match t with
  | Stop r => (Stop r, s)
  | Step upd next => segment (next s) (upd s)
  | Await rest => (rest, s)
  end.

Definition stopped {S A} (t : task S A) : bool := match t with Stop _ => true | _ => false end.

Lemma run_atomic {S A} (m : M S A) s : run (atomic m) s = m s.
Proof. unfold atomic, exec, outcome. simpl. by destruct (m s). Qed.

Lemma run_bind {S A B} (t : task S A) (f : A -> task S B) s :
  run (t ≫= f) s = (run t ≫= fun a => run (f a)) s.
Proof.
  unfold mbind, M_bind, task_mbind. revert s.
  induction t as [[a|e]|upd next IH|rest IH]; intros s; cbn [task_bind run]; auto.
Qed.

Lemma run_each {S B} (l : list B) (body : B -> task S unit) s :
  run (each l body) s = for_each l (fun x => run (body x)) s.
Proof.
  revert s. induction l as [|x l IH]; intros s; [done|]. cbn [each for_each]. rewrite run_bind.
  unfold mbind, M_bind. destruct (run (body x) s) as [[[]|e] s']; [apply IH|done].
Qed.

Lemma check_size_ok {S} (size : S -> nat) n s : size s = n -> check_size size n s = (Ok tt, s).
Proof. intros H. unfold check_size, gets, mbind, M_bind. by rewrite H, Nat.eqb_refl. Qed.

Lemma check_size_raises {S} (size : S -> nat) n s :
  size s <> n -> check_size size n s = (Err RuntimeError, s).
Proof. intros H. unfold check_size, gets, mbind, M_bind. by rewrite (proj2 (Nat.eqb_neq _ _) H). Qed.

(** A loop whose body adds no key is the plain loop. *)
Lemma run_live_each {S K} (keys : S -> list K) (body : K -> task S unit) s :
  (forall k s, keys (exec (run (body k)) s) = keys s) ->
  run (live_each keys body) s = for_each (keys s) (fun k => run (body k)) s.
Proof.
  intros Hk. unfold live_each. rewrite run_bind, (M_bind_ok _ _ _ (keys s) s) by done.
  enough (forall l s', length (keys s') = length (keys s) ->
            run (iterate (fun s => length (keys s)) (length (keys s)) l body) s' =
            for_each l (fun k => run (body k)) s') as H by by apply H.
  induction l as [|k l IH]; intros s' Hs; cbn [iterate for_each].
  - by rewrite run_atomic, check_size_ok.
  - rewrite run_bind, (M_bind_ok _ _ _ tt s') by by rewrite run_atomic, check_size_ok.
    rewrite run_bind. specialize (Hk k s'). unfold exec in Hk. unfold mbind, M_bind.
    destruct (run (body k) s') as [[[]|e] s1]; [|done]. apply IH. simpl in Hk. by rewrite Hk.
Qed.

(** Running is running the segments one after the other. *)
Lemma run_segment {S A} (t : task S A) s : run t s = run (fst (segment t s)) (snd (segment t s)).
Proof. revert s. induction t as [r|upd next IH|rest IH]; intros s; cbn [run segment]; auto. Qed.

(** The segment of a sequence: the first part's, if it waits. *)
Lemma segment_bind {S A B} (t : task S A) (f : A -> task S B) s :
  stopped (fst (segment t s)) = false ->
  segment (t ≫= f) s = (fst (segment t s) ≫= f, snd (segment t s)).
Proof.
  unfold mbind, task_mbind. revert s.
  induction t as [r|upd next IH|rest IH]; intros s; cbn [segment task_bind fst snd]; [done| |done]. apply IH.
Qed.

Lemma segment_bind_atomic {S A B} (m : M S A) (f : A -> task S B) a s s' :
  m s = (Ok a, s') -> segment (atomic m ≫= f) s = segment (f a) s'.
Proof. intros H. unfold mbind, task_mbind, atomic, exec, outcome. cbn [task_bind segment]. by rewrite H. Qed.

(** ** Invariants and guarantees

    Every action of [t], wherever it is resumed, keeps [P] and takes the
    shared state to one related to it by [G]. *)
Definition moves {S A} (P : S -> Prop) (G : relation S) (m : M S A) : Prop :=
  forall s, P s -> P (exec m s) /\ G s (exec m s).

Fixpoint obeys {S A} (P : S -> Prop) (G : relation S) (t : task S A) : Prop :=
  match t with
  | Stop _ => True
  | Step upd next => forall s, P s -> P (upd s) /\ G s (upd s) /\ obeys P G (next s)
  | Await rest => obeys P G rest
  end.

Section Obeys.
Context {S : Type} (P : S -> Prop) (G : relation S).

Lemma obeys_bind {A B} (t : task S A) (f : A -> task S B) :
  obeys P G t -> (forall a, obeys P G (f a)) -> obeys P G (t ≫= f).
Proof.
  intros Ht Hf. unfold mbind, task_mbind.
  induction t as [[a|e]|upd next IH|rest IH]; cbn [task_bind obeys] in *; auto.
  intros s Hs. destruct (Ht s Hs) as (HP & HG & Hn). auto.
Qed.

(** What follows an action may use what the action returned. *)
Lemma obeys_bind_atomic {A B} (m : M S A) (f : A -> task S B) :
  moves P G m -> (forall s a, P s -> outcome m s = Ok a -> obeys P G (f a)) -> obeys P G (atomic m ≫= f).
Proof.
  intros Hm Hf s Hs. destruct (Hm s Hs) as [HP HG]. split; [done|]. split; [done|].
  cbn [atomic]. destruct (outcome m s) as [a|e] eqn:E; [by apply (Hf s)|done].
Qed.

Lemma obeys_atomic {A} (m : M S A) : moves P G m -> obeys P G (atomic m).
Proof. intros H s Hs. destruct (H s Hs). done. Qed.

Lemma moves_of_obeys {A} (m : M S A) : obeys P G (atomic m) -> moves P G m.
Proof. intros H s Hs. destruct (H s Hs) as (? & ? & _). done. Qed.

Lemma obeys_each {B} (l : list B) (body : B -> task S unit) :
  (forall x, obeys P G (body x)) -> obeys P G (each l body).
Proof. intros H. induction l as [|x l IH]; [done|]. by apply obeys_bind. Qed.

Context `{!Reflexive G}.

(** Reading, or computing without touching the state. *)
Lemma moves_still {A} (m : M S A) : (forall s, exec m s = s) -> moves P G m.
Proof. intros H s Hs. by rewrite H. Qed.

Lemma moves_check_size (size : S -> nat) n : moves P G (check_size size n).
Proof.
  apply moves_still. intros s. unfold exec, check_size. rewrite (M_bind_ok _ _ s (size s) s) by done.
  by case_match.
Qed.

Lemma obeys_live_each {K} (keys : S -> list K) (body : K -> task S unit) :
  (forall k, obeys P G (body k)) -> obeys P G (live_each keys body).
Proof.
  intros H. apply obeys_bind; [by apply obeys_atomic, moves_still|]. intros ks.
  generalize (length ks). intros n. induction ks as [|k ks IH]; cbn [iterate].
  - apply obeys_atomic, moves_check_size.
  - apply obeys_bind; [apply obeys_atomic, moves_check_size|]. intros _. by apply obeys_bind.
Qed.

(** A method whose statements keep a relation to the state it started in. *)
Lemma moves_preserves {A} (m : M S A) :
  (forall s0, preserves (fun s => P s /\ G s0 s) m) -> moves P G m.
Proof. intros H s Hs. by apply (H s s). Qed.

(** Up to the first suspension the coroutine may do more, [G0]. *)
Fixpoint launches {A} (G0 : relation S) (t : task S A) : Prop :=
  match t with
  | Stop _ => True
  | Step upd next => forall s, P s -> P (upd s) /\ G0 s (upd s) /\ launches G0 (next s)
  | Await rest => obeys P G rest
  end.

Lemma launches_obeys {A} (G0 : relation S) (t : task S A) :
  (forall s s', G s s' -> G0 s s') -> obeys P G t -> launches G0 t.
Proof.
  intros HG. induction t as [r|upd next IH|rest IH]; cbn [obeys launches]; [done| |done].
  intros Ht s Hs. destruct (Ht s Hs) as (H1 & H2 & H3). auto.
Qed.

Lemma launches_bind_atomic {A B} (G0 : relation S) (m : M S A) (f : A -> task S B) :
  moves P G0 m -> (forall a, launches G0 (f a)) -> launches G0 (atomic m ≫= f).
Proof.
  intros Hm Hf s Hs. destruct (Hm s Hs) as [HP HG]. split; [done|]. split; [done|].
  cbn [atomic]. destruct (outcome m s) as [a|e]; [apply Hf|done].
Qed.

Lemma launches_atomic {A} (G0 : relation S) (m : M S A) : moves P G0 m -> launches G0 (atomic m).
Proof. intros H s Hs. destruct (H s Hs). done. Qed.

Lemma launches_segment {A} (G0 : relation S) `{!Reflexive G0} `{!Transitive G0} (t : task S A) s :
  launches G0 t -> P s ->
  obeys P G (fst (segment t s)) /\ P (snd (segment t s)) /\ G0 s (snd (segment t s)).
Proof.
  revert s. induction t as [r|upd next IH|rest IH]; intros s Ht Hs; cbn [segment launches] in *; [done| |done].
  destruct (Ht s Hs) as (HP & HG & Hn). destruct (IH s (upd s) Hn HP) as (H1 & H2 & H3).
  split; [done|]. split; [done|]. by transitivity (upd s).
Qed.

Context `{!Transitive G}.

Lemma obeys_segment {A} (t : task S A) s :
  obeys P G t -> P s ->
  obeys P G (fst (segment t s)) /\ P (snd (segment t s)) /\ G s (snd (segment t s)).
Proof.
  intros Ht Hs. apply launches_segment; [tc_solve..| |done]. by apply launches_obeys.
Qed.
End Obeys.

(** ** Success under interference

    [succeeds R Q t s]: started in [s], with a step of [R] made by others at
    every wait, the coroutine returns, without an exception, and [Q] holds. *)
Fixpoint succeeds {S A} (R : relation S) (Q : A -> S -> Prop) (t : task S A) (s : S) : Prop :=
  match t with
  | Stop (Ok a) => Q a s
  | Stop (Err _) => False
  | Step upd next => succeeds R Q (next s) (upd s)
  | Await rest => forall s', R s s' -> succeeds R Q rest s'
  end.

Section Succeeds.
Context {S : Type} (R : relation S).

Lemma succeeds_mono {A} (Q Q' : A -> S -> Prop) (t : task S A) s :
  (forall a s', Q a s' -> Q' a s') -> succeeds R Q t s -> succeeds R Q' t s.
Proof.
  intros HQ. revert s. induction t as [[a|e]|upd next IH|rest IH]; intros s; cbn [succeeds]; auto.
Qed.

Lemma succeeds_bind {A B} (Q : B -> S -> Prop) (t : task S A) (f : A -> task S B) s :
  succeeds R (fun a s' => succeeds R Q (f a) s') t s -> succeeds R Q (t ≫= f) s.
Proof.
  unfold mbind, task_mbind. revert s.
  induction t as [[a|e]|upd next IH|rest IH]; intros s; cbn [task_bind succeeds]; auto.
Qed.

Lemma succeeds_atomic {A} (Q : A -> S -> Prop) (m : M S A) a s s' :
  m s = (Ok a, s') -> Q a s' -> succeeds R Q (atomic m) s.
Proof. intros Hm HQ. unfold atomic, exec, outcome. cbn [succeeds]. by rewrite Hm. Qed.

(** A suspended coroutine succeeds from wherever the others have got to. *)
Lemma succeeds_segment {A} `{!Transitive R} (Q : A -> S -> Prop) (t : task S A) s :
  (forall a s s', R s s' -> Q a s -> Q a s') -> succeeds R Q t s ->
  forall s', R (snd (segment t s)) s' -> succeeds R Q (fst (segment t s)) s'.
Proof.
  intros HQ. revert s. induction t as [[a|e]|upd next IH|rest IH]; intros s; cbn [succeeds segment fst snd].
  - intros H s' Hs. by eapply HQ.
  - done.
  - apply IH.
  - auto.
Qed.
End Succeeds.

(** ** Rely and guarantee

    Started in [s], with a step of [R] made by others at every wait, each
    action of the coroutine makes a step of [G]. *)
Fixpoint guards {S A} (R G : relation S) (t : task S A) (s : S) : Prop :=
  match t with
  | Stop _ => True
  | Step upd next => G s (upd s) /\ guards R G (next s) (upd s)
  | Await rest => forall s', R s s' -> guards R G rest s'
  end.

Section Guards.
Context {S : Type} (R G : relation S).

(** A part of which an invariant is known, and what follows it. *)
Lemma guards_bind {A B} (P : S -> Prop) (G0 : relation S) (t : task S A) (f : A -> task S B) s :
  (forall s s', P s -> G0 s s' -> P s' -> G s s') -> (forall s s', P s -> R s s' -> P s') ->
  obeys P G0 t -> P s -> (forall a s', P s' -> guards R G (f a) s') -> guards R G (t ≫= f) s.
Proof.
  intros HG HR Ht Hs Hf. unfold mbind, task_mbind. revert s Hs.
  induction t as [[a|e]|upd next IH|rest IH]; intros s Hs; cbn [task_bind guards obeys] in *; eauto.
  destruct (Ht s Hs) as (HP & H0 & Hn). eauto.
Qed.

Lemma guards_obeys {A} (P : S -> Prop) (G0 : relation S) (t : task S A) s :
  (forall s s', P s -> G0 s s' -> P s' -> G s s') -> (forall s s', P s -> R s s' -> P s') ->
  obeys P G0 t -> P s -> guards R G t s.
Proof.
  intros HG HR Ht. revert s. induction t as [r|upd next IH|rest IH]; intros s Hs; cbn [guards obeys] in *; eauto.
  destruct (Ht s Hs) as (HP & H0 & Hn). eauto.
Qed.

Lemma guards_bind_atomic {A B} (m : M S A) (f : A -> task S B) s :
  G s (exec m s) -> (forall a, outcome m s = Ok a -> guards R G (f a) (exec m s)) ->
  guards R G (atomic m ≫= f) s.
Proof.
  intros HG Hf. unfold mbind, task_mbind, atomic. cbn [task_bind guards]. split; [done|].
  destruct (outcome m s) as [a|e] eqn:E; [by apply Hf|done].
Qed.

Lemma guards_segment {A} `{!Reflexive G} `{!Transitive G} (t : task S A) s :
  guards R G t s ->
  G s (snd (segment t s)) /\ forall s', R (snd (segment t s)) s' -> guards R G (fst (segment t s)) s'.
Proof.
  revert s. induction t as [r|upd next IH|rest IH]; intros s H; cbn [segment guards fst snd] in *; [done| |done].
  destruct H as [HG Hn]. destruct (IH _ _ Hn) as [H1 H2]. split; [by transitivity (upd s)|done].
Qed.
End Guards.

Lemma obeys_and {S A} (P : S -> Prop) (G1 G2 : relation S) (t : task S A) :
  obeys P G1 t -> obeys (fun _ => True) G2 t -> obeys P (fun s s' => G1 s s' /\ G2 s s') t.
Proof.
  induction t as [r|upd next IH|rest IH]; cbn [obeys]; [done| |done]. intros H1 H2 s Hs.
  destruct (H1 s Hs) as (HP & Ha & Hn). destruct (H2 s I) as (_ & Hb & Hn'). eauto.
Qed.

(** An invariant that the actions keep may be assumed. *)
Lemma obeys_strengthen {S A} (P I : S -> Prop) (G : relation S) (t : task S A) :
  (forall s s', P s' -> I s -> G s s' -> I s') -> obeys P G t -> obeys (fun s => P s /\ I s) G t.
Proof.
  intros HI. induction t as [r|upd next IH|rest IH]; cbn [obeys]; [done| |done].
  intros Ht s [Hs Hi]. destruct (Ht s Hs) as (HP & HG & Hn). split; [|by auto]. split; [done|]. by apply (HI s).
Qed.

(** ** Termination

    [waits P n t]: wherever its actions start in [P], the coroutine waits at
    most [n] times. *)
Fixpoint waits {S A} (P : S -> Prop) (n : nat) (t : task S A) : Prop :=
  match t with
  | Stop _ => True
  | Step upd next => forall s, P s -> waits P n (next s)
  | Await rest => match n with O => False | Datatypes.S m => waits P m rest end
  end.

(** Resumed at most [k] times more. *)
Definition resumable {S A} (P : S -> Prop) (k : nat) (t : task S A) : Prop :=
  stopped t = true \/ exists m, k = Datatypes.S m /\ waits P m t.

Section Waits.
Context {S : Type} (P : S -> Prop).

Lemma waits_mono {A} n m (t : task S A) : (n <= m)%nat -> waits P n t -> waits P m t.
Proof.
  revert n m. induction t as [r|upd next IH|rest IH]; intros n m Hnm; cbn [waits]; [done|eauto|].
  destruct n as [|n], m as [|m]; [done|done|lia|]. apply IH. lia.
Qed.

Lemma waits_bind {A B} n m (t : task S A) (f : A -> task S B) :
  waits P n t -> (forall a, waits P m (f a)) -> waits P (n + m) (t ≫= f).
Proof.
  intros Ht Hf. unfold mbind, task_mbind. revert n Ht.
  induction t as [[a|e]|upd next IH|rest IH]; intros n Ht; cbn [task_bind waits] in *; [|done|auto|].
  - apply (waits_mono m); [lia|done].
  - destruct n as [|n]; [done|]. by apply IH.
Qed.

Lemma waits_bind_atomic {A B} n (m : M S A) (f : A -> task S B) :
  (forall s a, P s -> outcome m s = Ok a -> waits P n (f a)) -> waits P n (atomic m ≫= f).
Proof.
  intros Hf s Hs. cbn [atomic]. destruct (outcome m s) as [a|e] eqn:E; [by apply (Hf s)|done].
Qed.

Lemma waits_each {B} n (l : list B) (body : B -> task S unit) :
  (forall x, waits P n (body x)) -> waits P (length l * n) (each l body).
Proof. intros H. induction l as [|x l IH]; [done|]. cbn [length Nat.mul each]. by apply waits_bind. Qed.

Lemma waits_live_each {K} n k (keys : S -> list K) (body : K -> task S unit) :
  (forall s, P s -> length (keys s) = k) -> (forall x, waits P n (body x)) ->
  waits P (k * n) (live_each keys body).
Proof.
  intros Hk Hb. apply waits_bind_atomic. intros s ks Hs [= <-]. rewrite <- (Hk s Hs).
  generalize (length (keys s)) at 2. intros size. induction (keys s) as [|x ks IH]; [done|].
  cbn [length Nat.mul iterate]. apply waits_bind_atomic. intros _ _ _ _. by apply waits_bind.
Qed.

Lemma waits_segment {A} (I : S -> Prop) (G : relation S) n (t : task S A) s :
  (forall s s', I s -> G s s' -> P s -> P s') -> obeys I G t -> waits P n t -> I s -> P s ->
  resumable P n (fst (segment t s)) /\ P (snd (segment t s)).
Proof.
  intros HP. revert n s. induction t as [r|upd next IH|rest IH]; intros n s Ht Hw Hi Hs;
    cbn [segment obeys waits fst snd] in *; [by split; [left|]| |].
  - destruct (Ht s Hi) as (Hi' & HG & Hn). eauto.
  - split; [|done]. destruct n as [|n]; [done|]. right. by exists n.
Qed.
End Waits.
