(* ===== verification/AsyncBridge.v ===== *)
(** * The handlers as coroutines

    The methods of the bridge classes that await [drain] - key setup, the
    aggregations and the handlers that call them - with that await as a point
    where other connections' handlers run.  [round_state] and [client_state]
    are references into the bridge: what a method reads after an await is what
    is there then.  Methods without an await are those of Keys and Bridge,
    executed atomically. *)

From Stdlib Require Import ZArith Lia.
From stdpp Require Import prelude.
From S2P Require Import Prelude PyDict PyBytes Field Shamir Kdf Crypto Masks Wire State Aggregate Keys.
From S2P Require Import Bridge Invariant Server Variants Async.

(** [writer.write(data); await writer.drain()]: the drain may wait, and raises
    if the connection was lost by the time it is over. *)
Definition write_and_drain (conn : Z) (data : bytes) : task Ctx unit :=
  _ ← atomic (update_net (log_write conn data));
  _ ← await;
  atomic (c ← gets net; if bool_decide (conn ∈ lost c) then raise ConnectionResetError else skip).

Definition client_keys (c : Ctx) : list Z := dict_keys (clients (round c)).
Definition writer_keys (c : Ctx) : list Z := dict_keys (client_writers (net c)).

Section Keys.
Context (encapsulate : nat -> bytes -> result (bytes * bytes)).

Definition encapsulate_to (cid : Z) (pubkey : bytes) : task Ctx unit :=
  p ← atomic (draw_encapsulation encapsulate pubkey);
  _ ← atomic (update_client cid (set_shared_secret (snd p)));
  r ← atomic the_round;
  header ← atomic (lift (build_header MSG_TYPE_KEM_CIPHERTEXT (round_id r) 0 0
                           (Z.of_nat (length (fst p)))));
  n ← atomic (gets net);
  match dict_get cid (client_writers n) with
  | Some writer => write_and_drain writer (header ++ fst p)
  | None => pass
  end.

Definition ensure_secret (cid : Z) : task Ctx unit :=
  c ← atomic (get_client cid);
  if truthy (shared_secret c) then pass else encapsulate_to cid (default [] (public_key c)).

Definition setup_client (cid : Z) : task Ctx unit :=
  c ← atomic (get_client cid);
  if truthy (public_key c) && negb (truthy (shared_secret c))
  then encapsulate_to cid (default [] (public_key c)) else pass.

Definition setup_pair (p : Z * Z) : task Ctx unit :=
  a ← atomic (get_client (fst p));
  b ← atomic (get_client (snd p));
  if truthy (shared_secret a) && truthy (shared_secret b) then pass
  else if truthy (public_key a) && truthy (public_key b) then
    let initiator := if fst p <? snd p then fst p else snd p in
    let responder := if fst p <? snd p then snd p else fst p in
    ini ← atomic (get_client initiator);
    res ← atomic (get_client responder);
    if truthy (shared_secret ini) && truthy (shared_secret res) then pass
    else _ ← ensure_secret initiator; ensure_secret responder
  else pass.

Definition orchestrate_pair (p : Z * Z) : task Ctx unit :=
  a ← atomic (get_client (fst p));
  b ← atomic (get_client (snd p));
  if negb (truthy (public_key a)) || negb (truthy (public_key b)) then pass
  else if truthy (shared_secret a) && truthy (shared_secret b) then pass
  else
    let initiator := if fst p <? snd p then fst p else snd p in
    let responder := if fst p <? snd p then snd p else fst p in
    _ ← ensure_secret initiator;
    _ ← ensure_secret responder;
    atomic (
      ini ← get_client initiator;
      res ← get_client responder;
      if truthy (shared_secret ini) && truthy (shared_secret res) then
        r ← the_round;
        seed ← lift (derive_pairwise_mask_seed (default [] (shared_secret ini)) initiator responder
                       (round_id r));
        _ ← update_client initiator (set_pairwise_seed responder seed);
        update_client responder (set_pairwise_seed initiator seed)
      else skip).

(** The first loop runs over the live dictionary, the pairwise ones over
    [list(round_state.clients.keys())]. *)
Definition setup_keys_and_masks : task Ctx unit :=
  _ ← live_each client_keys setup_client;
  r ← atomic the_round;
  _ ← each (later_pairs (dict_keys (clients r))) setup_pair;
  r ← atomic the_round;
  _ ← each (later_pairs (dict_keys (clients r))) orchestrate_pair;
  atomic (
    r ← the_round;
    _ ← for_each (dict_keys (clients r)) derive_seeds;
    update_round (set_stage MASK_SETUP)).
End Keys.

(** ** Aggregation *)

Definition send_complete (fedavg : chunks) (telemetry_payload : bytes) (writer seq_num : Z) : task Ctx unit :=
  r ← atomic the_round;
  msg ← atomic (lift (complete_message r fedavg telemetry_payload seq_num));
  write_and_drain writer msg.

(** [for client_id, writer in self.client_writers.items()]: the writer is the
    one registered when the iterator reaches the client. *)
Definition broadcast (fedavg : chunks) (telemetry_payload : bytes) : task Ctx unit :=
  live_each writer_keys (fun cid =>
    writer ← atomic (c ← gets net; lift (dict_index cid (client_writers c)));
    r ← atomic the_round;
    n ← atomic (lift (num_chunks r));
    each (range n) (send_complete fedavg telemetry_payload writer)).

Section Aggregation.
Context {L : CryptoLib} (CRYPTO_AVAILABLE : bool).
Context (encapsulate : nat -> bytes -> result (bytes * bytes)).
Context (reconstruct_secret : list (Z * Z) -> result Z).

(** What follows the key setup up to the first write: the result and the
    telemetry to send. *)
Definition head_result : M Ctx (chunks * bytes) :=
  _ ← trigger_recovery reconstruct_secret;
  _ ← finalize_round;
  r ← the_round;
  telemetry ← lift (collect_telemetry r);
  telemetry_payload ← lift (pack_telemetry telemetry);
  mret (unmasked_chunks r, telemetry_payload).

(** The other version: [None] is the early return. *)
Definition incoming_result : M Ctx (option (chunks * bytes)) :=
  _ ← trigger_recovery reconstruct_secret;
  r ← the_round;
  client_unmasked ← lift (Incoming.unmask_client_chunks CRYPTO_AVAILABLE r);
  fedavg ← lift (Incoming.compute_fedavg r client_unmasked);
  n ← lift (num_chunks r);
  if forallb (fun seq_num => dict_mem seq_num fedavg) (range n) then
    _ ← update_round (set_unmasked fedavg);
    _ ← update_round (set_stage ROUND_COMPLETE);
    telemetry ← lift (collect_telemetry r);
    telemetry_payload ← lift (pack_telemetry telemetry);
    mret (Some (fedavg, telemetry_payload))
  else mret None.

(** HEAD.  [fedavg_chunks] is the object stored in the round; nothing changes
    it in place, a later aggregation stores another. *)
Definition head_unmask_and_aggregate : task Ctx unit :=
  _ ← setup_keys_and_masks encapsulate;
  p ← atomic head_result;
  broadcast (fst p) (snd p).

Definition incoming_unmask_and_aggregate : task Ctx unit :=
  _ ← setup_keys_and_masks encapsulate;
  p ← atomic incoming_result;
  match p with Some (fedavg, telemetry_payload) => broadcast fedavg telemetry_payload | None => pass end.
End Aggregation.

(** ** Handlers *)

(** A method on the round stored under [rid], as a coroutine on the bridge.
    Rounds are never removed, so the round is there at every resumption. *)
Definition round_ctx (rid : Z) (b : Bridge) : option Ctx :=
  rs ← dict_get rid (rounds b); Some {| net := bridge_net b; round := rs |}.

Fixpoint in_round {A} (rid : Z) (t : task Ctx A) : task Bridge A :=
  match t with
  | Stop r => Stop r
  | Step upd next =>
      Step (fun b => match round_ctx rid b with Some c => with_ctx rid (upd c) b | None => b end)
           (fun b => match round_ctx rid b with Some c => in_round rid (next c) | None => Stop (Err KeyError) end)
  | Await rest => Await (in_round rid rest)
  end.

Section Handlers.
Context (aggregate : task Ctx unit) (reconstruct_secret : list (Z * Z) -> result Z).

Definition check_round_completion : task Ctx unit :=
  r ← atomic the_round;
  if (surviving r <=? completed_count r) && (threshold r <=? surviving r) then
    _ ← atomic (update_round (set_stage UNMASKING)); aggregate
  else if surviving r <? threshold r then
    _ ← atomic (update_round (set_stage ERROR)); atomic handle_round_failure
  else pass.

(** [round_state = self.rounds.get(header.round_id)] *)
Definition on_known_round (rid : Z) (t : task Ctx unit) : task Bridge unit :=
  known ← atomic (gets (fun b => dict_mem rid (rounds b)));
  if known : bool then in_round rid t else pass.

Definition handle_client_complete (header : MessageHeader) (payload : bytes) : task Bridge unit :=
  on_known_round (h_round_id header) (
    r ← atomic the_round;
    match dict_get (h_client_id header) (clients r) with
    | None => pass
    | Some _ =>
        _ ← atomic (
          _ ← (if (4 <=? length payload)%nat
               then update_client (h_client_id header) (set_sample_count (int_from_bytes (take 4 payload)))
               else skip);
          update_client (h_client_id header) set_completed);
        check_round_completion
    end).

Definition handle_dropout_notify (header : MessageHeader) (payload : bytes) : task Bridge unit :=
  on_known_round (h_round_id header) (
    _ ← atomic (
      r ← the_round;
      _ ← (if bool_decide (h_client_id header ∈ dropout_clients r) then skip
           else update_round (set_dropouts (dropout_clients r ++ [h_client_id header])));
      trigger_recovery reconstruct_secret);
    check_round_completion).

(** The dispatcher, over what a class does with the other messages. *)
Definition dispatch (other : MessageHeader -> bytes -> Z -> M Bridge unit)
    (header : MessageHeader) (payload : bytes) (writer : Z) : task Bridge unit :=
  let ty := h_message_type header in
  if ty =? MSG_TYPE_CLIENT_COMPLETE then handle_client_complete header payload
  else if ty =? MSG_TYPE_DROPOUT_NOTIFY then handle_dropout_notify header payload
  else atomic (other header payload writer).
End Handlers.

Section Classes.
Context {L : CryptoLib} (CRYPTO_AVAILABLE : bool) (OQS_AVAILABLE : option bool).
Context (reconstruct_secret : list (Z * Z) -> result Z).

Definition aggregate (v : variant) : task Ctx unit :=
  match v with
  | HEAD => head_unmask_and_aggregate (encapsulate OQS_AVAILABLE v) reconstruct_secret
  | _ => incoming_unmask_and_aggregate CRYPTO_AVAILABLE (encapsulate OQS_AVAILABLE v) reconstruct_secret
  end.

(** [_dispatch_message] of the three classes.  The messages other than
    CLIENT_COMPLETE and DROPOUT_NOTIFY have handlers without an await. *)
Definition dispatch_async (v : variant) : MessageHeader -> bytes -> Z -> task Bridge unit :=
  dispatch (aggregate v) reconstruct_secret
    (Variants.dispatch CRYPTO_AVAILABLE OQS_AVAILABLE reconstruct_secret v).
End Classes.
