(* ===== verification/AsyncFacts.v ===== *)
(** * The coroutines and the sequential model

    A handler that is never kept waiting at a drain does what Bridge says. *)

From Stdlib Require Import ZArith Lia.
From stdpp Require Import prelude.
From S2P Require Import Prelude PyDict PyBytes Field Shamir Kdf Crypto Masks Wire State Aggregate Keys.
From S2P Require Import Bridge Invariant Server Variants Async.
From S2P Require AsyncBridge.

(** ** Methods that add no keys *)

Definition same_keys (ks : list Z) (ws : list (Z * Z)) (s : Ctx) : Prop :=
  AsyncBridge.client_keys s = ks /\ client_writers (net s) = ws.

Section Keys.
Context (ks : list Z) (ws : list (Z * Z)).

Lemma keys_update_client cid f : preserves (same_keys ks ws) (update_client cid f).
Proof.
  intros s [Hk Hw]. unfold exec. rewrite update_client_run. case_match; [|done]. split; [|done].
  rewrite <- Hk. unfold AsyncBridge.client_keys. cbn [snd round]. rewrite clients_set_clients.
  apply dict_keys_set_in, dict_get_is_Some. by eexists.
Qed.

Lemma keys_get_client cid : preserves (same_keys ks ws) (get_client cid).
Proof. intros s Hs. unfold exec. by rewrite get_client_run. Qed.

Lemma keys_draw encapsulate pk : preserves (same_keys ks ws) (draw_encapsulation encapsulate pk).
Proof.
  unfold draw_encapsulation. apply preserves_bind; [apply preserves_gets|]. intros c.
  apply preserves_bind; [|intros _; apply preserves_lift]. apply preserves_modify.
  intros s Hs. by destruct s as [[] r].
Qed.

Lemma keys_write_drain conn data : preserves (same_keys ks ws) (write_drain conn data).
Proof. intros s Hs. unfold exec. rewrite write_drain_run. by destruct s as [[] r]. Qed.

Lemma keys_the_round : preserves (same_keys ks ws) the_round.
Proof. apply preserves_gets. Qed.

Lemma keys_update_round f : (forall r, clients (f r) = clients r) -> preserves (same_keys ks ws) (update_round f).
Proof.
  intros Hf. apply preserves_modify. intros s [Hk Hw]. split; [|done].
  unfold AsyncBridge.client_keys. cbn [round]. by rewrite Hf.
Qed.

Lemma clients_set_stage v r : clients (set_stage v r) = clients r.
Proof. by destruct r. Qed.
Lemma clients_set_unmasked v r : clients (set_unmasked v r) = clients r.
Proof. by destruct r. Qed.

Create HintDb keys_db.
#[local] Hint Resolve keys_update_client keys_get_client keys_draw keys_write_drain keys_the_round
  keys_update_round clients_set_stage clients_set_unmasked
  preserves_skip preserves_lift preserves_raise preserves_gets : keys_db.
Ltac keep_keys := keeps_walk ltac:(fun _ => auto with keys_db).

Context (encapsulate : nat -> bytes -> result (bytes * bytes)).

Lemma keys_encapsulate_to cid pk : preserves (same_keys ks ws) (encapsulate_to encapsulate cid pk).
Proof. unfold encapsulate_to. keep_keys. Qed.
#[local] Hint Resolve keys_encapsulate_to : keys_db.

Lemma keys_setup_client cid : preserves (same_keys ks ws) (setup_client encapsulate cid).
Proof. unfold setup_client. keep_keys. Qed.

Lemma keys_setup_pair p : preserves (same_keys ks ws) (setup_pair encapsulate p).
Proof. unfold setup_pair, ensure_secret. keep_keys. Qed.

Lemma keys_orchestrate_pair p : preserves (same_keys ks ws) (orchestrate_pair encapsulate p).
Proof. unfold orchestrate_pair, ensure_secret. keep_keys. Qed.

Lemma keys_setup : preserves (same_keys ks ws) (setup_keys_and_masks encapsulate).
Proof.
  unfold setup_keys_and_masks, orchestrate_pairwise_kem, derive_seeds, derive_seed_for.
  pose proof keys_setup_client. pose proof keys_setup_pair. pose proof keys_orchestrate_pair. keep_keys.
Qed.

Lemma keys_recovery reconstruct : preserves (same_keys ks ws) (trigger_recovery reconstruct).
Proof. unfold trigger_recovery, recover_client. keep_keys. Qed.

Lemma keys_finalize : preserves (same_keys ks ws) finalize_round.
Proof. unfold finalize_round. keep_keys. Qed.

Lemma keys_send_complete f payload w i : preserves (same_keys ks ws) (send_complete f payload w i).
Proof. unfold send_complete. keep_keys. Qed.
End Keys.

Lemma keys_for_each {B} (l : list B) (body : B -> M Ctx unit) s s' r :
  (forall ks ws x, preserves (same_keys ks ws) (body x)) -> for_each l body s = (r, s') ->
  same_keys (AsyncBridge.client_keys s) (client_writers (net s)) s'.
Proof.
  intros Hb H. pose proof (preserves_for_each
    (same_keys (AsyncBridge.client_keys s) (client_writers (net s))) l body
    (fun x _ => Hb _ _ x) s (conj eq_refl eq_refl)) as Hp. unfold exec in Hp. by rewrite H in Hp.
Qed.

(** ** Coroutines that do not wait *)

(** One bind of a coroutine against one bind of the method. *)
Ltac run_step := rewrite run_bind; apply M_bind_ext; [apply run_atomic|intros ? ? _; cbv beta].

Lemma run_write_and_drain conn data s :
  run (AsyncBridge.write_and_drain conn data) s = write_drain conn data s.
Proof. unfold AsyncBridge.write_and_drain, write_drain. run_step. apply run_atomic. Qed.

Lemma run_read_round {A} (f : RoundState -> task Ctx A) s :
  run (atomic the_round ≫= f) s = run (f (round s)) s.
Proof. done. Qed.

Section Run.
Context (encapsulate : nat -> bytes -> result (bytes * bytes)).

Lemma run_encapsulate_to cid pk s :
  run (AsyncBridge.encapsulate_to encapsulate cid pk) s = encapsulate_to encapsulate cid pk s.
Proof.
  unfold AsyncBridge.encapsulate_to, encapsulate_to. do 5 run_step.
  case_match; [apply run_write_and_drain|done].
Qed.

Lemma run_ensure_secret cid s :
  run (AsyncBridge.ensure_secret encapsulate cid) s = ensure_secret encapsulate cid s.
Proof. unfold AsyncBridge.ensure_secret, ensure_secret. run_step. case_match; [done|apply run_encapsulate_to]. Qed.

Lemma run_setup_client cid s :
  run (AsyncBridge.setup_client encapsulate cid) s = setup_client encapsulate cid s.
Proof. unfold AsyncBridge.setup_client, setup_client. run_step. case_match; [apply run_encapsulate_to|done]. Qed.

Lemma run_setup_pair p s :
  run (AsyncBridge.setup_pair encapsulate p) s = setup_pair encapsulate p s.
Proof.
  unfold AsyncBridge.setup_pair, setup_pair. do 2 run_step. repeat (case_match; [done|]).
  case_match; [|done]. cbv zeta. do 2 run_step. case_match; [done|].
  rewrite run_bind. apply M_bind_ext; [apply run_ensure_secret|]. intros. apply run_ensure_secret.
Qed.

Lemma run_orchestrate_pair p s :
  run (AsyncBridge.orchestrate_pair encapsulate p) s = orchestrate_pair encapsulate p s.
Proof.
  unfold AsyncBridge.orchestrate_pair, orchestrate_pair. do 2 run_step. repeat (case_match; [done|]).
  cbv zeta. do 2 (rewrite run_bind; apply M_bind_ext; [apply run_ensure_secret|]; intros ? ? _).
  apply run_atomic.
Qed.

Lemma run_setup_loop s :
  run (live_each AsyncBridge.client_keys (AsyncBridge.setup_client encapsulate)) s =
  for_each (AsyncBridge.client_keys s) (setup_client encapsulate) s.
Proof.
  rewrite run_live_each; [apply for_each_ext, run_setup_client|].
  intros k s'. unfold exec. rewrite run_setup_client.
  by apply (keys_setup_client _ _ encapsulate k s' (conj eq_refl eq_refl)).
Qed.

Lemma run_pairs l s :
  run (each l (AsyncBridge.setup_pair encapsulate)) s = for_each l (setup_pair encapsulate) s /\
  run (each l (AsyncBridge.orchestrate_pair encapsulate)) s = for_each l (orchestrate_pair encapsulate) s.
Proof. rewrite !run_each. split; apply for_each_ext; [apply run_setup_pair|apply run_orchestrate_pair]. Qed.

Lemma run_keys_setup s :
  run (AsyncBridge.setup_keys_and_masks encapsulate) s = setup_keys_and_masks encapsulate s.
Proof.
  unfold AsyncBridge.setup_keys_and_masks, setup_keys_and_masks, orchestrate_pairwise_kem.
  rewrite (M_bind_ok the_round _ s (round s) s) by done. rewrite run_bind.
  apply M_bind_ext; [apply run_setup_loop|]. intros [] s1 K1.
  apply keys_for_each in K1 as [K1 _]; [|intros; apply keys_setup_client]. unfold AsyncBridge.client_keys in K1.
  rewrite run_read_round, run_bind, K1.
  apply M_bind_ext; [apply run_pairs|]. intros [] s2 K2.
  apply keys_for_each in K2 as [K2 _]; [|intros; apply keys_setup_pair]. unfold AsyncBridge.client_keys in K2.
  rewrite run_read_round, run_bind, M_bind_assoc.
  rewrite (M_bind_ok the_round _ s2 (round s2) s2) by done.
  apply M_bind_ext; [apply run_pairs|]. intros [] s3 K3.
  apply keys_for_each in K3 as [K3 _]; [|intros; apply keys_orchestrate_pair]. unfold AsyncBridge.client_keys in K3.
  rewrite run_atomic, (M_bind_ok the_round _ s3 (round s3) s3) by done. by rewrite K3, K2, K1.
Qed.
End Run.

Lemma run_send_complete f payload writer i s :
  run (AsyncBridge.send_complete f payload writer i) s = send_complete f payload writer i s.
Proof. unfold AsyncBridge.send_complete, send_complete. do 2 run_step. apply run_write_and_drain. Qed.

(** The body of the loop over the writers. *)
Lemma run_broadcast_to f payload writer s :
  run (r ← atomic the_round; n ← atomic (lift (num_chunks r));
       each (range n) (AsyncBridge.send_complete f payload writer)) s =
  (r ← the_round; n ← lift (num_chunks r); for_each (range n) (send_complete f payload writer)) s.
Proof. do 2 run_step. rewrite run_each. apply for_each_ext, run_send_complete. Qed.

(** Looking the writers up one by one is running over them. *)
Lemma for_each_writers (body : Z -> M Ctx unit) ws l s :
  (forall ks w, preserves (same_keys ks ws) (body w)) ->
  client_writers (net s) = ws -> (forall k w, (k, w) ∈ l -> dict_get k ws = Some w) ->
  for_each (dict_keys l)
    (fun cid => w ← (c ← gets net; lift (dict_index cid (client_writers c))); body w) s =
  for_each (dict_values l) body s.
Proof.
  intros Hb. revert s. induction l as [|[k w] l IH]; intros s Hs Hl; [done|].
  unfold dict_keys, dict_values. rewrite !fmap_cons. cbn [for_each fst snd].
  apply M_bind_ext.
  - rewrite (M_bind_ok _ _ s w s); [done|]. rewrite (M_bind_ok _ _ s (net s) s) by done.
    unfold lift, dict_index. rewrite Hs, (Hl k w) by left. done.
  - intros [] s' H. apply IH.
    + pose proof (Hb _ w s (conj eq_refl Hs)) as Hk. unfold exec in Hk. rewrite H in Hk. apply Hk.
    + intros k' w' Hin. apply Hl. by right.
Qed.

Lemma run_broadcast f payload s :
  NoDup (AsyncBridge.writer_keys s) ->
  run (AsyncBridge.broadcast f payload) s = broadcast f payload s.
Proof.
  intros Hd. unfold AsyncBridge.broadcast, broadcast.
  set (body := fun writer => r ← the_round; n ← lift (num_chunks r);
                 for_each (range n) (send_complete f payload writer)).
  assert (Hbody : forall ks ws w, preserves (same_keys ks ws) (body w)).
  { intros ks ws w. unfold body. apply preserves_bind; [apply keys_the_round|intros r].
    apply preserves_bind; [apply preserves_lift|intros n]. apply preserves_for_each.
    intros i _. apply keys_send_complete. }
  assert (Hrun : forall cid s, run (writer ← atomic (c ← gets net; lift (dict_index cid (client_writers c)));
      r ← atomic the_round; n ← atomic (lift (num_chunks r));
      each (range n) (AsyncBridge.send_complete f payload writer)) s =
    (w ← (c ← gets net; lift (dict_index cid (client_writers c))); body w) s).
  { intros cid s0. run_step. apply run_broadcast_to. }
  rewrite run_live_each.
  - rewrite (for_each_ext _ _ _ _ Hrun).
    rewrite (M_bind_ok _ _ s (net s) s) by done.
    apply (for_each_writers body (client_writers (net s))); [intros; apply Hbody|done|].
    intros k w Hin. by apply dict_elem_get.
  - intros k s0. unfold exec. rewrite Hrun. unfold AsyncBridge.writer_keys.
    assert (preserves (same_keys (AsyncBridge.client_keys s0) (client_writers (net s0)))
      (w ← (c ← gets net; lift (dict_index k (client_writers c))); body w)) as Hp.
    { apply preserves_bind; [|intros w; apply Hbody].
      apply preserves_bind; [apply preserves_gets|intros c; apply preserves_lift]. }
    f_equal. apply (Hp s0). done.
Qed.

(** ** Aggregation and handlers *)

Section Aggregation.
Context {L : CryptoLib} (CRYPTO_AVAILABLE : bool).
Context (encapsulate : nat -> bytes -> result (bytes * bytes)).
Context (reconstruct_secret : list (Z * Z) -> result Z).

(** A part that keeps the writers, and the rest after it. *)
Lemma run_after {A B} (t : task Ctx A) (m : M Ctx A) (f : A -> task Ctx B) (f' : A -> M Ctx B) s :
  run t s = m s -> (forall ks ws, preserves (same_keys ks ws) m) ->
  (forall a s', NoDup (AsyncBridge.writer_keys s') -> run (f a) s' = f' a s') ->
  NoDup (AsyncBridge.writer_keys s) -> run (t ≫= f) s = (m ≫= f') s.
Proof.
  intros Ht Hm Hf Hd. rewrite run_bind. apply M_bind_ext; [done|]. intros a s' E. apply Hf.
  pose proof (Hm _ _ s (conj eq_refl eq_refl)) as [_ Hw]. unfold exec in Hw. rewrite E in Hw. cbn [snd] in Hw.
  unfold AsyncBridge.writer_keys. by rewrite Hw.
Qed.

Lemma run_head_aggregate s :
  NoDup (AsyncBridge.writer_keys s) ->
  run (AsyncBridge.head_unmask_and_aggregate encapsulate reconstruct_secret) s =
  head_unmask_and_aggregate encapsulate reconstruct_secret s.
Proof.
  unfold AsyncBridge.head_unmask_and_aggregate, head_unmask_and_aggregate.
  apply run_after; [apply run_keys_setup|intros; apply keys_setup|]. intros [] s1 H1.
  transitivity ((AsyncBridge.head_result reconstruct_secret ≫= fun p => broadcast (fst p) (snd p)) s1).
  - revert H1. apply run_after; [apply run_atomic| |intros p s2; apply run_broadcast].
    intros ks ws. apply preserves_bind; [apply keys_recovery|intros _].
    apply preserves_bind; [apply keys_finalize|intros _]. apply preserves_bind; [apply preserves_gets|intros r].
    do 2 (apply preserves_bind; [apply preserves_lift|intros ?]). apply preserves_ret.
  - unfold AsyncBridge.head_result.
    rewrite M_bind_assoc. apply M_bind_ext; [done|]. intros [] s2 _.
    rewrite M_bind_assoc. apply M_bind_ext; [done|]. intros [] s3 _.
    rewrite M_bind_assoc. apply M_bind_ext; [done|]. intros r s4 _.
    rewrite M_bind_assoc. apply M_bind_ext; [done|]. intros t s5 _.
    rewrite M_bind_assoc. by apply M_bind_ext.
Qed.

Lemma run_incoming_aggregate s :
  NoDup (AsyncBridge.writer_keys s) ->
  run (AsyncBridge.incoming_unmask_and_aggregate CRYPTO_AVAILABLE encapsulate reconstruct_secret) s =
  incoming_unmask_and_aggregate CRYPTO_AVAILABLE encapsulate reconstruct_secret s.
Proof.
  unfold AsyncBridge.incoming_unmask_and_aggregate, incoming_unmask_and_aggregate.
  apply run_after; [apply run_keys_setup|intros; apply keys_setup|]. intros [] s1 H1.
  transitivity ((AsyncBridge.incoming_result CRYPTO_AVAILABLE reconstruct_secret ≫=
    fun p : option (chunks * bytes) => match p with Some (a, b) => broadcast a b | None => skip end) s1).
  - revert H1. apply run_after; [apply run_atomic| |].
    + intros ks ws. apply preserves_bind; [apply keys_recovery|intros _].
      apply preserves_bind; [apply preserves_gets|intros r].
      do 3 (apply preserves_bind; [apply preserves_lift|intros ?]).
      case_match; [|apply preserves_ret].
      apply preserves_bind; [apply keys_update_round, clients_set_unmasked|intros _].
      apply preserves_bind; [apply keys_update_round, clients_set_stage|intros _].
      do 2 (apply preserves_bind; [apply preserves_lift|intros ?]). apply preserves_ret.
    + intros [[f p]|] s2; [apply run_broadcast|done].
  - unfold AsyncBridge.incoming_result. do 5 (rewrite M_bind_assoc; apply M_bind_ext; [done|]; intros ? ? _).
    case_match; [|done]. do 4 (rewrite M_bind_assoc; apply M_bind_ext; [done|]; intros ? ? _).
    done.
Qed.
End Aggregation.

Lemma round_ctx_get rid b rs :
  dict_get rid (rounds b) = Some rs ->
  AsyncBridge.round_ctx rid b = Some {| net := bridge_net b; round := rs |}.
Proof. intros H. unfold AsyncBridge.round_ctx. by rewrite H. Qed.

Lemma run_in_round rid (t : task Ctx unit) b rs :
  dict_get rid (rounds b) = Some rs ->
  run (AsyncBridge.in_round rid t) b = on_round rid rs (run t) b.
Proof.
  revert b rs. induction t as [r|upd next IH|rest IH]; intros b rs H; cbn [AsyncBridge.in_round run].
  - unfold on_round. cbn [run net round]. rewrite dict_set_same by done. by destruct b.
  - rewrite (round_ctx_get _ _ _ H).
    set (c := {| net := bridge_net b; round := rs |}).
    rewrite (IH c _ (round (upd c))) by (cbn [with_ctx rounds]; apply dict_get_set_eq).
    unfold on_round, with_ctx. cbn [rounds bridge_net current_round_id run].
    fold c. destruct (upd c) as [n r]. cbn [net round].
    destruct (run (next c) _) as [res c']. by rewrite dict_set_set.
  - by apply IH.
Qed.

Lemma run_on_known_round rid (t : task Ctx unit) (m : M Ctx unit) b :
  (forall rs, dict_get rid (rounds b) = Some rs ->
     run t {| net := bridge_net b; round := rs |} = m {| net := bridge_net b; round := rs |}) ->
  run (AsyncBridge.on_known_round rid t) b = with_round rid m b.
Proof.
  intros H. unfold AsyncBridge.on_known_round, with_round.
  rewrite run_bind, (M_bind_ok _ _ b (dict_mem rid (rounds b)) b) by done. unfold dict_mem.
  destruct (dict_get rid (rounds b)) as [rs|] eqn:E; [|done].
  rewrite (run_in_round _ _ _ rs E). unfold on_round. by rewrite H.
Qed.

Section Dispatch.
Context {L : CryptoLib} (CRYPTO_AVAILABLE : bool) (OQS_AVAILABLE : option bool).
Context (reconstruct_secret : list (Z * Z) -> result Z).

Lemma run_aggregate v s :
  NoDup (AsyncBridge.writer_keys s) ->
  run (AsyncBridge.aggregate CRYPTO_AVAILABLE OQS_AVAILABLE reconstruct_secret v) s =
  @Bridge.unmask_and_aggregate (aggregator CRYPTO_AVAILABLE OQS_AVAILABLE reconstruct_secret v) s.
Proof. destruct v; [apply run_head_aggregate|apply run_incoming_aggregate..]. Qed.

Lemma run_check_completion v s :
  NoDup (AsyncBridge.writer_keys s) ->
  run (AsyncBridge.check_round_completion
         (AsyncBridge.aggregate CRYPTO_AVAILABLE OQS_AVAILABLE reconstruct_secret v)) s =
  @check_round_completion (aggregator CRYPTO_AVAILABLE OQS_AVAILABLE reconstruct_secret v) s.
Proof.
  intros Hd. unfold AsyncBridge.check_round_completion, check_round_completion.
  rewrite run_read_round, (M_bind_ok the_round _ s (round s) s) by done.
  repeat case_match; [| |done].
  - rewrite run_bind, !(M_bind_ok _ _ s tt {| net := net s; round := set_stage UNMASKING (round s) |}) by done.
    by apply run_aggregate.
  - rewrite run_bind. apply M_bind_ext; [done|]. intros. apply run_atomic.
Qed.

Lemma run_client_complete v h payload b :
  NoDup (dict_keys (client_writers (bridge_net b))) ->
  run (AsyncBridge.handle_client_complete
         (AsyncBridge.aggregate CRYPTO_AVAILABLE OQS_AVAILABLE reconstruct_secret v) h payload) b =
  @handle_client_complete (aggregator CRYPTO_AVAILABLE OQS_AVAILABLE reconstruct_secret v) h payload b.
Proof.
  intros Hd. apply run_on_known_round. intros rs Hrs. rewrite run_read_round.
  set (s := {| net := bridge_net b; round := rs |}). rewrite with_client_run. cbn [round s].
  destruct (dict_get (h_client_id h) (clients rs)); [|done].
  etransitivity; [|apply M_bind_assoc].
  apply (run_after _ _ _ _ s); [apply run_atomic| |intros [] s1; apply run_check_completion|exact Hd].
  intros ks ws. apply preserves_bind; [|intros _; apply keys_update_client].
  case_match; [apply keys_update_client|apply preserves_skip].
Qed.

Lemma run_dropout_notify v h payload b :
  NoDup (dict_keys (client_writers (bridge_net b))) ->
  run (AsyncBridge.handle_dropout_notify
         (AsyncBridge.aggregate CRYPTO_AVAILABLE OQS_AVAILABLE reconstruct_secret v) reconstruct_secret h payload) b =
  @handle_dropout_notify (aggregator CRYPTO_AVAILABLE OQS_AVAILABLE reconstruct_secret v) h payload b.
Proof.
  intros Hd. unfold AsyncBridge.handle_dropout_notify, handle_dropout_notify.
  apply run_on_known_round. intros rs Hrs. set (s := {| net := bridge_net b; round := rs |}).
  transitivity (((r ← the_round;
     _ ← (if bool_decide (h_client_id h ∈ dropout_clients r) then skip
          else update_round (set_dropouts (dropout_clients r ++ [h_client_id h])));
     trigger_recovery reconstruct_secret) ≫= fun _ =>
     @check_round_completion (aggregator CRYPTO_AVAILABLE OQS_AVAILABLE reconstruct_secret v)) s).
  - apply run_after; [apply run_atomic| |intros [] s1; apply run_check_completion|exact Hd].
    intros ks ws. apply preserves_bind; [apply preserves_gets|intros r].
    apply preserves_bind; [|intros _; apply keys_recovery].
    case_match; [apply preserves_skip|apply keys_update_round]. intros r'. by destruct r'.
  - rewrite M_bind_assoc. apply M_bind_ext; [done|]. intros r s1 _. rewrite M_bind_assoc.
    apply M_bind_ext; [done|]. intros u s2 _.
    assert (agg_reconstruct_secret (Aggregator := aggregator CRYPTO_AVAILABLE OQS_AVAILABLE reconstruct_secret v)
            = reconstruct_secret) as -> by by destruct v.
    done.
Qed.

(** The dispatchers agree as long as no handler is kept waiting. *)
Lemma run_dispatch v h payload writer b :
  NoDup (dict_keys (client_writers (bridge_net b))) ->
  run (AsyncBridge.dispatch_async CRYPTO_AVAILABLE OQS_AVAILABLE reconstruct_secret v h payload writer) b =
  dispatch CRYPTO_AVAILABLE OQS_AVAILABLE reconstruct_secret v h payload writer b.
Proof.
  intros Hd. unfold AsyncBridge.dispatch_async, AsyncBridge.dispatch.
  destruct (h_message_type h =? MSG_TYPE_CLIENT_COMPLETE) eqn:E1;
    [|destruct (h_message_type h =? MSG_TYPE_DROPOUT_NOTIFY) eqn:E2; [|apply run_atomic]].
  - rewrite run_client_complete by done. apply Z.eqb_eq in E1.
    destruct v; unfold dispatch, IncomingBridge.dispatch_message, ClassicalBridge.dispatch_message,
      dispatch_incoming, dispatch_head, dispatch_classical, dispatch_common; by rewrite E1.
  - rewrite run_dropout_notify by done. apply Z.eqb_eq in E2.
    destruct v; unfold dispatch, IncomingBridge.dispatch_message, ClassicalBridge.dispatch_message,
      dispatch_incoming, dispatch_head, dispatch_classical, dispatch_common; by rewrite E2.
Qed.
End Dispatch.
