(* ===== verification/AsyncGuard.v ===== *)
(** * What the coroutines keep

    Whatever runs while a handler waits, each of its actions keeps the
    bridge's invariant, registers no writer, and sends only messages of the
    protocol about its round. *)

From Stdlib Require Import ZArith Lia.
From stdpp Require Import prelude.
From S2P Require Import Prelude PyDict PyBytes Field Shamir Kdf Crypto Masks Wire State Aggregate Keys.
From S2P Require Import Bridge Invariant Server Frame Variants Effects Async.
From S2P Require AsyncBridge.

Section Methods.
Context (rid : Z).

(** From the two sequential rules to one for coroutines. *)
Lemma moves_both {A} (m : M Ctx A) :
  preserves (ctx_wf rid) m -> (forall c0, preserves (since rid c0) m) ->
  moves (ctx_wf rid) (advances rid) m.
Proof.
  intros Hk Hs s Hwf. split; [by apply Hk|]. apply (Hs s s). split; [apply (rw_id _ _ Hwf)|done].
Qed.

Abbreviation ok := (obeys (ctx_wf rid) (advances rid)).

Lemma ok_still {A} (m : M Ctx A) : (forall s, exec m s = s) -> ok (atomic m).
Proof. intros H. by apply obeys_atomic, moves_still. Qed.

Lemma ok_read_round {A} (f : RoundState -> task Ctx A) :
  (forall r, round_wf rid r -> ok (f r)) -> ok (atomic the_round ≫= f).
Proof.
  intros H. apply obeys_bind_atomic; [by apply moves_still|]. intros s r Hs [= <-]. by apply H.
Qed.

Lemma ok_lift {A B} (r : result A) (f : A -> task Ctx B) :
  (forall a, r = Ok a -> ok (f a)) -> ok (atomic (lift r) ≫= f).
Proof.
  intros H. apply obeys_bind_atomic; [by apply moves_still|]. intros s a _ Ha. by apply H.
Qed.

Lemma ok_get_client cid : ok (atomic (get_client cid)).
Proof. apply ok_still. intros s. unfold exec. by rewrite get_client_run. Qed.

Lemma ok_update_client cid f :
  (forall cs k c, client_wf rid cs k c -> client_wf rid cs k (f c)) -> (forall c, client_data c (f c)) -> ok (atomic (update_client cid f)).
Proof.
  intros Hf Hd. apply obeys_atomic, moves_both; [by apply keeps_update_client|intros; by apply since_update_client].
Qed.

Lemma ok_update_round f :
  (forall r, round_wf rid r -> round_wf rid (f r)) -> (forall r, same_data r (f r)) ->
  ok (atomic (update_round f)).
Proof.
  intros Hf Hx. apply obeys_atomic, moves_both; [by apply keeps_update_round|intros; by apply since_update_round].
Qed.

Lemma ok_write conn data : typed [rid] data -> ok (AsyncBridge.write_and_drain conn data).
Proof.
  intros Hd. unfold AsyncBridge.write_and_drain. apply obeys_bind; [|intros _].
  - apply obeys_atomic. intros s Hs. split; [done|]. unfold exec. destruct s as [[] r].
    split; try done. exists [(conn, data)]. split; [done|]. by constructor.
  - apply obeys_bind; [done|intros _]. apply ok_still. intros s. unfold exec.
    rewrite (M_bind_ok _ _ s (net s) s) by done. by case_match.
Qed.

Section Keys.
Context (encapsulate : nat -> bytes -> result (bytes * bytes)).

Lemma ok_draw pk : ok (atomic (draw_encapsulation encapsulate pk)).
Proof.
  apply obeys_atomic, moves_both; [|intros; apply since_draw].
  unfold draw_encapsulation. apply preserves_bind; [apply preserves_gets|intros c].
  apply preserves_bind; [apply keeps_update_net|intros _; apply preserves_lift].
Qed.

Lemma ok_encapsulate_to cid pk : ok (AsyncBridge.encapsulate_to encapsulate cid pk).
Proof.
  unfold AsyncBridge.encapsulate_to. apply obeys_bind; [apply ok_draw|intros [ct ss]].
  apply obeys_bind; [apply ok_update_client; eauto with wf_db data_db|intros _].
  apply ok_read_round. intros r Hr. apply ok_lift. intros hb Hhb.
  apply obeys_bind; [by apply ok_still|intros n]. case_match; [|done].
  apply ok_write. rewrite <- (rw_id _ _ Hr). by apply ciphertext_typed.
Qed.

Lemma ok_ensure_secret cid : ok (AsyncBridge.ensure_secret encapsulate cid).
Proof.
  apply obeys_bind; [apply ok_get_client|intros c]. case_match; [done|apply ok_encapsulate_to].
Qed.

Lemma ok_setup_client cid : ok (AsyncBridge.setup_client encapsulate cid).
Proof.
  apply obeys_bind; [apply ok_get_client|intros c]. case_match; [apply ok_encapsulate_to|done].
Qed.

Lemma ok_setup_pair p : ok (AsyncBridge.setup_pair encapsulate p).
Proof.
  do 2 (apply obeys_bind; [apply ok_get_client|intros ?]). repeat (case_match; [done|]). case_match; [|done].
  cbv zeta. do 2 (apply obeys_bind; [apply ok_get_client|intros ?]). case_match; [done|].
  apply obeys_bind; [apply ok_ensure_secret|intros _]. apply ok_ensure_secret.
Qed.

Lemma ok_orchestrate_pair p : ok (AsyncBridge.orchestrate_pair encapsulate p).
Proof.
  do 2 (apply obeys_bind; [apply ok_get_client|intros ?]). repeat (case_match; [done|]). cbv zeta.
  do 2 (apply obeys_bind; [apply ok_ensure_secret|intros ?]). apply obeys_atomic, moves_both.
  - do 2 (apply preserves_bind; [apply keeps_get_client|intros ?]). case_match; [|apply preserves_skip].
    apply preserves_bind; [apply keeps_the_round|intros ?]. apply preserves_bind; [apply preserves_lift|intros ?].
    apply preserves_bind; [|intros _]; apply keeps_update_client; eauto with wf_db.
  - intros c0. keep_since.
Qed.

Lemma ok_setup : ok (AsyncBridge.setup_keys_and_masks encapsulate).
Proof.
  unfold AsyncBridge.setup_keys_and_masks.
  apply obeys_bind; [apply obeys_live_each; [tc_solve|apply ok_setup_client]|intros _].
  apply ok_read_round. intros r _. apply obeys_bind; [apply obeys_each, ok_setup_pair|intros _].
  apply ok_read_round. intros r' _. apply obeys_bind; [apply obeys_each, ok_orchestrate_pair|intros _].
  apply obeys_atomic, moves_both.
  - apply preserves_bind; [apply keeps_the_round|intros q].
    apply preserves_bind; [apply preserves_for_each; intros k _; apply keeps_derive_seeds|intros _].
    apply keeps_update_round. intros x Hx. by apply wf_set_stage.
  - intros c0. unfold derive_seeds, derive_seed_for. keep_since.
Qed.
End Keys.

(** ** Aggregation *)

Lemma ok_send_complete f t telemetry writer i :
  pack_telemetry t = Ok telemetry -> ok (AsyncBridge.send_complete f telemetry writer i).
Proof.
  intros Ht. apply ok_read_round. intros r Hr. apply ok_lift. intros msg Hm. apply ok_write.
  rewrite <- (rw_id _ _ Hr). by eapply complete_message_typed.
Qed.

Lemma ok_broadcast f t telemetry :
  pack_telemetry t = Ok telemetry -> ok (AsyncBridge.broadcast f telemetry).
Proof.
  intros Ht. apply obeys_live_each; [tc_solve|]. intros cid. apply obeys_bind.
  { apply ok_still. intros s. unfold exec. by rewrite (M_bind_ok _ _ s (net s) s). }
  intros w. apply ok_read_round. intros r _. apply ok_lift. intros n _.
  apply obeys_each. intros i. by eapply ok_send_complete.
Qed.

Section Aggregation.
Context {L : CryptoLib} (CRYPTO_AVAILABLE : bool).
Context (encapsulate : nat -> bytes -> result (bytes * bytes)).
Context (reconstruct_secret : list (Z * Z) -> result Z).

Lemma outcome_bind {S A B} (m : M S A) (f : A -> M S B) s b :
  outcome (m ≫= f) s = Ok b -> exists a s', m s = (Ok a, s') /\ outcome (f a) s' = Ok b.
Proof. unfold outcome, mbind, M_bind. destruct (m s) as [[a|e] s']; [by exists a, s'|done]. Qed.

Lemma moves_head_result :
  moves (ctx_wf rid) (advances rid) (AsyncBridge.head_result reconstruct_secret).
Proof.
  apply moves_both.
  - apply preserves_bind; [apply keeps_recovery|intros _].
    apply preserves_bind; [apply keeps_finalize_round|intros _].
    apply preserves_bind; [apply keeps_the_round|intros r]. auto with preserves_db.
  - intros c0. pose proof (since_recovery rid c0 reconstruct_secret). pose proof (since_finalize rid c0).
    unfold AsyncBridge.head_result. keep_since.
Qed.

Lemma ok_head_aggregate : ok (AsyncBridge.head_unmask_and_aggregate encapsulate reconstruct_secret).
Proof.
  apply obeys_bind; [apply ok_setup|intros _]. apply obeys_bind_atomic; [apply moves_head_result|].
  intros s p _ H. do 4 (apply outcome_bind in H as (? & ? & _ & H)).
  apply outcome_bind in H as (telemetry & s' & [= Ht _] & [= <-]). by eapply ok_broadcast.
Qed.

Lemma moves_incoming_result :
  moves (ctx_wf rid) (advances rid) (AsyncBridge.incoming_result CRYPTO_AVAILABLE reconstruct_secret).
Proof.
  apply moves_both.
  - apply preserves_bind; [apply keeps_recovery|intros _].
    apply keeps_store_incoming; intros; apply preserves_ret.
  - intros c0. pose proof (since_recovery rid c0 reconstruct_secret).
    unfold AsyncBridge.incoming_result. keep_since.
Qed.

Lemma ok_incoming_aggregate :
  ok (AsyncBridge.incoming_unmask_and_aggregate CRYPTO_AVAILABLE encapsulate reconstruct_secret).
Proof.
  apply obeys_bind; [apply ok_setup|intros _]. apply obeys_bind_atomic; [apply moves_incoming_result|].
  intros s p _ H. do 5 (apply outcome_bind in H as (? & ? & _ & H)).
  case_match; [|by injection H as <-]. do 3 (apply outcome_bind in H as (? & ? & _ & H)).
  apply outcome_bind in H as (telemetry & s' & [= Ht _] & [= <-]). by eapply ok_broadcast.
Qed.
End Aggregation.
End Methods.

(** ** Handlers *)

Lemma round_ctx_wf rid b c : bridge_wf b -> AsyncBridge.round_ctx rid b = Some c -> ctx_wf rid c.
Proof.
  intros Hb. unfold AsyncBridge.round_ctx. destruct (dict_get rid (rounds b)) as [rs|] eqn:E; [|done].
  intros [= <-]. by apply dict_get_elem, (bw_round _ Hb) in E.
Qed.

Lemma with_ctx_wf rid b c : bridge_wf b -> ctx_wf rid c -> bridge_wf (with_ctx rid c b).
Proof. intros [Hk Hr] Hc. split; [by apply dict_keys_set_NoDup|by apply dict_set_Forall]. Qed.

(** What related contexts of round [rid] make of the bridge. *)
Definition lifts (rid : Z) (R : relation Ctx) (G : relation Bridge) : Prop :=
  Reflexive G /\ forall b rs c', dict_get rid (rounds b) = Some rs ->
    R {| net := bridge_net b; round := rs |} c' -> G b (with_ctx rid c' b).

Lemma lifts_advances rid rid' : lifts rid (advances rid) (quiet rid').
Proof. split; [tc_solve|]. intros b rs c' Hrs. by apply quiet_advances. Qed.

Lemma lifts_changes rid : lifts rid (changes rid) progress.
Proof. split; [tc_solve|]. intros b rs c' Hrs. by apply progress_changes. Qed.

Lemma lifts_changes_other rid rid' : rid' <> rid -> lifts rid (changes rid) (quiet rid').
Proof. intros Hne. split; [tc_solve|]. intros b rs c' Hrs. by apply quiet_changes. Qed.

Lemma lifted_step rid R G (upd : Ctx -> Ctx) b :
  lifts rid R G -> (forall c, ctx_wf rid c -> ctx_wf rid (upd c) /\ R c (upd c)) -> bridge_wf b ->
  let b' := match AsyncBridge.round_ctx rid b with Some c => with_ctx rid (upd c) b | None => b end in
  bridge_wf b' /\ G b b'.
Proof.
  intros [Hrefl Hlift] Hu Hb. cbv zeta.
  destruct (AsyncBridge.round_ctx rid b) as [c|] eqn:E; [|done].
  pose proof (round_ctx_wf _ _ _ Hb E) as Hc. destruct (Hu c Hc) as [Hc' Hr].
  split; [by apply with_ctx_wf|]. unfold AsyncBridge.round_ctx in E.
  destruct (dict_get rid (rounds b)) as [rs|] eqn:Eg; [|done]. injection E as <-. by apply (Hlift b rs).
Qed.

(** A coroutine on a round, as one on the bridge. *)
Section InRound.
Context (rid : Z) (R : relation Ctx) (G : relation Bridge) (HG : lifts rid R G).

Lemma obeys_in_round {A} (t : task Ctx A) :
  obeys (ctx_wf rid) R t -> obeys bridge_wf G (AsyncBridge.in_round rid t).
Proof.
  induction t as [r|upd next IH|rest IH]; cbn [AsyncBridge.in_round obeys]; [done| |done].
  intros Ht b Hb. destruct (lifted_step rid R G upd b) as [H1 H2]; [done| |done|].
  { intros c Hc. by destruct (Ht c Hc) as (?&?&?). }
  split; [done|]. split; [done|]. destruct (AsyncBridge.round_ctx rid b) as [c|] eqn:E; [|done].
  apply IH. by apply Ht, (round_ctx_wf _ b).
Qed.

Lemma launches_in_round {A} R0 G0 (t : task Ctx A) :
  lifts rid R0 G0 -> launches (ctx_wf rid) R R0 t ->
  launches bridge_wf G G0 (AsyncBridge.in_round rid t).
Proof.
  intros H0. induction t as [r|upd next IH|rest IH]; cbn [AsyncBridge.in_round launches]; [done| |].
  - intros Ht b Hb. destruct (lifted_step rid R0 G0 upd b) as [H1 H2]; [done| |done|].
    { intros c Hc. by destruct (Ht c Hc) as (?&?&?). }
    split; [done|]. split; [done|]. destruct (AsyncBridge.round_ctx rid b) as [c|] eqn:E; [|done].
    apply IH. by apply Ht, (round_ctx_wf _ b).
  - apply obeys_in_round.
Qed.

Lemma launches_on_known_round R0 G0 (t : task Ctx unit) :
  lifts rid R0 G0 -> launches (ctx_wf rid) R R0 t ->
  launches bridge_wf G G0 (AsyncBridge.on_known_round rid t).
Proof.
  intros H0 Ht. apply launches_bind_atomic.
  - destruct H0. by apply moves_still.
  - intros known. case_match; [by apply (launches_in_round R0)|done].
Qed.
End InRound.

Section Handlers.
Context {L : CryptoLib} (CRYPTO_AVAILABLE : bool) (OQS_AVAILABLE : option bool).
Context (reconstruct_secret : list (Z * Z) -> result Z).
Let aggregate := AsyncBridge.aggregate CRYPTO_AVAILABLE OQS_AVAILABLE reconstruct_secret.

Lemma ok_check v rid :
  obeys (ctx_wf rid) (advances rid) (AsyncBridge.check_round_completion (aggregate v)).
Proof.
  apply ok_read_round. intros r _. repeat case_match; [..|done].
  - apply obeys_bind; [apply ok_update_round; [intros x Hx; by apply wf_set_stage|apply data_set_stage]|].
    intros _. destruct v; [apply ok_head_aggregate|apply ok_incoming_aggregate..].
  - apply obeys_bind; [apply ok_update_round; [intros x Hx; by apply wf_set_stage|apply data_set_stage]|].
    intros _. apply obeys_atomic, moves_both; [apply keeps_round_failure|intros; apply since_round_failure].
Qed.

Lemma launches_check v rid :
  launches (ctx_wf rid) (advances rid) (changes rid) (AsyncBridge.check_round_completion (aggregate v)).
Proof. apply launches_obeys; [apply advances_changes|apply ok_check]. Qed.

Lemma moves_changes {A} rid (m : M Ctx A) :
  preserves (ctx_wf rid) m -> (forall c0, preserves (changed rid c0) m) ->
  moves (ctx_wf rid) (changes rid) m.
Proof.
  intros Hk Hs s Hwf. split; [by apply Hk|]. apply (Hs s s). split; [apply (rw_id _ _ Hwf)|done].
Qed.

Lemma launches_client_complete v h payload rid0 :
  is_bytes payload ->
  launches (ctx_wf rid0) (advances rid0) (changes rid0) (
    r ← atomic the_round;
    match dict_get (h_client_id h) (clients r) with
    | None => pass
    | Some _ =>
        _ ← atomic (
          _ ← (if (4 <=? length payload)%nat
               then update_client (h_client_id h) (set_sample_count (int_from_bytes (take 4 payload)))
               else skip);
          update_client (h_client_id h) set_completed);
        AsyncBridge.check_round_completion (aggregate v)
    end).
Proof.
  intros Hp. apply launches_bind_atomic; [by apply moves_still|]. intros r. case_match; [|done].
  apply launches_bind_atomic; [|intros _; apply launches_check].
  apply moves_changes; [|intros c0; keep_since]. apply preserves_bind.
  - case_match eqn:El; [|apply preserves_skip].
    apply keeps_update_client. intros cs k c'. by apply wf_set_sample_count, four_bytes_range.
  - intros _. apply keeps_update_client. eauto with wf_db.
Qed.

Lemma launches_dropout_notify v h rid :
  header_wf h ->
  launches (ctx_wf rid) (advances rid) (changes rid) (
    _ ← atomic (
      r ← the_round;
      _ ← (if bool_decide (h_client_id h ∈ dropout_clients r) then skip
           else update_round (set_dropouts (dropout_clients r ++ [h_client_id h])));
      trigger_recovery reconstruct_secret);
    AsyncBridge.check_round_completion (aggregate v)).
Proof.
  intros Hh. apply launches_bind_atomic; [|intros _; apply launches_check]. apply moves_changes.
  - apply keeps_read_round. intros c Hc. rewrite exec_bind.
    case_bool_decide as Hd; cbn [skip update_round modify]; apply keeps_recovery; [done|].
    apply wf_set_dropouts; [done|apply (hw_client _ Hh)|done].
  - intros c0. pose proof (changed_since rid c0 _ (fun c => since_recovery rid c reconstruct_secret)). keep_since.
Qed.

(** The handlers of all messages: what they may do before they first wait, and
    that afterwards they disturb no round. *)
Lemma launches_dispatch v h payload writer rid :
  header_wf h -> is_bytes payload ->
  let t := AsyncBridge.dispatch_async CRYPTO_AVAILABLE OQS_AVAILABLE reconstruct_secret v h payload writer in
  launches bridge_wf (quiet rid) progress t /\
  (disturbs rid h = false -> launches bridge_wf (quiet rid) (quiet rid) t).
Proof.
  intros Hh Hp t. unfold t, AsyncBridge.dispatch_async, AsyncBridge.dispatch.
  pose proof (lifts_advances (h_round_id h) rid) as Hq.
  assert (Hne : h_message_type h =? MSG_TYPE_CLIENT_COMPLETE = true \/
                h_message_type h =? MSG_TYPE_DROPOUT_NOTIFY = true ->
                disturbs rid h = false -> lifts (h_round_id h) (changes (h_round_id h)) (quiet rid)).
  { intros E [_ Hd]%orb_false_iff. apply lifts_changes_other. intros ->.
    rewrite Z.eqb_refl in Hd. destruct E as [E|E]; rewrite E, ?orb_true_r in Hd; done. }
  case_match; [|case_match].
  - split; [|intros Hd]; (apply (launches_on_known_round _ _ _ Hq (changes (h_round_id h)));
      [|by apply launches_client_complete]); [apply lifts_changes|auto].
  - split; [|intros Hd]; (apply (launches_on_known_round _ _ _ Hq (changes (h_round_id h)));
      [|by apply launches_dropout_notify]); [apply lifts_changes|auto].
  - assert (Hk : forall b, bridge_wf b -> bridge_wf (exec (Variants.dispatch CRYPTO_AVAILABLE OQS_AVAILABLE
      reconstruct_secret v h payload writer) b)) by by apply dispatch_keeps_wf.
    split; [|intros Hd]; apply launches_atomic; intros b Hb; (split; [by apply Hk|]).
    + by apply progress_dispatch.
    + by apply quiet_dispatch.
Qed.
End Handlers.
