(* ===== verification/AsyncServer.v ===== *)
(** * The server with its connections

    [asyncio.start_server] runs one [_handle_client] per connection.  A host is
    a bridge object and, for every open connection, where its [_handle_client]
    stands: between two messages, or at an await of a handler.  Events are what
    the event loop can do next, and any sequence of events is a schedule. *)

From Stdlib Require Import ZArith Lia.
From stdpp Require Import prelude gmap.
From S2P Require Import Prelude PyDict PyBytes Field Shamir Kdf Crypto Masks Wire State Aggregate Keys.
From S2P Require Import Bridge Frame Invariant Server Variants Effects Async AsyncFacts AsyncGuard.
From S2P Require AsyncBridge.

(** ** Hosts and events *)

Record Host : Type := {
  host_bridge : Bridge;
  host_conns : gmap Z (task Bridge unit);
}.

(** [_handle_client] waits for the next header. *)
Definition idle : task Bridge unit := Stop (Ok tt).

Definition new_host : Host := {| host_bridge := new_bridge; host_conns := ∅ |}.

(** - [Accept]: a connection with a new writer.
    - [Deliver]: [_handle_client] has read a message and dispatches it; the
      handler runs up to its first wait.
    - [Resume]: a handler's wait is over.
    - [Finish]: the stream ended, or the handler raised; the writer is closed.
    - [Network]: transports close and connections are lost. *)
Inductive event : Type :=
  | Accept (writer : Z)
  | Deliver (writer : Z) (header : MessageHeader) (payload : bytes)
  | Resume (writer : Z)
  | Finish (writer : Z)
  | Network (closing lost : list Z) (encaps : nat).

Definition event_wf (e : event) : Prop :=
  match e with Deliver _ h payload => header_wf h /\ is_bytes payload | _ => True end.

Definition set_transport (cl lo : list Z) (k : nat) (b : Bridge) : Bridge := {|
  rounds := rounds b; current_round_id := current_round_id b;
  bridge_net := Build_Net (client_writers (bridge_net b)) (wire (bridge_net b)) cl lo k |}.

Section Host.
Context (dispatch : MessageHeader -> bytes -> Z -> task Bridge unit).

(** Runs [t], the coroutine of the connection [w], up to its next wait. *)
Definition advance (w : Z) (t : task Bridge unit) (s : Host) : Host :=
  let '(t', b) := segment t (host_bridge s) in
  {| host_bridge := b; host_conns := <[w := t']> (host_conns s) |}.

(** What an event does, where it can happen. *)
Definition fire (e : event) (s : Host) : option Host :=
  match e with
  | Accept w =>
      match host_conns s !! w with
      | None => Some {| host_bridge := host_bridge s; host_conns := <[w := idle]> (host_conns s) |}
      | Some _ => None
      end
  | Deliver w h payload =>
      match host_conns s !! w with
      | Some (Stop (Ok _)) => Some (advance w (dispatch h payload w) s)
      | _ => None
      end
  | Resume w =>
      match host_conns s !! w with
      | Some t => if stopped t then None else Some (advance w t s)
      | None => None
      end
  | Finish w =>
      match host_conns s !! w with
      | Some (Stop _) => Some {| host_bridge := close_writer w (host_bridge s);
                                 host_conns := delete w (host_conns s) |}
      | _ => None
      end
  | Network cl lo k => Some {| host_bridge := set_transport cl lo k (host_bridge s); host_conns := host_conns s |}
  end.

Lemma fire_deliver w h payload s :
  host_conns s !! w = Some idle -> fire (Deliver w h payload) s = Some (advance w (dispatch h payload w) s).
Proof. intros H. cbn [fire]. by rewrite H. Qed.

Fixpoint fire_all (es : list event) (s : Host) : option Host :=
  match es with
  | [] => Some s
  | e :: es' => s' ← fire e s; fire_all es' s'
  end.

Lemma fire_all_app es1 es2 s :
  fire_all (es1 ++ es2) s = s' ← fire_all es1 s; fire_all es2 s'.
Proof.
  revert s. induction es1 as [|e es1 IH]; intros s; [done|]. cbn [app fire_all].
  destruct (fire e s) as [s1|]; [|done]. apply IH.
Qed.

Inductive host_reachable : Host -> Prop :=
  | host_init : host_reachable new_host
  | host_fire e s s' : host_reachable s -> event_wf e -> fire e s = Some s' -> host_reachable s'.

Lemma host_fire_all es s s' :
  host_reachable s -> Forall event_wf es -> fire_all es s = Some s' -> host_reachable s'.
Proof.
  intros Hr Hes. revert s Hr. induction Hes as [|e es He Hes IH]; intros s Hr; cbn [fire_all].
  - by intros [= <-].
  - destruct (fire e s) as [s1|] eqn:E; [|done]. cbn. apply IH. by eapply host_fire.
Qed.

(** A handler that is resumed until it ends. *)
Lemma resume_to_end w t b cs :
  host_reachable (advance w t {| host_bridge := b; host_conns := cs |}) ->
  host_reachable {| host_bridge := snd (run t b); host_conns := <[w := Stop (fst (run t b))]> cs |}.
Proof.
  unfold advance. cbn [host_bridge host_conns]. revert b.
  induction t as [r|upd next IH|rest IH]; intros b; cbn [segment run fst snd]; [done|apply IH|].
  intros Hr. destruct (stopped rest) eqn:E.
  - destruct rest as [r| |]; [exact Hr|discriminate E|discriminate E].
  - apply IH. eapply (host_fire (Resume w)); [exact Hr|done|].
    unfold fire, advance. cbn [host_conns host_bridge]. rewrite lookup_insert_eq, E.
    destruct (segment rest b). by rewrite insert_insert_eq.
Qed.
End Host.

(** ** The invariant, with handlers suspended anywhere *)

Section Bridges.
Context {L : CryptoLib} (CRYPTO_AVAILABLE : bool) (OQS_AVAILABLE : option bool).
Context (reconstruct_secret : list (Z * Z) -> result Z).
Let dispatch_async := AsyncBridge.dispatch_async CRYPTO_AVAILABLE OQS_AVAILABLE reconstruct_secret.

Record bridge_good (b : Bridge) : Prop := {
  bg_wf : bridge_wf b;
  bg_writers : NoDup (dict_keys (client_writers (bridge_net b)));
  bg_wire : Forall (fun p => typed (dict_keys (rounds b)) (snd p)) (wire (bridge_net b));
}.

(** Whatever a connection's handler still does disturbs no round. *)
Record host_wf (s : Host) : Prop := {
  hw_bridge : bridge_good (host_bridge s);
  hw_conns : forall w t rid, host_conns s !! w = Some t -> obeys bridge_wf (quiet rid) t;
}.

Lemma good_progress b b' : bridge_good b -> bridge_wf b' -> progress b b' -> bridge_good b'.
Proof.
  intros [Hb Hn Hw] Hb' Hp. split; [done|by apply (pg_writers _ _ Hp)|].
  destruct (pg_sent _ _ Hp) as (msgs & -> & Hm). apply Forall_app. split; [|done].
  eapply Forall_impl; [exact Hw|]. intros p. by apply typed_weaken, progress_keys.
Qed.

Lemma new_host_wf : host_wf new_host.
Proof.
  split; [|by intros w t rid]. split; [|constructor..].
  split; [apply NoDup_nil_2|]. intros rid r Hin. by apply not_elem_of_nil in Hin.
Qed.

(** One stretch of a coroutine. *)
Lemma advance_wf w t s (G0 : Z -> relation Bridge) :
  (forall rid, PreOrder (G0 rid)) -> (forall rid b b', G0 rid b b' -> progress b b') ->
  (forall rid, launches bridge_wf (quiet rid) (G0 rid) t) -> host_wf s ->
  host_wf (advance w t s) /\ forall rid, G0 rid (host_bridge s) (host_bridge (advance w t s)).
Proof.
  intros HG Hprog Ht [Hb Hc]. unfold advance.
  assert (Hseg : forall rid, _) by (intros rid; exact (launches_segment _ _ (G0 rid) t (host_bridge s) (Ht rid) (bg_wf _ Hb))).
  destruct (segment t (host_bridge s)) as [t' b']. cbn [fst snd host_bridge] in *. split; [|apply Hseg].
  destruct (Hseg 0) as (_ & Hwf & Hg). split; cbn [host_bridge host_conns].
  - eapply good_progress; [done..|]. by eapply Hprog.
  - intros w' u rid. rewrite lookup_insert. case_decide; [|apply Hc]. intros [= <-]. apply Hseg.
Qed.

Lemma fire_wf v e s s' :
  host_wf s -> event_wf e -> fire (dispatch_async v) e s = Some s' -> host_wf s'.
Proof.
  intros Hs He. pose proof Hs as [Hb Hc]. destruct e as [w|w h p|w|w|cl lo k]; cbn [fire].
  - case_match; [done|]. intros [= <-]. split; [done|]. intros w' u rid. cbn [host_conns].
    rewrite lookup_insert. case_decide; [by intros [= <-]|apply Hc].
  - destruct He as [Hh Hp]. repeat (case_match; try done). intros [= <-].
    apply (advance_wf w _ s (fun _ => progress)); [tc_solve|done| |done]. intros rid.
    by apply launches_dispatch.
  - destruct (host_conns s !! w) as [t|] eqn:E; [|done]. case_match; [done|]. intros [= <-].
    apply (advance_wf w t s quiet); [tc_solve|by intros rid b b' []| |done].
    intros rid. apply launches_obeys; [done|by apply (Hc w)].
  - repeat (case_match; try done). intros [= <-]. destruct Hb as [[]]. split.
    + split; [by split|by destruct (host_bridge s) as [? ? []]..].
    + intros w' u rid. cbn [host_conns]. rewrite lookup_delete. case_decide; [done|apply Hc].
  - intros [= <-]. destruct Hb as [[]]. split; [|done]. split; [by split|done..].
Qed.

Lemma reachable_host_wf v s : host_reachable (dispatch_async v) s -> host_wf s.
Proof. induction 1 as [|e s s' Hr IH He Hf]; [apply new_host_wf|by eapply fire_wf]. Qed.

(** C3: the bridges' invariant, under any schedule.  In every state a host of
    any of the three bridges can reach - connections opening and closing,
    messages delivered while other handlers wait at a drain, exceptions, lost
    connections - rounds and clients are stored under their own ids, every
    stored chunk has the round's chunk size and a 16-bit number, ids and counts
    fit their wire fields, the dropout list has no duplicates, a stored result
    has one row of field elements per chunk, a complete round has a result, and
    every client has one writer. *)
Theorem interleaved_invariant v s :
  host_reachable (dispatch_async v) s ->
  bridge_wf (host_bridge s) /\ NoDup (dict_keys (client_writers (bridge_net (host_bridge s)))).
Proof. intros Hr. by apply reachable_host_wf in Hr as [[Hb Hn Hw] _]. Qed.

(** C4: type soundness of the server's side of the protocol, under any
    schedule.  In every state a host of any of the three bridges can reach,
    each [writer.write] so far handed over exactly one header and payload, as the
    bridge's own reader frames them: a 16-byte header that parses, of the
    protocol's version, without a client id, whose payload length is the number
    of bytes that follow it, about a round the bridge was told of, and which is
    either a KEM ciphertext with sequence number 0 or a ROUND_COMPLETE message
    carrying a packed row of 16-bit elements and a packed telemetry block.
    Nothing else is written: in particular none of the 32-byte HMAC tags that
    protocol/message_format.md asks for after every payload. *)
Theorem interleaved_messages v s :
  host_reachable (dispatch_async v) s ->
  forall conn data, (conn, data) ∈ wire (bridge_net (host_bridge s)) ->
  exists h payload, framed (h, payload) data /\ server_message (dict_keys (rounds (host_bridge s))) h payload.
Proof.
  intros Hr conn data Hin. apply reachable_host_wf in Hr as [[_ _ Hw] _].
  rewrite Forall_forall in Hw. apply (Hw _ Hin).
Qed.

(** ** The sequential model *)

(** C7: the sequential model is the schedules in which no handler waits.  Every
    state that Server's model reaches, in which handlers run to their end one
    after the other, is reached by a host whose connections are all closed
    again. *)
Theorem sequential_is_schedule v b :
  reachable (dispatch CRYPTO_AVAILABLE OQS_AVAILABLE reconstruct_secret v) b ->
  host_reachable (dispatch_async v) {| host_bridge := b; host_conns := ∅ |}.
Proof.
  induction 1 as [|b b' Hr IH Hs]; [apply host_init|].
  destruct Hs as [h p w b Hh Hp|w b|f b Hw1 Hw2].
  - assert (Hd : NoDup (dict_keys (client_writers (bridge_net b)))).
    { apply reachable_host_wf in IH as [[_ Hd _] _]. exact Hd. }
    assert (H1 : host_reachable (dispatch_async v)
      (advance w (dispatch_async v h p w) {| host_bridge := b; host_conns := <[w := idle]> ∅ |})).
    { apply (host_fire _ (Deliver w h p) {| host_bridge := b; host_conns := <[w := idle]> ∅ |});
        [|by split|cbn [fire host_conns]; by rewrite lookup_insert_eq].
      eapply (host_fire _ (Accept w)); [exact IH|done|]. cbn [fire host_conns]. by rewrite lookup_empty. }
    apply resume_to_end in H1. unfold dispatch_async in H1 at 2 3. rewrite run_dispatch in H1 by done.
    eapply (host_fire _ (Finish w)) in H1; [|done|cbn [fire host_conns]; by rewrite lookup_insert_eq].
    eapply (host_fire _ (Network (closing (bridge_net (exec (dispatch CRYPTO_AVAILABLE OQS_AVAILABLE
      reconstruct_secret v h p w) b))) (lost (bridge_net (exec (dispatch CRYPTO_AVAILABLE OQS_AVAILABLE
      reconstruct_secret v h p w) b))) (encaps_used (bridge_net (exec (dispatch CRYPTO_AVAILABLE OQS_AVAILABLE
      reconstruct_secret v h p w) b))))); [exact H1|done|].
    cbn [fire host_bridge host_conns]. rewrite !delete_insert_eq, delete_empty. do 2 f_equal.
    unfold exec. destruct (dispatch _ _ _ v h p w b) as [res [rs cur []]]. done.
  - eapply (host_fire _ (Network (w :: closing (bridge_net b)) (lost (bridge_net b)) (encaps_used (bridge_net b))));
      [exact IH|done|]. cbn [fire host_bridge host_conns]. by destruct b as [rs cur []].
  - eapply (host_fire _ (Network (closing (f (bridge_net b))) (lost (f (bridge_net b)))
      (encaps_used (f (bridge_net b))))); [exact IH|done|].
    cbn [fire host_bridge host_conns]. unfold set_transport. rewrite <- Hw1, <- Hw2.
    by destruct (f (bridge_net b)).
Qed.
End Bridges.
