(* ===== verification/AsyncDelivery.v ===== *)
(** * A round completes, whatever happens while it is sent

    The aggregation's coroutine succeeds and every connected client is sent
    every chunk of the weighted means, in order, although other connections'
    handlers run at each of its waits, as long as none of them registers a
    writer or changes what the clients of the round contributed. *)

From Stdlib Require Import ZArith Lia.
From stdpp Require Import prelude gmap.
From S2P Require Import Prelude PyDict PyBytes Field Shamir Kdf Crypto Masks Wire State Aggregate FedAvg Keys.
From S2P Require Import Bridge Frame Invariant Server KeySetup Completion Variants Effects.
From S2P Require Import Async AsyncFacts AsyncGuard AsyncServer.
From S2P Require AsyncBridge.

(** ** Messages that were sent among others *)

Definition sends (msgs : list (Z * bytes)) (c c' : Ctx) : Prop :=
  exists m, wire (net c') = wire (net c) ++ m /\ msgs `sublist_of` m.

Lemma sends_nil c : sends [] c c.
Proof. exists []. by rewrite app_nil_r. Qed.

Lemma sends_trans m1 m2 c1 c2 c3 : sends m1 c1 c2 -> sends m2 c2 c3 -> sends (m1 ++ m2) c1 c3.
Proof.
  intros (w1 & E1 & H1) (w2 & E2 & H2). exists (w1 ++ w2). split; [by rewrite E2, E1, app_assoc|].
  by apply sublist_app.
Qed.

Lemma sends_weaken m c c' : sends m c c' -> sends [] c c'.
Proof. intros (w & E & _). exists w. split; [done|]. apply sublist_nil_l. Qed.

Section Delivery.
Context (rid : Z) (Hrid : 0 <= rid < 2 ^ 32) (r0 : RoundState) (ws : list (Z * Z)).
Context (Hwf0 : round_wf rid r0).

(** ** The state the aggregation relies on *)

Record steady (c : Ctx) : Prop := {
  st_wf : ctx_wf rid c;
  st_data : same_data r0 (round c);
  st_writers : client_writers (net c) = ws;
  st_lost : lost (net c) = [];
}.

(** What other handlers may do to round [rid] and to the connections. *)
Record others (c c' : Ctx) : Prop := {
  ot_wf : ctx_wf rid c';
  ot_data : same_data (round c) (round c');
  ot_writers : client_writers (net c') = client_writers (net c);
  ot_lost : lost (net c') = lost (net c);
  ot_sends : sends [] c c';
}.

Lemma steady_others c c' : steady c -> others c c' -> steady c'.
Proof. intros [] []. split; [done| |congruence..]. by transitivity (round c). Qed.

Lemma advances_others c c' : ctx_wf rid c' -> advances rid c c' -> others c c'.
Proof.
  intros Hwf []. split; try done. destruct av_sent as (m & Hm & _). exists m. split; [done|].
  apply sublist_nil_l.
Qed.

(** The coroutine returns a value of [P], and sends [msgs] in that order. *)
Definition delivers {A} (P : A -> Prop) (msgs : list (Z * bytes)) (t : task Ctx A) : Prop :=
  forall c, steady c -> succeeds others (fun a c' => P a /\ steady c' /\ sends msgs c c') t c.

Lemma delivers_bind {A B} (P : A -> Prop) (Q : B -> Prop) m1 m2 (t : task Ctx A) (f : A -> task Ctx B) :
  delivers P m1 t -> (forall a, P a -> delivers Q m2 (f a)) -> delivers Q (m1 ++ m2) (t ≫= f).
Proof.
  intros Ht Hf c Hc. apply succeeds_bind. eapply succeeds_mono; [|by apply Ht].
  intros a c1 (Ha & H1 & S1). eapply succeeds_mono; [|by apply Hf].
  intros b c2 (Hb & H2 & S2). split; [done|]. split; [done|]. by eapply sends_trans.
Qed.

(** Parts that send nothing that matters here. *)
Lemma delivers_then {A B} (P : A -> Prop) (Q : B -> Prop) msgs (t : task Ctx A) (f : A -> task Ctx B) :
  delivers P [] t -> (forall a, P a -> delivers Q msgs (f a)) -> delivers Q msgs (t ≫= f).
Proof. apply (delivers_bind P Q []). Qed.

Lemma delivers_weaken {A} (P : A -> Prop) msgs (t : task Ctx A) : delivers P msgs t -> delivers P [] t.
Proof.
  intros H c Hc. eapply succeeds_mono; [|by apply H]. intros a c' (? & ? & ?). split; [done|].
  split; [done|]. by eapply sends_weaken.
Qed.

Lemma delivers_ret {A} (P : A -> Prop) (a : A) : P a -> delivers P [] (Stop (Ok a)).
Proof. intros Ha c Hc. split; [done|]. split; [done|apply sends_nil]. Qed.

Lemma delivers_pass : delivers (fun _ => True) [] pass.
Proof. by apply delivers_ret. Qed.

Lemma delivers_atomic {A} (P : A -> Prop) (m : M Ctx A) :
  moves (ctx_wf rid) (advances rid) m -> (forall c, steady c -> exists a, outcome m c = Ok a /\ P a) ->
  delivers P [] (atomic m).
Proof.
  intros Hm Ho c Hc. destruct (Ho c Hc) as (a & Ha & HP). destruct (Hm c (st_wf _ Hc)) as [Hw Hadv].
  apply (succeeds_atomic _ _ _ a _ (exec m c)); [unfold outcome, exec in *; destruct (m c); simpl in *; congruence|].
  pose proof (advances_others _ _ Hw Hadv) as Hot.
  split; [done|]. split; [by eapply steady_others|apply Hot].
Qed.

Lemma delivers_each {B} (l : list B) (msgs : B -> list (Z * bytes)) (body : B -> task Ctx unit) :
  (forall x, x ∈ l -> delivers (fun _ => True) (msgs x) (body x)) ->
  delivers (fun _ => True) (concat (msgs <$> l)) (each l body).
Proof.
  induction l as [|x l IH]; intros H; [apply delivers_pass|]. rewrite fmap_cons. cbn [each concat].
  apply (delivers_bind (fun _ => True)); [apply H; left|]. intros _ _. apply IH. intros y Hy. apply H. by right.
Qed.

Lemma delivers_each_silent {B} (l : list B) (body : B -> task Ctx unit) :
  (forall x, x ∈ l -> delivers (fun _ => True) [] (body x)) -> delivers (fun _ => True) [] (each l body).
Proof. intros H. eapply delivers_weaken, (delivers_each l (fun _ => [])), H. Qed.

Lemma delivers_check_size {K} (keys : Ctx -> list K) ks :
  (forall c, steady c -> keys c = ks) ->
  delivers (fun _ => True) [] (atomic (check_size (fun c => length (keys c)) (length ks))).
Proof.
  intros Hk. apply delivers_atomic; [apply moves_check_size; tc_solve|]. intros c Hc. exists tt.
  unfold outcome. rewrite check_size_ok; [done|]. by rewrite Hk.
Qed.

Lemma delivers_live_each {K} (keys : Ctx -> list K) ks msgs (body : K -> task Ctx unit) :
  (forall c, steady c -> keys c = ks) ->
  (forall x, x ∈ ks -> delivers (fun _ => True) (msgs x) (body x)) ->
  delivers (fun _ => True) (concat (msgs <$> ks)) (live_each keys body).
Proof.
  intros Hk Hb. apply (delivers_then (fun l => l = ks)).
  { apply delivers_atomic; [by apply moves_still|]. intros c Hc. eexists. split; [done|]. by apply Hk. }
  intros ? ->. enough (forall l, (forall x, x ∈ l -> x ∈ ks) ->
    delivers (fun _ => True) (concat (msgs <$> l)) (iterate (fun c => length (keys c)) (length ks) l body)) as H
    by by apply H.
  induction l as [|x l IH]; intros Hl; cbn [iterate]; [by apply delivers_check_size|].
  rewrite fmap_cons. cbn [concat]. apply (delivers_then (fun _ => True)); [by apply delivers_check_size|].
  intros _ _. apply (delivers_bind (fun _ => True)); [apply Hb, Hl; left|]. intros _ _.
  apply IH. intros y Hy. apply Hl. by right.
Qed.

(** ** Reading *)

Lemma delivers_read_round {A} (P : A -> Prop) msgs (f : RoundState -> task Ctx A) :
  (forall r, round_wf rid r -> same_data r0 r -> delivers P msgs (f r)) ->
  delivers P msgs (atomic the_round ≫= f).
Proof.
  intros H. apply (delivers_then (fun r => round_wf rid r /\ same_data r0 r)); [|intros r []; by apply H].
  apply delivers_atomic; [by apply moves_still|]. intros c Hc. eexists. split; [done|]. split; apply Hc.
Qed.

Lemma delivers_lift {A B} (P : A -> Prop) msgs (r : result B) b (f : B -> task Ctx A) :
  r = Ok b -> delivers P msgs (f b) -> delivers P msgs (atomic (lift r) ≫= f).
Proof.
  intros -> H. apply (delivers_then (fun x => x = b)); [|by intros ? ->].
  apply delivers_atomic; [by apply moves_still|]. intros c _. by exists b.
Qed.

Lemma steady_client c k : steady c -> k ∈ dict_keys (clients r0) -> exists cl, dict_get k (clients (round c)) = Some cl.
Proof.
  intros Hc Hk. rewrite <- (data_keys _ _ (st_data _ Hc)) in Hk.
  apply dict_get_is_Some in Hk as [cl Hcl]. by exists cl.
Qed.

Lemma delivers_get_client {A} (P : A -> Prop) msgs k (f : ClientState -> task Ctx A) :
  k ∈ dict_keys (clients r0) -> (forall c, delivers P msgs (f c)) ->
  delivers P msgs (atomic (get_client k) ≫= f).
Proof.
  intros Hk H. apply (delivers_then (fun _ => True)); [|by intros c _]. apply delivers_atomic.
  - apply moves_still; [tc_solve|]. intros s. unfold exec. by rewrite get_client_run.
  - intros c Hc. destruct (steady_client c k Hc Hk) as [cl Hcl]. exists cl. unfold outcome.
    rewrite get_client_run. unfold dict_index. by rewrite Hcl.
Qed.

(** One message; the wait after it lets the others run. *)
Lemma delivers_write conn data :
  typed [rid] data -> delivers (fun _ => True) [(conn, data)] (AsyncBridge.write_and_drain conn data).
Proof.
  intros Hd c Hc. unfold AsyncBridge.write_and_drain.
  set (c1 := {| net := log_write conn data (net c); round := round c |}).
  apply succeeds_bind, (succeeds_atomic _ _ _ tt _ c1); [done|]. apply succeeds_bind. intros c2 H12.
  assert (Hs2 : steady c2).
  { apply (steady_others c1); [|done]. destruct Hc. split; unfold c1; by destruct (net c). }
  apply (succeeds_atomic _ _ _ tt _ c2).
  - rewrite (M_bind_ok _ _ c2 (net c2) c2) by done. rewrite bool_decide_false; [done|].
    rewrite (st_lost _ Hs2). apply not_elem_of_nil.
  - split; [done|]. split; [done|]. destruct (ot_sends _ _ H12) as (m & Hm & _).
    exists ((conn, data) :: m). split; [|apply sublist_skip, sublist_nil_l]. rewrite Hm. unfold c1.
    destruct (net c). cbn. by rewrite <- app_assoc.
Qed.
(** ** Key setup *)

Lemma round_key_byte k : k ∈ dict_keys (clients r0) -> is_byte k.
Proof. intros ([k1 c1] & -> & Hin)%list_elem_of_fmap. by apply (rw_client _ _ Hwf0) in Hin as []. Qed.

Lemma pair_keys p : p ∈ later_pairs (dict_keys (clients r0)) ->
  fst p ∈ dict_keys (clients r0) /\ snd p ∈ dict_keys (clients r0).
Proof. destruct p as [a b]. apply later_pairs_elem. Qed.

(** Methods without a wait. *)
Definition returns {A} (m : M Ctx A) : Prop := forall c, steady c ->
  exists a c', m c = (Ok a, c') /\ steady c' /\ advances rid c c'.

Lemma returns_moves {A} (m : M Ctx A) :
  moves (ctx_wf rid) (advances rid) m -> (forall c, steady c -> exists a, outcome m c = Ok a) -> returns m.
Proof.
  intros Hm Ho c Hc. destruct (Ho c Hc) as [a Ha]. destruct (Hm c (st_wf _ Hc)) as [Hw Hadv].
  exists a, (exec m c). split; [unfold outcome, exec in *; destruct (m c); simpl in *; congruence|].
  split; [|done]. by eapply steady_others, advances_others.
Qed.

Lemma returns_bind {A B} (m : M Ctx A) (f : A -> M Ctx B) :
  returns m -> (forall a, returns (f a)) -> returns (m ≫= f).
Proof.
  intros Hm Hf c Hc. destruct (Hm c Hc) as (a & c1 & E & H1 & A1). rewrite (M_bind_ok _ _ _ _ _ E).
  destruct (Hf a c1 H1) as (b & c2 & E2 & H2 & A2). exists b, c2. split; [done|]. split; [done|]. by transitivity c1.
Qed.

Lemma returns_read_round {B} (f : RoundState -> M Ctx B) :
  (forall r, round_wf rid r -> same_data r0 r -> returns (f r)) -> returns (the_round ≫= f).
Proof. intros H c Hc. apply (H (round c)); [apply Hc..|done]. Qed.

Lemma returns_get_client {B} k (f : ClientState -> M Ctx B) :
  k ∈ dict_keys (clients r0) -> (forall c, returns (f c)) -> returns (get_client k ≫= f).
Proof.
  intros Hk H c Hc. destruct (steady_client c k Hc Hk) as [cl Hcl].
  rewrite (get_client_bind _ _ _ cl Hcl). by apply H.
Qed.

Lemma returns_update_round f :
  (forall r, round_wf rid r -> round_wf rid (f r)) -> (forall r, same_data r (f r)) ->
  returns (update_round f).
Proof.
  intros Hf Hd. apply returns_moves; [|by exists tt].
  apply moves_both; [by apply keeps_update_round|intros; by apply since_update_round].
Qed.

Lemma delivers_returns {A} (m : M Ctx A) :
  returns m -> delivers (fun _ => True) [] (atomic m).
Proof.
  intros Hr c Hc. destruct (Hr c Hc) as (a & c' & E & Hs & Ha). apply (succeeds_atomic _ _ _ a _ c'); [done|].
  split; [done|]. split; [done|]. apply (advances_others _ _ (st_wf _ Hs) Ha).
Qed.

Lemma returns_lift {A B} (r : result A) a (f : A -> M Ctx B) : r = Ok a -> returns (f a) -> returns (lift r ≫= f).
Proof. intros -> H c Hc. rewrite lift_ok_bind. by apply H. Qed.

Lemma returns_skip : returns skip.
Proof. intros c Hc. by exists tt, c. Qed.

Lemma returns_for_each {B} (l : list B) (body : B -> M Ctx unit) :
  (forall x, x ∈ l -> returns (body x)) -> returns (for_each l body).
Proof.
  induction l as [|x l IH]; intros H; [apply returns_skip|]. cbn [for_each].
  apply returns_bind; [apply H; left|]. intros _. apply IH. intros y Hy. apply H. by right.
Qed.

Lemma returns_update_client k f :
  k ∈ dict_keys (clients r0) ->
  (forall cs k c, client_wf rid cs k c -> client_wf rid cs k (f c)) -> (forall c, client_data c (f c)) ->
  returns (update_client k f).
Proof.
  intros Hk Hf Hd. apply returns_moves.
  - apply moves_both; [by apply keeps_update_client|intros; by apply since_update_client].
  - intros c Hc. destruct (steady_client c k Hc Hk) as [cl Hcl]. exists tt. unfold outcome.
    by rewrite update_client_run, Hcl.
Qed.

Lemma pairwise_seed_ok ss i j :
  i ∈ dict_keys (clients r0) -> j ∈ dict_keys (clients r0) ->
  exists seed, derive_pairwise_mask_seed ss (Z.min i j) (Z.max i j) rid = Ok seed.
Proof.
  intros Hi%round_key_byte Hj%round_key_byte.
  destruct (derive_ok ss (Pairwise (Z.min i j) (Z.max i j) rid)) as (seed & Hseed & _); [|by exists seed].
  cbn [purpose_ok]. unfold is_byte in *. lia.
Qed.

Lemma returns_derive_seeds k : k ∈ dict_keys (clients r0) -> returns (derive_seeds k).
Proof.
  intros Hk. apply returns_get_client; [done|]. intros c. case_match; [|apply returns_skip].
  apply returns_read_round. intros r _ Hd. rewrite (data_keys _ _ Hd). apply returns_for_each. intros p Hp.
  apply returns_get_client; [done|]. intros own. apply returns_get_client; [done|]. intros peer.
  case_match; [|apply returns_skip]. apply returns_read_round. intros r' Hr' _. rewrite (rw_id _ _ Hr').
  destruct (pairwise_seed_ok (default [] (shared_secret own)) k p Hk Hp) as [seed Hseed].
  eapply returns_lift; [exact Hseed|]. apply returns_update_client; eauto with wf_db data_db.
Qed.

Section Keys.
Context (encapsulate : nat -> bytes -> result (bytes * bytes)).
Hypothesis encapsulate_works : forall n pk, exists ct ss,
  encapsulate n pk = Ok (ct, ss) /\ Z.of_nat (length ct) < 65536.

Lemma delivers_encapsulate_to k pk :
  k ∈ dict_keys (clients r0) -> delivers (fun _ => True) [] (AsyncBridge.encapsulate_to encapsulate k pk).
Proof.
  intros Hk. unfold AsyncBridge.encapsulate_to.
  apply (delivers_then (fun p => Z.of_nat (length (fst p)) < 65536)).
  { apply delivers_atomic; [apply moves_of_obeys, ok_draw|]. intros c _.
    destruct (encapsulate_works (encaps_used (net c)) pk) as (ct & ss & E & Hl).
    exists (ct, ss). split; [|done]. unfold outcome, draw_encapsulation, mbind, M_bind. cbn. by rewrite E. }
  intros [ct ss] Hl. cbn [fst snd] in *. apply (delivers_then (fun _ => True)).
  { apply delivers_atomic; [apply moves_of_obeys, ok_update_client; eauto with wf_db data_db|].
    intros c Hc. destruct (steady_client c k Hc Hk) as [cl Hcl]. exists tt. unfold outcome.
    by rewrite update_client_run, Hcl. }
  intros _ _. apply delivers_read_round. intros r Hr _.
  destruct (build_header_ok MSG_TYPE_KEM_CIPHERTEXT (round_id r) 0 0 (Z.of_nat (length ct))) as (hb & Hhb & _).
  { rewrite (rw_id _ _ Hr). repeat split; lia || done. }
  eapply delivers_lift; [exact Hhb|]. apply (delivers_then (fun _ => True)).
  { apply delivers_atomic; [by apply moves_still|]. intros c _. by eexists. }
  intros n _. case_match; [|apply delivers_pass]. eapply delivers_weaken, delivers_write.
  rewrite <- (rw_id _ _ Hr). by apply ciphertext_typed.
Qed.

Lemma delivers_ensure_secret k :
  k ∈ dict_keys (clients r0) -> delivers (fun _ => True) [] (AsyncBridge.ensure_secret encapsulate k).
Proof.
  intros Hk. apply delivers_get_client; [done|]. intros c.
  case_match; [apply delivers_pass|by apply delivers_encapsulate_to].
Qed.

Lemma delivers_setup_client k :
  k ∈ dict_keys (clients r0) -> delivers (fun _ => True) [] (AsyncBridge.setup_client encapsulate k).
Proof.
  intros Hk. apply delivers_get_client; [done|]. intros c.
  case_match; [by apply delivers_encapsulate_to|apply delivers_pass].
Qed.

Lemma ordered_keys (p : Z * Z) :
  p ∈ later_pairs (dict_keys (clients r0)) ->
  (if fst p <? snd p then fst p else snd p) ∈ dict_keys (clients r0) /\
  (if fst p <? snd p then snd p else fst p) ∈ dict_keys (clients r0).
Proof. intros [H1 H2]%pair_keys. by case_match. Qed.

Lemma delivers_setup_pair p :
  p ∈ later_pairs (dict_keys (clients r0)) ->
  delivers (fun _ => True) [] (AsyncBridge.setup_pair encapsulate p).
Proof.
  intros Hp. destruct (pair_keys p Hp) as [H1 H2]. destruct (ordered_keys p Hp) as [H3 H4].
  apply delivers_get_client; [done|]. intros a. apply delivers_get_client; [done|]. intros b. cbv zeta.
  destruct (_ && _); [apply delivers_pass|]. destruct (_ && _); [|apply delivers_pass].
  apply delivers_get_client; [done|]. intros ini. apply delivers_get_client; [done|]. intros res.
  destruct (_ && _); [apply delivers_pass|].
  apply (delivers_then (fun _ => True)); [by apply delivers_ensure_secret|intros _ _].
  by apply delivers_ensure_secret.
Qed.

Lemma derive_ordered ss a b :
  a ∈ dict_keys (clients r0) -> b ∈ dict_keys (clients r0) ->
  exists seed, derive_pairwise_mask_seed ss (if a <? b then a else b) (if a <? b then b else a) rid = Ok seed.
Proof.
  intros Ha Hb. destruct (pairwise_seed_ok ss a b Ha Hb) as [seed Hs]. exists seed. rewrite <- Hs.
  destruct (Z.ltb_spec a b); [by rewrite Z.min_l, Z.max_r by lia|by rewrite Z.min_r, Z.max_l by lia].
Qed.

Lemma delivers_orchestrate_pair p :
  p ∈ later_pairs (dict_keys (clients r0)) ->
  delivers (fun _ => True) [] (AsyncBridge.orchestrate_pair encapsulate p).
Proof.
  intros Hp. destruct (pair_keys p Hp) as [H1 H2]. destruct (ordered_keys p Hp) as [H3 H4].
  apply delivers_get_client; [done|]. intros a. apply delivers_get_client; [done|]. intros b. cbv zeta.
  destruct (_ || _); [apply delivers_pass|]. destruct (_ && _); [apply delivers_pass|].
  do 2 (apply (delivers_then (fun _ => True)); [by apply delivers_ensure_secret|intros _ _]).
  apply delivers_returns, returns_get_client; [done|]. intros ini. apply returns_get_client; [done|].
  intros res. destruct (_ && _); [|apply returns_skip]. apply returns_read_round. intros r Hr _. rewrite (rw_id _ _ Hr).
  destruct (derive_ordered (default [] (shared_secret ini)) _ _ H1 H2) as [seed Hseed].
  eapply returns_lift; [exact Hseed|].
  apply returns_bind; [|intros _]; apply returns_update_client; eauto with wf_db data_db.
Qed.

Lemma delivers_setup : delivers (fun _ => True) [] (AsyncBridge.setup_keys_and_masks encapsulate).
Proof.
  unfold AsyncBridge.setup_keys_and_masks. apply (delivers_then (fun _ => True)).
  { eapply delivers_weaken, (delivers_live_each _ (dict_keys (clients r0)) (fun _ => [])).
    - intros c Hc. apply (data_keys _ _ (st_data _ Hc)).
    - intros k Hk. by apply delivers_setup_client. }
  intros _ _. apply delivers_read_round. intros r1 _ Hd1. rewrite (data_keys _ _ Hd1).
  apply (delivers_then (fun _ => True)); [apply delivers_each_silent, delivers_setup_pair|intros _ _].
  apply delivers_read_round. intros r2 _ Hd2. rewrite (data_keys _ _ Hd2).
  apply (delivers_then (fun _ => True)); [apply delivers_each_silent, delivers_orchestrate_pair|intros _ _].
  apply delivers_returns, returns_read_round. intros r3 _ Hd3. rewrite (data_keys _ _ Hd3).
  apply returns_bind; [apply returns_for_each, returns_derive_seeds|intros _].
  apply returns_update_round; [intros x Hx; by apply wf_set_stage|apply data_set_stage].
Qed.
End Keys.

(** ** The broadcast *)

Lemma num_chunks_count r : deliverable r -> num_chunks r = Ok (chunk_count r).
Proof. intros [Hc _]. unfold num_chunks. by rewrite (proj2 (Z.eqb_neq _ _)) by lia. Qed.

(** What every client is to be sent: every chunk of [f], in order. *)
Definition chunk_sends (f : chunks) (payload : bytes) (w : Z) : list (Z * bytes) :=
  (fun i => (w, chunk_message r0 f payload i)) <$> range (chunk_count r0).

Section Broadcast.
Context (f : chunks) (t : Telemetry) (payload : bytes).
Hypothesis chunk_size_pos : chunk_size r0 <> 0.
Hypothesis payload_packed : pack_telemetry t = Ok payload.
Hypothesis messages_fit : forall i, i ∈ range (chunk_count r0) -> exists m, complete_message r0 f payload i = Ok m.
Hypothesis writers_keys : NoDup (dict_keys ws).

Lemma delivers_send_complete w i :
  i ∈ range (chunk_count r0) ->
  delivers (fun _ => True) [(w, chunk_message r0 f payload i)] (AsyncBridge.send_complete f payload w i).
Proof.
  intros Hi. destruct (messages_fit i Hi) as [msg Hm]. apply delivers_read_round. intros r Hr Hd.
  unfold chunk_message. rewrite Hm.
  eapply delivers_lift; [by rewrite (data_complete_message _ _ Hd)|]. apply delivers_write.
  rewrite <- (rw_id _ _ Hwf0). by eapply complete_message_typed.
Qed.

Lemma concat_singletons {A B} (g : A -> B) l : concat ((fun x => [g x]) <$> l) = g <$> l.
Proof. induction l as [|x l IH]; [done|]. rewrite !fmap_cons. cbn [concat app]. by rewrite IH. Qed.

(** The writer that [client_writers.items()] yields for a key. *)
Definition writer_of (k : Z) : Z := default 0 (dict_get k ws).

Lemma writers_of_keys : writer_of <$> dict_keys ws = dict_values ws.
Proof.
  unfold dict_keys, dict_values. rewrite <- list_fmap_compose. apply list_fmap_ext.
  intros i [k w] Hin%list_elem_of_lookup_2. unfold writer_of. cbn. by rewrite (dict_elem_get k w) by done.
Qed.

Lemma delivers_broadcast :
  delivers (fun _ => True) (concat (chunk_sends f payload <$> dict_values ws)) (AsyncBridge.broadcast f payload).
Proof.
  rewrite <- writers_of_keys, <- list_fmap_compose.
  apply (delivers_live_each _ (dict_keys ws)).
  { intros c Hc. unfold AsyncBridge.writer_keys. by rewrite (st_writers _ Hc). }
  intros k Hk. cbn [compose]. apply (delivers_then (fun w => w = writer_of k)).
  { apply delivers_atomic; [by apply moves_still|]. intros c Hc.
    apply dict_get_is_Some in Hk as [w Hw]. exists w. unfold writer_of. rewrite Hw. split; [|done].
    unfold outcome, mbind, M_bind, lift, dict_index. cbn. by rewrite (st_writers _ Hc), Hw. }
  intros w ->. apply delivers_read_round. intros r _ Hd.
  eapply (delivers_lift _ _ _ (chunk_count r0)).
  { rewrite (data_num_chunks _ _ Hd). unfold num_chunks. by rewrite (proj2 (Z.eqb_neq _ _) chunk_size_pos). }
  unfold chunk_sends. rewrite <- concat_singletons. apply delivers_each. intros i Hi.
  by apply delivers_send_complete.
Qed.
End Broadcast.

(** ** The aggregation *)

Section Aggregate.
Context {L : CryptoLib} (CRYPTO_AVAILABLE : bool) (OQS_AVAILABLE : option bool).
Context (reconstruct_secret : list (Z * Z) -> result Z) (v : variant).
Hypothesis encapsulate_works : forall n pk, exists ct ss,
  encapsulate OQS_AVAILABLE v n pk = Ok (ct, ss) /\ Z.of_nat (length ct) < 65536.
Hypothesis sizes_fit : deliverable r0.
Hypothesis no_dropouts : dropout_clients r0 = [].
Hypothesis writers_keys : NoDup (dict_keys ws).
Let means : chunks := head_spec r0 (chunk_count r0).
Context (t : Telemetry) (payload : bytes).
Hypothesis telemetry_collected : collect_telemetry r0 = Ok t.
Hypothesis telemetry_packed : pack_telemetry t = Ok payload.

Lemma recovery_idle c : steady c -> trigger_recovery reconstruct_secret c = (Ok tt, c).
Proof.
  intros Hc. unfold trigger_recovery. rewrite (M_bind_ok _ _ _ (round c) c) by done.
  by rewrite (sd_dropouts _ _ (st_data _ Hc)), no_dropouts.
Qed.

Lemma head_result_means c : steady c -> outcome (AsyncBridge.head_result reconstruct_secret) c = Ok (means, payload).
Proof.
  intros Hc. unfold outcome, AsyncBridge.head_result. rewrite (M_bind_ok _ _ _ tt c) by by apply recovery_idle.
  rewrite (M_bind_ok _ _ _ _ _ (finalize_same rid c r0 Hwf0 sizes_fit no_dropouts (st_data _ Hc))).
  rewrite (M_bind_ok _ _ _ (set_stage ROUND_COMPLETE (set_unmasked means (round c))) _) by done.
  rewrite finished_telemetry, (data_telemetry r0), telemetry_collected, lift_ok_bind, telemetry_packed,
    lift_ok_bind by apply Hc. cbn. by destruct (round c).
Qed.

Lemma incoming_result_means c :
  steady c -> outcome (AsyncBridge.incoming_result CRYPTO_AVAILABLE reconstruct_secret) c = Ok (Some (means, payload)).
Proof.
  intros Hc. unfold outcome, AsyncBridge.incoming_result. rewrite (M_bind_ok _ _ _ tt c) by by apply recovery_idle.
  rewrite (M_bind_ok _ _ _ (round c) c) by done.
  pose proof (incoming_same CRYPTO_AVAILABLE rid r0 (round c) Hwf0 sizes_fit no_dropouts (st_data _ Hc)) as Hagg.
  fold means in Hagg. unfold incoming_aggregate in Hagg.
  destruct (Incoming.unmask_client_chunks _ _) as [cu|]; [|done].
  rewrite result_bind_ok in Hagg. rewrite lift_ok_bind, Hagg, lift_ok_bind.
  rewrite (data_num_chunks _ _ (st_data _ Hc)), num_chunks_count, lift_ok_bind by done.
  rewrite (proj2 (forallb_forall _ _)).
  - rewrite !(M_bind_ok (update_round _) _ _ tt _ eq_refl).
    by rewrite (data_telemetry r0), telemetry_collected, lift_ok_bind, telemetry_packed, lift_ok_bind by apply Hc.
  - intros i Hi. apply list_elem_of_In in Hi. apply compute_fedavg_shape in Hagg as [_ [Hkeys _]].
    change (model_size (round c) / chunk_size (round c)) with (chunk_count (round c)) in Hkeys.
    rewrite (data_chunk_count _ _ (st_data _ Hc)) in Hkeys. rewrite <- Hkeys in Hi. unfold dict_mem.
    by apply dict_get_is_Some in Hi as [row ->].
Qed.

Lemma delivers_aggregate :
  delivers (fun _ => True) (concat (chunk_sends means payload <$> dict_values ws))
    (AsyncBridge.aggregate CRYPTO_AVAILABLE OQS_AVAILABLE reconstruct_secret v).
Proof.
  assert (Hb : delivers (fun _ => True) (concat (chunk_sends means payload <$> dict_values ws))
                 (AsyncBridge.broadcast means payload)).
  { eapply delivers_broadcast; try done; [pose proof (del_chunk _ sizes_fit); lia|].
    intros i Hi%elem_of_range. eapply complete_message_ok; try done.
    - by eapply telemetry_length.
    - apply sizes_fit.
    - apply sizes_fit. }
  destruct v; (apply (delivers_then (fun _ => True)); [by apply delivers_setup|intros _ _]).
  - apply (delivers_then (fun p => p = (means, payload))); [|by intros p ->].
    apply delivers_atomic; [apply moves_head_result|]. intros c Hc. eexists. by split; [apply head_result_means|].
  - apply (delivers_then (fun p => p = Some (means, payload))); [|by intros p ->].
    apply delivers_atomic; [apply moves_incoming_result|]. intros c Hc. eexists.
    by split; [apply incoming_result_means|].
  - apply (delivers_then (fun p => p = Some (means, payload))); [|by intros p ->].
    apply delivers_atomic; [apply moves_incoming_result|]. intros c Hc. eexists.
    by split; [apply incoming_result_means|].
Qed.

Lemma delivers_check :
  threshold r0 <= expected_clients r0 <= completed_count r0 ->
  delivers (fun _ => True) (concat (chunk_sends means payload <$> dict_values ws))
    (AsyncBridge.check_round_completion
       (AsyncBridge.aggregate CRYPTO_AVAILABLE OQS_AVAILABLE reconstruct_secret v)).
Proof.
  intros Hcount. apply delivers_read_round. intros r _ Hd.
  rewrite (data_completed_count _ _ Hd), (data_surviving _ _ Hd), (fx_threshold _ _ (sd_fixed _ _ Hd)).
  assert (surviving r0 = expected_clients r0) as -> by (unfold surviving; rewrite no_dropouts; cbn; lia).
  rewrite (proj2 (Z.leb_le _ _)), (proj2 (Z.leb_le _ _)) by lia. cbn [andb].
  apply (delivers_then (fun _ => True)); [|intros _ _; apply delivers_aggregate].
  apply delivers_returns, returns_update_round; [intros x Hx; by apply wf_set_stage|apply data_set_stage].
Qed.
End Aggregate.
End Delivery.
