(* ===== verification/AsyncWaits.v ===== *)
(** * How often a handler waits

    The number of times the completion of a round waits for a drain, in a round
    whose clients, chunks and writers others leave alone: bounds on the
    coroutines of AsyncBridge. *)

From Stdlib Require Import ZArith Lia.
From stdpp Require Import prelude.
From S2P Require Import Prelude PyDict PyBytes Field Shamir Kdf Crypto Masks Wire State Aggregate FedAvg Keys.
From S2P Require Import Bridge Frame Invariant Server Variants Effects Async AsyncDelivery.
From S2P Require AsyncBridge.

Lemma later_pairs_length l : (2 * length (later_pairs l) = length l * (length l - 1))%nat.
Proof.
  induction l as [|a l IH]; [done|]. cbn [later_pairs length]. rewrite length_app, length_fmap. nia.
Qed.

(** One wait for every client in the first loop of the key setup, two for every
    pair in each of the other two, one for every chunk and writer. *)
Definition wait_bound (clients writers chunks : nat) : nat :=
  (clients + 2 * (clients * (clients - 1)) + writers * chunks)%nat.

Section Waits.
Context (r0 : RoundState) (writers0 : list (Z * Z)).
Hypothesis some_elements : chunk_size r0 <> 0.

(** The round has the clients and chunks of [r0], the bridge its writers. *)
Definition settled (c : Ctx) : Prop := same_data r0 (round c) /\ client_writers (net c) = writers0.

#[local] Abbreviation bounded := (waits settled).

Lemma waits_atomic {A} (m : M Ctx A) : bounded 0 (atomic m).
Proof. by intros s _. Qed.

Lemma waits_write conn data : bounded 1 (AsyncBridge.write_and_drain conn data).
Proof. by intros s _ s' _. Qed.

Section Keys.
Context (encapsulate : nat -> bytes -> result (bytes * bytes)).

Lemma waits_encapsulate_to cid pk : bounded 1 (AsyncBridge.encapsulate_to encapsulate cid pk).
Proof.
  do 5 (apply waits_bind_atomic; intros ? ? _ _). case_match; [apply waits_write|done].
Qed.

Lemma waits_ensure_secret cid : bounded 1 (AsyncBridge.ensure_secret encapsulate cid).
Proof. apply waits_bind_atomic. intros s c _ _. case_match; [done|apply waits_encapsulate_to]. Qed.

Lemma waits_setup_client cid : bounded 1 (AsyncBridge.setup_client encapsulate cid).
Proof. apply waits_bind_atomic. intros s c _ _. case_match; [apply waits_encapsulate_to|done]. Qed.

Lemma waits_two_secrets a b :
  bounded 2 (_ ← AsyncBridge.ensure_secret encapsulate a; AsyncBridge.ensure_secret encapsulate b).
Proof. apply (waits_bind _ 1 1); [|intros _]; apply waits_ensure_secret. Qed.

Lemma waits_setup_pair p : bounded 2 (AsyncBridge.setup_pair encapsulate p).
Proof.
  do 2 (apply waits_bind_atomic; intros ? ? _ _). case_match; [done|]. case_match; [|done]. cbv zeta.
  do 2 (apply waits_bind_atomic; intros ? ? _ _). case_match; [done|apply waits_two_secrets].
Qed.

Lemma waits_orchestrate_pair p : bounded 2 (AsyncBridge.orchestrate_pair encapsulate p).
Proof.
  do 2 (apply waits_bind_atomic; intros ? ? _ _). do 2 (case_match; [done|]). cbv zeta.
  apply (waits_bind _ 1 1); [apply waits_ensure_secret|intros _].
  apply (waits_bind _ 1 0); [apply waits_ensure_secret|intros _]. apply waits_atomic.
Qed.

Lemma waits_pairs {r s} (body : Z * Z -> task Ctx unit) :
  settled s -> outcome the_round s = Ok r -> (forall p, bounded 2 (body p)) ->
  bounded (length (clients r0) * (length (clients r0) - 1)) (each (later_pairs (dict_keys (clients r))) body).
Proof.
  intros [Hd _] [= <-] Hb. rewrite (data_keys _ _ Hd).
  replace (length (clients r0)) with (length (dict_keys (clients r0))) by apply length_fmap.
  rewrite <- later_pairs_length, Nat.mul_comm. by apply waits_each.
Qed.

Lemma waits_setup :
  let n := length (clients r0) in
  bounded (n + 2 * (n * (n - 1))) (AsyncBridge.setup_keys_and_masks encapsulate).
Proof.
  intros n. apply waits_bind.
  - rewrite <- (Nat.mul_1_r n). apply waits_live_each; [|apply waits_setup_client].
    intros s [Hd _]. unfold AsyncBridge.client_keys. rewrite (data_keys _ _ Hd). apply length_fmap.
  - intros _. apply waits_bind_atomic. intros s r Hs Hr.
    apply (waits_bind _ (n * (n - 1))); [by apply (waits_pairs (s := s)), waits_setup_pair|intros _].
    apply waits_bind_atomic. clear s r Hs Hr. intros s r Hs Hr.
    apply (waits_bind _ (n * (n - 1)) 0); [by apply (waits_pairs (s := s)), waits_orchestrate_pair|].
    intros _. apply waits_atomic.
Qed.
End Keys.

Lemma waits_broadcast f telemetry :
  bounded (length writers0 * Z.to_nat (chunk_count r0)) (AsyncBridge.broadcast f telemetry).
Proof.
  apply waits_live_each.
  - intros s [_ Hw]. unfold AsyncBridge.writer_keys. rewrite Hw. apply length_fmap.
  - intros cid. apply waits_bind_atomic. intros _ w _ _. apply waits_bind_atomic. intros s r [Hd _] [= <-].
    apply waits_bind_atomic. intros s1 n _ Hn.
    assert (n = chunk_count r0) as E.
    { revert Hn. unfold outcome, lift. cbn [fst]. rewrite (data_num_chunks _ _ Hd). unfold num_chunks.
      rewrite (proj2 (Z.eqb_neq _ _)) by done. by intros [= <-]. }
    rewrite E. clear n E Hn s1.
    rewrite <- (Nat.mul_1_r (Z.to_nat _)), <- range_length. apply waits_each. intros i.
    do 2 (apply waits_bind_atomic; intros ? ? _ _). apply waits_write.
Qed.

Section Completion.
Context {L : CryptoLib} (CRYPTO_AVAILABLE : bool) (OQS_AVAILABLE : option bool).
Context (reconstruct_secret : list (Z * Z) -> result Z).

Lemma waits_check v :
  bounded (wait_bound (length (clients r0)) (length writers0) (Z.to_nat (chunk_count r0)))
    (AsyncBridge.check_round_completion (AsyncBridge.aggregate CRYPTO_AVAILABLE OQS_AVAILABLE reconstruct_secret v)).
Proof.
  apply waits_bind_atomic. intros s r _ _. repeat case_match; [|by intros ? ? ? ?|done].
  apply waits_bind_atomic. intros _ _ _ _.
  destruct v; (apply waits_bind; [apply waits_setup|intros _]); apply waits_bind_atomic; intros _ p _ _;
    [apply waits_broadcast|..]; (destruct p as [[]|]; [apply waits_broadcast|done]).
Qed.
End Completion.
End Waits.

(** A coroutine on a round waits as often on the bridge. *)
Lemma waits_in_round {A} rid (P : Ctx -> Prop) n (t : task Ctx A) :
  waits P n t ->
  waits (fun b => forall c, AsyncBridge.round_ctx rid b = Some c -> P c) n (AsyncBridge.in_round rid t).
Proof.
  revert n. induction t as [r|upd next IH|rest IH]; intros n; cbn [waits AsyncBridge.in_round]; [done| |].
  - intros Ht b Hb. destruct (AsyncBridge.round_ctx rid b) as [c|] eqn:E; [|done]. by apply IH, Ht, Hb.
  - destruct n as [|n]; [done|]. apply IH.
Qed.
