(* ===== verification/AsyncRound.v ===== *)
(** * Rounds on a host

    The last client's CLIENT_COMPLETE, delivered to a host whose other
    connections go on: when the round completes nevertheless, and how a client
    that registers during the broadcast ends it. *)

From Stdlib Require Import ZArith Lia.
From stdpp Require Import prelude gmap.
From S2P Require Import Prelude PyDict PyBytes Field Shamir Kdf Crypto Masks Wire State Aggregate FedAvg Keys.
From S2P Require Import Bridge Frame Invariant Server KeySetup Completion Variants Effects Emission.
From S2P Require Import Async AsyncFacts AsyncGuard AsyncServer AsyncDelivery AsyncWaits.
From S2P Require AsyncBridge.

(** ** From the round to the bridge *)

(** What the other connections do between two resumptions. *)
Definition meanwhile (rid : Z) (b b' : Bridge) : Prop := bridge_wf b' /\ quiet rid b b'.

#[export] Instance meanwhile_trans rid : Transitive (meanwhile rid).
Proof. intros b1 b2 b3 [_ H1] [W H2]. split; [done|]. by transitivity b2. Qed.

Lemma round_ctx_some rid b c :
  AsyncBridge.round_ctx rid b = Some c <->
  exists r, dict_get rid (rounds b) = Some r /\ c = {| net := bridge_net b; round := r |}.
Proof.
  unfold AsyncBridge.round_ctx. destruct (dict_get rid (rounds b)) as [r|]; cbn; [|naive_solver].
  split; [intros [= <-]; by exists r|by intros (? & [= <-] & ->)].
Qed.

Lemma meanwhile_others rid b b' c :
  AsyncBridge.round_ctx rid b = Some c -> meanwhile rid b b' ->
  exists c', AsyncBridge.round_ctx rid b' = Some c' /\ others rid c c'.
Proof.
  intros (r & Hr & ->)%round_ctx_some [Hwf Hq]. destruct (qu_data _ _ _ Hq r Hr) as (r' & Hr' & Hd).
  exists {| net := bridge_net b'; round := r' |}. split; [apply round_ctx_some; by exists r'|].
  split; cbn [net round]; try done.
  - by apply (bw_round _ Hwf), dict_get_elem.
  - apply Hq.
  - apply (pg_lost _ _ (qu_progress _ _ _ Hq)).
  - destruct (pg_sent _ _ (qu_progress _ _ _ Hq)) as (m & Hm & _). exists m. split; [done|]. apply sublist_nil_l.
Qed.

Definition lifted {A} (rid : Z) (Q : A -> Ctx -> Prop) (a : A) (b : Bridge) : Prop :=
  exists c, AsyncBridge.round_ctx rid b = Some c /\ Q a c.

Lemma round_ctx_with rid b c : AsyncBridge.round_ctx rid (with_ctx rid c b) = Some c.
Proof.
  apply round_ctx_some. exists (round c). split; [apply dict_get_set_eq|]. by destruct c.
Qed.

Lemma succeeds_in_round {A} rid (Q : A -> Ctx -> Prop) (t : task Ctx A) b c :
  AsyncBridge.round_ctx rid b = Some c -> succeeds (others rid) Q t c ->
  succeeds (meanwhile rid) (lifted rid Q) (AsyncBridge.in_round rid t) b.
Proof.
  revert b c. induction t as [[a|e]|upd next IH|rest IH]; intros b c Hb;
    cbn [succeeds AsyncBridge.in_round]; [by exists c|done| |].
  - rewrite Hb. apply IH, round_ctx_with.
  - intros H b' Hb'. destruct (meanwhile_others _ _ _ _ Hb Hb') as (c' & Hc' & Ho). by apply (IH b' c'), H.
Qed.

Lemma segment_in_round_atomic {A B} rid (m : M Ctx A) (f : A -> task Ctx B) a b c c' :
  AsyncBridge.round_ctx rid b = Some c -> m c = (Ok a, c') ->
  segment (AsyncBridge.in_round rid (atomic m ≫= f)) b =
  segment (AsyncBridge.in_round rid (f a)) (with_ctx rid c' b).
Proof.
  intros Hb Hm. unfold mbind, task_mbind, atomic, exec, outcome.
  cbn [task_bind AsyncBridge.in_round segment]. by rewrite Hb, Hm.
Qed.

Lemma with_ctx_twice rid c c' b : with_ctx rid c' (with_ctx rid c b) = with_ctx rid c' b.
Proof. unfold with_ctx. cbn [rounds current_round_id]. by rewrite dict_set_set. Qed.

(** ** The other connections' events *)

Section Host.
Context {L : CryptoLib} (CRYPTO_AVAILABLE : bool) (OQS_AVAILABLE : option bool).
Context (reconstruct_secret : list (Z * Z) -> result Z) (v : variant) (rid w : Z).
Let dispatch_async := AsyncBridge.dispatch_async CRYPTO_AVAILABLE OQS_AVAILABLE reconstruct_secret v.

(** Events that leave the handler of [w] and what round [rid] aggregates
    alone: no message that registers a writer, none that changes the round's
    data, no lost connection. *)
Definition undisturbed (e : event) : bool :=
  match e with
  | Deliver w' h _ => negb (w' =? w) && negb (disturbs rid h)
  | Finish w' => negb (w' =? w)
  | Network _ lo _ => match lo with [] => true | _ => false end
  | _ => true
  end.

Definition resumes (e : event) : bool := match e with Resume w' => w' =? w | _ => false end.

Lemma fire_others e s s' t :
  host_wf s -> lost (bridge_net (host_bridge s)) = [] -> host_conns s !! w = Some t ->
  event_wf e -> undisturbed e = true -> resumes e = false ->
  fire dispatch_async e s = Some s' ->
  quiet rid (host_bridge s) (host_bridge s') /\ host_conns s' !! w = Some t.
Proof.
  intros [Hb Hc] Hlost Ht He Hu Hr. destruct e as [w'|w' h p|w'|w'|cl lo k]; cbn [fire undisturbed resumes] in *.
  - destruct (host_conns s !! w') eqn:E; [done|]. intros [= <-]. cbn. split; [done|].
    rewrite lookup_insert_ne; [done|congruence].
  - apply andb_true_iff in Hu as [Hne%negb_true_iff%Z.eqb_neq Hd%negb_true_iff]. destruct He as [Hh Hp].
    repeat (case_match; try done). intros [= <-]. unfold advance.
    destruct (launches_dispatch CRYPTO_AVAILABLE OQS_AVAILABLE reconstruct_secret v h p w' rid Hh Hp) as [_ Hl].
    pose proof (launches_segment _ _ (quiet rid) _ (host_bridge s) (Hl Hd) (bg_wf _ Hb)) as (_ & _ & Hq).
    unfold dispatch_async. destruct (segment _ _) as [t' b']. cbn in *. split; [done|]. by rewrite lookup_insert_ne.
  - apply Z.eqb_neq in Hr. destruct (host_conns s !! w') as [u|] eqn:E; [|done]. case_match; [done|].
    intros [= <-]. unfold advance.
    pose proof (obeys_segment _ _ u (host_bridge s) (Hc w' u rid E) (bg_wf _ Hb)) as (_ & _ & Hq).
    destruct (segment u _) as [t' b']. cbn in *. split; [done|]. by rewrite lookup_insert_ne.
  - apply negb_true_iff, Z.eqb_neq in Hu. repeat (case_match; try done). intros [= <-]. cbn.
    split; [|by rewrite lookup_delete_ne]. destruct (host_bridge s) as [rs cur []].
    split; [split; try done; intros ? r0 Hr0; by exists r0|done|intros r0 Hr0; by exists r0].
  - destruct lo; [|done]. intros [= <-]. cbn. split; [|done].
    destruct (host_bridge s) as [rs cur []]. cbn in *.
    split; [split; try done; intros ? r0 Hr0; by exists r0|done|intros r0 Hr0; by exists r0].
Qed.

(** The handler of [w] is suspended, and succeeds from wherever the others get
    to in the meantime. *)
Definition on_course (Q : unit -> Bridge -> Prop) (s : Host) : Prop :=
  host_wf s /\ lost (bridge_net (host_bridge s)) = [] /\
  exists t, host_conns s !! w = Some t /\
  forall b', meanwhile rid (host_bridge s) b' -> succeeds (meanwhile rid) Q t b'.

Context (Q : unit -> Bridge -> Prop).
Hypothesis Q_stable : forall a b b', meanwhile rid b b' -> Q a b -> Q a b'.

Lemma on_course_advance t s :
  host_wf s -> lost (bridge_net (host_bridge s)) = [] ->
  (forall rid', launches bridge_wf (quiet rid') progress t) ->
  succeeds (meanwhile rid) Q t (host_bridge s) -> on_course Q (advance w t s).
Proof.
  intros Hs Hlost Ht HQ.
  destruct (advance_wf w t s (fun _ => progress)) as [Hwf Hp]; [tc_solve|done|done|done|].
  split; [done|]. split; [by rewrite (pg_lost _ _ (Hp rid))|]. revert Hwf. unfold advance.
  pose proof (succeeds_segment (meanwhile rid) Q t (host_bridge s) Q_stable HQ) as Hseg.
  destruct (segment t (host_bridge s)) as [t' b']. cbn [fst snd host_bridge host_conns] in *.
  intros _. exists t'. by rewrite lookup_insert_eq.
Qed.

Lemma on_course_fire e s s' :
  on_course Q s -> event_wf e -> undisturbed e = true -> fire dispatch_async e s = Some s' -> on_course Q s'.
Proof.
  intros (Hs & Hlost & t & Ht & HQ) He Hu Hf. destruct (resumes e) eqn:Er.
  - destruct e as [| |w'| |]; try done. cbn [resumes] in Er. apply Z.eqb_eq in Er as ->.
    cbn [fire] in Hf. rewrite Ht in Hf. destruct (Async.stopped t); [done|]. injection Hf as <-.
    apply on_course_advance; [done|done| |].
    + intros rid'. apply launches_obeys; [by intros b b' []|]. by apply (hw_conns _ Hs w).
    + apply HQ. split; [apply Hs|done].
  - destruct (fire_others e s s' t Hs Hlost Ht He Hu Er Hf) as [Hq Ht'].
    assert (Hs' : host_wf s') by by eapply fire_wf.
    split; [done|]. split; [by rewrite (pg_lost _ _ (qu_progress _ _ _ Hq))|].
    exists t. split; [done|]. intros b' Hb'. apply HQ. transitivity (host_bridge s'); [|done].
    split; [apply Hs'|done].
Qed.

Lemma on_course_fire_all es s s' :
  on_course Q s -> Forall event_wf es -> forallb undisturbed es = true ->
  fire_all dispatch_async es s = Some s' -> on_course Q s'.
Proof.
  intros Hs Hes. revert s Hs. induction Hes as [|e es He Hes IH]; intros s Hs; cbn [forallb fire_all].
  - by intros _ [= <-].
  - intros [Hu Hus]%andb_true_iff. destruct (fire dispatch_async e s) as [s1|] eqn:E; [|done]. cbn.
    apply IH; [by eapply on_course_fire|done].
Qed.

(** ** Counting resumptions *)

Context (r0 : RoundState) (writers0 : list (Z * Z)).

(** Round [rid] has the data of [r0], the bridge the writers [writers0]. *)
Definition settled_bridge (b : Bridge) : Prop :=
  forall c, AsyncBridge.round_ctx rid b = Some c -> settled r0 writers0 c.

(** The handler of [w] is resumed at most [k] times more. *)
Definition counted (k : nat) (s : Host) : Prop :=
  host_wf s /\ lost (bridge_net (host_bridge s)) = [] /\ settled_bridge (host_bridge s) /\
  (exists r, dict_get rid (rounds (host_bridge s)) = Some r) /\
  exists t, host_conns s !! w = Some t /\ resumable settled_bridge k t.

Lemma settled_quiet b b' :
  (exists r, dict_get rid (rounds b) = Some r) -> quiet rid b b' -> settled_bridge b ->
  settled_bridge b' /\ exists r, dict_get rid (rounds b') = Some r.
Proof.
  intros [r Hr] Hq Hs. destruct (qu_data _ _ _ Hq r Hr) as (r' & Hr' & Hd). split; [|by exists r'].
  intros c (r'' & Hr'' & ->)%round_ctx_some. rewrite Hr' in Hr''. injection Hr'' as <-.
  destruct (Hs {| net := bridge_net b; round := r |}) as [H1 H2]; [apply round_ctx_some; by exists r|].
  split; [by transitivity r|]. cbn [net] in *. by rewrite (qu_writers _ _ _ Hq).
Qed.

(** The segment a suspended handler runs uses up one resumption. *)
Lemma counted_advance n t s :
  host_wf s -> lost (bridge_net (host_bridge s)) = [] -> settled_bridge (host_bridge s) ->
  (exists r, dict_get rid (rounds (host_bridge s)) = Some r) ->
  (forall rid', obeys bridge_wf (quiet rid') t) -> waits settled_bridge n t ->
  counted n (advance w t s).
Proof.
  intros Hs Hlost Hset Hr Ht Hw.
  destruct (advance_wf w t s quiet) as [Hwf Hq]; [tc_solve|by intros ? ? ? []| |done|].
  { intros rid'. by apply launches_obeys. }
  destruct (waits_segment settled_bridge
    (fun b => bridge_wf b /\ exists r, dict_get rid (rounds b) = Some r) (quiet rid) n t (host_bridge s))
    as [Hres _]; [| |done|by split; [apply (bg_wf _ (hw_bridge _ Hs))|]|done|].
  { intros b b' [_ Hb] Hbq. by apply settled_quiet. }
  { apply obeys_strengthen; [|done]. intros b b' _ [r0' Hb] Hbq.
    destruct (qu_data _ _ _ Hbq r0' Hb) as (r' & ? & _). by exists r'. }
  specialize (Hq rid). destruct (settled_quiet _ _ Hr Hq Hset) as [Hset' Hr'].
  split; [done|]. split; [by rewrite (pg_lost _ _ (qu_progress _ _ _ Hq))|]. do 2 (split; [done|]).
  unfold advance in *. destruct (segment t (host_bridge s)) as [t' b'].
  exists t'. split; [cbn; by rewrite lookup_insert_eq|done].
Qed.

Lemma counted_fire e k s s' :
  counted k s -> event_wf e -> undisturbed e = true -> fire dispatch_async e s = Some s' ->
  if resumes e then exists k', k = S k' /\ counted k' s' else counted k s'.
Proof.
  intros (Hs & Hlost & Hset & Hr & t & Ht & Hk) He Hu Hf. destruct (resumes e) eqn:Er.
  - destruct e as [| |w'| |]; try done. cbn [resumes] in Er. apply Z.eqb_eq in Er as ->.
    cbn [fire] in Hf. rewrite Ht in Hf. destruct (Async.stopped t) eqn:E; [done|]. injection Hf as <-.
    destruct Hk as [Hk|(k' & -> & Hw)]; [congruence|]. exists k'. split; [done|].
    apply counted_advance; [done..| |done]. intros rid'. by apply (hw_conns _ Hs w).
  - destruct (fire_others e s s' t Hs Hlost Ht He Hu Er Hf) as [Hq Ht'].
    destruct (settled_quiet _ _ Hr Hq Hset) as [Hset' Hr'].
    split; [by eapply fire_wf|]. split; [by rewrite (pg_lost _ _ (qu_progress _ _ _ Hq))|].
    do 2 (split; [done|]). by exists t.
Qed.

Lemma counted_fire_all es k s s' :
  counted k s -> Forall event_wf es -> forallb undisturbed es = true ->
  fire_all dispatch_async es s = Some s' ->
  exists k', k = (length (List.filter resumes es) + k')%nat /\ counted k' s'.
Proof.
  intros Hs Hes. revert k s Hs. induction Hes as [|e es He Hes IH]; intros k s Hs; cbn [forallb fire_all].
  - intros _ [= <-]. by exists k.
  - intros [Hu Hus]%andb_true_iff. destruct (fire dispatch_async e s) as [s1|] eqn:E; [|done]. cbn.
    pose proof (counted_fire e k s s1 Hs He Hu E) as H. destruct (resumes e).
    + destruct H as (k1 & -> & H). intros Hall. destruct (IH k1 s1 H Hus Hall) as (k' & -> & Hc). by exists k'.
    + intros Hall. destruct (IH k s1 H Hus Hall) as (k' & -> & Hc). by exists k'.
Qed.
End Host.

(** ** The last client's message *)

Section Completes.
Context {L : CryptoLib} (CRYPTO_AVAILABLE : bool) (OQS_AVAILABLE : option bool).
Context (reconstruct_secret : list (Z * Z) -> result Z).
Let dispatch_async := AsyncBridge.dispatch_async CRYPTO_AVAILABLE OQS_AVAILABLE reconstruct_secret.

(** Since the bridge [b], every writer registered in [b] was sent every chunk
    of [f] for the round [r], in order. *)
Definition delivered (r : RoundState) (f : chunks) (b b' : Bridge) : Prop :=
  exists payload m, length payload = 60%nat /\ wire (bridge_net b') = wire (bridge_net b) ++ m /\
    concat (chunk_sends r f payload <$> dict_values (client_writers (bridge_net b))) `sublist_of` m.

Lemma delivered_stable rid r f b0 b b' : meanwhile rid b b' -> delivered r f b0 b -> delivered r f b0 b'.
Proof.
  intros [_ Hq] (p & m & Hp & Hw & Hs). destruct (pg_sent _ _ (qu_progress _ _ _ Hq)) as (m' & Hm' & _).
  exists p, (m ++ m'). split; [done|]. split; [by rewrite Hm', Hw, app_assoc|]. by apply sublist_inserts_r.
Qed.

Lemma mark_same_round rid cid payload c r :
  is_bytes payload -> dict_get cid (clients r) = Some c -> round_wf rid r ->
  let r1 := mark_in_round cid payload c r in
  round_wf rid r1 /\ dropout_clients r1 = dropout_clients r /\ (deliverable r -> deliverable r1).
Proof.
  intros Hp Hc Hwf r1. split.
  - apply wf_set_client; [done|]. apply wf_mark_complete; [done|].
    apply dict_get_elem in Hc. by apply (rw_client _ _ Hwf).
  - unfold r1. destruct r. split; [done|]. by intros [].
Qed.

Lemma client_complete_succeeds v h payload writer b r c :
  (forall n pk, exists ct ss, encapsulate OQS_AVAILABLE v n pk = Ok (ct, ss) /\ Z.of_nat (length ct) < 65536) ->
  bridge_good b -> lost (bridge_net b) = [] -> header_wf h -> is_bytes payload ->
  h_message_type h = MSG_TYPE_CLIENT_COMPLETE ->
  dict_get (h_round_id h) (rounds b) = Some r -> dict_get (h_client_id h) (clients r) = Some c ->
  dropout_clients r = [] -> deliverable r ->
  let r1 := mark_in_round (h_client_id h) payload c r in
  threshold r <= expected_clients r <= completed_count r1 ->
  succeeds (meanwhile (h_round_id h)) (fun _ => delivered r1 (head_spec r1 (chunk_count r1)) b)
    (dispatch_async v h payload writer) b.
Proof.
  intros Henc [Hb Hn _] Hlost Hh Hp Hty Hr Hc Hd Hdel r1 Hcount. set (rid := h_round_id h) in *.
  apply dict_get_elem in Hr as Hin. apply (bw_round _ Hb) in Hin as Hwf.
  destruct (mark_same_round rid (h_client_id h) payload c r Hp Hc Hwf) as (Hwf1 & Hd1 & Hdel1). fold r1 in Hwf1, Hd1, Hdel1.
  destruct (telemetry_ok rid r1 Hwf1 (hw_round _ Hh)) as (t & tp & Ht & Htp & Hl).
  { pose proof (del_chunk _ (Hdel1 Hdel)). lia. }
  unfold dispatch_async, AsyncBridge.dispatch_async, AsyncBridge.dispatch. rewrite Hty. cbn [Z.eqb].
  rewrite Z.eqb_refl. unfold AsyncBridge.handle_client_complete, AsyncBridge.on_known_round.
  apply succeeds_bind, (succeeds_atomic _ _ _ true _ b); [unfold gets, dict_mem; fold rid; by rewrite Hr|].
  fold rid. set (c0 := {| net := bridge_net b; round := r |}).
  eapply succeeds_mono; [|apply (succeeds_in_round rid (fun _ c' => sends
    (concat (chunk_sends r1 (head_spec r1 (chunk_count r1)) tp <$> dict_values (client_writers (bridge_net b)))) c0 c')
    _ b c0)].
  - intros _ b' (c' & (r' & _ & ->)%round_ctx_some & m & Hm & Hs). by exists tp, m.
  - apply round_ctx_some. by exists r.
  - apply succeeds_bind, (succeeds_atomic _ _ _ r _ c0); [done|]. rewrite Hc.
    apply succeeds_bind, (succeeds_atomic _ _ _ tt _ {| net := bridge_net b; round := r1 |});
      [by apply (mark_run (h_client_id h) payload c c0)|].
    eapply succeeds_mono; [|eapply (delivers_check rid (hw_round _ Hh) r1 (client_writers (bridge_net b)) Hwf1)].
    + intros _ c' (_ & _ & Hs). exact Hs.
    + exact Henc.
    + by apply Hdel1.
    + by rewrite Hd1.
    + exact Hn.
    + exact Ht.
    + exact Htp.
    + unfold r1. by destruct r.
    + by split.
Qed.

(** The segment a CLIENT_COMPLETE runs marks the client and goes on with the
    check for completion. *)
Lemma complete_segment v h payload writer b r c :
  h_message_type h = MSG_TYPE_CLIENT_COMPLETE ->
  dict_get (h_round_id h) (rounds b) = Some r -> dict_get (h_client_id h) (clients r) = Some c ->
  segment (dispatch_async v h payload writer) b =
  segment (AsyncBridge.in_round (h_round_id h) (AsyncBridge.check_round_completion
             (AsyncBridge.aggregate CRYPTO_AVAILABLE OQS_AVAILABLE reconstruct_secret v)))
    (with_ctx (h_round_id h)
       {| net := bridge_net b; round := mark_in_round (h_client_id h) payload c r |} b).
Proof.
  intros Hty Hr Hc. set (c0 := {| net := bridge_net b; round := r |}).
  assert (Hctx : AsyncBridge.round_ctx (h_round_id h) b = Some c0) by (apply round_ctx_some; by exists r).
  unfold dispatch_async, AsyncBridge.dispatch_async, AsyncBridge.dispatch. rewrite Hty, Z.eqb_refl.
  unfold AsyncBridge.handle_client_complete, AsyncBridge.on_known_round.
  rewrite (segment_bind_atomic _ _ true b b) by (unfold gets, dict_mem; by rewrite Hr).
  rewrite (segment_in_round_atomic _ _ _ r b c0 c0) by done. rewrite Hc.
  rewrite (segment_in_round_atomic _ _ _ tt _ c0 _ (round_ctx_with _ _ _) (mark_run _ payload c c0 Hc)).
  by rewrite with_ctx_twice.
Qed.

Lemma complete_counted v s w h payload r c :
  host_wf s -> lost (bridge_net (host_bridge s)) = [] -> is_bytes payload ->
  h_message_type h = MSG_TYPE_CLIENT_COMPLETE ->
  dict_get (h_round_id h) (rounds (host_bridge s)) = Some r ->
  dict_get (h_client_id h) (clients r) = Some c -> chunk_size r <> 0 ->
  let r1 := mark_in_round (h_client_id h) payload c r in
  let writers0 := client_writers (bridge_net (host_bridge s)) in
  counted (h_round_id h) w r1 writers0
    (wait_bound (length (clients r1)) (length writers0) (Z.to_nat (chunk_count r1)))
    (advance w (dispatch_async v h payload w) s).
Proof.
  intros Hs Hlost Hp Hty Hr Hc Hcs r1 writers0. set (rid := h_round_id h) in *.
  set (c1 := {| net := bridge_net (host_bridge s); round := r1 |}).
  set (s1 := {| host_bridge := with_ctx rid c1 (host_bridge s); host_conns := host_conns s |}).
  apply dict_get_elem in Hr as Hin. apply (bw_round _ (bg_wf _ (hw_bridge _ Hs))) in Hin as Hwf.
  destruct (mark_same_round rid (h_client_id h) payload c r Hp Hc Hwf) as (Hwf1 & _).
  assert (Hs1 : host_wf s1).
  { split; [|apply (hw_conns _ Hs)]. apply (good_progress (host_bridge s)); [apply Hs| |].
    - apply with_ctx_wf; [apply (bg_wf _ (hw_bridge _ Hs))|exact Hwf1].
    - apply (progress_on_round rid r); [done|unfold r1; by destruct r|done|done|]. exists [].
      by rewrite app_nil_r. }
  assert (Hadv : advance w (dispatch_async v h payload w) s =
    advance w (AsyncBridge.in_round rid (AsyncBridge.check_round_completion
      (AsyncBridge.aggregate CRYPTO_AVAILABLE OQS_AVAILABLE reconstruct_secret v))) s1).
  { unfold advance. cbn [host_bridge host_conns s1]. unfold rid, c1, r1.
    by rewrite <- (complete_segment v h payload w (host_bridge s) r c). }
  rewrite Hadv. apply counted_advance; [done|done| | | |].
  - intros c' Hc'. cbn [host_bridge s1] in Hc'. rewrite round_ctx_with in Hc'. injection Hc' as <-.
    by split.
  - exists r1. apply dict_get_set_eq.
  - intros rid'. apply (obeys_in_round rid (advances rid)); [apply lifts_advances|apply ok_check].
  - apply waits_in_round, waits_check. unfold r1. by destruct r.
Qed.

(** C2: a round completes under any schedule that leaves it alone.  In any
    reachable state of a host, let the last expected client's CLIENT_COMPLETE
    arrive on connection [w]: at least the threshold of clients expected, as
    many as expected completed, no dropouts, encapsulation that works, a chunk
    size in 1..32737, at most 65536 chunks and no lost connection.  Let then
    anything happen - connections opening and closing, rounds being announced,
    messages of other rounds, their handlers running at every wait of this one -
    except a KEM_PUBLIC_KEY or pairwise key of any round, which registers a
    writer, a chunk, completion or dropout of this round, and a lost connection.
    Then the handler never raises; it can be resumed until it has ended, and at
    most [wait_bound] times: once for every client, four times for every pair
    of clients, and once for every chunk and writer.  When it has ended,
    every client that was connected has been sent every chunk of the
    aggregate, in order.  The aggregate is the weighted mean of the
    clients' chunks, element by element, if the completed clients all have
    samples or all have none and the sum of their weights is not a multiple
    of 3329. *)
Theorem round_completes_interleaved v s w h payload r c es s1 s' :
  host_reachable (dispatch_async v) s ->
  (forall n pk, exists ct ss, encapsulate OQS_AVAILABLE v n pk = Ok (ct, ss) /\ Z.of_nat (length ct) < 65536) ->
  lost (bridge_net (host_bridge s)) = [] -> event_wf (Deliver w h payload) ->
  h_message_type h = MSG_TYPE_CLIENT_COMPLETE ->
  dict_get (h_round_id h) (rounds (host_bridge s)) = Some r -> dict_get (h_client_id h) (clients r) = Some c ->
  dropout_clients r = [] -> deliverable r ->
  let r1 := mark_in_round (h_client_id h) payload c r in
  let aggregated := head_spec r1 (chunk_count r1) in
  let writers0 := client_writers (bridge_net (host_bridge s)) in
  threshold r <= expected_clients r <= completed_count r1 ->
  fire (dispatch_async v) (Deliver w h payload) s = Some s1 ->
  Forall event_wf es -> forallb (undisturbed (h_round_id h) w) es = true ->
  fire_all (dispatch_async v) es s1 = Some s' ->
  (length (List.filter (resumes w) es) <=
     wait_bound (length (clients r1)) (length writers0) (Z.to_nat (chunk_count r1)))%nat /\
  (exists t, host_conns s' !! w = Some t /\
    (Async.stopped t = false -> exists s2, fire (dispatch_async v) (Resume w) s' = Some s2) /\
    (Async.stopped t = true -> t = idle /\ delivered r1 aggregated (host_bridge s) (host_bridge s'))) /\
  (same_kind (contributors r1) -> ~ (weight_sum r1 == 0)%gf -> weighted_means r1 aggregated).
Proof.
  intros Hr Henc Hlost He Hty Hround Hc Hd Hdel r1 aggregated writers0 Hcount Hf Hes Hu Hall.
  pose proof (reachable_host_wf _ _ _ _ _ Hr) as Hs. pose proof He as [Hh Hp].
  assert (Ha : s1 = advance w (dispatch_async v h payload w) s).
  { cbn [fire] in Hf. repeat (case_match; try done). by injection Hf as <-. }
  subst s1. split; [|split].
  - destruct (counted_fire_all CRYPTO_AVAILABLE OQS_AVAILABLE reconstruct_secret v (h_round_id h) w r1 writers0 es
      _ _ s' (complete_counted v s w h payload r c Hs Hlost Hp Hty Hround Hc
                ltac:(pose proof (del_chunk _ Hdel); lia))) as (k & Hk & _); [done..|].
    fold r1 writers0 in Hk. lia.
  - destruct (on_course_fire_all CRYPTO_AVAILABLE OQS_AVAILABLE reconstruct_secret v (h_round_id h) w
      (fun _ => delivered r1 aggregated (host_bridge s))
      (fun _ => delivered_stable _ _ _ _) es (advance w (dispatch_async v h payload w) s) s') as (Hs' & _ & t & Ht & HQ); [|done..|].
    + apply on_course_advance; [by intros ? ? ?; apply delivered_stable|done|done| |].
      * intros rid'. by apply launches_dispatch.
      * apply (client_complete_succeeds v h payload w _ r c); try done. apply Hs.
    + exists t. split; [done|]. split.
      * intros Hstop. cbn [fire]. rewrite Ht, Hstop. by eexists.
      * intros Hstop. specialize (HQ (host_bridge s') (conj (bg_wf _ (hw_bridge _ Hs')) (reflexivity _))).
        destruct t as [[[]|e]| |]; try done.
  - intros Hk Hw. apply head_spec_means; [|done|done]. apply no_dropouts_none_completed.
    unfold r1. by destruct r.
Qed.
End Completes.

(** ** A client that registers during the broadcast *)

Section Race.
Context (r0 : RoundState) (f : chunks) (payload : bytes).
Hypothesis sizes_fit : deliverable r0.
Hypothesis some_chunk : 0 < chunk_count r0.
Hypothesis messages_fit : forall i, i ∈ range (chunk_count r0) -> exists m, complete_message r0 f payload i = Ok m.

Lemma range_cons n : 0 < n -> range n = 0 :: drop 1 (range n).
Proof. intros Hn. unfold range. destruct (Z.to_nat n) as [|m] eqn:E; [lia|done]. Qed.

(** [await writer.drain()], over. *)
Definition drained (w : Z) : task Ctx unit :=
  atomic (c ← gets net; if bool_decide (w ∈ lost c) then raise ConnectionResetError else skip).

(** Where the broadcast stands when it waits for its first write. *)
Definition sending_first (k w : Z) (rest : list (Z * Z)) : task Ctx unit :=
  _ ← (_ ← drained w; each (drop 1 (range (chunk_count r0))) (AsyncBridge.send_complete f payload w));
  iterate (fun c => length (AsyncBridge.writer_keys c)) (S (length rest)) (dict_keys rest) (fun cid =>
    writer ← atomic (c ← gets net; lift (dict_index cid (client_writers c)));
    r ← atomic the_round;
    n ← atomic (lift (num_chunks r));
    each (range n) (AsyncBridge.send_complete f payload writer)).

Lemma segment_send_complete w i msg c :
  same_data r0 (round c) -> complete_message r0 f payload i = Ok msg ->
  segment (AsyncBridge.send_complete f payload w i) c =
  (drained w, {| net := log_write w msg (net c); round := round c |}).
Proof.
  intros Hd Hm. unfold AsyncBridge.send_complete. rewrite (segment_bind_atomic _ _ (round c) c c) by done.
  by rewrite (segment_bind_atomic _ _ msg c c) by (unfold lift; by rewrite (data_complete_message _ _ Hd), Hm).
Qed.

Lemma broadcast_first_wait k w rest c :
  same_data r0 (round c) -> client_writers (net c) = (k, w) :: rest ->
  segment (AsyncBridge.broadcast f payload) c =
  (sending_first k w rest, {| net := log_write w (chunk_message r0 f payload 0) (net c); round := round c |}).
Proof.
  intros Hd Hw. unfold AsyncBridge.broadcast, live_each.
  assert (Hk : AsyncBridge.writer_keys c = k :: dict_keys rest) by (unfold AsyncBridge.writer_keys; by rewrite Hw).
  rewrite (segment_bind_atomic _ _ (k :: dict_keys rest) c c) by (unfold gets; by rewrite Hk). cbn [iterate length].
  rewrite (segment_bind_atomic _ _ tt c c) by (apply check_size_ok; by rewrite Hk).
  assert (Hseg : segment (writer ← atomic (c ← gets net; lift (dict_index k (client_writers c)));
      r ← atomic the_round; n ← atomic (lift (num_chunks r));
      each (range n) (AsyncBridge.send_complete f payload writer)) c =
    (_ ← drained w; each (drop 1 (range (chunk_count r0))) (AsyncBridge.send_complete f payload w),
     {| net := log_write w (chunk_message r0 f payload 0) (net c); round := round c |})).
  { rewrite (segment_bind_atomic _ _ w c c).
    2: { rewrite (M_bind_ok _ _ c (net c) c) by done. unfold lift, dict_index. rewrite Hw. cbn [dict_get].
         by rewrite decide_True. }
    rewrite (segment_bind_atomic _ _ (round c) c c) by done.
    rewrite (segment_bind_atomic _ _ (chunk_count r0) c c).
    2: { unfold lift. by rewrite (data_num_chunks _ _ Hd), num_chunks_count. }
    rewrite (range_cons (chunk_count r0)) by done. cbn [each drop].
    destruct (messages_fit 0) as [msg Hm]; [apply elem_of_range; lia|].
    unfold chunk_message. rewrite Hm.
    by rewrite segment_bind; rewrite (segment_send_complete w 0 msg) by done. }
  rewrite segment_bind by by rewrite Hseg. rewrite Hseg. cbn [fst snd]. unfold sending_first.
  unfold dict_keys. by rewrite length_map.
Qed.

(** The rest of the first client's chunks. *)
Lemma first_client_rest w c :
  same_data r0 (round c) -> lost (net c) = [] ->
  run (_ ← drained w; each (drop 1 (range (chunk_count r0))) (AsyncBridge.send_complete f payload w)) c =
  (Ok tt, add_wire ((fun i => (w, chunk_message r0 f payload i)) <$> drop 1 (range (chunk_count r0))) c).
Proof.
  intros Hd Hl. rewrite run_bind, (M_bind_ok _ _ c tt c).
  2: { unfold drained. rewrite run_atomic, (M_bind_ok _ _ c (net c) c) by done.
       rewrite bool_decide_false; [done|]. rewrite Hl. apply not_elem_of_nil. }
  rewrite run_each, (for_each_sends _ _ (fun i => [(w, chunk_message r0 f payload i)])); [by rewrite concat_singletons|].
  intros i m Hi. rewrite run_send_complete. unfold send_complete.
  rewrite (M_bind_ok _ _ _ (round c) (add_wire m c)) by done.
  destruct (messages_fit i) as [msg Hm]; [rewrite range_cons by done; by right|].
  rewrite (data_complete_message _ _ Hd). unfold chunk_message. rewrite Hm, lift_ok_bind, write_drain_run.
  rewrite bool_decide_false; [|cbn; rewrite Hl; apply not_elem_of_nil].
  f_equal. unfold add_wire. simpl. by rewrite app_assoc.
Qed.

(** C8: a client that registers while a result is being sent ends the
    broadcast.  The loop over [client_writers.items()] is suspended in the
    drain after the first write to the first client [w].  If the number of
    registered writers is another one when it is resumed - the message handler
    of a new client's KEM_PUBLIC_KEY has run - the loop sends the first client
    its remaining chunks and then raises RuntimeError: no other client is sent
    a single chunk. *)
Theorem late_writer_ends_broadcast k w rest c c' :
  same_data r0 (round c) -> client_writers (net c) = (k, w) :: rest ->
  same_data r0 (round c') -> lost (net c') = [] ->
  length (client_writers (net c')) <> S (length rest) ->
  let t := fst (segment (AsyncBridge.broadcast f payload) c) in
  Async.stopped t = false /\
  run t c' = (Err RuntimeError,
    add_wire ((fun i => (w, chunk_message r0 f payload i)) <$> drop 1 (range (chunk_count r0))) c').
Proof.
  intros Hd Hw Hd' Hl Hn t. unfold t. rewrite (broadcast_first_wait k w rest) by done. cbn [fst].
  split; [done|]. unfold sending_first. rewrite run_bind, (M_bind_ok _ _ _ _ _ (first_client_rest w c' Hd' Hl)).
  set (c1 := add_wire _ c'). assert (Hc : check_size (fun c => length (AsyncBridge.writer_keys c)) (S (length rest)) c1 =
    (Err RuntimeError, c1)).
  { apply check_size_raises. unfold AsyncBridge.writer_keys, dict_keys. by rewrite length_map. }
  destruct rest as [|[k2 w2] rest]; [by rewrite <- Hc; apply run_atomic|].
  unfold dict_keys. rewrite fmap_cons. cbn [iterate]. rewrite run_bind. apply M_bind_err.
  by rewrite <- Hc; apply run_atomic.
Qed.
End Race.

(** ** A concrete schedule *)

Definition toy_host_dispatch : MessageHeader -> bytes -> Z -> task Bridge unit :=
  AsyncBridge.dispatch_async true (Some true) Shamir.Head.reconstruct_secret HEAD.

Definition deliver (w : Z) (m : MessageHeader * bytes) : event := Deliver w (fst m) (snd m).

Definition host_after (es : list event) : Host := default new_host (fire_all toy_host_dispatch es new_host).

(** Two clients on connections 11 and 12; client 2 has not completed yet. *)
Definition opening : list event :=
  [Accept 11; Accept 12; Accept 13; deliver 11 init_message] ++
  (deliver 11 <$> client_stream 1) ++ (deliver 12 <$> take 3 (client_stream 2)).

Definition last_complete : MessageHeader * bytes := message MSG_TYPE_CLIENT_COMPLETE 1 2 0 [0; 0; 0; 2].

(** A third client on connection 13: a round of its own, and its key. *)
Definition other_init : MessageHeader * bytes :=
  message MSG_TYPE_ROUND_INIT 2 0 0 [1; 1; 2; 0; 4; 0; 0; 0].
Definition late_key : MessageHeader * bytes := message MSG_TYPE_KEM_PUBLIC_KEY 1 3 0 [3; 9].

(** Client 3 registers after the first of client 1's chunks: the handler that
    sends the result raises, and client 2 is sent no chunk. *)
Definition racing : list event :=
  opening ++ [deliver 12 last_complete; Resume 12; Resume 12; deliver 13 late_key; Resume 12; Resume 12].

(** The outcome of a handler that has ended. *)
Definition ended (w : Z) (s : Host) : option (result unit) :=
  match host_conns s !! w with Some (Stop r) => Some r | _ => None end.

(** Who was sent a message of which kind. *)
Definition sent_kinds (s : Host) : list (Z * bytes) :=
  (fun p => (fst p, take 2 (drop 9 (snd p)))) <$> wire (bridge_net (host_bridge s)).

Definition event_wfb (e : event) : bool :=
  match e with
  | Deliver _ h payload =>
      bool_decide (0 <= h_round_id h < 2 ^ 32) && bool_decide (is_byte (h_client_id h)) &&
      bool_decide (is_byte (h_message_type h)) && bool_decide (0 <= h_sequence_number h < 65536) &&
      bool_decide (0 <= h_payload_length h < 65536) && bool_decide (is_bytes payload)
  | _ => true
  end.

Lemma event_wfb_ok es : forallb event_wfb es = true -> Forall event_wf es.
Proof.
  rewrite forallb_forall, Forall_forall. intros H e He. apply list_elem_of_In, H in He.
  destruct e as [|w h p| | |]; try done. cbn [event_wfb] in He.
  rewrite !andb_true_iff, !bool_decide_eq_true in He. destruct He as [[[[[]]]]]. split; [by split|done].
Qed.

Definition fires (es : list event) (s : Host) : bool :=
  match fire_all toy_host_dispatch es s with Some _ => true | None => false end.

Lemma fires_ok es s : fires es s = true ->
  fire_all toy_host_dispatch es s = Some (default new_host (fire_all toy_host_dispatch es s)).
Proof. unfold fires. by destruct (fire_all toy_host_dispatch es s). Qed.

Lemma host_after_reachable es :
  forallb event_wfb es = true -> fires es new_host = true -> host_reachable toy_host_dispatch (host_after es).
Proof.
  intros Hwf%event_wfb_ok Hf%fires_ok. by eapply (host_fire_all _ es new_host); [apply host_init|done|].
Qed.

Lemma interleaved_invariant_witness :
  bridge_wf (host_bridge (host_after (opening ++ [deliver 12 last_complete; Resume 12; deliver 13 late_key]))).
Proof.
  refine (proj1 (interleaved_invariant true (Some true) Shamir.Head.reconstruct_secret HEAD
    (host_after (opening ++ [deliver 12 last_complete; Resume 12; deliver 13 late_key])) _)).
  apply host_after_reachable; vm_compute; reflexivity.
Defined.

Lemma interleaved_messages_witness :
  (wire (bridge_net (host_bridge (host_after racing))) !! 2%nat) ≫= (fun p => Some (fst p)) = Some 11 /\
  Forall (fun p => exists h payload, framed (h, payload) (snd p) /\ h_round_id h = 1)
    (wire (bridge_net (host_bridge (host_after racing)))).
Proof.
  split; [vm_compute; reflexivity|]. apply Forall_forall. intros [conn data] Hin.
  destruct (interleaved_messages true (Some true) Shamir.Head.reconstruct_secret HEAD (host_after racing))
    with (conn := conn) (data := data) as (h & payload & Hf & Hm); [|exact Hin|].
  - apply host_after_reachable; vm_compute; reflexivity.
  - exists h, payload. split; [exact Hf|]. pose proof (sm_round _ _ _ Hm) as Hr.
    replace (dict_keys (rounds (host_bridge (host_after racing)))) with [1] in Hr by (vm_compute; reflexivity).
    by apply list_elem_of_singleton in Hr.
Defined.

Lemma sequential_is_schedule_witness :
  host_reachable toy_host_dispatch {| host_bridge := after_round; host_conns := ∅ |}.
Proof.
  refine (sequential_is_schedule true (Some true) Shamir.Head.reconstruct_secret HEAD after_round _).
  unfold after_round. do 2 (apply handle_client_reachable; [apply (bool_decide_unpack _); vm_compute; reflexivity|]).
  apply reach_init.
Defined.

(** What happens while client 2's handler sends the result: another round is
    announced on connection 13, which then closes, and connection 14 opens. *)
Definition meantime : list event :=
  [Resume 12; Accept 14; Resume 12; deliver 13 other_init; Resume 12; Finish 13; Resume 12; Resume 12; Resume 12].

Definition opened_client (cid : Z) (done : bool) (samples : Z) : ClientState :=
  ready_client cid done samples [(0, [0; cid; 0; 5]); (1, [0; 1; 0; 7])].

Definition opened_round : RoundState := {|
  round_id := 1; expected_clients := 2; threshold := 2; chunk_size := 2; model_size := 4;
  clients := [(1, opened_client 1 true 1); (2, opened_client 2 false 0)];
  stage := INIT; dropout_clients := []; unmasked_chunks := [] |}.

(** The round once client 2 has completed: one and two samples. *)
Definition closing_round : RoundState :=
  mark_in_round (h_client_id (fst last_complete)) (snd last_complete) (opened_client 2 false 0) opened_round.

Lemma closing_round_kind : same_kind (contributors closing_round) /\ weight_sum closing_round = 3.
Proof. split; [left; repeat constructor|reflexivity]. Qed.

Lemma round_completes_interleaved_witness :
  let s := host_after opening in
  let s1 := advance 12 (toy_host_dispatch (fst last_complete) (snd last_complete) 12) s in
  let s' := default new_host (fire_all toy_host_dispatch meantime s1) in
  let aggregated := [(0, [2221; 5]); (1, [1; 7])] in
  ended 12 s' = Some (Ok tt) /\
  (length (List.filter (resumes 12) meantime) <= wait_bound 2 2 2)%nat /\
  delivered closing_round aggregated (host_bridge s) (host_bridge s') /\
  weighted_means closing_round aggregated.
Proof.
  intros s s1 s' aggregated. split; [vm_compute; reflexivity|].
  destruct (round_completes_interleaved true (Some true) Shamir.Head.reconstruct_secret HEAD s 12
      (fst last_complete) (snd last_complete) opened_round (opened_client 2 false 0) meantime s1 s')
    as (Hbound & (t & Ht & _ & Hdone) & Hmeans).
  - apply host_after_reachable; vm_compute; reflexivity.
  - intros n pk. destruct (toy_favourable empty_net eq_refl) as [_ H]. apply H.
  - vm_compute. reflexivity.
  - apply (Forall_inv (event_wfb_ok [deliver 12 last_complete] ltac:(vm_compute; reflexivity))).
  - vm_compute. reflexivity.
  - vm_compute. reflexivity.
  - vm_compute. reflexivity.
  - vm_compute. reflexivity.
  - split; vm_compute; [split; [reflexivity|discriminate]|discriminate].
  - vm_compute. split; discriminate.
  - apply fire_deliver. vm_compute. reflexivity.
  - apply event_wfb_ok. vm_compute. reflexivity.
  - vm_compute. reflexivity.
  - apply fires_ok. vm_compute. reflexivity.
  - assert (Hstop : Async.stopped t = true).
    { assert (option_map Async.stopped (host_conns s' !! 12) = Some true) as E by (vm_compute; reflexivity).
      rewrite Ht in E. by injection E. }
    assert (head_spec closing_round (chunk_count closing_round) = aggregated) as E by (vm_compute; reflexivity).
    fold closing_round in Hdone, Hmeans. rewrite E in Hdone, Hmeans.
    split; [|split; [apply Hdone, Hstop|apply Hmeans; [apply closing_round_kind|]]].
    + assert (length (clients closing_round) = 2%nat /\
        length (client_writers (bridge_net (host_bridge s))) = 2%nat /\
        Z.to_nat (chunk_count closing_round) = 2%nat) as (E1 & E2 & E3)
        by (split; [|split]; vm_compute; reflexivity).
      fold closing_round in Hbound. by rewrite E1, E2, E3 in Hbound.
    + rewrite (proj2 closing_round_kind). intros [H]. discriminate H.
Defined.

Definition racing_net (ws : list (Z * Z)) : Net := {|
  client_writers := ws; wire := []; closing := []; lost := []; encaps_used := 0 |}.

Definition sample_result : chunks := [(0, [7; 3328]); (1, [834; 7])].

Lemma late_writer_ends_broadcast_witness :
  (host_reachable toy_host_dispatch (host_after racing) /\
   ended 12 (host_after racing) = Some (Err RuntimeError) /\
   sent_kinds (host_after racing) = [(11, [0x02; 0]); (12, [0x02; 0]); (11, [0x41; 0]); (11, [0x41; 0])]) /\
  let c := {| net := racing_net [(1, 11); (2, 12)]; round := ready_round true 3 |} in
  let c' := {| net := racing_net [(1, 11); (2, 12); (3, 13)]; round := ready_round true 3 |} in
  outcome (run (fst (segment (AsyncBridge.broadcast sample_result (replicate 60 0)) c))) c' = Err RuntimeError.
Proof.
  split.
  - split; [apply host_after_reachable; vm_compute; reflexivity|]. split; vm_compute; reflexivity.
  - intros c c'. unfold outcome.
    destruct (late_writer_ends_broadcast (ready_round true 3) sample_result (replicate 60 0)
      ltac:(split; vm_compute; [split; [reflexivity|discriminate]|discriminate]) ltac:(reflexivity)
      ltac:(intros i Hi; assert (i = 0 \/ i = 1) as [-> | ->] by (apply elem_of_range in Hi; change (chunk_count (ready_round true 3)) with 2 in Hi; lia);
            vm_compute; by eexists)
      1 11 [(2, 12)] c c') as [_ H]; [reflexivity|reflexivity|reflexivity|reflexivity|discriminate|].
    by rewrite H.
Defined.
