(* ===== verification/AsyncStream.v ===== *)
(** * Connections as byte streams

    The host of AsyncServer one layer down: every connection has the
    [StreamReader] its bytes arrive in, in pieces and at any time, while
    handlers of this and other connections are suspended.  [_handle_client]
    takes the next message off its reader when it is between two messages. *)

From Stdlib Require Import ZArith Lia.
From stdpp Require Import prelude gmap.
From S2P Require Import Prelude PyDict PyBytes Wire State Bridge Invariant Server Variants Emission Async AsyncServer AsyncRound.

(** What has arrived and was not read, and whether the peer closed its side. *)
Record Reader : Type := { rd_buffer : bytes; rd_eof : bool }.

Record ByteHost : Type := { bh_host : Host; bh_readers : gmap Z Reader }.

Definition new_reader : Reader := {| rd_buffer := []; rd_eof := false |}.

Definition new_byte_host : ByteHost := {| bh_host := new_host; bh_readers := ∅ |}.

(** The two [readexactly] of the loop: [None] while they have to wait. *)
Definition read_message (buffer : bytes) : option (MessageHeader * bytes * bytes) :=
  if (length buffer <? HEADER_SIZE)%nat then None
  else
    match parse_header (take HEADER_SIZE buffer) with
    | Err _ => None
    | Ok h =>
        let rest := drop HEADER_SIZE buffer in
        let n := Z.to_nat (h_payload_length h) in
        if (length rest <? n)%nat then None else Some (h, take n rest, drop n rest)
    end.

(** - [Open]: a connection is accepted.
    - [Receive], [Eof]: bytes arrive; the peer closes its side.
    - [Read]: the loop has a whole message and dispatches it.
    - [Proceed]: a handler's wait is over.
    - [Leave]: the loop ends, because a handler raised or because
      [readexactly] met the end of the stream; the writer is closed.
    - [Transport]: transports close and connections are lost. *)
Inductive io : Type :=
  | Open (writer : Z)
  | Receive (writer : Z) (data : bytes)
  | Eof (writer : Z)
  | Read (writer : Z)
  | Proceed (writer : Z)
  | Leave (writer : Z)
  | Transport (closing lost : list Z) (encaps : nat).

Definition io_wf (e : io) : Prop := match e with Receive _ data => is_bytes data | _ => True end.

Definition raised (t : task Bridge unit) : bool := match t with Stop (Err _) => true | _ => false end.

Section ByteHost.
Context (dispatch : MessageHeader -> bytes -> Z -> task Bridge unit).

Definition set_reader (w : Z) (rd : Reader) (s : ByteHost) : ByteHost :=
  {| bh_host := bh_host s; bh_readers := <[w := rd]> (bh_readers s) |}.

Definition fire_io (e : io) (s : ByteHost) : option ByteHost :=
  let '{| bh_host := h; bh_readers := readers |} := s in
  match e with
  | Open w =>
      h' ← fire dispatch (Accept w) h;
      Some {| bh_host := h'; bh_readers := <[w := new_reader]> readers |}
  | Receive w data =>
      rd ← readers !! w;
      if rd_eof rd then None
      else Some (set_reader w {| rd_buffer := rd_buffer rd ++ data; rd_eof := false |} s)
  | Eof w =>
      rd ← readers !! w;
      Some (set_reader w {| rd_buffer := rd_buffer rd; rd_eof := true |} s)
  | Read w =>
      rd ← readers !! w;
      '(m, payload, rest) ← read_message (rd_buffer rd);
      h' ← fire dispatch (Deliver w m payload) h;
      Some {| bh_host := h'; bh_readers := <[w := {| rd_buffer := rest; rd_eof := rd_eof rd |}]> readers |}
  | Proceed w => h' ← fire dispatch (Resume w) h; Some {| bh_host := h'; bh_readers := readers |}
  | Leave w =>
      rd ← readers !! w;
      t ← host_conns h !! w;
      if raised t || (rd_eof rd && bool_decide (read_message (rd_buffer rd) = None))
      then h' ← fire dispatch (Finish w) h; Some {| bh_host := h'; bh_readers := delete w readers |}
      else None
  | Transport cl lo k =>
      h' ← fire dispatch (Network cl lo k) h; Some {| bh_host := h'; bh_readers := readers |}
  end.

(** What the event is for the host. *)
Definition lower (e : io) (s : ByteHost) : list event :=
  match e with
  | Open w => [Accept w]
  | Receive _ _ | Eof _ => []
  | Read w =>
      match rd ← bh_readers s !! w; read_message (rd_buffer rd) with
      | Some (m, payload, _) => [Deliver w m payload]
      | None => []
      end
  | Proceed w => [Resume w]
  | Leave w => [Finish w]
  | Transport cl lo k => [Network cl lo k]
  end.

Fixpoint fire_ios (es : list io) (s : ByteHost) : option ByteHost :=
  match es with
  | [] => Some s
  | e :: es' => s' ← fire_io e s; fire_ios es' s'
  end.

(** The host's events in a run of the byte level. *)
Fixpoint lower_all (es : list io) (s : ByteHost) : list event :=
  match es with
  | [] => []
  | e :: es' => lower e s ++ match fire_io e s with Some s' => lower_all es' s' | None => [] end
  end.

Inductive byte_reachable : ByteHost -> Prop :=
  | byte_init : byte_reachable new_byte_host
  | byte_fire e s s' : byte_reachable s -> io_wf e -> fire_io e s = Some s' -> byte_reachable s'.
End ByteHost.

(** The bytes that arrive on a connection, and the messages dispatched on it. *)
Definition received (w : Z) (es : list io) : bytes :=
  concat (omap (fun e => match e with Receive w' data => if w =? w' then Some data else None | _ => None end) es).
Definition dispatched (w : Z) (es : list event) : list (MessageHeader * bytes) :=
  omap (fun e => match e with Deliver w' h payload => if w =? w' then Some (h, payload) else None | _ => None end) es.

(** [w] is neither accepted again nor closed. *)
Definition stays (w : Z) (e : io) : bool :=
  match e with Open w' | Leave w' => negb (w =? w') | _ => true end.

(** ** Reading *)

Lemma read_message_framed m bs rest : framed m bs -> read_message (bs ++ rest) = Some (m, rest).
Proof.
  destruct m as [h payload]. intros (hb & Hh & Hlen & ->). cbn [fst snd] in *.
  destruct (parse_packed _ _ Hh) as [Hl Hp]. unfold read_message.
  rewrite !length_app, Hl, (proj2 (Nat.ltb_ge _ _)) by lia.
  rewrite <- !app_assoc, <- Hl, take_app_length, drop_app_length, Hp, Hlen, Nat2Z.id.
  rewrite length_app, (proj2 (Nat.ltb_ge _ _)) by lia.
  by rewrite take_app_length, drop_app_length.
Qed.

(** More bytes do not change the message that is already there. *)
Lemma read_message_app buffer more m rest :
  read_message buffer = Some (m, rest) -> read_message (buffer ++ more) = Some (m, rest ++ more).
Proof.
  unfold read_message. intros H. case_match eqn:E; [done|]. apply Nat.ltb_ge in E.
  rewrite length_app, (proj2 (Nat.ltb_ge _ _)), take_app_le, drop_app_le by lia.
  destruct (parse_header _) as [h|]; [|done]. case_match eqn:E2; [done|]. apply Nat.ltb_ge in E2.
  rewrite length_app, (proj2 (Nat.ltb_ge _ _)), take_app_le, drop_app_le by lia.
  by injection H as <- <-.
Qed.

Lemma read_message_wf buffer h payload rest :
  is_bytes buffer -> read_message buffer = Some (h, payload, rest) ->
  header_wf h /\ is_bytes payload /\ is_bytes rest.
Proof.
  unfold read_message. intros Hb. case_match; [done|].
  destruct (parse_header _) as [h'|] eqn:E; [|done]. apply parse_header_wf in E; [|by apply Forall_take].
  case_match; [done|]. intros [= <- <- <-]. split; [done|].
  split; [apply Forall_take|apply Forall_drop]; by apply Forall_drop.
Qed.

(** Reading from a stream of messages. *)
Lemma read_message_stream buffer more m rest msgs bss tail :
  read_message buffer = Some (m, rest) -> Forall2 framed msgs bss -> read_message tail = None ->
  buffer ++ more = concat bss ++ tail ->
  exists msgs' bss', msgs = m :: msgs' /\ Forall2 framed msgs' bss' /\ rest ++ more = concat bss' ++ tail.
Proof.
  intros Hr Hf Ht Heq. apply (read_message_app _ more) in Hr. rewrite Heq in Hr.
  destruct Hf as [|m' bs msgs bss Hm Hf]; [cbn in Hr; congruence|].
  cbn [concat] in Hr. rewrite <- app_assoc, (read_message_framed m') in Hr by done.
  injection Hr as -> Hrest. by exists msgs, bss.
Qed.

Lemma received_cons w e es :
  received w (e :: es) =
  (match e with Receive w' data => if w =? w' then data else [] | _ => [] end) ++ received w es.
Proof. unfold received. destruct e; try done. cbn. by destruct (w =? _). Qed.

Lemma received_app w es1 es2 : received w (es1 ++ es2) = received w es1 ++ received w es2.
Proof. unfold received. by rewrite omap_app, concat_app. Qed.

Lemma dispatched_app w es1 es2 : dispatched w (es1 ++ es2) = dispatched w es1 ++ dispatched w es2.
Proof. apply omap_app. Qed.

(** ** Runs *)

Section Runs.
#[local] Arguments fire : simpl never.
#[local] Arguments read_message : simpl never.
Context (dispatch : MessageHeader -> bytes -> Z -> task Bridge unit).

Definition readers_wf (s : ByteHost) : Prop :=
  forall w rd, bh_readers s !! w = Some rd -> is_bytes (rd_buffer rd).

Lemma readers_wf_insert w rd h readers :
  readers_wf {| bh_host := h; bh_readers := readers |} -> is_bytes (rd_buffer rd) ->
  forall h', readers_wf {| bh_host := h'; bh_readers := <[w := rd]> readers |}.
Proof.
  intros Hs Hrd h' w' rd'. cbn [bh_readers]. rewrite lookup_insert.
  case_decide; [by intros [= <-]|apply (Hs w')].
Qed.

(** A byte event is its host events, and keeps the readers' contents bytes. *)
Lemma fire_io_lower e s s' :
  fire_io dispatch e s = Some s' -> fire_all dispatch (lower e s) (bh_host s) = Some (bh_host s').
Proof.
  destruct s as [h readers]. intros H. destruct e; cbn in *;
    repeat first [case_match; [|done]|case_match; [done|]|case_match; cbn in *|progress simplify_option_eq]; try done.
Qed.

Lemma fire_io_wf e s s' :
  readers_wf s -> io_wf e -> fire_io dispatch e s = Some s' -> readers_wf s' /\ Forall event_wf (lower e s).
Proof.
  destruct s as [h readers]. intros Hs He H.
  destruct e as [w|w data|w|w|w|w|cl lo k]; cbn in *.
  - simplify_option_eq. split; [|by repeat constructor]. apply (readers_wf_insert _ _ h); [done|constructor].
  - destruct (readers !! w) as [rd|] eqn:Hrd; [|done]. cbn in *. case_match; [done|]. injection H as <-.
    split; [|done]. apply (readers_wf_insert _ _ h); [done|]. apply Forall_app. split; [exact (Hs w _ Hrd)|done].
  - destruct (readers !! w) as [rd|] eqn:Hrd; [|done]. injection H as <-.
    split; [|done]. apply (readers_wf_insert _ _ h); [done|exact (Hs w _ Hrd)].
  - destruct (readers !! w) as [rd|] eqn:Hrd; [|done]. cbn in *.
    destruct (read_message (rd_buffer rd)) as [[[m p] rest]|] eqn:Hm; [|done]. cbn in *.
    simplify_option_eq. apply read_message_wf in Hm as (Hh & Hp & Hr); [|exact (Hs w _ Hrd)].
    split; [by apply (readers_wf_insert _ _ h)|by apply Forall_singleton].
  - simplify_option_eq. split; [exact Hs|by repeat constructor].
  - simplify_option_eq. case_match; [|done]. simplify_option_eq. split; [|by repeat constructor].
    intros w' rd'. cbn [bh_readers]. rewrite lookup_delete. case_decide; [done|apply (Hs w')].
  - simplify_option_eq. split; [exact Hs|by repeat constructor].
Qed.

Lemma fire_ios_lower es s s' :
  readers_wf s -> Forall io_wf es -> fire_ios dispatch es s = Some s' ->
  Forall event_wf (lower_all dispatch es s) /\
  fire_all dispatch (lower_all dispatch es s) (bh_host s) = Some (bh_host s').
Proof.
  intros Hs Hes. revert s Hs. induction Hes as [|e es He Hes IH]; intros s Hs; cbn [fire_ios lower_all].
  - intros [= <-]. by split.
  - destruct (fire_io dispatch e s) as [s1|] eqn:E; [|done]. cbn. intros Hf.
    destruct (fire_io_wf _ _ _ Hs He E) as [Hs1 Hwf]. apply fire_io_lower in E.
    destruct (IH s1 Hs1 Hf) as [Hwfs Hfs]. split; [by apply Forall_app|]. by rewrite fire_all_app, E.
Qed.

Lemma byte_reachable_host s :
  byte_reachable dispatch s -> host_reachable dispatch (bh_host s) /\ readers_wf s.
Proof.
  induction 1 as [|e s s' Hr [IH Hw] He Hf]; [split; [apply host_init|by intros w rd]|].
  destruct (fire_io_wf _ _ _ Hw He Hf) as [Hw' Hwf]. split; [|done].
  eapply host_fire_all; [exact IH|exact Hwf|by apply fire_io_lower].
Qed.

(** One byte event, seen from a connection that stays open. *)
Lemma reader_step w e s s' rd :
  fire_io dispatch e s = Some s' -> stays w e = true -> bh_readers s !! w = Some rd ->
  exists rd', bh_readers s' !! w = Some rd' /\
    ((dispatched w (lower e s) = [] /\ rd_buffer rd' = rd_buffer rd ++ received w [e]) \/
     (exists m rest, read_message (rd_buffer rd) = Some (m, rest) /\
        dispatched w (lower e s) = [m] /\ received w [e] = [] /\ rd_buffer rd' = rest)).
Proof.
  destruct s as [h readers]. intros H Hst Hrd. rewrite received_cons, app_nil_r. cbn [bh_readers] in Hrd.
  destruct e as [w2|w2 data|w2|w2|w2|w2|cl lo k]; cbn in *.
  - simplify_option_eq. destruct (Z.eqb_spec w w2); [done|]. exists rd. rewrite lookup_insert_ne by done.
    rewrite app_nil_r. auto.
  - destruct (Z.eqb_spec w w2) as [<-|].
    + simplify_option_eq. case_match; [done|]. simplify_option_eq. rewrite lookup_insert_eq. eauto.
    + simplify_option_eq. case_match; [done|]. simplify_option_eq. rewrite lookup_insert_ne by done.
      exists rd. rewrite app_nil_r. auto.
  - simplify_option_eq. destruct (Z.eqb_spec w w2) as [<-|].
    + rewrite lookup_insert_eq. simplify_option_eq. eexists. rewrite app_nil_r. auto.
    + rewrite lookup_insert_ne by done. exists rd. rewrite app_nil_r. auto.
  - destruct (readers !! w2) as [rd2|] eqn:E2; [|done]. cbn in *.
    destruct (read_message (rd_buffer rd2)) as [[[m p] rest]|] eqn:Em; [|done]. cbn in *.
    simplify_option_eq. destruct (Z.eqb_spec w w2) as [<-|].
    + rewrite lookup_insert_eq. simplify_option_eq. eexists. split; [done|]. right. by exists (m, p), rest.
    + rewrite lookup_insert_ne by done. exists rd. rewrite app_nil_r. auto.
  - simplify_option_eq. exists rd. rewrite app_nil_r. auto.
  - simplify_option_eq. destruct (Z.eqb_spec w w2); [done|]. case_match; [|done]. simplify_option_eq.
    rewrite lookup_delete_ne by done. exists rd. rewrite app_nil_r. auto.
  - simplify_option_eq. exists rd. rewrite app_nil_r. auto.
Qed.

(** A run, seen from such a connection. *)
Lemma stream_run w es s s' rd msgs bss tail :
  fire_ios dispatch es s = Some s' -> forallb (stays w) es = true -> bh_readers s !! w = Some rd ->
  Forall2 framed msgs bss -> read_message tail = None ->
  rd_buffer rd ++ received w es = concat bss ++ tail ->
  exists rd' msgs' bss', bh_readers s' !! w = Some rd' /\
    msgs = dispatched w (lower_all dispatch es s) ++ msgs' /\
    Forall2 framed msgs' bss' /\ rd_buffer rd' = concat bss' ++ tail.
Proof.
  revert s rd msgs bss. induction es as [|e es IH]; intros s rd msgs bss Hf Hst Hrd Hm Ht Heq.
  - injection Hf as <-. cbn [received omap list_omap concat] in Heq. rewrite app_nil_r in Heq.
    by exists rd, msgs, bss.
  - cbn [fire_ios forallb lower_all] in *. apply andb_prop in Hst as [He Hst].
    destruct (fire_io dispatch e s) as [s1|] eqn:E; [|done]. cbn in Hf.
    change (e :: es) with ([e] ++ es) in Heq. rewrite received_app in Heq.
    destruct (reader_step w e s s1 rd E He Hrd) as (rd1 & Hrd1 & [[Hd Hb]|(m & rest & Hr & Hd & Hn & Hb)]).
    + destruct (IH s1 rd1 msgs bss Hf Hst Hrd1 Hm Ht) as (rd' & msgs' & bss' & ? & ? & ? & ?).
      { by rewrite Hb, <- app_assoc. }
      exists rd', msgs', bss'. by rewrite dispatched_app, Hd.
    + rewrite Hn in Heq. destruct (read_message_stream _ _ _ _ _ _ _ Hr Hm Ht Heq) as (ms & bs & -> & Hms & Hrest).
      destruct (IH s1 rd1 ms bs Hf Hst Hrd1 Hms Ht) as (rd' & msgs' & bss' & ? & Hms' & ? & ?); [by rewrite Hb|].
      exists rd', msgs', bss'. rewrite dispatched_app, Hd. by rewrite Hms'.
Qed.

Lemma can_read w s rd m rest :
  bh_readers s !! w = Some rd -> read_message (rd_buffer rd) = Some (m, rest) ->
  host_conns (bh_host s) !! w = Some idle -> is_Some (fire_io dispatch (Read w) s).
Proof.
  destruct s as [h readers], m as [m p]. cbn. intros -> Hm Hi. cbn. rewrite Hm. cbn. rewrite fire_deliver by done.
  by eexists.
Qed.

Lemma can_leave w s s' rd :
  bh_readers s !! w = Some rd -> fire_io dispatch (Leave w) s = Some s' ->
  (exists e, host_conns (bh_host s) !! w = Some (Stop (Err e))) \/ read_message (rd_buffer rd) = None.
Proof.
  destruct s as [h readers]. cbn. intros ->. cbn. destruct (host_conns h !! w) as [t|]; [|done]. cbn.
  destruct (raised t) eqn:E; [destruct t as [[]| |]; try done; by left; eexists|].
  cbn. destruct (rd_eof rd); [|done]. cbn. by case_bool_decide; [right|].
Qed.

(** The tag protocol/message_format.md puts after a payload is not taken off the
    reader with the message: what is read next as a header is the tag's first
    sixteen bytes. *)
Theorem tag_read_as_header m bs tag rest :
  framed m bs -> length tag = 32%nat ->
  read_message (bs ++ tag ++ rest) = Some (m, tag ++ rest) /\
  forall h payload rest', read_message (tag ++ rest) = Some (h, payload, rest') ->
    parse_header (take HEADER_SIZE tag) = Ok h.
Proof.
  intros Hm Ht. split; [by apply read_message_framed|]. intros h payload rest'. unfold read_message.
  case_match; [done|]. rewrite take_app_le by (rewrite Ht; unfold HEADER_SIZE; lia).
  destruct (parse_header (take HEADER_SIZE tag)) as [h'|]; [|done]. case_match; [done|]. by intros [= -> _ _].
Qed.

(** C5: framing, under any schedule.  Let a peer send the bytes of a sequence
    of messages, each a header and a payload without the tag that
    protocol/message_format.md asks for, possibly followed by an incomplete
    one, on a connection that has just been accepted; they may arrive in any
    pieces and in between anything may happen on this and other connections.  Then what the host does
    is a schedule of whole well-formed messages, those dispatched on this
    connection are the peer's, in order, none cut, lost or doubled; whenever
    the connection's handler is not busy and a message is left to dispatch that
    has been received, it can be dispatched; and the connection is left only
    when a handler raised or all the messages have been dispatched. *)
Theorem streams_are_messages w es s s' msgs bss tail :
  byte_reachable dispatch s -> bh_readers s !! w = Some new_reader ->
  Forall io_wf es -> forallb (stays w) es = true -> fire_ios dispatch es s = Some s' ->
  Forall2 framed msgs bss -> read_message tail = None -> received w es = concat bss ++ tail ->
  let es' := lower_all dispatch es s in
  host_reachable dispatch (bh_host s) /\ Forall event_wf es' /\
  fire_all dispatch es' (bh_host s) = Some (bh_host s') /\
  exists msgs', msgs = dispatched w es' ++ msgs' /\
    (host_conns (bh_host s') !! w = Some idle -> msgs' <> [] -> is_Some (fire_io dispatch (Read w) s')) /\
    (forall s'', fire_io dispatch (Leave w) s' = Some s'' ->
       (exists e, host_conns (bh_host s') !! w = Some (Stop (Err e))) \/ msgs' = []).
Proof.
  intros Hs Hrd Hes Hst Hf Hm Ht Heq es'. apply byte_reachable_host in Hs as [Hs Hw].
  destruct (fire_ios_lower _ _ _ Hw Hes Hf) as [Hwf Hall]. split; [done|]. split; [done|]. split; [done|].
  destruct (stream_run w es s s' new_reader msgs bss tail) as (rd' & msgs' & bss' & Hrd' & Hmsgs & Hm' & Hb); [done..|].
  exists msgs'. split; [done|].
  assert (Hnext : msgs' <> [] -> exists m rest, read_message (rd_buffer rd') = Some (m, rest)).
  { intros Hne. destruct Hm' as [|m bs ms bss' Hmb Hm']; [done|]. exists m, (concat bss' ++ tail).
    rewrite Hb. cbn [concat]. rewrite <- app_assoc. by apply read_message_framed. }
  split.
  - intros Hi Hne. destruct (Hnext Hne) as (m & rest & Hr). by eapply can_read.
  - intros s'' Hl. destruct (can_leave _ _ _ _ Hrd' Hl) as [|Hn]; [by left|]. right.
    destruct msgs' as [|m ms]; [done|]. destruct Hnext as (m' & rest & Hr); [done|]. by rewrite Hr in Hn.
Qed.
End Runs.

(** ** A concrete run *)

(** Two connections; client 2's bytes arrive in two pieces, the second with
    the beginning of another header, while the messages of client 1 are read. *)
Definition accepted : ByteHost :=
  default new_byte_host (fire_ios toy_host_dispatch [Open 11; Open 12] new_byte_host).

Definition pieces : list io := [
  Receive 11 (stream (init_message :: client_stream 1)); Receive 12 (take 30 (stream (client_stream 2)));
  Read 11; Read 12; Read 11; Receive 12 (drop 30 (stream (client_stream 2)) ++ [0; 1; 0]);
  Read 12; Read 11; Read 11; Read 12; Read 11; Eof 12; Read 12;
  Proceed 12; Proceed 12; Proceed 12; Proceed 12; Proceed 12; Proceed 12].

Definition after_pieces : ByteHost := default new_byte_host (fire_ios toy_host_dispatch pieces accepted).

Definition succeeded {A} (o : option A) : bool := match o with Some _ => true | None => false end.

Lemma succeeded_default {A} (o : option A) (d : A) : succeeded o = true -> o = Some (default d o).
Proof. by destruct o. Qed.

Lemma io_wf_pieces : Forall io_wf pieces.
Proof.
  apply Forall_forall. intros e He. unfold pieces in He.
  repeat (apply elem_of_cons in He as [->|He];
    [first [exact I|apply (bool_decide_unpack _); vm_compute; reflexivity]|]).
  by apply not_elem_of_nil in He.
Qed.

Lemma framed_packed m : succeeded (match struct_pack HEADER_FORMAT (header_values (fst m)) with
    | Ok _ => Some tt | Err _ => None end) = true ->
  h_payload_length (fst m) = Z.of_nat (length (snd m)) -> framed m (stream [m]).
Proof.
  intros Hp Hl. unfold framed, stream. cbn [fmap list_fmap concat]. rewrite app_nil_r.
  destruct (struct_pack _ _) as [hb|]; [|done]. by exists hb.
Qed.

Lemma streams_are_messages_witness :
  dispatched 12 (lower_all toy_host_dispatch pieces accepted) = client_stream 2 /\
  ended 12 (bh_host after_pieces) = Some (Ok tt).
Proof.
  assert (He : ended 12 (bh_host after_pieces) = Some (Ok tt)) by (vm_compute; reflexivity).
  split; [|exact He].
  destruct (streams_are_messages toy_host_dispatch 12 pieces accepted after_pieces (client_stream 2)
    ((fun m => stream [m]) <$> client_stream 2) [0; 1; 0]) as (_ & _ & _ & msgs' & Hms & _ & Hleave).
  - eapply (byte_fire _ (Open 12)); [eapply (byte_fire _ (Open 11)); [apply byte_init|exact I|]|exact I|];
      reflexivity.
  - vm_compute. reflexivity.
  - apply io_wf_pieces.
  - vm_compute. reflexivity.
  - apply succeeded_default. vm_compute. reflexivity.
  - repeat constructor; apply framed_packed; vm_compute; reflexivity.
  - vm_compute. reflexivity.
  - vm_compute. reflexivity.
  - destruct (Hleave (default new_byte_host (fire_io toy_host_dispatch (Leave 12) after_pieces))) as [[e He']| ->].
    + apply succeeded_default. vm_compute. reflexivity.
    + unfold ended in He. by rewrite He' in He.
    + rewrite app_nil_r in Hms. symmetry. exact Hms.
Defined.
