(* ===== verification/Protocol.v ===== *)
(** * The abstract protocol

    What an aggregation server promises, without connections, keys, handlers or
    the order in which clients arrive: sessions with the clients' contributions
    as finite maps, and the set of sessions it has been decided to close.  A
    message is an event that changes one session; a session whose clients are
    done, with as many left as the threshold asks for, may be decided; and a
    decided session may publish an average of what was contributed: the weighted
    sum over the sum of the weights, except in a session that is not even
    ([even_session]), whose divisor is a number of samples. *)

From Stdlib Require Import ZArith Lia.
From stdpp Require Import prelude gmap.
From S2P Require Import Prelude PyDict PyBytes Field Kdf Masks Wire.

Record Contribution : Type := {
  cn_chunks : gmap Z bytes;
  cn_done : bool;
  cn_samples : Z;
}.

Record Session : Type := {
  se_expected : Z;
  se_threshold : Z;
  se_chunk : Z;
  se_model : Z;
  se_clients : gmap Z Contribution;
  se_dropped : gset Z;
  se_result : gmap Z (list Z);
}.

Abbreviation Sessions := (gmap Z Session).

(** A session stays decided once it is. *)
Record Protocol : Type := {
  sessions : Sessions;
  decided : gset Z;
}.

Definition with_clients (m : gmap Z Contribution) (s : Session) : Session := {|
  se_expected := se_expected s; se_threshold := se_threshold s; se_chunk := se_chunk s; se_model := se_model s;
  se_clients := m; se_dropped := se_dropped s; se_result := se_result s |}.
Definition with_dropped (d : gset Z) (s : Session) : Session := {|
  se_expected := se_expected s; se_threshold := se_threshold s; se_chunk := se_chunk s; se_model := se_model s;
  se_clients := se_clients s; se_dropped := d; se_result := se_result s |}.
Definition with_result (f : gmap Z (list Z)) (s : Session) : Session := {|
  se_expected := se_expected s; se_threshold := se_threshold s; se_chunk := se_chunk s; se_model := se_model s;
  se_clients := se_clients s; se_dropped := se_dropped s; se_result := f |}.

(** ** The mean of a session *)

Definition sum_clients (f : Z -> Contribution -> Z) (m : gmap Z Contribution) : Z :=
  map_fold (fun k c acc => f k c + acc) 0 m.

Definition cn_weight (c : Contribution) : Z := if 0 <? cn_samples c then cn_samples c else 1.

(** The j-th value of chunk [i]. *)
Definition cn_value (ce : nat) (c : Contribution) (i : Z) (j : nat) : Z :=
  match cn_chunks c !! i with
  | Some d => nth j (unpack_fields (chunk_format ce) d) 0
  | None => 0
  end.

Definition done_count (s : Session) : Z := sum_clients (fun _ c => if cn_done c then 1 else 0) (se_clients s).

(** The clients that count: completed, and not dropped out. *)
Definition counts (s : Session) (k : Z) (c : Contribution) : bool :=
  cn_done c && negb (bool_decide (k ∈ se_dropped s)).

(** What they contributed, weighted by their samples. *)
Definition weighted_sum (s : Session) (i : Z) (j : nat) : Z :=
  sum_clients (fun k c => if counts s k c then cn_weight c * cn_value (Z.to_nat (se_chunk s)) c i j else 0)
    (se_clients s).

(** Their weights. *)
Definition weight_total (s : Session) : Z :=
  sum_clients (fun k c => if counts s k c then cn_weight c else 0) (se_clients s).

(** The clients that count all have samples or all have none, and no other
    client is done. *)
Definition even_session (s : Session) : Prop :=
  (forall k c, se_clients s !! k = Some c -> cn_done c = true -> k ∉ se_dropped s) /\
  ((forall k c, se_clients s !! k = Some c -> counts s k c = true -> 0 < cn_samples c) \/
   (forall k c, se_clients s !! k = Some c -> counts s k c = true -> cn_samples c <= 0)).

(** The samples of all completed clients, dropped or not; their number when
    they have none. *)
Definition sample_total (s : Session) : Z :=
  let total := sum_clients (fun _ c => if cn_done c then Z.max 0 (cn_samples c) else 0) (se_clients s) in
  if total =? 0 then done_count s else total.

(** An element of a result: the sum over the divisor, in the field; zero where
    the divisor is a multiple of 3329. *)
Definition quotient (d sum x : Z) : Prop :=
  0 <= x < FIELD_MODULUS /\ (d mod FIELD_MODULUS = 0 -> x = 0) /\
  (d mod FIELD_MODULUS <> 0 -> (d * x) mod FIELD_MODULUS = sum mod FIELD_MODULUS).

(** A result of the session: one row of the chunk's size for every chunk, and
    every element the weighted sum over one divisor, which is the sum of the
    weights; only in a session that is not even it is the number of samples. *)
Definition averages (s : Session) (f : gmap Z (list Z)) : Prop :=
  exists d,
    (even_session s -> d = weight_total s) /\ (~ even_session s -> d = sample_total s) /\
    (forall i, is_Some (f !! i) <-> 0 <= i < se_model s / se_chunk s) /\
    forall i row, f !! i = Some row ->
      length row = Z.to_nat (se_chunk s) /\
      forall j x, row !! j = Some x -> quotient d (weighted_sum s i j) x.

(** ** Events *)

Definition empty_contribution : Contribution := {| cn_chunks := ∅; cn_done := false; cn_samples := 0 |}.

(** A client announces itself; nothing changes if it has before. *)
Definition join (cid : Z) (s : Session) : Session :=
  match se_clients s !! cid with
  | Some _ => s
  | None => with_clients (<[cid := empty_contribution]> (se_clients s)) s
  end.

(** A chunk of the session's size, from a known client; a later one with the
    same number replaces it. *)
Definition contribute (cid seq_num : Z) (data : bytes) (s : Session) : Session :=
  if Z.of_nat (length data) =? se_chunk s * 2
  then with_clients (alter (fun c => {| cn_chunks := <[seq_num := data]> (cn_chunks c);
                                        cn_done := cn_done c; cn_samples := cn_samples c |}) cid (se_clients s)) s
  else s.

(** A known client is done; its sample count is in the message, or stays. *)
Definition finish (cid : Z) (payload : bytes) (s : Session) : Session :=
  with_clients (alter (fun c => {| cn_chunks := cn_chunks c; cn_done := true;
    cn_samples := if (4 <=? length payload)%nat then int_from_bytes (take 4 payload) else cn_samples c |})
    cid (se_clients s)) s.

Definition drop_out (cid : Z) (s : Session) : Session := with_dropped ({[cid]} ∪ se_dropped s) s.

Definition open_session (payload : bytes) : option Session :=
  match decode_round_init payload with
  | Ok (expected, thr, chunk, model) => Some {|
      se_expected := expected; se_threshold := thr; se_chunk := chunk; se_model := model;
      se_clients := ∅; se_dropped := ∅; se_result := ∅ |}
  | Err _ => None
  end.

(** What a message means. *)
Definition receive (h : MessageHeader) (payload : bytes) (a : Sessions) : Sessions :=
  let ty := h_message_type h in
  let rid := h_round_id h in
  let cid := h_client_id h in
  if ty =? MSG_TYPE_KEM_PUBLIC_KEY then alter (join cid) rid a
  else if ty =? MSG_TYPE_MASK_CHUNK then alter (contribute cid (h_sequence_number h) payload) rid a
  else if ty =? MSG_TYPE_CLIENT_COMPLETE then alter (finish cid payload) rid a
  else if ty =? MSG_TYPE_DROPOUT_NOTIFY then alter (drop_out cid) rid a
  else if ty =? MSG_TYPE_ROUND_INIT then
    match a !! rid, open_session payload with
    | None, Some s => <[rid := s]> a
    | _, _ => a
    end
  else a.

(** As many clients are done as have not dropped out ... *)
Definition complete (s : Session) : Prop :=
  se_expected s - Z.of_nat (size (se_dropped s)) <= done_count s.

(** ... and that many are at least the threshold. *)
Definition enough (s : Session) : Prop :=
  se_threshold s <= se_expected s - Z.of_nat (size (se_dropped s)).

Definition decides (s : Session) : Prop := complete s /\ enough s.

#[export] Instance decides_dec s : Decision (decides s).
Proof. unfold decides, complete, enough. apply _. Defined.

(** A session stores a result; only one of [D] may. *)
Inductive publish (D : gset Z) : relation Sessions :=
  | publish_result rid s f a : rid ∈ D -> a !! rid = Some s -> complete s -> se_chunk s <> 0 -> averages s f ->
      publish D a (<[rid := with_result f s]> a).

(** What the server does on its own. *)
Inductive internal : relation Protocol :=
  | decide_session rid s a D : a !! rid = Some s -> decides s ->
      internal {| sessions := a; decided := D |} {| sessions := a; decided := {[rid]} ∪ D |}
  | publish_session_result a a' D : publish D a a' ->
      internal {| sessions := a; decided := D |} {| sessions := a'; decided := D |}.

Definition new_protocol : Protocol := {| sessions := ∅; decided := ∅ |}.

(** A run over what arrives, the effect of each arrival given by [act]: first
    that, then some steps of the server's own. *)
Inductive runs {E} (act : E -> Sessions -> Sessions) : list E -> relation Protocol :=
  | runs_nil a : runs act [] a a
  | runs_cons e es a a1 a2 :
      rtc internal {| sessions := act e (sessions a); decided := decided a |} a1 ->
      runs act es a1 a2 -> runs act (e :: es) a a2.

Lemma runs_snoc {E} (act : E -> Sessions -> Sessions) es e a a1 a2 :
  runs act es a a1 -> rtc internal {| sessions := act e (sessions a1); decided := decided a1 |} a2 ->
  runs act (es ++ [e]) a a2.
Proof.
  intros Hr. revert a2. induction Hr as [a|e0 es a a1 a3 H0 _ IH]; intros a2 H.
  - eapply runs_cons; [exact H|constructor].
  - eapply runs_cons; [exact H0|by apply IH].
Qed.

(** ** Sums over clients *)

Lemma sum_clients_insert f m k c :
  m !! k = None -> sum_clients f (<[k := c]> m) = f k c + sum_clients f m.
Proof.
  intros Hk. unfold sum_clients. rewrite map_fold_insert_L; [done| |done]. intros. lia.
Qed.

Lemma sum_clients_list f (l : list (Z * Contribution)) :
  NoDup (l.*1) -> sum_clients f (list_to_map l) = foldr Z.add 0 ((fun p => f (fst p) (snd p)) <$> l).
Proof.
  induction l as [|[k c] l IH]; intros Hn; [done|]. rewrite fmap_cons in Hn.
  apply NoDup_cons in Hn as [Hk Hn]. rewrite list_to_map_cons, sum_clients_insert.
  - rewrite fmap_cons. cbn [foldr fst snd]. by rewrite IH.
  - by apply not_elem_of_list_to_map.
Qed.

(** More clients, and each with a larger share. *)
Lemma sum_clients_mono f g m m' :
  (forall k c, 0 <= g k c) ->
  (forall k c, m !! k = Some c -> exists c', m' !! k = Some c' /\ f k c <= g k c') ->
  sum_clients f m <= sum_clients g m'.
Proof.
  intros Hg. revert m'. induction m as [|k c m Hk IH] using map_ind; intros m' H.
  - clear H. induction m' as [|k c m' Hk IH] using map_ind; [done|].
    rewrite (sum_clients_insert g) by done. specialize (Hg k c). change (sum_clients f ∅) with 0 in *. lia.
  - destruct (H k c) as (c' & Hc' & Hle); [by rewrite lookup_insert_eq|].
    rewrite <- (insert_delete_id m' k c') by done.
    rewrite !sum_clients_insert by (done || apply lookup_delete_eq).
    assert (sum_clients f m <= sum_clients g (delete k m')); [|lia]. apply IH.
    intros k2 c2 Hk2. destruct (H k2 c2) as (c2' & ? & ?).
    { rewrite lookup_insert_ne; [done|congruence]. }
    exists c2'. rewrite lookup_delete_ne; [done|congruence].
Qed.

(** ** Completeness is stable *)

(** A session at a later time. *)
Record later (s s' : Session) : Prop := {
  la_expected : se_expected s' = se_expected s;
  la_threshold : se_threshold s' = se_threshold s;
  la_chunk : se_chunk s' = se_chunk s;
  la_model : se_model s' = se_model s;
  la_dropped : se_dropped s ⊆ se_dropped s';
  la_clients : forall k c, se_clients s !! k = Some c ->
    exists c', se_clients s' !! k = Some c' /\ (cn_done c = true -> cn_done c' = true);
}.

#[export] Instance later_preorder : PreOrder later.
Proof.
  split; [intros s; split; try done; intros k c Hk; by exists c|].
  intros s1 s2 s3 [] []. split; try congruence; [set_solver|]. intros k c Hk.
  destruct (la_clients0 k c Hk) as (c' & Hc' & ?). destruct (la_clients1 k c' Hc') as (c'' & ? & ?).
  exists c''. auto.
Qed.

Lemma complete_later s s' : later s s' -> complete s -> complete s'.
Proof.
  intros Hl Hr. unfold complete in *. rewrite (la_expected _ _ Hl).
  pose proof (subseteq_size _ _ (la_dropped _ _ Hl)).
  assert (done_count s <= done_count s'); [|lia]. apply sum_clients_mono.
  - intros k c. by case_match.
  - intros k c Hk. destruct (la_clients _ _ Hl k c Hk) as (c' & Hc' & Hd). exists c'. split; [done|].
    destruct (cn_done c); [by rewrite Hd|]. by case_match.
Qed.

Definition later_all (a a' : Sessions) : Prop :=
  forall rid s, a !! rid = Some s -> exists s', a' !! rid = Some s' /\ later s s'.

#[export] Instance later_all_preorder : PreOrder later_all.
Proof.
  split; [intros a rid s Hs; by exists s|]. intros a1 a2 a3 H1 H2 rid s Hs.
  destruct (H1 rid s Hs) as (s' & Hs' & ?). destruct (H2 rid s' Hs') as (s'' & ? & ?).
  exists s''. split; [done|]. by transitivity s'.
Qed.

Lemma later_alter f rid a : (forall s, later s (f s)) -> later_all a (alter f rid a).
Proof.
  intros Hf k s Hk. destruct (decide (k = rid)) as [->|Hne].
  - exists (f s). by rewrite lookup_alter_eq, Hk.
  - exists s. by rewrite lookup_alter_ne.
Qed.

Lemma later_with_clients m s :
  (forall k c, se_clients s !! k = Some c ->
     exists c', m !! k = Some c' /\ (cn_done c = true -> cn_done c' = true)) ->
  later s (with_clients m s).
Proof. by split. Qed.

Lemma later_alter_client (g : Contribution -> Contribution) cid s :
  (forall c, cn_done c = true -> cn_done (g c) = true) ->
  later s (with_clients (alter g cid (se_clients s)) s).
Proof.
  intros Hg. apply later_with_clients. intros k c Hk. destruct (decide (k = cid)) as [->|Hne].
  - exists (g c). rewrite lookup_alter_eq, Hk. split; [done|]. apply Hg.
  - exists c. by rewrite lookup_alter_ne.
Qed.

Lemma later_receive h payload a : later_all a (receive h payload a).
Proof.
  unfold receive. repeat (case_match; [apply later_alter; intros s|]).
  - unfold join. destruct (se_clients s !! h_client_id h) eqn:E; [done|]. apply later_with_clients.
    intros k c Hk. exists c. rewrite lookup_insert_ne; [done|congruence].
  - unfold contribute. case_match; [|done]. by apply later_alter_client.
  - by apply later_alter_client.
  - split; try done; [cbn; set_solver|]. intros k c Hk. by exists c.
  - case_match; [|done]. destruct (a !! h_round_id h) eqn:E; [done|]. destruct (open_session payload) as [s0|]; [|done].
    intros k s Hk. exists s. rewrite lookup_insert_ne; [done|congruence].
Qed.

Lemma later_with_result f s : later s (with_result f s).
Proof. split; try done. intros k c Hk. by exists c. Qed.

Lemma later_publish D a a' : publish D a a' -> later_all a a'.
Proof.
  intros [rid s f a0 _ Hs _ _ _] k u Hk. destruct (decide (k = rid)) as [->|Hne].
  - exists (with_result f s). rewrite lookup_insert_eq. split; [done|].
    assert (u = s) as -> by congruence. apply later_with_result.
  - exists u. by rewrite lookup_insert_ne.
Qed.

Lemma later_publishes D a a' : rtc (publish D) a a' -> later_all a a'.
Proof. induction 1 as [|a1 a2 a3 H12 _ IH]; [done|]. transitivity a2; [by eapply later_publish|done]. Qed.

Lemma publishes_more D D' a a' : D ⊆ D' -> rtc (publish D) a a' -> rtc (publish D') a a'.
Proof.
  intros HD. induction 1 as [|a1 a2 a3 [rid s f a0 Hin Hs Hc Hn Hf] _ IH]; [done|].
  eapply rtc_l; [|exact IH]. apply publish_result; auto.
Qed.

Lemma internal_publishes D a a' :
  rtc (publish D) a a' -> rtc internal {| sessions := a; decided := D |} {| sessions := a'; decided := D |}.
Proof.
  induction 1 as [|a1 a2 a3 H _ IH]; [done|]. eapply rtc_l; [by apply publish_session_result|exact IH].
Qed.
