(* ===== verification/Refinement.v ===== *)
(** * From bridges to the abstract protocol

    The abstraction forgets keys, stages, connections and the order of
    dictionaries.  What HEAD's aggregation stores averages the session, and
    every handler without a wait does what its message means. *)

From Stdlib Require Import ZArith Lia.
From stdpp Require Import prelude gmap.
From S2P Require Import Prelude PyDict PyBytes Field Lagrange Kdf Crypto Masks Wire State Aggregate FedAvg Keys.
From S2P Require Import Bridge Frame Invariant Server KeySetup Completion Variants Effects Protocol.

(** ** Dictionaries as finite maps *)

Section Dict.
Context {V : Type}.
Implicit Types (l : list (Z * V)).

Definition dict_map l : gmap Z V := list_to_map l.

Lemma dict_map_get k l : dict_map l !! k = dict_get k l.
Proof.
  induction l as [|[k' v] l IH]; [done|]. unfold dict_map. rewrite list_to_map_cons. cbn [dict_get].
  rewrite lookup_insert. repeat case_decide; subst; done.
Qed.

Lemma dict_map_set k v l : dict_map (dict_set k v l) = <[k := v]> (dict_map l).
Proof.
  apply map_eq. intros k'. rewrite dict_map_get, dict_get_set, lookup_insert, dict_map_get.
  repeat case_decide; subst; done.
Qed.
End Dict.
#[global] Arguments dict_map : simpl never.

(** ** The abstraction *)

Definition abs_client (c : ClientState) : Contribution := {|
  cn_chunks := dict_map (received_chunks c); cn_done := completed c; cn_samples := sample_count c |}.

Definition abs_round (r : RoundState) : Session := {|
  se_expected := expected_clients r; se_threshold := threshold r;
  se_chunk := chunk_size r; se_model := model_size r;
  se_clients := abs_client <$> dict_map (clients r);
  se_dropped := list_to_set (dropout_clients r);
  se_result := dict_map (unmasked_chunks r) |}.

Definition abs (b : Bridge) : Sessions := abs_round <$> dict_map (rounds b).

Lemma abs_get rid b : abs b !! rid = abs_round <$> dict_get rid (rounds b).
Proof. unfold abs. by rewrite lookup_fmap, dict_map_get. Qed.

Lemma abs_with_ctx rid c b : abs (with_ctx rid c b) = <[rid := abs_round (round c)]> (abs b).
Proof. unfold abs, with_ctx. cbn [rounds]. by rewrite dict_map_set, fmap_insert. Qed.

(** What an aggregation reads and what it stored determine the session. *)
Lemma abs_same r r' :
  same_data r r' -> unmasked_chunks r' = unmasked_chunks r -> abs_round r' = abs_round r.
Proof.
  intros [[] Hdrop Hcl] Hres. unfold abs_round. rewrite fx_expected, fx_threshold, fx_chunk_size,
    fx_model_size, Hdrop, Hres. f_equal. apply map_eq. intros k. rewrite !lookup_fmap, !dict_map_get.
  induction Hcl as [|[k0 c0] [k1 c1] l l' [Hk [_ Hr Hc Hs]] _ IH]; [done|]. cbn [fst snd dict_get] in *. subst k1.
  case_decide; [|done]. cbn. unfold abs_client. by rewrite Hr, Hc, Hs.
Qed.

(** ** The entries of an aggregate *)

Lemma scaled_get_some total n ce g i :
  is_Some (dict_get i (scale_chunks total (spec_chunks n ce g))) <-> 0 <= i < n.
Proof.
  assert (H : is_Some (dict_get i (spec_chunks n ce g)) <-> 0 <= i < n).
  { rewrite dict_get_is_Some. unfold spec_chunks, dict_keys. rewrite <- list_fmap_compose.
    rewrite (list_fmap_ext _ id), list_fmap_id by done. apply elem_of_range. }
  rewrite <- H. unfold scale_chunks. case_match; [|done].
  rewrite (dict_get_map_values (fun row => map (fun x => (x * py_pow total (FIELD_MODULUS - 2) FIELD_MODULUS) mod FIELD_MODULUS) row)).
  by rewrite fmap_is_Some.
Qed.

Lemma scaled_get_length total n ce g i row :
  dict_get i (scale_chunks total (spec_chunks n ce g)) = Some row -> length row = ce.
Proof.
  intros Hrow. assert (Hi : 0 <= i < n) by (eapply (scaled_get_some total n ce g); by eexists).
  revert Hrow. unfold scale_chunks. case_match.
  - rewrite (dict_get_map_values (fun row => map (fun x => (x * py_pow total (FIELD_MODULUS - 2) FIELD_MODULUS) mod FIELD_MODULUS) row)).
    rewrite spec_chunks_get by done. intros [= <-]. rewrite length_map. apply spec_row_length.
  - rewrite spec_chunks_get by done. intros [= <-]. apply spec_row_length.
Qed.

Lemma scaled_quotient total n ce g i j x :
  0 <= i < n -> (j < ce)%nat -> 0 <= total -> (total = 0 -> g i j = 0) ->
  entry (scale_chunks total (spec_chunks n ce g)) i j = Some x -> quotient total (g i j) x.
Proof.
  intros Hi Hj Hpos Hz Hx. destruct (decide (total mod FIELD_MODULUS = 0)) as [Ht|Ht].
  - assert (x = 0) as ->; [|done]. destruct (decide (total = 0)) as [->|Hn].
    + unfold scale_chunks in Hx. cbn [Z.ltb Z.compare] in Hx. rewrite entry_spec, Hz in Hx by done. by injection Hx as <-.
    + rewrite scaled_entry_zero in Hx; [by injection Hx as <-|done|done|lia|by apply eqp_spec].
  - destruct (scaled_entry_mean n ce g total i j) as (e & He & Hr & Hm & _); [done..| |].
    { intros H%eqp_spec. by apply Ht. }
    rewrite Hx in He. injection He as <-. split; [done|]. split; [done|]. intros _.
    apply eqp_spec in Hm. by rewrite Z.mul_comm.
Qed.

(** ** The mean *)

Section Mean.
Context (r : RoundState) (Hkeys : NoDup (dict_keys (clients r))).

Lemma sum_abs f :
  sum_clients f (se_clients (abs_round r)) = foldr Z.add 0 ((fun p => f (fst p) (abs_client (snd p))) <$> clients r).
Proof.
  cbn [abs_round se_clients]. unfold dict_map. rewrite <- list_to_map_fmap, sum_clients_list.
  - by rewrite <- list_fmap_compose.
  - by rewrite <- list_fmap_compose.
Qed.

Lemma abs_value ce c i j : cn_value ce (abs_client c) i j = chunk_value ce c i j.
Proof. unfold cn_value, chunk_value. cbn. by rewrite dict_map_get. Qed.

(** Summing over the clients that count. *)
Lemma abs_contributors (f : ClientState -> Z) (g : Contribution -> Z) :
  (forall c, g (abs_client c) = f c) ->
  sum_clients (fun k c => if counts (abs_round r) k c then g c else 0) (se_clients (abs_round r)) =
  gsum f (contributors r).
Proof.
  intros Hg. unfold contributors. rewrite sum_abs. clear Hkeys.
  induction (clients r) as [|[k c] l IH]; [done|].
  rewrite fmap_cons. cbn [foldr fst snd]. rewrite IH. rewrite filter_cons. cbn [fst].
  assert (counts (abs_round r) k (abs_client c) = completed c && negb (is_dropout r k)) as ->.
  { unfold counts, is_dropout. do 2 f_equal. apply bool_decide_ext. cbn. by rewrite elem_of_list_to_set. }
  destruct (is_dropout r k); cbn [negb].
  { rewrite andb_false_r, decide_False by (by intros []). done. }
  rewrite decide_True, fmap_cons, (filter_bool_cons (fun c => completed c)) by done. cbn [snd].
  destruct (completed c); [|done]. cbn [andb gsum foldr]. unfold gsum. by rewrite Hg.
Qed.

Lemma abs_weighted_sum i j : weighted_sum (abs_round r) i j = fedavg_sum r i j.
Proof.
  apply (abs_contributors _ (fun c => cn_weight c * cn_value (Z.to_nat (chunk_size r)) c i j)).
  intros c. unfold fedavg_sum. f_equal. apply abs_value.
Qed.

Lemma abs_weight_total : weight_total (abs_round r) = weight_sum r.
Proof. by apply (abs_contributors weight cn_weight). Qed.

(** In an even session the divisor is the sum of the weights. *)
Lemma abs_even : even_session (abs_round r) -> no_completed_dropout r /\ same_kind (contributors r).
Proof.
  intros [Hd Hk].
  assert (Hget : forall k c, (k, c) ∈ clients r -> se_clients (abs_round r) !! k = Some (abs_client c)).
  { intros k c Hin. cbn. rewrite lookup_fmap, dict_map_get. by rewrite (dict_elem_get k c). }
  assert (Hdrop : forall k, k ∈ se_dropped (abs_round r) <-> k ∈ dropout_clients r).
  { intros k. cbn. by rewrite elem_of_list_to_set. }
  split.
  - intros k c Hin Hc. rewrite <- Hdrop. by apply (Hd k (abs_client c)); [apply Hget|].
  - assert (Hcount : forall c, c ∈ contributors r -> exists k, (k, c) ∈ clients r /\
              counts (abs_round r) k (abs_client c) = true).
    { intros c [Hc Hin]%list_elem_of_filter. apply list_elem_of_fmap in Hin as ([k c'] & -> & Hin).
      apply list_elem_of_filter in Hin as [Hk' Hin]. exists k. split; [done|]. unfold counts. cbn [abs_client cn_done snd] in *.
      apply andb_true_iff. split; [by apply Is_true_true|]. cbn [fst] in Hk'. revert Hk'. unfold is_dropout.
      do 2 case_bool_decide; try done. intros _. exfalso. by apply H, Hdrop. }
    unfold same_kind. rewrite !Forall_forall.
    destruct Hk as [Hk|Hk]; [left|right]; intros c Hc; destruct (Hcount c Hc) as (k & Hin & Hct);
      specialize (Hk k _ (Hget k c Hin) Hct); unfold sampled; cbn in Hk; lia.
Qed.

Lemma abs_done_count : done_count (abs_round r) = completed_count r.
Proof.
  unfold done_count, completed_count, dict_values. rewrite sum_abs. clear Hkeys.
  induction (clients r) as [|[k c] l IH]; [done|].
  rewrite !fmap_cons, (filter_bool_cons (fun c => completed c)). cbn [foldr fst snd abs_client cn_done] in *.
  rewrite IH. destruct (completed c); [cbn [length]; lia|done].
Qed.

Lemma abs_sample_total : sample_total (abs_round r) = total_samples (fun _ => true) (clients r).
Proof.
  unfold sample_total, total_samples. rewrite abs_done_count, sum_abs.
  assert (foldr Z.add 0 ((fun p => if cn_done (abs_client (snd p)) then Z.max 0 (cn_samples (abs_client (snd p))) else 0)
            <$> clients r) =
          foldr Z.add 0 (sample_count <$> filter (fun c => 0 <? sample_count c)
            (filter (fun c => true && completed c) (snd <$> clients r)))) as ->.
  { clear Hkeys. induction (clients r) as [|[k c] l IH]; [done|].
    rewrite !fmap_cons, (filter_bool_cons (fun c => true && completed c)). cbn [foldr fst snd abs_client cn_done cn_samples] in *.
    rewrite IH. cbn [andb]. destruct (completed c); [|done].
    rewrite (filter_bool_cons (fun c => 0 <? sample_count c)).
    destruct (Z.ltb_spec 0 (sample_count c)); [rewrite fmap_cons; cbn [foldr]; lia|lia]. }
  done.
Qed.

(** Without completed clients the sums are empty. *)
Lemma no_samples_no_sum i j :
  total_samples (fun _ => true) (clients r) = 0 -> fedavg_sum r i j = 0.
Proof.
  unfold total_samples, fedavg_sum, contributors. cbn [andb]. set (l := filter _ (snd <$> clients r)).
  intros Ht. assert (l = []) as Hl.
  { destruct l as [|c l]; [done|]. revert Ht. rewrite samples_weights.
    destruct (Z.eqb_spec (gsum weight (c :: l) - Z.of_nat (length (filter (fun c => ~ sampled c) (c :: l)))) 0); [|lia].
    rewrite length_cons. lia. }
  clear Ht Hkeys. induction (clients r) as [|[k c] cs IH]; [done|]. subst l.
  rewrite fmap_cons, (filter_bool_cons (fun c => completed c)) in Hl. cbn [snd] in Hl.
  destruct (completed c) eqn:Ec; [done|]. rewrite filter_cons. case_decide; [|by apply IH].
  rewrite fmap_cons, (filter_bool_cons (fun c => completed c)). cbn [snd]. rewrite Ec. by apply IH.
Qed.

Lemma abs_averages : averages (abs_round r) (dict_map (head_spec r (chunk_count r))).
Proof.
  exists (total_samples (fun _ => true) (clients r)). split; [|split; [|split]].
  - intros [Hno Hk]%abs_even. rewrite abs_weight_total. by apply head_total.
  - intros _. by rewrite abs_sample_total.
  - intros i. rewrite dict_map_get. apply scaled_get_some.
  - intros i row Hrow. rewrite dict_map_get in Hrow.
    assert (Hi : 0 <= i < chunk_count r) by (eapply scaled_get_some; by eexists).
    assert (Hlen : length row = Z.to_nat (chunk_size r)) by (by eapply scaled_get_length).
    split; [done|]. intros j x Hx. pose proof (lookup_lt_Some _ _ _ Hx) as Hj. rewrite Hlen in Hj.
    assert (He : entry (head_spec r (chunk_count r)) i j = Some x) by (unfold entry; by rewrite Hrow).
    rewrite abs_weighted_sum. eapply scaled_quotient; [done|done|apply total_samples_nonneg| |exact He].
    by apply no_samples_no_sum.
Qed.
End Mean.

(** HEAD's finalization stores nothing else. *)
Lemma dropouts_pass r ids f f' :
  fold_result (Head.dropout_step r) ids f = Ok f' ->
  f' = f /\ forall k c, k ∈ ids -> dict_get k (clients r) = Some c -> truthy (shared_secret c) = false.
Proof.
  induction ids as [|k ids IH]; cbn [fold_result].
  - intros [= <-]. split; [done|]. intros k c Hk. by apply not_elem_of_nil in Hk.
  - destruct (Head.dropout_step r f k) as [f1|] eqn:E; run; [|done]. unfold Head.dropout_step in E.
    assert (f1 = f /\ forall c, dict_get k (clients r) = Some c -> truthy (shared_secret c) = false) as [-> Hk].
    { destruct (dict_get k (clients r)) as [c|]; [|by injection E as <-].
      destruct (truthy (shared_secret c)) eqn:Et; [done|]. injection E as <-. split; [done|]. by intros ? [= <-]. }
    intros H. destruct (IH H) as [-> Hids]. split; [done|]. intros k' c' [->|Hin]%elem_of_cons; [by apply Hk|by apply Hids].
Qed.

Lemma finalize_spec r f :
  clients_ok r -> Head.finalize_aggregation r = Ok f -> f = head_spec r (chunk_count r).
Proof.
  intros Hok Hf. pose proof (proj1 (head_finalize_shape _ _ Hf)) as Hcs.
  rewrite head_finalize_eq in Hf; [by injection Hf as <-|done| |done].
  unfold Head.finalize_aggregation, num_chunks in Hf. rewrite (proj2 (Z.eqb_neq _ _) Hcs) in Hf.
  rewrite result_bind_ok in Hf. destruct (fold_result (Head.add_client _ _) _ _) as [f1|]; [|done].
  rewrite result_bind_ok in Hf. destruct (fold_result (Head.dropout_step r) _ _) as [f2|] eqn:E; [|done].
  intros k c Hk Hc. by eapply (proj2 (dropouts_pass _ _ _ _ E)).
Qed.

(** ** Handlers without a wait *)

Lemma abs_set_clients cls r :
  abs_round (set_clients cls r) = with_clients (abs_client <$> dict_map cls) (abs_round r).
Proof. by destruct r. Qed.

Lemma abs_clients_get r k : se_clients (abs_round r) !! k = abs_client <$> dict_get k (clients r).
Proof. cbn. by rewrite lookup_fmap, dict_map_get. Qed.

(** Storing a client's new state. *)
Lemma abs_set_client k c r :
  abs_round (set_clients (dict_set k c (clients r)) r) =
  with_clients (<[k := abs_client c]> (se_clients (abs_round r))) (abs_round r).
Proof. rewrite abs_set_clients, dict_map_set, fmap_insert. done. Qed.

Lemma with_clients_id s : with_clients (se_clients s) s = s.
Proof. by destruct s. Qed.

(** An assignment to a known client. *)
Lemma abs_update_known k c c' r (g : Contribution -> Contribution) :
  dict_get k (clients r) = Some c -> abs_client c' = g (abs_client c) ->
  abs_round (set_clients (dict_set k c' (clients r)) r) =
  with_clients (alter g k (se_clients (abs_round r))) (abs_round r).
Proof.
  intros Hc Hg. rewrite abs_set_client, Hg. f_equal. apply map_eq. intros k'.
  destruct (decide (k' = k)) as [->|Hne].
  - by rewrite lookup_insert_eq, lookup_alter_eq, abs_clients_get, Hc.
  - by rewrite lookup_insert_ne, lookup_alter_ne.
Qed.

Lemma alter_known {V} (g : V -> V) k v (m : gmap Z V) : m !! k = Some v -> alter g k m = <[k := g v]> m.
Proof.
  intros Hk. apply map_eq. intros k'. destruct (decide (k' = k)) as [->|Hne].
  - by rewrite lookup_alter_eq, Hk, lookup_insert_eq.
  - by rewrite lookup_alter_ne, lookup_insert_ne.
Qed.

(** A method that turns the session of its round by [F]. *)
Lemma abs_with_round rid m F b :
  (forall rs, dict_get rid (rounds b) = Some rs ->
     abs_round (round (exec m {| net := bridge_net b; round := rs |})) = F (abs_round rs)) ->
  abs (exec (with_round rid m) b) = alter F rid (abs b).
Proof.
  intros Hm. unfold exec at 1, with_round. destruct (dict_get rid (rounds b)) as [rs|] eqn:E.
  - specialize (Hm rs eq_refl). unfold on_round. unfold exec in Hm.
    destruct (m _) as [res c]. cbn [snd] in *. fold (with_ctx rid c b). rewrite abs_with_ctx, Hm.
    rewrite (alter_known _ _ (abs_round rs)); [done|]. by rewrite abs_get, E.
  - cbn [snd]. rewrite alter_id'; [done|]. by rewrite abs_get, E.
Qed.

Lemma abs_with_client cid m c :
  (forall cl, dict_get cid (clients (round c)) = Some cl -> abs_round (round (exec (m cl) c)) = abs_round (round c)) ->
  abs_round (round (exec (with_client cid m) c)) = abs_round (round c).
Proof.
  intros Hm. unfold exec. rewrite with_client_run. destruct (dict_get cid _) eqn:E; [|done]. by apply Hm.
Qed.

Lemma abs_public_key h payload w b :
  abs (exec (handle_public_key h payload w) b) = alter (join (h_client_id h)) (h_round_id h) (abs b).
Proof.
  apply abs_with_round. intros rs _. set (cid := h_client_id h). rewrite exec_bind. cbn [the_round gets round].
  unfold join. rewrite abs_clients_get. fold cid. destruct (dict_get cid (clients rs)) as [c|] eqn:Ec.
  - rewrite exec_bind. cbn [skip fmap option_fmap option_map]. rewrite exec_bind, update_client_run. cbn [round].
    rewrite Ec. cbn. rewrite (abs_update_known cid c _ rs id); [|done|by destruct c].
    rewrite alter_id; [apply with_clients_id|done].
  - rewrite exec_bind. cbn [update_round modify fmap option_fmap option_map].
    rewrite exec_bind, update_client_run. cbn [round net].
    rewrite clients_set_clients, dict_get_set_eq. cbn [exec register_writer update_net modify snd round].
    by rewrite set_clients_twice, dict_set_set, abs_set_client.
Qed.

Lemma abs_mask_chunk h payload b :
  abs (exec (handle_mask_chunk h payload) b) =
  alter (contribute (h_client_id h) (h_sequence_number h) payload) (h_round_id h) (abs b).
Proof.
  apply abs_with_round. intros rs _. unfold exec at 1. rewrite with_client_run. cbn [round].
  set (cid := h_client_id h). unfold contribute. cbn [abs_round se_chunk].
  destruct (dict_get cid (clients rs)) as [c|] eqn:Ec.
  - rewrite (M_bind_ok _ _ _ rs {| net := bridge_net b; round := rs |}) by done.
    destruct (Z.of_nat (length payload) =? chunk_size rs * 2); [|done].
    rewrite update_client_run. cbn [round]. rewrite Ec. cbn [snd round]. apply (abs_update_known _ c); [done|].
    destruct c. unfold abs_client. cbn. by rewrite dict_map_set.
  - cbn [snd round skip]. case_match; [|done].
    rewrite alter_id'; [by destruct rs|]. change (abs_client <$> dict_map (clients rs)) with (se_clients (abs_round rs)).
    by rewrite abs_clients_get, Ec.
Qed.

Lemma abs_round_init h payload b :
  abs (exec (handle_round_init h payload) b) =
  match abs b !! h_round_id h, open_session payload with None, Some s => <[h_round_id h := s]> (abs b) | _, _ => abs b end.
Proof.
  unfold handle_round_init. rewrite exec_bind. cbn [gets]. rewrite abs_get. unfold dict_mem.
  destruct (dict_get (h_round_id h) (rounds b)) as [r|] eqn:E; [done|]. cbn [fmap option_fmap option_map].
  rewrite exec_bind. unfold lift, open_session.
  destruct (decode_round_init payload) as [[[[e t] c] m]|]; [|done].
  unfold abs. cbn. by rewrite dict_map_set, fmap_insert.
Qed.

Lemma abs_shamir_share h payload b : abs (exec (handle_shamir_share h payload) b) = abs b.
Proof.
  unfold handle_shamir_share. rewrite (abs_with_round _ _ id).
  - by rewrite alter_id.
  - intros rs _. apply abs_with_client. intros cl Hcl. unfold exec. rewrite update_client_run, Hcl.
    cbn [snd round]. rewrite (abs_update_known _ cl _ _ id); [|done|by destruct cl].
    rewrite alter_id; [apply with_clients_id|done].
Qed.
