(* ===== verification/AsyncRefinement.v ===== *)
(** * HEAD's bridge implements the abstract protocol

    Under any schedule: what a message changes is what it means in the
    protocol, and the only other thing a handler ever does is to decide a
    session whose clients are done and are as many as the threshold asks for,
    and to publish the average of a decided one ([averages]). *)

From Stdlib Require Import ZArith Lia.
From stdpp Require Import prelude gmap.
From S2P Require Import Prelude PyDict PyBytes Field Shamir Kdf Crypto Masks Wire State Aggregate FedAvg Keys.
From S2P Require Import Bridge Frame Invariant Server KeySetup Completion Variants Effects Protocol Refinement.
From S2P Require Import Emission Async AsyncFacts AsyncGuard AsyncServer AsyncRound.
From S2P Require AsyncBridge.

(** ** Methods that store no result *)

Definition same_result (c c' : Ctx) : Prop := unmasked_chunks (round c') = unmasked_chunks (round c).

#[export] Instance same_result_preorder : PreOrder same_result.
Proof. split; [by intros c|]. intros c1 c2 c3 H1 H2. unfold same_result in *. congruence. Qed.

Section SameResult.
Context (u : chunks).
Let stores (c : Ctx) : Prop := unmasked_chunks (round c) = u.

Lemma result_update_client cid f : preserves stores (update_client cid f).
Proof.
  intros s Hs. unfold exec, stores. rewrite update_client_run. case_match; [|done].
  cbn [snd round]. rewrite <- Hs. by destruct (round s).
Qed.

Lemma result_update_net f : preserves stores (update_net f).
Proof. by apply preserves_modify. Qed.

Lemma result_update_round f : (forall r, unmasked_chunks (f r) = unmasked_chunks r) -> preserves stores (update_round f).
Proof. intros Hf. apply preserves_modify. intros s Hs. unfold stores. cbn [round]. by rewrite Hf. Qed.

Lemma result_get_client cid : preserves stores (get_client cid).
Proof. intros s Hs. unfold exec. by rewrite get_client_run. Qed.

Lemma result_the_round : preserves stores the_round.
Proof. apply preserves_gets. Qed.

Lemma result_set_stage v r : unmasked_chunks (set_stage v r) = unmasked_chunks r.
Proof. by destruct r. Qed.
Lemma result_set_dropouts v r : unmasked_chunks (set_dropouts v r) = unmasked_chunks r.
Proof. by destruct r. Qed.
End SameResult.

Create HintDb result_keep_db.
#[export] Hint Resolve result_update_client result_update_net result_update_round result_get_client result_the_round
  result_set_stage result_set_dropouts preserves_skip preserves_lift preserves_raise preserves_gets
  preserves_ret : result_keep_db.
Ltac keep_result := keeps_walk ltac:(fun _ => auto with result_keep_db).

(** ... as coroutines. *)
Abbreviation still := (obeys (fun _ : Ctx => True) same_result).

Lemma still_atomic {A} (m : M Ctx A) :
  (forall u, preserves (fun c => unmasked_chunks (round c) = u) m) -> still (atomic m).
Proof. intros H. apply obeys_atomic. intros c _. split; [done|]. by apply (H (unmasked_chunks (round c))). Qed.

(** Walks down a coroutine. *)
Ltac still_walk :=
  repeat first
    [ done
    | solve [auto with result_keep_db]
    | apply obeys_live_each; [tc_solve|intros ?]
    | apply obeys_bind; [|intros ?]
    | apply obeys_each; intros ?
    | apply still_atomic; intros ?; solve [keep_result]
    | case_match ].

Lemma still_write conn data : still (AsyncBridge.write_and_drain conn data).
Proof. unfold AsyncBridge.write_and_drain, await. still_walk. Qed.
#[export] Hint Resolve still_write : result_keep_db.

Section Still.
Context (encapsulate : nat -> bytes -> result (bytes * bytes)) (reconstruct_secret : list (Z * Z) -> result Z).

Lemma still_encapsulate_to k pk : still (AsyncBridge.encapsulate_to encapsulate k pk).
Proof. unfold AsyncBridge.encapsulate_to, draw_encapsulation. still_walk. Qed.
Hint Resolve still_encapsulate_to : result_keep_db.

Lemma still_ensure_secret k : still (AsyncBridge.ensure_secret encapsulate k).
Proof. unfold AsyncBridge.ensure_secret. still_walk. Qed.
Hint Resolve still_ensure_secret : result_keep_db.

Lemma still_setup : still (AsyncBridge.setup_keys_and_masks encapsulate).
Proof.
  unfold AsyncBridge.setup_keys_and_masks, AsyncBridge.setup_client, AsyncBridge.setup_pair,
    AsyncBridge.orchestrate_pair, derive_seeds, derive_seed_for. still_walk.
Qed.

Lemma still_broadcast f payload : still (AsyncBridge.broadcast f payload).
Proof. unfold AsyncBridge.broadcast, AsyncBridge.send_complete. still_walk. Qed.

Lemma result_recovery u : preserves (fun c => unmasked_chunks (round c) = u) (trigger_recovery reconstruct_secret).
Proof. unfold trigger_recovery, recover_client. keep_result. Qed.

Lemma result_round_failure u : preserves (fun c => unmasked_chunks (round c) = u) handle_round_failure.
Proof. unfold handle_round_failure. keep_result. Qed.
End Still.

(** ** On a round *)

(** Publishing, allowed by [P]. *)
Inductive publish_session (P : Prop) : relation Session :=
  | publish_session_averages s f : P -> complete s -> se_chunk s <> 0 -> averages s f ->
      publish_session P s (with_result f s).

(** What others may have done meanwhile, and what this handler may do. *)
Definition session_rely (rid : Z) (c c' : Ctx) : Prop :=
  ctx_wf rid c' /\ later (abs_round (round c)) (abs_round (round c')).
Definition session_guarantee (rid : Z) (P : Prop) (c c' : Ctx) : Prop :=
  ctx_wf rid c' /\ rtc (publish_session P) (abs_round (round c)) (abs_round (round c')).

(** An action that stores no result does not touch the session. *)
Definition silent (rid : Z) (c c' : Ctx) : Prop := advances rid c c' /\ same_result c c'.

Lemma silent_abs rid c c' : silent rid c c' -> abs_round (round c') = abs_round (round c).
Proof. intros [Ha Hr]. by apply abs_same; [apply Ha|]. Qed.

Lemma silent_guarantee rid P c c' : silent rid c c' -> ctx_wf rid c' -> session_guarantee rid P c c'.
Proof. intros Hs Hwf. split; [done|]. by rewrite (silent_abs _ _ _ Hs). Qed.

Definition ready_ctx (rid : Z) (c : Ctx) : Prop := ctx_wf rid c /\ complete (abs_round (round c)).

Lemma ready_rely rid c c' : ready_ctx rid c -> session_rely rid c c' -> ready_ctx rid c'.
Proof. intros [_ Hr] [Hwf Hl]. split; [done|]. by eapply complete_later. Qed.

(** A silent coroutine, and what follows it, on a round that is complete. *)
Lemma guards_ready {A B} rid P (t : task Ctx A) (f : A -> task Ctx B) c :
  obeys (ctx_wf rid) (silent rid) t -> ready_ctx rid c ->
  (forall a c', ready_ctx rid c' -> guards (session_rely rid) (session_guarantee rid P) (f a) c') ->
  guards (session_rely rid) (session_guarantee rid P) (t ≫= f) c.
Proof.
  intros Ht Hc Hf. apply (guards_bind _ _ (ready_ctx rid) (silent rid)); [| | |done|done].
  - intros s s' _ Hs [Hwf _]. by apply silent_guarantee.
  - intros s s' Hs. by apply ready_rely.
  - apply obeys_strengthen; [|done]. intros s s' _ Hs Hq. by rewrite (silent_abs _ _ _ Hq).
Qed.

Lemma guards_silent {A} rid P (t : task Ctx A) c :
  obeys (ctx_wf rid) (silent rid) t -> ctx_wf rid c ->
  guards (session_rely rid) (session_guarantee rid P) t c.
Proof.
  intros Ht Hc. apply (guards_obeys _ _ (ctx_wf rid) (silent rid)); [| |done|done].
  - intros s s' _ Hs Hwf. by apply silent_guarantee.
  - by intros s s' _ [].
Qed.

Section Aggregate.
Context {L : CryptoLib} (CRYPTO_AVAILABLE : bool) (OQS_AVAILABLE : option bool).
Context (reconstruct_secret : list (Z * Z) -> result Z) (rid : Z).
Let head_aggregate := AsyncBridge.aggregate CRYPTO_AVAILABLE OQS_AVAILABLE reconstruct_secret HEAD.

Lemma silent_atomic {A} (m : M Ctx A) :
  obeys (ctx_wf rid) (advances rid) (atomic m) -> (forall u, preserves (fun c => unmasked_chunks (round c) = u) m) ->
  obeys (ctx_wf rid) (silent rid) (atomic m).
Proof. intros H1 H2. apply obeys_and; [done|by apply still_atomic]. Qed.

(** The recovery changes no session, and the finalization publishes. *)
Lemma head_result_publishes (P : Prop) c :
  P -> ready_ctx rid c -> session_guarantee rid P c (exec (AsyncBridge.head_result reconstruct_secret) c).
Proof.
  intros HP [Hwf Hr]. unfold AsyncBridge.head_result. rewrite exec_bind.
  assert (Hs : silent rid c (exec (trigger_recovery reconstruct_secret) c)).
  { split; [|by apply (result_recovery reconstruct_secret (unmasked_chunks (round c)))].
    apply (since_recovery rid c reconstruct_secret c). by split; [apply (rw_id _ _ Hwf)|]. }
  pose proof (keeps_recovery rid reconstruct_secret c Hwf) as Hwf1. unfold exec in Hs, Hwf1.
  destruct (trigger_recovery reconstruct_secret c) as [[[]|e] c1]; cbn [snd] in *; [|by apply silent_guarantee].
  rewrite exec_bind. pose proof (keeps_finalize_round rid c1 Hwf1) as Hwf2. unfold exec in Hwf2.
  assert (Hfin : session_guarantee rid P c (snd (finalize_round c1))).
  { split; [done|]. revert Hwf2. unfold finalize_round. rewrite (M_bind_ok _ _ c1 (round c1) c1) by done.
    destruct (Head.finalize_aggregation (round c1)) as [f|e] eqn:Ef; intros _.
    2: { rewrite (M_bind_err _ _ c1 e c1) by done. cbn [snd]. by rewrite (silent_abs _ _ _ Hs). }
    rewrite lift_ok_bind.
    pose proof (round_wf_clients_ok _ _ Hwf1) as Hok.
    pose proof (proj1 (head_finalize_shape _ _ Ef)) as Hcs. apply finalize_spec in Ef as ->; [|done].
    rewrite (M_bind_ok (update_round _) _ _ tt _ eq_refl). unfold update_round, modify. cbn [snd round].
    apply rtc_once. rewrite <- (silent_abs _ _ _ Hs) in Hr |- *.
    assert (abs_round (set_stage ROUND_COMPLETE (set_unmasked (head_spec (round c1) (chunk_count (round c1))) (round c1)))
      = with_result (dict_map (head_spec (round c1) (chunk_count (round c1)))) (abs_round (round c1))) as ->
      by by destruct (round c1).
    apply publish_session_averages; [done..|]. by apply abs_averages, (rw_keys _ _ Hwf1). }
  destruct (finalize_round c1) as [[[]|e] c2]; cbn [snd] in *; [|done].
  rewrite exec_bind. cbn [the_round gets]. rewrite exec_bind. unfold lift at 1.
  destruct (collect_telemetry (round c2)); [|done]. rewrite exec_bind. unfold lift. by destruct (pack_telemetry _).
Qed.

Lemma guards_head_aggregate (P : Prop) c :
  P -> ready_ctx rid c -> guards (session_rely rid) (session_guarantee rid P) head_aggregate c.
Proof.
  intros HP Hc. apply guards_ready; [|done|].
  { apply obeys_and; [apply ok_setup|apply still_setup]. }
  intros [] c1 H1. apply guards_bind_atomic; [by apply (head_result_publishes P)|]. intros p Hp.
  apply guards_silent; [|by apply (head_result_publishes P)].
  do 4 (apply outcome_bind in Hp as (? & ? & _ & Hp)).
  apply outcome_bind in Hp as (telemetry & s' & [= Ht _] & [= <-]).
  apply obeys_and; [by eapply ok_broadcast|apply still_broadcast].
Qed.

Lemma abs_decides r : NoDup (dict_keys (clients r)) -> NoDup (dropout_clients r) ->
  surviving r <= completed_count r -> threshold r <= surviving r -> decides (abs_round r).
Proof.
  intros Hk Hd Hs Ht. unfold decides, complete, enough. rewrite abs_done_count by done. unfold surviving in *.
  cbn [abs_round se_expected se_dropped se_threshold]. by rewrite size_list_to_set.
Qed.

Lemma quietly_update_round f :
  (forall r, round_wf rid r -> round_wf rid (f r)) -> (forall r, same_data r (f r)) ->
  (forall r, unmasked_chunks (f r) = unmasked_chunks r) ->
  obeys (ctx_wf rid) (silent rid) (atomic (update_round f)).
Proof. intros Hf Hd Hu. apply silent_atomic; [by apply ok_update_round|]. intros u. by apply result_update_round. Qed.

(** What the check does is allowed by the state it starts in. *)
Lemma guards_head_check c :
  ctx_wf rid c ->
  let P := decides (abs_round (round c)) in
  guards (session_rely rid) (session_guarantee rid P) (AsyncBridge.check_round_completion head_aggregate) c.
Proof.
  intros Hc P. apply guards_bind_atomic; [by split|]. intros r [= <-]. cbn [exec the_round gets snd].
  destruct (_ && _) eqn:E.
  - apply andb_true_iff in E as [E%Z.leb_le Et%Z.leb_le].
    assert (HP : P) by (apply abs_decides; [apply (rw_keys _ _ Hc)|apply (rw_dropouts _ _ Hc)|done|done]).
    apply guards_ready; [| |intros _ c1 H1; by apply guards_head_aggregate].
    + apply quietly_update_round; [intros x Hx; by apply wf_set_stage|apply data_set_stage|apply result_set_stage].
    + split; [done|apply HP].
  - case_match; [|done]. apply guards_silent; [|done]. apply obeys_bind.
    + apply quietly_update_round; [intros x Hx; by apply wf_set_stage|apply data_set_stage|apply result_set_stage].
    + intros _. apply silent_atomic; [|apply result_round_failure].
      apply obeys_atomic, moves_both; [apply keeps_round_failure|intros; apply since_round_failure].
Qed.
End Aggregate.

(** ** On the bridge *)

Definition rely (b b' : Bridge) : Prop := bridge_wf b' /\ later_all (abs b) (abs b').
Definition guarantee (D : gset Z) (b b' : Bridge) : Prop :=
  (bridge_wf b -> bridge_wf b') /\ rtc (publish D) (abs b) (abs b').

#[export] Instance guarantee_preorder D : PreOrder (guarantee D).
Proof.
  split; [by intros b|]. intros b1 b2 b3 [W1 P1] [W2 P2]. split; [auto|by transitivity (abs b2)].
Qed.

Lemma guarantee_rely D b b' : bridge_wf b -> guarantee D b b' -> rely b b'.
Proof. intros Hb [Hw Hp]. split; [auto|by eapply later_publishes]. Qed.

Lemma guarantee_more D D' b b' : D ⊆ D' -> guarantee D b b' -> guarantee D' b b'.
Proof. intros HD [Hw Hp]. split; [done|by eapply publishes_more]. Qed.

Lemma rely_trans b1 b2 b3 : rely b1 b2 -> rely b2 b3 -> rely b1 b3.
Proof. intros [_ H1] [W H2]. split; [done|]. by transitivity (abs b2). Qed.

(** Publishing in one session. *)
Lemma publish_in rid (P : Prop) D s s' (a : Sessions) :
  (P -> rid ∈ D) -> a !! rid = Some s -> rtc (publish_session P) s s' -> rtc (publish D) a (<[rid := s']> a).
Proof.
  intros HD Ha Hs. revert a Ha. induction Hs as [s|s1 s2 s3 [s f HP Hr Hc Hf] _ IH]; intros a Ha.
  - by rewrite insert_id.
  - apply (rtc_l _ _ (<[rid := with_result f s]> a)); [by apply publish_result; auto|].
    rewrite <- (insert_insert_eq a rid s3 (with_result f s)). apply IH. apply lookup_insert_eq.
Qed.

Lemma round_ctx_abs rid b c :
  AsyncBridge.round_ctx rid b = Some c -> abs b !! rid = Some (abs_round (round c)).
Proof. intros (r & Hr & ->)%round_ctx_some. by rewrite abs_get, Hr. Qed.

Lemma rely_session rid b b' c :
  AsyncBridge.round_ctx rid b = Some c -> rely b b' ->
  exists c', AsyncBridge.round_ctx rid b' = Some c' /\ session_rely rid c c'.
Proof.
  intros Hc [Hwf Hl]. destruct (Hl rid _ (round_ctx_abs _ _ _ Hc)) as (s' & Hs' & Hlater).
  rewrite abs_get in Hs'. destruct (dict_get rid (rounds b')) as [r'|] eqn:E; [|done]. injection Hs' as <-.
  exists {| net := bridge_net b'; round := r' |}. split; [apply round_ctx_some; by exists r'|]. split; [|done].
  by apply (bw_round _ Hwf), dict_get_elem.
Qed.

Lemma session_guarantee_bridge rid (P : Prop) D b c c' :
  (P -> rid ∈ D) -> AsyncBridge.round_ctx rid b = Some c -> session_guarantee rid P c c' ->
  guarantee D b (with_ctx rid c' b).
Proof.
  intros HD Hc [Hwf Hp]. split; [intros Hb; by apply with_ctx_wf|]. rewrite abs_with_ctx.
  apply (publish_in rid P D (abs_round (round c))); [done|by apply round_ctx_abs|done].
Qed.

Lemma guards_in_round {A} rid (P : Prop) D (t : task Ctx A) b c :
  (P -> rid ∈ D) -> AsyncBridge.round_ctx rid b = Some c -> guards (session_rely rid) (session_guarantee rid P) t c ->
  guards rely (guarantee D) (AsyncBridge.in_round rid t) b.
Proof.
  intros HD. revert b c. induction t as [r|upd next IH|rest IH]; intros b c Hb; cbn [guards AsyncBridge.in_round]; [done| |].
  - rewrite Hb. intros [Hg Hn]. split; [by apply (session_guarantee_bridge rid P D b c)|].
    apply (IH c _ (upd c)); [apply round_ctx_with|done].
  - intros H b' Hb'. destruct (rely_session _ _ _ _ Hb Hb') as (c' & Hc' & Hr). by apply (IH b' c'), H.
Qed.

(** ** Messages *)

(** The handler of a message, once the message's own effect is stored: it
    publishes only what it has decided to, in the sessions [a] the message
    leaves. *)
Definition may_decide (a : Sessions) (D : gset Z) : Prop :=
  D = ∅ \/ exists rid s, D = {[rid]} /\ a !! rid = Some s /\ decides s.

Definition handles (t : task Bridge unit) (b : Bridge) (a : Sessions) : Prop :=
  exists t1 b1 D, segment t b = segment t1 b1 /\ bridge_wf b1 /\ abs b1 = a /\ may_decide a D /\
    guards rely (guarantee D) t1 b1.

Lemma handles_atomic (m : M Bridge unit) b a :
  bridge_wf (exec m b) -> abs (exec m b) = a -> handles (atomic m) b a.
Proof. intros Hw Ha. exists (Stop (outcome m b)), (exec m b), ∅. do 3 (split; [done|]). by split; [left|]. Qed.

(** A method on a known round whose first action is the message's effect. *)
Lemma handles_on_round rid (t : task Ctx unit) (F : Session -> Session) b :
  bridge_wf b ->
  (forall c, AsyncBridge.round_ctx rid b = Some c -> ctx_wf rid c ->
     exists t1 c1, (forall k, AsyncBridge.round_ctx rid k = Some c ->
         segment (AsyncBridge.in_round rid t) k = segment (AsyncBridge.in_round rid t1) (with_ctx rid c1 k)) /\
       ctx_wf rid c1 /\ abs_round (round c1) = F (abs_round (round c)) /\
       guards (session_rely rid) (session_guarantee rid (decides (abs_round (round c1)))) t1 c1) ->
  handles (AsyncBridge.on_known_round rid t) b (alter F rid (abs b)).
Proof.
  intros Hb Ht. unfold AsyncBridge.on_known_round.
  assert (Hseg : forall f : bool -> task Bridge unit,
    segment (atomic (gets (fun b => dict_mem rid (rounds b))) ≫= f) b = segment (f (dict_mem rid (rounds b))) b).
  { intros f. by apply segment_bind_atomic. }
  unfold handles. rewrite Hseg. unfold dict_mem.
  destruct (dict_get rid (rounds b)) as [r|] eqn:E.
  - assert (Hc : AsyncBridge.round_ctx rid b = Some {| net := bridge_net b; round := r |}).
    { apply round_ctx_some. by exists r. }
    destruct (Ht _ Hc (round_ctx_wf _ _ _ Hb Hc)) as (t1 & c1 & Hs & Hwf & Habs & Hg).
    assert (Ha : alter F rid (abs b) = <[rid := abs_round (round c1)]> (abs b)).
    { rewrite Habs, (alter_known _ _ (abs_round r)); [done|]. by rewrite abs_get, E. }
    exists (AsyncBridge.in_round rid t1), (with_ctx rid c1 b),
      (if decide (decides (abs_round (round c1))) then {[rid]} else ∅).
    split; [by apply Hs|]. split; [by apply with_ctx_wf|]. rewrite Ha. split; [apply abs_with_ctx|]. split.
    + case_decide as Hd; [right|by left]. exists rid, (abs_round (round c1)). by rewrite lookup_insert_eq.
    + eapply (guards_in_round rid _ _ t1 _ c1); [|apply round_ctx_with|exact Hg]. intros Hd.
      rewrite decide_True by done. by apply elem_of_singleton.
  - exists pass, b, ∅. split; [done|]. split; [done|]. split; [|by split; [left|]].
    rewrite alter_id'; [done|]. by rewrite abs_get, E.
Qed.

Lemma segment_in_round_any {A} rid (m : M Ctx A) (f : A -> task Ctx unit) c k :
  AsyncBridge.round_ctx rid k = Some c ->
  segment (AsyncBridge.in_round rid (atomic m ≫= f)) k =
  segment (AsyncBridge.in_round rid (match outcome m c with Ok a => f a | Err e => Stop (Err e) end))
    (with_ctx rid (exec m c) k).
Proof.
  intros Hk. unfold mbind, task_mbind, atomic. cbn [task_bind AsyncBridge.in_round segment]. rewrite Hk.
  by destruct (outcome m c).
Qed.

Section Dispatch.
Context {L : CryptoLib} (CRYPTO_AVAILABLE : bool) (OQS_AVAILABLE : option bool).
Context (reconstruct_secret : list (Z * Z) -> result Z).
Let head_aggregate := AsyncBridge.aggregate CRYPTO_AVAILABLE OQS_AVAILABLE reconstruct_secret HEAD.
Let dispatch_async := AsyncBridge.dispatch_async CRYPTO_AVAILABLE OQS_AVAILABLE reconstruct_secret HEAD.

Lemma abs_mark cid payload c r :
  dict_get cid (clients r) = Some c ->
  abs_round (mark_in_round cid payload c r) = finish cid payload (abs_round r).
Proof.
  intros Hc. unfold mark_in_round, finish. apply (abs_update_known cid c); [done|].
  unfold mark_complete. destruct c. by destruct (4 <=? length payload)%nat.
Qed.

Lemma handles_client_complete h payload b :
  bridge_wf b -> is_bytes payload ->
  handles (AsyncBridge.handle_client_complete head_aggregate h payload) b
    (alter (finish (h_client_id h) payload) (h_round_id h) (abs b)).
Proof.
  intros Hb Hp. apply handles_on_round; [done|]. intros c Hc Hwf. set (cid := h_client_id h).
  destruct (dict_get cid (clients (round c))) as [cl|] eqn:Ecl.
  - exists (AsyncBridge.check_round_completion head_aggregate), {| net := net c; round := mark_in_round cid payload cl (round c) |}.
    split; [|split; [|split; [by apply abs_mark|apply guards_head_check]]].
    + intros k Hk. rewrite (segment_in_round_any _ the_round _ c k Hk). cbn [outcome exec the_round gets fst snd].
      rewrite Ecl. assert (AsyncBridge.round_ctx (h_round_id h) (with_ctx (h_round_id h) c k) = Some c) as Hk'
        by apply round_ctx_with.
      rewrite (segment_in_round_any _ _ _ c _ Hk'). unfold outcome, exec.
      rewrite (mark_run cid payload cl c Ecl). cbn [fst snd]. unfold with_ctx. cbn. by rewrite dict_set_set.
    + apply (mark_same_round _ cid payload cl (round c) Hp Ecl Hwf).
    + apply (mark_same_round _ cid payload cl (round c) Hp Ecl Hwf).
  - exists pass, c. split; [|split; [done|split; [|done]]].
    + intros k Hk. rewrite (segment_in_round_any _ the_round _ c k Hk). cbn [outcome exec the_round gets fst snd].
      by rewrite Ecl.
    + unfold finish. rewrite alter_id'; [by rewrite with_clients_id|]. by rewrite abs_clients_get, Ecl.
Qed.

Lemma handles_dropout_notify h payload b :
  bridge_wf b -> header_wf h ->
  handles (AsyncBridge.handle_dropout_notify head_aggregate reconstruct_secret h payload) b
    (alter (drop_out (h_client_id h)) (h_round_id h) (abs b)).
Proof.
  intros Hb Hh. apply handles_on_round; [done|]. intros c Hc Hwf. set (cid := h_client_id h).
  match goal with |- exists t1 c1, (forall k, _ -> segment (AsyncBridge.in_round _ (atomic ?m ≫= ?f)) k = _) /\ _ =>
    exists (match outcome m c with Ok a => f a | Err e => Stop (Err e) end), (exec m c);
    set (mark := m) end.
  split; [intros k Hk; by apply segment_in_round_any|].
  set (c1 := if bool_decide (cid ∈ dropout_clients (round c)) then c
             else {| net := net c; round := set_dropouts (dropout_clients (round c) ++ [cid]) (round c) |}).
  assert (Hexec : exec mark c = exec (trigger_recovery reconstruct_secret) c1).
  { unfold mark, c1. rewrite exec_bind. cbn [the_round gets]. rewrite exec_bind. fold cid. by case_bool_decide. }
  assert (Hwf1 : ctx_wf (h_round_id h) c1).
  { unfold c1. case_bool_decide; [done|]. apply wf_set_dropouts; [done|apply (hw_client _ Hh)|done]. }
  assert (Habs : abs_round (round c1) = drop_out cid (abs_round (round c))).
  { unfold c1, drop_out. case_bool_decide as Hd.
    - unfold with_dropped. cbn. destruct (round c). unfold abs_round. cbn in *. f_equal. set_solver.
    - destruct (round c). unfold abs_round, with_dropped. cbn. f_equal. set_solver. }
  assert (Hwf2 : ctx_wf (h_round_id h) (exec mark c)) by (rewrite Hexec; by apply keeps_recovery).
  split; [done|]. split.
  - rewrite <- Habs, Hexec. apply (silent_abs (h_round_id h)). split.
    + apply (since_recovery (h_round_id h) c1 reconstruct_secret c1). by split; [apply (rw_id _ _ Hwf1)|].
    + by apply (result_recovery reconstruct_secret (unmasked_chunks (round c1))).
  - destruct (outcome mark c); [by apply guards_head_check|done].
Qed.

(** Every message of HEAD's dispatcher. *)
Lemma handles_dispatch h payload w b :
  bridge_wf b -> header_wf h -> is_bytes payload ->
  handles (dispatch_async h payload w) b (receive h payload (abs b)).
Proof.
  intros Hb Hh Hp. unfold dispatch_async, AsyncBridge.dispatch_async, AsyncBridge.dispatch, receive.
  destruct (h_message_type h =? MSG_TYPE_CLIENT_COMPLETE) eqn:E1.
  { apply Z.eqb_eq in E1. rewrite E1. by apply handles_client_complete. }
  destruct (h_message_type h =? MSG_TYPE_DROPOUT_NOTIFY) eqn:E2.
  { apply Z.eqb_eq in E2. rewrite E2. by apply handles_dropout_notify. }
  apply handles_atomic; [by apply (dispatch_keeps_wf CRYPTO_AVAILABLE OQS_AVAILABLE reconstruct_secret HEAD)|].
  unfold Variants.dispatch, dispatch_head, dispatch_common. rewrite E1, E2.
  case_match; [apply abs_public_key|]. case_match; [apply abs_mask_chunk|].
  case_match; [apply abs_round_init|]. repeat case_match; try done. apply abs_shamir_share.
Qed.
End Dispatch.

(** ** Hosts *)

Section Host.
Context {L : CryptoLib} (CRYPTO_AVAILABLE : bool) (OQS_AVAILABLE : option bool).
Context (reconstruct_secret : list (Z * Z) -> result Z).
Let dispatch_async := AsyncBridge.dispatch_async CRYPTO_AVAILABLE OQS_AVAILABLE reconstruct_secret HEAD.

(** What an event means in the protocol. *)
Definition meaning (e : event) (a : Sessions) : Sessions :=
  match e with Deliver _ h payload => receive h payload a | _ => a end.

(** What the handlers that wait will do: publish what was decided. *)
Record implements (D : gset Z) (s : Host) : Prop := {
  im_wf : bridge_wf (host_bridge s);
  im_conns : forall w t, host_conns s !! w = Some t ->
    forall b, rely (host_bridge s) b -> guards rely (guarantee D) t b;
}.

Lemma rely_refl b : bridge_wf b -> rely b b.
Proof. by split. Qed.

(** The connections that do not move. *)
Lemma conns_rely D s b' :
  implements D s -> rely (host_bridge s) b' ->
  forall w t, host_conns s !! w = Some t -> forall b, rely b' b -> guards rely (guarantee D) t b.
Proof. intros Hs Hb w t Ht b Hr. apply (im_conns _ _ Hs w t Ht). by eapply rely_trans. Qed.

Lemma guards_more {A} D D' (t : task Bridge A) b :
  D ⊆ D' -> guards rely (guarantee D) t b -> guards rely (guarantee D') t b.
Proof.
  intros HD. revert b. induction t as [r|upd next IH|rest IH]; intros b; cbn [guards]; [done| |].
  - intros [Hg Hn]. split; [by eapply guarantee_more|by apply IH].
  - eauto.
Qed.

Lemma implements_more D D' s : D ⊆ D' -> implements D s -> implements D' s.
Proof. intros HD [Hw Hc]. split; [done|]. intros w t Ht b Hb. by eapply guards_more, Hc. Qed.

(** The connection that moves: its coroutine, from where it stands. *)
Lemma advance_implements D w t s t1 b1 :
  implements D s -> segment t (host_bridge s) = segment t1 b1 -> bridge_wf b1 ->
  rely (host_bridge s) b1 -> guards rely (guarantee D) t1 b1 ->
  implements D (advance w t s) /\ rtc (publish D) (abs b1) (abs (host_bridge (advance w t s))).
Proof.
  intros Hs Hseg Hwf1 Hr1 Hg. unfold advance. rewrite Hseg.
  pose proof (guards_segment rely (guarantee D) t1 b1 Hg) as [Hg1 Hg2].
  destruct (segment t1 b1) as [t' b']. cbn [fst snd host_bridge host_conns] in *.
  pose proof (guarantee_rely _ _ _ Hwf1 Hg1) as Hr2. split; [|apply Hg1].
  split; cbn [host_bridge host_conns]; [apply Hr2|]. intros w' u. rewrite lookup_insert. case_decide.
  - by intros [= <-].
  - intros Hu. apply (conns_rely D s b' Hs (rely_trans _ _ _ Hr1 Hr2) w'). done.
Qed.

(** What one event does: its meaning, a decision, and publications. *)
Definition simulated (e : event) (D : gset Z) (s s' : Host) : Prop :=
  exists D', implements (D' ∪ D) s' /\ may_decide (meaning e (abs (host_bridge s))) D' /\
    rtc (publish (D' ∪ D)) (meaning e (abs (host_bridge s))) (abs (host_bridge s')).

Lemma simulated_same e D s s' :
  implements D s' -> rtc (publish D) (meaning e (abs (host_bridge s))) (abs (host_bridge s')) ->
  simulated e D s s'.
Proof.
  intros Hi Hp. exists ∅. rewrite (left_id_L ∅ (∪)). split; [done|]. split; [by left|done].
Qed.

Lemma fire_simulated e D s s' :
  implements D s -> event_wf e -> fire dispatch_async e s = Some s' -> simulated e D s s'.
Proof.
  intros Hs He. destruct e as [w|w h p|w|w|cl lo k]; cbn [fire].
  - destruct (host_conns s !! w) eqn:E; [done|]. intros [= <-]. apply simulated_same; [|done]. split; [apply Hs|].
    intros w' u. cbn [host_conns host_bridge]. rewrite lookup_insert. case_decide; [by intros [= <-]|apply Hs].
  - destruct He as [Hh Hp]. repeat (case_match; try done). intros [= <-].
    destruct (handles_dispatch CRYPTO_AVAILABLE OQS_AVAILABLE reconstruct_secret h p w (host_bridge s) (im_wf _ _ Hs) Hh Hp)
      as (t1 & b1 & D' & Hseg & Hwf1 & Habs & Hd & Hg).
    destruct (advance_implements (D' ∪ D) w (dispatch_async h p w) s t1 b1) as [Hi Hpub]; [| |done| | |].
    + eapply implements_more; [|exact Hs]. set_solver.
    + done.
    + split; [done|]. rewrite Habs. apply later_receive.
    + eapply guards_more; [|exact Hg]. set_solver.
    + exists D'. split; [done|]. cbn [meaning]. rewrite <- Habs. split; [by rewrite Habs|done].
  - destruct (host_conns s !! w) as [t|] eqn:E; [|done]. case_match; [done|]. intros [= <-].
    destruct (advance_implements D w t s t (host_bridge s)) as [Hi Hp]; [done|done|apply Hs|apply rely_refl, Hs| |].
    { apply (im_conns _ _ Hs w t E), rely_refl, Hs. }
    by apply simulated_same.
  - repeat (case_match; try done). intros [= <-].
    assert (Hr : rely (host_bridge s) (close_writer w (host_bridge s))).
    { split; [|done]. by destruct (im_wf _ _ Hs). }
    apply simulated_same; [|done].
    split; cbn [host_bridge host_conns]; [apply Hr|]. intros w' u. rewrite lookup_delete. case_decide; [done|].
    intros Hu. by apply (conns_rely D s _ Hs Hr w').
  - intros [= <-].
    assert (Hr : rely (host_bridge s) (set_transport cl lo k (host_bridge s))).
    { split; [|done]. by destruct (im_wf _ _ Hs). }
    apply simulated_same; [|done].
    split; cbn [host_bridge host_conns]; [apply Hr|]. intros w' u Hu. by apply (conns_rely D s _ Hs Hr w').
Qed.

(** The protocol's own steps after an event. *)
Lemma simulated_internal e D s s' :
  simulated e D s s' ->
  exists D', implements D' s' /\
    rtc internal {| sessions := meaning e (abs (host_bridge s)); decided := D |}
                 {| sessions := abs (host_bridge s'); decided := D' |}.
Proof.
  intros (D' & Hi & Hd & Hp). exists (D' ∪ D). split; [done|].
  destruct Hd as [-> |(rid & u & -> & Hu & Hdec)].
  - rewrite (left_id_L ∅ (∪)) in *. by apply internal_publishes.
  - eapply rtc_l; [by eapply decide_session|]. by apply internal_publishes.
Qed.

Lemma new_host_implements : implements ∅ new_host.
Proof. split; [apply (bg_wf _ (hw_bridge _ new_host_wf))|by intros w t]. Qed.

Lemma fire_all_simulated es D s s' :
  implements D s -> Forall event_wf es -> fire_all dispatch_async es s = Some s' ->
  exists D', runs meaning es {| sessions := abs (host_bridge s); decided := D |}
                             {| sessions := abs (host_bridge s'); decided := D' |}.
Proof.
  intros Hs Hes. revert D s Hs. induction Hes as [|e es He _ IH]; intros D s Hs; cbn [fire_all].
  - intros [= <-]. exists D. constructor.
  - destruct (fire dispatch_async e s) as [s1|] eqn:E; [|done]. cbn. intros Hall.
    destruct (simulated_internal e D s s1) as (D1 & Hs1 & Hint); [by apply fire_simulated|].
    destruct (IH D1 s1 Hs1 Hall) as (D' & Hruns). exists D'. by eapply runs_cons.
Qed.

(** C1: HEAD's bridge implements the abstract protocol under any schedule.
    Whatever happens to a new host - connections opening, closing and failing,
    messages delivered while other handlers wait, handlers resumed in any
    order, exceptions - the protocol has a run over the same events to the
    same sessions.  In that run an event changes the sessions exactly as
    [receive] says its message does, and between two events a session may only
    be decided, when as many clients are done as have not dropped out and they
    are at least its threshold, or, once decided, publish a result: one row
    per chunk, every element the weighted sum of what the clients that count
    contributed over the sum of their weights in GF(3329) (zero where that is
    a multiple of 3329).  The divisor is the sum of the weights in every
    session whose done clients have not dropped out and all have samples or all
    have none; in the others it is the number of samples of the done clients. *)
Theorem host_refines_protocol es s :
  Forall event_wf es -> fire_all dispatch_async es new_host = Some s ->
  exists a, runs meaning es new_protocol a /\ sessions a = abs (host_bridge s).
Proof.
  intros Hes Hf. destruct (fire_all_simulated es ∅ new_host s new_host_implements Hes Hf) as (D & Hr).
  by exists {| sessions := abs (host_bridge s); decided := D |}.
Qed.
End Host.

(** ** A concrete round *)

(** Two clients complete while a third registers: the session's mean. *)
Definition racing_session : Session := default
  {| se_expected := 0; se_threshold := 0; se_chunk := 0; se_model := 0; se_clients := ∅; se_dropped := ∅; se_result := ∅ |}
  (abs (host_bridge (host_after racing)) !! 1).

Lemma host_refines_protocol_witness :
  exists a, runs meaning racing new_protocol a /\ sessions a !! 1 = Some racing_session /\
    se_result racing_session = {[ 0 := [2221; 5]; 1 := [1; 7] ]} /\
    done_count racing_session = 2 /\ size (se_clients racing_session) = 3%nat.
Proof.
  destruct (host_refines_protocol true (Some true) Shamir.Head.reconstruct_secret racing (host_after racing))
    as (a & Hr & Ha).
  - apply event_wfb_ok. vm_compute. reflexivity.
  - apply fires_ok. vm_compute. reflexivity.
  - exists a. split; [exact Hr|]. split; [|split; [|split]; vm_compute; reflexivity].
    rewrite Ha. unfold racing_session.
    assert (is_Some (abs (host_bridge (host_after racing)) !! 1)) as [x Hx].
    { rewrite abs_get. apply fmap_is_Some.
      assert (bool_decide (is_Some (dict_get 1 (rounds (host_bridge (host_after racing))))) = true) as H
        by (vm_compute; reflexivity).
      by apply bool_decide_eq_true in H. }
    by rewrite Hx.
Defined.
